(* ===== verification/_CoqProject ===== *)
-Q . S2P
Prelude.v
Errors.v
Mem.v
BTree.v
X86.v
Process.v
Scheduler.v
SchedulerProps.v
Timer.v
Channels.v
Handles.v
Syscall.v
SyscallProps.v
Lifecycle.v
Reach.v
Allocator.v
Memory.v
HeapInit.v
Console.v
Interrupts.v
Keyboard.v
Executor.v
KeyTask.v
UserMode.v
Cpu.v
Scalable.v
Testing.v
BootCheck.v
Tables.v
Serial.v
Boot.v
