(* ===== verification/Prelude.v ===== *)
(** * Ruix: a verification development of the Ruix microkernel

    Ruix is a small x86-64 microkernel in Rust (src/src/): processes with a
    scheduler, a timer with per-process timeouts, system calls, message
    channels and shared-memory handles, a heap, page tables, a text console
    and a keyboard queue.  This library models the kernel's own code and
    proves what it does.

    ** How the parts interact

    At boot the kernel sets up descriptor tables and system-call registers
    (gdt.rs, interrupts.rs, syscall.rs), maps a heap with frames of the
    bootloader's memory map (memory.rs, allocator.rs), runs its test suites
    (testing.rs, testing/boot_check.rs), loads two programs, creates two
    processes (main.rs) and programs the timer.  A timer interrupt saves the
    registers, asks the scheduler for the next context and advances the
    timeouts (interrupts.rs, process/scheduler.rs, timer.rs).  A [syscall]
    instruction enters [asm_syscall_handler], which calls
    [rust_syscall_handler]; that parses and validates the arguments and calls
    the scheduler, the channels or the handles (syscall.rs, ipc.rs).

    ** Which file models what

    - Prelude: results, panics, machine integers, tables kept as vectors,
      UTF-8, loops; the tactics and hints of the library.
    - Errors: error.rs.  The error enumerations, their texts and conversions.
    - Mem: byte-addressed memory, little-endian words, pointer checks.
    - BTree: [BTreeMap] as a sorted association list.
    - X86: what the kernel uses of the [x86_64] crate, as classes with laws
      and an instance of the documented behaviour.
    - Process: process/mod.rs.  Control blocks, contexts, [Process::new],
      [fork], limits, asynchronous tasks.
    - Scheduler, SchedulerProps: process/scheduler.rs, with CPU_DATA and CR3.
      The process table, dispatch, exit, reaping, the zombie sweep.
    - Timer: timer.rs.  Ticks, timeouts, kills, the interval timer's divisor.
    - Channels, Handles: ipc.rs.  Messages and queues; page ranges, rights,
      transfer, acceptance, revocation.
    - Syscall, SyscallProps, Lifecycle: syscall.rs and [init_tasks] of
      main.rs.  Validation, every arm of the handler, the handler and its
      assembly entry; fork, exit, wait4 and write end to end.
    - Reach: the states reachable from boot through all of these and the timer.
    - Allocator: allocator/fixed_size_block.rs.  The heap, with its free lists
      threaded through memory.
    - Memory, HeapInit: memory.rs and allocator.rs.  Boot frames, the
      page-table walk, user pages; the mapping of the heap area.
    - Console: vga_buffer.rs.  Screen, scrolling, the serial copy.
    - Interrupts, UserMode: interrupts.rs and gdt.rs.  The assembly of the
      timer and int 0x80 handlers; the jump to user mode.
    - Keyboard: the scancode queue and stream of process/mod.rs, with
      interrupts between any two accesses of a poll.
    - Executor: task/mod.rs and task/executor.rs.  Tasks, wakers, the ready
      loop, and the idle loop as a step relation with interrupts.
    - KeyTask: the asynchronous keyboard loop of process/mod.rs and
      task/keyboard.rs, alone and under the executor.
    - Cpu, Scalable: cpu.rs and memory/scalable.rs.  The CPU table; the memory
      manager, per-CPU allocators, the page-table operations of IPC.
    - Testing, BootCheck: testing.rs and testing/boot_check.rs.  Test cases,
      suites, verdicts; the checks of the boot.  Test functions are parameters.
    - Tables: descriptor table, TSS, interrupt table and exception handlers,
      [syscall::init] (gdt.rs, interrupts.rs, syscall.rs).
    - Serial: serial.rs.
    - Boot: [kernel_main] of main.rs and [init] of lib.rs over all of these.

    A struct is a [Record], an enum an [Inductive], a method
    [Type::method] the definition [Type_method], and a handler the whole of
    its code including early returns.  Statics behind locks are explicit
    state: [Kernel] (Syscall) collects those the system calls use.

    ** What the theorems show

    - Invariants over every reachable state: the kernel state (process table
      and both IPC registries) from boot on, control blocks with the widths of
      their fields, the CPU table; the heap and its free lists under any
      history; the executor's tables.  Fork takes PIDs the boot processes
      already have, so the invariant promises agreement of the process tree
      with the parent links only for PIDs the counter has not handed out.
    - Safety: system calls write user memory only, the ways they panic (with a
      heap that may be exhausted), who may send, receive, transfer and revoke,
      heap blocks never overlap, user mode is entered at privilege level 3 only.
    - Functional behaviour and round trips: send and receive through the
      system calls, exit and wait4, transfer and acceptance, free and
      reallocate, map and translate, context save and restore.
    - Refinement and equivalence: channels against a pair of FIFO queues, the
      screen against a terminal with unlimited scroll-back, the keyboard task
      against a decoder run over the scancodes, a test suite against its tests
      run one after the other.
    - Termination and liveness: the executor's ready loop ends, neither it nor
      the keyboard loses a wake-up, a timeout strikes exactly at its limit,
      the front process is never preempted.
    - Composition: the boot sequence halts or leaves two ready processes, an
      armed timer and pairwise distinct frames; keys typed while the executor
      sleeps are printed.
    - Where the code does not do what it means to do, the theorem states what
      it does: every system call fails on the checks of its stack pointer,
      fork creates no process, fork of a process that has not run overwrites
      its registers, int 0x80 does not return to its caller and is out of reach
      for user code.

    ** Conventions and bounds

    Integers are [Z] with the width written out: [add_u64] and the like panic
    on overflow as in the dev profile, [wrapping_*] and atomics wrap.  A panic
    ends the run ([Panic]): the kernel's panic handler halts.  Dereferencing
    checks null and alignment.  Loops over tables and pages recurse on the
    list or on the number of pages; the index loop of
    [cleanup_process_handles] runs on fuel one above the length of the table,
    which [cleanup_handles_spec] proves to be enough.  The executor's ready
    loop runs on fuel: the length of its queue plus the wake-ups its futures
    have left, plus one, is enough ([run_ready_tasks_terminates]); a poll of
    the keyboard task needs one above the length of the scancode queue
    ([keyboard_task_decodes]), which holds at most 100.  One flat memory stands
    for all address spaces, since every process table copies the boot table.
    Code outside the repository is a parameter with its documented laws, and
    each class of laws has an instance: [X86Addr], [X86Flags], [X86Paging],
    [X86Page], [FrameAllocator], [Mapper] (X86, Memory), [FallbackHeap]
    (Allocator), [ArrayQueue] and [AtomicWaker] (Keyboard), [PcKeyboard]
    (KeyTask), [GdtTable] and [StarRegister] (Tables).

    ** What is not modelled

    Console output of other parts (only the bytes [sys_write] prints and the
    console itself), contention on spin locks, the sizes of the requests the
    kernel's own collections make of the heap (the arms of the system calls let
    them grow; [syscall_on_heap] adds that a request may fail), the registers of the serial port and the
    interrupt controllers (third-party crates), the contents of the test
    suites under tests/ (a parameter of the boot checks), and functions that
    only print ([print_summary], [print_memory_stats], [print_something]).
    The boot theorem says which frames are used and not what memory holds in
    the end: the documented behaviour of the mapper does not say which bytes
    outside the walked entries stay as they were.

    ** Plan

    Next come a law on the memory the mapper may touch, and with it the
    contents of the user pages at the end of the boot, the recovery strategies
    at their call sites, and interrupts within a poll of the executor. *)

From stdpp Require Import base list numbers gmap strings.

(* ------------------------------------------------------------------ *)
(** ** Rust results and panics *)

(** Rust's [Result<T, E>]; the error type comes first so that [result E]
    is a monad. *)
Inductive result (E T : Type) : Type :=
| Ok (v : T)
| Err (e : E).
Arguments Ok {E T} v.
Arguments Err {E T} e.

(** A computation that may panic.  The kernel is built with
    [panic = "abort"] and its panic handler halts the machine, so [Panic]
    ends the run: no state is kept beyond it. *)
Inductive outcome (A : Type) : Type :=
| Ret (a : A)
| Panic.
Arguments Ret {A} a.
Arguments Panic {A}.

#[export] Instance result_eq_dec `{EqDecision E, EqDecision T} : EqDecision (result E T).
Proof. solve_decision. Defined.
#[export] Instance outcome_eq_dec `{EqDecision A} : EqDecision (outcome A).
Proof. solve_decision. Defined.

#[export] Instance outcome_ret : MRet outcome := fun A a => Ret a.
#[export] Instance outcome_bind : MBind outcome := fun A B f m =>
  match m with Ret a => f a | Panic => Panic end.
#[export] Instance outcome_fmap : FMap outcome := fun A B f m =>
  match m with Ret a => Ret (f a) | Panic => Panic end.

Definition is_ok {E T} (r : result E T) : bool :=
  match r with Ok _ => true | Err _ => false end.

#[export] Instance result_bind {E} : MBind (result E) := fun A B f m =>
  match m with Ok a => f a | Err e => Err e end.

Declare Scope ruix_scope.
Delimit Scope ruix_scope with ruix.

(** [let! x := m in k]: sequencing of computations that may panic. *)
Notation "'let!' x := m 'in' k" := (mbind (M := outcome) (fun x => k) m)
  (at level 10, x binder, m at level 100, k at level 200) : ruix_scope.

(* ------------------------------------------------------------------ *)
(** ** Machine integers *)

Local Open Scope Z_scope.

Definition is_u64 (z : Z) : Prop := 0 <= z < 2 ^ 64.
Definition is_u32 (z : Z) : Prop := 0 <= z < 2 ^ 32.
Definition is_u8 (z : Z) : Prop := 0 <= z < 2 ^ 8.
Definition U64_MAX : Z := 2 ^ 64 - 1.

(** [a + b] and [a - b] on [u64]/[usize] with the overflow checks of the
    default (dev) profile: overflow panics. *)
Definition add_u64 (a b : Z) : outcome Z := if a + b <? 2 ^ 64 then Ret (a + b) else Panic.
Definition sub_u64 (a b : Z) : outcome Z := if b <=? a then Ret (a - b) else Panic.
Definition mul_u64 (a b : Z) : outcome Z := if a * b <? 2 ^ 64 then Ret (a * b) else Panic.
Definition add_u32 (a b : Z) : outcome Z := if a + b <? 2 ^ 32 then Ret (a + b) else Panic.

Definition checked_add_u64 (a b : Z) : option Z :=
  if a + b <? 2 ^ 64 then Some (a + b) else None.
Definition saturating_sub (a b : Z) : Z := Z.max 0 (a - b).
(** Atomics and [wrapping_*] wrap around whatever the profile. *)
Definition wrapping_add_u64 (a b : Z) : Z := (a + b) mod 2 ^ 64.
Definition wrapping_sub_u64 (a b : Z) : Z := (a - b) mod 2 ^ 64.

(** The [as] casts: truncation, and two's complement for the signed types. *)
Definition as_u64 (z : Z) : Z := z mod 2 ^ 64.
Definition as_u32 (z : Z) : Z := z mod 2 ^ 32.
Definition as_u8 (z : Z) : Z := z mod 2 ^ 8.
Definition as_i32 (z : Z) : Z :=
  let w := z mod 2 ^ 32 in if w <? 2 ^ 31 then w else w - 2 ^ 32.
Definition as_i64 (z : Z) : Z :=
  let w := z mod 2 ^ 64 in if w <? 2 ^ 63 then w else w - 2 ^ 64.

(** [-1i64 as u64], the error value of the system calls. *)
Definition MINUS_ONE : Z := as_u64 (-1).

Lemma add_u64_ret a b : a + b < 2 ^ 64 -> add_u64 a b = Ret (a + b).
Proof. intros H. unfold add_u64. by rewrite (proj2 (Z.ltb_lt _ _) H). Qed.

Lemma add_u64_inv a b c : add_u64 a b = Ret c -> c = a + b /\ a + b < 2 ^ 64.
Proof. unfold add_u64. destruct (Z.ltb_spec (a + b) (2 ^ 64)); naive_solver. Qed.

Lemma sub_u64_ret a b : b <= a -> sub_u64 a b = Ret (a - b).
Proof. intros H. unfold sub_u64. by rewrite (proj2 (Z.leb_le _ _) H). Qed.

Lemma as_u64_id z : is_u64 z -> as_u64 z = z.
Proof. intros H. by apply Z.mod_small. Qed.

Lemma as_i64_u64 z : is_u64 z -> as_u64 (as_i64 z) = z.
Proof.
  intros H. unfold as_u64, as_i64. rewrite (Z.mod_small z) by done.
  destruct (Z.ltb_spec z (2 ^ 63)); [by apply Z.mod_small|].
  rewrite <- (Z.mod_add (z - 2 ^ 64) 1) by lia.
  replace (z - 2 ^ 64 + 1 * 2 ^ 64) with z by lia. by apply Z.mod_small.
Qed.

Lemma MINUS_ONE_eq : MINUS_ONE = 2 ^ 64 - 1.
Proof. reflexivity. Qed.

(* ------------------------------------------------------------------ *)
(** ** Proof automation *)

Create HintDb ruix.

(** Turn the boolean tests of the code into propositions. *)
Ltac bool_to_prop :=
  repeat match goal with
  | H : (_ && _) = true |- _ => apply andb_true_iff in H; destruct H
  | H : (_ || _) = false |- _ => apply orb_false_iff in H; destruct H
  | H : (_ && _) = false |- _ => apply andb_false_iff in H
  | H : (_ || _) = true |- _ => apply orb_true_iff in H
  | H : negb _ = true |- _ => apply negb_true_iff in H
  | H : negb _ = false |- _ => apply negb_false_iff in H
  | H : (_ =? _)%Z = true |- _ => apply Z.eqb_eq in H
  | H : (_ =? _)%Z = false |- _ => apply Z.eqb_neq in H
  | H : (_ <? _)%Z = true |- _ => apply Z.ltb_lt in H
  | H : (_ <? _)%Z = false |- _ => apply Z.ltb_ge in H
  | H : (_ <=? _)%Z = true |- _ => apply Z.leb_le in H
  | H : (_ <=? _)%Z = false |- _ => apply Z.leb_gt in H
  | H : bool_decide _ = true |- _ => apply bool_decide_eq_true in H
  | H : bool_decide _ = false |- _ => apply bool_decide_eq_false in H
  end.

(** Case on every test and every match that blocks the goal. *)
Ltac step_cases :=
  repeat (case_match; simplify_eq/=; bool_to_prop).

Ltac crush := step_cases; try done; try lia; try naive_solver.

Lemma outcome_bind_ret {A B} (m : outcome A) (f : A -> outcome B) b :
  mbind f m = Ret b -> exists a, m = Ret a /\ f a = Ret b.
Proof. destruct m; naive_solver. Qed.

Lemma bind_ret {A B} (f : A -> outcome B) a : mbind f (Ret a) = f a.
Proof. done. Qed.

(** Peel the [let!]s of a computation that is known to return. *)
Ltac inv_ret :=
  repeat match goal with
  | H : mbind _ _ = Ret _ |- _ =>
      apply outcome_bind_ret in H; destruct H as (? & ? & H); cbv beta in H
  | H : add_u64 _ _ = Ret _ |- _ => apply add_u64_inv in H; destruct H; subst
  | H : Ret _ = Ret _ |- _ => injection H as H; subst
  | H : Panic = Ret _ |- _ => discriminate H
  end.

(* ------------------------------------------------------------------ *)
(** ** Vectors searched by a predicate

    The kernel keeps its tables as [Vec]/[VecDeque] of structs and scans
    them: [iter().find], [for x in &mut v { if .. { ..; break } }],
    [position] followed by [remove], [retain]. *)

Section Scan.
Context {A : Type}.
Implicit Types (p q : A -> bool) (f : A -> A) (l : list A).

(** [for x in &mut v { if p(x) { f(x); break } }] and
    [if let Some(x) = v.iter_mut().find(p) { f(x) }]. *)
Fixpoint update_first p f l : list A :=
  match l with
  | [] => []
  | x :: l' => if p x then f x :: l' else x :: update_first p f l'
  end.

(** [if let Some(pos) = v.iter().position(p) { v.remove(pos) }] *)
Fixpoint remove_first p l : list A :=
  match l with
  | [] => []
  | x :: l' => if p x then l' else x :: remove_first p l'
  end.

(** [v.iter().position(p)] *)
Fixpoint position p l : option nat :=
  match l with
  | [] => None
  | x :: l' => if p x then Some O else S <$> position p l'
  end.

Lemma length_update_first p f l : length (update_first p f l) = length l.
Proof. induction l as [|x l IH]; simpl; [done|]. destruct (p x); simpl; congruence. Qed.

Lemma fmap_update_first {B} (g : A -> B) p f l :
  (forall x, g (f x) = g x) -> g <$> update_first p f l = g <$> l.
Proof.
  intros Hg. induction l as [|x l IH]; simpl; [done|].
  destruct (p x); csimpl; [by rewrite Hg | by rewrite IH].
Qed.

Lemma Forall_update_first (P : A -> Prop) p f l :
  (forall x, p x = true -> P x -> P (f x)) -> Forall P l -> Forall P (update_first p f l).
Proof.
  intros Hf. induction 1 as [|x l Hx Hl IH]; simpl; [by constructor|].
  destruct (p x) eqn:E; constructor; auto.
Qed.

Lemma update_first_none p f l : List.find p l = None -> update_first p f l = l.
Proof.
  induction l as [|x l IH]; simpl; [done|]. destruct (p x); [done|].
  intros H. by rewrite IH.
Qed.

Lemma update_first_split p f l x :
  List.find p l = Some x ->
  exists l1 l2, l = l1 ++ x :: l2 /\ update_first p f l = l1 ++ f x :: l2 /\
                Forall (fun y => p y = false) l1 /\ p x = true.
Proof.
  induction l as [|y l IH]; simpl; [done|]. destruct (p y) eqn:E.
  - intros [= ->]. exists [], l. naive_solver.
  - intros (l1 & l2 & -> & -> & H1 & H2)%IH. exists (y :: l1), l2.
    repeat split; auto.
Qed.

Lemma find_elem p l x : List.find p l = Some x -> x ∈ l /\ p x = true.
Proof. intros [H1 H2]%find_some. by rewrite list_elem_of_In. Qed.

Lemma find_is_none p l : List.find p l = None <-> Forall (fun x => p x = false) l.
Proof.
  rewrite List.Forall_forall. split.
  - intros H x Hx. by apply (find_none p l H).
  - intros H. destruct (List.find p l) eqn:E; [|done].
    apply find_some in E as [HIn Hp]. rewrite H in Hp; done.
Qed.

Lemma find_split p l1 x l2 :
  Forall (fun y => p y = false) l1 -> p x = true -> List.find p (l1 ++ x :: l2) = Some x.
Proof. intros H Hx. induction H as [|y l1 Hy _ IH]; simpl; [by rewrite Hx|]. by rewrite Hy. Qed.

Lemma remove_first_sublist p l : remove_first p l `sublist_of` l.
Proof.
  induction l as [|x l IH]; simpl; [done|]. destruct (p x).
  - by apply sublist_cons.
  - by apply sublist_skip.
Qed.

Lemma remove_first_none p l : List.find p l = None -> remove_first p l = l.
Proof.
  induction l as [|x l IH]; simpl; [done|]. destruct (p x); [done|].
  intros H. by rewrite IH.
Qed.

Lemma length_remove_first p l x :
  List.find p l = Some x -> length l = S (length (remove_first p l)).
Proof.
  induction l as [|y l IH]; simpl; [done|]. destruct (p y); simpl; [done|].
  intros H. by rewrite IH.
Qed.

Lemma position_find p l : is_Some (position p l) <-> is_Some (List.find p l).
Proof.
  induction l as [|x l IH]; simpl; [done|]. destruct (p x); [by split; eauto|].
  rewrite <- IH. by rewrite fmap_is_Some.
Qed.

Lemma position_lookup p l i :
  position p l = Some i ->
  exists x, List.find p l = Some x /\ l !! i = Some x /\ delete i l = remove_first p l.
Proof.
  revert i. induction l as [|y l IH]; simpl; [done|]. destruct (p y).
  - intros i [= <-]. by exists y.
  - intros i (j & Hj & ->)%fmap_Some. destruct (IH j Hj) as (x & -> & Hx & Hd).
    exists x. simpl. by rewrite Hd.
Qed.

Lemma elem_of_filterb p l x : x ∈ List.filter p l <-> x ∈ l /\ p x = true.
Proof. rewrite !list_elem_of_In. apply filter_In. Qed.

Lemma filterb_all p l : Forall (fun x => p x = true) l -> List.filter p l = l.
Proof. induction 1 as [|x l Hx _ IH]; simpl; [done|]. by rewrite Hx, IH. Qed.

Lemma filterb_sublist p l : List.filter p l `sublist_of` l.
Proof.
  induction l as [|x l IH]; simpl; [done|]. destruct (p x).
  - by apply sublist_skip.
  - by apply sublist_cons.
Qed.

Lemma filterb_filterb p q l :
  List.filter p (List.filter q l) = List.filter (fun x => q x && p x) l.
Proof.
  induction l as [|x l IH]; simpl; [done|].
  destruct (q x); simpl; [destruct (p x)|]; congruence.
Qed.

Lemma filterb_ext p q l :
  Forall (fun x => p x = q x) l -> List.filter p l = List.filter q l.
Proof. induction 1 as [|x l Hx _ IH]; simpl; [done|]. by rewrite Hx, IH. Qed.
End Scan.

(* ------------------------------------------------------------------ *)
(** ** Tables of records with an identifier

    The process table, the timeout table and the two IPC registries are
    vectors of structs with an [id]/[pid] field, looked up by that field.
    [tbl_get] is [iter().find(|x| x.id == k)], [tbl_upd] the mutation
    through [iter_mut().find(|x| x.id == k)]. *)

Section Table.
Context {A : Type} (key : A -> Z).
Implicit Types (l : list A) (k : Z) (f : A -> A).

Definition has_key k (x : A) : bool := key x =? k.
Definition tbl_get k l : option A := List.find (has_key k) l.
Definition tbl_upd k f l : list A := update_first (has_key k) f l.
Definition keys l : list Z := key <$> l.

Lemma elem_of_keys l x : x ∈ l -> key x ∈ keys l.
Proof. intros H. apply list_elem_of_fmap. by exists x. Qed.

Lemma tbl_get_key k l x : tbl_get k l = Some x -> key x = k.
Proof. intros [_ H]%find_elem. by apply Z.eqb_eq. Qed.

Lemma tbl_get_elem k l x : tbl_get k l = Some x -> x ∈ l.
Proof. by intros [H _]%find_elem. Qed.

Lemma tbl_get_none k l : tbl_get k l = None <-> k ∉ keys l.
Proof.
  unfold tbl_get. rewrite find_is_none, Forall_forall.
  unfold has_key, keys. setoid_rewrite Z.eqb_neq.
  rewrite list_elem_of_fmap.
  split; [intros H (x & -> & Hx); by apply (H x) | intros H x Hx E; apply H; eauto].
Qed.

Lemma tbl_get_unique l x :
  NoDup (keys l) -> x ∈ l -> tbl_get (key x) l = Some x.
Proof.
  unfold tbl_get, keys. induction l as [|y l IH]; intros Hn Hx; [set_solver|].
  simpl. apply NoDup_cons in Hn as [Hy Hn]. unfold has_key at 1.
  destruct (Z.eqb_spec (key y) (key x)) as [E|E].
  - apply elem_of_cons in Hx as [->|Hx]; [done|]. rewrite E in Hy.
    destruct Hy. by apply elem_of_keys.
  - apply elem_of_cons in Hx as [->|Hx]; [done|]. by apply IH.
Qed.

(** The mutation keeps the key of the entry it applies to. *)
Definition keeps_key k f : Prop := forall x, key x = k -> key (f x) = k.

Lemma keys_upd k f l : keeps_key k f -> keys (tbl_upd k f l) = keys l.
Proof.
  intros Hf. unfold keys, tbl_upd. induction l as [|x l IH]; simpl; [done|].
  destruct (has_key k x) eqn:E; csimpl; [|by rewrite IH].
  apply Z.eqb_eq in E. by rewrite Hf, E.
Qed.

Lemma tbl_get_upd k f l : keeps_key k f -> tbl_get k (tbl_upd k f l) = f <$> tbl_get k l.
Proof.
  intros Hf. unfold tbl_get, tbl_upd. induction l as [|x l IH]; simpl; [done|].
  destruct (has_key k x) eqn:E; simpl; [|by rewrite E].
  unfold has_key in *. apply Z.eqb_eq in E. by rewrite Hf, Z.eqb_refl.
Qed.

Lemma tbl_get_upd_ne k k' f l :
  keeps_key k f -> k <> k' -> tbl_get k' (tbl_upd k f l) = tbl_get k' l.
Proof.
  intros Hf Hne. unfold tbl_get, tbl_upd. induction l as [|x l IH]; simpl; [done|].
  destruct (has_key k x) eqn:E; simpl; [|by rewrite IH].
  unfold has_key in *. apply Z.eqb_eq in E. rewrite Hf, E by done.
  by rewrite (proj2 (Z.eqb_neq k k') Hne).
Qed.

(** What an entry of the mutated table was before. *)
Lemma elem_of_upd k f l y :
  y ∈ tbl_upd k f l -> y ∈ l \/ exists x, x ∈ l /\ key x = k /\ y = f x.
Proof.
  unfold tbl_upd. induction l as [|x l IH]; simpl; [set_solver|].
  destruct (has_key k x) eqn:E; intros [->|H]%elem_of_cons.
  - right. exists x. apply Z.eqb_eq in E. set_solver.
  - set_solver.
  - set_solver.
  - destruct (IH H) as [|(z & ? & ? & ?)]; [set_solver|]. right. exists z. set_solver.
Qed.

(** With unique keys the mutation touches exactly the entries of key [k]. *)
Lemma tbl_upd_map k f l :
  NoDup (keys l) -> tbl_upd k f l = (fun x => if key x =? k then f x else x) <$> l.
Proof.
  unfold tbl_upd, keys. induction l as [|x l IH]; intros Hn; [done|]. csimpl.
  apply NoDup_cons in Hn as [Hx Hn]. unfold has_key at 1.
  destruct (Z.eqb_spec (key x) k) as [E|E]; [|by rewrite IH].
  f_equal. rewrite <- (list_fmap_id l) at 1. apply list_fmap_ext. intros i y Hy.
  destruct (Z.eqb_spec (key y) k); [|done]. destruct Hx. rewrite E. subst k.
  apply list_elem_of_fmap. exists y. split; [done|]. by eapply list_elem_of_lookup_2.
Qed.

Lemma tbl_upd_none k f l : tbl_get k l = None -> tbl_upd k f l = l.
Proof. apply update_first_none. Qed.

Lemma tbl_get_app_new l x :
  key x ∉ keys l -> tbl_get (key x) (l ++ [x]) = Some x.
Proof.
  intros Hn. apply tbl_get_none in Hn. unfold tbl_get in *.
  induction l as [|y l IH]; simpl in *.
  - unfold has_key. by rewrite Z.eqb_refl.
  - destruct (has_key (key x) y); [done|]. auto.
Qed.

Lemma tbl_get_app_l k l l' :
  is_Some (tbl_get k l) -> tbl_get k (l ++ l') = tbl_get k l.
Proof.
  unfold tbl_get. induction l as [|y l IH]; simpl; [by intros []|].
  by destruct (has_key k y).
Qed.

Lemma tbl_get_app_ne k l x :
  key x <> k -> tbl_get k (l ++ [x]) = tbl_get k l.
Proof.
  intros Hk. unfold tbl_get. induction l as [|y l IH]; simpl.
  - unfold has_key. by rewrite (proj2 (Z.eqb_neq _ _) Hk).
  - by destruct (has_key k y).
Qed.

(** On a table with unique keys, removing the entry found and retaining
    the others are the same. *)
Lemma filter_has_key k l :
  k ∉ keys l -> List.filter (fun x => negb (has_key k x)) l = l.
Proof.
  intros H. apply filterb_all, Forall_forall. intros x Hx.
  unfold has_key. destruct (Z.eqb_spec (key x) k) as [<-|]; [|done].
  destruct H. by apply elem_of_keys.
Qed.

Lemma tbl_get_filter_ne (p : A -> bool) k l :
  (forall x, key x = k -> p x = true) -> tbl_get k (List.filter p l) = tbl_get k l.
Proof.
  intros Hp. unfold tbl_get. induction l as [|x l IH]; simpl; [done|].
  destruct (has_key k x) eqn:E.
  - rewrite Hp by by apply Z.eqb_eq. simpl. by rewrite E.
  - destruct (p x); simpl; [by rewrite E|]. done.
Qed.

Lemma keys_sublist l l' : l `sublist_of` l' -> keys l `sublist_of` keys l'.
Proof. unfold keys. induction 1; csimpl; by constructor. Qed.

Lemma NoDup_keys_sublist l l' : l `sublist_of` l' -> NoDup (keys l') -> NoDup (keys l).
Proof. intros Hs Hn. by eapply sublist_NoDup, keys_sublist. Qed.

Lemma tbl_get_filter_keep (p : A -> bool) k l x :
  NoDup (keys l) -> tbl_get k l = Some x -> p x = true ->
  tbl_get k (List.filter p l) = Some x.
Proof.
  intros Hn Hg Hp. pose proof (tbl_get_key _ _ _ Hg) as <-. apply tbl_get_unique.
  - by eapply NoDup_keys_sublist; [apply filterb_sublist|].
  - apply elem_of_filterb. split; [by eapply tbl_get_elem|done].
Qed.
End Table.

#[export] Hint Resolve filterb_sublist remove_first_sublist : ruix.

(* ------------------------------------------------------------------ *)
(** ** Strings *)

(** [core::str::from_utf8(..).is_ok()] *)
Definition is_cont (b : Z) : bool := (0x80 <=? b) && (b <=? 0xBF).
Definition in_range (lo hi b : Z) : bool := (lo <=? b) && (b <=? hi).

Fixpoint utf8_valid (bs : list Z) : bool :=
  match bs with
  | [] => true
  | b :: r =>
      if b <? 0x80 then utf8_valid r
      else if in_range 0xC2 0xDF b then
        match r with c1 :: r => is_cont c1 && utf8_valid r | _ => false end
      else if in_range 0xE0 0xEF b then
        match r with
        | c1 :: c2 :: r =>
            in_range (if b =? 0xE0 then 0xA0 else 0x80) (if b =? 0xED then 0x9F else 0xBF) c1 &&
            is_cont c2 && utf8_valid r
        | _ => false
        end
      else if in_range 0xF0 0xF4 b then
        match r with
        | c1 :: c2 :: c3 :: r =>
            in_range (if b =? 0xF0 then 0x90 else 0x80) (if b =? 0xF4 then 0x8F else 0xBF) c1 &&
            is_cont c2 && is_cont c3 && utf8_valid r
        | _ => false
        end
      else false
  end.

Lemma utf8_ascii bs : Forall (fun b => 0 <= b < 0x80) bs -> utf8_valid bs = true.
Proof.
  induction 1 as [|b bs Hb _ IH]; [done|]. simpl. by rewrite (proj2 (Z.ltb_lt b 128)) by lia.
Qed.

(* ------------------------------------------------------------------ *)
(** ** Loops over a range that update a state *)

Fixpoint for_each {A} (l : list nat) (body : nat -> A -> outcome A) (a : A) : outcome A :=
  match l with
  | [] => Ret a
  | i :: l => mbind (for_each l body) (body i a)
  end.

Lemma for_each_app {A} l1 l2 (body : nat -> A -> outcome A) a :
  for_each (l1 ++ l2) body a = mbind (for_each l2 body) (for_each l1 body a).
Proof.
  revert a. induction l1 as [|i l1 IH]; intros a; [done|]. simpl.
  destruct (body i a) as [a'|]; [apply IH|done].
Qed.

Lemma for_each_snoc {A} k n (body : nat -> A -> outcome A) a :
  for_each (seq k (S n)) body a = mbind (body (k + n)%nat) (for_each (seq k n) body a).
Proof.
  rewrite seq_S, for_each_app. destruct (for_each (seq k n) body a) as [a'|]; [|done].
  simpl. by destruct (body (k + n)%nat a').
Qed.
