(* ===== verification/Errors.v ===== *)
(** * Errors: the kernel-wide error types (src/src/error.rs)

    The error enumerations, their [Display] texts, the [From] conversions
    behind [kerror!] (as the type class [IntoKernelError]), the two lines
    [log_error] prints and [get_recovery_strategy].  Variant [V] of enum
    [T] is the constructor [T_V]. *)

From stdpp Require Import base sets list strings.
From S2P Require Import Prelude.

Inductive AllocError : Type :=
| AllocError_OutOfMemory
| AllocError_BadAlignment
| AllocError_AlreadyInUse
| AllocError_InvalidAddress
| AllocError_PermissionDenied.

Inductive ProcessError : Type :=
| ProcessError_InvalidPid
| ProcessError_NotFound
| ProcessError_AlreadyExists
| ProcessError_InvalidState
| ProcessError_StackAllocationFailed
| ProcessError_ContextSwitchFailed.

(** [error::SyscallError]; the parser's own error type of the same name in
    syscall.rs is modelled in Syscall.v. *)
Inductive SysError : Type :=
| SysError_InvalidNumber
| SysError_InvalidArgs
| SysError_PermissionDenied
| SysError_ResourceUnavailable
| SysError_NotSupported
| SysError_BufferTooSmall.

Inductive IpcError : Type :=
| IpcError_ChannelNotFound
| IpcError_ChannelExists
| IpcError_MessageTooLarge
| IpcError_NoMessage
| IpcError_InvalidChannelId
| IpcError_ConnectionRefused
| IpcError_InvalidSender
| IpcError_ChannelFull
| IpcError_HandleNotFound
| IpcError_InvalidRange
| IpcError_AccessDenied
| IpcError_TransferFailed
| IpcError_MappingFailed
| IpcError_UnmappingFailed
| IpcError_InvalidAddress
| IpcError_InvalidProcess
| IpcError_CircularTransfer.

Inductive HardwareError : Type :=
| HardwareError_DeviceNotFound
| HardwareError_DeviceBusy
| HardwareError_IoFailed
| HardwareError_InvalidPort
| HardwareError_Timeout.

Inductive GeneralError : Type :=
| GeneralError_InvalidOperation
| GeneralError_NotImplemented
| GeneralError_Internal
| GeneralError_InvalidState.

Inductive KernelError : Type :=
| KernelError_Memory (e : AllocError)
| KernelError_Process (e : ProcessError)
| KernelError_Syscall (e : SysError)
| KernelError_Ipc (e : IpcError)
| KernelError_Hardware (e : HardwareError)
| KernelError_General (e : GeneralError).

#[export] Instance AllocError_eq_dec : EqDecision AllocError.
Proof. solve_decision. Defined.
#[export] Instance ProcessError_eq_dec : EqDecision ProcessError.
Proof. solve_decision. Defined.
#[export] Instance SysError_eq_dec : EqDecision SysError.
Proof. solve_decision. Defined.
#[export] Instance IpcError_eq_dec : EqDecision IpcError.
Proof. solve_decision. Defined.
#[export] Instance HardwareError_eq_dec : EqDecision HardwareError.
Proof. solve_decision. Defined.
#[export] Instance GeneralError_eq_dec : EqDecision GeneralError.
Proof. solve_decision. Defined.
#[export] Instance KernelError_eq_dec : EqDecision KernelError.
Proof. solve_decision. Defined.

(** [KernelResult<T>] *)
Definition KernelResult (T : Type) : Type := result KernelError T.

(* ------------------------------------------------------------------ *)
(** ** [From<_> for KernelError] and [kerror!] *)

Class IntoKernelError (E : Type) := from_error : E -> KernelError.

#[export] Instance from_AllocError : IntoKernelError AllocError := KernelError_Memory.
#[export] Instance from_ProcessError : IntoKernelError ProcessError := KernelError_Process.
#[export] Instance from_SysError : IntoKernelError SysError := KernelError_Syscall.
#[export] Instance from_IpcError : IntoKernelError IpcError := KernelError_Ipc.
#[export] Instance from_HardwareError : IntoKernelError HardwareError := KernelError_Hardware.
#[export] Instance from_GeneralError : IntoKernelError GeneralError := KernelError_General.

Definition kerror {E T : Type} `{IntoKernelError E} (e : E) : KernelResult T :=
  Err (from_error e).

(** [ktry!]: the value, or an early return with the converted error. *)
Definition ktry {E A T : Type} `{IntoKernelError E} (r : result E A) (k : A -> KernelResult T)
    : KernelResult T :=
  match r with Ok val => k val | Err err => kerror err end.

(* ------------------------------------------------------------------ *)
(** ** [Display] *)

Local Open Scope string_scope.

Definition display_AllocError (e : AllocError) : string :=
  match e with
  | AllocError_OutOfMemory => "Out of memory"
  | AllocError_BadAlignment => "Bad memory alignment"
  | AllocError_AlreadyInUse => "Memory region already in use"
  | AllocError_InvalidAddress => "Invalid memory address"
  | AllocError_PermissionDenied => "Permission denied"
  end.

Definition display_ProcessError (e : ProcessError) : string :=
  match e with
  | ProcessError_InvalidPid => "Invalid process ID"
  | ProcessError_NotFound => "Process not found"
  | ProcessError_AlreadyExists => "Process already exists"
  | ProcessError_InvalidState => "Invalid process state"
  | ProcessError_StackAllocationFailed => "Stack allocation failed"
  | ProcessError_ContextSwitchFailed => "Context switch failed"
  end.

Definition display_SysError (e : SysError) : string :=
  match e with
  | SysError_InvalidNumber => "Invalid system call number"
  | SysError_InvalidArgs => "Invalid arguments"
  | SysError_PermissionDenied => "Permission denied"
  | SysError_ResourceUnavailable => "Resource unavailable"
  | SysError_NotSupported => "Operation not supported"
  | SysError_BufferTooSmall => "Buffer too small"
  end.

Definition display_IpcError (e : IpcError) : string :=
  match e with
  | IpcError_ChannelNotFound => "Channel not found"
  | IpcError_ChannelExists => "Channel already exists"
  | IpcError_MessageTooLarge => "Message too large"
  | IpcError_NoMessage => "No message available"
  | IpcError_InvalidChannelId => "Invalid channel ID"
  | IpcError_ConnectionRefused => "Connection refused"
  | IpcError_InvalidSender => "Invalid sender"
  | IpcError_ChannelFull => "Channel full"
  | IpcError_HandleNotFound => "Handle not found"
  | IpcError_InvalidRange => "Invalid memory range"
  | IpcError_AccessDenied => "Access denied"
  | IpcError_TransferFailed => "Transfer failed"
  | IpcError_MappingFailed => "Mapping failed"
  | IpcError_UnmappingFailed => "Unmapping failed"
  | IpcError_InvalidAddress => "Invalid address"
  | IpcError_InvalidProcess => "Invalid process"
  | IpcError_CircularTransfer => "Circular transfer detected"
  end.

Definition display_HardwareError (e : HardwareError) : string :=
  match e with
  | HardwareError_DeviceNotFound => "Device not found"
  | HardwareError_DeviceBusy => "Device busy"
  | HardwareError_IoFailed => "IO operation failed"
  | HardwareError_InvalidPort => "Invalid port"
  | HardwareError_Timeout => "Timeout"
  end.

Definition display_GeneralError (e : GeneralError) : string :=
  match e with
  | GeneralError_InvalidOperation => "Invalid operation"
  | GeneralError_NotImplemented => "Not implemented"
  | GeneralError_Internal => "Internal error"
  | GeneralError_InvalidState => "Invalid state"
  end.

Definition display_KernelError (e : KernelError) : string :=
  match e with
  | KernelError_Memory e => "Memory error: " +:+ display_AllocError e
  | KernelError_Process e => "Process error: " +:+ display_ProcessError e
  | KernelError_Syscall e => "Syscall error: " +:+ display_SysError e
  | KernelError_Ipc e => "IPC error: " +:+ display_IpcError e
  | KernelError_Hardware e => "Hardware error: " +:+ display_HardwareError e
  | KernelError_General e => "General error: " +:+ display_GeneralError e
  end.

(** The two lines [log_error] prints. *)
Definition log_error (err : KernelError) : list string :=
  [ "KERNEL ERROR: " +:+ display_KernelError err;
    match err with
    | KernelError_Memory e => "  Memory subsystem: " +:+ display_AllocError e
    | KernelError_Process e => "  Process subsystem: " +:+ display_ProcessError e
    | KernelError_Syscall e => "  Syscall subsystem: " +:+ display_SysError e
    | KernelError_Ipc e => "  IPC subsystem: " +:+ display_IpcError e
    | KernelError_Hardware e => "  Hardware subsystem: " +:+ display_HardwareError e
    | KernelError_General e => "  General: " +:+ display_GeneralError e
    end ].

(* ------------------------------------------------------------------ *)
(** ** Recovery strategies *)

Inductive RecoveryStrategy : Type :=
| RecoveryStrategy_Retry
| RecoveryStrategy_Skip
| RecoveryStrategy_Abort
| RecoveryStrategy_Reboot
| RecoveryStrategy_Panic.

#[export] Instance RecoveryStrategy_eq_dec : EqDecision RecoveryStrategy.
Proof. solve_decision. Defined.

Definition get_recovery_strategy (err : KernelError) : RecoveryStrategy :=
  match err with
  | KernelError_Memory AllocError_OutOfMemory => RecoveryStrategy_Abort
  | KernelError_Memory _ => RecoveryStrategy_Retry
  | KernelError_Process _ => RecoveryStrategy_Abort
  | KernelError_Syscall _ => RecoveryStrategy_Skip
  | KernelError_Ipc _ => RecoveryStrategy_Retry
  | KernelError_Hardware HardwareError_DeviceNotFound => RecoveryStrategy_Abort
  | KernelError_Hardware _ => RecoveryStrategy_Retry
  | KernelError_General GeneralError_Internal => RecoveryStrategy_Panic
  | KernelError_General _ => RecoveryStrategy_Abort
  end.

(* ------------------------------------------------------------------ *)
(** ** The texts identify the errors *)

(** Every kernel error, enumerated from the enumerations above. *)
Definition all_kernel_errors : list KernelError :=
  (KernelError_Memory <$>
     [AllocError_OutOfMemory; AllocError_BadAlignment; AllocError_AlreadyInUse;
      AllocError_InvalidAddress; AllocError_PermissionDenied]) ++
  (KernelError_Process <$>
     [ProcessError_InvalidPid; ProcessError_NotFound; ProcessError_AlreadyExists;
      ProcessError_InvalidState; ProcessError_StackAllocationFailed;
      ProcessError_ContextSwitchFailed]) ++
  (KernelError_Syscall <$>
     [SysError_InvalidNumber; SysError_InvalidArgs; SysError_PermissionDenied;
      SysError_ResourceUnavailable; SysError_NotSupported; SysError_BufferTooSmall]) ++
  (KernelError_Ipc <$>
     [IpcError_ChannelNotFound; IpcError_ChannelExists; IpcError_MessageTooLarge;
      IpcError_NoMessage; IpcError_InvalidChannelId; IpcError_ConnectionRefused;
      IpcError_InvalidSender; IpcError_ChannelFull; IpcError_HandleNotFound;
      IpcError_InvalidRange; IpcError_AccessDenied; IpcError_TransferFailed;
      IpcError_MappingFailed; IpcError_UnmappingFailed; IpcError_InvalidAddress;
      IpcError_InvalidProcess; IpcError_CircularTransfer]) ++
  (KernelError_Hardware <$>
     [HardwareError_DeviceNotFound; HardwareError_DeviceBusy; HardwareError_IoFailed;
      HardwareError_InvalidPort; HardwareError_Timeout]) ++
  (KernelError_General <$>
     [GeneralError_InvalidOperation; GeneralError_NotImplemented;
      GeneralError_Internal; GeneralError_InvalidState]).

Lemma all_kernel_errors_complete e : e ∈ all_kernel_errors.
Proof.
  unfold all_kernel_errors; destruct e as [e|e|e|e|e|e]; rewrite !elem_of_app.
  all: destruct e; vm_compute; repeat first [by repeat constructor | left; by repeat constructor | right].
Qed.

(** A list on which [f] takes pairwise distinct values makes [f] injective. *)
Lemma NoDup_fmap_inj {A B} (f : A -> B) (l : list A) x y :
  NoDup (f <$> l) -> x ∈ l -> y ∈ l -> f x = f y -> x = y.
Proof.
  induction l as [|z l IH]; [set_solver|]. csimpl. rewrite NoDup_cons, !elem_of_cons.
  intros [Hz Hl] [->|Hx] [->|Hy] E; [done| | |by auto].
  - destruct Hz. rewrite E. apply list_elem_of_fmap. by exists y.
  - destruct Hz. rewrite <- E. apply list_elem_of_fmap. by exists x.
Qed.

Lemma display_KernelError_inj e1 e2 :
  display_KernelError e1 = display_KernelError e2 -> e1 = e2.
Proof.
  apply (NoDup_fmap_inj display_KernelError all_kernel_errors);
    try apply all_kernel_errors_complete.
  apply (bool_decide_unpack _). by vm_compute.
Qed.


(** Log lines are unambiguous: two kernel errors produce the same console
    lines in [log_error] only when they are the same error, although several
    enumerations share texts such as "Permission denied". *)
Theorem log_error_identifies e1 e2 : log_error e1 = log_error e2 <-> e1 = e2.
Proof.
  split; [|by intros ->]. unfold log_error. intros [= H _].
  by apply display_KernelError_inj.
Qed.
