(* ===== verification/Mem.v ===== *)
(** * Mem: byte-addressed memory

    The kernel reads and writes raw memory through pointers: saved contexts
    on stacks, page tables, system-call buffers.  All page tables of the
    kernel share the mappings of the boot table (see Process.v), so one flat
    map from virtual addresses to bytes stands for it.  Words are stored
    little-endian, as on x86-64. *)

From stdpp Require Import base numbers list.
From S2P Require Import Prelude.
Local Open Scope Z_scope.

Definition mem : Type := Z -> Z.

(** Memories are compared pointwise. *)
#[export] Instance mem_equiv : Equiv mem := fun m1 m2 => forall a, m1 a = m2 a.
#[export] Instance mem_equivalence : Equivalence (≡@{mem}).
Proof.
  split; intros m; [done|intros m' H a; by rewrite H|].
  intros m2 m3 H1 H2 a. by rewrite H1, H2.
Qed.

(** Dereferencing a raw pointer ([*p], [&*p], [&mut *p]) panics on a null or
    misaligned pointer: these checks are part of the dev profile. *)
Definition deref (align p : Z) : outcome unit :=
  if (p =? 0) || negb (p mod align =? 0) then Panic else Ret tt.

Lemma deref_inv align p u : deref align p = Ret u -> p <> 0 /\ p mod align = 0.
Proof. unfold deref. destruct (_ || _) eqn:E; [done|]. bool_to_prop. done. Qed.

Lemma deref_ret align p : p <> 0 -> p mod align = 0 -> deref align p = Ret tt.
Proof. intros H1 H2. unfold deref. by rewrite (proj2 (Z.eqb_neq _ _) H1), H2. Qed.

Definition load_bytes (m : mem) (a : Z) (n : nat) : list Z :=
  (fun i => m (a + Z.of_nat i)) <$> seq 0 n.

Definition store_bytes (m : mem) (a : Z) (bs : list Z) : mem :=
  fun x => if (a <=? x) && (x <? a + Z.of_nat (length bs))
           then default 0 (bs !! Z.to_nat (x - a)) else m x.

Fixpoint le_bytes (n : nat) (v : Z) : list Z :=
  match n with
  | O => []
  | S n' => v mod 256 :: le_bytes n' (v / 256)
  end.

Fixpoint of_le (bs : list Z) : Z :=
  match bs with
  | [] => 0
  | b :: bs' => b + 256 * of_le bs'
  end.

(** [*(a as *const u64)], [*(a as *mut u64) = v], [*(a as *mut i32) = v] *)
Definition load64 (m : mem) (a : Z) : Z := of_le (load_bytes m a 8).
Definition store64 (m : mem) (a v : Z) : mem := store_bytes m a (le_bytes 8 v).
Definition store32 (m : mem) (a v : Z) : mem := store_bytes m a (le_bytes 4 v).

(** A sequence of [u64] words, as in a [repr(C)] struct of [u64] fields. *)
Fixpoint store_words (m : mem) (a : Z) (ws : list Z) : mem :=
  match ws with
  | [] => m
  | w :: ws' => store_words (store64 m a w) (a + 8) ws'
  end.

Fixpoint load_words (m : mem) (a : Z) (n : nat) : list Z :=
  match n with
  | O => []
  | S n' => load64 m a :: load_words m (a + 8) n'
  end.

(* ------------------------------------------------------------------ *)
(** ** Little-endian encoding *)

Lemma length_le_bytes n v : length (le_bytes n v) = n.
Proof. revert v. induction n; intros v; simpl; auto. Qed.

Lemma of_le_bytes n v : 0 <= v < 256 ^ Z.of_nat n -> of_le (le_bytes n v) = v.
Proof.
  revert v. induction n as [|n IH]; intros v Hv; simpl.
  - change (256 ^ Z.of_nat 0) with 1 in Hv. lia.
  - rewrite Nat2Z.inj_succ, Z.pow_succ_r in Hv by lia.
    rewrite IH; [pose proof (Z.div_mod v 256); lia|].
    split; [apply Z.div_pos; lia|]. apply Z.div_lt_upper_bound; lia.
Qed.

(* ------------------------------------------------------------------ *)
(** ** Load and store *)

Lemma length_load_bytes m a n : length (load_bytes m a n) = n.
Proof. unfold load_bytes. by rewrite length_fmap, length_seq. Qed.

Lemma lookup_load_bytes m a n i :
  (i < n)%nat -> load_bytes m a n !! i = Some (m (a + Z.of_nat i)).
Proof.
  intros Hi. unfold load_bytes. rewrite list_lookup_fmap, lookup_seq_lt by done. done.
Qed.

Lemma store_bytes_in m a bs i b :
  bs !! i = Some b -> store_bytes m a bs (a + Z.of_nat i) = b.
Proof.
  intros Hi. pose proof (lookup_lt_Some _ _ _ Hi). unfold store_bytes.
  replace (a <=? a + Z.of_nat i) with true by (symmetry; apply Z.leb_le; lia).
  replace (a + Z.of_nat i <? _) with true by (symmetry; apply Z.ltb_lt; lia).
  replace (Z.to_nat (a + Z.of_nat i - a)) with i by lia. simpl. by rewrite Hi.
Qed.

Lemma store_bytes_out m a bs x :
  x < a \/ a + Z.of_nat (length bs) <= x -> store_bytes m a bs x = m x.
Proof.
  intros H. unfold store_bytes.
  destruct (Z.leb_spec a x); [|done]. destruct (Z.ltb_spec x (a + Z.of_nat (length bs))); [lia|done].
Qed.

Lemma load_store_bytes m a bs : load_bytes (store_bytes m a bs) a (length bs) = bs.
Proof.
  apply list_eq. intros i. destruct (bs !! i) as [b|] eqn:E.
  - rewrite lookup_load_bytes by by eapply lookup_lt_Some.
    f_equal. by apply store_bytes_in.
  - apply lookup_ge_None in E. apply lookup_ge_None. by rewrite length_load_bytes.
Qed.

Lemma load_bytes_ext m1 m2 a n :
  (forall x, a <= x < a + Z.of_nat n -> m1 x = m2 x) -> load_bytes m1 a n = load_bytes m2 a n.
Proof.
  intros H. apply list_eq. intros i. destruct (decide (i < n)%nat).
  - rewrite !lookup_load_bytes by done. f_equal. apply H. lia.
  - rewrite !lookup_ge_None_2; [done|rewrite length_load_bytes; lia..].
Qed.

Lemma load_store_bytes_ne m a bs a' n :
  a' + Z.of_nat n <= a \/ a + Z.of_nat (length bs) <= a' ->
  load_bytes (store_bytes m a bs) a' n = load_bytes m a' n.
Proof. intros H. apply load_bytes_ext. intros x Hx. apply store_bytes_out. lia. Qed.

#[export] Instance load_bytes_proper : Proper ((≡) ==> (=) ==> (=) ==> (=)) load_bytes.
Proof. intros m1 m2 H a ? <- n ? <-. apply load_bytes_ext. auto. Qed.

#[export] Instance store_bytes_proper : Proper ((≡) ==> (=) ==> (=) ==> (≡)) store_bytes.
Proof.
  intros m1 m2 H a ? <- bs ? <- x. unfold store_bytes. case_match; [done|]. apply H.
Qed.

Lemma load64_store64 m a v : is_u64 v -> load64 (store64 m a v) a = v.
Proof.
  intros Hv. unfold load64, store64.
  pose proof (load_store_bytes m a (le_bytes 8 v)) as E.
  rewrite length_le_bytes in E. rewrite E. by apply of_le_bytes.
Qed.

Lemma load64_store64_ne m a a' v :
  a' + 8 <= a \/ a + 8 <= a' -> load64 (store64 m a v) a' = load64 m a'.
Proof.
  intros H. unfold load64, store64. rewrite load_store_bytes_ne; [done|].
  rewrite length_le_bytes. lia.
Qed.

Lemma load64_store_words_ne m a a' ws :
  a' + 8 <= a \/ a + 8 * Z.of_nat (length ws) <= a' ->
  load64 (store_words m a ws) a' = load64 m a'.
Proof.
  revert m a. induction ws as [|w ws IH]; intros m a H; simpl in *; [done|].
  rewrite IH by lia. apply load64_store64_ne. lia.
Qed.

Lemma load_store_words m a ws :
  Forall is_u64 ws -> load_words (store_words m a ws) a (length ws) = ws.
Proof.
  intros H. revert m a. induction H as [|w ws Hw Hws IH]; intros m a; simpl; [done|].
  f_equal; [|apply IH]. rewrite load64_store_words_ne by lia. by apply load64_store64.
Qed.

Lemma load_words_ext m1 m2 a n :
  (forall x, a <= x < a + 8 * Z.of_nat n -> m1 x = m2 x) -> load_words m1 a n = load_words m2 a n.
Proof.
  revert a. induction n as [|n IH]; intros a H; simpl; [done|].
  f_equal; [|apply IH; intros; apply H; lia].
  unfold load64. f_equal. apply load_bytes_ext. intros. apply H. lia.
Qed.

Lemma store_words_out m a ws x :
  x < a \/ a + 8 * Z.of_nat (length ws) <= x -> store_words m a ws x = m x.
Proof.
  revert m a. induction ws as [|w ws IH]; intros m a H; simpl in *; [done|].
  rewrite IH by lia. apply store_bytes_out. rewrite length_le_bytes. lia.
Qed.

Lemma length_load_words m a n : length (load_words m a n) = n.
Proof. revert a. induction n; intros a; simpl; auto. Qed.

#[export] Instance load64_proper : Proper ((≡) ==> (=) ==> (=)) load64.
Proof. intros m1 m2 H a ? <-. unfold load64. by rewrite H. Qed.

#[export] Instance store64_proper : Proper ((≡) ==> (=) ==> (=) ==> (≡)) store64.
Proof. intros m1 m2 H a ? <- v ? <-. unfold store64. by rewrite H. Qed.

Lemma load_words_store64 m a n i v :
  is_u64 v -> (i < n)%nat ->
  load_words (store64 m (a + 8 * Z.of_nat i) v) a n = <[i:=v]> (load_words m a n).
Proof.
  intros Hv. revert a i. induction n as [|n IH]; intros a i Hi; [lia|]. simpl load_words.
  destruct i as [|i]; csimpl.
  - rewrite Z.mul_0_r, Z.add_0_r, load64_store64 by done. f_equal.
    apply load_words_ext. intros x Hx. apply store_bytes_out. rewrite length_le_bytes. lia.
  - rewrite load64_store64_ne by lia. f_equal.
    replace (a + 8 * Z.of_nat (S i)) with (a + 8 + 8 * Z.of_nat i) by lia. apply IH. lia.
Qed.

(* ------------------------------------------------------------------ *)
(** ** Memories of bytes *)

Definition bytes_ok (m : mem) : Prop := forall a, 0 <= m a < 256.

Lemma of_le_bound bs :
  Forall (fun b => 0 <= b < 256) bs -> 0 <= of_le bs < 256 ^ Z.of_nat (length bs).
Proof.
  induction 1 as [|b bs Hb _ IH]; simpl length; simpl of_le.
  - change (256 ^ Z.of_nat 0) with 1. lia.
  - rewrite Nat2Z.inj_succ, Z.pow_succ_r by lia. lia.
Qed.

Lemma load64_u64 m a : bytes_ok m -> is_u64 (load64 m a).
Proof.
  intros Hm. unfold load64.
  pose proof (of_le_bound (load_bytes m a 8)) as B. rewrite length_load_bytes in B.
  apply B. apply Forall_forall. intros b Hb.
  apply list_elem_of_fmap in Hb as (i & -> & _). apply Hm.
Qed.

Lemma le_bytes_bytes n v : Forall (fun b => 0 <= b < 256) (le_bytes n v).
Proof.
  revert v. induction n as [|n IH]; intros v; constructor; [|apply IH].
  apply Z.mod_pos_bound. lia.
Qed.

Lemma bytes_ok_store_bytes m a bs :
  Forall (fun b => 0 <= b < 256) bs -> bytes_ok m -> bytes_ok (store_bytes m a bs).
Proof.
  intros Hb Hm x. unfold store_bytes. case_match; [|apply Hm].
  destruct (bs !! Z.to_nat (x - a)) as [b|] eqn:E; simpl; [|lia].
  rewrite Forall_lookup in Hb. by apply (Hb _ _ E).
Qed.

Lemma bytes_ok_store64 m a v : bytes_ok m -> bytes_ok (store64 m a v).
Proof. apply bytes_ok_store_bytes, le_bytes_bytes. Qed.

Lemma bytes_ok_store_words m a ws : bytes_ok m -> bytes_ok (store_words m a ws).
Proof.
  revert m a. induction ws as [|w ws IH]; intros m a Hm; simpl; [done|].
  by apply IH, bytes_ok_store64.
Qed.

Definition zero_mem : mem := fun _ => 0.

Lemma bytes_ok_zero : bytes_ok zero_mem.
Proof. intros a. unfold zero_mem. lia. Qed.

#[export] Hint Resolve bytes_ok_zero bytes_ok_store_words bytes_ok_store64 : ruix.
