(* ===== verification/BTree.v ===== *)
(** * BTree: [alloc::collections::BTreeMap] with integer keys

    The scheduler iterates its process tree, so the order of the entries
    matters: a map is the list of its entries in ascending key order, which
    is the order [BTreeMap] iterates in. *)

From stdpp Require Import base sets list numbers sorting.
From S2P Require Import Prelude.
Local Open Scope Z_scope.

Section BTreeMap.
Context {V : Type}.
Definition btree : Type := list (Z * V).
Implicit Types (t : list (Z * V)) (k : Z) (v : V).

(** [get], [insert] (replacing the value of an existing key), [remove] *)
Fixpoint bt_get k t : option V :=
  match t with
  | [] => None
  | (k', v) :: t' => if k =? k' then Some v else bt_get k t'
  end.

Fixpoint bt_insert k v t : list (Z * V) :=
  match t with
  | [] => [(k, v)]
  | (k', v') :: t' =>
      if k <? k' then (k, v) :: t
      else if k =? k' then (k, v) :: t'
      else (k', v') :: bt_insert k v t'
  end.

Definition bt_remove k t : list (Z * V) := List.filter (fun e => negb (e.1 =? k)) t.

Definition bt_keys t : list Z := t.*1.

(** Entries are in strictly ascending key order. *)
Definition bt_sorted t : Prop := StronglySorted Z.lt (bt_keys t).

Lemma bt_get_insert k v t : bt_get k (bt_insert k v t) = Some v.
Proof.
  induction t as [|[k' v'] t IH]; simpl; [by rewrite Z.eqb_refl|].
  destruct (Z.ltb_spec k k'); simpl; [by rewrite Z.eqb_refl|].
  destruct (Z.eqb_spec k k') as [->|Hne]; simpl; [by rewrite Z.eqb_refl|].
  by rewrite (proj2 (Z.eqb_neq _ _) Hne).
Qed.

Lemma bt_get_insert_ne k k' v t : k <> k' -> bt_get k' (bt_insert k v t) = bt_get k' t.
Proof.
  intros Hne. induction t as [|[k2 v2] t IH]; simpl.
  - rewrite (proj2 (Z.eqb_neq k' k)); auto.
  - destruct (Z.ltb_spec k k2); simpl; [rewrite (proj2 (Z.eqb_neq k' k)); auto|].
    destruct (Z.eqb_spec k k2) as [->|]; simpl.
    + rewrite (proj2 (Z.eqb_neq k' k2)); auto.
    + by destruct (k' =? k2).
Qed.

Lemma bt_get_remove k t : bt_get k (bt_remove k t) = None.
Proof.
  unfold bt_remove. induction t as [|[k' v'] t IH]; simpl; [done|].
  destruct (Z.eqb_spec k' k); simpl; [done|]. rewrite (proj2 (Z.eqb_neq k k')); auto.
Qed.

Lemma bt_get_remove_ne k k' t : k <> k' -> bt_get k' (bt_remove k t) = bt_get k' t.
Proof.
  intros Hne. unfold bt_remove. induction t as [|[k2 v2] t IH]; simpl; [done|].
  destruct (Z.eqb_spec k2 k) as [->|]; simpl.
  - rewrite (proj2 (Z.eqb_neq k' k)); auto.
  - by destruct (k' =? k2).
Qed.

Lemma bt_keys_insert k v t k' : k' ∈ bt_keys (bt_insert k v t) <-> k' = k \/ k' ∈ bt_keys t.
Proof.
  unfold bt_keys. induction t as [|[k2 v2] t IH]; simpl; [set_solver|].
  destruct (k <? k2); simpl; [set_solver|].
  destruct (Z.eqb_spec k k2) as [->|]; simpl; [set_solver|].
  fold (bt_keys (bt_insert k v t)) in *. set_solver.
Qed.

Lemma bt_insert_sorted k v t : bt_sorted t -> bt_sorted (bt_insert k v t).
Proof.
  unfold bt_sorted. induction t as [|[k2 v2] t IH]; simpl; intros Hs.
  - repeat constructor.
  - inversion Hs as [|? ? Hs' Hall]; subst. destruct (Z.ltb_spec k k2); simpl.
    + constructor; [done|]. constructor; [done|].
      eapply Forall_impl; [exact Hall|]. simpl. lia.
    + destruct (Z.eqb_spec k k2) as [->|]; simpl; [by constructor|].
      constructor; [by apply IH|]. apply Forall_forall. intros k' Hk'.
      apply bt_keys_insert in Hk' as [->|Hk']; [lia|].
      rewrite Forall_forall in Hall. by apply Hall.
Qed.

Lemma bt_remove_sorted k t : bt_sorted t -> bt_sorted (bt_remove k t).
Proof.
  unfold bt_sorted, bt_remove, bt_keys. induction t as [|[k2 v2] t IH]; simpl; intros Hs; [done|].
  inversion Hs as [|? ? Hs' Hall]; subst. destruct (negb (k2 =? k)); simpl; [|auto].
  constructor; [auto|]. apply Forall_forall. intros k' Hk'.
  rewrite Forall_forall in Hall. apply Hall.
  apply list_elem_of_fmap in Hk' as ([? ?] & -> & Hin).
  apply elem_of_filterb in Hin as [Hin _]. apply list_elem_of_fmap. eexists. by split.
Qed.

Lemma bt_sorted_elem t k v : bt_sorted t -> (k, v) ∈ t -> bt_get k t = Some v.
Proof.
  unfold bt_sorted. induction t as [|[k2 v2] t IH]; simpl; intros Hs Hin; [set_solver|].
  inversion Hs as [|? ? Hs' Hall]; subst.
  apply elem_of_cons in Hin as [[= -> ->]|Hin]; [by rewrite Z.eqb_refl|].
  assert (k2 < k) by (rewrite Forall_forall in Hall; apply Hall;
    apply list_elem_of_fmap; by exists (k, v)).
  rewrite (proj2 (Z.eqb_neq k k2)) by lia. auto.
Qed.

Lemma bt_get_elem t k v : bt_get k t = Some v -> (k, v) ∈ t.
Proof.
  induction t as [|[k2 v2] t IH]; simpl; [done|].
  destruct (Z.eqb_spec k k2) as [->|]; [|set_solver]. intros [= ->]. set_solver.
Qed.
End BTreeMap.
Arguments btree V : clear implicits.

#[export] Hint Resolve bt_insert_sorted bt_remove_sorted : ruix.
