(* ===== verification/X86.v ===== *)
(** * X86: what the kernel relies on from the [x86_64] crate

    Addresses, page-table entries, the frame-allocator trait and the mapper
    come from the third-party crate [x86_64], which is not part of the
    repository.  Their operations are the fields of the classes [X86Addr],
    [X86Flags], [X86Paging], [X86Page], [FrameAllocator] and [Mapper], and the
    documented behaviour the proofs need is in the classes of laws, each with
    an instance that evaluates.  A virtual or physical address is the [u64] it
    wraps, a frame or a page its start address. *)

From stdpp Require Import base numbers list.
From S2P Require Import Prelude Mem.
Local Open Scope Z_scope.

Class X86Addr := {
  (** [VirtAddr::new], which panics on a non-canonical address *)
  VirtAddr_new : Z -> outcome Z;
  (** [VirtAddr + u64] and [VirtAddr + usize] *)
  VirtAddr_add : Z -> Z -> outcome Z;
  (** [VirtAddr - u64] *)
  VirtAddr_sub : Z -> Z -> outcome Z;
  (** [PhysAddr::new], which panics on an address of more than 52 bits *)
  PhysAddr_new : Z -> outcome Z;
  (** [PhysFrame::<Size4KiB>::containing_address(a).start_address()] *)
  frame_containing : Z -> Z
}.

Definition LOW_HALF : Z := 2 ^ 47.
Definition HIGH_HALF : Z := 0xFFFF800000000000.

Class X86AddrLaws `{X86Addr} : Prop := {
  VirtAddr_new_low a : 0 <= a < LOW_HALF -> VirtAddr_new a = Ret a;
  VirtAddr_new_high a : HIGH_HALF <= a < 2 ^ 64 -> VirtAddr_new a = Ret a;
  VirtAddr_new_noncanonical a : 2 ^ 48 <= a < HIGH_HALF -> VirtAddr_new a = Panic;
  (** bit 47 is extended over the upper bits when they are clear *)
  VirtAddr_new_inv a b : is_u64 a -> VirtAddr_new a = Ret b ->
    b = a \/ (LOW_HALF <= a /\ b = a + 0xFFFF000000000000);
  VirtAddr_add_low a b : 0 <= a -> 0 <= b -> a + b < LOW_HALF -> VirtAddr_add a b = Ret (a + b);
  VirtAddr_add_high a b : HIGH_HALF <= a -> 0 <= b -> a + b < 2 ^ 64 -> VirtAddr_add a b = Ret (a + b);
  VirtAddr_sub_low a b : 0 <= b <= a -> a < LOW_HALF -> VirtAddr_sub a b = Ret (a - b);
  PhysAddr_new_ok a : 0 <= a < 2 ^ 52 -> PhysAddr_new a = Ret a;
  frame_containing_eq a : 0 <= a -> frame_containing a = a - a mod 4096
}.

(** An implementation of the documented behaviour (with the sign extension of
    bit 47 the documentation describes), used to evaluate the model. *)
#[export] Instance x86_doc : X86Addr :=
  let vnew a :=
    if (a <? 2 ^ 47) || (0xFFFF800000000000 <=? a) then Ret a
    else if a <? 2 ^ 48 then Ret (a + 0xFFFF000000000000) else Panic in {|
  VirtAddr_new := vnew;
  VirtAddr_add a b := mbind vnew (add_u64 a b);
  VirtAddr_sub a b := mbind vnew (sub_u64 a b);
  PhysAddr_new a := if a <? 2 ^ 52 then Ret a else Panic;
  frame_containing a := a - a mod 4096
|}.

#[export] Instance x86_doc_laws : @X86AddrLaws x86_doc.
Proof.
  split; unfold LOW_HALF, HIGH_HALF; intros; simpl.
  - by rewrite (proj2 (Z.ltb_lt _ _)) by lia.
  - rewrite (proj2 (Z.leb_le _ _)) by lia. by rewrite orb_true_r.
  - rewrite (proj2 (Z.ltb_ge a (2 ^ 47))), (proj2 (Z.leb_gt _ a)) by lia. simpl.
    by rewrite (proj2 (Z.ltb_ge _ _)) by lia.
  - match goal with E : VirtAddr_new a = Ret b |- _ => revert E end. simpl.
    destruct (Z.ltb_spec a (2 ^ 47)); simpl; [intros [= <-]; by left|].
    destruct (_ <=? a); [intros [= <-]; by left|]. destruct (a <? 2 ^ 48); [|done].
    intros [= <-]. right. split; [lia|done].
  - rewrite add_u64_ret by lia. simpl. by rewrite (proj2 (Z.ltb_lt _ _)) by lia.
  - rewrite add_u64_ret by lia. simpl. rewrite (proj2 (Z.leb_le _ _)) by lia. by rewrite orb_true_r.
  - rewrite sub_u64_ret by lia. simpl. by rewrite (proj2 (Z.ltb_lt _ _)) by lia.
  - by rewrite (proj2 (Z.ltb_lt _ _)) by lia.
  - done.
Qed.

(** The trait [FrameAllocator<Size4KiB>]: [allocate_frame] takes the
    allocator by mutable reference; an implementation may panic. *)
Class FrameAllocator (F : Type) := allocate_frame : F -> outcome (option Z * F).

(** What the kernel uses of [OffsetPageTable]: the offset at which physical
    memory is mapped, and the address of the active level-4 table. *)
Record OffsetPageTable : Type := {
  phys_offset : Z;
  level_4_table : Z
}.

(** A pool of frames handed out in order, used to evaluate the model. *)
Definition frame_pool : FrameAllocator (list Z) := fun l =>
  match l with [] => Ret (None, []) | f :: l' => Ret (Some f, l') end.

(** The bits of [PageTableFlags] the kernel uses, with their documented
    positions in a page-table entry. *)
Class X86Flags := {
  FLAG_PRESENT : Z;
  FLAG_WRITABLE : Z;
  FLAG_USER_ACCESSIBLE : Z;
  FLAG_NO_EXECUTE : Z
}.

Class X86FlagsLaws `{X86Flags} : Prop := {
  FLAG_PRESENT_bit : FLAG_PRESENT = 2 ^ 0;
  FLAG_WRITABLE_bit : FLAG_WRITABLE = 2 ^ 1;
  FLAG_USER_ACCESSIBLE_bit : FLAG_USER_ACCESSIBLE = 2 ^ 2;
  FLAG_NO_EXECUTE_bit : FLAG_NO_EXECUTE = 2 ^ 63
}.

#[export] Instance x86_flags_doc : X86Flags := {|
  FLAG_PRESENT := 1;
  FLAG_WRITABLE := 2;
  FLAG_USER_ACCESSIBLE := 4;
  FLAG_NO_EXECUTE := 0x8000000000000000
|}.

#[export] Instance x86_flags_doc_laws : @X86FlagsLaws x86_flags_doc.
Proof. by split. Qed.

(* ------------------------------------------------------------------ *)
(** ** Page-table entries and the mapper *)

(** [page_table::FrameError] *)
Inductive FrameError : Type := FrameNotPresent | HugeFrame.

(** [VirtAddr::p4_index] and the like, [PageTableEntry::flags],
    [PageTableEntry::frame] (the start address of the frame) and
    [PageTableEntry::set_flags]; an entry is the [u64] it wraps.
    [entry_addr] is the crate's [PageTableEntry::addr]. *)
Class X86Paging := {
  p4_index : Z -> Z;
  p3_index : Z -> Z;
  p2_index : Z -> Z;
  p1_index : Z -> Z;
  page_offset : Z -> Z;
  FLAG_HUGE_PAGE : Z;
  entry_addr : Z -> Z;
  entry_flags : Z -> Z;
  entry_frame : Z -> result FrameError Z;
  entry_set_flags : Z -> Z -> Z
}.

(** [flags.contains(f)] *)
Definition has_flag (f flags : Z) : bool := Z.land flags f =? f.

(** The documented behaviour: indexes of nine bits, [frame] fails on an entry
    without [PRESENT] and on a huge page, [set_flags] keeps the address. *)
Class X86PagingLaws `{X86Flags, X86Paging} : Prop := {
  p4_index_eq a : 0 <= a -> p4_index a = (a / 2 ^ 39) mod 512;
  p3_index_eq a : 0 <= a -> p3_index a = (a / 2 ^ 30) mod 512;
  p2_index_eq a : 0 <= a -> p2_index a = (a / 2 ^ 21) mod 512;
  p1_index_eq a : 0 <= a -> p1_index a = (a / 2 ^ 12) mod 512;
  page_offset_eq a : 0 <= a -> page_offset a = a mod 4096;
  FLAG_HUGE_PAGE_bit : FLAG_HUGE_PAGE = 2 ^ 7;
  entry_addr_bound e : is_u64 e -> 0 <= entry_addr e < 2 ^ 52;
  entry_frame_eq e : entry_frame e =
    if negb (has_flag FLAG_PRESENT (entry_flags e)) then Err FrameNotPresent
    else if has_flag FLAG_HUGE_PAGE (entry_flags e) then Err HugeFrame
    else Ok (entry_addr e);
  entry_set_flags_u64 e : is_u64 e ->
    is_u64 (entry_set_flags e (Z.lor (entry_flags e) FLAG_USER_ACCESSIBLE));
  entry_set_flags_addr e : is_u64 e ->
    entry_addr (entry_set_flags e (Z.lor (entry_flags e) FLAG_USER_ACCESSIBLE)) = entry_addr e;
  entry_set_flags_flags e : is_u64 e ->
    entry_flags (entry_set_flags e (Z.lor (entry_flags e) FLAG_USER_ACCESSIBLE))
    = Z.lor (entry_flags e) FLAG_USER_ACCESSIBLE
}.

Definition ADDR_MASK : Z := 0x000FFFFFFFFFF000.
Definition FLAG_MASK : Z := 0xFFF0000000000FFF.

(** The layout of a page-table entry, used to evaluate the model. *)
#[export] Instance x86_paging_doc : X86Paging := {|
  p4_index a := (a / 2 ^ 39) mod 512;
  p3_index a := (a / 2 ^ 30) mod 512;
  p2_index a := (a / 2 ^ 21) mod 512;
  p1_index a := (a / 2 ^ 12) mod 512;
  page_offset a := a mod 4096;
  FLAG_HUGE_PAGE := 0x80;
  entry_addr e := Z.land e ADDR_MASK;
  entry_flags e := Z.land e FLAG_MASK;
  entry_frame e :=
    if negb (has_flag 1 (Z.land e FLAG_MASK)) then Err FrameNotPresent
    else if has_flag 0x80 (Z.land e FLAG_MASK) then Err HugeFrame
    else Ok (Z.land e ADDR_MASK);
  entry_set_flags e f := Z.lor (Z.land e ADDR_MASK) f
|}.

Lemma land_mask_bound e k : 0 <= e -> 0 <= k -> 0 <= Z.land e k <= k.
Proof.
  intros He Hk. split; [by apply Z.land_nonneg; left|].
  assert (Z.land k (Z.lnot e) + Z.land e k = k); [|pose proof (proj2 (Z.land_nonneg k (Z.lnot e)) (or_introl Hk)); lia].
  rewrite Z.add_nocarry_lxor.
  - apply Z.bits_inj'. intros n Hn. rewrite Z.lxor_spec, !Z.land_spec, Z.lnot_spec by lia.
    by destruct (Z.testbit e n), (Z.testbit k n).
  - apply Z.bits_inj'. intros n Hn. rewrite !Z.land_spec, Z.lnot_spec, Z.bits_0 by lia.
    by destruct (Z.testbit e n), (Z.testbit k n).
Qed.

#[export] Instance x86_paging_doc_laws : @X86PagingLaws x86_flags_doc x86_paging_doc.
Proof.
  assert (Hset : forall e, Z.lor (Z.land e ADDR_MASK) (Z.lor (Z.land e FLAG_MASK) 4)
                 = Z.lor (Z.land e (2 ^ 64 - 1)) 4).
  { intros e. rewrite Z.lor_assoc, <- Z.land_lor_distr_r. done. }
  split; cbn -[Z.div Z.modulo Z.pow has_flag Z.land Z.lor ADDR_MASK FLAG_MASK]; try done.
  - intros e He. assert (0 <= Z.land e ADDR_MASK <= ADDR_MASK) by (apply land_mask_bound; unfold is_u64, ADDR_MASK in *; lia).
    unfold ADDR_MASK in *. lia.
  - intros e He. rewrite Hset. rewrite (Z.land_ones _ 64), Z.mod_small by (unfold is_u64 in *; lia).
    unfold is_u64 in *. assert (0 <= Z.lor e 4) by (apply Z.lor_nonneg; lia).
    split; [done|]. destruct (Z.eq_dec e 0) as [->|Hne]; [done|].
    assert (Z.lor e 4 <> 0) by (intros H0; apply Z.lor_eq_0_iff in H0; lia).
    apply Z.log2_lt_pow2; [lia|]. rewrite Z.log2_lor by lia. apply Z.max_lub_lt; [apply Z.log2_lt_pow2; lia|done].
  - intros e _. rewrite Hset, !Z.land_lor_distr_l, <- Z.land_assoc.
    change (Z.land (2 ^ 64 - 1) ADDR_MASK) with ADDR_MASK. change (Z.land 4 ADDR_MASK) with 0.
    apply Z.lor_0_r.
  - intros e _. rewrite Hset, !Z.land_lor_distr_l, <- Z.land_assoc.
    change (Z.land (2 ^ 64 - 1) FLAG_MASK) with FLAG_MASK. done.
Qed.

(** [mapper::MapToError] *)
Inductive MapToError : Type :=
| FrameAllocationFailed
| ParentEntryHugePage
| PageAlreadyMapped (frame : Z).

(** [Mapper::map_to(page, frame, flags, frame_allocator)] on the tables of an
    [OffsetPageTable], which live in memory; pages and frames are start
    addresses.  Flushing the returned token touches the TLB only. *)
Class Mapper (F : Type) := map_to :
  Z -> Z -> Z -> OffsetPageTable -> mem -> F -> outcome (result MapToError unit * mem * F).

(** [Page::containing_address(a).start_address()], and the start addresses of
    the pages of [Page::range_inclusive(start, end)] *)
Class X86Page := {
  page_containing : Z -> Z;
  page_range_inclusive : Z -> Z -> list Z
}.
Class X86PageLaws `{X86Page} : Prop := {
  page_containing_eq a : 0 <= a -> page_containing a = a - a mod 4096;
  page_range_inclusive_eq a b : 0 <= a <= b -> a mod 4096 = 0 -> b mod 4096 = 0 ->
    page_range_inclusive a b
    = (fun i => a + 4096 * Z.of_nat i) <$> seq 0 (Z.to_nat ((b - a) / 4096 + 1))
}.
#[export] Instance x86_page_doc : X86Page := {|
  page_containing a := a - a mod 4096;
  page_range_inclusive a b :=
    (fun i => a + 4096 * Z.of_nat i) <$> seq 0 (Z.to_nat ((b - a) / 4096 + 1))
|}.
#[export] Instance x86_page_doc_laws : @X86PageLaws x86_page_doc.
Proof. by split. Qed.
