(* ===== verification/Process.v ===== *)
(** * Process: process control blocks (src/src/process/mod.rs)

    The identifier counters, the saved register context and its layout on
    the stack, the [Process] struct with its methods, [AsyncTask], and the
    trait [TaskBehavior] as a type class with its two implementations. *)

From stdpp Require Import base sets numbers relations list.
From S2P Require Import Prelude Errors Mem BTree X86.
Local Open Scope Z_scope.
Local Open Scope ruix_scope.

(* ------------------------------------------------------------------ *)
(** ** Counters

    The statics [NEXT_PID], [NEXT_PGID], [NEXT_SID] and
    [TIMESTAMP_COUNTER]; each operation returns its value and the new
    counter. *)

Definition DEFAULT_PRIORITY : Z := 10.

Record counters : Type := {
  NEXT_PID : Z;
  NEXT_PGID : Z;
  NEXT_SID : Z;
  TIMESTAMP_COUNTER : Z
}.

Definition counters_init : counters :=
  {| NEXT_PID := 1; NEXT_PGID := 1; NEXT_SID := 1; TIMESTAMP_COUNTER := 0 |}.

Definition get_current_time (c : counters) : outcome (Z * counters) :=
  let! t := add_u64 (TIMESTAMP_COUNTER c) 1 in
  Ret (t, {| NEXT_PID := NEXT_PID c; NEXT_PGID := NEXT_PGID c;
             NEXT_SID := NEXT_SID c; TIMESTAMP_COUNTER := t |}).

Definition allocate_pid (c : counters) : outcome (Z * counters) :=
  let! n := add_u64 (NEXT_PID c) 1 in
  Ret (NEXT_PID c, {| NEXT_PID := n; NEXT_PGID := NEXT_PGID c;
                      NEXT_SID := NEXT_SID c; TIMESTAMP_COUNTER := TIMESTAMP_COUNTER c |}).

Definition allocate_pgid (c : counters) : outcome (Z * counters) :=
  let! n := add_u64 (NEXT_PGID c) 1 in
  Ret (NEXT_PGID c, {| NEXT_PID := NEXT_PID c; NEXT_PGID := n;
                       NEXT_SID := NEXT_SID c; TIMESTAMP_COUNTER := TIMESTAMP_COUNTER c |}).

Definition allocate_sid (c : counters) : outcome (Z * counters) :=
  let! n := add_u64 (NEXT_SID c) 1 in
  Ret (NEXT_SID c, {| NEXT_PID := NEXT_PID c; NEXT_PGID := NEXT_PGID c;
                      NEXT_SID := n; TIMESTAMP_COUNTER := TIMESTAMP_COUNTER c |}).

(* ------------------------------------------------------------------ *)
(** ** States *)

Inductive WaitReason : Type :=
| WaitReason_Child (pid : Z)
| WaitReason_IpcReceive (id : Z)
| WaitReason_IpcSend (id : Z)
| WaitReason_Sleep (t : Z)
| WaitReason_AsyncPoll.

Inductive ProcessState : Type :=
| Running
| Ready
| Waiting (r : WaitReason)
| Zombie
| Stopped.

Inductive TaskType : Type :=
| TaskType_Process
| TaskType_Async.

#[export] Instance WaitReason_eq_dec : EqDecision WaitReason.
Proof. solve_decision. Defined.
#[export] Instance ProcessState_eq_dec : EqDecision ProcessState.
Proof. solve_decision. Defined.
#[export] Instance TaskType_eq_dec : EqDecision TaskType.
Proof. solve_decision. Defined.

Inductive Poll (A : Type) : Type :=
| Poll_Ready (a : A)
| Poll_Pending.
Arguments Poll_Ready {A} a.
Arguments Poll_Pending {A}.

(** [matches!(s, ProcessState::Ready | ProcessState::Running)] *)
Definition is_ready_or_running (s : ProcessState) : bool :=
  match s with Ready | Running => true | _ => false end.

(* ------------------------------------------------------------------ *)
(** ** The saved context *)

(** [#[repr(C)] struct ProcessContext]: twenty [u64] fields in this order. *)
Record ProcessContext : Type := {
  r15 : Z; r14 : Z; r13 : Z; r12 : Z;
  rbp : Z; rbx : Z; r11 : Z; r10 : Z;
  r9 : Z; r8 : Z; rdi : Z; rsi : Z;
  rdx : Z; rcx : Z; rax : Z;
  rip : Z; cs : Z; rflags : Z; rsp : Z; ss : Z
}.

Definition SIZEOF_CONTEXT : Z := 160.
Definition RAX_OFFSET : Z := 8 * 14.

Definition context_words (c : ProcessContext) : list Z :=
  [r15 c; r14 c; r13 c; r12 c; rbp c; rbx c; r11 c; r10 c; r9 c; r8 c;
   rdi c; rsi c; rdx c; rcx c; rax c; rip c; cs c; rflags c; rsp c; ss c].

Definition context_of_words (w : list Z) : ProcessContext :=
  let g i := default 0 (w !! i) in {|
  r15 := g 0%nat; r14 := g 1%nat; r13 := g 2%nat; r12 := g 3%nat;
  rbp := g 4%nat; rbx := g 5%nat; r11 := g 6%nat; r10 := g 7%nat;
  r9 := g 8%nat; r8 := g 9%nat; rdi := g 10%nat; rsi := g 11%nat;
  rdx := g 12%nat; rcx := g 13%nat; rax := g 14%nat;
  rip := g 15%nat; cs := g 16%nat; rflags := g 17%nat; rsp := g 18%nat; ss := g 19%nat |}.

(** [*(p as *mut ProcessContext) = c] and [*(p as *const ProcessContext)] *)
Definition write_context (m : mem) (p : Z) (c : ProcessContext) : mem :=
  store_words m p (context_words c).
Definition read_context (m : mem) (p : Z) : ProcessContext :=
  context_of_words (load_words m p 20).

(** The context [Process::new] writes for a fresh process. *)
Definition initial_context (entry_point stack_top : Z) : ProcessContext := {|
  r15 := 0; r14 := 0; r13 := 0; r12 := 0;
  rbp := 0; rbx := 0;
  r11 := 0; r10 := 0; r9 := 0; r8 := 0;
  rdi := 0; rsi := 0; rdx := 0; rcx := 0; rax := 0;
  rip := entry_point; cs := 0x23; rflags := 0x202; rsp := stack_top; ss := 0x1b |}.

(* ------------------------------------------------------------------ *)
(** ** The process struct *)

Record ResourceLimits : Type := {
  max_memory : Z;
  max_cpu_time : Z;
  max_processes : Z;
  max_files : Z
}.

Definition ResourceLimits_default : ResourceLimits :=
  {| max_memory := 64 * 1024 * 1024; max_cpu_time := 30 * 1000;
     max_processes := 32; max_files := 16 |}.

Record ProcessStats : Type := {
  cpu_time_used : Z;
  memory_used : Z;
  children_count : Z;
  files_opened : Z
}.

Definition ProcessStats_default : ProcessStats :=
  {| cpu_time_used := 0; memory_used := 0; children_count := 0; files_opened := 0 |}.

Record Process : Type := mkProcess {
  p_id : Z;
  p_context_ptr : Z;
  p_page_table_frame : Z;
  p_state : ProcessState;
  p_parent_id : Z;
  p_children : list Z;
  p_exit_code : Z;
  p_priority : Z;
  p_resource_limits : ResourceLimits;
  p_stats : ProcessStats;
  p_process_group_id : Z;
  p_session_id : Z;
  p_creation_time : Z
}.

(** Assignments to one field. *)
Definition set_context_ptr (v : Z) (p : Process) : Process :=
  mkProcess (p_id p) v (p_page_table_frame p) (p_state p) (p_parent_id p) (p_children p)
    (p_exit_code p) (p_priority p) (p_resource_limits p) (p_stats p)
    (p_process_group_id p) (p_session_id p) (p_creation_time p).
Definition set_state (v : ProcessState) (p : Process) : Process :=
  mkProcess (p_id p) (p_context_ptr p) (p_page_table_frame p) v (p_parent_id p) (p_children p)
    (p_exit_code p) (p_priority p) (p_resource_limits p) (p_stats p)
    (p_process_group_id p) (p_session_id p) (p_creation_time p).
Definition set_parent_id (v : Z) (p : Process) : Process :=
  mkProcess (p_id p) (p_context_ptr p) (p_page_table_frame p) (p_state p) v (p_children p)
    (p_exit_code p) (p_priority p) (p_resource_limits p) (p_stats p)
    (p_process_group_id p) (p_session_id p) (p_creation_time p).
Definition set_children (v : list Z) (p : Process) : Process :=
  mkProcess (p_id p) (p_context_ptr p) (p_page_table_frame p) (p_state p) (p_parent_id p) v
    (p_exit_code p) (p_priority p) (p_resource_limits p) (p_stats p)
    (p_process_group_id p) (p_session_id p) (p_creation_time p).
Definition set_exit_code (v : Z) (p : Process) : Process :=
  mkProcess (p_id p) (p_context_ptr p) (p_page_table_frame p) (p_state p) (p_parent_id p)
    (p_children p) v (p_priority p) (p_resource_limits p) (p_stats p)
    (p_process_group_id p) (p_session_id p) (p_creation_time p).
Definition set_prio (v : Z) (p : Process) : Process :=
  mkProcess (p_id p) (p_context_ptr p) (p_page_table_frame p) (p_state p) (p_parent_id p)
    (p_children p) (p_exit_code p) v (p_resource_limits p) (p_stats p)
    (p_process_group_id p) (p_session_id p) (p_creation_time p).
Definition set_limits (v : ResourceLimits) (p : Process) : Process :=
  mkProcess (p_id p) (p_context_ptr p) (p_page_table_frame p) (p_state p) (p_parent_id p)
    (p_children p) (p_exit_code p) (p_priority p) v (p_stats p)
    (p_process_group_id p) (p_session_id p) (p_creation_time p).
Definition set_stats (v : ProcessStats) (p : Process) : Process :=
  mkProcess (p_id p) (p_context_ptr p) (p_page_table_frame p) (p_state p) (p_parent_id p)
    (p_children p) (p_exit_code p) (p_priority p) (p_resource_limits p) v
    (p_process_group_id p) (p_session_id p) (p_creation_time p).
Definition set_group (v : Z) (p : Process) : Process :=
  mkProcess (p_id p) (p_context_ptr p) (p_page_table_frame p) (p_state p) (p_parent_id p)
    (p_children p) (p_exit_code p) (p_priority p) (p_resource_limits p) (p_stats p)
    v (p_session_id p) (p_creation_time p).
Definition set_session (v : Z) (p : Process) : Process :=
  mkProcess (p_id p) (p_context_ptr p) (p_page_table_frame p) (p_state p) (p_parent_id p)
    (p_children p) (p_exit_code p) (p_priority p) (p_resource_limits p) (p_stats p)
    (p_process_group_id p) v (p_creation_time p).

Definition set_children_count (v : Z) (s : ProcessStats) : ProcessStats :=
  {| cpu_time_used := cpu_time_used s; memory_used := memory_used s;
     children_count := v; files_opened := files_opened s |}.
Definition set_files_opened (v : Z) (s : ProcessStats) : ProcessStats :=
  {| cpu_time_used := cpu_time_used s; memory_used := memory_used s;
     children_count := children_count s; files_opened := v |}.

(* ------------------------------------------------------------------ *)
(** ** Creation *)

(** [for i in 0..512 { new_table[i] = current_table[i].clone() }]: a page
    table is 512 [u64] entries. *)
Fixpoint copy_entries (m : mem) (dst src : Z) (n : nat) : mem :=
  match n with
  | O => m
  | S n' =>
      let m' := copy_entries m dst src n' in
      store64 m' (dst + 8 * Z.of_nat n') (load64 m' (src + 8 * Z.of_nat n'))
  end.

Section Creation.
Context `{X86Addr} {F : Type} `{FrameAllocator F}.

(** [create_process_page_table_with_user_mappings]: returns the frame, the
    memory and the frame allocator.  A missing frame panics ([expect]). *)
Definition create_process_page_table (mapper : OffsetPageTable) (fa : F) (m : mem)
    : outcome (Z * F * mem) :=
  let! r := allocate_frame fa in
  match r with
  | (None, _) => Panic
  | (Some page_table_frame, fa') =>
      let! new_table_virt := VirtAddr_add (phys_offset mapper) page_table_frame in
      let! _ := deref 4096 new_table_virt in
      Ret (page_table_frame, fa',
           copy_entries m new_table_virt (level_4_table mapper) 512)
  end.

(** [Process::new] *)
Definition Process_new (id entry_point stack_top : Z) (mapper : OffsetPageTable)
    (fa : F) (m : mem) (c : counters) : outcome (Process * F * mem * counters) :=
  let! context_ptr := sub_u64 stack_top SIZEOF_CONTEXT in
  let! r := create_process_page_table mapper fa m in
  let '(page_table_frame, fa', m') := r in
  let! _ := deref 8 context_ptr in
  let m'' := write_context m' context_ptr (initial_context entry_point stack_top) in
  let! t := get_current_time c in
  let '(now, c') := t in
  Ret ({| p_id := id; p_context_ptr := context_ptr;
          p_page_table_frame := page_table_frame; p_state := Ready;
          p_parent_id := 0; p_children := []; p_exit_code := 0;
          p_priority := DEFAULT_PRIORITY;
          p_resource_limits := ResourceLimits_default;
          p_stats := ProcessStats_default;
          p_process_group_id := id; p_session_id := id;
          p_creation_time := now |}, fa', m'', c').

(** [Process::fork].  [current_context] is a reference: its fields are read
    from memory where the code uses them. *)
Definition Process_fork (self : Process) (mapper : OffsetPageTable)
    (fa : F) (m : mem) (c : counters) : outcome (Process * F * mem * counters) :=
  let! a := allocate_pid c in
  let '(child_pid, c1) := a in
  let! _ := deref 8 (p_context_ptr self) in
  let current_context := read_context m (p_context_ptr self) in
  let! r := Process_new child_pid (rip current_context) (rsp current_context) mapper fa m c1 in
  let '(child, fa', m1, c2) := r in
  let child := set_parent_id (p_id self) child in
  let child := set_group (p_process_group_id self) child in
  let child := set_session (p_session_id self) child in
  let child := set_prio (p_priority self) child in
  let child := set_limits (p_resource_limits self) child in
  let! _ := deref 8 (p_context_ptr child) in
  let m2 := write_context m1 (p_context_ptr child) (read_context m1 (p_context_ptr self)) in
  let m3 := store64 m2 (p_context_ptr child + RAX_OFFSET) 0 in
  Ret (child, fa', m3, c2).
End Creation.

(* ------------------------------------------------------------------ *)
(** ** Methods *)

Definition Process_exit (exit_code : Z) (p : Process) : KernelResult unit * Process :=
  if (exit_code <? -255) || (255 <? exit_code)
  then (kerror ProcessError_InvalidState, p)
  else (Ok tt, set_exit_code exit_code (set_state Zombie p)).

Definition Process_wait (child_pid : Z) (p : Process) : KernelResult Z :=
  match p_children p with
  | [] => kerror ProcessError_NotFound
  | _ :: _ =>
      match List.find (fun child_id => (child_pid =? U64_MAX) || (child_id =? child_pid))
              (p_children p) with
      | Some _ => Ok 0
      | None => kerror ProcessError_NotFound
      end
  end.

Definition Process_join (target_pid : Z) (p : Process) : KernelResult Z * Process :=
  if bool_decide (p_state p = Zombie) && (p_id p =? target_pid)
  then (Ok (p_exit_code p), p)
  else (Ok (p_exit_code p), set_state (Waiting (WaitReason_Child target_pid)) p).

Definition Process_can_terminate (p : Process) : bool :=
  match p_state p with
  | Running | Ready | Waiting _ => true
  | Zombie | Stopped => false
  end.

Definition Process_set_priority (priority : Z) (p : Process) : KernelResult unit * Process :=
  if 31 <? priority then (kerror ProcessError_InvalidState, p)
  else (Ok tt, set_prio priority p).

Definition Process_set_resource_limits (limits : ResourceLimits) (p : Process)
    : KernelResult unit * Process :=
  if (max_memory limits =? 0) || (max_cpu_time limits =? 0)
  then (kerror ProcessError_InvalidState, p)
  else (Ok tt, set_limits limits p).

Definition Process_check_resource_limits (p : Process) : bool :=
  (memory_used (p_stats p) <=? max_memory (p_resource_limits p)) &&
  (cpu_time_used (p_stats p) <=? max_cpu_time (p_resource_limits p)) &&
  (children_count (p_stats p) <=? max_processes (p_resource_limits p)) &&
  (files_opened (p_stats p) <=? max_files (p_resource_limits p)).

Definition Process_add_child (child_pid : Z) (p : Process)
    : outcome (KernelResult unit * Process) :=
  if max_processes (p_resource_limits p) <=? children_count (p_stats p)
  then Ret (kerror ProcessError_InvalidState, p)
  else
    let p := set_children (p_children p ++ [child_pid]) p in
    let! n := add_u32 (children_count (p_stats p)) 1 in
    Ret (Ok tt, set_stats (set_children_count n (p_stats p)) p).

Definition Process_remove_child (child_pid : Z) (p : Process) : bool * Process :=
  match position (fun id => id =? child_pid) (p_children p) with
  | Some pos =>
      let p := set_children (delete pos (p_children p)) p in
      (true, set_stats (set_children_count
                          (saturating_sub (children_count (p_stats p)) 1) (p_stats p)) p)
  | None => (false, p)
  end.

Definition Process_make_orphan (p : Process) : Process := set_parent_id 0 p.

Definition Process_is_orphan (p : Process) : bool := (p_parent_id p =? 0) && negb (p_id p =? 0).

Definition Process_get_age (p : Process) (c : counters) : outcome (Z * counters) :=
  let! t := get_current_time c in
  let '(now, c') := t in Ret (saturating_sub now (p_creation_time p), c').

Definition Process_update_cpu_usage (cpu_time : Z) (p : Process) : outcome Process :=
  let! t := add_u64 (cpu_time_used (p_stats p)) cpu_time in
  Ret (set_stats {| cpu_time_used := t; memory_used := memory_used (p_stats p);
                    children_count := children_count (p_stats p);
                    files_opened := files_opened (p_stats p) |} p).

Definition Process_update_memory_usage (mem_used : Z) (p : Process) : Process :=
  set_stats {| cpu_time_used := cpu_time_used (p_stats p); memory_used := mem_used;
               children_count := children_count (p_stats p);
               files_opened := files_opened (p_stats p) |} p.

Definition Process_increment_file_count (p : Process) : outcome (KernelResult unit * Process) :=
  if max_files (p_resource_limits p) <=? files_opened (p_stats p)
  then Ret (kerror ProcessError_InvalidState, p)
  else
    let! n := add_u32 (files_opened (p_stats p)) 1 in
    Ret (Ok tt, set_stats (set_files_opened n (p_stats p)) p).

Definition Process_decrement_file_count (p : Process) : Process :=
  set_stats (set_files_opened (saturating_sub (files_opened (p_stats p)) 1) (p_stats p)) p.

Definition Process_create_process_group (p : Process) (c : counters)
    : outcome (KernelResult Z * Process * counters) :=
  let! a := allocate_pgid c in
  let '(new_pgid, c') := a in Ret (Ok new_pgid, set_group new_pgid p, c').

Definition Process_join_process_group (pgid : Z) (p : Process) : KernelResult unit * Process :=
  if pgid =? 0 then (kerror ProcessError_InvalidPid, p)
  else (Ok tt, set_group pgid p).

Definition Process_create_session (p : Process) (c : counters)
    : outcome (KernelResult Z * Process * counters) :=
  if negb (p_process_group_id p =? p_id p)
  then Ret (kerror ProcessError_InvalidState, p, c)
  else
    let! a := allocate_sid c in
    let '(new_sid, c') := a in Ret (Ok new_sid, set_session new_sid p, c').

(* ------------------------------------------------------------------ *)
(** ** Tasks: the trait [TaskBehavior] *)

Class TaskBehavior (T : Type) := {
  get_id : T -> Z;
  get_task_type : T -> TaskType;
  get_state : T -> ProcessState;
  task_set_state : ProcessState -> T -> T;
  get_priority : T -> Z;
  task_set_priority : Z -> T -> KernelResult unit * T;
  can_schedule : T -> bool;
  poll_task : T -> Poll unit;
  wake_task : T -> T
}.

#[export] Instance Process_TaskBehavior : TaskBehavior Process := {|
  get_id := p_id;
  get_task_type _ := TaskType_Process;
  get_state := p_state;
  task_set_state := set_state;
  get_priority := p_priority;
  task_set_priority := Process_set_priority;
  can_schedule p := is_ready_or_running (p_state p);
  poll_task _ := Poll_Ready tt;
  wake_task p := match p_state p with Waiting _ => set_state Ready p | _ => p end
|}.

(** [AsyncTask]: the future is opaque, its [poll] is called only through
    [AsyncTask::poll]; the waker cache is created empty and never used. *)
Section Async.
Context {Fut : Type}.

Record AsyncTask : Type := mkAsyncTask {
  at_id : Z;
  at_future : Fut;
  at_state : ProcessState;
  at_priority : Z
}.

(** [TaskId::new] increments an atomic counter, which wraps around. *)
Definition TaskId_new (next : Z) : Z * Z := (next, wrapping_add_u64 next 1).

Definition AsyncTask_new (f : Fut) (next : Z) : AsyncTask * Z :=
  let '(i, next') := TaskId_new next in
  (mkAsyncTask i f Ready DEFAULT_PRIORITY, next').

Definition AsyncTask_poll (fut_poll : Fut -> Poll unit * Fut) (t : AsyncTask)
    : Poll unit * AsyncTask :=
  let '(r, f') := fut_poll (at_future t) in
  (r, mkAsyncTask (at_id t) f' (at_state t) (at_priority t)).

#[global] Instance AsyncTask_TaskBehavior : TaskBehavior AsyncTask := {|
  get_id := at_id;
  get_task_type _ := TaskType_Async;
  get_state := at_state;
  task_set_state s t := mkAsyncTask (at_id t) (at_future t) s (at_priority t);
  get_priority := at_priority;
  task_set_priority priority t :=
    if 31 <? priority then (kerror ProcessError_InvalidState, t)
    else (Ok tt, mkAsyncTask (at_id t) (at_future t) (at_state t) priority);
  can_schedule t := match at_state t with Ready => true | _ => false end;
  poll_task t := match at_state t with Ready => Poll_Ready tt | _ => Poll_Pending end;
  wake_task t := mkAsyncTask (at_id t) (at_future t) Ready (at_priority t)
|}.
End Async.
Arguments AsyncTask Fut : clear implicits.

(** What the scheduler expects of a task: setting the state or the priority
    and waking keep the identity, a priority above 31 is refused, and a task
    that was woken from [Waiting] can be scheduled. *)
Class TaskLaws (T : Type) `{TaskBehavior T} : Prop := {
  law_set_state_id s t : get_id (task_set_state s t) = get_id t;
  law_set_state s t : get_state (task_set_state s t) = s;
  law_set_priority_ok n t :
    0 <= n <= 31 -> exists t', task_set_priority n t = (Ok tt, t') /\
                               get_priority t' = n /\ get_id t' = get_id t;
  law_set_priority_err n t :
    31 < n -> task_set_priority n t = (kerror ProcessError_InvalidState, t);
  law_wake_id t : get_id (wake_task t) = get_id t;
  law_wake_waiting t r : get_state t = Waiting r -> can_schedule (wake_task t) = true
}.

#[export] Instance Process_TaskLaws : TaskLaws Process.
Proof.
  split; simpl; intros; try done.
  - eexists. unfold Process_set_priority. rewrite (proj2 (Z.ltb_ge _ _)) by lia. done.
  - unfold Process_set_priority. by rewrite (proj2 (Z.ltb_lt _ _)) by lia.
  - by destruct (p_state t).
  - by match goal with E : p_state _ = _ |- _ => rewrite E end.
Qed.

#[export] Instance AsyncTask_TaskLaws {Fut} : TaskLaws (AsyncTask Fut).
Proof.
  split; simpl; intros; try done.
  - eexists. rewrite (proj2 (Z.ltb_ge _ _)) by lia. done.
  - by rewrite (proj2 (Z.ltb_lt _ _)) by lia.
Qed.

(* ------------------------------------------------------------------ *)
(** ** Contexts and page tables in memory *)

Definition context_ok (c : ProcessContext) : Prop := Forall is_u64 (context_words c).

Lemma context_of_context_words c : context_of_words (context_words c) = c.
Proof. by destruct c. Qed.

Lemma read_write_context m p c : context_ok c -> read_context (write_context m p c) p = c.
Proof.
  intros Hc. unfold read_context, write_context.
  change 20%nat with (length (context_words c)).
  rewrite load_store_words by done. apply context_of_context_words.
Qed.

Lemma write_context_out m p c x :
  x < p \/ p + SIZEOF_CONTEXT <= x -> write_context m p c x = m x.
Proof. intros Hx. apply store_words_out. unfold SIZEOF_CONTEXT in Hx. simpl length. lia. Qed.

Lemma read_context_ext m1 m2 p :
  (forall x, p <= x < p + SIZEOF_CONTEXT -> m1 x = m2 x) -> read_context m1 p = read_context m2 p.
Proof.
  intros Hx. unfold read_context. f_equal. apply load_words_ext.
  unfold SIZEOF_CONTEXT in Hx. intros. apply Hx. lia.
Qed.

Lemma context_ok_initial e s : is_u64 e -> is_u64 s -> context_ok (initial_context e s).
Proof.
  intros He Hs. unfold context_ok. simpl.
  repeat first [apply Forall_nil_2 | apply Forall_cons_2]; try done; unfold is_u64; lia.
Qed.

Lemma copy_entries_out m dst src n x :
  x < dst \/ dst + 8 * Z.of_nat n <= x -> copy_entries m dst src n x = m x.
Proof.
  induction n as [|n IH]; intros Hx; simpl; [done|].
  unfold store64. rewrite store_bytes_out by (rewrite length_le_bytes; lia). apply IH. lia.
Qed.

(** Entry [i] of the copy is entry [i] of the source when the two tables do
    not overlap. *)
Lemma copy_entries_in m dst src n i :
  bytes_ok m ->
  dst + 8 * Z.of_nat n <= src \/ src + 8 * Z.of_nat n <= dst ->
  (i < n)%nat ->
  load64 (copy_entries m dst src n) (dst + 8 * Z.of_nat i) = load64 m (src + 8 * Z.of_nat i).
Proof.
  intros Hm Hd. revert i. induction n as [|n IH]; intros i Hi; [lia|]. simpl copy_entries.
  assert (Hsrc : load64 (copy_entries m dst src n) (src + 8 * Z.of_nat n)
                 = load64 m (src + 8 * Z.of_nat n)).
  { unfold load64. f_equal. apply load_bytes_ext. intros x Hx. apply copy_entries_out. lia. }
  destruct (decide (i = n)) as [->|Hne].
  - rewrite load64_store64; [done|]. rewrite Hsrc. by apply load64_u64.
  - rewrite load64_store64_ne by lia. apply IH; lia.
Qed.

Lemma bytes_ok_copy_entries m dst src n : bytes_ok m -> bytes_ok (copy_entries m dst src n).
Proof. intros Hm. induction n; simpl; [done|]. by apply bytes_ok_store64. Qed.

#[global] Arguments copy_entries : simpl never.
#[global] Arguments write_context : simpl never.

Section CreationFacts.
Context `{X86Addr} {F : Type} `{FrameAllocator F}.
Implicit Types (m : mem) (fa : F).

Lemma create_process_page_table_inv mapper fa m frame fa' m' :
  create_process_page_table mapper fa m = Ret (frame, fa', m') ->
  exists new_table,
    allocate_frame fa = Ret (Some frame, fa') /\
    VirtAddr_add (phys_offset mapper) frame = Ret new_table /\
    m' = copy_entries m new_table (level_4_table mapper) 512.
Proof.
  unfold create_process_page_table. intros Hr. inv_ret.
  destruct x as [[fr|] fa1]; [|done]. inv_ret. simplify_eq. eauto.
Qed.

Lemma Process_new_inv id e s mapper fa m c p fa' m' c' :
  Process_new id e s mapper fa m c = Ret (p, fa', m', c') ->
  exists new_table,
    160 <= s /\ TIMESTAMP_COUNTER c + 1 < 2 ^ 64 /\
    allocate_frame fa = Ret (Some (p_page_table_frame p), fa') /\
    VirtAddr_add (phys_offset mapper) (p_page_table_frame p) = Ret new_table /\
    m' = write_context (copy_entries m new_table (level_4_table mapper) 512)
           (s - 160) (initial_context e s) /\
    p = mkProcess id (s - 160) (p_page_table_frame p) Ready 0 [] 0 DEFAULT_PRIORITY
          ResourceLimits_default ProcessStats_default id id (TIMESTAMP_COUNTER c + 1) /\
    c' = {| NEXT_PID := NEXT_PID c; NEXT_PGID := NEXT_PGID c; NEXT_SID := NEXT_SID c;
            TIMESTAMP_COUNTER := TIMESTAMP_COUNTER c + 1 |}.
Proof.
  unfold Process_new, sub_u64, SIZEOF_CONTEXT.
  destruct (Z.leb_spec 160 s); simpl; [|done]. intros Hr. inv_ret.
  destruct x as [[fr fa1] m1].
  match goal with E : create_process_page_table _ _ _ = _ |- _ =>
    apply create_process_page_table_inv in E as (nt & Ha & Hv & ->) end.
  unfold get_current_time in Hr. inv_ret. simplify_eq/=. exists nt. eauto 10.
Qed.
End CreationFacts.

Lemma context_words_of_words w : length w = 20%nat -> context_words (context_of_words w) = w.
Proof. intros Hw. do 20 (destruct w as [|? w]; [done|]). by destruct w. Qed.

Lemma read_context_ok m p : bytes_ok m -> context_ok (read_context m p).
Proof.
  intros Hm. unfold context_ok, read_context.
  rewrite context_words_of_words by apply length_load_words.
  generalize 20%nat. intros n. revert p. induction n as [|n IH]; intros p; constructor; [|apply IH].
  by apply load64_u64.
Qed.

Definition set_rax (v : Z) (c : ProcessContext) : ProcessContext :=
  {| r15 := r15 c; r14 := r14 c; r13 := r13 c; r12 := r12 c; rbp := rbp c; rbx := rbx c;
     r11 := r11 c; r10 := r10 c; r9 := r9 c; r8 := r8 c; rdi := rdi c; rsi := rsi c;
     rdx := rdx c; rcx := rcx c; rax := v; rip := rip c; cs := cs c; rflags := rflags c;
     rsp := rsp c; ss := ss c |}.

Lemma read_context_store_rax m p :
  read_context (store64 m (p + RAX_OFFSET) 0) p = set_rax 0 (read_context m p).
Proof.
  unfold read_context, RAX_OFFSET. change (8 * 14) with (8 * Z.of_nat 14).
  rewrite load_words_store64 by (unfold is_u64; lia). unfold set_rax. simpl. done.
Qed.

Lemma store_rax_out m p x :
  x < p \/ p + SIZEOF_CONTEXT <= x -> store64 m (p + RAX_OFFSET) 0 x = m x.
Proof.
  unfold SIZEOF_CONTEXT, RAX_OFFSET. intros Hx. apply store_bytes_out.
  rewrite length_le_bytes. lia.
Qed.

(** Two regions of memory do not overlap. *)
Definition disjoint_regions (a n b k : Z) : Prop := a + n <= b \/ b + k <= a.

Section ForkFacts.
Context `{X86Addr} {F : Type} `{FrameAllocator F}.
Implicit Types (m : mem) (fa : F).

Lemma Process_fork_inv self mapper fa m c child fa' m' c' :
  Process_fork self mapper fa m c = Ret (child, fa', m', c') ->
  let ctx := read_context m (p_context_ptr self) in
  exists new_table m1,
    VirtAddr_add (phys_offset mapper) (p_page_table_frame child) = Ret new_table /\
    m1 = write_context (copy_entries m new_table (level_4_table mapper) 512)
           (rsp ctx - 160) (initial_context (rip ctx) (rsp ctx)) /\
    m' = store64 (write_context m1 (rsp ctx - 160) (read_context m1 (p_context_ptr self)))
           (rsp ctx - 160 + RAX_OFFSET) 0 /\
    p_context_ptr child = rsp ctx - 160 /\
    p_id child = NEXT_PID c /\ p_parent_id child = p_id self /\
    p_process_group_id child = p_process_group_id self /\
    p_session_id child = p_session_id self /\
    p_priority child = p_priority self /\
    p_resource_limits child = p_resource_limits self /\
    p_state child = Ready /\ NEXT_PID c' = NEXT_PID c + 1.
Proof.
  intros Hr ctx. unfold Process_fork, allocate_pid in Hr. inv_ret.
  match goal with x : Process * F * mem * counters |- _ => destruct x as [[[ch fa1] m1] c1] end.
  inv_ret. match goal with E : Process_new _ _ _ _ _ _ _ = _ |- _ =>
    apply Process_new_inv in E as (nt & _ & _ & _ & Hv & -> & Hp & ->) end.
  simplify_eq/=. exists nt. eexists. rewrite Hp. simpl. split_and!; done.
Qed.

Lemma fork_child_context self mapper fa m c child fa' m' c' new_table :
  bytes_ok m ->
  Process_fork self mapper fa m c = Ret (child, fa', m', c') ->
  VirtAddr_add (phys_offset mapper) (p_page_table_frame child) = Ret new_table ->
  disjoint_regions (p_context_ptr child) 160 (p_context_ptr self) 160 ->
  disjoint_regions new_table 4096 (p_context_ptr self) 160 ->
  let ctx := read_context m (p_context_ptr self) in
  read_context m' (p_context_ptr child) = set_rax 0 ctx /\
  read_context m' (p_context_ptr self) = ctx.
Proof.
  intros Hm Hf Hv Hd Ht ctx.
  destruct (Process_fork_inv _ _ _ _ _ _ _ _ _ Hf) as (nt & m1 & Hv' & -> & -> & Hc & _).
  rewrite Hv in Hv'. injection Hv' as <-. fold ctx in Hc |- *. rewrite Hc in Hd |- *.
  unfold disjoint_regions in *.
  set (m1 := copy_entries m new_table (level_4_table mapper) 512).
  assert (E1 : read_context (write_context m1 (rsp ctx - 160)
                 (initial_context (rip ctx) (rsp ctx))) (p_context_ptr self) = ctx).
  { apply read_context_ext. unfold SIZEOF_CONTEXT. intros x Hx.
    rewrite write_context_out by (unfold SIZEOF_CONTEXT; lia).
    apply copy_entries_out. lia. }
  rewrite E1, read_context_store_rax, read_write_context by by apply read_context_ok.
  split; [done|]. etransitivity; [|exact E1].
  apply read_context_ext. unfold SIZEOF_CONTEXT. intros x Hx.
  rewrite store_rax_out, write_context_out by (unfold SIZEOF_CONTEXT; lia). done.
Qed.

(** When the saved stack pointer is where the context ends, as after
    [Process::new], the child's context is the parent's own. *)
Lemma fork_aliased_context self mapper fa m c child fa' m' c' :
  bytes_ok m ->
  rsp (read_context m (p_context_ptr self)) = p_context_ptr self + 160 ->
  Process_fork self mapper fa m c = Ret (child, fa', m', c') ->
  let ctx := read_context m (p_context_ptr self) in
  p_context_ptr child = p_context_ptr self /\
  read_context m' (p_context_ptr self) = initial_context (rip ctx) (rsp ctx).
Proof.
  intros Hm Hs Hf ctx.
  destruct (Process_fork_inv _ _ _ _ _ _ _ _ _ Hf) as (nt & m1 & _ & -> & -> & Hc & _).
  fold ctx in Hs, Hc |- *. assert (rsp ctx - 160 = p_context_ptr self) as E by lia.
  rewrite E in Hc |- *. split; [done|].
  assert (Hok : context_ok (initial_context (rip ctx) (rsp ctx))).
  { pose proof (read_context_ok m (p_context_ptr self) Hm) as Hk.
    unfold context_ok in Hk. fold ctx in Hk. unfold context_words in Hk.
    rewrite Forall_forall in Hk. apply context_ok_initial; apply Hk; set_solver. }
  rewrite (read_write_context _ _ (initial_context _ _)) by done.
  rewrite read_context_store_rax, read_write_context by done. done.
Qed.
End ForkFacts.

(* ------------------------------------------------------------------ *)
(** ** The invariant of a process control block *)

(** Limits as the Rust types allow them. *)
Definition limits_typed (l : ResourceLimits) : Prop :=
  is_u64 (max_memory l) /\ is_u64 (max_cpu_time l) /\
  is_u32 (max_processes l) /\ is_u32 (max_files l).

(** What the methods maintain beyond the widths of the fields. *)
Record process_inv (p : Process) : Prop := {
  pi_children : children_count (p_stats p) = Z.of_nat (length (p_children p));
  pi_files : 0 <= files_opened (p_stats p);
  pi_priority : 0 <= p_priority p <= 31;
  pi_exit_code : -255 <= p_exit_code p <= 255;
  pi_limits : limits_typed (p_resource_limits p);
  pi_limits_nonzero : 0 < max_memory (p_resource_limits p) /\ 0 < max_cpu_time (p_resource_limits p)
}.

(** The widths of the fields, as the Rust types have them; a frame is the
    page-aligned start of a frame of physical memory (52 bits). *)
Definition is_i32 (z : Z) : Prop := - 2 ^ 31 <= z < 2 ^ 31.
Definition is_phys_frame (f : Z) : Prop := 0 <= f < 2 ^ 52 /\ f mod 4096 = 0.

Definition state_typed (s : ProcessState) : Prop :=
  match s with
  | Waiting (WaitReason_Child n | WaitReason_IpcReceive n | WaitReason_IpcSend n | WaitReason_Sleep n) => is_u64 n
  | _ => True
  end.

Definition counters_typed (c : counters) : Prop :=
  is_u64 (NEXT_PID c) /\ is_u64 (NEXT_PGID c) /\ is_u64 (NEXT_SID c) /\ is_u64 (TIMESTAMP_COUNTER c).

Record stats_typed (s : ProcessStats) : Prop := {
  st_cpu_time : is_u64 (cpu_time_used s);
  st_memory : is_u64 (memory_used s);
  st_children : is_u32 (children_count s);
  st_files : is_u32 (files_opened s)
}.

Record process_typed (p : Process) : Prop := {
  ty_id : is_u64 (p_id p);
  ty_context_ptr : is_u64 (p_context_ptr p);
  ty_frame : is_phys_frame (p_page_table_frame p);
  ty_state : state_typed (p_state p);
  ty_parent_id : is_u64 (p_parent_id p);
  ty_children : Forall is_u64 (p_children p);
  ty_exit_code : is_i32 (p_exit_code p);
  ty_priority : is_u8 (p_priority p);
  ty_limits : limits_typed (p_resource_limits p);
  ty_stats : stats_typed (p_stats p);
  ty_group : is_u64 (p_process_group_id p);
  ty_session : is_u64 (p_session_id p);
  ty_time : is_u64 (p_creation_time p)
}.

(** Every way the kernel mutates a process: the [&mut self] methods, and the
    direct assignments of the scheduler, the timer and the system calls.  The
    arguments are of the types the code gives them. *)
Inductive process_step : Process -> Process -> Prop :=
| ps_state s p : state_typed s -> process_step p (set_state s p)
| ps_context_ptr v p : is_u64 v -> process_step p (set_context_ptr v p)
| ps_timeout_code p : process_step p (set_exit_code (-1) p)
| ps_exit code r p p' : is_i32 code -> Process_exit code p = (r, p') -> process_step p p'
| ps_join t r p p' : is_u64 t -> Process_join t p = (r, p') -> process_step p p'
| ps_set_priority n r p p' :
    is_u8 n -> Process_set_priority n p = (r, p') -> process_step p p'
| ps_set_limits l r p p' :
    limits_typed l -> Process_set_resource_limits l p = (r, p') -> process_step p p'
| ps_add_child c r p p' : is_u64 c -> Process_add_child c p = Ret (r, p') -> process_step p p'
| ps_remove_child c r p p' : is_u64 c -> Process_remove_child c p = (r, p') -> process_step p p'
| ps_make_orphan p : process_step p (Process_make_orphan p)
| ps_cpu t p p' : is_u64 t -> Process_update_cpu_usage t p = Ret p' -> process_step p p'
| ps_memory n p : is_u64 n -> process_step p (Process_update_memory_usage n p)
| ps_open r p p' : Process_increment_file_count p = Ret (r, p') -> process_step p p'
| ps_close p : process_step p (Process_decrement_file_count p)
| ps_new_group c r p p' c' :
    counters_typed c -> Process_create_process_group p c = Ret (r, p', c') -> process_step p p'
| ps_join_group g r p p' : is_u64 g -> Process_join_process_group g p = (r, p') -> process_step p p'
| ps_session c r p p' c' :
    counters_typed c -> Process_create_session p c = Ret (r, p', c') -> process_step p p'.

Lemma remove_child_inv c p : process_inv p -> process_inv (Process_remove_child c p).2.
Proof.
  intros [Hc Hf Hp He Hl Hn]. unfold Process_remove_child.
  destruct (position _ (p_children p)) as [i|] eqn:E; [|by constructor].
  apply position_lookup in E as (x & _ & Hx & _).
  constructor; simpl; try done.
  pose proof (lookup_lt_Some _ _ _ Hx). rewrite length_delete by by eexists.
  unfold saturating_sub. simpl. lia.
Qed.

Lemma add_child_ok c p :
  process_inv p ->
  exists r, Process_add_child c p = Ret r /\ process_inv r.2.
Proof.
  intros [Hc Hf Hp He Hl Hn]. unfold Process_add_child.
  destruct (Z.leb_spec (max_processes (p_resource_limits p)) (children_count (p_stats p))).
  - eexists. split; [done|]. by constructor.
  - unfold limits_typed, is_u32 in Hl. unfold add_u32. simpl.
    rewrite (proj2 (Z.ltb_lt _ _)) by lia. eexists. split; [done|].
    constructor; simpl; try done. rewrite length_app. simpl. lia.
Qed.

Lemma process_step_inv p p' : process_step p p' -> process_inv p -> process_inv p'.
Proof.
  destruct 1 as
    [| | |? ? ? ? ? H|? ? ? ? ? H|? ? ? ? Hu H|? ? ? ? Ht H|c ? p ? ? H|c ? p ? ? H| |? ? ? ? H| |? ? ? H
    | |? ? ? ? ? ? H|? ? ? ? ? H|? ? ? ? ? ? H]; intros Hi; pose proof Hi as [Hc Hf Hp He Hl Hn];
    try (constructor; simpl; done || lia).
  - unfold Process_exit in H. step_cases; constructor; simpl; done || lia.
  - unfold Process_join in H. step_cases; by constructor.
  - unfold Process_set_priority in H. unfold is_u8 in Hu. step_cases; constructor; simpl; done || lia.
  - unfold Process_set_resource_limits in H. destruct Ht as (? & ? & ?).
    unfold is_u64 in *. step_cases; constructor; simpl; try done; lia.
  - destruct (add_child_ok c p Hi) as ([r' q] & E & Hq). rewrite E in H. by simplify_eq/=.
  - pose proof (remove_child_inv c p Hi) as Hq. by rewrite H in Hq.
  - unfold Process_update_cpu_usage in H. inv_ret. by constructor.
  - unfold Process_increment_file_count, add_u32 in H. step_cases; inv_ret; simplify_eq.
    all: try (destruct (_ <? _); simplify_eq/=); constructor; simpl; done || lia.
  - constructor; simpl; try done. unfold saturating_sub. lia.
  - unfold Process_create_process_group, allocate_pgid in H. inv_ret. simplify_eq. by constructor.
  - unfold Process_join_process_group in H. step_cases; by constructor.
  - unfold Process_create_session, allocate_sid in H. step_cases; inv_ret; simplify_eq; by constructor.
Qed.

Lemma saturating_sub_u32 n : is_u32 n -> is_u32 (saturating_sub n 1).
Proof. unfold is_u32, saturating_sub. lia. Qed.

Lemma add_u32_typed n n' : is_u32 n -> add_u32 n 1 = Ret n' -> is_u32 n'.
Proof. unfold add_u32, is_u32. intros H E. case_match; bool_to_prop; simplify_eq. lia. Qed.

Lemma child_ops_typed c p :
  is_u64 c -> process_typed p ->
  (forall r p', Process_add_child c p = Ret (r, p') -> process_typed p') /\
  process_typed (Process_remove_child c p).2.
Proof.
  intros Hc [T1 T2 T3 T4 T5 T6 T7 T8 T9 [S1 S2 S3 S4] T11 T12 T13]. split.
  - intros r p' H. unfold Process_add_child in H. step_cases; inv_ret; simplify_eq; [by constructor|].
    constructor; simpl; try done.
    + apply Forall_app. split; [done|]. by constructor.
    + constructor; simpl; try done. eapply add_u32_typed; [exact S3|eassumption].
  - unfold Process_remove_child. case_match; [|by constructor].
    constructor; simpl; try done.
    + rewrite Forall_forall in T6 |- *. intros x Hx. apply T6.
      eapply elem_of_submseteq; [exact Hx|]. apply sublist_submseteq, sublist_delete.
    + constructor; simpl; try done. by apply saturating_sub_u32.
Qed.

Lemma process_step_typed p p' : process_step p p' -> process_typed p -> process_typed p'.
Proof.
  destruct 1 as
    [| | |? ? ? ? Hc H|? ? ? ? Hc H|? ? ? ? Hu H|? ? ? ? Hl H|c r p q Hc H|c ? p ? Hc H| |t ? ? Hc H| |? ? ? H
    | |c ? ? ? ? Hc H|? ? ? ? Hc H|c ? ? ? ? Hc H]; intros Ht;
    pose proof Ht as [T1 T2 T3 T4 T5 T6 T7 T8 T9 [S1 S2 S3 S4] T11 T12 T13].
  - by constructor.
  - by constructor.
  - by constructor.
  - unfold Process_exit in H. step_cases; by constructor.
  - unfold Process_join in H. step_cases; by constructor.
  - unfold Process_set_priority in H. step_cases; by constructor.
  - unfold Process_set_resource_limits in H. step_cases; by constructor.
  - eapply child_ops_typed; [exact Hc|exact Ht|exact H].
  - destruct (child_ops_typed c p Hc Ht) as [_ Hq]. by rewrite H in Hq.
  - by constructor.
  - unfold Process_update_cpu_usage in H. inv_ret. simplify_eq. constructor; try done.
    constructor; simpl; try done. unfold is_u64 in *. lia.
  - constructor; try done.
  - unfold Process_increment_file_count in H. step_cases; inv_ret; simplify_eq; [by constructor|].
    constructor; try done. constructor; simpl; try done. eapply add_u32_typed; [exact S4|eassumption].
  - constructor; try done. constructor; simpl; try done. by apply saturating_sub_u32.
  - destruct Hc as (_ & ? & _). unfold Process_create_process_group, allocate_pgid in H. inv_ret.
    simplify_eq. by constructor.
  - unfold Process_join_process_group in H. step_cases; by constructor.
  - destruct Hc as (_ & _ & ? & _). unfold Process_create_session, allocate_sid in H.
    step_cases; inv_ret; simplify_eq; by constructor.
Qed.

Lemma process_typed_new id ptr fr t :
  is_u64 id -> is_u64 ptr -> is_phys_frame fr -> is_u64 t ->
  process_typed (mkProcess id ptr fr Ready 0 [] 0 DEFAULT_PRIORITY ResourceLimits_default
                   ProcessStats_default id id t).
Proof.
  intros. constructor; try done;
    try (constructor; simpl); unfold DEFAULT_PRIORITY, limits_typed, is_u64, is_u32, is_u8, is_i32; simpl; lia.
Qed.

Lemma process_inv_new id ptr fr t :
  process_inv (mkProcess id ptr fr Ready 0 [] 0 DEFAULT_PRIORITY ResourceLimits_default
                 ProcessStats_default id id t).
Proof.
  constructor; unfold DEFAULT_PRIORITY, limits_typed, is_u64, is_u32; simpl; lia.
Qed.

(* ------------------------------------------------------------------ *)
(** ** Properties *)

Definition demo_mapper : OffsetPageTable := {| phys_offset := 0x18000000000; level_4_table := 0x18000001000 |}.
Definition demo_new := @Process_new x86_doc (list Z) frame_pool 1 0x400000 0x601000
                         demo_mapper [0x5000; 0x6000] zero_mem counters_init.

(** [Process::new] sets up a runnable process.  When it returns, the
    context saved at [context_ptr] reads back as the initial register set
    (entry point, user selectors, interrupts enabled, the stack pointer at the
    top of the stack), the 512 entries of the new level-4 table are those of
    the active table, the process is [Ready] and leads its own group and
    session, and no memory outside the new table and the context changed. *)
Theorem Process_new_sets_up {F} `{X86Addr} `{FrameAllocator F}
    id e s mapper (fa : F) m c p fa' m' c' new_table :
  bytes_ok m -> is_u64 e -> is_u64 s ->
  Process_new id e s mapper fa m c = Ret (p, fa', m', c') ->
  VirtAddr_add (phys_offset mapper) (p_page_table_frame p) = Ret new_table ->
  disjoint_regions new_table 4096 (level_4_table mapper) 4096 ->
  disjoint_regions new_table 4096 (p_context_ptr p) 160 ->
  p_context_ptr p = s - 160 /\
  read_context m' (p_context_ptr p) = initial_context e s /\
  (forall i, (i < 512)%nat ->
     load64 m' (new_table + 8 * Z.of_nat i) = load64 m (level_4_table mapper + 8 * Z.of_nat i)) /\
  p_state p = Ready /\ p_process_group_id p = id /\ p_session_id p = id /\
  (forall x, ~ (new_table <= x < new_table + 4096) -> ~ (s - 160 <= x < s) -> m' x = m x).
Proof.
  intros Hm He Hs Hn Hv Hd1 Hd2.
  apply Process_new_inv in Hn as (nt & _ & _ & _ & Hv' & -> & Hp & _).
  rewrite Hv in Hv'. injection Hv' as <-. unfold disjoint_regions in *.
  rewrite Hp in Hd2 |- *. simpl in *. split_and!; try done.
  - by apply read_write_context, context_ok_initial.
  - intros i Hi. rewrite <- (copy_entries_in m new_table _ 512 i) by (done || lia).
    unfold load64. f_equal. apply load_bytes_ext. intros x Hx.
    apply write_context_out. unfold SIZEOF_CONTEXT. lia.
  - intros x Hx1 Hx2. rewrite write_context_out by (unfold SIZEOF_CONTEXT; lia).
    apply copy_entries_out. lia.
Qed.

Lemma Process_new_sets_up_witness :
  exists p fa' m' c', demo_new = Ret (p, fa', m', c') /\
    read_context m' (p_context_ptr p) = initial_context 0x400000 0x601000.
Proof.
  do 4 eexists. split; [reflexivity|].
  refine (proj1 (proj2 (@Process_new_sets_up (list Z) x86_doc frame_pool 1 0x400000 0x601000
    demo_mapper [0x5000; 0x6000] zero_mem counters_init _ _ _ _ 0x18000005000
    _ _ _ eq_refl eq_refl _ _))).
  - apply bytes_ok_zero.
  - unfold is_u64. lia.
  - unfold is_u64. lia.
  - right. by vm_compute.
  - right. by vm_compute.
Defined.

(** C35: what [fork] does.  The child gets the next PID and inherits parent
    link, group, session, priority and limits; nothing is written outside the
    new page table and the child's context.  The child's context lies just
    below the parent's saved stack pointer, not in memory of its own.  Where it
    and the new page table do not overlap the parent's saved context, the
    child's registers are the parent's with [rax = 0] and the parent's are
    unchanged.  Where it is the parent's saved context, the registers of both
    are replaced by the initial ones, with the parent's instruction and stack
    pointer. *)
Theorem Process_fork_child {F} `{X86Addr} `{FrameAllocator F}
    self mapper (fa : F) m c child fa' m' c' new_table :
  bytes_ok m ->
  Process_fork self mapper fa m c = Ret (child, fa', m', c') ->
  VirtAddr_add (phys_offset mapper) (p_page_table_frame child) = Ret new_table ->
  let ctx := read_context m (p_context_ptr self) in
  p_id child = NEXT_PID c /\ NEXT_PID c' = NEXT_PID c + 1 /\
  p_parent_id child = p_id self /\
  p_process_group_id child = p_process_group_id self /\
  p_session_id child = p_session_id self /\
  p_priority child = p_priority self /\
  p_resource_limits child = p_resource_limits self /\
  p_context_ptr child = rsp ctx - 160 /\
  (forall x, ~ (new_table <= x < new_table + 4096) ->
     ~ (p_context_ptr child <= x < p_context_ptr child + 160) -> m' x = m x) /\
  (disjoint_regions (p_context_ptr child) 160 (p_context_ptr self) 160 ->
   disjoint_regions new_table 4096 (p_context_ptr self) 160 ->
   read_context m' (p_context_ptr child) = set_rax 0 ctx /\
   read_context m' (p_context_ptr self) = ctx) /\
  (p_context_ptr child = p_context_ptr self ->
   read_context m' (p_context_ptr self) = initial_context (rip ctx) (rsp ctx)).
Proof.
  intros Hm Hf Hv ctx.
  destruct (Process_fork_inv _ _ _ _ _ _ _ _ _ Hf)
    as (nt & m1 & Hv' & Em1 & Em' & Hcp & ? & ? & ? & ? & ? & ? & _ & ?).
  rewrite Hv in Hv'. injection Hv' as <-. fold ctx in Em1, Em', Hcp.
  split_and!; try done.
  - rewrite Hcp. intros x Hx1 Hx2. rewrite Em', store_rax_out, write_context_out, Em1, write_context_out
      by (unfold SIZEOF_CONTEXT; lia). apply copy_entries_out. lia.
  - intros Hd Ht. by eapply fork_child_context.
  - intros Heq. eapply fork_aliased_context; [done| |exact Hf]. fold ctx. lia.
Qed.

(** A process whose saved stack pointer is away from its saved context. *)
Definition demo_ctx : ProcessContext := set_rax 57 (initial_context 0x400000 0x602000).
Definition demo_parent : Process :=
  mkProcess 7 0x700000 0x5000 Running 1 [] 0 4 ResourceLimits_default ProcessStats_default 3 2 9.
Definition demo_fork := @Process_fork x86_doc (list Z) frame_pool demo_parent demo_mapper [0x6000]
                          (write_context zero_mem 0x700000 demo_ctx) counters_init.


Lemma Process_fork_child_witness :
  exists child fa' m' c', demo_fork = Ret (child, fa', m', c') /\
    read_context m' (p_context_ptr child)
    = set_rax 0 (read_context (write_context zero_mem 0x700000 demo_ctx) (p_context_ptr demo_parent)).
Proof.
  assert (Hok : match demo_fork with
    | Ret (child, _, _, _) => p_context_ptr child = 0x602000 - 160 /\ p_page_table_frame child = 0x6000
    | Panic => False end) by (vm_compute; split; reflexivity).
  destruct demo_fork as [[[[child fa'] m'] c']|] eqn:E; [|destruct Hok]. destruct Hok as [Hp Hfr].
  unfold demo_fork in E.
  destruct (@Process_fork_child (list Z) x86_doc frame_pool demo_parent demo_mapper [0x6000]
    (write_context zero_mem 0x700000 demo_ctx) counters_init child fa' m' c' 0x18000006000)
    as (_ & _ & _ & _ & _ & _ & _ & _ & _ & Hd & _).
  - apply bytes_ok_store_words, bytes_ok_zero.
  - exact E.
  - rewrite Hfr. reflexivity.
  - exists child, fa', m', c'. split; [reflexivity|]. rewrite Hp in Hd |- *.
    apply Hd; [left|right]; vm_compute; discriminate.
Defined.

(** [fork] of a process that has not run since [Process::new] does not
    give the child a context of its own.  The child's stack is the parent's,
    so its context is written over the parent's saved context: both processes
    share one context, and whatever registers were saved there are replaced by
    the initial ones (src/src/process/mod.rs, line 251). *)
Theorem Process_fork_fresh_aliases {F} `{X86Addr} `{FrameAllocator F}
    id e s mapper (fa : F) m c p fa1 m1 c1 child fa2 m2 c2 :
  bytes_ok m -> is_u64 e -> is_u64 s ->
  Process_new id e s mapper fa m c = Ret (p, fa1, m1, c1) ->
  Process_fork p mapper fa1 m1 c1 = Ret (child, fa2, m2, c2) ->
  p_context_ptr child = p_context_ptr p /\
  read_context m2 (p_context_ptr p) = initial_context e s.
Proof.
  intros Hm He Hs Hn Hf.
  apply Process_new_inv in Hn as (nt & Hge & _ & _ & _ & Em & Hp & _).
  assert (Er : read_context m1 (p_context_ptr p) = initial_context e s).
  { rewrite Em, Hp. by apply read_write_context, context_ok_initial. }
  assert (Hb : bytes_ok m1).
  { rewrite Em. by apply bytes_ok_store_words, bytes_ok_copy_entries. }
  destruct (fork_aliased_context p mapper fa1 m1 c1 child fa2 m2 c2) as [H1 H2]; try done.
  - rewrite Er, Hp. simpl. lia.
  - split; [done|]. by rewrite H2, Er.
Qed.

Lemma Process_fork_fresh_aliases_witness :
  exists p fa1 m1 c1 child fa2 m2 c2,
    demo_new = Ret (p, fa1, m1, c1) /\
    @Process_fork x86_doc (list Z) frame_pool p demo_mapper fa1 m1 c1 = Ret (child, fa2, m2, c2) /\
    p_context_ptr child = p_context_ptr p.
Proof.
  do 8 eexists. split; [reflexivity|]. split; [reflexivity|].
  refine (proj1 (@Process_fork_fresh_aliases (list Z) x86_doc frame_pool 1 0x400000 0x601000
    demo_mapper [0x5000; 0x6000] zero_mem counters_init _ _ _ _ _ _ _ _
    bytes_ok_zero _ _ eq_refl eq_refl)).
  all: unfold is_u64; lia.
Defined.

(** C36: every control block reachable from [Process::new] by any sequence of
    the kernel's mutations, with arguments of the types the code gives them, has
    every field within its machine type (64-bit identifiers, pointers, times
    and usage, 32-bit counts and exit code, 8-bit priority, a page-aligned
    52-bit frame address, and so on for the children and the reason of a wait)
    and is well formed: the counter of children is the length of the children
    list, the priority is within 0..31, the exit code within -255..255, and the
    memory and CPU limits are never zero. *)
Theorem process_reachable_inv {F} `{X86Addr} `{FrameAllocator F}
    id e s mapper (fa : F) m c p0 fa' m' c' p :
  is_u64 id -> is_u64 s -> counters_typed c ->
  (forall f fa1, allocate_frame fa = Ret (Some f, fa1) -> is_phys_frame f) ->
  Process_new id e s mapper fa m c = Ret (p0, fa', m', c') ->
  rtc process_step p0 p -> process_typed p /\ process_inv p.
Proof.
  intros Hid Hs (_ & _ & _ & Hc) Hfr (nt & Hge & Htime & Hal & _ & _ & Hp & _)%Process_new_inv Hr.
  assert (Hi : process_typed p0 /\ process_inv p0).
  { rewrite Hp. split; [|apply process_inv_new].
    apply process_typed_new; [done|unfold is_u64 in *; lia|by eapply Hfr|unfold is_u64 in *; lia]. }
  clear Hp Hal. induction Hr as [|p0 p1 p2 Hst _ IH]; [done|]. apply IH. destruct Hi as [Ht Hi].
  split; [by apply (process_step_typed p0)|by apply (process_step_inv p0)].
Qed.

Lemma process_reachable_inv_witness :
  exists p0 fa' m' c' p, demo_new = Ret (p0, fa', m', c') /\
    Process_add_child 2 p0 = Ret (Ok tt, p) /\ process_typed p /\ process_inv p.
Proof.
  do 5 eexists. split; [reflexivity|]. split; [reflexivity|].
  eapply (@process_reachable_inv (list Z) x86_doc frame_pool 1 0x400000 0x601000
    demo_mapper [0x5000; 0x6000] zero_mem counters_init).
  - unfold is_u64. lia.
  - unfold is_u64. lia.
  - unfold counters_typed, is_u64. simpl. lia.
  - simpl. intros f fa1 E. injection E as <- _. split; [lia|reflexivity].
  - reflexivity.
  - eapply rtc_l; [|apply rtc_refl]. eapply (ps_add_child 2); [unfold is_u64; lia|reflexivity].
Defined.
