(* ===== verification/Scheduler.v ===== *)
(** * Scheduler: the process table (src/src/process/scheduler.rs)

    The [Scheduler] struct behind the [SCHEDULER] lock and every method of
    it.  The processes are a [VecDeque] whose front is the process that runs;
    the process tree is a [BTreeMap] from PID to parent PID.  [schedule] also
    writes [CPU_DATA.current_process_id] and the page-table register CR3,
    which are the [Machine] record. *)

From stdpp Require Import base sets numbers relations sorting list.
From S2P Require Import Prelude Errors Mem BTree X86 Process.
Local Open Scope Z_scope.
Local Open Scope ruix_scope.

Definition MAX_PRIORITY : Z := 0.
Definition MIN_PRIORITY : Z := 31.

(** [syscall::CpuData] and its static [CPU_DATA] *)
Record CpuData : Type := mkCpuData {
  user_rsp : Z;
  kernel_stack_top : Z;
  current_process_id : Z;
  tss_ptr : Z
}.

Record Machine : Type := mkMachine {
  CPU_DATA : CpuData;
  CR3 : Z
}.

Definition CPU_DATA_init : CpuData := mkCpuData 0 0 0 0.

Definition set_current_pid (pid : Z) (mc : Machine) : Machine :=
  mkMachine (mkCpuData (user_rsp (CPU_DATA mc)) (kernel_stack_top (CPU_DATA mc))
               pid (tss_ptr (CPU_DATA mc))) (CR3 mc).
Definition write_cr3 (frame : Z) (mc : Machine) : Machine := mkMachine (CPU_DATA mc) frame.

Section Sched.
Context {Fut : Type}.

Record Scheduler : Type := mkScheduler {
  processes : list Process;
  async_tasks : list (AsyncTask Fut);
  process_tree : btree Z;
  orphans : list Z;
  current_priority : Z;
  task_queue : list Z
}.

Definition SCHEDULER_init : Scheduler := mkScheduler [] [] [] [] DEFAULT_PRIORITY [].

Definition set_processes (ps : list Process) (s : Scheduler) : Scheduler :=
  mkScheduler ps (async_tasks s) (process_tree s) (orphans s) (current_priority s) (task_queue s).
Definition set_tree (t : btree Z) (s : Scheduler) : Scheduler :=
  mkScheduler (processes s) (async_tasks s) t (orphans s) (current_priority s) (task_queue s).
Definition set_orphans (o : list Z) (s : Scheduler) : Scheduler :=
  mkScheduler (processes s) (async_tasks s) (process_tree s) o (current_priority s) (task_queue s).
Definition set_current_priority (n : Z) (s : Scheduler) : Scheduler :=
  mkScheduler (processes s) (async_tasks s) (process_tree s) (orphans s) n (task_queue s).

(** [for process in &mut self.processes { if process.id == pid { ..; break } }] *)
Definition update_process (pid : Z) (f : Process -> Process) (s : Scheduler) : Scheduler :=
  set_processes (tbl_upd p_id pid f (processes s)) s.
Definition find_process (pid : Z) (s : Scheduler) : option Process :=
  tbl_get p_id pid (processes s).

Definition add_process (p : Process) (s : Scheduler) : Scheduler :=
  let s := set_tree (bt_insert (p_id p) (p_parent_id p) (process_tree s)) s in
  let s := if (p_parent_id p =? 0) && negb (p_id p =? 0)
           then set_orphans (orphans s ++ [p_id p]) s else s in
  set_processes (processes s ++ [p]) s.

Definition add_async_task (t : AsyncTask Fut) (s : Scheduler) : Scheduler :=
  mkScheduler (processes s) (async_tasks s ++ [t]) (process_tree s) (orphans s)
    (current_priority s) (task_queue s ++ [get_id t]).

Definition get_next_process_by_priority (s : Scheduler) : option Z :=
  p_id <$> List.find (fun p => is_ready_or_running (p_state p)) (processes s).

Definition get_next_async_task (s : Scheduler) : option Z :=
  get_id <$> List.find can_schedule (async_tasks s).

Definition get_next_task (s : Scheduler) : option (Z * TaskType) :=
  match get_next_process_by_priority s with
  | Some pid => Some (pid, TaskType_Process)
  | None =>
      match get_next_async_task s with
      | Some task_id => Some (task_id, TaskType_Async)
      | None => None
      end
  end.

Definition remove_orphan (pid : Z) (s : Scheduler) : Scheduler :=
  set_orphans (remove_first (fun x => x =? pid) (orphans s)) s.

Definition register_child (parent_pid child_pid : Z) (s : Scheduler)
    : outcome (KernelResult unit * Scheduler) :=
  let s := set_tree (bt_insert child_pid parent_pid (process_tree s)) s in
  match find_process parent_pid s with
  | None => Ret (Ok tt, remove_orphan child_pid s)
  | Some p =>
      let! r := Process_add_child child_pid p in
      let '(res, p') := r in
      let s := update_process parent_pid (fun _ => p') s in
      match res with
      | Err e => Ret (Err e, s)
      | Ok _ => Ret (Ok tt, remove_orphan child_pid s)
      end
  end.

(** The children of [pid] in the tree, in iteration order. *)
Definition tree_children (pid : Z) (t : btree Z) : list Z :=
  (List.filter (fun e => e.2 =? pid) t).*1.

(** Body of [for child_pid in children_to_orphan] *)
Definition orphan_child (s : Scheduler) (child_pid : Z) : Scheduler :=
  let s := set_tree (bt_insert child_pid 0 (process_tree s)) s in
  match find_process child_pid s with
  | Some _ =>
      set_orphans (orphans s ++ [child_pid]) (update_process child_pid Process_make_orphan s)
  | None => s
  end.

(** The wake-up of a process waiting for [pid] (or for any child). *)
Definition wake_waiter (pid : Z) (p : Process) : Process :=
  match p_state p with
  | Waiting (WaitReason_Child waiting_pid) =>
      if (waiting_pid =? pid) || (waiting_pid =? U64_MAX) then set_state Ready p else p
  | _ => p
  end.

Definition handle_process_exit (exiting_pid exit_code : Z) (s : Scheduler)
    : KernelResult unit * Scheduler :=
  let found :=
    match find_process exiting_pid s with
    | None => Ok (0, s)
    | Some p =>
        match Process_exit exit_code p with
        | (Err e, _) => Err e
        | (Ok _, p') => Ok (p_parent_id p', update_process exiting_pid (fun _ => p') s)
        end
    end in
  match found with
  | Err e => (Err e, s)
  | Ok (parent_pid, s) =>
      let s := if negb (parent_pid =? 0)
               then update_process parent_pid (fun p => (Process_remove_child exiting_pid p).2) s
               else s in
      let children_to_orphan := tree_children exiting_pid (process_tree s) in
      let s := fold_left orphan_child children_to_orphan s in
      let s := if negb (parent_pid =? 0)
               then update_process parent_pid (wake_waiter exiting_pid) s
               else s in
      (Ok tt, s)
  end.

Definition find_zombie_children (parent_pid : Z) (s : Scheduler) : list Z :=
  p_id <$> List.filter
    (fun p => (p_parent_id p =? parent_pid) && bool_decide (p_state p = Zombie)) (processes s).

(** The predicate of [retain] in [reap_zombie_child]: entries it removes. *)
Definition reapable (parent_pid child_pid : Z) (p : Process) : bool :=
  (p_id p =? child_pid) && (p_parent_id p =? parent_pid) && bool_decide (p_state p = Zombie).

Definition reap_zombie_child (parent_pid child_pid : Z) (s : Scheduler)
    : KernelResult Z * Scheduler :=
  let removed := List.filter (reapable parent_pid child_pid) (processes s) in
  let s := set_processes
    (List.filter (fun p => negb (reapable parent_pid child_pid p)) (processes s)) s in
  match last removed with
  | Some z =>
      let s := update_process parent_pid (fun p => (Process_remove_child child_pid p).2) s in
      let s := set_tree (bt_remove child_pid (process_tree s)) s in
      (Ok (p_exit_code z), s)
  | None => (kerror ProcessError_NotFound, s)
  end.

Definition get_orphans (s : Scheduler) : list Z := orphans s.

Definition is_orphan (pid : Z) (s : Scheduler) : bool :=
  existsb (fun x => x =? pid) (orphans s).

Definition get_process_hierarchy (pid : Z) (s : Scheduler) : option (Z * list Z) :=
  match bt_get pid (process_tree s) with
  | Some parent_pid => Some (parent_pid, tree_children pid (process_tree s))
  | None => None
  end.

Definition cleanup_terminated_process (pid : Z) (s : Scheduler)
    : KernelResult unit * Scheduler :=
  match find_process pid s with
  | None => (kerror ProcessError_NotFound, s)
  | Some p =>
      if bool_decide (p_state p = Zombie) then
        let s := set_processes (List.filter (fun p => negb (p_id p =? pid)) (processes s)) s in
        let s := set_tree (bt_remove pid (process_tree s)) s in
        (Ok tt, remove_orphan pid s)
      else (kerror ProcessError_InvalidState, s)
  end.

(** Body of [for zombie_pid in zombies_to_remove] *)
Definition cleanup_one (st : outcome (Z * Scheduler)) (pid : Z) : outcome (Z * Scheduler) :=
  let! x := st in
  let '(cleaned_count, s) := x in
  match cleanup_terminated_process pid s with
  | (Ok _, s') => let! n := add_u32 cleaned_count 1 in Ret (n, s')
  | (Err _, s') => Ret (cleaned_count, s')
  end.

Definition cleanup_all_zombies (s : Scheduler) : outcome (KernelResult Z * Scheduler) :=
  let zombies_to_remove :=
    p_id <$> List.filter (fun p => bool_decide (p_state p = Zombie)) (processes s) in
  let! x := fold_left cleanup_one zombies_to_remove (Ret (0, s)) in
  let '(cleaned_count, s) := x in Ret (Ok cleaned_count, s).

(** Body of the loop of [get_memory_stats] *)
Definition memory_stats_one (st : outcome (Z * Z)) (p : Process) : outcome (Z * Z) :=
  let! x := st in
  let '(total_memory, process_count) := x in
  if negb (bool_decide (p_state p = Zombie)) then
    let! t := add_u64 total_memory (memory_used (p_stats p)) in
    let! n := add_u32 process_count 1 in Ret (t, n)
  else Ret (total_memory, process_count).

Definition get_memory_stats (s : Scheduler) : outcome (Z * Z) :=
  fold_left memory_stats_one (processes s) (Ret (0, 0)).

Definition check_system_limits (s : Scheduler) : outcome bool :=
  let! x := get_memory_stats s in
  let '(total_memory, process_count) := x in
  if 1000 <? process_count then Ret false
  else if 1024 * 1024 * 1024 <? total_memory then Ret false
  else Ret true.

(** The bookkeeping on the process found at the front in [schedule]. *)
Definition save_front (current_context_ptr : Z) (ps : list Process) : list Process :=
  match ps with
  | [] => []
  | prev :: rest =>
      let prev := set_context_ptr current_context_ptr prev in
      (if bool_decide (p_state prev = Running) then set_state Ready prev else prev) :: rest
  end.

(** The round-robin fallback at the end of [schedule]. *)
Definition schedule_fallback (current_context_ptr : Z) (s : Scheduler) (mc : Machine)
    : Z * Scheduler * Machine :=
  let s := match processes s with
           | prev :: rest => set_processes (rest ++ [set_context_ptr current_context_ptr prev]) s
           | [] => s
           end in
  match processes s with
  | next :: _ =>
      (p_context_ptr next, s,
       write_cr3 (p_page_table_frame next) (set_current_pid (p_id next) mc))
  | [] => (current_context_ptr, s, set_current_pid 0 mc)
  end.

Definition schedule (current_context_ptr : Z) (s : Scheduler) (mc : Machine)
    : Z * Scheduler * Machine :=
  match get_next_process_by_priority s with
  | Some next_pid =>
      match position (fun p => p_id p =? next_pid) (processes s) with
      | Some pos =>
          match processes s !! pos with
          | Some next_process =>
              let rest := save_front current_context_ptr (delete pos (processes s)) in
              let next_process := set_state Running next_process in
              (p_context_ptr next_process,
               set_processes (next_process :: rest)
                 (set_current_priority (p_priority next_process) s),
               write_cr3 (p_page_table_frame next_process)
                 (set_current_pid (p_id next_process) mc))
          | None => schedule_fallback current_context_ptr s mc
          end
      | None => schedule_fallback current_context_ptr s mc
      end
  | None => schedule_fallback current_context_ptr s mc
  end.

(** [process::handle_switch], called by the timer interrupt: the port writes
    (the end-of-interrupt command to the PIC) come first, then the saved
    context is dereferenced. *)
Definition handle_switch (current_context_ptr : Z) (s : Scheduler) (mc : Machine)
    : outcome (list (Z * Z) * (Z * Scheduler * Machine)) :=
  let! _ := deref 8 current_context_ptr in
  Ret ([(0x20, 0x20)], schedule current_context_ptr s mc).
End Sched.
Arguments Scheduler Fut : clear implicits.

(* ------------------------------------------------------------------ *)
(** ** The invariant of the process table *)

(** Only the front of the table may be [Running]. *)
Definition running_at_front (ps : list Process) : Prop :=
  Forall (fun p => p_state p <> Running) (tail ps).

(** The process tree has an entry for the process, and the entry is its
    parent. *)
Definition in_tree (t : btree Z) (p : Process) : Prop := is_Some (bt_get (p_id p) t).
Definition tree_agrees (t : btree Z) (p : Process) : Prop :=
  bt_get (p_id p) t = Some (p_parent_id p).

(** A parentless process (other than process 0) is on the orphan list. *)
Definition orphan_listed (o : list Z) (p : Process) : Prop :=
  p_parent_id p = 0 -> p_id p <> 0 -> p_id p ∈ o.

(** A mutation that keeps the identity and the parent of a process and does
    not start it. *)
Definition benign (f : Process -> Process) (p : Process) : Prop :=
  p_id (f p) = p_id p /\ p_parent_id (f p) = p_parent_id p /\
  (process_inv p -> process_inv (f p)) /\
  (p_state (f p) = Running -> p_state p = Running).

Section SchedInv.
Context {Fut : Type}.
Implicit Types (s : Scheduler Fut) (p : Process).

Definition pids s : list Z := keys p_id (processes s).

(** The table is well formed, and for the PIDs in [D] the parent links agree
    with the process tree and the orphan list. *)
Record sched_inv_on (D : Z -> Prop) s : Prop := {
  si_nodup : NoDup (pids s);
  si_sorted : bt_sorted (process_tree s);
  si_procs : Forall process_inv (processes s);
  si_running : running_at_front (processes s);
  si_entry : Forall (in_tree (process_tree s)) (processes s);
  si_tree : Forall (fun p => D (p_id p) -> tree_agrees (process_tree s) p) (processes s);
  si_orphans : Forall (fun p => D (p_id p) -> orphan_listed (orphans s) p) (processes s)
}.

Lemma sched_inv_init {D} : sched_inv_on D SCHEDULER_init.
Proof. split; simpl; constructor. Qed.

Lemma sched_inv_weaken {D} (D' : Z -> Prop) s :
  (forall k, k ∈ pids s -> D' k -> D k) -> sched_inv_on D s -> sched_inv_on D' s.
Proof.
  intros HD [Hn Hs Hp Hr He Ht Ho].
  assert (Hin : forall p, p ∈ processes s -> p_id p ∈ pids s)
    by (intros p Hp'; apply list_elem_of_fmap; eauto).
  split; try done; apply Forall_forall; intros p Hp' HD'.
  - rewrite Forall_forall in Ht. auto.
  - rewrite Forall_forall in Ho. auto.
Qed.

Lemma find_process_split s pid p :
  find_process pid s = Some p ->
  exists l1 l2, processes s = l1 ++ p :: l2 /\ p_id p = pid /\
    forall f, processes (update_process pid f s) = l1 ++ f p :: l2.
Proof.
  intros H. destruct (find_elem _ _ _ H) as [_ Hk]. apply Z.eqb_eq in Hk.
  destruct (update_first_split _ id _ _ H) as (l1 & l2 & E & _ & Hl & Hp).
  exists l1, l2. split_and!; [done..|]. intros f. simpl. unfold tbl_upd. rewrite E.
  clear E H. induction Hl as [|x l1 Hx _ IH]; simpl; [by rewrite Hp|]. by rewrite Hx, IH.
Qed.

Lemma find_process_none s pid : find_process pid s = None <-> pid ∉ pids s.
Proof. apply tbl_get_none. Qed.

Lemma update_process_none s pid f :
  find_process pid s = None -> update_process pid f s = s.
Proof.
  intros H. unfold update_process. rewrite tbl_upd_none by done. by destruct s.
Qed.

Lemma pids_update s pid f :
  (forall p, p_id p = pid -> p_id (f p) = pid) -> pids (update_process pid f s) = pids s.
Proof. intros Hf. by apply keys_upd. Qed.

Lemma find_update s pid f :
  (forall p, p_id p = pid -> p_id (f p) = pid) ->
  find_process pid (update_process pid f s) = f <$> find_process pid s.
Proof. intros Hf. by apply tbl_get_upd. Qed.

Lemma find_update_ne s pid pid' f :
  (forall p, p_id p = pid -> p_id (f p) = pid) -> pid <> pid' ->
  find_process pid' (update_process pid f s) = find_process pid' s.
Proof. intros Hf Hne. by apply tbl_get_upd_ne. Qed.

Lemma running_at_front_app l1 p q l2 :
  (p_state q = Running -> p_state p = Running) ->
  running_at_front (l1 ++ p :: l2) -> running_at_front (l1 ++ q :: l2).
Proof.
  unfold running_at_front. destruct l1 as [|x l1]; simpl; [done|].
  rewrite !Forall_app, !Forall_cons. naive_solver.
Qed.

Lemma update_process_inv {D} s pid f :
  sched_inv_on D s ->
  (forall p, find_process pid s = Some p -> benign f p) ->
  sched_inv_on D (update_process pid f s).
Proof.
  intros Hi Hf. destruct (find_process pid s) as [p|] eqn:E;
    [|by rewrite update_process_none].
  destruct (Hf p eq_refl) as (Hid & Hpar & Hinv & Hrun).
  destruct (find_process_split _ _ _ E) as (l1 & l2 & Hps & Hk & Hu). specialize (Hu f).
  destruct Hi as [Hn Hs Hp Hr He Ht Ho]. unfold pids, keys in Hn.
  rewrite Hps in Hn, Hp, Hr, He, Ht, Ho.
  apply Forall_app in Hp as [Hp1 [Hp2 Hp3]%Forall_cons].
  apply Forall_app in He as [He1 [He2 He3]%Forall_cons].
  apply Forall_app in Ht as [Ht1 [Ht2 Ht3]%Forall_cons].
  apply Forall_app in Ho as [Ho1 [Ho2 Ho3]%Forall_cons].
  split; unfold pids, keys; rewrite ?Hu; simpl; try done.
  - rewrite fmap_app in *. csimpl. by rewrite Hid.
  - apply Forall_app. split; [done|]. constructor; auto.
  - by eapply running_at_front_app.
  - apply Forall_app. split; [done|]. constructor; [|done].
    unfold in_tree. by rewrite Hid.
  - apply Forall_app. split; [done|]. constructor; [|done].
    unfold tree_agrees. by rewrite Hid, Hpar.
  - apply Forall_app. split; [done|]. constructor; [|done].
    unfold orphan_listed. by rewrite Hid, Hpar.
Qed.

(** The invariant without the order of the table (used where entries are
    removed or moved). *)
Lemma sched_inv_sublist {D} s ps :
  sched_inv_on D s -> ps `sublist_of` processes s -> running_at_front ps ->
  sched_inv_on D (set_processes ps s).
Proof.
  intros [Hn Hs Hp Hr He Ht Ho] Hsub Hrun.
  assert (G : forall P : Process -> Prop, Forall P (processes s) -> Forall P ps).
  { intros P HP. rewrite Forall_forall in HP |- *. intros p Hin.
    apply HP. by eapply elem_of_submseteq, sublist_submseteq. }
  split; simpl; auto. by eapply NoDup_keys_sublist.
Qed.

Lemma running_at_front_filter (q : Process -> bool) ps :
  running_at_front ps -> running_at_front (List.filter q ps).
Proof.
  destruct ps as [|p ps]; simpl; [done|]. unfold running_at_front. simpl. intros H.
  assert (G : Forall (fun p => p_state p <> Running) (List.filter q ps)).
  { rewrite Forall_forall in *. intros x [Hx _]%elem_of_filterb. auto. }
  destruct (q p); simpl; [done|]. by apply Forall_tail.
Qed.
End SchedInv.

(** The invariant for every PID. *)
Notation sched_inv := (sched_inv_on (fun _ => True)).
Arguments si_nodup {Fut D} s _.
Arguments si_procs {Fut D} s _.

(* ------------------------------------------------------------------ *)
(** ** Every operation keeps the invariant *)

Lemma remove_child_fields c p :
  let q := (Process_remove_child c p).2 in
  p_id q = p_id p /\ p_parent_id q = p_parent_id p /\ p_state q = p_state p /\
  p_exit_code q = p_exit_code p /\ p_context_ptr q = p_context_ptr p.
Proof. unfold Process_remove_child. by destruct (position _ _). Qed.

Lemma benign_remove_child c p : benign (fun p => (Process_remove_child c p).2) p.
Proof.
  destruct (remove_child_fields c p) as (H1 & H2 & H3 & _).
  unfold benign. rewrite H1, H2, H3. split_and!; try done. apply remove_child_inv.
Qed.

Lemma wake_waiter_fields pid p :
  p_id (wake_waiter pid p) = p_id p /\ p_parent_id (wake_waiter pid p) = p_parent_id p /\
  p_exit_code (wake_waiter pid p) = p_exit_code p /\
  p_children (wake_waiter pid p) = p_children p /\
  (p_state (wake_waiter pid p) = p_state p \/
   (exists r, p_state p = Waiting r) /\ p_state (wake_waiter pid p) = Ready).
Proof.
  unfold wake_waiter. destruct (p_state p) as [| |[w| | | |]| |] eqn:E; eauto 10.
  destruct (_ || _); simpl; eauto 10.
Qed.

Lemma set_state_inv st p : process_inv p -> process_inv (set_state st p).
Proof. by intros []; constructor. Qed.

Lemma benign_wake_waiter pid p : benign (wake_waiter pid) p.
Proof.
  destruct (wake_waiter_fields pid p) as (H1 & H2 & _ & _ & H3). unfold benign.
  rewrite H1, H2. split_and!; try done.
  - unfold wake_waiter. intros Hi. repeat case_match; try done. by apply set_state_inv.
  - destruct H3 as [->|[_ ->]]; done.
Qed.

Lemma benign_set_state st p : st <> Running -> benign (set_state st) p.
Proof. intros H. split_and!; try done. apply set_state_inv. Qed.

Lemma Process_exit_ok code p p' r :
  Process_exit code p = (Ok r, p') ->
  p' = set_exit_code code (set_state Zombie p) /\ -255 <= code <= 255.
Proof. unfold Process_exit, kerror. intros H. step_cases. split; [done|lia]. Qed.

Lemma benign_exit code p p' r : Process_exit code p = (Ok r, p') -> benign (fun _ => p') p.
Proof.
  intros [-> H]%Process_exit_ok. split_and!; try done. intros []; constructor; simpl; done || lia.
Qed.

Lemma in_tree_insert c v t p : in_tree t p -> in_tree (bt_insert c v t) p.
Proof.
  unfold in_tree. intros H. destruct (decide (c = p_id p)) as [->|].
  - rewrite bt_get_insert. by eexists.
  - by rewrite bt_get_insert_ne.
Qed.

Section SchedOps.
Context {Fut : Type}.
Implicit Types (s : Scheduler Fut) (p : Process).

Lemma add_process_inv {D} s p :
  sched_inv_on D s -> p_id p ∉ pids s -> process_inv p -> p_state p <> Running ->
  sched_inv_on D (add_process p s).
Proof.
  intros [Hn Hs Hp Hr He Ht Ho] Hfresh Hpi Hst.
  assert (Hps : processes (add_process p s) = processes s ++ [p])
    by (unfold add_process; by destruct (_ && _)).
  assert (Htr : process_tree (add_process p s) = bt_insert (p_id p) (p_parent_id p) (process_tree s))
    by (unfold add_process; by destruct (_ && _)).
  assert (Hor : orphans s `sublist_of` orphans (add_process p s)).
  { unfold add_process. destruct (_ && _); simpl; [|done]. by apply sublist_inserts_r. }
  split; unfold pids, keys in *; rewrite ?Hps, ?Htr.
  - rewrite fmap_app. apply NoDup_app. split_and!; [done| |apply NoDup_singleton].
    intros x Hx ->%list_elem_of_singleton. done.
  - by apply bt_insert_sorted.
  - apply Forall_app. eauto.
  - unfold running_at_front in *. destruct (processes s); simpl in *; [constructor|].
    apply Forall_app. eauto.
  - apply Forall_app. split; [|constructor; [|done]; unfold in_tree; rewrite bt_get_insert; by eexists].
    eapply Forall_impl; [exact He|]. intros q. apply in_tree_insert.
  - apply Forall_app. split; [|constructor; [|done]; intros _; apply bt_get_insert].
    rewrite Forall_forall in Ht |- *. intros q Hq HD. unfold tree_agrees.
    rewrite bt_get_insert_ne; [by apply Ht|]. intros E. apply Hfresh. rewrite E.
    apply list_elem_of_fmap. eauto.
  - apply Forall_app. split.
    + eapply Forall_impl; [exact Ho|]. intros q Hq HD H1 H2.
      eapply elem_of_submseteq; [|by apply sublist_submseteq]. by apply Hq.
    + constructor; [|done]. intros _ H1 H2. unfold add_process. rewrite H1.
      rewrite (proj2 (Z.eqb_neq (p_id p) 0) H2). simpl. set_solver.
Qed.

Lemma tree_insert_inv {D} s k v :
  sched_inv_on D s ->
  sched_inv_on (fun i => D i /\ i <> k) (set_tree (bt_insert k v (process_tree s)) s).
Proof.
  intros [Hn Hs Hp Hr He Ht Ho]. split; simpl; try done; [by apply bt_insert_sorted|..].
  - eapply Forall_impl; [exact He|]. intros q. apply in_tree_insert.
  - eapply Forall_impl; [exact Ht|]. intros q Hq [HD Hne]. unfold tree_agrees.
    rewrite bt_get_insert_ne by auto. by apply Hq.
  - eapply Forall_impl; [exact Ho|]. intros q Hq [HD _]. auto.
Qed.

(** A PID that is not in the table can be dropped from the exceptions. *)
Lemma sched_inv_fresh {D} s k :
  sched_inv_on (fun i => D i /\ i <> k) s -> k ∉ pids s -> sched_inv_on D s.
Proof. intros Hi Hk. eapply sched_inv_weaken; [|exact Hi]. intros i Hin HD. split; [done|by intros ->]. Qed.

Lemma tree_remove_fresh {D} s k :
  sched_inv_on D s -> k ∉ pids s -> sched_inv_on D (set_tree (bt_remove k (process_tree s)) s).
Proof.
  intros [Hn Hs Hp Hr He Ht Ho] Hk.
  assert (Hne : forall q, q ∈ processes s -> k <> p_id q)
    by (intros q Hq ->; apply Hk, list_elem_of_fmap; eauto).
  split; simpl; try done; [by apply bt_remove_sorted|..].
  - rewrite Forall_forall in He |- *. intros q Hq. unfold in_tree.
    rewrite bt_get_remove_ne by auto. by apply He.
  - rewrite Forall_forall in Ht |- *. intros q Hq HD. unfold tree_agrees.
    rewrite bt_get_remove_ne by auto. by apply Ht.
Qed.

Lemma remove_orphan_inv {D} s k :
  sched_inv_on D s -> sched_inv_on (fun i => D i /\ i <> k) (remove_orphan k s).
Proof.
  intros [Hn Hs Hp Hr He Ht Ho]. split; simpl; try done.
  - eapply Forall_impl; [exact Ht|]. intros q Hq [HD _]. auto.
  - eapply Forall_impl; [exact Ho|]. intros q Hq [HD Hne] H1 H2. specialize (Hq HD H1 H2).
    clear -Hq Hne. induction (orphans s) as [|x o IH]; simpl; [done|].
    destruct (Z.eqb_spec x k) as [->|]; [set_solver|].
    apply elem_of_cons in Hq as [->|Hq]; set_solver.
Qed.

(** Registering a child under any PID keeps the invariant for the others. *)
Lemma register_child_on {D} s parent child :
  sched_inv_on D s ->
  exists r s', register_child parent child s = Ret (r, s') /\
    sched_inv_on (fun i => D i /\ i <> child) s' /\ pids s' = pids s.
Proof.
  intros Hi. unfold register_child.
  set (s1 := set_tree (bt_insert child parent (process_tree s)) s).
  assert (H1 : sched_inv_on (fun i => D i /\ i <> child) s1) by by apply tree_insert_inv.
  assert (Hw : forall s2, sched_inv_on (fun i => D i /\ i <> child) s2 ->
    sched_inv_on (fun i => D i /\ i <> child) (remove_orphan child s2)).
  { intros s2 H2. eapply sched_inv_weaken; [|exact (remove_orphan_inv s2 child H2)]. simpl. tauto. }
  destruct (find_process parent s1) as [p|] eqn:E.
  - assert (Hp : process_inv p).
    { destruct H1 as [_ _ Hp _ _ _ _]. rewrite Forall_forall in Hp.
      apply Hp. by eapply tbl_get_elem. }
    destruct (add_child_ok child p Hp) as ([r p'] & Ha & Hp'). rewrite Ha. simpl in *.
    assert (Hb : benign (fun _ => p') p).
    { unfold Process_add_child in Ha. unfold add_u32 in Ha.
      repeat (case_match; simplify_eq/=); split_and!; try done. }
    assert (Hk : p_id p' = parent).
    { destruct Hb as (-> & _). by eapply tbl_get_key. }
    assert (H2 : sched_inv_on (fun i => D i /\ i <> child) (update_process parent (fun _ => p') s1)).
    { apply update_process_inv; [done|]. intros q Hq. by simplify_eq. }
    assert (Hq : pids (update_process parent (fun _ => p') s1) = pids s)
      by (rewrite pids_update; [done|]; by intros).
    destruct r; eexists _, _; (split; [reflexivity|]); split; try done. by apply Hw.
  - eexists _, _. split; [reflexivity|]. split; [|done]. by apply Hw.
Qed.

Lemma orphan_child_inv {D} s c : sched_inv_on D s -> sched_inv_on D (orphan_child s c).
Proof.
  intros Hi. unfold orphan_child.
  set (s1 := set_tree (bt_insert c 0 (process_tree s)) s).
  destruct (find_process c s1) as [p|] eqn:E.
  2: { apply (sched_inv_fresh s1 c); [by apply tree_insert_inv|]. by apply find_process_none in E. }
  destruct (find_process_split _ _ _ E) as (l1 & l2 & Hps & Hk & Hu).
  specialize (Hu Process_make_orphan). simpl in Hps.
  destruct Hi as [Hn Hs Hp Hr He Ht Ho]. unfold pids, keys in Hn.
  assert (He' : Forall (in_tree (bt_insert c 0 (process_tree s))) (processes s))
    by (eapply Forall_impl; [exact He|]; intros q; apply in_tree_insert).
  rewrite Hps in Hn, Hp, Hr, He', Ht, Ho. rewrite fmap_app in Hn. csimpl in Hn.
  assert (Hne : Forall (fun q => p_id q <> c) l1 /\ Forall (fun q => p_id q <> c) l2).
  { apply NoDup_app in Hn as (_ & Hx & [Hy _]%NoDup_cons). rewrite <- Hk.
    split; apply Forall_forall; intros q Hq E'.
    - apply (Hx (p_id q)); [apply list_elem_of_fmap; eauto|]. rewrite E'. set_solver.
    - apply Hy. rewrite <- E'. apply list_elem_of_fmap. eauto. }
  destruct Hne as [Hne1 Hne2].
  apply Forall_app in Hp as [Hp1 [Hp2 Hp3]%Forall_cons].
  apply Forall_app in He' as [He1 [He2 He3]%Forall_cons].
  apply Forall_app in Ht as [Ht1 [Ht2 Ht3]%Forall_cons].
  apply Forall_app in Ho as [Ho1 [Ho2 Ho3]%Forall_cons].
  assert (Gt : forall l, Forall (fun q => p_id q <> c) l ->
    Forall (fun q => D (p_id q) -> tree_agrees (process_tree s) q) l ->
    Forall (fun q => D (p_id q) -> tree_agrees (bt_insert c 0 (process_tree s)) q) l).
  { intros l H1 H2. apply Forall_forall. intros q Hq HD. unfold tree_agrees.
    rewrite Forall_forall in H1, H2. rewrite bt_get_insert_ne; [by apply H2|].
    intros ->. by apply (H1 q). }
  assert (Go : forall l, Forall (fun q => D (p_id q) -> orphan_listed (orphans s) q) l ->
                 Forall (fun q => D (p_id q) -> orphan_listed (orphans s ++ [c]) q) l).
  { intros l H1. eapply Forall_impl; [exact H1|]. intros q Hq HD ? ?. apply elem_of_app. left. by apply Hq. }
  split; unfold pids, keys; simpl in *; rewrite ?Hu.
  - rewrite fmap_app. done.
  - by apply bt_insert_sorted.
  - apply Forall_app. split; [done|]. constructor; [|done]. by destruct Hp2; constructor.
  - eapply running_at_front_app; [|exact Hr]. done.
  - apply Forall_app. by split; [|constructor].
  - apply Forall_app. split; [by apply Gt|]. constructor; [|by apply Gt].
    intros _. unfold tree_agrees. simpl. rewrite Hk. apply bt_get_insert.
  - apply Forall_app. split; [by apply Go|]. constructor; [|by apply Go].
    intros _ _ _. simpl. rewrite Hk. set_solver.
Qed.

Lemma orphan_children_inv {D} cs s : sched_inv_on D s -> sched_inv_on D (fold_left orphan_child cs s).
Proof.
  revert s. induction cs as [|c cs IH]; intros s Hi; simpl; [done|].
  by apply IH, orphan_child_inv.
Qed.
End SchedOps.

Section SchedOps2.
Context {Fut : Type}.
Implicit Types (s : Scheduler Fut) (p : Process).

Lemma update_parent_inv {D} s parent f :
  sched_inv_on D s -> (forall p, benign f p) ->
  sched_inv_on D (if negb (parent =? 0) then update_process parent f s else s).
Proof. intros Hi Hf. case_match; [|done]. by apply update_process_inv. Qed.

Lemma handle_process_exit_inv {D} s pid code :
  sched_inv_on D s -> sched_inv_on D (handle_process_exit pid code s).2.
Proof.
  intros Hi. unfold handle_process_exit.
  destruct (find_process pid s) as [p|] eqn:E; simpl.
  - destruct (Process_exit code p) as [[r|e] p'] eqn:Ex; simpl; [|done].
    apply update_parent_inv; [|apply benign_wake_waiter].
    apply orphan_children_inv, update_parent_inv; [|apply benign_remove_child].
    apply update_process_inv; [done|]. intros q Hq. simplify_eq. by eapply benign_exit.
  - by apply orphan_children_inv.
Qed.

Lemma reapable_unique s parent child z :
  NoDup (pids s) -> z ∈ List.filter (reapable parent child) (processes s) ->
  child ∉ pids (set_processes
    (List.filter (fun p => negb (reapable parent child p)) (processes s)) s).
Proof.
  intros Hn [Hz Hr]%elem_of_filterb [q [-> [Hq Hnr]%elem_of_filterb]]%list_elem_of_fmap.
  assert (q = z) as ->.
  { pose proof (tbl_get_unique p_id _ q Hn Hq) as G1.
    pose proof (tbl_get_unique p_id _ z Hn Hz) as G2.
    unfold reapable in Hr. bool_to_prop. congruence. }
  by rewrite Hr in Hnr.
Qed.

Lemma last_elem {A} (l : list A) x : last l = Some x -> x ∈ l.
Proof. rewrite last_Some. intros [l' ->]. set_solver. Qed.

Lemma reap_zombie_child_inv {D} s parent child :
  sched_inv_on D s -> sched_inv_on D (reap_zombie_child parent child s).2.
Proof.
  intros Hi. unfold reap_zombie_child.
  set (s1 := set_processes _ s).
  assert (H1 : sched_inv_on D s1).
  { apply sched_inv_sublist; [done|apply filterb_sublist|].
    apply running_at_front_filter. by destruct Hi. }
  destruct (last _) as [z|] eqn:E; simpl; [|done].
  apply last_elem in E. apply reapable_unique in E; [|by destruct Hi].
  apply (tree_remove_fresh (update_process parent _ s1)).
  - apply update_process_inv; [done|]. intros. apply benign_remove_child.
  - rewrite pids_update; [done|]. intros p Hp.
    by destruct (remove_child_fields child p) as (-> & _).
Qed.

Lemma cleanup_terminated_process_inv {D} s pid :
  sched_inv_on D s -> sched_inv_on D (cleanup_terminated_process pid s).2.
Proof.
  intros Hi. unfold cleanup_terminated_process.
  destruct (find_process pid s) as [p|] eqn:E; [|done].
  case_bool_decide; [|done]. simpl.
  set (s1 := set_processes _ s).
  assert (H1 : sched_inv_on D s1).
  { apply sched_inv_sublist; [done|apply filterb_sublist|].
    apply running_at_front_filter. by destruct Hi. }
  assert (H2 : pid ∉ pids s1).
  { intros (q & -> & [_ Hq]%elem_of_filterb)%list_elem_of_fmap.
    by rewrite Z.eqb_refl in Hq. }
  set (s2 := set_tree (bt_remove pid (process_tree s1)) s1).
  apply (sched_inv_fresh (remove_orphan pid s2) pid); [|done].
  apply remove_orphan_inv. by apply tree_remove_fresh.
Qed.

Lemma save_front_facts cur ps :
  keys p_id (save_front cur ps) = keys p_id ps /\
  (Forall (fun p => p_state p <> Running) (tail ps) ->
   Forall (fun p => p_state p <> Running) (save_front cur ps)) /\
  (forall P : Process -> Prop,
     (forall p st, P p -> P (set_state st p)) -> (forall p, P p -> P (set_context_ptr cur p)) ->
     Forall P ps -> Forall P (save_front cur ps)).
Proof.
  destruct ps as [|p ps]; [done|]. simpl. case_bool_decide as E; split_and!; try done.
  - intros Ht. by constructor.
  - intros P H1 H2 [Hp Hps]%Forall_cons. constructor; auto.
  - intros Ht. by constructor.
  - intros P H1 H2 [Hp Hps]%Forall_cons. constructor; auto.
Qed.

(** What [schedule] does when some process is ready or running. *)
Lemma schedule_ready cur s mc l1 p l2 :
  NoDup (pids s) -> processes s = l1 ++ p :: l2 ->
  Forall (fun q => is_ready_or_running (p_state q) = false) l1 ->
  is_ready_or_running (p_state p) = true ->
  schedule cur s mc =
    (p_context_ptr p,
     set_processes (set_state Running p :: save_front cur (l1 ++ l2))
       (set_current_priority (p_priority p) s),
     write_cr3 (p_page_table_frame p) (set_current_pid (p_id p) mc)).
Proof.
  intros Hn Hps Hl1 Hp.
  assert (Hg : get_next_process_by_priority s = Some (p_id p)).
  { unfold get_next_process_by_priority. rewrite Hps. by rewrite (find_split _ l1 p l2). }
  unfold schedule. rewrite Hg.
  assert (Hpos : position (fun q => p_id q =? p_id p) (processes s) = Some (length l1)).
  { rewrite Hps. unfold pids, keys in Hn. rewrite Hps, fmap_app in Hn. csimpl in Hn.
    apply NoDup_app in Hn as (_ & Hx & _). clear -Hx.
    induction l1 as [|q l1 IH]; simpl; [by rewrite Z.eqb_refl|].
    destruct (Z.eqb_spec (p_id q) (p_id p)) as [E|E].
    - destruct (Hx (p_id q)); [set_solver|]. rewrite E. set_solver.
    - rewrite IH; [done|]. intros y Hy. apply Hx. set_solver. }
  rewrite Hpos, Hps, list_lookup_middle by done.
  rewrite delete_middle. done.
Qed.

(** ... and when none is. *)
Lemma schedule_idle cur s mc :
  Forall (fun q => is_ready_or_running (p_state q) = false) (processes s) ->
  schedule cur s mc = schedule_fallback cur s mc.
Proof.
  intros H. unfold schedule, get_next_process_by_priority.
  apply find_is_none in H. by rewrite H.
Qed.

Lemma first_ready (ps : list Process) :
  Forall (fun q => is_ready_or_running (p_state q) = false) ps \/
  exists l1 p l2, ps = l1 ++ p :: l2 /\
    Forall (fun q => is_ready_or_running (p_state q) = false) l1 /\
    is_ready_or_running (p_state p) = true.
Proof.
  destruct (List.find (fun q => is_ready_or_running (p_state q)) ps) as [p|] eqn:E.
  - right. destruct (update_first_split _ id _ _ E) as (l1 & l2 & H1 & _ & H2 & H3). eauto 10.
  - left. by apply find_is_none.
Qed.

Lemma rotate_inv {D} cur s prev rest :
  sched_inv_on D s -> processes s = prev :: rest ->
  Forall (fun q => is_ready_or_running (p_state q) = false) (prev :: rest) ->
  sched_inv_on D (set_processes (rest ++ [set_context_ptr cur prev]) s).
Proof.
  intros [Hn Hs Hp Hr He Ht Ho] Hps Hidle. rewrite Hps in *.
  apply Forall_cons in Hp as [Hp1 Hp2], He as [He1 He2], Ht as [Ht1 Ht2], Ho as [Ho1 Ho2], Hidle as [Hi1 Hi2].
  split; simpl; try done.
  - unfold pids, keys in *. rewrite Hps in Hn. simpl. rewrite fmap_app. csimpl in *.
    apply NoDup_cons in Hn as [Hn1 Hn2]. apply NoDup_app.
    split_and!; [done| |apply NoDup_singleton]. by intros x Hx ->%list_elem_of_singleton.
  - apply Forall_app. split; [done|]. constructor; [|done]. by destruct Hp1; constructor.
  - unfold running_at_front. apply Forall_tail, Forall_app. split.
    + eapply Forall_impl; [exact Hi2|]. intros q Hq E. simpl in Hq. by rewrite E in Hq.
    + constructor; [|done]. simpl. intros E. by rewrite E in Hi1.
  - apply Forall_app. split; [done|]. by constructor.
  - apply Forall_app. split; [done|]. by constructor.
  - apply Forall_app. split; [done|]. by constructor.
Qed.

Lemma schedule_fallback_inv {D} cur s mc :
  sched_inv_on D s -> Forall (fun q => is_ready_or_running (p_state q) = false) (processes s) ->
  sched_inv_on D (schedule_fallback cur s mc).1.2.
Proof.
  intros Hi Hidle. unfold schedule_fallback.
  destruct (processes s) as [|prev rest] eqn:Hps; [simpl; by rewrite Hps|].
  pose proof (rotate_inv cur s prev rest Hi Hps Hidle) as Hinv. simpl in *.
  by destruct (rest ++ [set_context_ptr cur prev]).
Qed.

Lemma schedule_inv {D} cur s mc : sched_inv_on D s -> sched_inv_on D (schedule cur s mc).1.2.
Proof.
  intros Hi. pose proof Hi as [Hn Hs Hp Hr He Ht Ho].
  destruct (first_ready (processes s)) as [Hidle|(l1 & p & l2 & Hps & Hl1 & Hrdy)].
  { rewrite schedule_idle by done. by apply schedule_fallback_inv. }
  rewrite (schedule_ready cur s mc l1 p l2) by done. simpl.
  destruct (save_front_facts cur (l1 ++ l2)) as (Hk & Hrun & HF).
  assert (G : forall P : Process -> Prop,
    (forall p st, P p -> P (set_state st p)) -> (forall p, P p -> P (set_context_ptr cur p)) ->
    Forall P (processes s) -> Forall P (set_state Running p :: save_front cur (l1 ++ l2))).
  { intros P H1 H2 HP. rewrite Hps in HP. apply Forall_app in HP as [HP1 [HP2 HP3]%Forall_cons].
    constructor; [auto|]. apply HF; auto. by apply Forall_app. }
  split; simpl; try done.
  - unfold pids, keys in *. csimpl. rewrite Hk. rewrite Hps in Hn. rewrite fmap_app in *.
    csimpl in Hn. by rewrite <- Permutation_middle in Hn.
  - apply G; [intros; by apply set_state_inv| |done]. by intros q []; constructor.
  - unfold running_at_front. simpl. apply Hrun. rewrite Hps in Hr.
    unfold running_at_front in Hr. destruct l1 as [|x l1]; simpl in *; [by apply Forall_tail|].
    apply Forall_app in Hr as [Hr1 [Hr2 Hr3]%Forall_cons]. by apply Forall_app.
  - apply G; done.
  - apply G; done.
  - apply G; done.
Qed.
End SchedOps2.

(* ------------------------------------------------------------------ *)
(** ** Process exit *)

Section Exit.
Context {Fut : Type}.
Implicit Types (s : Scheduler Fut) (p : Process).

Lemma find_process_set_tree t s k : find_process k (set_tree t s) = find_process k s.
Proof. done. Qed.

Lemma orphan_child_find s c k :
  find_process k (orphan_child s c) =
  if decide (k = c) then Process_make_orphan <$> find_process k s else find_process k s.
Proof.
  unfold orphan_child. rewrite find_process_set_tree.
  destruct (find_process c s) as [p|] eqn:E; case_decide as D; subst.
  - rewrite E. change (find_process c (update_process c Process_make_orphan
      (set_tree (bt_insert c 0 (process_tree s)) s)) = Some (Process_make_orphan p)).
    rewrite find_update by done. by rewrite find_process_set_tree, E.
  - change (find_process k (update_process c Process_make_orphan
      (set_tree (bt_insert c 0 (process_tree s)) s)) = find_process k s).
    rewrite find_update_ne by auto. done.
  - by rewrite find_process_set_tree, E.
  - done.
Qed.

Lemma orphan_child_pids s c : pids (orphan_child s c) = pids s.
Proof.
  unfold orphan_child. case_match; [|done].
  change (pids (update_process c Process_make_orphan
    (set_tree (bt_insert c 0 (process_tree s)) s)) = pids s). by rewrite pids_update.
Qed.

(** The loop over [children_to_orphan], entry by entry. *)
Lemma orphan_children_spec cs s :
  NoDup cs ->
  let s' := fold_left orphan_child cs s in
  (forall k, find_process k s' =
     if decide (k ∈ cs) then Process_make_orphan <$> find_process k s else find_process k s) /\
  (forall k, bt_get k (process_tree s') =
     if decide (k ∈ cs) then Some 0 else bt_get k (process_tree s)) /\
  orphans s' = orphans s ++ List.filter (fun c => bool_decide (c ∈ pids s)) cs /\
  pids s' = pids s.
Proof.
  revert s. induction cs as [|c cs IH]; intros s Hn; simpl.
  { split_and!; try done. by rewrite app_nil_r. }
  apply NoDup_cons in Hn as [Hc Hn].
  destruct (IH (orphan_child s c) Hn) as (H1 & H2 & H3 & H4). split_and!.
  - intros k. rewrite H1, orphan_child_find. repeat case_decide; set_solver.
  - intros k. rewrite H2. assert (E : process_tree (orphan_child s c) = bt_insert c 0 (process_tree s))
      by (unfold orphan_child; by case_match).
    rewrite E. destruct (decide (k = c)) as [->|Hne].
    + rewrite bt_get_insert. repeat case_decide; set_solver.
    + rewrite bt_get_insert_ne by auto. repeat case_decide; set_solver.
  - rewrite H3, orphan_child_pids. unfold orphan_child. rewrite find_process_set_tree.
    destruct (find_process c s) as [p|] eqn:E; simpl.
    + rewrite bool_decide_true; [by rewrite <- app_assoc|].
      destruct (decide (c ∈ pids s)) as [|N]; [done|]. apply find_process_none in N. congruence.
    + rewrite bool_decide_false; [done|]. by apply find_process_none.
  - by rewrite H4, orphan_child_pids.
Qed.

Lemma tree_children_elem pid (t : btree Z) k :
  bt_sorted t -> k ∈ tree_children pid t <-> bt_get k t = Some pid.
Proof.
  intros Hs. unfold tree_children. rewrite list_elem_of_fmap. split.
  - intros ([k' v] & -> & [Hin E]%elem_of_filterb). apply Z.eqb_eq in E. simpl in *. subst.
    by apply bt_sorted_elem.
  - intros H. exists (k, pid). split; [done|]. apply elem_of_filterb. simpl.
    rewrite Z.eqb_refl. split; [by apply bt_get_elem|done].
Qed.

Lemma tree_children_nodup pid (t : btree Z) : bt_sorted t -> NoDup (tree_children pid t).
Proof.
  unfold bt_sorted, tree_children, bt_keys. intros Hs.
  assert (N : NoDup t.*1).
  { clear -Hs. induction Hs as [|k l _ IH Hall]; constructor; [|done].
    intros Hk. rewrite Forall_forall in Hall. specialize (Hall k Hk). lia. }
  eapply sublist_NoDup; [exact N|]. apply (keys_sublist fst), filterb_sublist.
Qed.

(** The process with PID [k], entry [q], after the exit of [pid]. *)
Definition exit_effect (pid parent k : Z) (q : Process) : Process :=
  let at_parent (f : Process -> Process) (x : Process) :=
    if negb (parent =? 0) && (k =? parent) then f x else x in
  let q1 := at_parent (fun x => (Process_remove_child pid x).2) q in
  let q2 := if p_parent_id q =? pid then Process_make_orphan q1 else q1 in
  at_parent (wake_waiter pid) q2.

Lemma update_parent_find s parent f k :
  (forall p, p_id (f p) = p_id p) ->
  find_process k (if negb (parent =? 0) then update_process parent f s else s) =
  (fun q => if negb (parent =? 0) && (k =? parent) then f q else q) <$> find_process k s.
Proof.
  intros Hf. destruct (negb (parent =? 0)); simpl.
  - destruct (Z.eqb_spec k parent) as [->|Hne].
    + rewrite find_update; [done|]. intros. by rewrite Hf.
    + rewrite find_update_ne; [by destruct (find_process k s)|intros; by rewrite Hf|auto].
  - by destruct (find_process k s).
Qed.

Lemma sched_inv_parent s k q :
  sched_inv s -> find_process k s = Some q -> bt_get k (process_tree s) = Some (p_parent_id q).
Proof.
  intros [_ _ _ _ _ Ht _] Hq. rewrite Forall_forall in Ht.
  pose proof (tbl_get_key p_id _ _ _ Hq) as <-. apply Ht; [|done]. by eapply tbl_get_elem.
Qed.

(** The table after the exiting process is marked and its parent updated. *)
Definition exit_mark (pid parent : Z) (z : Process) s : Scheduler Fut :=
  let s := update_process pid (fun _ => z) s in
  if negb (parent =? 0)
  then update_process parent (fun p => (Process_remove_child pid p).2) s else s.

Lemma exit_mark_spec s pid parent p z :
  find_process pid s = Some p -> p_id z = pid -> parent <> pid ->
  let s2 := exit_mark pid parent z s in
  process_tree s2 = process_tree s /\ orphans s2 = orphans s /\ pids s2 = pids s /\
  find_process pid s2 = Some z /\
  (forall k, k <> pid -> find_process k s2 =
     (fun q => if negb (parent =? 0) && (k =? parent)
               then (Process_remove_child pid q).2 else q) <$> find_process k s).
Proof.
  intros Hp Hz Hpar.
  set (rm := fun q => (Process_remove_child pid q).2).
  assert (Erm : forall q, p_id (rm q) = p_id q) by (intros q; apply (remove_child_fields pid q)).
  assert (Ep : pids (update_process pid (fun _ => z) s) = pids s)
    by (rewrite pids_update; [done|by intros]).
  unfold exit_mark. split_and!; [by case_match..| | |].
  - case_match; [|done]. rewrite pids_update; [done|].
    intros q <-. apply Erm.
  - rewrite update_parent_find by done. rewrite find_update by by intros.
    rewrite Hp. simpl. rewrite (proj2 (Z.eqb_neq pid parent)) by auto. by rewrite andb_false_r.
  - intros k Hne. rewrite update_parent_find by done. by rewrite find_update_ne by auto.
Qed.

Lemma handle_process_exit_spec s pid code p :
  sched_inv s -> find_process pid s = Some p -> p_parent_id p <> pid -> -255 <= code <= 255 ->
  exists s', handle_process_exit pid code s = (Ok tt, s') /\
    pids s' = pids s /\
    find_process pid s' = Some (set_exit_code code (set_state Zombie p)) /\
    (forall k, k <> pid ->
       find_process k s' = exit_effect pid (p_parent_id p) k <$> find_process k s) /\
    (forall k, bt_get k (process_tree s') =
       if decide (bt_get k (process_tree s) = Some pid) then Some 0
       else bt_get k (process_tree s)) /\
    orphans s' = orphans s ++
      List.filter (fun c => bool_decide (c ∈ pids s)) (tree_children pid (process_tree s)).
Proof.
  intros Hi Hp Hpar Hcode. pose proof Hi as [_ Hsort _ _ _ _ _].
  set (z := set_exit_code code (set_state Zombie p)).
  assert (Hx : Process_exit code p = (Ok tt, z)).
  { unfold Process_exit. rewrite (proj2 (Z.ltb_ge code (-255))), (proj2 (Z.ltb_ge 255 code)) by lia.
    done. }
  unfold handle_process_exit. rewrite Hp, Hx. simpl p_parent_id.
  eexists. split; [reflexivity|]. set (par := p_parent_id p) in *.
  fold (exit_mark pid par z s).
  destruct (exit_mark_spec s pid par p z) as (Et & Eo & Ep & E1 & E2);
    [done|exact (tbl_get_key p_id _ _ _ Hp)|done|].
  set (s2 := exit_mark pid par z s) in *. rewrite Et.
  assert (Ew : forall q, p_id (wake_waiter pid q) = p_id q) by (intros q; apply (wake_waiter_fields pid q)).
  destruct (orphan_children_spec (tree_children pid (process_tree s)) s2) as (F1 & F2 & F3 & F4);
    [by apply tree_children_nodup|]. rewrite Et in F2.
  set (s3 := fold_left orphan_child (tree_children pid (process_tree s)) s2) in *.
  split_and!.
  - rewrite <- Ep, <- F4. case_match; [|done]. rewrite pids_update; [done|].
    intros. by rewrite Ew.
  - rewrite update_parent_find, F1, E1 by done. rewrite decide_False.
    + simpl. rewrite (proj2 (Z.eqb_neq pid par)) by auto. by rewrite andb_false_r.
    + rewrite tree_children_elem by done. rewrite (sched_inv_parent s pid p) by done. by intros [= ?].
  - intros k Hne. rewrite update_parent_find, F1, E2 by done.
    destruct (find_process k s) as [q|] eqn:Eq; simpl; [|by case_decide].
    pose proof (sched_inv_parent s k q Hi Eq) as Hpq. unfold exit_effect.
    destruct (Z.eqb_spec (p_parent_id q) pid) as [Eqp|Eqp].
    + rewrite decide_True; [done|]. apply tree_children_elem; [done|]. by rewrite Hpq, Eqp.
    + rewrite decide_False; [done|]. rewrite tree_children_elem by done. congruence.
  - intros k. etransitivity; [|etransitivity; [apply F2|]]; [by case_match|].
    apply decide_ext. by rewrite tree_children_elem.
  - etransitivity; [|etransitivity; [exact F3|]]; [by case_match|]. by rewrite Ep, Eo.
Qed.
End Exit.
