(* ===== verification/SchedulerProps.v ===== *)
(** * SchedulerProps: what the process table guarantees

    The behaviour of [schedule], process exit and reaping, the zombie sweep and
    the system limits. *)

From stdpp Require Import base sets numbers relations sorting list.
From S2P Require Import Prelude Errors Mem BTree X86 Process Scheduler.
Local Open Scope Z_scope.

(* ------------------------------------------------------------------ *)
(** ** The zombie sweep keeps the invariant *)

Section SweepInv.
Context {Fut : Type}.
Implicit Types (s : Scheduler Fut) (p : Process).

Lemma cleanup_one_panic zs : fold_left (@cleanup_one Fut) zs Panic = Panic.
Proof. by induction zs. Qed.

Lemma cleanup_fold_inv {D} zs n s n' s' :
  sched_inv_on D s -> fold_left cleanup_one zs (Ret (n, s)) = Ret (n', s') -> sched_inv_on D s'.
Proof.
  revert n s. induction zs as [|z zs IH]; intros n s Hi; simpl; [by intros [= _ <-]|].
  pose proof (cleanup_terminated_process_inv s z Hi) as Hc.
  destruct (cleanup_terminated_process z s) as [[u|e] s1]; simpl in *.
  - unfold add_u32. destruct (n + 1 <? 2 ^ 32); simpl; [by apply IH|].
    by rewrite cleanup_one_panic.
  - by apply IH.
Qed.

Lemma cleanup_all_zombies_inv {D} s r s' :
  sched_inv_on D s -> cleanup_all_zombies s = Ret (r, s') -> sched_inv_on D s'.
Proof.
  intros Hi Hr. unfold cleanup_all_zombies in Hr. inv_ret. destruct x as [n s2]. simplify_eq.
  by eapply cleanup_fold_inv.
Qed.

Lemma add_async_task_inv {D} t s : sched_inv_on D s -> sched_inv_on D (add_async_task t s).
Proof. by intros []; constructor. Qed.
End SweepInv.

Definition demo_process (id parent ptr frame : Z) (st : ProcessState) : Process :=
  mkProcess id ptr frame st parent [] 0 DEFAULT_PRIORITY ResourceLimits_default
    ProcessStats_default id id 1.

Lemma demo_process_inv id parent ptr frame st : process_inv (demo_process id parent ptr frame st).
Proof. constructor; simpl; unfold limits_typed, is_u64, is_u32, DEFAULT_PRIORITY; simpl; lia. Qed.

Definition demo_sched : Scheduler unit :=
  add_process (demo_process 2 1 0x3000 0x7000 Ready)
    (add_process (demo_process 1 0 0x2000 0x6000 Ready) SCHEDULER_init).

Lemma demo_sched_inv : sched_inv demo_sched.
Proof.
  apply add_process_inv; [apply add_process_inv| | |];
    [apply sched_inv_init|by apply not_elem_of_nil|apply demo_process_inv|done| |apply demo_process_inv|done].
  simpl. set_solver.
Qed.

(* ------------------------------------------------------------------ *)
(** ** [schedule] *)

(** C22: when some process is ready or running, [schedule] dispatches the first
    such process of the table: it returns that process's saved context, makes
    it the front and the only [Running] process, stores its PID in
    [CPU_DATA.current_process_id], loads its page table into CR3, and neither
    loses nor adds a process. *)
Theorem schedule_dispatches {Fut} (cur : Z) (s : Scheduler Fut) (mc : Machine) l1 p l2 :
  sched_inv s -> processes s = l1 ++ p :: l2 ->
  Forall (fun q => is_ready_or_running (p_state q) = false) l1 ->
  is_ready_or_running (p_state p) = true ->
  exists s' mc', schedule cur s mc = (p_context_ptr p, s', mc') /\
    head (processes s') = Some (set_state Running p) /\
    Forall (fun q => p_state q <> Running) (tail (processes s')) /\
    current_process_id (CPU_DATA mc') = p_id p /\ CR3 mc' = p_page_table_frame p /\
    pids s' ≡ₚ pids s.
Proof.
  intros Hi Hps Hl1 Hp. pose proof (schedule_inv cur s mc Hi) as Hi'.
  rewrite (schedule_ready cur s mc l1 p l2) in Hi' |- * by (done || apply Hi).
  eexists _, _. split; [reflexivity|]. split_and!; try done.
  - destruct Hi' as [_ _ _ Hr _ _ _]. exact Hr.
  - unfold pids, keys. rewrite Hps. simpl.
    destruct (save_front_facts cur (l1 ++ l2)) as (E & _). unfold keys in E.
    change (p_id p :: (p_id <$> save_front cur (l1 ++ l2)) ≡ₚ p_id <$> l1 ++ p :: l2).
    rewrite E, !fmap_app. csimpl. by rewrite Permutation_middle.
Qed.

Lemma schedule_dispatches_witness :
  exists s' mc', schedule 0x9000 demo_sched (mkMachine CPU_DATA_init 0) = (0x2000, s', mc') /\
    head (processes s') = Some (set_state Running (demo_process 1 0 0x2000 0x6000 Ready)).
Proof.
  destruct (schedule_dispatches 0x9000 demo_sched (mkMachine CPU_DATA_init 0) []
    (demo_process 1 0 0x2000 0x6000 Ready) [demo_process 2 1 0x3000 0x7000 Ready])
    as (s' & mc' & E & H & _).
  - exact demo_sched_inv.
  - reflexivity.
  - constructor.
  - reflexivity.
  - exists s', mc'. split; [exact E|exact H].
Defined.

(** A run of timer ticks: the interrupted context of each tick, in order. *)
Fixpoint schedule_ticks {Fut} (curs : list Z) (s : Scheduler Fut) (mc : Machine)
    : list Z * Scheduler Fut * Machine :=
  match curs with
  | [] => ([], s, mc)
  | cur :: curs' =>
      let '(ptr, s1, mc1) := schedule cur s mc in
      let '(ptrs, s2, mc2) := schedule_ticks curs' s1 mc1 in
      (ptr :: ptrs, s2, mc2)
  end.

Lemma schedule_front {Fut} cur (s : Scheduler Fut) mc p rest :
  processes s = p :: rest -> is_ready_or_running (p_state p) = true ->
  schedule cur s mc =
    (p_context_ptr p,
     set_processes (set_state Running p :: save_front cur rest)
       (set_current_priority (p_priority p) s),
     write_cr3 (p_page_table_frame p) (set_current_pid (p_id p) mc)).
Proof.
  intros Hps Hp. unfold schedule, get_next_process_by_priority. rewrite Hps. simpl.
  rewrite Hp. simpl. by rewrite Z.eqb_refl.
Qed.

(** The front process is never preempted.  While it is ready or running,
    every timer tick dispatches it again, whatever the other processes are and
    however many ticks pass: each tick resumes the context saved for it before
    the first tick (not the context just interrupted), and the interrupted
    context is stored in the control block of the second process
    (src/src/process/scheduler.rs, lines 358-383). *)
Theorem schedule_never_preempts {Fut} (curs : list Z) (s : Scheduler Fut) (mc : Machine) p q rest :
  processes s = p :: q :: rest -> is_ready_or_running (p_state p) = true ->
  let '(ptrs, s', _) := schedule_ticks curs s mc in
  ptrs = replicate (length curs) (p_context_ptr p) /\
  p_id <$> head (processes s') = Some (p_id p) /\
  (forall cur, last curs = Some cur ->
     p_context_ptr <$> processes s' !! 1%nat = Some cur).
Proof.
  revert s mc p q. induction curs as [|cur curs IH]; intros s mc p q Hps Hp; simpl.
  { rewrite Hps. by split_and!. }
  rewrite (schedule_front cur s mc p (q :: rest)) by done.
  pose (q' := (if bool_decide (p_state (set_context_ptr cur q) = Running)
               then set_state Ready (set_context_ptr cur q) else set_context_ptr cur q)).
  specialize (IH (set_processes (set_state Running p :: q' :: rest)
    (set_current_priority (p_priority p) s))
    (write_cr3 (p_page_table_frame p) (set_current_pid (p_id p) mc)) (set_state Running p) q'
    eq_refl eq_refl).
  unfold save_front. fold q'.
  destruct (schedule_ticks curs _ _) as [[ptrs s'] mc'] eqn:E. destruct IH as (-> & H2 & H3).
  split_and!; [done|done|]. intros c Hc. destruct curs as [|c1 curs].
  - simpl in *. simplify_eq. simpl. unfold q'. by case_bool_decide.
  - by apply H3.
Qed.

Lemma schedule_never_preempts_witness :
  let '(ptrs, s', _) := schedule_ticks [0xA000; 0xB000; 0xC000] demo_sched (mkMachine CPU_DATA_init 0) in
  ptrs = [0x2000; 0x2000; 0x2000] /\ p_id <$> head (processes s') = Some 1.
Proof.
  pose proof (schedule_never_preempts [0xA000; 0xB000; 0xC000] demo_sched (mkMachine CPU_DATA_init 0)
    (demo_process 1 0 0x2000 0x6000 Ready) (demo_process 2 1 0x3000 0x7000 Ready) []
    eq_refl eq_refl) as H.
  destruct (schedule_ticks _ _ _) as [[ptrs s'] mc']. destruct H as (H1 & H2 & _).
  split; [exact H1|exact H2].
Defined.

(** When no process is ready or running but the table is not empty,
    [schedule] still resumes one: the process it dispatches is a blocked,
    stopped or dead one, whose PID becomes the current one
    (src/src/process/scheduler.rs, lines 398-415). *)
Theorem schedule_resumes_unready {Fut} (cur : Z) (s : Scheduler Fut) (mc : Machine) :
  processes s <> [] ->
  Forall (fun q => is_ready_or_running (p_state q) = false) (processes s) ->
  exists p s' mc', schedule cur s mc = (p_context_ptr p, s', mc') /\
    head (processes s') = Some p /\ is_ready_or_running (p_state p) = false /\
    current_process_id (CPU_DATA mc') = p_id p.
Proof.
  intros Hne Hidle. rewrite schedule_idle by done. unfold schedule_fallback.
  destruct (processes s) as [|prev rest] eqn:Hps; [done|]. simpl.
  apply Forall_cons in Hidle as [H1 H2].
  destruct rest as [|next rest]; simpl.
  - exists (set_context_ptr cur prev). eexists _, _. split; [reflexivity|]. done.
  - apply Forall_cons in H2 as [H2 _]. exists next. eexists _, _. split; [reflexivity|]. done.
Qed.

Lemma schedule_resumes_unready_witness :
  exists p s' mc',
    schedule 0x9000 (add_process (demo_process 1 0 0x2000 0x6000 Zombie) (@SCHEDULER_init unit))
      (mkMachine CPU_DATA_init 0) = (p_context_ptr p, s', mc') /\
    current_process_id (CPU_DATA mc') = p_id p.
Proof.
  destruct (schedule_resumes_unready 0x9000
    (add_process (demo_process 1 0 0x2000 0x6000 Zombie) (@SCHEDULER_init unit))
    (mkMachine CPU_DATA_init 0)) as (p & s' & mc' & H1 & _ & _ & H2).
  - discriminate.
  - repeat constructor.
  - exists p, s', mc'. split; [exact H1|exact H2].
Defined.

(** Changing the priorities of the processes. *)
Definition reprioritise {Fut} (f : Process -> Z) (s : Scheduler Fut) : Scheduler Fut :=
  set_processes ((fun p => set_prio (f p) p) <$> processes s) s.

(** The choice of the next process does not depend on priorities: giving
    every process any other priority leaves the choice unchanged, although
    the method is named and documented as priority scheduling
    (src/src/process/scheduler.rs, lines 54-64). *)
Theorem next_process_ignores_priority {Fut} (f : Process -> Z) (s : Scheduler Fut) :
  get_next_process_by_priority (reprioritise f s) = get_next_process_by_priority s.
Proof.
  unfold get_next_process_by_priority. simpl.
  induction (processes s) as [|p ps IH]; simpl; [done|].
  destruct (is_ready_or_running (p_state p)); [done|exact IH].
Qed.

(* ------------------------------------------------------------------ *)
(** ** Exit, reaping and the zombie sweep *)

(** Process [p] waits for the child [pid], by PID or as "any child". *)
Definition waits_for (pid : Z) (p : Process) : bool :=
  match p_state p with
  | Waiting (WaitReason_Child w) => (w =? pid) || (w =? U64_MAX)
  | _ => false
  end.

Lemma remove_child_children c p :
  p_children (Process_remove_child c p).2 = remove_first (fun x => x =? c) (p_children p).
Proof.
  unfold Process_remove_child. destruct (position _ _) as [i|] eqn:E; simpl.
  - apply position_lookup in E as (x & _ & _ & E). exact E.
  - symmetry. apply remove_first_none.
    destruct (List.find _ _) as [x|] eqn:F; [|done].
    assert (is_Some (position (fun x => x =? c) (p_children p))) as [? H]
      by (apply position_find; by exists x). congruence.
Qed.

Lemma wake_waiter_state pid p :
  p_state (wake_waiter pid p) = if waits_for pid p then Ready else p_state p.
Proof.
  unfold wake_waiter, waits_for. destruct (p_state p) as [| |[w| | | |]| |] eqn:E; try done.
  by destruct (_ || _).
Qed.

Lemma exit_effect_parent pid parent q :
  parent <> 0 ->
  p_children (exit_effect pid parent parent q) = remove_first (fun x => x =? pid) (p_children q) /\
  p_state (exit_effect pid parent parent q) = (if waits_for pid q then Ready else p_state q).
Proof.
  intros Hp. unfold exit_effect. rewrite (proj2 (Z.eqb_neq _ _) Hp), Z.eqb_refl. cbn [negb andb].
  set (q2 := if p_parent_id q =? pid then _ else _).
  assert (E : p_children q2 = remove_first (fun x => x =? pid) (p_children q) /\
              p_state q2 = p_state q).
  { unfold q2. destruct (p_parent_id q =? pid); simpl; rewrite remove_child_children;
      (split; [done|]); by destruct (remove_child_fields pid q) as (_ & _ & -> & _). }
  destruct E as [E1 E2]. destruct (wake_waiter_fields pid q2) as (_ & _ & _ & -> & _).
  rewrite wake_waiter_state. split; [done|]. unfold waits_for. by rewrite E2.
Qed.

Lemma exit_effect_parent_id pid parent k q :
  p_parent_id q = pid -> p_parent_id (exit_effect pid parent k q) = 0.
Proof.
  intros E. unfold exit_effect. rewrite E, Z.eqb_refl.
  destruct (negb (parent =? 0) && (k =? parent)); [|done].
  rewrite (proj1 (proj2 (wake_waiter_fields _ _))). done.
Qed.

Lemma exit_effect_other pid parent k q :
  k <> parent -> p_parent_id q <> pid -> exit_effect pid parent k q = q.
Proof.
  intros H1 H2. unfold exit_effect. rewrite (proj2 (Z.eqb_neq _ _) H1), (proj2 (Z.eqb_neq _ _) H2).
  by rewrite andb_false_r.
Qed.

(** C23: a process that exits with a valid code becomes a zombie holding the
    code and stays in the table; its parent forgets it and is woken exactly
    when it was waiting for it or for any child; each of its children becomes
    a child of process 0, is put on the orphan list and is moved in the tree;
    every other process is untouched. *)
Theorem exit_effects {Fut} (s : Scheduler Fut) (pid code : Z) (p : Process) :
  sched_inv s -> find_process pid s = Some p -> p_parent_id p <> pid -> -255 <= code <= 255 ->
  exists s', handle_process_exit pid code s = (Ok tt, s') /\
    pids s' = pids s /\
    find_process pid s' = Some (set_exit_code code (set_state Zombie p)) /\
    (forall q, p_parent_id p <> 0 -> find_process (p_parent_id p) s = Some q ->
       exists q', find_process (p_parent_id p) s' = Some q' /\
         p_children q' = remove_first (fun x => x =? pid) (p_children q) /\
         p_state q' = (if waits_for pid q then Ready else p_state q)) /\
    (forall k q, k <> pid -> find_process k s = Some q -> p_parent_id q = pid ->
       exists q', find_process k s' = Some q' /\ p_parent_id q' = 0 /\
         k ∈ orphans s' /\ bt_get k (process_tree s') = Some 0) /\
    (forall k q, k <> pid -> k <> p_parent_id p -> find_process k s = Some q ->
       p_parent_id q <> pid -> find_process k s' = Some q).
Proof.
  intros Hi Hp Hpar Hc.
  destruct (handle_process_exit_spec s pid code p Hi Hp Hpar Hc)
    as (s' & E & E1 & E2 & E3 & E4 & E5).
  exists s'. split_and!; try done.
  - intros q H0 Hq. rewrite E3, Hq by done. eexists. split; [reflexivity|].
    by apply exit_effect_parent.
  - intros k q Hk Hq Hqp. pose proof (sched_inv_parent s k q Hi Hq) as Ht. rewrite Hqp in Ht.
    rewrite E3, Hq by done. eexists. split_and!; [reflexivity|by apply exit_effect_parent_id| |].
    + rewrite E5. apply elem_of_app. right. apply elem_of_filterb. split.
      * apply tree_children_elem; [apply Hi|done].
      * apply bool_decide_eq_true. destruct (decide (k ∈ pids s)) as [|N]; [done|].
        apply find_process_none in N. congruence.
    + rewrite E4. by rewrite decide_True.
  - intros k q Hk Hk' Hq Hqp. rewrite E3, Hq by done. simpl. by rewrite exit_effect_other.
Qed.

(** Process 1 waits for any child; 2 is its child; 3 is the child of 2. *)
Definition demo_family : Scheduler unit :=
  add_process (demo_process 3 2 0x4000 0x8000 Ready)
    (add_process (demo_process 2 1 0x3000 0x7000 Ready)
       (add_process
          (demo_process 1 0 0x2000 0x6000 (Waiting (WaitReason_Child U64_MAX)))
          SCHEDULER_init)).

Lemma demo_family_inv : sched_inv demo_family.
Proof.
  repeat (apply add_process_inv; [| |apply demo_process_inv|done]);
    [apply sched_inv_init|simpl; set_solver..].
Qed.

Lemma exit_effects_witness :
  exists s', handle_process_exit 2 7 demo_family = (Ok tt, s') /\
    find_process 2 s' = Some (set_exit_code 7 (demo_process 2 1 0x3000 0x7000 Zombie)) /\
    3 ∈ orphans s'.
Proof.
  destruct (exit_effects demo_family 2 7 (demo_process 2 1 0x3000 0x7000 Ready))
    as (s' & E & _ & E2 & _ & E3 & _).
  - exact demo_family_inv.
  - reflexivity.
  - discriminate.
  - lia.
  - exists s'. split; [exact E|]. split; [exact E2|].
    destruct (E3 3 (demo_process 3 2 0x4000 0x8000 Ready)) as (q' & _ & _ & H & _);
      [lia|reflexivity|reflexivity|exact H].
Defined.

Section Reap.
Context {Fut : Type}.
Implicit Types (s : Scheduler Fut) (p : Process).

(** Reaping a zombie that is in the table. *)
Lemma reap_zombie_spec s parent child z :
  NoDup (pids s) -> find_process child s = Some z -> reapable parent child z = true ->
  exists s', reap_zombie_child parent child s = (Ok (p_exit_code z), s') /\
    find_process child s' = None /\ bt_get child (process_tree s') = None /\
    (forall k, k <> child -> k <> parent -> find_process k s' = find_process k s).
Proof.
  intros Hn Hz Hr. unfold reap_zombie_child.
  pose proof (tbl_get_elem p_id _ _ _ Hz) as Hin.
  destruct (last _) as [y|] eqn:E.
  2: { apply last_None in E. assert (Hf : z ∈ List.filter (reapable parent child) (processes s)).
       { by apply elem_of_filterb. }
       rewrite E in Hf. by apply not_elem_of_nil in Hf. }
  apply last_elem in E. pose proof (reapable_unique s parent child y Hn E) as Hfresh.
  apply elem_of_filterb in E as [Hy Hyr].
  assert (y = z) as ->.
  { pose proof (tbl_get_unique p_id _ y Hn Hy) as G. unfold reapable in Hyr. bool_to_prop.
    unfold find_process in Hz. congruence. }
  assert (Hrm : forall p, p_id p = parent -> p_id (Process_remove_child child p).2 = parent).
  { intros p <-. by destruct (remove_child_fields child p). }
  eexists. split; [reflexivity|]. split_and!.
  - apply find_process_none. change (child ∉ pids (update_process parent
      (fun p => (Process_remove_child child p).2) (set_processes (List.filter
        (fun p => negb (reapable parent child p)) (processes s)) s))).
    by rewrite (pids_update _ parent).
  - apply bt_get_remove.
  - intros k Hc Hp. etransitivity; [apply find_update_ne; [exact Hrm|auto]|].
    apply tbl_get_filter_ne. intros x Hx. unfold reapable.
    by rewrite Hx, (proj2 (Z.eqb_neq _ _) Hc).
Qed.

Lemma reap_missing s parent child :
  find_process child s = None ->
  reap_zombie_child parent child s = (kerror ProcessError_NotFound, s).
Proof.
  intros H. assert (Hf : Forall (fun p => reapable parent child p = false) (processes s)).
  { apply Forall_forall. intros x Hx. unfold reapable.
    destruct (Z.eqb_spec (p_id x) child) as [<-|]; [|done].
    apply find_process_none in H. destruct H. by apply elem_of_keys. }
  unfold reap_zombie_child.
  rewrite (filterb_ext _ (fun _ => false)) by done.
  rewrite (filterb_all (fun p => negb _)).
  2: { eapply Forall_impl; [exact Hf|]. by intros x ->. }
  assert (E : List.filter (fun _ : Process => false) (processes s) = []).
  { clear. induction (processes s); [done|]. simpl. done. }
  rewrite E. simpl. by destruct s.
Qed.
End Reap.

(** Exit followed by [reap_zombie_child] by the parent is a round trip:
    the parent gets exactly the exit code, the child leaves the table and the
    process tree, and reaping it a second time is [NotFound] and changes
    nothing. *)
Theorem exit_then_reap {Fut} (s : Scheduler Fut) (pid code : Z) (p : Process) :
  sched_inv s -> find_process pid s = Some p -> p_parent_id p <> pid -> -255 <= code <= 255 ->
  exists s1 s2, handle_process_exit pid code s = (Ok tt, s1) /\
    reap_zombie_child (p_parent_id p) pid s1 = (Ok code, s2) /\
    find_process pid s2 = None /\ bt_get pid (process_tree s2) = None /\
    reap_zombie_child (p_parent_id p) pid s2 = (kerror ProcessError_NotFound, s2).
Proof.
  intros Hi Hp Hpar Hc.
  destruct (handle_process_exit_spec s pid code p Hi Hp Hpar Hc) as (s1 & E1 & _ & Ez & _).
  assert (Hi1 : sched_inv s1).
  { pose proof (handle_process_exit_inv s pid code Hi) as H. by rewrite E1 in H. }
  destruct (reap_zombie_spec s1 (p_parent_id p) pid _ (si_nodup _ Hi1) Ez)
    as (s2 & E2 & E3 & E4 & _).
  { unfold reapable. simpl. rewrite (tbl_get_key p_id _ _ _ Hp : p_id p = pid), !Z.eqb_refl. done. }
  exists s1, s2. split_and!; try done. by apply reap_missing.
Qed.

Lemma exit_then_reap_witness :
  exists s1 s2, handle_process_exit 2 (-3) demo_family = (Ok tt, s1) /\
    reap_zombie_child 1 2 s1 = (Ok (-3), s2) /\ find_process 2 s2 = None.
Proof.
  destruct (exit_then_reap demo_family 2 (-3) (demo_process 2 1 0x3000 0x7000 Ready))
    as (s1 & s2 & E1 & E2 & E3 & _); [exact demo_family_inv|reflexivity|discriminate|lia|].
  exists s1, s2. split; [exact E1|]. split; [exact E2|exact E3].
Defined.

Section Sweep.
Context {Fut : Type}.
Implicit Types (s : Scheduler Fut) (p : Process).

Definition is_zombie p : bool := bool_decide (p_state p = Zombie).

Lemma find_has_zombie s p :
  NoDup (pids s) -> p ∈ processes s -> find_process (p_id p) s = Some p.
Proof. apply tbl_get_unique. Qed.

(** The loop over the PIDs of zombies removes exactly the processes with
    those PIDs and counts them. *)
Lemma cleanup_fold_spec zs s n :
  NoDup zs -> NoDup (pids s) ->
  (forall z, z ∈ zs -> exists p, find_process z s = Some p /\ p_state p = Zombie) ->
  n + Z.of_nat (length zs) < 2 ^ 32 ->
  exists s', fold_left cleanup_one zs (Ret (n, s)) = Ret (n + Z.of_nat (length zs), s') /\
    processes s' = List.filter (fun p => negb (bool_decide (p_id p ∈ zs))) (processes s).
Proof.
  revert s n. induction zs as [|z zs IH]; intros s n Hz Hn Hall Hlen; simpl.
  { exists s. rewrite Z.add_0_r. split; [done|]. symmetry. apply filterb_all, Forall_forall.
    by intros x _. }
  apply NoDup_cons in Hz as [Hzz Hz]. destruct (Hall z) as (p & Hp & Hst); [set_solver|].
  unfold cleanup_terminated_process. rewrite Hp, bool_decide_true by done. simpl in *.
  unfold add_u32. rewrite (proj2 (Z.ltb_lt (n + 1) (2 ^ 32))) by lia. simpl.
  set (s1 := remove_orphan z _).
  assert (Es1 : processes s1 = List.filter (fun p => negb (p_id p =? z)) (processes s)) by done.
  destruct (IH s1 (n + 1)) as (s' & E1 & E2); [done| | |lia|].
  - unfold pids. rewrite Es1. by eapply NoDup_keys_sublist; [apply filterb_sublist|].
  - intros z' Hz'. destruct (Hall z') as (p' & Hp' & Hst'); [set_solver|]. exists p'.
    split; [|done]. rewrite <- Hp'. unfold find_process. rewrite Es1.
    apply tbl_get_filter_ne. intros x ->. apply negb_true_iff, Z.eqb_neq. set_solver.
  - exists s'. rewrite E1. split; [do 2 f_equal; lia|]. rewrite E2, Es1, filterb_filterb.
    apply filterb_ext, Forall_forall. intros x _.
    destruct (Z.eqb_spec (p_id x) z); simpl; repeat case_bool_decide; set_solver.
Qed.
End Sweep.

(** [cleanup_all_zombies] never panics on a table of fewer than 2^32
    processes: it removes exactly the zombies, keeps the other processes as
    they are and in order, and returns the number of zombies removed. *)
Theorem cleanup_all_zombies_spec {Fut} (s : Scheduler Fut) :
  sched_inv s -> Z.of_nat (length (processes s)) < 2 ^ 32 ->
  exists s', cleanup_all_zombies s =
      Ret (Ok (Z.of_nat (length (List.filter is_zombie (processes s)))), s') /\
    processes s' = List.filter (fun p => negb (is_zombie p)) (processes s).
Proof.
  intros Hi Hlen. pose proof (si_nodup _ Hi) as Hn. unfold cleanup_all_zombies.
  change (fun p => bool_decide (p_state p = Zombie)) with is_zombie.
  set (zl := List.filter is_zombie (processes s)).
  assert (Hsub : zl `sublist_of` processes s) by apply filterb_sublist.
  assert (Hl : length (p_id <$> zl) = length zl) by apply length_fmap.
  destruct (cleanup_fold_spec (p_id <$> zl) s 0) as (s' & E1 & E2).
  - by eapply (NoDup_keys_sublist p_id).
  - done.
  - intros z (p & -> & [Hp Hst]%elem_of_filterb)%list_elem_of_fmap. exists p.
    split; [by apply find_has_zombie|]. by apply bool_decide_eq_true in Hst.
  - rewrite Hl. apply sublist_length in Hsub. lia.
  - rewrite E1. cbn. exists s'. rewrite Hl, Z.add_0_l. split; [done|]. rewrite E2.
    apply filterb_ext, Forall_forall. intros x Hx. f_equal. unfold is_zombie at 1.
    apply bool_decide_ext. rewrite list_elem_of_fmap. split.
    + intros (p & Ep & [Hp Hst]%elem_of_filterb). apply bool_decide_eq_true in Hst.
      pose proof (find_has_zombie s p Hn Hp). pose proof (find_has_zombie s x Hn Hx). congruence.
    + intros Hst. exists x. split; [done|]. apply elem_of_filterb. split; [done|].
      by apply bool_decide_eq_true.
Qed.

Lemma cleanup_all_zombies_spec_witness :
  exists s', cleanup_all_zombies (handle_process_exit 2 7 demo_family).2 = Ret (Ok 1, s') /\
    p_id <$> processes s' = [1; 3].
Proof.
  destruct (cleanup_all_zombies_spec (handle_process_exit 2 7 demo_family).2) as (s' & E1 & E2).
  - apply handle_process_exit_inv, demo_family_inv.
  - vm_compute. reflexivity.
  - exists s'. split; [rewrite E1; reflexivity|rewrite E2; reflexivity].
Defined.

(* ------------------------------------------------------------------ *)
(** ** System limits *)

Section Limits.
Context {Fut : Type}.
Implicit Types (s : Scheduler Fut) (p : Process).

Definition live_processes (ps : list Process) : list Process :=
  List.filter (fun p => negb (is_zombie p)) ps.
Definition total_memory_of (ps : list Process) : Z :=
  foldr Z.add 0 ((fun p => memory_used (p_stats p)) <$> ps).

Lemma total_memory_nonneg ps :
  Forall (fun p => 0 <= memory_used (p_stats p)) ps -> 0 <= total_memory_of ps.
Proof. induction 1; unfold total_memory_of in *; csimpl; lia. Qed.

Lemma memory_stats_fold ps t n :
  Forall (fun p => 0 <= memory_used (p_stats p)) ps ->
  t + total_memory_of (live_processes ps) < 2 ^ 64 ->
  n + Z.of_nat (length (live_processes ps)) < 2 ^ 32 ->
  fold_left memory_stats_one ps (Ret (t, n)) =
    Ret (t + total_memory_of (live_processes ps), n + Z.of_nat (length (live_processes ps))).
Proof.
  intros Hall. revert t n. induction Hall as [|p ps Hp Hall IH]; intros t n Ht Hn; simpl.
  { by rewrite !Z.add_0_r. }
  change (bool_decide (p_state p = Zombie)) with (is_zombie p) in *.
  unfold live_processes in Ht, Hn |- *. simpl in *.
  assert (H0 : 0 <= total_memory_of (List.filter (fun p => negb (is_zombie p)) ps)).
  { apply total_memory_nonneg. apply Forall_forall. intros x [Hx _]%elem_of_filterb.
    rewrite Forall_forall in Hall. by apply Hall. }
  destruct (is_zombie p); simpl in *; [by apply IH|].
  unfold total_memory_of in * . csimpl in *.
  rewrite add_u64_ret by lia. simpl. unfold add_u32.
  rewrite (proj2 (Z.ltb_lt _ _)) by lia. simpl. rewrite IH by (unfold live_processes; lia).
  unfold live_processes. do 2 f_equal; lia.
Qed.
End Limits.

(** [check_system_limits] answers whether at most 1000 processes are alive
    and they use at most 1 GiB together, zombies not counted, and never
    panics while the sums fit their widths. *)
Theorem check_system_limits_spec {Fut} (s : Scheduler Fut) :
  Forall (fun p => 0 <= memory_used (p_stats p)) (processes s) ->
  total_memory_of (live_processes (processes s)) < 2 ^ 64 ->
  Z.of_nat (length (processes s)) < 2 ^ 32 ->
  exists b, check_system_limits s = Ret b /\
    (b = true <-> (length (live_processes (processes s)) <= 1000)%nat /\
                  total_memory_of (live_processes (processes s)) <= 2 ^ 30).
Proof.
  intros Hall Ht Hn. unfold check_system_limits, get_memory_stats.
  assert (Hl : (length (live_processes (processes s)) <= length (processes s))%nat)
    by apply sublist_length, filterb_sublist.
  rewrite memory_stats_fold by (done || lia). simpl.
  repeat case_match; bool_to_prop; eexists; (split; [reflexivity|]);
    split; intros; try done; try lia.
Qed.

Lemma check_system_limits_spec_witness :
  exists b, check_system_limits demo_family = Ret b /\ b = true.
Proof.
  destruct (check_system_limits_spec demo_family) as (b & E & Hb).
  - repeat constructor; simpl; lia.
  - vm_compute. reflexivity.
  - vm_compute. reflexivity.
  - exists b. split; [exact E|]. apply Hb. vm_compute. split; [lia|discriminate].
Defined.
