(* ===== verification/Timer.v ===== *)
(** * Timer: tick counting and process timeouts (src/src/timer.rs)

    [ProcessTimeout] and [TimeoutManager] with every method, the functions
    over the statics [TIMEOUT_MANAGER] and [GLOBAL_TICK_COUNTER], and the
    programming of the interval timer in [init].  A timeout kills the process
    through the [SCHEDULER] table, so the operations that may do so take and
    return the scheduler. *)

From stdpp Require Import base sets numbers relations sorting list.
From S2P Require Import Prelude Errors Mem BTree X86 Process Scheduler SchedulerProps.
Local Open Scope Z_scope.
Local Open Scope ruix_scope.

Definition PIT_FREQUENCY : Z := 1193182.
Definition TIMER_INTERVAL : Z := 10.
Definition DEFAULT_TIMEOUT_LIMIT : Z := 30.

Inductive TimeoutState : Type :=
| TimeoutState_Normal
| TimeoutState_Warning
| TimeoutState_TimedOut.

#[export] Instance TimeoutState_eq_dec : EqDecision TimeoutState.
Proof. solve_decision. Defined.

Record ProcessTimeout : Type := mkProcessTimeout {
  pt_pid : Z;
  pt_start_time : Z;
  pt_limit : Z;
  pt_state : TimeoutState;
  pt_warning_sent : bool
}.

Definition ProcessTimeout_new (pid limit : Z) : ProcessTimeout :=
  mkProcessTimeout pid 0 limit TimeoutState_Normal false.

Definition ProcessTimeout_reset (p : ProcessTimeout) : ProcessTimeout :=
  mkProcessTimeout (pt_pid p) 0 (pt_limit p) TimeoutState_Normal false.

Definition ProcessTimeout_start (current_tick : Z) (p : ProcessTimeout) : ProcessTimeout :=
  mkProcessTimeout (pt_pid p) current_tick (pt_limit p) TimeoutState_Normal false.

Definition ProcessTimeout_check_timeout (current_tick : Z) (p : ProcessTimeout)
    : TimeoutState * ProcessTimeout :=
  if bool_decide (pt_state p = TimeoutState_TimedOut) then (TimeoutState_TimedOut, p)
  else
    let elapsed := saturating_sub current_tick (pt_start_time p) in
    let warning_threshold := pt_limit p / 2 in
    if pt_limit p <=? elapsed then
      (TimeoutState_TimedOut,
       mkProcessTimeout (pt_pid p) (pt_start_time p) (pt_limit p) TimeoutState_TimedOut
         (pt_warning_sent p))
    else if (warning_threshold <=? elapsed) && negb (pt_warning_sent p) then
      (TimeoutState_Warning,
       mkProcessTimeout (pt_pid p) (pt_start_time p) (pt_limit p) (pt_state p) true)
    else (TimeoutState_Normal, p).

Record TimeoutManager : Type := mkTimeoutManager {
  tm_processes : list ProcessTimeout;
  current_tick : Z;
  user_mode_active : bool;
  current_user_pid : Z
}.

Definition TimeoutManager_new : TimeoutManager := mkTimeoutManager [] 0 false 0.

Definition set_tm_processes (ps : list ProcessTimeout) (m : TimeoutManager) : TimeoutManager :=
  mkTimeoutManager ps (current_tick m) (user_mode_active m) (current_user_pid m).

(** [if let Some(process) = self.processes.iter_mut().find(|p| p.pid == pid) { f }] *)
Definition tm_update (pid : Z) (f : ProcessTimeout -> ProcessTimeout) (m : TimeoutManager)
    : TimeoutManager :=
  set_tm_processes (tbl_upd pt_pid pid f (tm_processes m)) m.
Definition tm_find (pid : Z) (m : TimeoutManager) : option ProcessTimeout :=
  tbl_get pt_pid pid (tm_processes m).

Definition TimeoutManager_register_process (pid : Z) (limit : option Z) (m : TimeoutManager)
    : TimeoutManager :=
  let timeout_limit := match limit with Some l => l | None => DEFAULT_TIMEOUT_LIMIT end in
  set_tm_processes (tm_processes m ++ [ProcessTimeout_new pid timeout_limit]) m.

Definition TimeoutManager_unregister_process (pid : Z) (m : TimeoutManager) : TimeoutManager :=
  set_tm_processes (List.filter (fun p => negb (pt_pid p =? pid)) (tm_processes m)) m.

Definition TimeoutManager_start_user_mode (pid : Z) (m : TimeoutManager) : TimeoutManager :=
  let m := mkTimeoutManager (tm_processes m) (current_tick m) true pid in
  match tm_find pid m with
  | Some _ => tm_update pid (ProcessTimeout_start (current_tick m)) m
  | None =>
      let m := TimeoutManager_register_process pid None m in
      tm_update pid (ProcessTimeout_start (current_tick m)) m
  end.

Definition TimeoutManager_end_user_mode (m : TimeoutManager) : TimeoutManager :=
  let m := mkTimeoutManager (tm_processes m) (current_tick m) false (current_user_pid m) in
  let m := tm_update (current_user_pid m) ProcessTimeout_reset m in
  mkTimeoutManager (tm_processes m) (current_tick m) (user_mode_active m) 0.

Definition TimeoutManager_set_timeout_limit (pid limit : Z) (m : TimeoutManager) : TimeoutManager :=
  match tm_find pid m with
  | Some _ =>
      tm_update pid (fun p => mkProcessTimeout (pt_pid p) (pt_start_time p) limit (pt_state p)
                                (pt_warning_sent p)) m
  | None => TimeoutManager_register_process pid (Some limit) m
  end.

Definition TimeoutManager_get_status (pid : Z) (m : TimeoutManager)
    : option (TimeoutState * Z * Z) :=
  (fun p => (pt_state p, saturating_sub (current_tick m) (pt_start_time p), pt_limit p))
    <$> tm_find pid m.

Section TimerSched.
Context {Fut : Type}.
Implicit Types (s : Scheduler Fut) (m : TimeoutManager).

Definition TimeoutManager_kill_process (pid : Z) s : Scheduler Fut :=
  let s := update_process pid (fun p => set_exit_code (-1) (set_state Zombie p)) s in
  set_processes (wake_waiter pid <$> processes s) s.

Definition TimeoutManager_handle_timeout (pid : Z) m s : TimeoutManager * Scheduler Fut :=
  let s := TimeoutManager_kill_process pid s in
  (TimeoutManager_end_user_mode m, s).

Definition TimeoutManager_check_timeouts m s : TimeoutManager * Scheduler Fut :=
  match tm_find (current_user_pid m) m with
  | Some process =>
      let '(timeout_state, process') := ProcessTimeout_check_timeout (current_tick m) process in
      let m := tm_update (current_user_pid m) (fun _ => process') m in
      let pid := pt_pid process' in
      match timeout_state with
      | TimeoutState_Warning => (m, s)
      | TimeoutState_TimedOut => TimeoutManager_handle_timeout pid m s
      | TimeoutState_Normal => (m, s)
      end
  | None => (m, s)
  end.

Definition TimeoutManager_increment_tick m s : TimeoutManager * Scheduler Fut :=
  let m := mkTimeoutManager (tm_processes m) (wrapping_add_u64 (current_tick m) 1)
             (user_mode_active m) (current_user_pid m) in
  if user_mode_active m then TimeoutManager_check_timeouts m s else (m, s).
End TimerSched.

(** ** The statics and the public functions *)

Record timer_state : Type := mkTimerState {
  TIMEOUT_MANAGER : TimeoutManager;
  GLOBAL_TICK_COUNTER : Z
}.

Definition timer_state_init : timer_state := mkTimerState TimeoutManager_new 0.

Definition with_manager (f : TimeoutManager -> TimeoutManager) (t : timer_state) : timer_state :=
  mkTimerState (f (TIMEOUT_MANAGER t)) (GLOBAL_TICK_COUNTER t).

Definition timer_increment_tick {Fut} (t : timer_state) (s : Scheduler Fut)
    : timer_state * Scheduler Fut :=
  let '(m, s) := TimeoutManager_increment_tick (TIMEOUT_MANAGER t) s in
  (mkTimerState m (current_tick m), s).

Definition timer_increment_timeout {Fut} (t : timer_state) (s : Scheduler Fut)
    : timer_state * Scheduler Fut := timer_increment_tick t s.

Definition timer_start_user_mode (pid : Z) : timer_state -> timer_state :=
  with_manager (TimeoutManager_start_user_mode pid).
Definition timer_end_user_mode : timer_state -> timer_state :=
  with_manager TimeoutManager_end_user_mode.
Definition timer_register_process (pid : Z) (limit : option Z) : timer_state -> timer_state :=
  with_manager (TimeoutManager_register_process pid limit).
Definition timer_unregister_process (pid : Z) : timer_state -> timer_state :=
  with_manager (TimeoutManager_unregister_process pid).
Definition timer_set_timeout_limit (pid limit : Z) : timer_state -> timer_state :=
  with_manager (TimeoutManager_set_timeout_limit pid limit).
Definition timer_get_timeout_status (pid : Z) (t : timer_state) : option (TimeoutState * Z * Z) :=
  TimeoutManager_get_status pid (TIMEOUT_MANAGER t).
Definition timer_get_global_tick (t : timer_state) : Z := GLOBAL_TICK_COUNTER t.
Definition timer_get_timeout_counter (t : timer_state) : Z := timer_get_global_tick t.
Definition timer_reset_timeout : timer_state -> timer_state :=
  with_manager TimeoutManager_end_user_mode.

(** The port writes of [init], in order: port and byte. *)
Definition timer_init_writes : list (Z * Z) :=
  let divisor := PIT_FREQUENCY / TIMER_INTERVAL in
  [(0x43, 0x36);
   (0x40, as_u8 (Z.land divisor 0xFF));
   (0x40, as_u8 (Z.land (Z.shiftr divisor 8) 0xFF))].

(* ------------------------------------------------------------------ *)
(** ** When a process is killed *)

Fixpoint timer_ticks {Fut} (n : nat) (t : timer_state) (s : Scheduler Fut)
    : timer_state * Scheduler Fut :=
  match n with
  | O => (t, s)
  | S n' => let '(t', s') := timer_increment_tick t s in timer_ticks n' t' s'
  end.

(** The limit that governs [pid]: the one of its first entry. *)
Definition limit_of (pid : Z) (m : TimeoutManager) : Z :=
  match tm_find pid m with Some e => pt_limit e | None => DEFAULT_TIMEOUT_LIMIT end.

(** User mode runs [pid], its clock started at tick [t0] with limit [L], and
    [k] ticks have passed. *)
Definition armed (pid t0 L k : Z) (m : TimeoutManager) : Prop :=
  user_mode_active m = true /\ current_user_pid m = pid /\ current_tick m = t0 + k /\
  exists e, tm_find pid m = Some e /\ pt_start_time e = t0 /\ pt_limit e = L /\
            pt_state e = TimeoutState_Normal.

Lemma tm_find_update pid f m :
  (forall e, pt_pid e = pid -> pt_pid (f e) = pid) ->
  tm_find pid (tm_update pid f m) = f <$> tm_find pid m.
Proof. intros Hf. by apply tbl_get_upd. Qed.

Lemma start_armed pid m :
  armed pid (current_tick m) (limit_of pid m) 0 (TimeoutManager_start_user_mode pid m).
Proof.
  unfold TimeoutManager_start_user_mode, armed, limit_of.
  change (tm_find pid (mkTimeoutManager (tm_processes m) (current_tick m) true pid))
    with (tm_find pid m).
  destruct (tm_find pid m) as [e|] eqn:E; simpl; split_and!; try done; try lia.
  - eexists. rewrite tm_find_update by done. unfold tm_find in *. simpl. rewrite E. by split.
  - eexists. rewrite tm_find_update by done. unfold tm_find in *. simpl.
    apply tbl_get_none in E. by rewrite (tbl_get_app_new pt_pid _ (ProcessTimeout_new pid _)).
Qed.

Lemma check_timeout_cases tick e :
  let '(st, e') := ProcessTimeout_check_timeout tick e in
  pt_pid e' = pt_pid e /\ pt_start_time e' = pt_start_time e /\ pt_limit e' = pt_limit e /\
  (st <> TimeoutState_TimedOut -> pt_state e' = pt_state e).
Proof.
  unfold ProcessTimeout_check_timeout.
  destruct (bool_decide _); [done|]. destruct (_ <=? _); [by split_and!|].
  by destruct (_ && _).
Qed.

Lemma check_timeout_result tick e :
  pt_state e = TimeoutState_Normal -> 0 < pt_limit e ->
  (ProcessTimeout_check_timeout tick e).1 = TimeoutState_TimedOut <->
  pt_limit e <= tick - pt_start_time e.
Proof.
  intros Hs Hl. unfold ProcessTimeout_check_timeout. rewrite Hs. simpl.
  unfold saturating_sub. destruct (Z.leb_spec (pt_limit e) (Z.max 0 (tick - pt_start_time e))).
  - split; [lia|done].
  - destruct (_ && _); split; try done; lia.
Qed.

Section Kill.
Context {Fut : Type}.
Implicit Types (s : Scheduler Fut).

Lemma tick_armed pid t0 L k (t : timer_state) s :
  armed pid t0 L k (TIMEOUT_MANAGER t) -> 0 < L -> 0 <= t0 + k -> t0 + k + 1 < 2 ^ 64 ->
  if k + 1 <? L
  then exists t', timer_increment_tick t s = (t', s) /\ armed pid t0 L (k + 1) (TIMEOUT_MANAGER t')
  else exists t', timer_increment_tick t s = (t', TimeoutManager_kill_process pid s) /\
         user_mode_active (TIMEOUT_MANAGER t') = false /\ current_user_pid (TIMEOUT_MANAGER t') = 0.
Proof.
  intros (Ha & Hc & Ht & e & He & H1 & H2 & H3) HL H0 Hk.
  assert (Hw : wrapping_add_u64 (current_tick (TIMEOUT_MANAGER t)) 1 = t0 + (k + 1)).
  { unfold wrapping_add_u64. rewrite Ht, Z.mod_small; lia. }
  unfold timer_increment_tick, TimeoutManager_increment_tick.
  rewrite Ha, Hw, Hc. cbn [user_mode_active]. unfold TimeoutManager_check_timeouts.
  unfold tm_find in *. cbn [tm_processes current_tick current_user_pid]. rewrite He.
  pose proof (check_timeout_cases (t0 + (k + 1)) e) as Hcase.
  pose proof (check_timeout_result (t0 + (k + 1)) e H3) as Hres. rewrite H1, H2 in Hres.
  pose proof (tbl_get_key pt_pid _ _ _ He) as Hpid.
  destruct (ProcessTimeout_check_timeout (t0 + (k + 1)) e) as [st e'].
  destruct Hcase as (C1 & C2 & C3 & C4). simpl in Hres.
  destruct (Z.ltb_spec (k + 1) L) as [Hlt|Hge].
  - assert (Hst : st <> TimeoutState_TimedOut) by (intros E; apply Hres in E; lia).
    destruct st; try done; eexists; (split; [reflexivity|]); unfold armed; simpl;
      (split_and!; try done; exists e'; unfold tm_find; simpl;
       rewrite tbl_get_upd by (intros ? _; congruence); rewrite He; simpl; split_and!;
       [done|congruence..|by rewrite C4]).
  - assert (Hst : st = TimeoutState_TimedOut) by (apply Hres; lia). subst st.
    rewrite C1, Hpid. eexists. split; [reflexivity|]. done.
Qed.

Lemma ticks_armed pid t0 L n k (t : timer_state) s :
  armed pid t0 L k (TIMEOUT_MANAGER t) -> 0 <= k -> 0 <= t0 -> t0 + L < 2 ^ 64 ->
  k + Z.of_nat n < L ->
  exists t', timer_ticks n t s = (t', s) /\
    armed pid t0 L (k + Z.of_nat n) (TIMEOUT_MANAGER t').
Proof.
  revert t k. induction n as [|n IH]; intros t k Ha Hk H0 HL Hn; simpl.
  { exists t. by rewrite Z.add_0_r. }
  pose proof (tick_armed pid t0 L k t s Ha) as H.
  rewrite (proj2 (Z.ltb_lt (k + 1) L)) in H by lia.
  destruct H as (t' & -> & Ha'); [lia..|].
  destruct (IH t' (k + 1) Ha') as (t2 & -> & Ha2); [lia..|]. exists t2.
  by replace (k + Z.of_nat (S n)) with (k + 1 + Z.of_nat n) by lia.
Qed.

Lemma find_wake s pid k :
  find_process k (set_processes (wake_waiter pid <$> processes s) s) =
  wake_waiter pid <$> find_process k s.
Proof.
  unfold find_process, tbl_get. simpl. induction (processes s) as [|p ps IH]; csimpl; [done|].
  unfold has_key. destruct (wake_waiter_fields pid p) as (-> & _).
  destruct (p_id p =? k); [done|]. apply IH.
Qed.

(** What a kill does to the table, whatever the table. *)
Lemma kill_process_facts s pid :
  let s' := TimeoutManager_kill_process pid s in
  pids s' = pids s /\ process_tree s' = process_tree s /\ orphans s' = orphans s /\
  (forall p, find_process pid s = Some p ->
     find_process pid s' = Some (set_exit_code (-1) (set_state Zombie p))) /\
  (forall k q, k <> pid -> find_process k s = Some q ->
     find_process k s' = Some (if waits_for pid q then set_state Ready q else q)).
Proof.
  unfold TimeoutManager_kill_process. cbv zeta. set (s1 := update_process _ _ s). split_and!; try done.
  - assert (E : pids s1 = pids s) by by apply pids_update.
    rewrite <- E. unfold pids, keys. simpl. rewrite <- list_fmap_compose. apply list_fmap_ext.
    intros i p _. simpl. by destruct (wake_waiter_fields pid p) as (-> & _).
  - intros p Hp. rewrite find_wake. unfold s1. rewrite find_update by done. by rewrite Hp.
  - intros k q Hk Hq. rewrite find_wake. unfold s1. rewrite find_update_ne by auto. rewrite Hq. simpl.
    f_equal. unfold wake_waiter, waits_for. by destruct (p_state q) as [| |[w| | | |]| |].
Qed.
End Kill.

Lemma timer_ticks_app {Fut} n m (t : timer_state) (s : Scheduler Fut) :
  timer_ticks (n + m) t s = let '(t', s') := timer_ticks n t s in timer_ticks m t' s'.
Proof.
  revert t s. induction n as [|n IH]; intros t s; simpl; [done|].
  destruct (timer_increment_tick t s). apply IH.
Qed.

(** C24: a process that enters user mode is killed by the timer exactly when
    its limit runs out.  Through [limit - 1] ticks the process table is
    untouched and the process is still the one being timed.  Tick number
    [limit] ends user mode, turns the process into a zombie with exit code -1,
    makes ready exactly the processes that wait for it or for any child, and
    changes no other process, no PID, and neither the tree nor the orphans. *)
Theorem timeout_kills_at_limit {Fut} (t : timer_state) (s : Scheduler Fut) (pid : Z) :
  0 <= current_tick (TIMEOUT_MANAGER t) -> 0 < limit_of pid (TIMEOUT_MANAGER t) ->
  current_tick (TIMEOUT_MANAGER t) + limit_of pid (TIMEOUT_MANAGER t) < 2 ^ 64 ->
  let L := limit_of pid (TIMEOUT_MANAGER t) in
  let t1 := timer_start_user_mode pid t in
  (forall n, Z.of_nat n < L ->
     (timer_ticks n t1 s).2 = s /\
     user_mode_active (TIMEOUT_MANAGER (timer_ticks n t1 s).1) = true /\
     current_user_pid (TIMEOUT_MANAGER (timer_ticks n t1 s).1) = pid) /\
  let '(t', s') := timer_ticks (Z.to_nat L) t1 s in
  user_mode_active (TIMEOUT_MANAGER t') = false /\ current_user_pid (TIMEOUT_MANAGER t') = 0 /\
  (forall p, find_process pid s = Some p ->
     find_process pid s' = Some (set_exit_code (-1) (set_state Zombie p))) /\
  (forall k q, k <> pid -> find_process k s = Some q ->
     find_process k s' = Some (if waits_for pid q then set_state Ready q else q)) /\
  pids s' = pids s /\ process_tree s' = process_tree s /\ orphans s' = orphans s.
Proof.
  intros H0 HL Hb L t1.
  pose proof (start_armed pid (TIMEOUT_MANAGER t)) as Ha.
  change (TimeoutManager_start_user_mode pid (TIMEOUT_MANAGER t)) with (TIMEOUT_MANAGER t1) in Ha.
  split.
  - intros n Hn. destruct (ticks_armed pid _ L n 0 t1 s Ha) as (t' & -> & Ha'); [lia..|].
    split; [done|]. split; apply Ha'.
  - destruct (ticks_armed pid _ L (Z.to_nat (L - 1)) 0 t1 s Ha) as (t' & E & Ha'); [lia..|].
    replace (Z.to_nat L) with (Z.to_nat (L - 1) + 1)%nat by lia. rewrite timer_ticks_app, E.
    pose proof (tick_armed pid _ L _ t' s Ha') as H.
    rewrite (proj2 (Z.ltb_ge _ L)) in H by lia.
    destruct H as (t2 & H & Hu & Hc); [lia..|]. simpl. rewrite H.
    destruct (kill_process_facts s pid) as (F1 & F2 & F3 & F4 & F5). by split_and!.
Qed.

(** Process 2 of [demo_family] is killed at its second tick; process 1, which
    waits for any child, is woken, and process 3 keeps its dead parent. *)
Lemma timeout_kills_at_limit_witness :
  let t1 := timer_start_user_mode 2 (timer_register_process 2 (Some 2) timer_state_init) in
  (timer_ticks 1 t1 demo_family).2 = demo_family /\
  find_process 2 (timer_ticks 2 t1 demo_family).2 =
    Some (set_exit_code (-1) (demo_process 2 1 0x3000 0x7000 Zombie)) /\
  find_process 1 (timer_ticks 2 t1 demo_family).2 = Some (demo_process 1 0 0x2000 0x6000 Ready) /\
  find_process 3 (timer_ticks 2 t1 demo_family).2 = Some (demo_process 3 2 0x4000 0x8000 Ready).
Proof.
  destruct (timeout_kills_at_limit (timer_register_process 2 (Some 2) timer_state_init)
    demo_family 2) as (H1 & H2); [vm_compute; congruence..|].
  change (Z.to_nat (limit_of 2 (TIMEOUT_MANAGER (timer_register_process 2 (Some 2) timer_state_init))))
    with 2%nat in H2.
  rewrite (surjective_pairing (timer_ticks 2 _ demo_family)) in H2. destruct H2 as (_ & _ & H2 & H3 & _).
  split; [apply (H1 1%nat); reflexivity|]. split; [apply (H2 (demo_process 2 1 0x3000 0x7000 Ready)); reflexivity|].
  split.
  - apply (H3 1 (demo_process 1 0 0x2000 0x6000 (Waiting (WaitReason_Child U64_MAX)))); [lia|reflexivity].
  - apply (H3 3 (demo_process 3 2 0x4000 0x8000 Ready)); [lia|reflexivity].
Defined.

(* ------------------------------------------------------------------ *)
(** ** The warning *)

(** The answers of [check_timeout] at the ticks [now + 1], .., [now + n]. *)
Fixpoint check_answers (n : nat) (now : Z) (e : ProcessTimeout) : list TimeoutState :=
  match n with
  | O => []
  | S n' =>
      let '(st, e') := ProcessTimeout_check_timeout (now + 1) e in
      st :: check_answers n' (now + 1) e'
  end.

(** The answer expected [k] ticks after the start, for limit [L]. *)
Definition expected_answer (L k : Z) : TimeoutState :=
  if L <=? k then TimeoutState_TimedOut
  else if k =? Z.max 1 (L / 2) then TimeoutState_Warning
  else TimeoutState_Normal.

(** The entry [k] ticks after its start. *)
Definition clocked (t0 L k : Z) (e : ProcessTimeout) : Prop :=
  pt_start_time e = t0 /\ pt_limit e = L /\
  (pt_state e = TimeoutState_TimedOut <-> 1 <= k /\ L <= k) /\
  (k < L -> pt_warning_sent e = (1 <=? k) && (L / 2 <=? k)).

Lemma clocked_step t0 L k e :
  clocked t0 L k e -> 0 <= k -> 0 <= L ->
  let '(st, e') := ProcessTimeout_check_timeout (t0 + (k + 1)) e in
  st = expected_answer L (k + 1) /\ clocked t0 L (k + 1) e'.
Proof.
  intros (H1 & H2 & H3 & H4) Hk HL. unfold ProcessTimeout_check_timeout, expected_answer, clocked.
  assert (Hdiv : 2 * (L / 2) <= L < 2 * (L / 2) + 2) by (pose proof (Z.div_mod L 2); pose proof (Z.mod_pos_bound L 2); lia).
  case_bool_decide as Ht.
  { apply H3 in Ht. rewrite (proj2 (Z.leb_le L (k + 1))) by lia. split_and!; [done..| |lia].
    split; [lia|]. intros _. by apply H3. }
  rewrite H1, H2. unfold saturating_sub. replace (Z.max 0 (t0 + (k + 1) - t0)) with (k + 1) by lia.
  destruct (Z.leb_spec L (k + 1)) as [Hge|Hlt].
  { split; [done|]. simpl. split_and!; [done..| |lia]. split; [lia|done]. }
  rewrite H4 by lia. assert (Hn : ~ (1 <= k /\ L <= k)) by lia.
  destruct (Z.leb_spec 1 k), (Z.leb_spec (L / 2) k), (Z.leb_spec (L / 2) (k + 1)),
    (Z.eqb_spec (k + 1) (Z.max 1 (L / 2))); simpl; try lia;
    (split; [done|]); split_and!; try done; try (split; [by intros ?%Ht|lia]); intros _;
    repeat match goal with |- context [?a <=? ?b] => destruct (Z.leb_spec a b) end; try done; try lia.
  all: rewrite H4 by lia;
    repeat match goal with |- context [?a <=? ?b] => destruct (Z.leb_spec a b) end; try done; try lia.
Qed.

(** Timed from its start, a process is answered [Normal] on every tick
    except one [Warning] at half its limit (at the first tick for limits below
    two), and [TimedOut] from the limit on: the warning is never missed and
    never repeated. *)
Theorem check_timeout_schedule (e : ProcessTimeout) (t0 : Z) (n : nat) :
  0 <= pt_limit e ->
  check_answers n t0 (ProcessTimeout_start t0 e) =
    (fun k => expected_answer (pt_limit e) (Z.of_nat k)) <$> seq 1 n.
Proof.
  intros HL. assert (Hc : clocked t0 (pt_limit e) 0 (ProcessTimeout_start t0 e)).
  { split_and!; try done. simpl. split; [done|lia]. }
  change (seq 1 n) with (seq (1 + 0) n).
  assert (G : forall k e', clocked t0 (pt_limit e) (Z.of_nat k) e' ->
    check_answers n (t0 + Z.of_nat k) e' =
    (fun j => expected_answer (pt_limit e) (Z.of_nat j)) <$> seq (1 + k) n).
  { induction n as [|n IH]; intros k e' Hk; [done|]. simpl.
    pose proof (clocked_step t0 (pt_limit e) (Z.of_nat k) e' Hk) as Hs.
    replace (t0 + Z.of_nat k + 1) with (t0 + (Z.of_nat k + 1)) by lia.
    destruct (ProcessTimeout_check_timeout _ e') as [st e2].
    destruct Hs as [-> Hs]; [lia..|]. replace (Z.of_nat k + 1) with (Z.of_nat (S k)) in * by lia.
    by rewrite (IH (S k) e2 Hs). }
  pose proof (G 0%nat _ Hc) as H. by rewrite Z.add_0_r in H.
Qed.

Lemma check_timeout_schedule_witness :
  check_answers 5 100 (ProcessTimeout_start 100 (ProcessTimeout_new 7 4)) =
    [TimeoutState_Normal; TimeoutState_Warning; TimeoutState_Normal;
     TimeoutState_TimedOut; TimeoutState_TimedOut].
Proof.
  rewrite (check_timeout_schedule (ProcessTimeout_new 7 4) 100 5).
  - reflexivity.
  - vm_compute. discriminate.
Defined.

(* ------------------------------------------------------------------ *)
(** ** What a kill does to the process table *)

Section KillEffect.
Context {Fut : Type}.
Implicit Types (s : Scheduler Fut) (p : Process).

Lemma wake_all_inv {D} s pid :
  sched_inv_on D s -> sched_inv_on D (set_processes (wake_waiter pid <$> processes s) s).
Proof.
  intros [Hn Hs Hp Hr He Ht Ho].
  assert (Hw : forall p, p_id (wake_waiter pid p) = p_id p /\
                         p_parent_id (wake_waiter pid p) = p_parent_id p)
    by (intros p; destruct (wake_waiter_fields pid p) as (? & ? & _); done).
  split; simpl; try done.
  - unfold pids, keys in *. simpl. rewrite <- list_fmap_compose.
    rewrite (list_fmap_ext _ p_id) by (intros; apply Hw). done.
  - apply Forall_fmap. eapply Forall_impl; [exact Hp|]. intros p.
    by destruct (benign_wake_waiter pid p) as (_ & _ & H & _).
  - unfold running_at_front in *. destruct (processes s) as [|x l]; [done|]. simpl in *.
    apply Forall_fmap. eapply Forall_impl; [exact Hr|]. intros p Hx E. apply Hx.
    by destruct (benign_wake_waiter pid p) as (_ & _ & _ & H); apply H.
  - apply Forall_fmap. eapply Forall_impl; [exact He|]. intros p. unfold in_tree. simpl.
    by destruct (Hw p) as [-> _].
  - apply Forall_fmap. eapply Forall_impl; [exact Ht|]. intros p. unfold tree_agrees. simpl.
    by destruct (Hw p) as [-> ->].
  - apply Forall_fmap. eapply Forall_impl; [exact Ho|]. intros p. unfold orphan_listed. simpl.
    by destruct (Hw p) as [-> ->].
Qed.

Lemma benign_kill p : benign (fun p => set_exit_code (-1) (set_state Zombie p)) p.
Proof. split_and!; try done. intros []; constructor; simpl; done || lia. Qed.

Lemma kill_process_inv {D} s pid : sched_inv_on D s -> sched_inv_on D (TimeoutManager_kill_process pid s).
Proof.
  intros Hi. apply wake_all_inv, update_process_inv; [done|]. intros. apply benign_kill.
Qed.

Lemma timer_tick_inv {D} t s : sched_inv_on D s -> sched_inv_on D (timer_increment_tick t s).2.
Proof.
  intros Hi. unfold timer_increment_tick, TimeoutManager_increment_tick. simpl.
  destruct (user_mode_active _); [|done]. unfold TimeoutManager_check_timeouts.
  destruct (tm_find _ _) as [e|]; [|done].
  destruct (ProcessTimeout_check_timeout _ e) as [[] e']; try done.
  by apply kill_process_inv.
Qed.
End KillEffect.

(** A kill by timeout turns the process into a zombie with exit code -1
    and makes ready every process that waits for it or for any child, parent
    of the killed process or not; nothing else changes.  In particular the
    children of the killed process keep it as their parent and stay off the
    orphan list, unlike after [handle_process_exit]
    (src/src/timer.rs, lines 178-209). *)
Theorem kill_process_effects {Fut} (s : Scheduler Fut) (pid : Z) (p : Process) :
  sched_inv s -> find_process pid s = Some p ->
  let s' := TimeoutManager_kill_process pid s in
  sched_inv s' /\
  find_process pid s' = Some (set_exit_code (-1) (set_state Zombie p)) /\
  (forall k q, k <> pid -> find_process k s = Some q ->
     find_process k s' = Some (if waits_for pid q then set_state Ready q else q)) /\
  process_tree s' = process_tree s /\ orphans s' = orphans s.
Proof.
  intros Hi Hp s'. destruct (kill_process_facts s pid) as (_ & F2 & F3 & F4 & F5).
  split; [by apply kill_process_inv|]. split_and!; auto.
Qed.

(** Process 4 waits for any child and has none; process 2 is killed. *)
Lemma kill_process_effects_witness :
  let s := add_process (demo_process 4 1 0x5000 0x9000 (Waiting (WaitReason_Child U64_MAX)))
             demo_family in
  find_process 4 (TimeoutManager_kill_process 2 s) = Some (demo_process 4 1 0x5000 0x9000 Ready) /\
  find_process 3 (TimeoutManager_kill_process 2 s) = Some (demo_process 3 2 0x4000 0x8000 Ready).
Proof.
  intros s. destruct (kill_process_effects s 2 (demo_process 2 1 0x3000 0x7000 Ready))
    as (_ & _ & H & _).
  - apply add_process_inv; [exact demo_family_inv|simpl; set_solver|apply demo_process_inv|done].
  - reflexivity.
  - split.
    + apply (H 4 (demo_process 4 1 0x5000 0x9000 (Waiting (WaitReason_Child U64_MAX))));
        [lia|reflexivity].
    + apply (H 3 (demo_process 3 2 0x4000 0x8000 Ready)); [lia|reflexivity].
Defined.

(* ------------------------------------------------------------------ *)
(** ** The timer's own state *)

(** The calls the kernel makes on the timer, with the process table. *)
Inductive timer_step {Fut} : timer_state * Scheduler Fut -> timer_state * Scheduler Fut -> Prop :=
| ts_tick t s : timer_step (t, s) (timer_increment_tick t s)
| ts_start pid t s : timer_step (t, s) (timer_start_user_mode pid t, s)
| ts_end t s : timer_step (t, s) (timer_end_user_mode t, s)
| ts_register pid l t s : timer_step (t, s) (timer_register_process pid l t, s)
| ts_unregister pid t s : timer_step (t, s) (timer_unregister_process pid t, s)
| ts_limit pid l t s : timer_step (t, s) (timer_set_timeout_limit pid l t, s).

Record timer_inv (t : timer_state) : Prop := {
  ti_normal : Forall (fun e => pt_state e = TimeoutState_Normal) (tm_processes (TIMEOUT_MANAGER t));
  ti_tick : GLOBAL_TICK_COUNTER t = current_tick (TIMEOUT_MANAGER t);
  ti_range : is_u64 (current_tick (TIMEOUT_MANAGER t));
  ti_user : user_mode_active (TIMEOUT_MANAGER t) = false -> current_user_pid (TIMEOUT_MANAGER t) = 0
}.

Definition all_normal (m : TimeoutManager) : Prop :=
  Forall (fun e => pt_state e = TimeoutState_Normal) (tm_processes m).

Lemma tm_update_normal pid f m :
  (forall e, pt_state e = TimeoutState_Normal -> pt_state (f e) = TimeoutState_Normal) ->
  all_normal m -> all_normal (tm_update pid f m).
Proof. intros Hf. apply Forall_update_first. auto. Qed.

Lemma register_normal pid l m :
  all_normal m -> all_normal (TimeoutManager_register_process pid l m).
Proof. intros H. apply Forall_app. by repeat constructor. Qed.

Lemma start_normal pid m : all_normal m -> all_normal (TimeoutManager_start_user_mode pid m).
Proof.
  intros H. unfold TimeoutManager_start_user_mode.
  destruct (tm_find _ _); apply tm_update_normal; try done. by apply register_normal.
Qed.

(** The entry that timed out is the one [end_user_mode] resets. *)
Lemma timed_out_normal pid e m :
  all_normal m -> pt_pid e = pid -> current_user_pid m = pid ->
  all_normal (TimeoutManager_end_user_mode (tm_update pid (fun _ => e) m)).
Proof.
  intros H He Hc. unfold all_normal in *. simpl. rewrite Hc. unfold tbl_upd.
  induction H as [|x l Hx Hl IH]; simpl; [done|].
  destruct (has_key pt_pid pid x) eqn:E; simpl.
  - unfold has_key. rewrite He, Z.eqb_refl. by constructor.
  - rewrite E. by constructor.
Qed.

Lemma check_timeouts_normal {Fut} m (s : Scheduler Fut) :
  all_normal m ->
  let m' := (TimeoutManager_check_timeouts m s).1 in
  all_normal m' /\ current_tick m' = current_tick m /\
  (user_mode_active m = true -> user_mode_active m' = false -> current_user_pid m' = 0).
Proof.
  intros H. unfold TimeoutManager_check_timeouts.
  destruct (tm_find _ m) as [e|] eqn:E; [|split_and!; try done; simpl; intros; congruence].
  pose proof (check_timeout_cases (current_tick m) e) as Hc.
  assert (He : pt_state e = TimeoutState_Normal).
  { apply tbl_get_elem in E. unfold all_normal in H. rewrite Forall_forall in H. auto. }
  apply tbl_get_key in E.
  destruct (ProcessTimeout_check_timeout (current_tick m) e) as [st e'].
  destruct Hc as (H1 & _ & _ & H4).
  destruct st; simpl; split_and!; try done; try (intros; congruence).
  1-2: apply tm_update_normal; [intros _ _; by rewrite H4|done].
  apply timed_out_normal; congruence.
Qed.

Lemma timer_step_inv {Fut} (x y : timer_state * Scheduler Fut) :
  timer_step x y -> timer_inv x.1 -> timer_inv y.1.
Proof.
  destruct 1 as [t s|pid t s|t s|pid l t s|pid t s|pid l t s]; intros [H1 H2 H3 H4]; simpl in *.
  - unfold timer_increment_tick, TimeoutManager_increment_tick. simpl.
    assert (Hr : is_u64 (wrapping_add_u64 (current_tick (TIMEOUT_MANAGER t)) 1))
      by (apply Z.mod_pos_bound; lia).
    destruct (user_mode_active (TIMEOUT_MANAGER t)) eqn:E; [|by constructor].
    set (m := mkTimeoutManager _ _ _ _).
    destruct (check_timeouts_normal m s) as (C1 & C2 & C3); [done|].
    destruct (TimeoutManager_check_timeouts m s) as [m' s']. simpl in *.
    constructor; simpl; [done|done|by rewrite C2|auto].
  - constructor; simpl; [by apply start_normal| | |].
    + unfold TimeoutManager_start_user_mode. by destruct (tm_find _ _).
    + unfold TimeoutManager_start_user_mode. by destruct (tm_find _ _).
    + unfold TimeoutManager_start_user_mode. by destruct (tm_find _ _).
  - constructor; simpl; try done. by apply (tm_update_normal _ _ (TIMEOUT_MANAGER t)).
  - constructor; simpl; try done. by apply register_normal.
  - constructor; simpl; try done. apply Forall_forall. intros e [He _]%elem_of_filterb.
    rewrite Forall_forall in H1. auto.
  - unfold timer_set_timeout_limit, with_manager, TimeoutManager_set_timeout_limit.
    destruct (tm_find _ _); constructor; simpl; try done.
    + by apply (tm_update_normal pid _ (TIMEOUT_MANAGER t)).
    + by apply (register_normal pid (Some l) (TIMEOUT_MANAGER t)).
Qed.

Lemma timer_reach_inv {Fut} (x y : timer_state * Scheduler Fut) :
  rtc timer_step x y -> timer_inv x.1 -> timer_inv y.1.
Proof. induction 1 as [|x z y Hs _ IH]; [done|]. intros Hi. by eapply IH, timer_step_inv. Qed.

Lemma timer_inv_init : timer_inv timer_state_init.
Proof. by constructor. Qed.

(** In every reachable state the published tick counter is the manager's
    tick, and [get_timeout_status] reports [Normal] for every registered
    process: a warning is not recorded in the state, and a timed-out entry is
    reset before the tick that found it returns, so neither [Warning] nor
    [TimedOut] is ever reported (src/src/timer.rs, lines 49-67 and 221-229). *)
Theorem timeout_status_always_normal {Fut} (t : timer_state) (s0 s : Scheduler Fut) (pid : Z)
    (st : TimeoutState) (elapsed limit : Z) :
  rtc timer_step (timer_state_init, s0) (t, s) ->
  timer_get_global_tick t = current_tick (TIMEOUT_MANAGER t) /\
  (timer_get_timeout_status pid t = Some (st, elapsed, limit) -> st = TimeoutState_Normal).
Proof.
  intros Hr. apply timer_reach_inv in Hr as [H1 H2 _ _]; [|apply timer_inv_init].
  split; [done|]. unfold timer_get_timeout_status, TimeoutManager_get_status.
  intros (e & He & [= -> _ _])%fmap_Some. apply tbl_get_elem in He.
  rewrite Forall_forall in H1. by apply H1.
Qed.

Lemma timeout_status_always_normal_witness :
  let t := (timer_ticks 1 (timer_start_user_mode 7 (timer_register_process 7 (Some 1)
              timer_state_init)) (@SCHEDULER_init unit)).1 in
  timer_get_timeout_status 7 t = Some (TimeoutState_Normal, 1, 1) /\
  timer_get_global_tick t = 1.
Proof.
  intros t. split; [reflexivity|].
  destruct (timeout_status_always_normal t SCHEDULER_init
    (TimeoutManager_kill_process 7 (@SCHEDULER_init unit)) 7 TimeoutState_Normal 1 1) as [H _].
  - eapply rtc_l; [apply (ts_register 7 (Some 1))|]. eapply rtc_l; [apply (ts_start 7)|].
    eapply rtc_l; [apply ts_tick|]. apply rtc_refl.
  - rewrite H. reflexivity.
Defined.

(* ------------------------------------------------------------------ *)
(** ** The interval timer *)

(** The 16-bit reload value the hardware assembles from the two data bytes
    that follow a low/high-byte command. *)
Definition pit_reload (writes : list (Z * Z)) : Z :=
  match writes with
  | [_; (_, lo); (_, hi)] => lo + 256 * hi
  | _ => 0
  end.

(** The divisor for the intended 10 Hz, 119318, does not fit the 16-bit
    reload register: [init] writes the bytes of 119318 - 65536 = 53782, which
    programs the timer at 22 Hz, so the default limit of 30 ticks, meant to be
    3 seconds, passes in less than 1.4 seconds
    (src/src/timer.rs, lines 6-8 and 233-252). *)
Theorem pit_divisor_truncated :
  PIT_FREQUENCY / TIMER_INTERVAL = 119318 /\
  pit_reload timer_init_writes = 53782 /\
  PIT_FREQUENCY / pit_reload timer_init_writes = 22 /\
  1000 * DEFAULT_TIMEOUT_LIMIT * pit_reload timer_init_writes < 1400 * PIT_FREQUENCY.
Proof. vm_compute. done. Qed.
