(* ===== verification/Channels.v ===== *)
(** * Channels: message passing (src/src/ipc.rs)

    [Message], [Channel], [ChannelRegistry] and the three message system
    calls of [ipc::syscalls].  The registry is the static [CHANNEL_REGISTRY];
    the system calls take the current process ID as an argument, which the
    code reads from [CPU_DATA].  A byte is a [Z]. *)

From stdpp Require Import base sets numbers relations sorting list.
From S2P Require Import Prelude Errors.
Local Open Scope Z_scope.
Local Open Scope ruix_scope.

Definition MAX_QUEUE_SIZE : Z := 1000.

Record Message : Type := mkMessage {
  sender_pid : Z;
  msg_type : Z;
  msg_data : list Z;
  data_len : Z
}.

Definition Message_new (sender type : Z) (data : list Z) : Message :=
  let len := Z.min (Z.of_nat (length data)) 256 in
  let bytes := take (Z.to_nat len) data ++ replicate (256 - Z.to_nat len) 0 in
  mkMessage sender type bytes len.

Definition Message_data (m : Message) : list Z := take (Z.to_nat (data_len m)) (msg_data m).

Record Channel : Type := mkChannel {
  ch_id : Z;
  endpoint1 : Z;
  endpoint2 : Z;
  queue1_to_2 : list Message;
  queue2_to_1 : list Message
}.

Definition Channel_new (id pid1 pid2 : Z) : Channel := mkChannel id pid1 pid2 [] [].

Definition set_queue1_to_2 (q : list Message) (c : Channel) : Channel :=
  mkChannel (ch_id c) (endpoint1 c) (endpoint2 c) q (queue2_to_1 c).
Definition set_queue2_to_1 (q : list Message) (c : Channel) : Channel :=
  mkChannel (ch_id c) (endpoint1 c) (endpoint2 c) (queue1_to_2 c) q.

Definition Channel_send (sender : Z) (message : Message) (c : Channel)
    : result IpcError unit * Channel :=
  if sender =? endpoint1 c then
    if MAX_QUEUE_SIZE <=? Z.of_nat (length (queue1_to_2 c)) then (Err IpcError_ChannelFull, c)
    else (Ok tt, set_queue1_to_2 (queue1_to_2 c ++ [message]) c)
  else if sender =? endpoint2 c then
    if MAX_QUEUE_SIZE <=? Z.of_nat (length (queue2_to_1 c)) then (Err IpcError_ChannelFull, c)
    else (Ok tt, set_queue2_to_1 (queue2_to_1 c ++ [message]) c)
  else (Err IpcError_InvalidSender, c).

Definition Channel_receive (receiver_pid : Z) (c : Channel) : option Message * Channel :=
  if receiver_pid =? endpoint1 c then
    (head (queue2_to_1 c), set_queue2_to_1 (tail (queue2_to_1 c)) c)
  else if receiver_pid =? endpoint2 c then
    (head (queue1_to_2 c), set_queue1_to_2 (tail (queue1_to_2 c)) c)
  else (None, c).

Definition Channel_has_endpoint (pid : Z) (c : Channel) : bool :=
  (pid =? endpoint1 c) || (pid =? endpoint2 c).

Record ChannelRegistry : Type := mkChannelRegistry {
  channels : list Channel;
  next_id : Z
}.

Definition ChannelRegistry_new : ChannelRegistry := mkChannelRegistry [] 1.

Definition ChannelRegistry_create_channel (pid1 pid2 : Z) (r : ChannelRegistry)
    : outcome (result IpcError Z * ChannelRegistry) :=
  let channel_id := next_id r in
  let! n := add_u64 (next_id r) 1 in
  let channel := Channel_new channel_id pid1 pid2 in
  Ret (Ok channel_id, mkChannelRegistry (channels r ++ [channel]) n).

Definition ChannelRegistry_get_channel (id : Z) (r : ChannelRegistry) : option Channel :=
  tbl_get ch_id id (channels r).

(** Mutation through the reference of [get_channel_mut]. *)
Definition put_channel (id : Z) (c : Channel) (r : ChannelRegistry) : ChannelRegistry :=
  mkChannelRegistry (tbl_upd ch_id id (fun _ => c) (channels r)) (next_id r).

Definition ChannelRegistry_get_channels_for_process (pid : Z) (r : ChannelRegistry)
    : list Channel :=
  List.filter (Channel_has_endpoint pid) (channels r).

Definition ChannelRegistry_cleanup_process_channels (pid : Z) (r : ChannelRegistry)
    : ChannelRegistry :=
  let channels_to_remove := ch_id <$> List.filter (Channel_has_endpoint pid) (channels r) in
  mkChannelRegistry
    (fold_left (fun cs id => List.filter (fun c => negb (ch_id c =? id)) cs)
       channels_to_remove (channels r))
    (next_id r).

(** ** The system calls *)

Definition sys_create_channel (current_pid target_pid : Z) (r : ChannelRegistry)
    : outcome (result IpcError Z * ChannelRegistry) :=
  if current_pid =? target_pid then Ret (Err IpcError_CircularTransfer, r)
  else ChannelRegistry_create_channel current_pid target_pid r.

Definition sys_send_message (current_pid channel_id type : Z) (data : list Z)
    (r : ChannelRegistry) : result IpcError unit * ChannelRegistry :=
  let message := Message_new current_pid type data in
  match ChannelRegistry_get_channel channel_id r with
  | Some channel =>
      let '(res, channel') := Channel_send current_pid message channel in
      (res, put_channel channel_id channel' r)
  | None => (Err IpcError_ChannelNotFound, r)
  end.

Definition sys_receive_message (current_pid channel_id : Z) (r : ChannelRegistry)
    : result IpcError (option Message) * ChannelRegistry :=
  match ChannelRegistry_get_channel channel_id r with
  | Some channel =>
      let '(msg, channel') := Channel_receive current_pid channel in
      (Ok msg, put_channel channel_id channel' r)
  | None => (Err IpcError_ChannelNotFound, r)
  end.

(* ------------------------------------------------------------------ *)
(** ** Messages *)

(** A message carries its sender, its type and the first 256 bytes of the
    data; up to 256 bytes, what [data] returns is exactly what was sent. *)
Theorem Message_roundtrip (sender type : Z) (data : list Z) :
  let m := Message_new sender type data in
  Message_data m = take 256 data /\ length (msg_data m) = 256%nat /\
  0 <= data_len m <= 256 /\ sender_pid m = sender /\
  ((length data <= 256)%nat -> Message_data m = data).
Proof.
  intros m. assert (Hd : Message_data m = take 256 data).
  { unfold m, Message_data, Message_new. simpl.
    destruct (Z.min_spec (Z.of_nat (length data)) 256) as [[H ->]|[H ->]].
    - rewrite Nat2Z.id, firstn_app, firstn_all, take_ge by lia.
      rewrite Nat.sub_diag, take_0, app_nil_r. by rewrite !take_ge by lia.
    - change (Z.to_nat 256) with 256%nat. rewrite Nat.sub_diag. simpl replicate.
      by rewrite app_nil_r, take_take. }
  split_and!; [done| |simpl; lia..|done|].
  - unfold m. simpl. rewrite length_app, length_replicate, length_take. lia.
  - intros Hl. rewrite Hd. by apply take_ge.
Qed.

(* ------------------------------------------------------------------ *)
(** ** Histories of message operations

    A history is a list of operations, each issued by some process.  Its run
    collects the events: the operations with their results. *)

Inductive chan_op : Type :=
| OpCreate (target : Z)
| OpSend (id type : Z) (data : list Z)
| OpReceive (id : Z)
| OpCleanup (pid : Z).

Inductive chan_event : Type :=
| EvCreate (pid target : Z) (res : result IpcError Z)
| EvSend (pid id type : Z) (data : list Z) (res : result IpcError unit)
| EvReceive (pid id : Z) (res : result IpcError (option Message))
| EvCleanup (pid : Z).

Definition chan_exec (pid : Z) (op : chan_op) (r : ChannelRegistry)
    : outcome (chan_event * ChannelRegistry) :=
  match op with
  | OpCreate target =>
      let! x := sys_create_channel pid target r in Ret (EvCreate pid target x.1, x.2)
  | OpSend id type data =>
      let x := sys_send_message pid id type data r in Ret (EvSend pid id type data x.1, x.2)
  | OpReceive id => let x := sys_receive_message pid id r in Ret (EvReceive pid id x.1, x.2)
  | OpCleanup p => Ret (EvCleanup p, ChannelRegistry_cleanup_process_channels p r)
  end.

Fixpoint chan_run (ops : list (Z * chan_op)) (r : ChannelRegistry)
    : outcome (list chan_event * ChannelRegistry) :=
  match ops with
  | [] => Ret ([], r)
  | (pid, op) :: ops' =>
      let! x := chan_exec pid op r in
      let! y := chan_run ops' x.2 in
      Ret (x.1 :: y.1, y.2)
  end.

(** The messages process [a] had accepted on channel [id], in order. *)
Definition accepted_one (a id : Z) (ev : chan_event) : list Message :=
  match ev with
  | EvSend pid i type data (Ok _) =>
      if (pid =? a) && (i =? id) then [Message_new pid type data] else []
  | _ => []
  end.
Definition accepted (a id : Z) (evs : list chan_event) : list Message := evs ≫= accepted_one a id.

(** The messages process [b] received on channel [id], in order. *)
Definition delivered_one (b id : Z) (ev : chan_event) : list Message :=
  match ev with
  | EvReceive pid i (Ok (Some m)) => if (pid =? b) && (i =? id) then [m] else []
  | _ => []
  end.
Definition delivered (b id : Z) (evs : list chan_event) : list Message := evs ≫= delivered_one b id.

(** The operation does not tear the channel down. *)
Definition keeps_channel (a b : Z) (op : chan_op) : Prop :=
  match op with OpCleanup p => p <> a /\ p <> b | _ => True end.

(* ------------------------------------------------------------------ *)
(** ** The registry invariant *)

Record channel_ok (c : Channel) : Prop := {
  co_distinct : endpoint1 c <> endpoint2 c;
  co_bound1 : Z.of_nat (length (queue1_to_2 c)) <= MAX_QUEUE_SIZE;
  co_bound2 : Z.of_nat (length (queue2_to_1 c)) <= MAX_QUEUE_SIZE;
  co_from1 : Forall (fun m => sender_pid m = endpoint1 c /\ 0 <= data_len m <= 256 /\
                              length (msg_data m) = 256%nat) (queue1_to_2 c);
  co_from2 : Forall (fun m => sender_pid m = endpoint2 c /\ 0 <= data_len m <= 256 /\
                              length (msg_data m) = 256%nat) (queue2_to_1 c)
}.

Record registry_inv (r : ChannelRegistry) : Prop := {
  ri_nodup : NoDup (keys ch_id (channels r));
  ri_ids : Forall (fun c => 1 <= ch_id c < next_id r) (channels r);
  ri_next : 1 <= next_id r;
  ri_channels : Forall channel_ok (channels r)
}.

Lemma registry_inv_new : registry_inv ChannelRegistry_new.
Proof. split; simpl; try constructor; done. Qed.

Lemma Message_new_ok s t d :
  sender_pid (Message_new s t d) = s /\ 0 <= data_len (Message_new s t d) <= 256 /\
  length (msg_data (Message_new s t d)) = 256%nat.
Proof. simpl. rewrite length_app, length_replicate, length_take. split_and!; lia. Qed.

Lemma Channel_send_ok pid t d c :
  channel_ok c -> channel_ok (Channel_send pid (Message_new pid t d) c).2 /\
  ch_id (Channel_send pid (Message_new pid t d) c).2 = ch_id c.
Proof.
  intros [H1 H2 H3 H4 H5]. pose proof (Message_new_ok pid t d) as Hm. unfold Channel_send.
  step_cases; (split; [|done]); constructor; simpl; try done;
    try (rewrite length_app; simpl; lia); apply Forall_app; split; try done;
    apply Forall_singleton; exact Hm.
Qed.

Lemma Forall_tl {A} (P : A -> Prop) l : Forall P l -> Forall P (tail l).
Proof. by intros []. Qed.

Lemma Channel_receive_ok pid c :
  channel_ok c -> channel_ok (Channel_receive pid c).2 /\
  ch_id (Channel_receive pid c).2 = ch_id c.
Proof.
  intros [H1 H2 H3 H4 H5]. unfold Channel_receive.
  step_cases; (split; [|done]); constructor; simpl; try done; try (by apply Forall_tl).
  - destruct (queue2_to_1 c); simpl in *; lia.
  - destruct (queue1_to_2 c); simpl in *; lia.
Qed.

Lemma put_channel_inv r id c c' :
  registry_inv r -> ChannelRegistry_get_channel id r = Some c ->
  channel_ok c' -> ch_id c' = ch_id c -> registry_inv (put_channel id c' r).
Proof.
  intros [Hn Hi H1 Hc] Hg Hok He. pose proof (tbl_get_key ch_id _ _ _ Hg) as Hk.
  split; simpl; [|apply Forall_update_first|done|by apply Forall_update_first].
  - rewrite keys_upd; [done|]. intros x _. congruence.
  - intros x [=Hx%Z.eqb_eq] Hb. simpl in *. rewrite He, Hk, <- Hx. done.
  - done.
Qed.

(** Removing by identifier, one identifier at a time, is one filter. *)
Lemma fold_filter_ids ids (cs : list Channel) :
  fold_left (fun cs id => List.filter (fun c => negb (ch_id c =? id)) cs) ids cs =
  List.filter (fun c => negb (bool_decide (ch_id c ∈ ids))) cs.
Proof.
  revert cs. induction ids as [|id ids IH]; intros cs; simpl.
  { symmetry. by apply filterb_all, Forall_forall. }
  rewrite IH, filterb_filterb. apply filterb_ext, Forall_forall. intros c _.
  destruct (Z.eqb_spec (ch_id c) id); simpl; repeat case_bool_decide; set_solver.
Qed.

Lemma cleanup_channels_eq pid r :
  NoDup (keys ch_id (channels r)) ->
  channels (ChannelRegistry_cleanup_process_channels pid r) =
  List.filter (fun c => negb (Channel_has_endpoint pid c)) (channels r).
Proof.
  intros Hn. simpl. rewrite fold_filter_ids. apply filterb_ext, Forall_forall. intros c Hc.
  f_equal. destruct (Channel_has_endpoint pid c) eqn:E.
  - apply bool_decide_eq_true, list_elem_of_fmap. exists c. by rewrite elem_of_filterb.
  - apply bool_decide_eq_false. intros (c' & Ek & [Hc' E']%elem_of_filterb)%list_elem_of_fmap.
    pose proof (tbl_get_unique ch_id _ c Hn Hc). pose proof (tbl_get_unique ch_id _ c' Hn Hc').
    congruence.
Qed.

Lemma chan_exec_inv pid op r ev r' :
  registry_inv r -> chan_exec pid op r = Ret (ev, r') -> registry_inv r'.
Proof.
  intros Hr. destruct op as [target|id type data|id|p]; simpl; intros H.
  - unfold sys_create_channel, ChannelRegistry_create_channel in H.
    destruct (Z.eqb_spec pid target); inv_ret; simplify_eq; [done|].
    destruct Hr as [Hn Hi H1 Hc]. simpl in *. split; simpl; [|apply Forall_app|lia|apply Forall_app].
    + unfold keys. rewrite fmap_app. apply NoDup_app. split_and!; [done| |apply NoDup_singleton].
      intros k (c & -> & Hx)%list_elem_of_fmap E%list_elem_of_singleton. simpl in E.
      rewrite Forall_forall in Hi. specialize (Hi c Hx). simpl in Hi. lia.
    + split; [|repeat constructor; simpl; lia]. eapply Forall_impl; [exact Hi|]. simpl. lia.
    + split; [done|]. by repeat constructor.
  - injection H as _ <-. unfold sys_send_message.
    destruct (ChannelRegistry_get_channel id r) as [c|] eqn:E; [|done].
    destruct (Channel_send_ok pid type data c) as [H1 H2].
    { destruct Hr. apply tbl_get_elem in E. rewrite Forall_forall in *. auto. }
    destruct (Channel_send _ _ _) as [res c']. by eapply put_channel_inv.
  - injection H as _ <-. unfold sys_receive_message.
    destruct (ChannelRegistry_get_channel id r) as [c|] eqn:E; [|done].
    destruct (Channel_receive_ok pid c) as [H1 H2].
    { destruct Hr. apply tbl_get_elem in E. rewrite Forall_forall in *. auto. }
    destruct (Channel_receive _ _) as [res c']. by eapply put_channel_inv.
  - injection H as _ <-. destruct Hr as [Hn Hi H1 Hc].
    pose proof (cleanup_channels_eq p r Hn) as Hcl.
    assert (Hs : channels (ChannelRegistry_cleanup_process_channels p r) `sublist_of` channels r)
      by (rewrite Hcl; apply filterb_sublist).
    assert (HF : forall P, Forall P (channels r) ->
      Forall P (channels (ChannelRegistry_cleanup_process_channels p r))).
    { intros P HP. rewrite Hcl. apply Forall_forall. intros x [Hx _]%elem_of_filterb.
      rewrite Forall_forall in HP. auto. }
    split; [by eapply NoDup_keys_sublist|by apply HF|done|by apply HF].
Qed.

Lemma chan_run_inv ops r evs r' :
  registry_inv r -> chan_run ops r = Ret (evs, r') -> registry_inv r'.
Proof.
  revert r evs. induction ops as [|[pid op] ops IH]; intros r evs Hr; simpl; [by intros [= _ <-]|].
  intros H. inv_ret. destruct x as [ev r1], x0 as [evs1 r2]. simplify_eq/=.
  eapply IH; [|done]. by eapply chan_exec_inv.
Qed.

(** C32: the channel registry is well formed after any history of operations
    by any processes: channel identifiers are unique and below the next one,
    the two endpoints differ, no queue exceeds 1000 messages, and every queued
    message carries the PID of the endpoint it came from and at most 256
    bytes. *)
Theorem channel_registry_inv (ops : list (Z * chan_op)) (evs : list chan_event)
    (r : ChannelRegistry) :
  chan_run ops ChannelRegistry_new = Ret (evs, r) -> registry_inv r.
Proof. apply chan_run_inv, registry_inv_new. Qed.

Lemma channel_registry_inv_witness :
  exists evs r, chan_run [(5, OpCreate 6); (5, OpSend 1 9 [1; 2; 3])] ChannelRegistry_new =
    Ret (evs, r) /\ registry_inv r.
Proof.
  eexists _, _. split; [reflexivity|].
  apply (channel_registry_inv [(5, OpCreate 6); (5, OpSend 1 9 [1; 2; 3])]
    [EvCreate 5 6 (Ok 1); EvSend 5 1 9 [1; 2; 3] (Ok tt)]). reflexivity.
Defined.

(* ------------------------------------------------------------------ *)
(** ** First in, first out *)

(** Channel [id] of [r] connects [a] and [b] and holds these queues. *)
Definition channel_holds (id a b : Z) (q12 q21 : list Message) (r : ChannelRegistry) : Prop :=
  exists c, ChannelRegistry_get_channel id r = Some c /\
    endpoint1 c = a /\ endpoint2 c = b /\ queue1_to_2 c = q12 /\ queue2_to_1 c = q21.

(** What one event does to the two queues, as FIFO queues. *)
Definition fifo_step (id a b : Z) (ev : chan_event) (q12 q21 q12' q21' : list Message) : Prop :=
  q12 ++ accepted_one a id ev = delivered_one b id ev ++ q12' /\
  q21 ++ accepted_one b id ev = delivered_one a id ev ++ q21'.

Lemma get_put_ne id id' c c' r :
  ChannelRegistry_get_channel id r = Some c -> ch_id c' = ch_id c -> id <> id' ->
  ChannelRegistry_get_channel id' (put_channel id c' r) = ChannelRegistry_get_channel id' r.
Proof.
  intros Hg He Hne. apply tbl_get_upd_ne; [|done]. intros x _.
  rewrite He. by apply tbl_get_key in Hg.
Qed.

Lemma get_put id c c' r :
  ChannelRegistry_get_channel id r = Some c -> ch_id c' = ch_id c ->
  ChannelRegistry_get_channel id (put_channel id c' r) = Some c'.
Proof.
  intros Hg He. unfold ChannelRegistry_get_channel, put_channel in *. simpl.
  rewrite tbl_get_upd; [by rewrite Hg|]. intros x _. rewrite He. by apply tbl_get_key in Hg.
Qed.

Lemma Channel_send_id pid m c : ch_id (Channel_send pid m c).2 = ch_id c.
Proof. unfold Channel_send. by repeat case_match. Qed.
Lemma Channel_receive_id pid c : ch_id (Channel_receive pid c).2 = ch_id c.
Proof. unfold Channel_receive. by repeat case_match. Qed.

Lemma send_fifo pid i type data id a b q12 q21 r :
  channel_holds id a b q12 q21 r -> a <> b ->
  let '(res, r') := sys_send_message pid i type data r in
  exists q12' q21', channel_holds id a b q12' q21' r' /\
    fifo_step id a b (EvSend pid i type data res) q12 q21 q12' q21'.
Proof.
  intros (c & Hg & <- & <- & <- & <-) Hab. unfold sys_send_message.
  destruct (Z.eqb_spec i id) as [->|Hne].
  - rewrite Hg. pose proof (Channel_send_id pid (Message_new pid type data) c) as Hid.
    destruct (Channel_send pid _ c) as [res c'] eqn:E. simpl in Hid.
    exists (queue1_to_2 c'), (queue2_to_1 c'). unfold channel_holds, fifo_step.
    split.
    + exists c'. split; [by eapply get_put|]. unfold Channel_send in E. step_cases; done.
    + unfold Channel_send in E. simpl. rewrite Z.eqb_refl, !andb_true_r.
      step_cases; rewrite ?app_nil_r; try done; try lia.
  - destruct (ChannelRegistry_get_channel i r) as [ci|] eqn:Ei.
    2: { eexists _, _. split; [by exists c|]. unfold fifo_step. simpl. by rewrite !app_nil_r. }
    pose proof (Channel_send_id pid (Message_new pid type data) ci) as Hid.
    destruct (Channel_send pid _ ci) as [res c']. eexists _, _. split.
    + exists c. split; [|done]. by rewrite (get_put_ne _ _ _ _ _ Ei).
    + unfold fifo_step. simpl. rewrite (proj2 (Z.eqb_neq i id) Hne), !andb_false_r.
      by destruct res; rewrite !app_nil_r.
Qed.

Lemma receive_fifo pid i id a b q12 q21 r :
  channel_holds id a b q12 q21 r -> a <> b ->
  let '(res, r') := sys_receive_message pid i r in
  exists q12' q21', channel_holds id a b q12' q21' r' /\
    fifo_step id a b (EvReceive pid i res) q12 q21 q12' q21'.
Proof.
  intros (c & Hg & <- & <- & <- & <-) Hab. unfold sys_receive_message.
  destruct (Z.eqb_spec i id) as [->|Hne].
  - rewrite Hg. pose proof (Channel_receive_id pid c) as Hid.
    destruct (Channel_receive pid c) as [res c'] eqn:E. simpl in Hid.
    exists (queue1_to_2 c'), (queue2_to_1 c'). unfold channel_holds, fifo_step.
    split.
    + exists c'. split; [by eapply get_put|]. unfold Channel_receive in E. step_cases; done.
    + unfold Channel_receive in E. simpl. rewrite !app_nil_r, Z.eqb_refl, !andb_true_r.
      destruct (Z.eqb_spec pid (endpoint1 c)) as [->|]; simplify_eq/=.
      { rewrite (proj2 (Z.eqb_neq _ _) Hab). by destruct (queue2_to_1 c), (queue1_to_2 c). }
      destruct (Z.eqb_spec pid (endpoint2 c)) as [->|]; simplify_eq/=; [|done].
      by destruct (queue2_to_1 c), (queue1_to_2 c).
  - destruct (ChannelRegistry_get_channel i r) as [ci|] eqn:Ei.
    2: { eexists _, _. split; [by exists c|]. unfold fifo_step. simpl. by rewrite !app_nil_r. }
    pose proof (Channel_receive_id pid ci) as Hid.
    destruct (Channel_receive pid ci) as [res c']. eexists _, _. split.
    + exists c. split; [|done]. by rewrite (get_put_ne _ _ _ _ _ Ei).
    + unfold fifo_step. simpl. rewrite (proj2 (Z.eqb_neq i id) Hne), !andb_false_r.
      by destruct res; rewrite !app_nil_r.
Qed.

Lemma create_fifo pid target r res r' id a b q12 q21 :
  sys_create_channel pid target r = Ret (res, r') ->
  channel_holds id a b q12 q21 r -> channel_holds id a b q12 q21 r'.
Proof.
  unfold sys_create_channel, ChannelRegistry_create_channel. intros H (c & Hg & Hc).
  destruct (pid =? target); inv_ret; simplify_eq; [by exists c|].
  exists c. split; [|done]. unfold ChannelRegistry_get_channel in *. simpl.
  rewrite tbl_get_app_l; [done|by exists c].
Qed.

Lemma cleanup_fifo p r id a b q12 q21 :
  NoDup (keys ch_id (channels r)) -> p <> a -> p <> b -> channel_holds id a b q12 q21 r ->
  channel_holds id a b q12 q21 (ChannelRegistry_cleanup_process_channels p r).
Proof.
  intros Hn Ha Hb (c & Hg & <- & <- & Hq). exists c. split; [|done].
  unfold ChannelRegistry_get_channel in *. rewrite cleanup_channels_eq by done.
  apply tbl_get_filter_keep; [done..|]. unfold Channel_has_endpoint.
  by rewrite (proj2 (Z.eqb_neq _ _) Ha), (proj2 (Z.eqb_neq _ _) Hb).
Qed.

Lemma chan_exec_fifo pid op r ev r' id a b q12 q21 :
  registry_inv r -> chan_exec pid op r = Ret (ev, r') -> keeps_channel a b op -> a <> b ->
  channel_holds id a b q12 q21 r ->
  exists q12' q21', channel_holds id a b q12' q21' r' /\ fifo_step id a b ev q12 q21 q12' q21'.
Proof.
  intros Hr H Hk Hab Hc. destruct op as [target|i type data|i|p]; simpl in H.
  - inv_ret. destruct x as [res r1]. simplify_eq/=. exists q12, q21.
    split; [by eapply create_fifo|]. unfold fifo_step. simpl. by rewrite !app_nil_r.
  - pose proof (send_fifo pid i type data id a b q12 q21 r Hc Hab) as Hs.
    destruct (sys_send_message pid i type data r). by simplify_eq/=.
  - pose proof (receive_fifo pid i id a b q12 q21 r Hc Hab) as Hs.
    destruct (sys_receive_message pid i r). by simplify_eq/=.
  - simplify_eq. destruct Hk. exists q12, q21. split; [by apply cleanup_fifo; [apply Hr|..]|].
    unfold fifo_step. simpl. by rewrite !app_nil_r.
Qed.

(** C4: a channel is a pair of first-in-first-out queues.  Over any history
    that does not tear the channel down, whatever other processes and channels
    do in between, what one endpoint had accepted (after what was queued at
    the start) is what the other endpoint received followed by what is still
    queued: nothing is lost, duplicated, reordered or delivered elsewhere. *)
Theorem channel_fifo (ops : list (Z * chan_op)) (r r' : ChannelRegistry)
    (evs : list chan_event) (id a b : Z) (q12 q21 : list Message) :
  registry_inv r -> channel_holds id a b q12 q21 r -> a <> b ->
  Forall (fun o => keeps_channel a b o.2) ops -> chan_run ops r = Ret (evs, r') ->
  exists q12' q21', channel_holds id a b q12' q21' r' /\
    q12 ++ accepted a id evs = delivered b id evs ++ q12' /\
    q21 ++ accepted b id evs = delivered a id evs ++ q21'.
Proof.
  intros Hr Hc Hab Hk. revert r evs q12 q21 Hr Hc.
  induction Hk as [|[pid op] ops Hop Hk IH]; intros r evs q12 q21 Hr Hc; simpl; intros H.
  { simplify_eq. exists q12, q21. unfold accepted, delivered. simpl. by rewrite !app_nil_r. }
  inv_ret. destruct x as [ev r1], x0 as [evs1 r2]. simplify_eq/=.
  destruct (chan_exec_fifo pid op r ev r1 id a b q12 q21) as (p12 & p21 & Hc1 & F1 & F2); [done..|].
  destruct (IH r1 evs1 p12 p21) as (q12' & q21' & Hc2 & G1 & G2);
    [by eapply chan_exec_inv|done..|].
  exists q12', q21'. split; [done|]. unfold accepted, delivered in *. csimpl.
  split.
  - by rewrite app_assoc, F1, <- !app_assoc, G1.
  - by rewrite app_assoc, F2, <- !app_assoc, G2.
Qed.

Definition demo_registry : ChannelRegistry :=
  mkChannelRegistry [Channel_new 1 5 6; Channel_new 2 5 7] 3.

Lemma demo_registry_inv : registry_inv demo_registry.
Proof.
  split; simpl; [|repeat constructor..|lia|repeat constructor]; simpl; try lia; try done.
  unfold keys. csimpl. apply NoDup_cons. split; [set_solver|apply NoDup_singleton].
Qed.

Lemma channel_fifo_witness :
  exists q12' q21', channel_holds 1 5 6 q12' q21'
      (mkChannelRegistry [set_queue1_to_2 [Message_new 5 8 [43]] (Channel_new 1 5 6);
                          Channel_new 2 5 7] 3) /\
    [Message_new 5 9 [42]; Message_new 5 8 [43]] = [Message_new 5 9 [42]] ++ q12'.
Proof.
  destruct (channel_fifo
    [(5, OpSend 1 9 [42]); (8, OpReceive 1); (5, OpSend 1 8 [43]); (6, OpReceive 1)]
    demo_registry
    (mkChannelRegistry [set_queue1_to_2 [Message_new 5 8 [43]] (Channel_new 1 5 6);
                        Channel_new 2 5 7] 3)
    [EvSend 5 1 9 [42] (Ok tt); EvReceive 8 1 (Ok None); EvSend 5 1 8 [43] (Ok tt);
     EvReceive 6 1 (Ok (Some (Message_new 5 9 [42])))] 1 5 6 [] []) as (q12' & q21' & H & H1 & _).
  - exact demo_registry_inv.
  - exists (Channel_new 1 5 6). repeat split.
  - lia.
  - repeat constructor.
  - reflexivity.
  - exists q12', q21'. split; [exact H|exact H1].
Defined.

(* ------------------------------------------------------------------ *)
(** ** Isolation and errors *)

(** In a well-formed registry a message reaches only the endpoints of its
    channel and names its true sender: a process that is not an endpoint is
    refused on sending ([InvalidSender]) and gets nothing on receiving, and
    the registry is the same as before; a message an endpoint receives carries
    the PID of the other endpoint. *)
Theorem channel_isolation (r : ChannelRegistry) (id pid type : Z) (data : list Z) (c : Channel) :
  registry_inv r -> ChannelRegistry_get_channel id r = Some c ->
  (Channel_has_endpoint pid c = false ->
     sys_send_message pid id type data r = (Err IpcError_InvalidSender, r) /\
     sys_receive_message pid id r = (Ok None, r)) /\
  (forall m r', sys_receive_message pid id r = (Ok (Some m), r') ->
     (pid = endpoint1 c /\ sender_pid m = endpoint2 c) \/
     (pid = endpoint2 c /\ sender_pid m = endpoint1 c)).
Proof.
  intros Hr Hg.
  assert (Hok : channel_ok c).
  { destruct Hr. apply tbl_get_elem in Hg. rewrite Forall_forall in *. auto. }
  assert (Hput : put_channel id c r = r).
  { unfold put_channel. destruct r as [cs n]. simpl in *. f_equal. pose proof (ri_nodup _ Hr) as Hn.
    rewrite tbl_upd_map by done. rewrite <- (list_fmap_id cs) at 2. apply list_fmap_ext.
    intros i x Hx%list_elem_of_lookup_2. destruct (Z.eqb_spec (ch_id x) id) as [E|]; [|done].
    pose proof (tbl_get_unique ch_id _ x Hn Hx) as H. unfold ChannelRegistry_get_channel in Hg.
    simpl in *. congruence. }
  unfold sys_send_message, sys_receive_message. rewrite Hg. split.
  - unfold Channel_has_endpoint, Channel_send, Channel_receive.
    intros [-> ->]%orb_false_iff. by rewrite Hput.
  - intros m r' H. destruct Hok as [_ _ _ H4 H5]. unfold Channel_receive in H. step_cases.
    + left. apply head_Some in H0 as [l E]. rewrite E in H5.
      by apply Forall_cons in H5 as [[-> _] _].
    + right. apply head_Some in H0 as [l E]. rewrite E in H4.
      by apply Forall_cons in H4 as [[-> _] _].
Qed.

Lemma channel_isolation_witness :
  sys_send_message 8 1 0 [] demo_registry = (Err IpcError_InvalidSender, demo_registry) /\
  sys_receive_message 8 1 demo_registry = (Ok None, demo_registry).
Proof.
  destruct (channel_isolation demo_registry 1 8 0 [] (Channel_new 1 5 6)) as [H _];
    [exact demo_registry_inv|reflexivity|]. apply H. reflexivity.
Defined.

(** A send by an endpoint is refused exactly when the queue in its
    direction holds 1000 messages, with [ChannelFull] and nothing changed;
    otherwise the message is appended at the back of that queue. *)
Theorem send_full_iff (r : ChannelRegistry) (id pid type : Z) (data : list Z) (c : Channel) :
  registry_inv r -> ChannelRegistry_get_channel id r = Some c ->
  Channel_has_endpoint pid c = true ->
  let q := if pid =? endpoint1 c then queue1_to_2 c else queue2_to_1 c in
  (Z.of_nat (length q) = MAX_QUEUE_SIZE <->
   (sys_send_message pid id type data r).1 = Err IpcError_ChannelFull) /\
  (Z.of_nat (length q) < MAX_QUEUE_SIZE ->
   exists r' c', sys_send_message pid id type data r = (Ok tt, r') /\
     ChannelRegistry_get_channel id r' = Some c' /\
     (if pid =? endpoint1 c then queue1_to_2 c' else queue2_to_1 c') =
       q ++ [Message_new pid type data]).
Proof.
  intros Hr Hg He q. unfold q.
  assert (Hok : channel_ok c).
  { destruct Hr. apply tbl_get_elem in Hg. rewrite Forall_forall in *. auto. }
  destruct Hok as [_ H2 H3 _ _]. unfold sys_send_message. rewrite Hg.
  pose proof (get_put id c) as Hput. unfold Channel_send, Channel_has_endpoint in *.
  destruct (pid =? endpoint1 c) eqn:E1; [|rewrite orb_false_l in He; rewrite He].
  - destruct (Z.leb_spec MAX_QUEUE_SIZE (Z.of_nat (length (queue1_to_2 c)))).
    + split; [split; [done|lia]|lia].
    + split; [split; [lia|done]|]. intros _. eexists _, _. split; [reflexivity|].
      by rewrite Hput.
  - destruct (Z.leb_spec MAX_QUEUE_SIZE (Z.of_nat (length (queue2_to_1 c)))).
    + split; [split; [done|lia]|lia].
    + split; [split; [lia|done]|]. intros _. eexists _, _. split; [reflexivity|].
      by rewrite Hput.
Qed.

Lemma send_full_iff_witness :
  exists r' c', sys_send_message 5 1 0 [] demo_registry = (Ok tt, r') /\
    ChannelRegistry_get_channel 1 r' = Some c' /\ queue1_to_2 c' = [Message_new 5 0 []].
Proof.
  destruct (send_full_iff demo_registry 1 5 0 [] (Channel_new 1 5 6)) as [_ H];
    [exact demo_registry_inv|reflexivity|reflexivity|].
  destruct H as (r' & c' & H1 & H2 & H3); [reflexivity|].
  exists r', c'. split; [exact H1|]. split; [exact H2|exact H3].
Defined.

(** The clean-up on process exit removes exactly the channels the process
    is an endpoint of and keeps the others in order. *)
Theorem cleanup_channels_spec (pid : Z) (r : ChannelRegistry) :
  registry_inv r ->
  channels (ChannelRegistry_cleanup_process_channels pid r) =
    List.filter (fun c => negb (Channel_has_endpoint pid c)) (channels r) /\
  ChannelRegistry_get_channels_for_process pid (ChannelRegistry_cleanup_process_channels pid r) = [].
Proof.
  intros [Hn _ _ _]. split; [by apply cleanup_channels_eq|].
  unfold ChannelRegistry_get_channels_for_process. rewrite cleanup_channels_eq by done.
  rewrite filterb_filterb. induction (channels r) as [|c cs IH]; simpl; [done|].
  apply NoDup_cons in Hn as [_ Hn]. destruct (Channel_has_endpoint pid c); simpl; auto.
Qed.

Lemma cleanup_channels_spec_witness :
  channels (ChannelRegistry_cleanup_process_channels 6 demo_registry) = [Channel_new 2 5 7].
Proof.
  destruct (cleanup_channels_spec 6 demo_registry demo_registry_inv) as [H _].
  rewrite H. reflexivity.
Defined.

(** [create_channel] accepts any target PID other than the caller's own,
    whether or not such a process exists: no process table is consulted,
    although the documentation promises [InvalidProcess] for a missing target
    (src/src/ipc.rs, lines 487-515). *)
Theorem create_channel_any_target (current_pid target_pid : Z) (r : ChannelRegistry) :
  current_pid <> target_pid -> next_id r + 1 < 2 ^ 64 ->
  exists r', sys_create_channel current_pid target_pid r = Ret (Ok (next_id r), r') /\
    channels r' = channels r ++ [Channel_new (next_id r) current_pid target_pid] /\
    next_id r' = next_id r + 1.
Proof.
  intros Hne Hn. unfold sys_create_channel, ChannelRegistry_create_channel.
  rewrite (proj2 (Z.eqb_neq _ _) Hne), add_u64_ret by done. by eexists.
Qed.

Lemma create_channel_any_target_witness :
  exists r', sys_create_channel 5 9999 ChannelRegistry_new = Ret (Ok 1, r').
Proof.
  destruct (create_channel_any_target 5 9999 ChannelRegistry_new) as (r' & H & _);
    [lia|reflexivity|]. exists r'. exact H.
Defined.
