(* ===== verification/Handles.v ===== *)
(** * Handles: memory handles (src/src/ipc.rs)

    [PageRange], [MemoryHandle], [HandleRegistry] and the four handle system
    calls of [ipc::syscalls].  The statics [HANDLE_REGISTRY] and
    [NEXT_HANDLE_ID] are the record [handle_state].  The loops over the pages
    of a range only compute addresses ([VirtAddr::new] and [PhysAddr::new]
    may panic); no page table is changed by the code. *)

From stdpp Require Import base sets numbers relations sorting list.
From S2P Require Import Prelude Errors X86.
Local Open Scope Z_scope.
Local Open Scope ruix_scope.

Inductive AccessRights : Type :=
| AccessRights_ReadOnly
| AccessRights_ReadWrite
| AccessRights_Execute
| AccessRights_None.

Inductive TransferMode : Type :=
| TransferMode_Ownership
| TransferMode_Shared
| TransferMode_Exclusive.

#[export] Instance AccessRights_eq_dec : EqDecision AccessRights.
Proof. solve_decision. Defined.
#[export] Instance TransferMode_eq_dec : EqDecision TransferMode.
Proof. solve_decision. Defined.

Record PageRange : Type := mkPageRange {
  start_addr : Z;
  size : Z
}.

Definition PageRange_new (start_addr size : Z) : PageRange := mkPageRange start_addr size.

Definition PageRange_page_count (r : PageRange) : result IpcError Z :=
  match checked_add_u64 (size r) 4095 with
  | None => Err IpcError_InvalidRange
  | Some checked_size =>
      if 4096 =? 0 then Err IpcError_InvalidRange else Ok (checked_size / 4096)
  end.

Definition PageRange_contains `{X86Addr} (addr : Z) (r : PageRange) : outcome bool :=
  let! end_addr := VirtAddr_add (start_addr r) (size r) in
  Ret ((start_addr r <=? addr) && (addr <? end_addr)).

Definition PageRange_is_valid (r : PageRange) : bool :=
  (start_addr r mod 4096 =? 0) && (size r mod 4096 =? 0) && (0 <? size r).

Record MemoryHandle : Type := mkMemoryHandle {
  h_id : Z;
  owner_pid : Z;
  holder_pid : Z;
  range : PageRange;
  rights : AccessRights;
  mode : TransferMode;
  active : bool;
  is_mapped : bool;
  holder_virt_addr : option Z
}.

Definition MemoryHandle_new (id owner : Z) (r : PageRange) (ri : AccessRights) (m : TransferMode)
    : MemoryHandle :=
  mkMemoryHandle id owner owner r ri m true false None.

Definition set_holder (pid : Z) (h : MemoryHandle) : MemoryHandle :=
  mkMemoryHandle (h_id h) (owner_pid h) pid (range h) (rights h) (mode h) (active h)
    (is_mapped h) (holder_virt_addr h).

Definition MemoryHandle_has_access (pid : Z) (h : MemoryHandle) : bool :=
  active h && ((pid =? owner_pid h) || (pid =? holder_pid h)).

Definition MemoryHandle_access_to_flags `{X86Flags} (h : MemoryHandle) : Z :=
  let flags := Z.lor FLAG_PRESENT FLAG_USER_ACCESSIBLE in
  match rights h with
  | AccessRights_ReadOnly => flags
  | AccessRights_ReadWrite => Z.lor flags FLAG_WRITABLE
  | AccessRights_Execute => Z.ldiff flags FLAG_NO_EXECUTE
  | AccessRights_None => 0
  end.

Definition MemoryHandle_revoke (h : MemoryHandle) : MemoryHandle :=
  mkMemoryHandle (h_id h) (owner_pid h) (holder_pid h) (range h) AccessRights_None (mode h) false
    (is_mapped h) (holder_virt_addr h).

Definition MemoryHandle_validate (h : MemoryHandle) : bool :=
  active h && PageRange_is_valid (range h) && negb (h_id h =? 0).

Definition MemoryHandle_mark_mapped (virt_addr : Z) (h : MemoryHandle) : MemoryHandle :=
  mkMemoryHandle (h_id h) (owner_pid h) (holder_pid h) (range h) (rights h) (mode h) (active h)
    true (Some virt_addr).

Definition MemoryHandle_mark_unmapped (h : MemoryHandle) : MemoryHandle :=
  mkMemoryHandle (h_id h) (owner_pid h) (holder_pid h) (range h) (rights h) (mode h) (active h)
    false None.

(** ** The registry *)

Record handle_state : Type := mkHandleState {
  handles : list MemoryHandle;
  NEXT_HANDLE_ID : Z
}.

Definition handle_state_init : handle_state := mkHandleState [] 1.

Definition HandleRegistry_allocate_handle_id (s : handle_state) : Z * handle_state :=
  (NEXT_HANDLE_ID s, mkHandleState (handles s) (wrapping_add_u64 (NEXT_HANDLE_ID s) 1)).

Definition HandleRegistry_create_handle (owner : Z) (r : PageRange) (ri : AccessRights)
    (m : TransferMode) (s : handle_state) : result IpcError Z * handle_state :=
  if negb (PageRange_is_valid r) then (Err IpcError_InvalidRange, s)
  else
    let '(handle_id, s) := HandleRegistry_allocate_handle_id s in
    let handle := MemoryHandle_new handle_id owner r ri m in
    (Ok handle_id, mkHandleState (handles s ++ [handle]) (NEXT_HANDLE_ID s)).

Definition HandleRegistry_get_handle (id : Z) (s : handle_state) : option MemoryHandle :=
  tbl_get h_id id (handles s).

(** Mutation through the reference of [get_handle_mut]. *)
Definition put_handle (id : Z) (h : MemoryHandle) (s : handle_state) : handle_state :=
  mkHandleState (tbl_upd h_id id (fun _ => h) (handles s)) (NEXT_HANDLE_ID s).

Definition HandleRegistry_revoke_handle (id : Z) (s : handle_state)
    : result IpcError unit * handle_state :=
  match HandleRegistry_get_handle id s with
  | Some h => (Ok tt, put_handle id (MemoryHandle_revoke h) s)
  | None => (Err IpcError_HandleNotFound, s)
  end.

Definition HandleRegistry_get_handles_for_process (pid : Z) (s : handle_state)
    : list MemoryHandle :=
  List.filter (fun h => owner_pid h =? pid) (handles s).

Definition HandleRegistry_get_held_handles_for_process (pid : Z) (s : handle_state)
    : list MemoryHandle :=
  List.filter (fun h => (holder_pid h =? pid) && active h) (handles s).

(** The loop of [cleanup_process_handles]: [i] only advances past an entry
    that stays; [fuel] bounds the number of rounds. *)
Fixpoint cleanup_handles_loop (fuel : nat) (pid : Z) (i : nat) (l : list MemoryHandle)
    : option (list MemoryHandle) :=
  match fuel with
  | O => None
  | S fuel' =>
      if (i <? length l)%nat then
        match l !! i with
        | None => None
        | Some h =>
            let should_remove := (owner_pid h =? pid) || (holder_pid h =? pid) in
            let l := if should_remove then <[i := MemoryHandle_revoke h]> l else l in
            if negb should_remove then cleanup_handles_loop fuel' pid (S i) l
            else cleanup_handles_loop fuel' pid i (delete i l)
        end
      else Some l
  end.

Definition HandleRegistry_cleanup_process_handles (pid : Z) (s : handle_state)
    : option handle_state :=
  (fun l => mkHandleState l (NEXT_HANDLE_ID s))
    <$> cleanup_handles_loop (S (length (handles s))) pid 0 (handles s).

Definition HandleRegistry_detect_circular_transfer (from_pid to_pid : Z) : bool :=
  from_pid =? to_pid.

(** ** The system calls *)

Section HandleCalls.
Context `{X86Addr}.

(** [for i in 0..page_count]: the virtual address of each page, from page
    [i] on; [n] pages are left. *)
Fixpoint for_pages (n : nat) (i start : Z) : outcome (list Z) :=
  match n with
  | O => Ret []
  | S n' =>
      let! off := mul_u64 i 4096 in
      let! a := add_u64 start off in
      let! virt_addr := VirtAddr_new a in
      let! rest := for_pages n' (i + 1) start in
      Ret (virt_addr :: rest)
  end.

(** The loop of [transfer_memory], which also makes up a frame per page. *)
Fixpoint transfer_frames (n : nat) (i start : Z) : outcome (list Z) :=
  match n with
  | O => Ret []
  | S n' =>
      let! off := mul_u64 i 4096 in
      let! a := add_u64 start off in
      let! virt_addr := VirtAddr_new a in
      let! b := add_u64 0x100000 off in
      let! phys := PhysAddr_new b in
      let! rest := transfer_frames n' (i + 1) start in
      Ret (frame_containing phys :: rest)
  end.

Definition sys_create_memory_handle (current_pid start sz : Z) (ri : AccessRights)
    (m : TransferMode) (s : handle_state) : result IpcError Z * handle_state :=
  HandleRegistry_create_handle current_pid (mkPageRange start sz) ri m s.

Definition sys_transfer_memory (current_pid handle_id target_pid : Z) (s : handle_state)
    : outcome (result IpcError unit * handle_state) :=
  if current_pid =? target_pid then Ret (Err IpcError_CircularTransfer, s)
  else
    match HandleRegistry_get_handle handle_id s with
    | None => Ret (Err IpcError_HandleNotFound, s)
    | Some handle =>
        if negb (owner_pid handle =? current_pid) then Ret (Err IpcError_AccessDenied, s)
        else if negb (MemoryHandle_validate handle) then Ret (Err IpcError_InvalidRange, s)
        else
          match PageRange_page_count (range handle) with
          | Err e => Ret (Err e, s)
          | Ok page_count =>
              let! phys_frames :=
                transfer_frames (Z.to_nat page_count) 0 (start_addr (range handle)) in
              Ret (Ok tt, put_handle handle_id (set_holder target_pid handle) s)
          end
    end.

Definition sys_receive_memory_handle (current_pid handle_id : Z) (s : handle_state)
    : outcome (result IpcError PageRange * handle_state) :=
  match HandleRegistry_get_handle handle_id s with
  | None => Ret (Err IpcError_HandleNotFound, s)
  | Some handle =>
      if negb (holder_pid handle =? current_pid) then Ret (Err IpcError_AccessDenied, s)
      else if negb (MemoryHandle_validate handle) then Ret (Err IpcError_InvalidRange, s)
      else
        match PageRange_page_count (range handle) with
        | Err e => Ret (Err e, s)
        | Ok page_count =>
            let! pages := for_pages (Z.to_nat page_count) 0 (start_addr (range handle)) in
            let handle := MemoryHandle_mark_mapped (start_addr (range handle)) handle in
            Ret (Ok (range handle), put_handle handle_id handle s)
        end
  end.

Definition sys_revoke_memory_handle (current_pid handle_id : Z) (s : handle_state)
    : outcome (result IpcError unit * handle_state) :=
  match HandleRegistry_get_handle handle_id s with
  | None => Ret (Err IpcError_HandleNotFound, s)
  | Some handle =>
      if negb (owner_pid handle =? current_pid) then Ret (Err IpcError_AccessDenied, s)
      else
        let handle := MemoryHandle_revoke handle in
        if is_mapped handle then
          match PageRange_page_count (range handle) with
          | Err e => Ret (Err e, put_handle handle_id handle s)
          | Ok page_count =>
              let! pages := for_pages (Z.to_nat page_count) 0 (start_addr (range handle)) in
              Ret (Ok tt, put_handle handle_id (MemoryHandle_mark_unmapped handle) s)
          end
        else Ret (Ok tt, put_handle handle_id handle s)
  end.
End HandleCalls.

(* ------------------------------------------------------------------ *)
(** ** Page ranges *)

Lemma valid_page_count r :
  is_u64 (size r) -> PageRange_is_valid r = true ->
  PageRange_page_count r = Ok (size r / 4096) /\ 4096 * (size r / 4096) = size r.
Proof.
  unfold is_u64. intros Hs Hv. unfold PageRange_page_count, checked_add_u64, PageRange_is_valid in *.
  bool_to_prop. pose proof (Z.div_mod (size r) 4096).
  pose proof (Z.div_mod (size r + 4095) 4096). pose proof (Z.mod_pos_bound (size r + 4095) 4096).
  assert (size r / 4096 < 2 ^ 52) by (apply Z.div_lt_upper_bound; lia).
  rewrite (proj2 (Z.ltb_lt _ _)) by lia. simpl. split; [|lia]. f_equal. lia.
Qed.

(** [page_count] is the number of pages that cover the range, and its only
    error is the overflow of the rounding, for sizes above 2^64 - 4096; on a
    range [is_valid] accepts the pages cover it exactly. *)
Theorem page_count_spec (r : PageRange) :
  is_u64 (size r) ->
  (size r <= 2 ^ 64 - 4096 ->
     exists n, PageRange_page_count r = Ok n /\ 0 <= n /\ 4096 * (n - 1) < size r <= 4096 * n) /\
  (2 ^ 64 - 4096 < size r -> PageRange_page_count r = Err IpcError_InvalidRange) /\
  (PageRange_is_valid r = true -> PageRange_page_count r = Ok (size r / 4096) /\
     4096 * (size r / 4096) = size r).
Proof.
  intros Hs. pose proof (Z.div_mod (size r + 4095) 4096) as H1.
  pose proof (Z.mod_pos_bound (size r + 4095) 4096) as H2.
  split_and!; [unfold PageRange_page_count, checked_add_u64..|].
  - intros Hb. unfold is_u64 in Hs. rewrite (proj2 (Z.ltb_lt _ _)) by lia. simpl. eexists. split; [done|lia].
  - intros Hb. by rewrite (proj2 (Z.ltb_ge _ _)) by lia.
  - intros Hv. by apply valid_page_count.
Qed.

Lemma page_count_spec_witness :
  PageRange_page_count (mkPageRange 0x400000 8192) = Ok (8192 / 4096) /\ 4096 * (8192 / 4096) = 8192.
Proof.
  destruct (page_count_spec (mkPageRange 0x400000 8192)) as (_ & _ & H).
  - vm_compute. split; congruence.
  - apply H. reflexivity.
Defined.

(** [contains] decides membership in the half-open range, whenever the
    range ends within the lower half of the address space. *)
Theorem contains_spec `{X86AddrLaws} (r : PageRange) (addr : Z) :
  0 <= start_addr r -> 0 <= size r -> start_addr r + size r < LOW_HALF ->
  exists b, PageRange_contains addr r = Ret b /\
    (b = true <-> start_addr r <= addr < start_addr r + size r).
Proof.
  intros H1 H2 H3. unfold PageRange_contains. rewrite VirtAddr_add_low by done. simpl.
  eexists. split; [reflexivity|]. rewrite andb_true_iff, Z.leb_le, Z.ltb_lt. done.
Qed.

Lemma contains_spec_witness :
  exists b, PageRange_contains 0x401000 (mkPageRange 0x400000 8192) = Ret b /\
    (b = true <-> 0x400000 <= 0x401000 < 0x400000 + 8192).
Proof. apply (contains_spec (mkPageRange 0x400000 8192) 0x401000); simpl; unfold LOW_HALF; lia. Defined.

(* ------------------------------------------------------------------ *)
(** ** The clean-up loop *)

Definition concerns (pid : Z) (h : MemoryHandle) : bool :=
  (owner_pid h =? pid) || (holder_pid h =? pid).

Lemma cleanup_loop_spec pid done_ todo fuel :
  (length todo < fuel)%nat ->
  cleanup_handles_loop fuel pid (length done_) (done_ ++ todo) =
    Some (done_ ++ List.filter (fun h => negb (concerns pid h)) todo).
Proof.
  revert done_ fuel. induction todo as [|h todo IH]; intros done_ [|fuel] Hf; simpl in *; try lia.
  - rewrite app_nil_r, Nat.ltb_irrefl. done.
  - rewrite (proj2 (Nat.ltb_lt _ _)) by (rewrite length_app; simpl; lia).
    rewrite list_lookup_middle by done. fold (concerns pid h).
    destruct (concerns pid h); simpl.
    + rewrite insert_app_r_alt, Nat.sub_diag by done. simpl. rewrite delete_middle. apply IH. lia.
    + replace (done_ ++ h :: todo) with ((done_ ++ [h]) ++ todo) by by rewrite <- app_assoc.
      replace (S (length done_)) with (length (done_ ++ [h])) by (rewrite length_app; simpl; lia).
      rewrite IH by lia. by rewrite <- app_assoc.
Qed.

Lemma cleanup_handles_eq pid s :
  HandleRegistry_cleanup_process_handles pid s =
    Some (mkHandleState (List.filter (fun h => negb (concerns pid h)) (handles s))
            (NEXT_HANDLE_ID s)).
Proof.
  unfold HandleRegistry_cleanup_process_handles.
  rewrite (cleanup_loop_spec pid [] (handles s)) by lia. done.
Qed.

(** The index loop of [cleanup_process_handles] terminates within one
    round per handle plus one, removes exactly the handles the process owns or
    holds, and keeps the others, in order and not revoked. *)
Theorem cleanup_handles_spec (pid : Z) (s : handle_state) :
  exists s', HandleRegistry_cleanup_process_handles pid s = Some s' /\
    handles s' = List.filter
      (fun h => negb ((owner_pid h =? pid) || (holder_pid h =? pid))) (handles s) /\
    HandleRegistry_get_handles_for_process pid s' = [] /\
    HandleRegistry_get_held_handles_for_process pid s' = [].
Proof.
  rewrite cleanup_handles_eq. eexists. split_and!; [reflexivity|done| |].
  - unfold HandleRegistry_get_handles_for_process. simpl. rewrite filterb_filterb.
    induction (handles s) as [|h l IH]; simpl; [done|]. unfold concerns.
    destruct (owner_pid h =? pid); simpl; [apply IH|]. by rewrite andb_false_r.
  - unfold HandleRegistry_get_held_handles_for_process. simpl. rewrite filterb_filterb.
    induction (handles s) as [|h l IH]; simpl; [done|]. unfold concerns.
    destruct (holder_pid h =? pid); rewrite ?orb_true_r, ?andb_false_r; simpl; apply IH.
Qed.

(* ------------------------------------------------------------------ *)
(** ** The page loops *)

Section Loops.
Context `{X86AddrLaws}.

Lemma for_pages_ret n i start :
  0 <= i -> 0 <= start -> start + 4096 * (i + Z.of_nat n) <= LOW_HALF ->
  for_pages n i start = Ret ((fun k => start + 4096 * Z.of_nat k) <$> seq (Z.to_nat i) n).
Proof.
  unfold LOW_HALF. revert i. induction n as [|n IH]; intros i Hi Hs Hb; simpl; [done|].
  unfold mul_u64. rewrite (proj2 (Z.ltb_lt _ _)) by lia. simpl.
  rewrite add_u64_ret by lia. simpl. rewrite VirtAddr_new_low by (unfold LOW_HALF; lia). simpl.
  rewrite IH by lia. simpl. replace (Z.to_nat (i + 1)) with (S (Z.to_nat i)) by lia.
  do 2 f_equal. lia.
Qed.

Lemma transfer_frames_ret n i start :
  0 <= i -> 0 <= start -> start + 4096 * (i + Z.of_nat n) <= LOW_HALF ->
  transfer_frames n i start =
    Ret ((fun k => 0x100000 + 4096 * Z.of_nat k) <$> seq (Z.to_nat i) n).
Proof.
  unfold LOW_HALF. revert i. induction n as [|n IH]; intros i Hi Hs Hb; cbn [transfer_frames]; [done|].
  unfold mul_u64. rewrite (proj2 (Z.ltb_lt _ _)), bind_ret by lia.
  rewrite (add_u64_ret start), bind_ret by lia.
  rewrite VirtAddr_new_low, bind_ret by (unfold LOW_HALF; lia).
  rewrite add_u64_ret, bind_ret by lia. rewrite PhysAddr_new_ok, bind_ret by lia.
  rewrite IH, bind_ret by lia. replace (Z.to_nat (i + 1)) with (S (Z.to_nat i)) by lia. csimpl.
  rewrite frame_containing_eq by lia. do 2 f_equal.
  replace (1048576 + i * 4096) with (0 + (256 + i) * 4096) by lia.
  rewrite Z.mod_add by lia. change (0 mod 4096) with 0. lia.
Qed.
End Loops.

(* ------------------------------------------------------------------ *)
(** ** Access control *)

Section Access.
Context `{X86Addr}.

(** A system call, or the clean-up of a process, by process [pid].  The
    identifier counter has not wrapped around. *)
Inductive handle_step (pid : Z) : handle_state -> handle_state -> Prop :=
| hs_create start sz ri m s :
    NEXT_HANDLE_ID s < U64_MAX ->
    handle_step pid s (sys_create_memory_handle pid start sz ri m s).2
| hs_transfer id target r s s' :
    sys_transfer_memory pid id target s = Ret (r, s') -> handle_step pid s s'
| hs_receive id r s s' :
    sys_receive_memory_handle pid id s = Ret (r, s') -> handle_step pid s s'
| hs_revoke id r s s' :
    sys_revoke_memory_handle pid id s = Ret (r, s') -> handle_step pid s s'
| hs_cleanup s s' :
    HandleRegistry_cleanup_process_handles pid s = Some s' -> handle_step pid s s'.

Definition any_step (s s' : handle_state) : Prop := exists pid, handle_step pid s s'.

Record handle_inv (s : handle_state) : Prop := {
  hi_nodup : NoDup (keys h_id (handles s));
  hi_ids : Forall (fun h => 1 <= h_id h < NEXT_HANDLE_ID s) (handles s);
  hi_next : 1 <= NEXT_HANDLE_ID s <= U64_MAX;
  hi_valid : Forall (fun h => PageRange_is_valid (range h) = true) (handles s);
  hi_rights : Forall (fun h => active h = false -> rights h = AccessRights_None) (handles s)
}.

Lemma handle_inv_init : handle_inv handle_state_init.
Proof. split; simpl; try constructor; done. Qed.

(** How a handle may change in one step by [pid]. *)
Record evolves (pid : Z) (h h' : MemoryHandle) : Prop := {
  ev_id : h_id h' = h_id h;
  ev_owner : owner_pid h' = owner_pid h;
  ev_range : range h' = range h;
  ev_mode : mode h' = mode h;
  ev_holder : holder_pid h' = holder_pid h \/ pid = owner_pid h;
  ev_active : active h' = active h \/ pid = owner_pid h /\ active h' = false;
  ev_rights : rights h' = rights h \/ pid = owner_pid h /\ rights h' = AccessRights_None;
  ev_dead : active h = false -> active h' = false /\ holder_pid h' = holder_pid h;
  ev_dead_rights : (active h = false -> rights h = AccessRights_None) ->
                   active h' = false -> rights h' = AccessRights_None;
  ev_mapped : is_mapped h' = is_mapped h /\ holder_virt_addr h' = holder_virt_addr h \/
              pid = owner_pid h \/ pid = holder_pid h
}.

Lemma evolves_refl pid h : evolves pid h h.
Proof. split; auto. Qed.

(** Every step replaces handles by handles they may evolve to, is the
    clean-up, or appends a new one. *)
Inductive table_change (pid : Z) (s s' : handle_state) : Prop :=
| tc_put id h h' :
    HandleRegistry_get_handle id s = Some h -> evolves pid h h' ->
    s' = put_handle id h' s -> table_change pid s s'
| tc_same : s' = s -> table_change pid s s'
| tc_cleanup :
    s' = mkHandleState (List.filter (fun h => negb (concerns pid h)) (handles s)) (NEXT_HANDLE_ID s) ->
    table_change pid s s'
| tc_new r ri m :
    PageRange_is_valid r = true -> NEXT_HANDLE_ID s < U64_MAX ->
    s' = mkHandleState (handles s ++ [MemoryHandle_new (NEXT_HANDLE_ID s) pid r ri m])
           (NEXT_HANDLE_ID s + 1) -> table_change pid s s'.

Lemma revoke_evolves pid h :
  owner_pid h = pid -> evolves pid h (MemoryHandle_revoke h) /\
  evolves pid h (MemoryHandle_mark_unmapped (MemoryHandle_revoke h)).
Proof. intros <-. by split; split; simpl; auto. Qed.

Lemma handle_step_change pid s s' :
  1 <= NEXT_HANDLE_ID s -> handle_step pid s s' -> table_change pid s s'.
Proof.
  intros H1. destruct 1 as [start sz ri m s Hn|id target r s s' E|id r s s' E|id r s s' E|s s' E].
  - unfold sys_create_memory_handle, HandleRegistry_create_handle.
    destruct (PageRange_is_valid _) eqn:Hv; simpl; [|by apply tc_same].
    eapply tc_new; [exact Hv|done|]. f_equal. unfold wrapping_add_u64, U64_MAX in *.
    apply Z.mod_small. lia.
  - unfold sys_transfer_memory in E. destruct (_ =? _); [simplify_eq; by apply tc_same|].
    destruct (HandleRegistry_get_handle id s) as [h|] eqn:Hg; [|simplify_eq; by apply tc_same].
    destruct (Z.eqb_spec (owner_pid h) pid) as [Ho|]; simpl in E; [|simplify_eq; by apply tc_same].
    destruct (MemoryHandle_validate h) eqn:Hv; simpl in E; [|simplify_eq; by apply tc_same].
    destruct (PageRange_page_count _); [|simplify_eq; by apply tc_same].
    inv_ret. simplify_eq. eapply tc_put; [exact Hg| |reflexivity].
    unfold MemoryHandle_validate in Hv. split; simpl; auto. intros Ha. by rewrite Ha in Hv.
  - unfold sys_receive_memory_handle in E.
    destruct (HandleRegistry_get_handle id s) as [h|] eqn:Hg; [|simplify_eq; by apply tc_same].
    destruct (Z.eqb_spec (holder_pid h) pid) as [Ho|]; simpl in E; [|simplify_eq; by apply tc_same].
    destruct (negb _); [simplify_eq; by apply tc_same|].
    destruct (PageRange_page_count _); [|simplify_eq; by apply tc_same].
    inv_ret. simplify_eq. eapply tc_put; [exact Hg| |reflexivity]. split; simpl; auto.
  - unfold sys_revoke_memory_handle in E.
    destruct (HandleRegistry_get_handle id s) as [h|] eqn:Hg; [|simplify_eq; by apply tc_same].
    destruct (Z.eqb_spec (owner_pid h) pid) as [Ho|]; simpl in E; [|simplify_eq; by apply tc_same].
    destruct (revoke_evolves pid h Ho) as [R1 R2].
    destruct (is_mapped h); [destruct (PageRange_page_count _)|]; inv_ret; simplify_eq;
      (eapply tc_put; [exact Hg| |reflexivity]); done.
  - rewrite cleanup_handles_eq in E. simplify_eq. by eapply tc_cleanup.
Qed.

Lemma table_change_inv pid s s' : handle_inv s -> table_change pid s s' -> handle_inv s'.
Proof.
  intros Hi [id h h' Hg Hev ->| -> | ->|r ri m Hv Hn ->]; [|done|..]; destruct Hi as [Hd Hid Hx Hr Hz].
  - pose proof (tbl_get_key h_id _ _ _ Hg) as Hk. pose proof (tbl_get_elem h_id _ _ _ Hg) as He.
    rewrite Forall_forall in Hid, Hr, Hz.
    assert (G : forall P : MemoryHandle -> Prop, (forall x, x ∈ handles s -> P x) -> P h' ->
      Forall P (handles (put_handle id h' s))).
    { intros P HP Hh. apply Forall_update_first; [done|]. by apply Forall_forall. }
    split; [|apply G|exact Hx|apply G..]; try done.
    + simpl. rewrite keys_upd; [done|]. intros x _. destruct Hev. congruence.
    + destruct Hev as [-> _ _ _ _ _ _ _ _ _]. by apply Hid.
    + destruct Hev as [_ _ -> _ _ _ _ _ _ _]. by apply Hr.
    + destruct Hev as [_ _ _ _ _ _ _ _ Hdr _]. apply Hdr. by apply Hz.
  - assert (G : forall P, Forall P (handles s) ->
      Forall P (List.filter (fun h => negb (concerns pid h)) (handles s))).
    { intros P HP. apply Forall_forall. intros x [Hxx _]%elem_of_filterb.
      rewrite Forall_forall in HP. auto. }
    split; simpl; auto. by eapply NoDup_keys_sublist; [apply filterb_sublist|].
  - split; simpl; [|apply Forall_app; split|lia|apply Forall_app; split..]; try done.
    + unfold keys. rewrite fmap_app. apply NoDup_app. split_and!; [done| |apply NoDup_singleton].
      intros k (c & -> & Hc)%list_elem_of_fmap E%list_elem_of_singleton. simpl in E.
      rewrite Forall_forall in Hid. specialize (Hid c Hc). simpl in Hid. lia.
    + eapply Forall_impl; [exact Hid|]. simpl. lia.
    + apply Forall_singleton. simpl. lia.
    + by apply Forall_singleton.
    + by apply Forall_singleton.
Qed.

Lemma any_steps_inv s s' : rtc any_step s s' -> handle_inv s -> handle_inv s'.
Proof.
  induction 1 as [|x y z [pid Hs] _ IH]; [done|]. intros Hi. apply IH.
  eapply table_change_inv; [exact Hi|]. apply handle_step_change; [apply Hi|exact Hs].
Qed.

(** Where a handle found after a step comes from. *)
Lemma table_change_origin pid s s' id h' :
  handle_inv s -> table_change pid s s' -> HandleRegistry_get_handle id s' = Some h' ->
  (id = NEXT_HANDLE_ID s /\ exists r ri m, h' = MemoryHandle_new id pid r ri m) \/
  exists h, HandleRegistry_get_handle id s = Some h /\ evolves pid h h'.
Proof.
  intros Hi Hc Hg'. unfold HandleRegistry_get_handle in *.
  destruct Hc as [i h h2 Hg Hev ->| -> | ->|r ri m Hv Hn ->]; simpl in Hg'.
  - right. pose proof (tbl_get_key h_id _ _ _ Hg) as Hk.
    assert (Hkk : keeps_key h_id i (fun _ => h2)) by (intros x _; destruct Hev; congruence).
    destruct (Z.eqb_spec i id) as [->|Hne].
    + rewrite tbl_get_upd in Hg' by done. unfold HandleRegistry_get_handle in Hg.
      rewrite Hg in Hg'. simplify_eq/=. by exists h.
    + rewrite tbl_get_upd_ne in Hg' by done. exists h'. split; [done|apply evolves_refl].
  - right. exists h'. split; [done|apply evolves_refl].
  - right. exists h'. split; [|apply evolves_refl].
    pose proof (tbl_get_key h_id _ _ _ Hg') as <-.
    apply tbl_get_elem, elem_of_filterb in Hg' as [Hin _].
    by apply tbl_get_unique; [apply Hi|].
  - destruct (tbl_get h_id id (handles s)) as [h|] eqn:E.
    + right. rewrite tbl_get_app_l in Hg' by by exists h. rewrite E in Hg'. simplify_eq.
      exists h'. split; [done|apply evolves_refl].
    + left. destruct (Z.eqb_spec (NEXT_HANDLE_ID s) id) as [<-|Hne].
      * split; [done|]. exists r, ri, m.
        apply tbl_get_none in E.
        pose proof (tbl_get_app_new h_id _ (MemoryHandle_new (NEXT_HANDLE_ID s) pid r ri m) E) as Hnew.
        change (h_id (MemoryHandle_new (NEXT_HANDLE_ID s) pid r ri m)) with (NEXT_HANDLE_ID s) in Hnew.
        congruence.
      * rewrite tbl_get_app_ne in Hg' by done. congruence.
Qed.

(** A handle that is gone after a step concerned the process cleaned up. *)
Lemma table_change_gone pid s s' id h :
  table_change pid s s' -> HandleRegistry_get_handle id s = Some h ->
  HandleRegistry_get_handle id s' = None ->
  HandleRegistry_cleanup_process_handles pid s = Some s' /\ concerns pid h = true.
Proof.
  intros Hc Hg Hn. unfold HandleRegistry_get_handle in *.
  destruct Hc as [i h1 h2 Hg1 Hev ->| -> | ->|r ri m Hv Hlt ->]; simpl in Hn.
  - apply tbl_get_none in Hn. destruct Hn. pose proof (tbl_get_key h_id _ _ _ Hg1) as Hk.
    rewrite keys_upd by (intros x _; destruct Hev; congruence).
    rewrite <- (tbl_get_key h_id _ _ _ Hg). apply elem_of_keys. by eapply tbl_get_elem.
  - congruence.
  - split; [apply cleanup_handles_eq|]. destruct (concerns pid h) eqn:E; [done|].
    apply tbl_get_none in Hn. destruct Hn. rewrite <- (tbl_get_key h_id _ _ _ Hg).
    apply elem_of_keys, elem_of_filterb. rewrite E. split; [by eapply tbl_get_elem|done].
  - rewrite tbl_get_app_l in Hn by by exists h. congruence.
Qed.

Lemma NEXT_mono pid s s' :
  handle_inv s -> table_change pid s s' -> NEXT_HANDLE_ID s <= NEXT_HANDLE_ID s'.
Proof. intros Hi [id h h' Hg Hev ->| -> | ->|r ri m Hv Hn ->]; simpl; lia. Qed.

Lemma dead_stays_dead s s' id :
  rtc any_step s s' -> handle_inv s -> id < NEXT_HANDLE_ID s ->
  (forall h, HandleRegistry_get_handle id s = Some h -> active h = false) ->
  forall h', HandleRegistry_get_handle id s' = Some h' -> active h' = false.
Proof.
  induction 1 as [|x y z [pid Hs] _ IH]; [done|]. intros Hi Hid Hdead.
  apply handle_step_change in Hs; [|apply Hi]. apply IH.
  - by eapply table_change_inv.
  - pose proof (NEXT_mono pid x y Hi Hs). lia.
  - intros h Hh. destruct (table_change_origin pid x y id h Hi Hs Hh) as [[-> _]|(h0 & H0 & Hev)];
      [lia|]. by apply (ev_dead _ _ _ Hev), Hdead.
Qed.
End Access.

(** C33: the registry of memory handles is well formed in every reachable
    state, the identifier counter not having wrapped: identifiers are unique,
    non-zero and below the counter, every range is page-aligned and not empty,
    and a handle that is not active carries no rights. *)
Theorem handle_reachable_inv `{X86Addr} (s : handle_state) :
  rtc any_step handle_state_init s -> handle_inv s.
Proof. intros Hr. by eapply any_steps_inv, handle_inv_init. Qed.

(** Process 5 makes a read-only handle on two pages and gives it to 6. *)
Definition demo_handle : MemoryHandle :=
  MemoryHandle_new 1 5 (mkPageRange 0x400000 8192) AccessRights_ReadOnly TransferMode_Ownership.
Definition demo_handles : handle_state := mkHandleState [set_holder 6 demo_handle] 2.

Lemma demo_handles_reachable : rtc any_step handle_state_init demo_handles.
Proof.
  eapply rtc_l; [exists 5; apply (hs_create 5 0x400000 8192 AccessRights_ReadOnly
    TransferMode_Ownership); reflexivity|].
  eapply rtc_l; [|apply rtc_refl]. exists 5. eapply (hs_transfer 5 1 6). reflexivity.
Qed.

Lemma demo_handles_inv : handle_inv demo_handles.
Proof. exact (any_steps_inv _ _ demo_handles_reachable handle_inv_init). Qed.

Lemma handle_reachable_inv_witness : handle_inv demo_handles.
Proof. apply handle_reachable_inv. exact demo_handles_reachable. Defined.

(** C19: what one step by process [pid] can do to a handle.  A handle that
    stays keeps its owner, range and mode; its holder changes, its rights shrink
    or it is revoked only if [pid] is its owner, and its mapping state changes
    only if [pid] is its owner or its holder.  A handle disappears only in the
    clean-up of [pid], and only if [pid] owns or holds it: the end of a holder
    takes the handle from its owner as well.  A new handle has the next
    identifier, belongs to [pid] and is held by it. *)
Theorem handle_access_control `{X86Addr} (pid id : Z) (s s' : handle_state) :
  handle_inv s -> handle_step pid s s' ->
  match HandleRegistry_get_handle id s, HandleRegistry_get_handle id s' with
  | None, None => True
  | None, Some h' =>
      id = NEXT_HANDLE_ID s /\ owner_pid h' = pid /\ holder_pid h' = pid /\ active h' = true
  | Some h, None =>
      HandleRegistry_cleanup_process_handles pid s = Some s' /\ (owner_pid h = pid \/ holder_pid h = pid)
  | Some h, Some h' =>
      owner_pid h' = owner_pid h /\ range h' = range h /\ mode h' = mode h /\
      (holder_pid h' <> holder_pid h -> pid = owner_pid h /\ active h = true) /\
      (active h' <> active h -> pid = owner_pid h /\ active h' = false) /\
      (rights h' <> rights h -> pid = owner_pid h /\ rights h' = AccessRights_None) /\
      (is_mapped h' <> is_mapped h \/ holder_virt_addr h' <> holder_virt_addr h ->
         pid = owner_pid h \/ pid = holder_pid h)
  end.
Proof.
  intros Hi Hs. apply handle_step_change in Hs; [|apply Hi].
  destruct (HandleRegistry_get_handle id s') as [h'|] eqn:Hg.
  - destruct (table_change_origin pid s s' id h' Hi Hs Hg) as [[-> (r & ri & m & ->)]|(h & Hh & Hev)].
    + destruct (HandleRegistry_get_handle (NEXT_HANDLE_ID s) s) as [h|] eqn:E; [|done].
      pose proof (tbl_get_key h_id _ _ _ E). apply tbl_get_elem in E. destruct Hi as [_ Hid _ _ _].
      rewrite Forall_forall in Hid. specialize (Hid h E). simpl in Hid. lia.
    + rewrite Hh. destruct Hev as [_ E1 E2 E3 E4 E5 E6 E7 _ E8]. split_and!; try done; try tauto.
      intros Hne. split; [tauto|]. destruct (active h) eqn:Ea; [done|]. by destruct E7.
  - destruct (HandleRegistry_get_handle id s) as [h|] eqn:Hh; [|done].
    destruct (table_change_gone pid s s' id h Hs Hh Hg) as [Hc Hp]. split; [done|].
    unfold concerns in Hp. apply orb_true_iff in Hp as [?%Z.eqb_eq|?%Z.eqb_eq]; auto.
Qed.

(** Process 5 owns the handle that process 6 holds.  A revocation by 5 leaves
    the handle with its range and without rights; the clean-up of 6 removes
    it. *)
Lemma handle_access_control_witness :
  (exists s' h', sys_revoke_memory_handle 5 1 demo_handles = Ret (Ok tt, s') /\
     HandleRegistry_get_handle 1 s' = Some h' /\ range h' = mkPageRange 0x400000 8192 /\
     active h' = false) /\
  (exists s', HandleRegistry_cleanup_process_handles 6 demo_handles = Some s' /\
     HandleRegistry_get_handle 1 s' = None /\ (5 = 6 \/ 6 = 6)).
Proof.
  split.
  - destruct (sys_revoke_memory_handle 5 1 demo_handles) as [[r s']|] eqn:E; [|discriminate E].
    pose proof (handle_access_control 5 1 demo_handles s' demo_handles_inv
      (hs_revoke 5 1 r demo_handles s' E)) as H.
    cbv in E. injection E as <- <-. eexists _, _. split; [reflexivity|]. split; [reflexivity|].
    split; [apply H|reflexivity].
  - destruct (HandleRegistry_cleanup_process_handles 6 demo_handles) as [s'|] eqn:E; [|discriminate E].
    pose proof (handle_access_control 6 1 demo_handles s' demo_handles_inv
      (hs_cleanup 6 demo_handles s' E)) as H.
    cbv in E. injection E as <-. eexists. split; [reflexivity|]. split; [reflexivity|apply H].
Defined.

(** C20: revocation is final.  Once a handle has been revoked, in every later
    state no process has access to it, a transfer by its owner and an
    acceptance by its holder are refused with the registry unchanged, and its
    identifier is never given to a live handle. *)
Theorem revoked_forever `{X86Addr} (s s' : handle_state) (id : Z) (h h' : MemoryHandle) :
  handle_inv s -> HandleRegistry_get_handle id s = Some h -> active h = false ->
  rtc any_step s s' -> HandleRegistry_get_handle id s' = Some h' ->
  (forall pid, MemoryHandle_has_access pid h' = false) /\
  (forall pid target, exists e, sys_transfer_memory pid id target s' = Ret (Err e, s')) /\
  (forall pid, exists e, sys_receive_memory_handle pid id s' = Ret (Err e, s')).
Proof.
  intros Hi Hg Ha Hr Hg'.
  assert (Hd : active h' = false).
  { apply (dead_stays_dead s s' id Hr Hi); [| |done].
    - pose proof (tbl_get_key h_id _ _ _ Hg). apply tbl_get_elem in Hg. destruct Hi as [_ Hid _ _ _].
      rewrite Forall_forall in Hid. specialize (Hid h Hg). simpl in Hid. lia.
    - intros h0 Hh0. congruence. }
  unfold MemoryHandle_has_access, sys_transfer_memory, sys_receive_memory_handle,
    MemoryHandle_validate. rewrite Hg', Hd. split_and!; [done|..].
  - intros pid target. destruct (_ =? _); [by eexists|]. destruct (negb _); by eexists.
  - intros pid. destruct (negb _); by eexists.
Qed.

Lemma revoked_forever_witness :
  exists e, sys_receive_memory_handle 6 1
    (mkHandleState [MemoryHandle_revoke demo_handle] 2) =
    Ret (Err e, mkHandleState [MemoryHandle_revoke demo_handle] 2).
Proof.
  apply (revoked_forever (mkHandleState [MemoryHandle_revoke demo_handle] 2)
    (mkHandleState [MemoryHandle_revoke demo_handle] 2) 1
    (MemoryHandle_revoke demo_handle) (MemoryHandle_revoke demo_handle)).
  - split; simpl; repeat constructor; simpl; try done; unfold U64_MAX; try lia.
    unfold keys. csimpl. set_solver.
  - reflexivity.
  - reflexivity.
  - apply rtc_once. exists 5. eapply (hs_revoke 5 1). reflexivity.
  - reflexivity.
Defined.

(* ------------------------------------------------------------------ *)
(** ** Transfer *)

Section Transfer.
Context `{X86AddrLaws}.

(** The handle covers a range of the lower half. *)
Definition user_range (r : PageRange) : Prop :=
  0 <= start_addr r /\ 0 <= size r /\ start_addr r + size r <= LOW_HALF.

Lemma user_range_pages r :
  user_range r -> PageRange_is_valid r = true ->
  PageRange_page_count r = Ok (size r / 4096) /\
  (exists l, for_pages (Z.to_nat (size r / 4096)) 0 (start_addr r) = Ret l) /\
  (exists l, transfer_frames (Z.to_nat (size r / 4096)) 0 (start_addr r) = Ret l).
Proof.
  intros (H1 & H2 & H3) Hv. destruct (valid_page_count r) as [Hp Hm]; [|done|].
  { unfold is_u64, LOW_HALF in *. lia. }
  assert (0 <= size r / 4096) by (apply Z.div_pos; lia).
  split; [done|]. rewrite for_pages_ret, transfer_frames_ret by lia. eauto.
Qed.

Lemma put_get id h h2 s :
  HandleRegistry_get_handle id s = Some h -> h_id h2 = h_id h ->
  HandleRegistry_get_handle id (put_handle id h2 s) = Some h2.
Proof.
  intros Hg He. pose proof (tbl_get_key h_id _ _ _ Hg) as Hk.
  unfold HandleRegistry_get_handle in *. simpl. rewrite tbl_get_upd by (intros x _; congruence).
  by rewrite Hg.
Qed.

Lemma transfer_ok pid target id h s :
  handle_inv s -> HandleRegistry_get_handle id s = Some h -> active h = true ->
  user_range (range h) -> owner_pid h = pid -> pid <> target ->
  sys_transfer_memory pid id target s = Ret (Ok tt, put_handle id (set_holder target h) s).
Proof.
  intros Hi Hg Ha Hu <- Hne.
  pose proof (tbl_get_elem h_id _ _ _ Hg) as Hin. destruct Hi as [_ Hid _ Hv _].
  rewrite Forall_forall in Hid, Hv. specialize (Hid h Hin). specialize (Hv h Hin). simpl in *.
  destruct (user_range_pages (range h) Hu Hv) as (Hp & _ & l & Hl).
  unfold sys_transfer_memory, MemoryHandle_validate.
  rewrite (proj2 (Z.eqb_neq _ _) Hne), Hg, Z.eqb_refl, Ha, Hv. simpl.
  rewrite (proj2 (Z.eqb_neq (h_id h) 0)) by lia. simpl. by rewrite Hp, Hl.
Qed.

Lemma receive_ok pid id h s :
  handle_inv s -> HandleRegistry_get_handle id s = Some h -> active h = true ->
  user_range (range h) -> holder_pid h = pid ->
  sys_receive_memory_handle pid id s =
    Ret (Ok (range h), put_handle id (MemoryHandle_mark_mapped (start_addr (range h)) h) s).
Proof.
  intros Hi Hg Ha Hu <-.
  pose proof (tbl_get_elem h_id _ _ _ Hg) as Hin. destruct Hi as [_ Hid _ Hv _].
  rewrite Forall_forall in Hid, Hv. specialize (Hid h Hin). specialize (Hv h Hin). simpl in *.
  destruct (user_range_pages (range h) Hu Hv) as (Hp & [l Hl] & _).
  unfold sys_receive_memory_handle, MemoryHandle_validate.
  rewrite Hg, Z.eqb_refl, Ha, Hv. simpl.
  rewrite (proj2 (Z.eqb_neq (h_id h) 0)) by lia. simpl. by rewrite Hp, Hl.
Qed.
End Transfer.

(** C21: a transfer by the owner followed by the acceptance of the target
    succeeds on every live handle over user memory and hands over exactly the
    range the handle was made for; in between, a process that is neither gets
    [AccessDenied].  The owner keeps its access whatever the transfer mode, so
    an [Ownership] or [Exclusive] transfer takes nothing away from the sender,
    against the documentation of the modes (src/src/ipc.rs, lines 74-83 and
    601-604). *)
Theorem transfer_then_receive `{X86AddrLaws} (owner target id : Z) (h : MemoryHandle)
    (s : handle_state) :
  handle_inv s -> HandleRegistry_get_handle id s = Some h -> active h = true ->
  user_range (range h) -> owner_pid h = owner -> owner <> target ->
  exists s1 s2 h2, sys_transfer_memory owner id target s = Ret (Ok tt, s1) /\
    sys_receive_memory_handle target id s1 = Ret (Ok (range h), s2) /\
    HandleRegistry_get_handle id s2 = Some h2 /\
    is_mapped h2 = true /\ holder_virt_addr h2 = Some (start_addr (range h)) /\
    MemoryHandle_has_access target h2 = true /\ MemoryHandle_has_access owner h2 = true /\
    (forall p, p <> owner -> p <> target ->
       MemoryHandle_has_access p h2 = false /\
       sys_receive_memory_handle p id s1 = Ret (Err IpcError_AccessDenied, s1)).
Proof.
  intros Hi Hg Ha Hu Ho Hne.
  pose proof (transfer_ok owner target id h s Hi Hg Ha Hu Ho Hne) as T.
  set (h1 := set_holder target h) in *. set (s1 := put_handle id h1 s) in *.
  assert (Hg1 : HandleRegistry_get_handle id s1 = Some h1) by by apply (put_get id h).
  assert (Hi1 : handle_inv s1).
  { eapply table_change_inv; [exact Hi|]. apply handle_step_change; [apply Hi|].
    exact (hs_transfer owner id target _ _ _ T). }
  exists s1. eexists _, _. split; [exact T|].
  split; [by rewrite (receive_ok target id h1 s1)|].
  split; [by apply (put_get id h1)|]. split_and!; try done.
  - unfold MemoryHandle_has_access. simpl. by rewrite Ha, Z.eqb_refl, orb_true_r.
  - unfold MemoryHandle_has_access. simpl. by rewrite Ha, Ho, Z.eqb_refl.
  - intros p H1 H2. unfold MemoryHandle_has_access, sys_receive_memory_handle. rewrite Hg1. simpl.
    rewrite Ho, (proj2 (Z.eqb_neq _ _) H1), (proj2 (Z.eqb_neq p target) H2), andb_false_r.
    by rewrite (proj2 (Z.eqb_neq target p)) by auto.
Qed.

Lemma transfer_then_receive_witness :
  exists s1 s2 h2, sys_transfer_memory 5 1 7 demo_handles = Ret (Ok tt, s1) /\
    sys_receive_memory_handle 7 1 s1 = Ret (Ok (mkPageRange 0x400000 8192), s2) /\
    HandleRegistry_get_handle 1 s2 = Some h2 /\ MemoryHandle_has_access 5 h2 = true.
Proof.
  destruct (transfer_then_receive 5 7 1 (set_holder 6 demo_handle) demo_handles)
    as (s1 & s2 & h2 & H1 & H2 & H3 & _ & _ & _ & H4 & _).
  - exact demo_handles_inv.
  - reflexivity.
  - reflexivity.
  - unfold user_range, LOW_HALF. simpl. lia.
  - reflexivity.
  - lia.
  - exists s1, s2, h2. split; [exact H1|]. split; [exact H2|]. split; [exact H3|exact H4].
Defined.

(** The refusals of [transfer_memory] come in the documented order and
    leave the registry as it was: to oneself, of an unknown handle, by a
    process that does not own it, of a revoked handle. *)
Theorem transfer_refusals `{X86Addr} (pid target id : Z) (s : handle_state) :
  (pid = target -> sys_transfer_memory pid id target s = Ret (Err IpcError_CircularTransfer, s)) /\
  (pid <> target -> HandleRegistry_get_handle id s = None ->
     sys_transfer_memory pid id target s = Ret (Err IpcError_HandleNotFound, s)) /\
  (forall h, pid <> target -> HandleRegistry_get_handle id s = Some h -> owner_pid h <> pid ->
     sys_transfer_memory pid id target s = Ret (Err IpcError_AccessDenied, s)) /\
  (forall h, pid <> target -> HandleRegistry_get_handle id s = Some h -> owner_pid h = pid ->
     active h = false ->
     sys_transfer_memory pid id target s = Ret (Err IpcError_InvalidRange, s)).
Proof.
  unfold sys_transfer_memory. split_and!.
  - intros ->. by rewrite Z.eqb_refl.
  - intros H1 H2. by rewrite (proj2 (Z.eqb_neq _ _) H1), H2.
  - intros h H1 H2 H3. by rewrite (proj2 (Z.eqb_neq _ _) H1), H2, (proj2 (Z.eqb_neq _ _) H3).
  - intros h H1 H2 <- Ha. rewrite (proj2 (Z.eqb_neq _ _) H1), H2, Z.eqb_refl. simpl.
    unfold MemoryHandle_validate. by rewrite Ha.
Qed.

(** A second transfer does not clear the mapping state: when the holder
    has accepted a handle and the owner transfers it on, the handle says it is
    mapped for a holder that has accepted nothing (src/src/ipc.rs, line 658). *)
Theorem retransfer_keeps_mapped `{X86AddrLaws} (owner target id : Z) (h : MemoryHandle)
    (s : handle_state) :
  handle_inv s -> HandleRegistry_get_handle id s = Some h -> active h = true ->
  user_range (range h) -> owner_pid h = owner -> owner <> target -> is_mapped h = true ->
  exists s' h', sys_transfer_memory owner id target s = Ret (Ok tt, s') /\
    HandleRegistry_get_handle id s' = Some h' /\ holder_pid h' = target /\ is_mapped h' = true /\
    holder_virt_addr h' = holder_virt_addr h.
Proof.
  intros Hi Hg Ha Hu Ho Hne Hm. eexists _, _.
  split; [by apply transfer_ok|]. split; [by apply (put_get id h)|]. done.
Qed.

Lemma retransfer_keeps_mapped_witness :
  exists s' h', sys_transfer_memory 5 1 7
      (mkHandleState [MemoryHandle_mark_mapped 0x400000 (set_holder 6 demo_handle)] 2) =
      Ret (Ok tt, s') /\
    HandleRegistry_get_handle 1 s' = Some h' /\ holder_pid h' = 7 /\ is_mapped h' = true.
Proof.
  destruct (retransfer_keeps_mapped 5 7 1
    (MemoryHandle_mark_mapped 0x400000 (set_holder 6 demo_handle))
    (mkHandleState [MemoryHandle_mark_mapped 0x400000 (set_holder 6 demo_handle)] 2))
    as (s' & h' & H1 & H2 & H3 & H4 & _).
  - split; simpl; repeat constructor; simpl; try done; unfold U64_MAX; try lia.
    unfold keys. csimpl. set_solver.
  - reflexivity.
  - reflexivity.
  - unfold user_range, LOW_HALF. simpl. lia.
  - reflexivity.
  - lia.
  - reflexivity.
  - exists s', h'. split; [exact H1|]. split; [exact H2|]. split; [exact H3|exact H4].
Defined.

(* ------------------------------------------------------------------ *)
(** ** Page-table flags *)

(** The flags of a handle: [WRITABLE] exactly for [ReadWrite], nothing at
    all for [None], and never [NO_EXECUTE], so that [ReadOnly] and [Execute]
    grant the same access and memory shared for reading is executable
    (src/src/ipc.rs, lines 129-147). *)
Theorem access_flags_spec `{X86FlagsLaws} (h : MemoryHandle) :
  (Z.land (MemoryHandle_access_to_flags h) FLAG_WRITABLE <> 0 <-> rights h = AccessRights_ReadWrite) /\
  (MemoryHandle_access_to_flags h = 0 <-> rights h = AccessRights_None) /\
  Z.land (MemoryHandle_access_to_flags h) FLAG_NO_EXECUTE = 0 /\
  (forall h', rights h = AccessRights_ReadOnly -> rights h' = AccessRights_Execute ->
     MemoryHandle_access_to_flags h = MemoryHandle_access_to_flags h').
Proof.
  unfold MemoryHandle_access_to_flags.
  rewrite FLAG_PRESENT_bit, FLAG_WRITABLE_bit, FLAG_USER_ACCESSIBLE_bit, FLAG_NO_EXECUTE_bit.
  split_and!; [destruct (rights h); vm_compute; split; congruence..
              |destruct (rights h); reflexivity|].
  by intros h' -> ->.
Qed.

Lemma access_flags_spec_witness :
  Z.land (MemoryHandle_access_to_flags demo_handle) FLAG_NO_EXECUTE = 0.
Proof. apply (access_flags_spec (H0 := x86_flags_doc_laws) demo_handle). Defined.
