(* ===== verification/Syscall.v ===== *)
(** * Syscall: the system-call interface (src/src/syscall.rs)

    The kernel state is the product of the components: the process table, the
    PID counters, the two IPC registries, the per-CPU data with CR3, memory,
    and the console that [sys_write] prints to (the bytes of [sys_write] only:
    the kernel's own messages are not part of the state).  [safe_parse] and its
    checks, one definition per arm of the match of [rust_syscall_handler], the
    handler itself and the assembly entry [asm_syscall_handler].  In the arms
    the collections grow without limit; [syscall_on_heap] adds the heap that
    may be exhausted.

    Raw pointers follow the checks the compiler inserts in the dev profile:
    dereferencing a null or misaligned pointer, and building a slice on a null
    pointer, panic. *)

From stdpp Require Import base sets numbers relations sorting list.
From S2P Require Import Prelude Errors Mem BTree X86 Process Scheduler SchedulerProps Channels Handles.
Local Open Scope Z_scope.
Local Open Scope ruix_scope.

(** [syscall::SyscallError] (a type of its own, not [error::SyscallError]) *)
Inductive SyscallError : Type :=
| SyscallError_InvalidStackPointer
| SyscallError_InvalidSyscallNumber (n : Z)
| SyscallError_InvalidPointer (a : Z)
| SyscallError_AccessViolation (v : Z)
| SyscallError_BoundsExceeded.

#[export] Instance SyscallError_eq_dec : EqDecision SyscallError.
Proof. solve_decision. Defined.

Record SyscallArgs : Type := mkSyscallArgs {
  syscall_number : Z;
  arg1 : Z;
  arg2 : Z;
  arg3 : Z;
  arg4 : Z;
  arg5 : Z;
  arg6 : Z
}.

Definition validate_stack_pointer (stack_ptr : Z) : bool :=
  if (stack_ptr <? 0xFFFF800000000000) || (0xFFFFFFFFFFFFFFFF <? stack_ptr) then false
  else if negb (stack_ptr mod 16 =? 0) then false
  else true.

Definition validate_syscall_number (n : Z) : bool :=
  existsb (Z.eqb n) [0; 1; 2; 3; 4; 5; 6; 7; 24; 39; 57; 61].

(** [a + b] on [isize] with the overflow check. *)
Definition add_i64 (a b : Z) : outcome Z :=
  if (- 2 ^ 63 <=? a + b) && (a + b <? 2 ^ 63) then Ret (a + b) else Panic.

Definition safe_read_register (m : mem) (stack_ptr offset : Z)
    : outcome (result SyscallError Z) :=
  let! addr := add_i64 (as_i64 stack_ptr) (offset * 8) in
  if (addr <? 0) || (0x7FFFFFFFFFFFFFFF <? addr)
  then Ret (Err (SyscallError_InvalidPointer (as_u64 addr)))
  else
    let ptr := as_u64 (stack_ptr + offset * 8) in
    let! _ := deref 8 ptr in
    let value := load64 m ptr in
    if value =? 0xDEADBEEFDEADBEEF then Ret (Err (SyscallError_AccessViolation value))
    else Ret (Ok value).

(** [let x = safe_read_register(..)?; k] *)
Definition read_then {T} (m : mem) (stack_ptr offset : Z)
    (k : Z -> outcome (result SyscallError T)) : outcome (result SyscallError T) :=
  let! r := safe_read_register m stack_ptr offset in
  match r with Ok v => k v | Err e => Ret (Err e) end.

Definition safe_parse (m : mem) (stack_ptr : Z) : outcome (result SyscallError SyscallArgs) :=
  if negb (validate_stack_pointer stack_ptr) then Ret (Err SyscallError_InvalidStackPointer)
  else
    read_then m stack_ptr (-1) (fun number =>
    read_then m stack_ptr 2 (fun a1 =>
    read_then m stack_ptr 4 (fun a2 =>
    read_then m stack_ptr 5 (fun a3 =>
    read_then m stack_ptr 6 (fun a4 =>
    read_then m stack_ptr 7 (fun a5 =>
    read_then m stack_ptr 8 (fun a6 =>
      if negb (validate_syscall_number number)
      then Ret (Err (SyscallError_InvalidSyscallNumber number))
      else Ret (Ok (mkSyscallArgs number a1 a2 a3 a4 a5 a6))))))))).

Definition validate_user_pointer (ptr size : Z) : result SyscallError unit :=
  if ptr =? 0 then Err (SyscallError_InvalidPointer 0)
  else if (ptr <? 0x400000) || (0x7FFFFFFF <? ptr) then Err (SyscallError_InvalidPointer ptr)
  else if 0x1000 <? size then Err SyscallError_BoundsExceeded
  else
    match checked_add_u64 ptr size with
    | None => Err SyscallError_BoundsExceeded
    | Some end_addr =>
        if 0x7FFFFFFF <? end_addr then Err SyscallError_BoundsExceeded else Ok tt
    end.

(** [core::slice::from_raw_parts(ptr as *const u8, len)] *)
Definition slice_from_raw_parts (m : mem) (ptr len : Z) : outcome (list Z) :=
  if ptr =? 0 then Panic else Ret (load_bytes m ptr (Z.to_nat len)).

(** [core::ptr::copy_nonoverlapping(src, dst as *mut u8, src.len())] *)
Definition copy_to_raw (m : mem) (dst : Z) (src : list Z) : outcome mem :=
  if (dst =? 0) && negb (Z.of_nat (length src) =? 0) then Panic else Ret (store_bytes m dst src).

(** [*(ptr as *mut i32) = v] *)
Definition store_i32 (m : mem) (ptr v : Z) : outcome mem :=
  let! _ := deref 4 ptr in Ret (store32 m ptr (as_u32 v)).

(** [x as i64] at the end of an arm, and [result as u64] after the match. *)
Definition ret_u64 (x : Z) : Z := as_u64 (as_i64 x).

(* ------------------------------------------------------------------ *)
(** ** The kernel state and the arms of the handler *)

Record Kernel (Fut : Type) : Type := mkKernel {
  SCHEDULER : Scheduler Fut;
  COUNTERS : counters;
  MACHINE : Machine;
  CHANNEL_REGISTRY : ChannelRegistry;
  HANDLE_STATE : handle_state;
  MEMORY : mem;
  CONSOLE : list Z
}.
Arguments mkKernel {Fut}.
Arguments SCHEDULER {Fut} k.
Arguments COUNTERS {Fut} k.
Arguments MACHINE {Fut} k.
Arguments CHANNEL_REGISTRY {Fut} k.
Arguments HANDLE_STATE {Fut} k.
Arguments MEMORY {Fut} k.
Arguments CONSOLE {Fut} k.

Section Arms.
Context `{X86Addr} {Fut : Type}.
Implicit Types (k : Kernel Fut).

Definition with_sched (s : Scheduler Fut) k : Kernel Fut :=
  mkKernel s (COUNTERS k) (MACHINE k) (CHANNEL_REGISTRY k) (HANDLE_STATE k) (MEMORY k) (CONSOLE k).
Definition with_counters (c : counters) k : Kernel Fut :=
  mkKernel (SCHEDULER k) c (MACHINE k) (CHANNEL_REGISTRY k) (HANDLE_STATE k) (MEMORY k) (CONSOLE k).
Definition with_machine (mc : Machine) k : Kernel Fut :=
  mkKernel (SCHEDULER k) (COUNTERS k) mc (CHANNEL_REGISTRY k) (HANDLE_STATE k) (MEMORY k) (CONSOLE k).
Definition with_channels (r : ChannelRegistry) k : Kernel Fut :=
  mkKernel (SCHEDULER k) (COUNTERS k) (MACHINE k) r (HANDLE_STATE k) (MEMORY k) (CONSOLE k).
Definition with_handles (h : handle_state) k : Kernel Fut :=
  mkKernel (SCHEDULER k) (COUNTERS k) (MACHINE k) (CHANNEL_REGISTRY k) h (MEMORY k) (CONSOLE k).
Definition with_memory (m : mem) k : Kernel Fut :=
  mkKernel (SCHEDULER k) (COUNTERS k) (MACHINE k) (CHANNEL_REGISTRY k) (HANDLE_STATE k) m (CONSOLE k).
Definition with_console (out : list Z) k : Kernel Fut :=
  mkKernel (SCHEDULER k) (COUNTERS k) (MACHINE k) (CHANNEL_REGISTRY k) (HANDLE_STATE k) (MEMORY k) out.

Definition get_current_process_id k : Z := current_process_id (CPU_DATA (MACHINE k)).
Definition set_current_process_id (pid : Z) k : Kernel Fut :=
  with_machine (set_current_pid pid (MACHINE k)) k.

Definition do_getpid k : outcome (Z * Kernel Fut) := Ret (ret_u64 (get_current_process_id k), k).

Definition do_fork k : outcome (Z * Kernel Fut) :=
  let current_pid := get_current_process_id k in
  match processes (SCHEDULER k) with
  | [] => Ret (MINUS_ONE, k)
  | parent :: _ =>
      if negb (p_id parent =? current_pid) then Ret (MINUS_ONE, k)
      else if negb (Process_check_resource_limits parent) then Ret (MINUS_ONE, k)
      else if max_processes (p_resource_limits parent) <=? children_count (p_stats parent)
      then Ret (MINUS_ONE, k)
      else
        let! a := allocate_pid (COUNTERS k) in
        let '(child_pid, c) := a in
        let k := with_counters c k in
        let! r := register_child current_pid child_pid (SCHEDULER k) in
        let '(res, s) := r in
        let k := with_sched s k in
        match res with
        | Err _ => Ret (MINUS_ONE, k)
        | Ok _ => Ret (ret_u64 child_pid, k)
        end
  end.

(** The blocking branch of wait4. *)
Definition wait4_block (current_pid target_pid : Z) k : outcome (Z * Kernel Fut) :=
  match processes (SCHEDULER k) with
  | [] => Ret (MINUS_ONE, k)
  | p :: rest =>
      if negb (p_id p =? current_pid) then Ret (MINUS_ONE, k)
      else
        let ps := rest ++ [set_state (Waiting (WaitReason_Child target_pid)) p] in
        let k := with_sched (set_processes ps (SCHEDULER k)) k in
        match ps with
        | next :: _ =>
            Ret (p_context_ptr next,
                 with_machine (write_cr3 (p_page_table_frame next)
                                 (set_current_pid (p_id next) (MACHINE k))) k)
        | [] => Ret (MINUS_ONE, k)
        end
  end.

Definition do_wait4 (a : SyscallArgs) k : outcome (Z * Kernel Fut) :=
  let current_pid := get_current_process_id k in
  let target_pid := arg1 a in
  let status_ptr := arg2 a in
  let options := arg3 a in
  if negb (target_pid =? MINUS_ONE) && ((target_pid <? 1000) || (10000 <? target_pid))
  then Ret (MINUS_ONE, k)
  else if negb (status_ptr =? 0) && negb (is_ok (validate_user_pointer status_ptr 4))
  then Ret (MINUS_ONE, k)
  else if negb (options =? 0) then Ret (MINUS_ONE, k)
  else
    let zombie_children := find_zombie_children current_pid (SCHEDULER k) in
    let target_child :=
      if target_pid =? MINUS_ONE
      then match zombie_children with c :: _ => c | [] => 0 end
      else match List.find (fun pid => pid =? target_pid) zombie_children with
           | Some c => c
           | None => 0
           end in
    if negb (target_child =? 0) then
      let '(res, s) := reap_zombie_child current_pid target_child (SCHEDULER k) in
      let k := with_sched s k in
      match res with
      | Ok exit_code =>
          if negb (status_ptr =? 0) then
            let! m := store_i32 (MEMORY k) status_ptr exit_code in
            Ret (ret_u64 target_child, with_memory m k)
          else Ret (ret_u64 target_child, k)
      | Err _ => Ret (MINUS_ONE, k)
      end
    else wait4_block current_pid target_pid k.

Definition do_sched_yield k : outcome (Z * Kernel Fut) :=
  match processes (SCHEDULER k) with
  | p :: rest =>
      if p_id p =? get_current_process_id k
      then Ret (0, with_sched (set_processes (set_state Ready p :: rest) (SCHEDULER k)) k)
      else Ret (0, k)
  | [] => Ret (0, k)
  end.

Definition do_exit (a : SyscallArgs) k : outcome (Z * Kernel Fut) :=
  let exit_code := as_i32 (arg1 a) in
  if (exit_code <? -255) || (255 <? exit_code) then Ret (MINUS_ONE, k)
  else
    let '(res, s) := handle_process_exit (get_current_process_id k) exit_code (SCHEDULER k) in
    let k := with_sched s k in
    match res with
    | Err _ => Ret (MINUS_ONE, k)
    | Ok _ => Ret (0, set_current_process_id 0 k)
    end.

Definition do_write (a : SyscallArgs) k : outcome (Z * Kernel Fut) :=
  let fd := arg1 a in
  let buf := arg2 a in
  let count := arg3 a in
  if 2 <? fd then Ret (MINUS_ONE, k)
  else if 4096 <? count then Ret (MINUS_ONE, k)
  else if negb (is_ok (validate_user_pointer buf count)) then Ret (MINUS_ONE, k)
  else if fd =? 1 then
    let! slice := slice_from_raw_parts (MEMORY k) buf count in
    if utf8_valid slice then Ret (ret_u64 count, with_console (CONSOLE k ++ slice) k)
    else Ret (MINUS_ONE, k)
  else Ret (MINUS_ONE, k).

Definition do_create_channel (a : SyscallArgs) k : outcome (Z * Kernel Fut) :=
  let target_pid := arg1 a in
  if (target_pid =? 0) || (10000 <? target_pid) then Ret (MINUS_ONE, k)
  else
    let! x := sys_create_channel (get_current_process_id k) target_pid (CHANNEL_REGISTRY k) in
    let '(res, r) := x in
    let k := with_channels r k in
    match res with
    | Ok channel_id => Ret (ret_u64 channel_id, k)
    | Err _ => Ret (MINUS_ONE, k)
    end.

Definition do_send_message (a : SyscallArgs) k : outcome (Z * Kernel Fut) :=
  let channel_id := arg1 a in
  let type := as_u32 (arg2 a) in
  let data_ptr := arg3 a in
  let len := arg4 a in
  if (channel_id =? 0) || (1000 <? channel_id) then Ret (MINUS_ONE, k)
  else if 256 <? len then Ret (MINUS_ONE, k)
  else if negb (data_ptr =? 0) && negb (is_ok (validate_user_pointer data_ptr len))
  then Ret (MINUS_ONE, k)
  else
    let! data_slice := slice_from_raw_parts (MEMORY k) data_ptr len in
    let '(res, r) := sys_send_message (get_current_process_id k) channel_id type data_slice
                       (CHANNEL_REGISTRY k) in
    let k := with_channels r k in
    match res with
    | Ok _ => Ret (0, k)
    | Err _ => Ret (MINUS_ONE, k)
    end.

Definition do_receive_message (a : SyscallArgs) k : outcome (Z * Kernel Fut) :=
  let channel_id := arg1 a in
  let buffer_ptr := arg2 a in
  let buffer_size := arg3 a in
  if (channel_id =? 0) || (1000 <? channel_id) then Ret (MINUS_ONE, k)
  else if 256 <? buffer_size then Ret (MINUS_ONE, k)
  else if negb (buffer_ptr =? 0) && negb (is_ok (validate_user_pointer buffer_ptr buffer_size))
  then Ret (MINUS_ONE, k)
  else
    let '(res, r) := sys_receive_message (get_current_process_id k) channel_id
                       (CHANNEL_REGISTRY k) in
    let k := with_channels r k in
    match res with
    | Ok (Some message) =>
        let copy_len := Z.min (data_len message) buffer_size in
        let! m := copy_to_raw (MEMORY k) buffer_ptr (take (Z.to_nat copy_len) (msg_data message)) in
        Ret (ret_u64 copy_len, with_memory m k)
    | Ok None => Ret (as_u64 (-2), k)
    | Err _ => Ret (MINUS_ONE, k)
    end.

Definition parse_rights (n : Z) : option AccessRights :=
  if n =? 0 then Some AccessRights_ReadOnly
  else if n =? 1 then Some AccessRights_ReadWrite
  else if n =? 2 then Some AccessRights_Execute
  else None.

Definition parse_mode (n : Z) : option TransferMode :=
  if n =? 0 then Some TransferMode_Ownership
  else if n =? 1 then Some TransferMode_Shared
  else if n =? 2 then Some TransferMode_Exclusive
  else None.

Definition do_create_memory_handle (a : SyscallArgs) k : outcome (Z * Kernel Fut) :=
  let! start := VirtAddr_new (arg1 a) in
  let sz := arg2 a in
  match parse_rights (arg3 a) with
  | None => Ret (MINUS_ONE, k)
  | Some ri =>
      match parse_mode (arg4 a) with
      | None => Ret (MINUS_ONE, k)
      | Some m =>
          if negb (is_ok (validate_user_pointer (arg1 a) sz)) then Ret (MINUS_ONE, k)
          else
            let '(res, h) := sys_create_memory_handle (get_current_process_id k) start sz ri m
                               (HANDLE_STATE k) in
            let k := with_handles h k in
            match res with
            | Ok handle_id => Ret (ret_u64 handle_id, k)
            | Err _ => Ret (MINUS_ONE, k)
            end
      end
  end.

Definition do_transfer_memory (a : SyscallArgs) k : outcome (Z * Kernel Fut) :=
  let handle_id := arg1 a in
  let target_pid := arg2 a in
  if handle_id =? 0 then Ret (MINUS_ONE, k)
  else if (target_pid =? 0) || (10000 <? target_pid) then Ret (MINUS_ONE, k)
  else
    let! x := sys_transfer_memory (get_current_process_id k) handle_id target_pid (HANDLE_STATE k) in
    let '(res, h) := x in
    let k := with_handles h k in
    match res with
    | Ok _ => Ret (0, k)
    | Err _ => Ret (MINUS_ONE, k)
    end.

Definition do_receive_memory_handle (a : SyscallArgs) k : outcome (Z * Kernel Fut) :=
  let handle_id := arg1 a in
  if handle_id =? 0 then Ret (MINUS_ONE, k)
  else
    let! x := sys_receive_memory_handle (get_current_process_id k) handle_id (HANDLE_STATE k) in
    let '(res, h) := x in
    let k := with_handles h k in
    match res with
    | Ok r =>
        let! end_addr := VirtAddr_add (start_addr r) (size r) in
        Ret (0, k)
    | Err _ => Ret (MINUS_ONE, k)
    end.

(** The match on [args.syscall_number]. *)
Definition syscall_dispatch (a : SyscallArgs) k : outcome (Z * Kernel Fut) :=
  let n := syscall_number a in
  if n =? 39 then do_getpid k
  else if n =? 57 then do_fork k
  else if n =? 61 then do_wait4 a k
  else if n =? 24 then do_sched_yield k
  else if n =? 0 then do_exit a k
  else if n =? 1 then do_write a k
  else if n =? 2 then do_create_channel a k
  else if n =? 3 then do_send_message a k
  else if n =? 4 then do_receive_message a k
  else if n =? 5 then do_create_memory_handle a k
  else if n =? 6 then do_transfer_memory a k
  else if n =? 7 then do_receive_memory_handle a k
  else Ret (MINUS_ONE, k).

(** Whether a call comes to a statement that may ask the kernel heap for
    memory: [Vec::push], [VecDeque::push_back], [BTreeMap::insert] or a
    [collect] that is not empty. *)
Definition requests_memory (a : SyscallArgs) k : bool :=
  let n := syscall_number a in
  let current_pid := get_current_process_id k in
  if n =? 57 then
    match processes (SCHEDULER k) with
    | [] => false
    | parent :: _ =>
        (p_id parent =? current_pid) && Process_check_resource_limits parent &&
        (children_count (p_stats parent) <? max_processes (p_resource_limits parent))
    end
  else if n =? 61 then
    ((arg1 a =? MINUS_ONE) || ((1000 <=? arg1 a) && (arg1 a <=? 10000))) &&
    ((arg2 a =? 0) || is_ok (validate_user_pointer (arg2 a) 4)) && (arg3 a =? 0) &&
    negb (bool_decide (find_zombie_children current_pid (SCHEDULER k) = []))
  else if n =? 0 then
    (-255 <=? as_i32 (arg1 a)) && (as_i32 (arg1 a) <=? 255) &&
    negb (bool_decide (tree_children current_pid (process_tree (SCHEDULER k)) = []))
  else if n =? 2 then
    negb (arg1 a =? 0) && (arg1 a <=? 10000) && negb (current_pid =? arg1 a)
  else if n =? 3 then
    negb (arg1 a =? 0) && (arg1 a <=? 1000) && (arg4 a <=? 256) &&
    is_ok (validate_user_pointer (arg3 a) (arg4 a)) &&
    is_ok (sys_send_message current_pid (arg1 a) (as_u32 (arg2 a))
             (load_bytes (MEMORY k) (arg3 a) (Z.to_nat (arg4 a))) (CHANNEL_REGISTRY k)).1
  else if n =? 5 then
    bool_decide (is_Some (parse_rights (arg3 a))) && bool_decide (is_Some (parse_mode (arg4 a))) &&
    is_ok (validate_user_pointer (arg1 a) (arg2 a)) &&
    PageRange_is_valid (mkPageRange (arg1 a) (arg2 a))
  else if n =? 6 then
    match HandleRegistry_get_handle (arg1 a) (HANDLE_STATE k) with
    | None => false
    | Some h =>
        negb (arg1 a =? 0) && negb (arg2 a =? 0) && (arg2 a <=? 10000) &&
        negb (current_pid =? arg2 a) && (owner_pid h =? current_pid) && MemoryHandle_validate h
    end
  else false.

(** The match with a heap that may have no block left: [heap_left] says
    whether the requests of the call are served.  The allocator answers null
    otherwise, which ends in [alloc_error_handler]. *)
Definition syscall_on_heap (heap_left : bool) (a : SyscallArgs) k : outcome (Z * Kernel Fut) :=
  if requests_memory a k && negb heap_left then Panic else syscall_dispatch a k.

Definition rust_syscall_handler (stack_ptr : Z) k : outcome (Z * Kernel Fut) :=
  let! parsed := safe_parse (MEMORY k) stack_ptr in
  match parsed with
  | Err _ => Ret (MINUS_ONE, k)
  | Ok args => syscall_dispatch args k
  end.
End Arms.

(** ** The assembly entry

    The registers [asm_syscall_handler] handles itself.  [swapgs] makes
    [gs:] address [CPU_DATA]: offset 0 is [user_rsp], offset 8
    [kernel_stack_top]. *)

Record Regs : Type := mkRegs {
  rax : Z;
  rcx : Z;
  r11 : Z;
  rsp : Z;
  rdi : Z
}.

Definition push (v : Z) (sp : Z) (m : mem) : Z * mem :=
  let sp := wrapping_sub_u64 sp 8 in (sp, store64 m sp v).

Definition set_user_rsp (v : Z) (mc : Machine) : Machine :=
  mkMachine (mkCpuData v (kernel_stack_top (CPU_DATA mc)) (current_process_id (CPU_DATA mc))
               (tss_ptr (CPU_DATA mc))) (CR3 mc).

Section Entry.
Context `{X86Addr} {Fut : Type}.
Implicit Types (k : Kernel Fut).

(** [return_address] is what [call] pushes; [stack_use] is what the compiled
    handler and the functions it calls leave in their stack frames. *)
Definition asm_syscall_handler (return_address : Z) (stack_use : mem -> mem) (r : Regs) k
    : outcome (Regs * Kernel Fut) :=
  let k := with_machine (set_user_rsp (rsp r) (MACHINE k)) k in
  let sp := kernel_stack_top (CPU_DATA (MACHINE k)) in
  let '(sp, m) := push (r11 r) sp (MEMORY k) in
  let '(sp, m) := push (rcx r) sp m in
  let sp := wrapping_sub_u64 sp 8 in
  let arg := sp in
  let '(call_sp, m) := push return_address sp m in
  let! x := rust_syscall_handler arg (with_memory m k) in
  let '(ret, k) := x in
  let k := with_memory (stack_use (MEMORY k)) k in
  let sp := wrapping_add_u64 sp 8 in
  let rcx' := load64 (MEMORY k) sp in
  let sp := wrapping_add_u64 sp 8 in
  let r11' := load64 (MEMORY k) sp in
  Ret (mkRegs ret rcx' r11' (user_rsp (CPU_DATA (MACHINE k))) arg, k).
End Entry.

(* ------------------------------------------------------------------ *)
(** ** No system call gets through *)

Lemma safe_parse_fails m stack_ptr :
  is_u64 stack_ptr -> exists e, safe_parse m stack_ptr = Ret (Err e).
Proof.
  unfold is_u64. intros Hs. unfold safe_parse.
  destruct (validate_stack_pointer stack_ptr) eqn:Hv; simpl; [|by eexists].
  assert (Hr : 0xFFFF800000000000 <= stack_ptr).
  { unfold validate_stack_pointer in Hv. step_cases. lia. }
  unfold read_then at 1. unfold safe_read_register, as_i64, add_i64.
  rewrite Z.mod_small by lia. rewrite (proj2 (Z.ltb_ge stack_ptr (2 ^ 63))) by lia.
  rewrite (proj2 (Z.leb_le _ _)), (proj2 (Z.ltb_lt _ (2 ^ 63))) by lia.
  cbn [andb]. rewrite bind_ret. rewrite (proj2 (Z.ltb_lt _ 0)) by lia. cbn [orb].
  rewrite bind_ret. by eexists.
Qed.

(** C30: every system call fails.  [validate_stack_pointer] accepts only
    addresses of the upper half, and [safe_read_register] then refuses each of
    them because the address is negative as an [isize]; so whatever the stack
    pointer and the state, [rust_syscall_handler] returns -1 and changes
    nothing (src/src/syscall.rs, lines 65-80 and 99-105). *)
Theorem syscall_handler_always_fails `{X86Addr} {Fut} (stack_ptr : Z) (k : Kernel Fut) :
  is_u64 stack_ptr -> rust_syscall_handler stack_ptr k = Ret (MINUS_ONE, k).
Proof.
  intros Hs. unfold rust_syscall_handler.
  destruct (safe_parse_fails (MEMORY k) stack_ptr Hs) as [e ->]. done.
Qed.

Definition demo_kernel : Kernel unit :=
  mkKernel demo_family counters_init
    (mkMachine (mkCpuData 0 0xFFFF800000010000 1 0) 0x1000)
    demo_registry handle_state_init zero_mem [].

Lemma syscall_handler_always_fails_witness :
  rust_syscall_handler 0xFFFF80000000FFF0 demo_kernel = Ret (MINUS_ONE, demo_kernel).
Proof. apply syscall_handler_always_fails. unfold is_u64. lia. Defined.

Lemma wrap_sub a b : 0 <= b <= a -> a < 2 ^ 64 -> wrapping_sub_u64 a b = a - b.
Proof. intros H1 H2. apply Z.mod_small. lia. Qed.

Lemma wrap_add a b : 0 <= a -> 0 <= b -> a + b < 2 ^ 64 -> wrapping_add_u64 a b = a + b.
Proof. intros H1 H2 H3. apply Z.mod_small. lia. Qed.

(** Code whose stack frames lie between [low] and [high] leaves the rest of
    memory alone. *)
Definition uses_stack (low high : Z) (stack_use : mem -> mem) : Prop :=
  forall m a, a < low \/ high <= a -> stack_use m a = m a.

Lemma load64_uses_stack low high f m a :
  uses_stack low high f -> high <= a -> load64 (f m) a = load64 m a.
Proof. intros Hf Ha. unfold load64. f_equal. apply load_bytes_ext. intros x Hx. apply Hf. lia. Qed.

(** C31: seen from user mode, every [syscall] instruction returns -1 in RAX,
    with the return address in RCX, the flags in R11 and the stack pointer
    restored.  The whole kernel state is as before, but for the saved user
    stack pointer and for the memory of the kernel stack: the frames of the
    handler, from [low] on, and the four words above them. *)
Theorem syscall_entry_returns `{X86Addr} {Fut} (ra low : Z) (stack_use : mem -> mem) (r : Regs)
    (k : Kernel Fut) :
  is_u64 (rcx r) -> is_u64 (r11 r) -> is_u64 (rsp r) ->
  let top := kernel_stack_top (CPU_DATA (MACHINE k)) in
  32 <= top < 2 ^ 64 -> low <= top - 32 -> uses_stack low (top - 32) stack_use ->
  exists m', asm_syscall_handler ra stack_use r k =
      Ret (mkRegs MINUS_ONE (rcx r) (r11 r) (rsp r) (top - 24),
           with_memory m' (with_machine (set_user_rsp (rsp r) (MACHINE k)) k)) /\
    (forall a, a < low \/ top <= a -> m' a = MEMORY k a).
Proof.
  intros Hc Hf Hsp top Ht Hlow Hs. unfold asm_syscall_handler, push. cbn [MACHINE with_machine].
  change (kernel_stack_top (CPU_DATA (set_user_rsp (rsp r) (MACHINE k)))) with top.
  rewrite (wrap_sub top 8), (wrap_sub (top - 8) 8), (wrap_sub (top - 8 - 8) 8) by lia.
  set (m1 := store64 _ (top - 8) _). set (m2 := store64 m1 _ _).
  rewrite (wrap_sub (top - 8 - 8 - 8) 8) by lia. set (m3 := store64 m2 _ _).
  assert (Hu : is_u64 (top - 8 - 8 - 8)) by (unfold is_u64; lia).
  unfold rust_syscall_handler. cbn [MEMORY with_memory].
  destruct (safe_parse_fails m3 (top - 8 - 8 - 8) Hu) as [e ->]. rewrite !bind_ret.
  rewrite (wrap_add _ 8), (wrap_add _ 8) by lia. cbn [MEMORY with_memory MACHINE with_machine].
  rewrite !(load64_uses_stack low (top - 32)) by (done || lia).
  assert (Ec : load64 m3 (top - 8 - 8 - 8 + 8) = rcx r).
  { unfold m3. rewrite load64_store64_ne by lia. unfold m2.
    replace (top - 8 - 8 - 8 + 8) with (top - 8 - 8) by lia. by apply load64_store64. }
  assert (Er : load64 m3 (top - 8 - 8 - 8 + 8 + 8) = r11 r).
  { unfold m3. rewrite load64_store64_ne by lia. unfold m2. rewrite load64_store64_ne by lia.
    unfold m1. replace (top - 8 - 8 - 8 + 8 + 8) with (top - 8) by lia. by apply load64_store64. }
  rewrite Ec, Er. exists (stack_use m3). split.
  - replace (top - 8 - 8 - 8) with (top - 24) by lia. reflexivity.
  - intros a Ha. rewrite Hs by lia. unfold m3, m2, m1, store64.
    rewrite !store_bytes_out by (rewrite length_le_bytes; lia). done.
Qed.

(** The handler fills the 2 KiB below its return address with ones. *)
Definition demo_stack_use (m : mem) : mem := fun a =>
  if (0xFFFF80000000F7E0 <=? a) && (a <? 0xFFFF80000000FFE0) then 1 else m a.

Lemma syscall_entry_returns_witness :
  exists r' k', asm_syscall_handler 0xFFFF800000001234 demo_stack_use
      (mkRegs 39 0x400002 0x202 0x601000 0) demo_kernel = Ret (r', k') /\
    rax r' = MINUS_ONE /\ rsp r' = 0x601000 /\ SCHEDULER k' = SCHEDULER demo_kernel.
Proof.
  destruct (syscall_entry_returns 0xFFFF800000001234 0xFFFF80000000F7E0 demo_stack_use
    (mkRegs 39 0x400002 0x202 0x601000 0) demo_kernel) as (m' & H1 & _);
    [unfold is_u64; simpl; lia..| |].
  - intros m a Ha. unfold demo_stack_use. simpl in Ha.
    destruct (Z.leb_spec 0xFFFF80000000F7E0 a), (Z.ltb_spec a 0xFFFF80000000FFE0); try reflexivity. lia.
  - eexists _, _. split; [exact H1|]. split; [reflexivity|]. split; reflexivity.
Defined.

(** The stack pointer the entry passes to the handler (in RDI) is never
    16-byte aligned when the kernel stack top is: three words below it leave it
    8 bytes off, so the alignment check of [validate_stack_pointer] rejects it,
    although the comment on the padding says it aligns the stack
    (src/src/syscall.rs, lines 226-257). *)
Theorem entry_stack_pointer_misaligned `{X86Addr} {Fut} (ra : Z) (stack_use : mem -> mem)
    (r r' : Regs) (k k' : Kernel Fut) :
  let top := kernel_stack_top (CPU_DATA (MACHINE k)) in
  32 <= top < 2 ^ 64 -> top mod 16 = 0 -> asm_syscall_handler ra stack_use r k = Ret (r', k') ->
  rdi r' mod 16 = 8 /\ validate_stack_pointer (rdi r') = false.
Proof.
  intros top Ht Ha. unfold asm_syscall_handler, push. cbn [MACHINE with_machine].
  change (kernel_stack_top (CPU_DATA (set_user_rsp (rsp r) (MACHINE k)))) with top.
  rewrite (wrap_sub top 8), (wrap_sub (top - 8) 8), (wrap_sub (top - 8 - 8) 8) by lia.
  intros E. apply outcome_bind_ret in E as ([ret k2] & _ & [= <- _]). cbn [rdi].
  assert (Hm : (top - 8 - 8 - 8) mod 16 = 8).
  { pose proof (Z.div_mod top 16). symmetry. apply (Z.mod_unique_pos _ _ (top / 16 - 2)); lia. }
  split; [done|]. unfold validate_stack_pointer. rewrite Hm. by destruct (_ || _).
Qed.

Lemma entry_stack_pointer_misaligned_witness :
  exists r' k', asm_syscall_handler 0xFFFF800000001234 demo_stack_use
      (mkRegs 39 0x400002 0x202 0x601000 0) demo_kernel = Ret (r', k') /\ rdi r' mod 16 = 8.
Proof.
  eexists _, _. split; [reflexivity|].
  eapply (entry_stack_pointer_misaligned 0xFFFF800000001234 demo_stack_use
    (mkRegs 39 0x400002 0x202 0x601000 0) _ demo_kernel).
  - simpl. lia.
  - reflexivity.
  - reflexivity.
Defined.
