(* ===== verification/SyscallProps.v ===== *)
(** * SyscallProps: what the system calls guarantee

    The properties of [syscall_dispatch], the part of [rust_syscall_handler]
    after the arguments are parsed: pointer validation, confinement of memory
    writes, the kernel invariant, panics, and the end-to-end behaviour of
    messages, exit and wait. *)

From stdpp Require Import base sets numbers relations sorting list.
From S2P Require Import Prelude Errors Mem BTree X86 Process Scheduler SchedulerProps Channels Handles Syscall.
Local Open Scope Z_scope.
Local Open Scope ruix_scope.

Definition USER_START : Z := 0x400000.
Definition USER_END : Z := 0x7FFFFFFF.

(** C29: [validate_user_pointer] accepts exactly the buffers of at most 4096
    bytes that lie within [0x400000, 0x7FFFFFFF]; its errors tell a bad
    address from a bad extent. *)
Theorem validate_user_pointer_spec (ptr size : Z) :
  is_u64 ptr -> is_u64 size ->
  (validate_user_pointer ptr size = Ok tt <->
     USER_START <= ptr /\ size <= 4096 /\ ptr + size <= USER_END) /\
  (validate_user_pointer ptr size = Err (SyscallError_InvalidPointer ptr) <->
     ptr < USER_START \/ USER_END < ptr) /\
  (validate_user_pointer ptr size = Err SyscallError_BoundsExceeded <->
     USER_START <= ptr <= USER_END /\ (4096 < size \/ USER_END < ptr + size)).
Proof.
  unfold is_u64, USER_START, USER_END. intros Hp Hs.
  unfold validate_user_pointer, checked_add_u64.
  destruct (Z.eqb_spec ptr 0) as [->|H0]; [split_and!; split; intros; try done; lia|].
  destruct (Z.ltb_spec ptr 0x400000); [split_and!; split; intros; simpl in *; try done; lia|].
  destruct (Z.ltb_spec 0x7FFFFFFF ptr); [split_and!; split; intros; simpl in *; try done; lia|].
  destruct (Z.ltb_spec 0x1000 size); [split_and!; split; intros; simpl in *; try done; lia|].
  rewrite (proj2 (Z.ltb_lt _ _)) by lia. cbn [orb].
  destruct (Z.ltb_spec 0x7FFFFFFF (ptr + size)); split_and!; split; intros; try done; lia.
Qed.

Lemma validate_user_pointer_spec_witness :
  validate_user_pointer 0x7FFFFF00 0xFF = Ok tt /\
  validate_user_pointer 0x7FFFFF00 0x100 = Err SyscallError_BoundsExceeded.
Proof.
  split.
  - apply (validate_user_pointer_spec 0x7FFFFF00 0xFF); unfold is_u64, USER_START, USER_END; lia.
  - apply (validate_user_pointer_spec 0x7FFFFF00 0x100); unfold is_u64, USER_START, USER_END; lia.
Defined.

Lemma validate_ok ptr size :
  is_u64 ptr -> is_u64 size -> is_ok (validate_user_pointer ptr size) = true ->
  USER_START <= ptr /\ size <= 4096 /\ ptr + size <= USER_END.
Proof.
  unfold is_u64, USER_START, USER_END. intros Hp Hs Hv.
  unfold validate_user_pointer, checked_add_u64 in Hv. simpl in Hv.
  destruct (ptr =? 0); [done|]. destruct (Z.ltb_spec ptr 0x400000); [done|].
  destruct (Z.ltb_spec 0x7FFFFFFF ptr); [done|]. cbn [orb] in Hv.
  destruct (Z.ltb_spec 0x1000 size); [done|]. rewrite (proj2 (Z.ltb_lt _ (2 ^ 64))) in Hv by lia.
  destruct (Z.ltb_spec 0x7FFFFFFF (ptr + size)); [done|]. lia.
Qed.

Lemma validate_intro ptr size :
  0 <= size -> USER_START <= ptr -> size <= 4096 -> ptr + size <= USER_END ->
  validate_user_pointer ptr size = Ok tt.
Proof.
  unfold USER_START, USER_END. intros H1 H2 H3 H4. unfold validate_user_pointer, checked_add_u64.
  rewrite (proj2 (Z.eqb_neq ptr 0)), (proj2 (Z.ltb_ge ptr _)), (proj2 (Z.ltb_ge _ ptr)),
    (proj2 (Z.ltb_ge _ size)), (proj2 (Z.ltb_lt _ (2 ^ 64))) by lia. cbn [orb].
  by rewrite (proj2 (Z.ltb_ge _ _)) by lia.
Qed.

Definition args_u64 (a : SyscallArgs) : Prop :=
  is_u64 (arg1 a) /\ is_u64 (arg2 a) /\ is_u64 (arg3 a) /\ is_u64 (arg4 a).

(* ------------------------------------------------------------------ *)
(** ** Memory writes stay in user memory *)

(** The memories agree outside the user area. *)
Definition same_outside_user (m m' : mem) : Prop :=
  forall a, a < USER_START \/ USER_END <= a -> m' a = m a.

Lemma same_outside_refl m : same_outside_user m m.
Proof. done. Qed.
#[local] Hint Resolve same_outside_refl : ruix.

Lemma store_bytes_confined m p bs :
  USER_START <= p -> p + Z.of_nat (length bs) <= USER_END ->
  same_outside_user m (store_bytes m p bs).
Proof. intros H1 H2 a Ha. apply store_bytes_out. lia. Qed.

Section Confined.
Context `{X86Addr} {Fut : Type}.
Implicit Types (k : Kernel Fut).

Lemma wait4_confined a k v k' :
  args_u64 a -> do_wait4 a k = Ret (v, k') -> same_outside_user (MEMORY k) (MEMORY k').
Proof.
  intros (_ & H2 & _) E. unfold do_wait4 in E.
  destruct (_ && _); [by simplify_eq|].
  destruct (negb (arg2 a =? 0) && _) eqn:Hv; [by simplify_eq|].
  destruct (negb (arg3 a =? 0)); [by simplify_eq|]. cbv zeta in E.
  destruct (negb _) in E.
  - destruct (reap_zombie_child _ _ _) as [[code|e] s]; [|by simplify_eq].
    destruct (negb (arg2 a =? 0)) eqn:Hz; [|by simplify_eq].
    simpl in Hv. apply negb_false_iff in Hv.
    apply validate_ok in Hv as (V1 & _ & V2); [|done|unfold is_u64; lia].
    unfold store_i32 in E. inv_ret. simplify_eq/=.
    apply store_bytes_confined; rewrite ?length_le_bytes; lia.
  - unfold wait4_block in E. by repeat case_match; simplify_eq.
Qed.

Lemma receive_confined a k v k' :
  args_u64 a -> do_receive_message a k = Ret (v, k') ->
  same_outside_user (MEMORY k) (MEMORY k').
Proof.
  intros (_ & H2 & H3 & _) E. unfold do_receive_message in E.
  destruct (_ || _); [by simplify_eq|]. destruct (256 <? arg3 a); [by simplify_eq|].
  destruct (negb (arg2 a =? 0) && _) eqn:Hv; [by simplify_eq|].
  destruct (sys_receive_message _ _ _) as [[[msg|]|e] r]; [|by simplify_eq..].
  unfold copy_to_raw in E.
  set (bs := take _ _) in E.
  assert (Hl : Z.of_nat (length bs) <= arg3 a).
  { unfold bs, is_u64 in *. rewrite length_take. lia. }
  destruct (Z.eqb_spec (arg2 a) 0) as [E0|E0]; simpl in E, Hv.
  - destruct (Z.eqb_spec (Z.of_nat (length bs)) 0) as [El|]; simpl in E; inv_ret.
    simplify_eq/=. intros x Hx. apply store_bytes_out. lia.
  - inv_ret. simplify_eq/=. apply negb_false_iff in Hv.
    apply validate_ok in Hv as (V1 & _ & V2); [|done..]. apply store_bytes_confined; lia.
Qed.

Lemma create_channel_memory a k v k' :
  do_create_channel a k = Ret (v, k') -> MEMORY k' = MEMORY k.
Proof.
  unfold do_create_channel. destruct (_ || _); [by intros; simplify_eq|].
  intros E. inv_ret. destruct x as [[|] r]; by simplify_eq.
Qed.

Lemma fork_memory k v k' : do_fork k = Ret (v, k') -> MEMORY k' = MEMORY k.
Proof.
  unfold do_fork. intros E.
  destruct (processes _) as [|p ps]; [by simplify_eq|].
  destruct (negb _); [by simplify_eq|]. destruct (negb _); [by simplify_eq|].
  destruct (_ <=? _); [by simplify_eq|].
  inv_ret. destruct x as [pid c]. inv_ret. destruct x as [[|] s]; by simplify_eq.
Qed.

Lemma send_memory a k v k' : do_send_message a k = Ret (v, k') -> MEMORY k' = MEMORY k.
Proof.
  unfold do_send_message. intros E.
  destruct (_ || _); [by simplify_eq|]. destruct (256 <? _); [by simplify_eq|].
  destruct (_ && _); [by simplify_eq|].
  inv_ret. destruct (sys_send_message _ _ _ _ _) as [[|] r]; by simplify_eq.
Qed.

Lemma handle_calls_memory a k v k' :
  do_create_memory_handle a k = Ret (v, k') \/ do_transfer_memory a k = Ret (v, k') \/
  do_receive_memory_handle a k = Ret (v, k') -> MEMORY k' = MEMORY k.
Proof.
  intros [E|[E|E]].
  - unfold do_create_memory_handle in E. inv_ret.
    destruct (parse_rights _); [|by simplify_eq]. destruct (parse_mode _); [|by simplify_eq].
    destruct (negb _); [by simplify_eq|].
    destruct (sys_create_memory_handle _ _ _ _ _ _) as [[|] r]; by simplify_eq.
  - unfold do_transfer_memory in E. destruct (_ =? 0); [by simplify_eq|].
    destruct (_ || _); [by simplify_eq|]. inv_ret. destruct x as [[|] r]; by simplify_eq.
  - unfold do_receive_memory_handle in E. destruct (_ =? 0); [by simplify_eq|].
    inv_ret. destruct x as [[|] r]; inv_ret; by simplify_eq.
Qed.
End Confined.

(** C2: whatever its number and arguments, a system call that returns has
    written memory only inside the user area [0x400000, 0x7FFFFFFF): kernel
    memory cannot be overwritten through the pointer arguments. *)
Theorem syscall_writes_user_only `{X86Addr} {Fut} (a : SyscallArgs) (k k' : Kernel Fut) (v : Z) :
  args_u64 a -> syscall_dispatch a k = Ret (v, k') ->
  same_outside_user (MEMORY k) (MEMORY k').
Proof.
  intros Ha E. unfold syscall_dispatch in E.
  repeat match type of E with (if ?b then _ else _) = _ => destruct b end.
  - unfold do_getpid in E. by simplify_eq.
  - apply fork_memory in E. by rewrite E.
  - by eapply wait4_confined.
  - unfold do_sched_yield in E. by repeat case_match; simplify_eq.
  - unfold do_exit in E. by repeat case_match; simplify_eq.
  - unfold do_write in E. repeat case_match; simplify_eq; try done.
    inv_ret. by repeat case_match; simplify_eq.
  - apply create_channel_memory in E. by rewrite E.
  - apply send_memory in E. by rewrite E.
  - by eapply receive_confined.
  - rewrite (handle_calls_memory a k v k') by auto. done.
  - rewrite (handle_calls_memory a k v k') by auto. done.
  - rewrite (handle_calls_memory a k v k') by auto. done.
  - by simplify_eq.
Qed.

(** The kernel of [demo_kernel] with process 6 running and a message for it. *)
Definition demo_kernel6 : Kernel unit :=
  set_current_process_id 6
    (with_channels (mkChannelRegistry
       [set_queue1_to_2 [Message_new 5 9 [72; 105]] (Channel_new 1 5 6); Channel_new 2 5 7] 3)
       demo_kernel).

Lemma syscall_writes_user_only_witness :
  exists v k', syscall_dispatch (mkSyscallArgs 4 1 0x500000 256 0 0 0) demo_kernel6 = Ret (v, k') /\
    v = 2 /\ MEMORY k' 0x500000 = 72 /\ same_outside_user (MEMORY demo_kernel6) (MEMORY k').
Proof.
  eexists _, _. split; [reflexivity|]. split; [reflexivity|]. split; [reflexivity|].
  eapply (syscall_writes_user_only (mkSyscallArgs 4 1 0x500000 256 0 0 0) demo_kernel6).
  - unfold args_u64, is_u64. simpl. lia.
  - reflexivity.
Defined.

(* ------------------------------------------------------------------ *)
(** ** The kernel invariant *)

(** A range [validate_user_pointer] accepted. *)
Definition syscall_range (r : PageRange) : Prop :=
  USER_START <= start_addr r /\ 0 <= size r <= 4096 /\ start_addr r + size r <= USER_END.

(** The PIDs the counter has handed out so far.  The counter starts at 1 and
    fork takes its PIDs from it, also the ones the boot processes already
    have. *)
Definition handed_out {Fut} (k : Kernel Fut) (pid : Z) : Prop := 1 <= pid < NEXT_PID (COUNTERS k).

Record kernel_inv {Fut} (k : Kernel Fut) : Prop := {
  ki_sched : sched_inv_on (fun pid => ~ handed_out k pid) (SCHEDULER k);
  ki_pid : 1 <= NEXT_PID (COUNTERS k);
  ki_channels : registry_inv (CHANNEL_REGISTRY k);
  ki_handles : handle_inv (HANDLE_STATE k);
  ki_ranges : Forall (fun h => syscall_range (range h)) (handles (HANDLE_STATE k))
}.

Section KernelInv.
Context `{X86AddrLaws} {Fut : Type}.
Implicit Types (k : Kernel Fut).

Lemma with_sched_inv s k :
  kernel_inv k -> sched_inv_on (fun pid => ~ handed_out k pid) s -> kernel_inv (with_sched s k).
Proof. by intros [] ?; constructor. Qed.
Lemma with_machine_inv c k : kernel_inv k -> kernel_inv (with_machine c k).
Proof. by intros []; constructor. Qed.
Lemma with_memory_inv c k : kernel_inv k -> kernel_inv (with_memory c k).
Proof. by intros []; constructor. Qed.
Lemma with_console_inv c k : kernel_inv k -> kernel_inv (with_console c k).
Proof. by intros []; constructor. Qed.
Lemma with_channels_inv r k : kernel_inv k -> registry_inv r -> kernel_inv (with_channels r k).
Proof. by intros [] ?; constructor. Qed.

Lemma with_handles_inv pid s k :
  kernel_inv k -> table_change pid (HANDLE_STATE k) s ->
  Forall (fun h => syscall_range (range h)) (handles s) -> kernel_inv (with_handles s k).
Proof. intros [H1 H2 H3 H4 H5] Hc Hr. constructor; try done. by eapply table_change_inv. Qed.

(** Replacing a handle by one it may evolve to keeps the ranges. *)
Lemma put_ranges pid id h h' s :
  Forall (fun h => syscall_range (range h)) (handles s) ->
  HandleRegistry_get_handle id s = Some h -> evolves pid h h' ->
  Forall (fun h => syscall_range (range h)) (handles (put_handle id h' s)).
Proof.
  intros HF Hg Hev. apply Forall_update_first; [|done]. intros x _ _.
  rewrite (ev_range _ _ _ Hev). rewrite Forall_forall in HF. apply HF. by eapply tbl_get_elem.
Qed.

(** Fork registers the next PID, whether or not a process has it. *)
Lemma fork_inv k v k' : kernel_inv k -> do_fork k = Ret (v, k') -> kernel_inv k'.
Proof.
  intros Hk E. unfold do_fork in E.
  destruct (processes (SCHEDULER k)) as [|p ps]; [by simplify_eq|].
  destruct (negb _); [by simplify_eq|]. destruct (negb _); [by simplify_eq|].
  destruct (_ <=? _); [by simplify_eq|]. unfold allocate_pid, add_u64 in E.
  destruct (_ <? 2 ^ 64); [|done]. rewrite !bind_ret in E.
  destruct Hk as [H1 H2 H3 H4 H5].
  destruct (register_child_on (SCHEDULER k) (get_current_process_id k) (NEXT_PID (COUNTERS k)) H1)
    as (r & s & Er & Hs & _).
  change (SCHEDULER (with_counters _ k)) with (SCHEDULER k) in E. rewrite Er, bind_ret in E.
  destruct r; simplify_eq; (constructor; cbn; [|lia|done..]);
    (eapply sched_inv_weaken; [|exact Hs]); unfold handed_out; cbn; lia.
Qed.

Lemma fork_panic k :
  kernel_inv k -> do_fork k = Panic -> U64_MAX <= NEXT_PID (COUNTERS k).
Proof.
  intros Hk E. unfold do_fork in E.
  destruct (processes (SCHEDULER k)) as [|p ps]; [done|].
  destruct (negb _); [done|]. destruct (negb _); [done|].
  destruct (_ <=? _); [done|]. unfold allocate_pid, add_u64 in E.
  destruct (Z.ltb_spec (NEXT_PID (COUNTERS k) + 1) (2 ^ 64)); [|unfold U64_MAX; lia].
  rewrite !bind_ret in E.
  destruct (register_child_on (SCHEDULER k) (get_current_process_id k) (NEXT_PID (COUNTERS k))
    (ki_sched _ Hk)) as (r & s & Er & _).
  change (SCHEDULER (with_counters _ k)) with (SCHEDULER k) in E. rewrite Er, bind_ret in E.
  by destruct r.
Qed.

Lemma rotate_block_inv {D} (s : Scheduler Fut) p rest st :
  sched_inv_on D s -> processes s = p :: rest -> st <> Running ->
  sched_inv_on D (set_processes (rest ++ [set_state st p]) s).
Proof.
  intros [Hn Hs Hp Hr He Ht Ho] Hps Hst. rewrite Hps in *. unfold running_at_front in Hr.
  apply Forall_cons in Hp as [Hp1 Hp2], He as [He1 He2], Ht as [Ht1 Ht2], Ho as [Ho1 Ho2]. simpl in Hr.
  split; simpl; try done; try (apply Forall_app; split; [done|]; by apply Forall_singleton).
  - unfold pids, keys in *. rewrite Hps in Hn. simpl. rewrite fmap_app. csimpl in *.
    apply NoDup_cons in Hn as [Hn1 Hn2]. apply NoDup_app.
    split_and!; [done| |apply NoDup_singleton]. by intros x Hx ->%list_elem_of_singleton.
  - apply Forall_app; split; [done|]. apply Forall_singleton. by apply set_state_inv.
  - unfold running_at_front. apply Forall_tail, Forall_app. split; [done|].
    by apply Forall_singleton.
Qed.

Lemma wait4_inv a k v k' : kernel_inv k -> do_wait4 a k = Ret (v, k') -> kernel_inv k'.
Proof.
  intros Hk E. unfold do_wait4 in E.
  destruct (_ && _); [by simplify_eq|]. destruct (_ && _); [by simplify_eq|].
  destruct (negb (arg3 a =? 0)); [by simplify_eq|]. cbv zeta in E.
  destruct (negb _) in E.
  - set (tc := if arg1 a =? MINUS_ONE then _ else _) in E.
    pose proof (reap_zombie_child_inv (SCHEDULER k) (get_current_process_id k) tc (ki_sched _ Hk)).
    destruct (reap_zombie_child _ _ _) as [[code|e] s];
      [|simplify_eq; by apply with_sched_inv].
    destruct (negb (arg2 a =? 0)); inv_ret; simplify_eq;
      [apply with_memory_inv|]; by apply with_sched_inv.
  - unfold wait4_block in E. destruct (processes (SCHEDULER k)) as [|p rest] eqn:Hps;
      [by simplify_eq|]. destruct (negb _); [by simplify_eq|].
    pose proof (rotate_block_inv (SCHEDULER k) p rest (Waiting (WaitReason_Child (arg1 a)))
      (ki_sched _ Hk) Hps) as Hs.
    destruct (rest ++ _); simplify_eq; [|apply with_machine_inv]; apply with_sched_inv; auto.
Qed.

Lemma yield_inv k v k' : kernel_inv k -> do_sched_yield k = Ret (v, k') -> kernel_inv k'.
Proof.
  intros Hk E. unfold do_sched_yield in E.
  destruct (processes (SCHEDULER k)) as [|p rest] eqn:Hps; [by simplify_eq|].
  destruct (Z.eqb_spec (p_id p) (get_current_process_id k)) as [Hid|]; simplify_eq; [|done].
  apply with_sched_inv; [done|].
  assert (Eu : set_processes (set_state Ready p :: rest) (SCHEDULER k) =
               update_process (p_id p) (set_state Ready) (SCHEDULER k)).
  { unfold update_process, tbl_upd. rewrite Hps. simpl. unfold has_key. by rewrite Z.eqb_refl. }
  rewrite Eu. apply update_process_inv; [apply Hk|]. intros q _. by apply benign_set_state.
Qed.

Lemma exit_inv a k v k' : kernel_inv k -> do_exit a k = Ret (v, k') -> kernel_inv k'.
Proof.
  intros Hk E. unfold do_exit in E. destruct (_ || _); [by simplify_eq|].
  pose proof (handle_process_exit_inv (SCHEDULER k) (get_current_process_id k) (as_i32 (arg1 a))
    (ki_sched _ Hk)) as Hs.
  destruct (handle_process_exit _ _ _) as [[u|e] s]; simplify_eq; [apply with_machine_inv|];
    by apply with_sched_inv.
Qed.

Lemma syscall_user_range r : syscall_range r -> user_range r.
Proof. unfold syscall_range, user_range, USER_START, USER_END, LOW_HALF. lia. Qed.

Lemma create_channel_inv a k v k' :
  kernel_inv k -> do_create_channel a k = Ret (v, k') -> kernel_inv k'.
Proof.
  intros Hk E. unfold do_create_channel in E. destruct (_ || _); [by simplify_eq|]. inv_ret.
  destruct x as [res r].
  assert (Hr : registry_inv r).
  { pose proof (chan_exec_inv (get_current_process_id k) (OpCreate (arg1 a)) (CHANNEL_REGISTRY k)) as Hi.
    unfold chan_exec in Hi. match goal with H : sys_create_channel _ _ _ = _ |- _ => rewrite H in Hi end.
    cbn in Hi. eapply Hi; [apply Hk|reflexivity]. }
  destruct res; simplify_eq; by apply with_channels_inv.
Qed.

Lemma create_channel_panic a k :
  do_create_channel a k = Panic -> U64_MAX <= next_id (CHANNEL_REGISTRY k).
Proof.
  unfold do_create_channel, sys_create_channel, ChannelRegistry_create_channel, add_u64. intros E.
  destruct (_ || _); [done|]. destruct (_ =? _); [done|].
  destruct (Z.ltb_spec (next_id (CHANNEL_REGISTRY k) + 1) (2 ^ 64)); [done|unfold U64_MAX; lia].
Qed.

Lemma send_inv a k v k' : kernel_inv k -> do_send_message a k = Ret (v, k') -> kernel_inv k'.
Proof.
  intros Hk E. unfold do_send_message in E.
  destruct (_ || _); [by simplify_eq|]. destruct (256 <? _); [by simplify_eq|].
  destruct (_ && _); [by simplify_eq|]. inv_ret.
  pose proof (chan_exec_inv (get_current_process_id k) (OpSend (arg1 a) (as_u32 (arg2 a)) x)
    (CHANNEL_REGISTRY k) _ _ (ki_channels _ Hk) eq_refl) as Hi.
  destruct (sys_send_message _ _ _ _ _) as [[|] r]; simplify_eq; by apply with_channels_inv.
Qed.

Lemma receive_inv a k v k' : kernel_inv k -> do_receive_message a k = Ret (v, k') -> kernel_inv k'.
Proof.
  intros Hk E. unfold do_receive_message in E.
  destruct (_ || _); [by simplify_eq|]. destruct (256 <? _); [by simplify_eq|].
  destruct (_ && _); [by simplify_eq|].
  pose proof (chan_exec_inv (get_current_process_id k) (OpReceive (arg1 a))
    (CHANNEL_REGISTRY k) _ _ (ki_channels _ Hk) eq_refl) as Hi.
  destruct (sys_receive_message _ _ _) as [[[m|]|] r]; inv_ret; simplify_eq;
    [apply with_memory_inv|..]; by apply with_channels_inv.
Qed.

Lemma create_handle_inv a k v k' :
  args_u64 a -> kernel_inv k -> NEXT_HANDLE_ID (HANDLE_STATE k) < U64_MAX ->
  do_create_memory_handle a k = Ret (v, k') -> kernel_inv k'.
Proof.
  intros (A1 & A2 & _) Hk Hc E. unfold do_create_memory_handle in E. inv_ret.
  destruct (parse_rights _) as [ri|]; [|by simplify_eq].
  destruct (parse_mode _) as [m|]; [|by simplify_eq].
  destruct (is_ok _) eqn:Hv; simpl in E; [|by simplify_eq].
  apply validate_ok in Hv; [|done..].
  pose proof (handle_step_change _ _ _ (proj1 (hi_next _ (ki_handles _ Hk)))
    (hs_create (get_current_process_id k) x (arg2 a) ri m (HANDLE_STATE k) Hc)) as Hs.
  assert (HF : Forall (fun h => syscall_range (range h))
    (handles (sys_create_memory_handle (get_current_process_id k) x (arg2 a) ri m
                (HANDLE_STATE k)).2)).
  { unfold sys_create_memory_handle, HandleRegistry_create_handle.
    destruct (PageRange_is_valid _); simpl; [|apply Hk]. apply Forall_app. split; [apply Hk|].
    apply Forall_singleton. simpl. rewrite VirtAddr_new_low in H1
      by (unfold is_u64, USER_START, USER_END, LOW_HALF in *; lia). simplify_eq.
    unfold syscall_range, is_u64 in *. simpl. lia. }
  destruct (sys_create_memory_handle _ _ _ _ _ _) as [[|] s]; simplify_eq;
    by eapply with_handles_inv.
Qed.

Lemma transfer_total a k :
  kernel_inv k -> exists v k', do_transfer_memory a k = Ret (v, k') /\ kernel_inv k'.
Proof.
  intros Hk. unfold do_transfer_memory. destruct (_ =? 0); [eauto|].
  destruct (_ || _); [eauto|].
  assert (Hr : exists r s, sys_transfer_memory (get_current_process_id k) (arg1 a) (arg2 a)
      (HANDLE_STATE k) = Ret (r, s) /\ Forall (fun h => syscall_range (range h)) (handles s)).
  { unfold sys_transfer_memory. pose proof (ki_ranges _ Hk) as HR.
    destruct (_ =? _); [eauto|]. destruct (HandleRegistry_get_handle _ _) as [h|] eqn:Hg; [|eauto].
    destruct (negb _); [eauto|]. destruct (MemoryHandle_validate h) eqn:Hv; simpl; [|eauto].
    unfold MemoryHandle_validate in Hv. bool_to_prop.
    assert (Hh : h ∈ handles (HANDLE_STATE k)) by by eapply tbl_get_elem.
    destruct (user_range_pages (range h)) as (Hp & _ & l & Hl).
    - apply syscall_user_range. rewrite Forall_forall in HR. auto.
    - done.
    - rewrite Hp, Hl, bind_ret. eexists _, _. split; [reflexivity|].
      apply Forall_update_first; [|done]. intros y _ _. rewrite Forall_forall in HR.
      apply (HR h Hh). }
  destruct Hr as (r & s & E & HF). rewrite E, bind_ret.
  pose proof (handle_step_change _ _ _ (proj1 (hi_next _ (ki_handles _ Hk)))
    (hs_transfer _ _ _ _ _ _ E)) as Hs.
  destruct r; eexists _, _; (split; [reflexivity|]); by eapply with_handles_inv.
Qed.

Lemma receive_handle_total a k :
  kernel_inv k -> exists v k', do_receive_memory_handle a k = Ret (v, k') /\ kernel_inv k'.
Proof.
  intros Hk. unfold do_receive_memory_handle. destruct (_ =? 0); [eauto|].
  assert (Hr : exists r s, sys_receive_memory_handle (get_current_process_id k) (arg1 a)
      (HANDLE_STATE k) = Ret (r, s) /\ Forall (fun h => syscall_range (range h)) (handles s) /\
      match r with Ok rg => syscall_range rg | Err _ => True end).
  { unfold sys_receive_memory_handle. pose proof (ki_ranges _ Hk) as HR.
    destruct (HandleRegistry_get_handle _ _) as [h|] eqn:Hg; [|eauto].
    destruct (negb _); [eauto|]. destruct (MemoryHandle_validate h) eqn:Hv; simpl; [|eauto].
    unfold MemoryHandle_validate in Hv. bool_to_prop.
    assert (Hh : syscall_range (range h)).
    { rewrite Forall_forall in HR. apply HR. by eapply tbl_get_elem. }
    destruct (user_range_pages (range h)) as (Hp & [l Hl] & _);
      [by apply syscall_user_range|done|].
    rewrite Hp, Hl, bind_ret. eexists _, _. split; [reflexivity|]. split; [|done].
    by apply Forall_update_first. }
  destruct Hr as (r & s & E & HF & Hrg). rewrite E, bind_ret.
  pose proof (handle_step_change _ _ _ (proj1 (hi_next _ (ki_handles _ Hk)))
    (hs_receive _ _ _ _ _ E)) as Hs.
  destruct r as [rg|e].
  - rewrite VirtAddr_add_low by (unfold syscall_range, USER_START, USER_END, LOW_HALF in *; lia).
    rewrite bind_ret. eexists _, _. split; [reflexivity|]. by eapply with_handles_inv.
  - eexists _, _. split; [reflexivity|]. by eapply with_handles_inv.
Qed.

Lemma syscall_keeps_inv (a : SyscallArgs) k k' v :
  args_u64 a -> kernel_inv k ->
  (syscall_number a = 5 -> NEXT_HANDLE_ID (HANDLE_STATE k) < U64_MAX) ->
  syscall_dispatch a k = Ret (v, k') -> kernel_inv k'.
Proof.
  intros Ha Hk Hc E. unfold syscall_dispatch in E.
  repeat match type of E with (if ?b then _ else _) = _ => destruct b eqn:? end; bool_to_prop.
  - unfold do_getpid in E. by simplify_eq.
  - by eapply fork_inv.
  - by eapply wait4_inv.
  - by eapply yield_inv.
  - by eapply exit_inv.
  - unfold do_write in E. repeat case_match; simplify_eq; try done.
    inv_ret. repeat case_match; simplify_eq; [by apply with_console_inv|done].
  - by eapply create_channel_inv.
  - by eapply send_inv.
  - by eapply receive_inv.
  - eapply create_handle_inv; eauto.
  - destruct (transfer_total a k Hk) as (v2 & k2 & E2 & H2). congruence.
  - destruct (receive_handle_total a k Hk) as (v2 & k2 & E2 & H2). congruence.
  - by simplify_eq.
Qed.
End KernelInv.

(** C1: every system call that returns keeps the kernel invariant.  The
    channel and handle registries stay well formed and every handle covers at
    most a page of user memory.  In the process table PIDs stay unique, at most
    the front process is running, every control block is well formed and every
    process has an entry in the process tree; tree and orphan list agree with
    the parent links of every process whose PID fork has not handed out.  The
    only condition is on the creation of a handle: the counter of handle
    identifiers, which wraps around, is not at its last value. *)
Theorem syscall_preserves_inv `{X86AddrLaws} {Fut} (a : SyscallArgs) (k k' : Kernel Fut) (v : Z) :
  args_u64 a -> kernel_inv k ->
  (syscall_number a = 5 -> NEXT_HANDLE_ID (HANDLE_STATE k) < U64_MAX) ->
  syscall_dispatch a k = Ret (v, k') -> kernel_inv k'.
Proof. apply syscall_keeps_inv. Qed.

Lemma demo_kernel_inv : kernel_inv demo_kernel.
Proof.
  constructor; [|simpl; lia|exact demo_registry_inv|exact handle_inv_init|apply Forall_nil_2].
  eapply sched_inv_weaken; [|exact demo_family_inv]. done.
Qed.

(** The next PID of [demo_kernel] is 1, which its first process has: the fork
    collides, and the invariant still holds. *)
Lemma syscall_preserves_inv_witness :
  exists v k', syscall_dispatch (mkSyscallArgs 57 0 0 0 0 0 0) demo_kernel = Ret (v, k') /\
    v = 1 /\ bt_get 1 (process_tree (SCHEDULER k')) = Some 1 /\ kernel_inv k'.
Proof.
  eexists _, _. split; [reflexivity|]. split; [reflexivity|]. split; [reflexivity|].
  eapply (syscall_preserves_inv (mkSyscallArgs 57 0 0 0 0 0 0) demo_kernel).
  - unfold args_u64, is_u64. simpl. lia.
  - exact demo_kernel_inv.
  - discriminate.
  - vm_compute. reflexivity.
Defined.


(* ------------------------------------------------------------------ *)
(** ** Panics *)

Section Panics.
Context `{X86AddrLaws} {Fut : Type}.
Implicit Types (k : Kernel Fut).

Lemma send_panic a k : do_send_message a k = Panic -> arg3 a = 0.
Proof.
  unfold do_send_message, slice_from_raw_parts. intros E.
  destruct (_ || _); [done|]. destruct (256 <? _); [done|]. destruct (_ && _); [done|].
  destruct (Z.eqb_spec (arg3 a) 0); [done|]. rewrite bind_ret in E.
  by destruct (sys_send_message _ _ _ _ _) as [[|] r].
Qed.

Lemma receive_panic a k : do_receive_message a k = Panic -> arg2 a = 0.
Proof.
  unfold do_receive_message, copy_to_raw. intros E.
  destruct (_ || _); [done|]. destruct (256 <? _); [done|]. destruct (_ && _); [done|].
  destruct (sys_receive_message _ _ _) as [[[m|]|] r]; [|done..].
  destruct (Z.eqb_spec (arg2 a) 0); [done|]. done.
Qed.

Lemma wait4_panic a k : do_wait4 a k = Panic -> arg2 a mod 4 <> 0.
Proof.
  unfold do_wait4. intros E. destruct (_ && _); [done|]. destruct (_ && _); [done|].
  destruct (negb (arg3 a =? 0)); [done|]. cbv zeta in E. destruct (negb _) in E.
  - destruct (reap_zombie_child _ _ _) as [[code|e] s]; [|done].
    destruct (Z.eqb_spec (arg2 a) 0) as [|Hne]; simpl in E; [done|].
    unfold store_i32, deref in E. rewrite (proj2 (Z.eqb_neq _ _) Hne) in E. simpl in E.
    by destruct (Z.eqb_spec (arg2 a mod 4) 0).
  - unfold wait4_block in E. by repeat case_match.
Qed.

Lemma create_handle_panic a k :
  do_create_memory_handle a k = Panic -> VirtAddr_new (arg1 a) = Panic.
Proof.
  unfold do_create_memory_handle. intros E. destruct (VirtAddr_new _) as [x|]; [|done].
  rewrite bind_ret in E. destruct (parse_rights _); [|done]. destruct (parse_mode _); [|done].
  destruct (negb _); [done|]. by destruct (sys_create_memory_handle _ _ _ _ _ _) as [[|] r].
Qed.

Lemma write_no_panic a k : args_u64 a -> do_write a k <> Panic.
Proof.
  intros (_ & A2 & A3 & _) E. unfold do_write in E. destruct (2 <? _); [done|].
  destruct (4096 <? _); [done|]. destruct (is_ok _) eqn:Hv; simpl in E; [|done].
  apply validate_ok in Hv; [|done..]. destruct (_ =? 1); [|done].
  unfold slice_from_raw_parts in E. unfold USER_START in Hv.
  rewrite (proj2 (Z.eqb_neq (arg2 a) 0)) in E by lia. rewrite bind_ret in E. by case_match.
Qed.
End Panics.

(** C3: the only ways a system call can panic the kernel: the heap cannot
    serve a call that asks it for memory; the counter of PIDs or of channels is
    at its last value in a fork or in the creation of a channel; a send or a
    receive has a null buffer; a memory handle is at a non-canonical address;
    the status pointer of a [wait4] is not 4-byte aligned.  Every other call
    returns. *)
Theorem syscall_panics_only `{X86AddrLaws} {Fut} (heap_left : bool) (a : SyscallArgs) (k : Kernel Fut) :
  args_u64 a -> kernel_inv k -> syscall_on_heap heap_left a k = Panic ->
  (heap_left = false /\ requests_memory a k = true) \/
  (syscall_number a = 57 /\ U64_MAX <= NEXT_PID (COUNTERS k)) \/
  (syscall_number a = 2 /\ U64_MAX <= next_id (CHANNEL_REGISTRY k)) \/
  (syscall_number a = 3 /\ arg3 a = 0) \/
  (syscall_number a = 4 /\ arg2 a = 0) \/
  (syscall_number a = 5 /\ VirtAddr_new (arg1 a) = Panic) \/
  (syscall_number a = 61 /\ arg2 a mod 4 <> 0).
Proof.
  intros Ha Hk E. unfold syscall_on_heap in E.
  destruct (requests_memory a k && negb heap_left) eqn:Hm;
    [left; destruct heap_left; bool_to_prop; by split|right; clear Hm].
  unfold syscall_dispatch in E.
  repeat match type of E with
  | (if ?b then _ else _) = _ => destruct b eqn:?; bool_to_prop
  end; try done.
  - left. split; [done|]. by apply fork_panic.
  - do 5 right. split; [done|]. by eapply wait4_panic.
  - unfold do_sched_yield in E. by repeat case_match.
  - unfold do_exit in E. by repeat case_match.
  - by apply write_no_panic in E.
  - right; left. split; [done|]. by eapply create_channel_panic.
  - do 2 right; left. split; [done|]. by eapply send_panic.
  - do 3 right; left. split; [done|]. by eapply receive_panic.
  - do 4 right; left. split; [done|]. by eapply create_handle_panic.
  - destruct (transfer_total a k Hk) as (v2 & k2 & E2 & H2). congruence.
  - destruct (receive_handle_total a k Hk) as (v2 & k2 & E2 & H2). congruence.
Qed.

(** A fork with the heap exhausted, and a send with a null pointer. *)
Lemma syscall_panics_only_witness :
  requests_memory (mkSyscallArgs 57 0 0 0 0 0 0) demo_kernel = true /\
  syscall_on_heap true (mkSyscallArgs 3 1 0 0 0 0 0) demo_kernel = Panic.
Proof.
  split; [|reflexivity].
  destruct (syscall_panics_only false (mkSyscallArgs 57 0 0 0 0 0 0) demo_kernel)
    as [[_ H]|[[_ H]|[[H _]|[[H _]|[[H _]|[[H _]|[H _]]]]]]]; try discriminate H.
  - unfold args_u64, is_u64. simpl. lia.
  - exact demo_kernel_inv.
  - vm_compute. reflexivity.
  - exact H.
  - exfalso. apply H. vm_compute. reflexivity.
Defined.

(** User code can halt the kernel with one argument: a send with a null
    data pointer panics for every length and every channel number in range,
    because null pointers skip validation, and a memory handle at a
    non-canonical address panics because [VirtAddr::new] runs before the
    address is validated (src/src/syscall.rs, lines 534-542 and 608-636). *)
Theorem syscall_user_panics `{X86AddrLaws} {Fut} (a : SyscallArgs) (k : Kernel Fut) :
  (syscall_number a = 3 -> arg3 a = 0 -> 1 <= arg1 a <= 1000 -> arg4 a <= 256 ->
     syscall_dispatch a k = Panic) /\
  (syscall_number a = 5 -> 2 ^ 48 <= arg1 a < HIGH_HALF -> syscall_dispatch a k = Panic).
Proof.
  unfold syscall_dispatch. split.
  - intros -> H3 H1 H4. simpl. unfold do_send_message.
    rewrite (proj2 (Z.eqb_neq (arg1 a) 0)), (proj2 (Z.ltb_ge 1000 (arg1 a))),
      (proj2 (Z.ltb_ge 256 (arg4 a))) by lia. rewrite H3. done.
  - intros -> Hr. simpl. unfold do_create_memory_handle. by rewrite VirtAddr_new_noncanonical.
Qed.

Lemma syscall_user_panics_witness :
  syscall_dispatch (mkSyscallArgs 3 1 0 0 0 0 0) demo_kernel = Panic /\
  syscall_dispatch (mkSyscallArgs 5 0x1000000000000 4096 0 0 0 0) demo_kernel = Panic.
Proof.
  split.
  - destruct (syscall_user_panics (mkSyscallArgs 3 1 0 0 0 0 0) demo_kernel) as [H _].
    apply H; simpl; lia.
  - destruct (syscall_user_panics (mkSyscallArgs 5 0x1000000000000 4096 0 0 0 0) demo_kernel)
      as [_ H].
    apply H; unfold HIGH_HALF; simpl; lia.
Defined.

(* ------------------------------------------------------------------ *)
(** ** Messages, end to end *)

Section EndToEnd.
Context `{X86Addr} {Fut : Type}.
Implicit Types (k : Kernel Fut).

(** Sending [len] bytes at [p] on channel [id], as process [a]. *)
Lemma send_message_ok k id type p len c :
  1 <= id <= 1000 -> 0 <= len <= 256 -> USER_START <= p -> p + len <= USER_END ->
  ChannelRegistry_get_channel id (CHANNEL_REGISTRY k) = Some c ->
  get_current_process_id k = endpoint1 c ->
  Z.of_nat (length (queue1_to_2 c)) < MAX_QUEUE_SIZE ->
  syscall_dispatch (mkSyscallArgs 3 id type p len 0 0) k =
    Ret (0, with_channels (put_channel id (set_queue1_to_2 (queue1_to_2 c ++
         [Message_new (endpoint1 c) (as_u32 type) (load_bytes (MEMORY k) p (Z.to_nat len))]) c)
         (CHANNEL_REGISTRY k)) k).
Proof.
  intros Hid Hl Hp1 Hp2 Hg Hpid Hq. unfold syscall_dispatch. cbn [syscall_number Z.eqb].
  unfold do_send_message. cbn [arg1 arg2 arg3 arg4].
  rewrite (proj2 (Z.eqb_neq id 0)), (proj2 (Z.ltb_ge 1000 id)), (proj2 (Z.ltb_ge 256 len)) by lia.
  rewrite validate_intro by lia. cbn [orb is_ok negb]. rewrite andb_false_r.
  unfold slice_from_raw_parts. unfold USER_START in Hp1.
  rewrite (proj2 (Z.eqb_neq p 0)), bind_ret by lia.
  unfold sys_send_message. rewrite Hg. unfold Channel_send. rewrite Hpid, Z.eqb_refl.
  by rewrite (proj2 (Z.leb_gt _ _)) by lia.
Qed.

Lemma receive_message_ok k id p sz c m q :
  1 <= id <= 1000 -> 0 <= sz <= 256 -> USER_START <= p -> p + sz <= USER_END ->
  ChannelRegistry_get_channel id (CHANNEL_REGISTRY k) = Some c ->
  get_current_process_id k = endpoint2 c -> endpoint1 c <> endpoint2 c ->
  queue1_to_2 c = m :: q -> 0 <= data_len m <= 256 ->
  syscall_dispatch (mkSyscallArgs 4 id p sz 0 0 0) k =
    Ret (Z.min (data_len m) sz,
         with_memory (store_bytes (MEMORY k) p
                        (take (Z.to_nat (Z.min (data_len m) sz)) (msg_data m)))
           (with_channels (put_channel id (set_queue1_to_2 q c) (CHANNEL_REGISTRY k)) k)).
Proof.
  intros Hid Hl Hp1 Hp2 Hg Hpid Hne Hq Hm. unfold syscall_dispatch. cbn [syscall_number Z.eqb].
  unfold do_receive_message. cbn [arg1 arg2 arg3 arg4].
  rewrite (proj2 (Z.eqb_neq id 0)), (proj2 (Z.ltb_ge 1000 id)), (proj2 (Z.ltb_ge 256 sz)) by lia.
  rewrite validate_intro by lia. cbn [orb is_ok negb]. rewrite andb_false_r.
  unfold sys_receive_message. rewrite Hg. unfold Channel_receive. rewrite Hpid.
  rewrite (proj2 (Z.eqb_neq (endpoint2 c) (endpoint1 c))), Z.eqb_refl, Hq by auto.
  cbn [head tail]. unfold copy_to_raw, USER_START in *.
  rewrite (proj2 (Z.eqb_neq p 0)) by lia. cbn [andb]. rewrite bind_ret.
  unfold ret_u64. rewrite as_i64_u64 by (unfold is_u64; lia). done.
Qed.
End EndToEnd.

(** C5: a message sent by a system call arrives by a system call.  When one
    endpoint of a channel sends [len] bytes of its memory and the channel's
    queue was empty, the next receive of the other endpoint, with a buffer of
    at least [len] bytes, returns [len] and leaves exactly those bytes in its
    buffer. *)
Theorem message_end_to_end `{X86Addr} {Fut} (k : Kernel Fut) (id type p len p' sz : Z) (c : Channel) :
  1 <= id <= 1000 -> 0 <= len <= sz -> sz <= 256 ->
  USER_START <= p -> p + len <= USER_END -> USER_START <= p' -> p' + sz <= USER_END ->
  ChannelRegistry_get_channel id (CHANNEL_REGISTRY k) = Some c ->
  get_current_process_id k = endpoint1 c -> endpoint1 c <> endpoint2 c -> queue1_to_2 c = [] ->
  exists k1 k2, syscall_dispatch (mkSyscallArgs 3 id type p len 0 0) k = Ret (0, k1) /\
    syscall_dispatch (mkSyscallArgs 4 id p' sz 0 0 0) (set_current_process_id (endpoint2 c) k1) =
      Ret (len, k2) /\
    load_bytes (MEMORY k2) p' (Z.to_nat len) = load_bytes (MEMORY k) p (Z.to_nat len).
Proof.
  intros Hid Hl Hsz P1 P2 P3 P4 Hg Hpid Hne Hq.
  rewrite (send_message_ok k id type p len c) by (try done; try lia; rewrite Hq; done).
  eexists _, _. split; [reflexivity|].
  set (bs := load_bytes (MEMORY k) p (Z.to_nat len)).
  assert (Hbs : length bs = Z.to_nat len) by apply length_load_bytes.
  set (msg := Message_new (endpoint1 c) (as_u32 type) bs).
  set (c1 := set_queue1_to_2 (queue1_to_2 c ++ [msg]) c).
  assert (Hlen : data_len msg = len).
  { unfold msg. simpl. rewrite Hbs. lia. }
  rewrite (receive_message_ok _ id p' sz c1 msg []);
    [|lia|lia|done|done|by apply (get_put id c)|done|done|by unfold c1; simpl; rewrite Hq
     |rewrite Hlen; lia].
  rewrite Hlen, Z.min_l by lia. split; [reflexivity|].
  assert (Ht : take (Z.to_nat len) (msg_data msg) = bs).
  { unfold msg. simpl. rewrite Hbs, Z.min_l by lia. rewrite Nat2Z.id.
    rewrite (take_ge bs) by lia. by rewrite take_app_le, take_ge by lia. }
  cbn [MEMORY with_memory]. fold bs. fold msg. rewrite Ht, <- Hbs.
  change (MEMORY (set_current_process_id _ (with_channels _ k))) with (MEMORY k).
  apply load_store_bytes.
Qed.

Lemma message_end_to_end_witness :
  exists k1 k2, syscall_dispatch (mkSyscallArgs 3 1 9 0x500000 16 0 0)
      (set_current_process_id 5 demo_kernel) = Ret (0, k1) /\
    syscall_dispatch (mkSyscallArgs 4 1 0x600000 256 0 0 0) (set_current_process_id 6 k1) =
      Ret (16, k2).
Proof.
  destruct (message_end_to_end (set_current_process_id 5 demo_kernel) 1 9 0x500000 16 0x600000 256
    (Channel_new 1 5 6)) as (k1 & k2 & H1 & H2 & _);
    [unfold USER_START, USER_END; lia..|reflexivity|reflexivity|simpl; lia|reflexivity|].
  exists k1, k2. split; [exact H1|exact H2].
Defined.
