(* ===== verification/Lifecycle.v ===== *)
(** * Lifecycle: processes through the system calls

    The first two processes ([init_tasks] of src/src/main.rs), and the system
    calls of the process life cycle: fork, exit, wait4, yield, write. *)

From stdpp Require Import base sets numbers relations sorting list.
From S2P Require Import Prelude Errors Mem BTree X86 Process Scheduler SchedulerProps Channels Handles Syscall SyscallProps.
Local Open Scope Z_scope.
Local Open Scope ruix_scope.

(** [main::init_tasks]; [stack1] and [stack2] are the addresses of the statics
    [STACK1] and [STACK2]. *)
Definition init_tasks `{X86Addr} {Fut F} `{FrameAllocator F} (stack1 stack2 : Z)
    (mapper : OffsetPageTable) (fa : F) (m : mem) (c : counters) (sched : Scheduler Fut)
    : outcome (Scheduler Fut * F * mem * counters) :=
  let! top1 := add_u64 stack1 4096 in
  let! r1 := Process_new 1 0x400000 top1 mapper fa m c in
  let '(proc1, fa, m, c) := r1 in
  let! top2 := add_u64 stack2 4096 in
  let! r2 := Process_new 2 0x500000 top2 mapper fa m c in
  let '(proc2, fa, m, c) := r2 in
  Ret (add_process proc2 (add_process proc1 sched), fa, m, c).

(* ------------------------------------------------------------------ *)
(** ** Fork *)

Section Fork.
Context {Fut : Type}.
Implicit Types (s : Scheduler Fut) (k : Kernel Fut).

Lemma register_child_ok s parent child p :
  find_process parent s = Some p -> process_inv p ->
  children_count (p_stats p) < max_processes (p_resource_limits p) ->
  exists p', register_child parent child s =
      Ret (Ok tt, remove_orphan child (update_process parent (fun _ => p')
             (set_tree (bt_insert child parent (process_tree s)) s))) /\
    p_id p' = parent /\ p_parent_id p' = p_parent_id p /\
    p_children p' = p_children p ++ [child].
Proof.
  intros Hp Hi Hlt. unfold register_child. rewrite find_process_set_tree, Hp.
  unfold Process_add_child. rewrite (proj2 (Z.leb_gt _ _)) by lia.
  assert (Hb : children_count (p_stats p) + 1 < 2 ^ 32).
  { destruct (pi_limits _ Hi) as (_ & _ & Hm & _). unfold is_u32 in Hm. lia. }
  unfold add_u32. cbn [p_stats set_children]. rewrite (proj2 (Z.ltb_lt _ _)) by done.
  rewrite !bind_ret. eexists. split; [reflexivity|]. split_and!; try done.
  exact (tbl_get_key p_id _ _ _ Hp).
Qed.

Lemma fork_ok k p rest :
  processes (SCHEDULER k) = p :: rest -> p_id p = get_current_process_id k ->
  process_inv p -> Process_check_resource_limits p = true ->
  children_count (p_stats p) < max_processes (p_resource_limits p) ->
  0 <= NEXT_PID (COUNTERS k) -> NEXT_PID (COUNTERS k) + 1 < 2 ^ 64 ->
  exists p' k', do_fork k = Ret (NEXT_PID (COUNTERS k), k') /\
    NEXT_PID (COUNTERS k') = NEXT_PID (COUNTERS k) + 1 /\
    SCHEDULER k' = remove_orphan (NEXT_PID (COUNTERS k)) (update_process (p_id p) (fun _ => p')
      (set_tree (bt_insert (NEXT_PID (COUNTERS k)) (p_id p) (process_tree (SCHEDULER k)))
         (SCHEDULER k))) /\
    p_id p' = p_id p /\ p_parent_id p' = p_parent_id p /\
    p_children p' = p_children p ++ [NEXT_PID (COUNTERS k)].
Proof.
  intros Hps Hid Hi Hl Hlt H0 Hn. unfold do_fork. rewrite Hps, Hid, Z.eqb_refl, Hl. cbn [negb].
  rewrite (proj2 (Z.leb_gt _ _)) by lia. unfold allocate_pid. rewrite add_u64_ret by done.
  rewrite !bind_ret. change (SCHEDULER (with_counters _ k)) with (SCHEDULER k).
  destruct (register_child_ok (SCHEDULER k) (get_current_process_id k) (NEXT_PID (COUNTERS k)) p)
    as (p' & E & E1 & E2 & E3); [| |done|].
  - unfold find_process, tbl_get. rewrite Hps. simpl. unfold has_key. by rewrite Hid, Z.eqb_refl.
  - done.
  - rewrite E, bind_ret. exists p'. eexists. split.
    { unfold ret_u64. rewrite as_i64_u64 by (unfold is_u64; lia). reflexivity. }
    split_and!; done.
Qed.
End Fork.

(** Fork returns the PID of a process that does not exist: it takes the
    next PID, records it as a child of the caller and in the process tree, but
    adds no process, so the table holds the same PIDs as before and the child
    is in none of its entries (src/src/syscall.rs, lines 278-316). *)
Theorem fork_creates_no_process {Fut} (k : Kernel Fut) (p : Process) (rest : list Process) :
  processes (SCHEDULER k) = p :: rest -> p_id p = get_current_process_id k ->
  kernel_inv k -> NEXT_PID (COUNTERS k) + 1 < 2 ^ 64 -> NEXT_PID (COUNTERS k) ∉ pids (SCHEDULER k) ->
  Process_check_resource_limits p = true ->
  children_count (p_stats p) < max_processes (p_resource_limits p) ->
  exists k' p', do_fork k = Ret (NEXT_PID (COUNTERS k), k') /\
    pids (SCHEDULER k') = pids (SCHEDULER k) /\
    find_process (NEXT_PID (COUNTERS k)) (SCHEDULER k') = None /\
    find_process (p_id p) (SCHEDULER k') = Some p' /\
    p_children p' = p_children p ++ [NEXT_PID (COUNTERS k)] /\
    bt_get (NEXT_PID (COUNTERS k)) (process_tree (SCHEDULER k')) = Some (p_id p).
Proof.
  intros Hps Hid Hk Hn Hc Hl Hlt. pose proof (ki_pid _ Hk) as H0.
  assert (Hpi : process_inv p).
  { pose proof (si_procs _ (ki_sched _ Hk)) as Hp. rewrite Hps in Hp. by apply Forall_cons in Hp as [? _]. }
  destruct (fork_ok k p rest Hps Hid Hpi Hl Hlt ltac:(lia) Hn)
    as (p' & k' & E & _ & Es & E1 & E2 & E3).
  set (s1 := set_tree _ _) in Es. set (s2 := update_process _ _ s1) in Es.
  assert (Ep : pids s2 = pids (SCHEDULER k)) by (unfold s2; by rewrite pids_update).
  assert (Hf : find_process (p_id p) s1 = Some p).
  { unfold s1, find_process, tbl_get. simpl. rewrite Hps. simpl. unfold has_key.
    by rewrite Z.eqb_refl. }
  exists k', p'. rewrite Es. split_and!; try done.
  - apply find_process_none. change (NEXT_PID (COUNTERS k) ∉ pids s2). by rewrite Ep.
  - etransitivity; [apply (find_update s1 (p_id p)); by intros|]. by rewrite Hf.
  - apply bt_get_insert.
Qed.

(** [demo_kernel] with PID 4 next. *)
Definition demo_fork_kernel : Kernel unit :=
  with_counters {| NEXT_PID := 4; NEXT_PGID := 1; NEXT_SID := 1; TIMESTAMP_COUNTER := 0 |} demo_kernel.

Lemma demo_fork_kernel_inv : kernel_inv demo_fork_kernel.
Proof.
  destruct demo_kernel_inv. constructor; try done.
  eapply sched_inv_weaken; [|exact demo_family_inv]. done.
Qed.

Lemma fork_creates_no_process_witness :
  exists k', do_fork demo_fork_kernel = Ret (4, k') /\ find_process 4 (SCHEDULER k') = None.
Proof.
  destruct (fork_creates_no_process demo_fork_kernel
    (demo_process 1 0 0x2000 0x6000 (Waiting (WaitReason_Child U64_MAX)))
    [demo_process 2 1 0x3000 0x7000 Ready; demo_process 3 2 0x4000 0x8000 Ready])
    as (k' & p' & H1 & _ & H2 & _).
  - reflexivity.
  - reflexivity.
  - exact demo_fork_kernel_inv.
  - reflexivity.
  - simpl. set_solver.
  - reflexivity.
  - reflexivity.
  - exists k'. split; [exact H1|exact H2].
Defined.

Lemma init_tasks_result `{X86Addr} {Fut F} `{FrameAllocator F} st1 st2 mapper (fa : F) m c
    (s : Scheduler Fut) s' fa' m' c' :
  init_tasks st1 st2 mapper fa m c s = Ret (s', fa', m', c') ->
  NEXT_PID c' = NEXT_PID c /\ exists p1 p2, s' = add_process p2 (add_process p1 s) /\
    p_id p1 = 1 /\ p_id p2 = 2 /\ p_state p1 = Ready /\ p_state p2 = Ready /\
    p_parent_id p1 = 0 /\ p_parent_id p2 = 0 /\ p_children p1 = [] /\
    p_stats p1 = ProcessStats_default /\
    p_resource_limits p1 = ResourceLimits_default /\ process_inv p1 /\ process_inv p2.
Proof.
  unfold init_tasks. intros E. inv_ret. destruct x0 as [[[p1 fa1] m1] c1]. inv_ret.
  destruct x0 as [[[p2 fa2] m2] c2]. simplify_eq.
  repeat match goal with E : Process_new _ _ _ _ _ _ _ = _ |- _ =>
    apply Process_new_inv in E as (? & ? & ? & _ & _ & _ & ? & ?) end.
  assert (G : forall i ptr fr t, process_inv (mkProcess i ptr fr Ready 0 [] 0
    DEFAULT_PRIORITY ResourceLimits_default ProcessStats_default i i t)).
  { intros. constructor; simpl; unfold limits_typed, is_u64, is_u32, DEFAULT_PRIORITY; simpl; lia. }
  subst c' c1. split; [done|]. exists p1, p2.
  repeat match goal with E : ?p = mkProcess _ _ _ _ _ _ _ _ _ _ _ _ _ |- _ =>
    assert (process_inv p) by (rewrite E; apply G);
    assert (p_state p = Ready /\ p_parent_id p = 0 /\ p_children p = [] /\
            p_stats p = ProcessStats_default /\
            p_resource_limits p = ResourceLimits_default) as (? & ? & ? & ? & ?) by (by rewrite E);
    apply (f_equal p_id) in E
  end.
  split_and!; done.
Qed.

(** The table after boot is well formed. *)
Lemma init_tasks_sched_inv `{X86Addr} {Fut F} `{FrameAllocator F} st1 st2 mapper (fa : F) m c
    (s' : Scheduler Fut) fa' m' c' :
  init_tasks st1 st2 mapper fa m c SCHEDULER_init = Ret (s', fa', m', c') -> sched_inv s'.
Proof.
  intros E. apply init_tasks_result in E as (_ & p1 & p2 & -> & I1 & I2 & S1 & S2 & P1 & _ & _ & _ & _ & V1 & V2).
  repeat (apply add_process_inv); try done; try congruence; [apply sched_inv_init|..].
  - rewrite I1. apply not_elem_of_nil.
  - assert (Ep : pids (add_process p1 (@SCHEDULER_init Fut)) = [1]).
    { unfold pids, keys, add_process. rewrite P1, I1. simpl. by rewrite I1. }
    rewrite Ep, I2. by intros ?%list_elem_of_singleton.
Qed.

(** The first fork after boot collides with the boot processes.  They are
    created with the fixed PIDs 1 and 2 while the PID counter stays at 1, so
    the first fork, by process 1, is given PID 1: process 1 becomes its own
    child, and its own parent in the process tree
    (src/src/main.rs, lines 19-30; src/src/process/mod.rs, NEXT_PID). *)
Theorem first_fork_collides `{X86Addr} {Fut F} `{FrameAllocator F} (st1 st2 : Z)
    (mapper : OffsetPageTable) (fa fa' : F) (m m' : mem) (k : Kernel Fut) :
  init_tasks st1 st2 mapper fa m counters_init SCHEDULER_init =
    Ret (SCHEDULER k, fa', m', COUNTERS k) ->
  get_current_process_id k = 1 ->
  exists k' p', do_fork k = Ret (1, k') /\
    find_process 1 (SCHEDULER k') = Some p' /\ p_children p' = [1] /\
    bt_get 1 (process_tree (SCHEDULER k')) = Some 1.
Proof.
  intros E Hpid. apply init_tasks_result in E as (Hn & p1 & p2 & Es & I1 & I2 & S1 & S2 & P1 & P2 & C1 & T & L & V1 & V2).
  assert (Hps : processes (SCHEDULER k) = [p1; p2]).
  { rewrite Es. unfold add_process. by repeat case_match. }
  change (NEXT_PID counters_init) with 1 in Hn.
  destruct (fork_ok k p1 [p2] Hps) as (p' & k' & E1 & _ & E2 & E3 & E4 & E5);
    [congruence|done|by unfold Process_check_resource_limits; rewrite T, L|by rewrite T, L|lia|lia|].
  rewrite Hn, I1 in *. exists k', p'. rewrite E2. split_and!; try done.
  - etransitivity; [apply find_update; by intros|].
    unfold find_process, tbl_get. simpl. rewrite Hps. simpl. unfold has_key. by rewrite I1.
  - by rewrite E5, C1.
  - apply bt_get_insert.
Qed.

(** The boot with a pool of four free frames. *)
Definition demo_boot : outcome (Scheduler unit * list Z * mem * counters) :=
  init_tasks (H0 := frame_pool) 0x10000 0x20000
    {| phys_offset := 0x100000000; level_4_table := 0x100001000 |}
    [0x5000; 0x6000; 0x7000; 0x8000] zero_mem counters_init SCHEDULER_init.

Lemma demo_boot_returns : exists s fa m c, demo_boot = Ret (s, fa, m, c).
Proof. do 4 eexists. reflexivity. Qed.

Lemma first_fork_collides_witness :
  exists s fa m c, demo_boot = Ret (s, fa, m, c) /\
  exists k' p', do_fork (mkKernel s c (mkMachine (mkCpuData 0 0 1 0) 0) ChannelRegistry_new
                           handle_state_init m []) = Ret (1, k') /\
    find_process 1 (SCHEDULER k') = Some p' /\ p_children p' = [1].
Proof.
  destruct demo_boot_returns as (s & fa & m & c & E).
  exists s, fa, m, c. split; [exact E|].
  destruct (first_fork_collides (H0 := frame_pool) 0x10000 0x20000
    {| phys_offset := 0x100000000; level_4_table := 0x100001000 |}
    [0x5000; 0x6000; 0x7000; 0x8000] fa zero_mem m
    (mkKernel s c (mkMachine (mkCpuData 0 0 1 0) 0) ChannelRegistry_new handle_state_init m []))
    as (k' & p' & H1 & H2 & H3 & _); [exact E|reflexivity|].
  exists k', p'. split; [exact H1|]. split; [exact H2|exact H3].
Defined.

(* ------------------------------------------------------------------ *)
(** ** Exit and wait *)

Section ExitWait.
Context `{X86Addr} {Fut : Type}.
Implicit Types (s : Scheduler Fut) (k : Kernel Fut) (p q : Process).

Lemma exit_effect_zombie pid parent kk q :
  p_state (exit_effect pid parent kk q) = Zombie -> p_state q = Zombie.
Proof.
  unfold exit_effect.
  assert (Hrm : p_state (Process_remove_child pid q).2 = p_state q)
    by (by destruct (remove_child_fields pid q) as (_ & _ & -> & _)).
  destruct (negb _ && _); [|by destruct (_ =? _)].
  rewrite wake_waiter_state. destruct (waits_for _ _); [done|].
  destruct (p_parent_id q =? pid); simpl; by rewrite Hrm.
Qed.

Lemma exit_effect_keeps_parent pid parent kk q :
  p_parent_id (exit_effect pid parent kk q) = p_parent_id q \/
  p_parent_id (exit_effect pid parent kk q) = 0.
Proof.
  unfold exit_effect.
  assert (Hrm : p_parent_id (Process_remove_child pid q).2 = p_parent_id q)
    by (by destruct (remove_child_fields pid q) as (_ & -> & _)).
  destruct (negb _ && _); [|destruct (_ =? _); simpl; auto].
  rewrite (proj1 (proj2 (wake_waiter_fields _ _))). destruct (p_parent_id q =? pid); simpl; auto.
Qed.

(** After the exit of its child, a parent with no other zombie finds that
    child first. *)
Lemma zombie_after_exit s pid code p :
  sched_inv s -> find_process pid s = Some p -> p_parent_id p <> pid -> p_parent_id p <> 0 ->
  -255 <= code <= 255 -> find_zombie_children (p_parent_id p) s = [] ->
  exists s1 l, handle_process_exit pid code s = (Ok tt, s1) /\ sched_inv s1 /\
    find_process pid s1 = Some (set_exit_code code (set_state Zombie p)) /\
    find_zombie_children (p_parent_id p) s1 = pid :: l.
Proof.
  intros Hi Hp Hpar H0 Hc Hz.
  destruct (handle_process_exit_spec s pid code p Hi Hp Hpar Hc) as (s1 & E1 & Ep & Ez & Eo & _).
  assert (Hi1 : sched_inv s1).
  { pose proof (handle_process_exit_inv s pid code Hi) as G. by rewrite E1 in G. }
  set (z := set_exit_code code (set_state Zombie p)) in *.
  set (zq := fun q => (p_parent_id q =? p_parent_id p) && bool_decide (p_state q = Zombie)).
  assert (Hall : forall q, q ∈ List.filter zq (processes s1) -> p_id q = pid).
  { intros q [Hq Hzq]%elem_of_filterb. destruct (Z.eqb_spec (p_id q) pid) as [|Hne]; [done|].
    pose proof (find_has_zombie s1 q (si_nodup _ Hi1) Hq) as Hf. rewrite Eo in Hf by done.
    destruct (find_process (p_id q) s) as [q0|] eqn:Hq0; [|done]. injection Hf as Hf.
    unfold zq in Hzq. apply andb_true_iff in Hzq as [Hzp Hzs].
    apply Z.eqb_eq in Hzp. apply bool_decide_eq_true in Hzs. exfalso.
    destruct (exit_effect_keeps_parent pid (p_parent_id p) (p_id q) q0) as [Hpp|Hpp];
      rewrite Hf in Hpp; [|congruence].
    rewrite <- Hf in Hzs. apply exit_effect_zombie in Hzs.
    assert (Hin : p_id q0 ∈ find_zombie_children (p_parent_id p) s).
    { apply list_elem_of_fmap. exists q0. split; [done|]. apply elem_of_filterb.
      split; [by eapply tbl_get_elem|].
      by rewrite <- Hpp, Hzp, Z.eqb_refl, Hzs. }
    rewrite Hz in Hin. by apply not_elem_of_nil in Hin. }
  assert (Hin : z ∈ List.filter zq (processes s1)).
  { apply elem_of_filterb. split; [by eapply tbl_get_elem|]. unfold zq, z. simpl.
    by rewrite Z.eqb_refl. }
  exists s1. unfold find_zombie_children. fold zq.
  destruct (List.filter zq (processes s1)) as [|q l]; [by apply not_elem_of_nil in Hin|].
  exists (p_id <$> l). split_and!; try done. csimpl. f_equal. apply Hall. set_solver.
Qed.

Lemma wait4_reaps k child parent sp z l :
  sched_inv (SCHEDULER k) -> get_current_process_id k = parent ->
  find_zombie_children parent (SCHEDULER k) = child :: l ->
  find_process child (SCHEDULER k) = Some z -> 1 <= child < 2 ^ 64 ->
  USER_START <= sp -> sp + 4 <= USER_END -> sp mod 4 = 0 ->
  exists k', do_wait4 (mkSyscallArgs 61 MINUS_ONE sp 0 0 0 0) k = Ret (child, k') /\
    find_process child (SCHEDULER k') = None /\
    MEMORY k' = store32 (MEMORY k) sp (as_u32 (p_exit_code z)).
Proof.
  intros Hi Hpid Hz Hf Hc H1 H2 H3. unfold do_wait4. cbn [arg1 arg2 arg3].
  rewrite Z.eqb_refl. cbn [negb andb]. rewrite validate_intro by lia. cbn [is_ok negb].
  rewrite andb_false_r, Hpid, Hz. cbn [Z.eqb negb].
  rewrite (proj2 (Z.eqb_neq child 0)) by lia. cbn [negb].
  destruct (reap_zombie_spec (SCHEDULER k) parent child z (si_nodup _ Hi) Hf)
    as (s' & E & E1 & _).
  { assert (Hin : child ∈ find_zombie_children parent (SCHEDULER k)) by (rewrite Hz; set_solver).
    apply list_elem_of_fmap in Hin as (q & Hq & [Hql Hqz]%elem_of_filterb).
    pose proof (find_has_zombie _ q (si_nodup _ Hi) Hql) as Hfq. rewrite <- Hq in Hfq.
    assert (q = z) as -> by congruence. unfold reapable. rewrite <- Hq, Z.eqb_refl. done. }
  rewrite E. unfold USER_START in H1.
  rewrite (proj2 (Z.eqb_neq sp 0)) by lia. cbn [negb]. unfold store_i32.
  rewrite deref_ret, !bind_ret by (done || lia).
  unfold ret_u64. rewrite as_i64_u64 by (unfold is_u64; lia).
  eexists. split; [reflexivity|]. done.
Qed.
End ExitWait.

(** C7: exit and wait4 through the system calls.  When a process exits with
    code [code] and its parent, which had no zombie child, then calls wait4
    for any child with an aligned status pointer, the parent gets the PID of
    the child, the four bytes at the pointer hold the code as an [i32], and
    the child is gone from the process table. *)
Theorem exit_then_wait4 `{X86Addr} {Fut} (k : Kernel Fut) (p : Process) (code sp : Z) :
  sched_inv (SCHEDULER k) ->
  find_process (get_current_process_id k) (SCHEDULER k) = Some p ->
  p_parent_id p <> p_id p -> p_parent_id p <> 0 -> 1 <= p_id p < 2 ^ 64 ->
  find_zombie_children (p_parent_id p) (SCHEDULER k) = [] ->
  -255 <= code <= 255 -> USER_START <= sp -> sp + 4 <= USER_END -> sp mod 4 = 0 ->
  exists k1 k2, syscall_dispatch (mkSyscallArgs 0 (as_u64 code) 0 0 0 0 0) k = Ret (0, k1) /\
    syscall_dispatch (mkSyscallArgs 61 MINUS_ONE sp 0 0 0 0)
      (set_current_process_id (p_parent_id p) k1) = Ret (p_id p, k2) /\
    as_i32 (of_le (load_bytes (MEMORY k2) sp 4)) = code /\
    find_process (p_id p) (SCHEDULER k2) = None.
Proof.
  intros Hi Hf Hpar H0 Hpid Hz Hc S1 S2 S3.
  assert (Hid : get_current_process_id k = p_id p) by (symmetry; exact (tbl_get_key p_id _ _ _ Hf)).
  rewrite Hid in Hf.
  destruct (zombie_after_exit (SCHEDULER k) (p_id p) code p Hi Hf Hpar H0 Hc Hz)
    as (s1 & l & E1 & Hi1 & Hf1 & Hz1).
  assert (Hcode : as_i32 (as_u64 code) = code).
  { unfold as_i32, as_u64. rewrite <- Znumtheory.Zmod_div_mod; [|lia|lia|by exists (2 ^ 32)].
    destruct (Z.ltb_spec code 0).
    - rewrite <- (Z.mod_add code 1), Z.mod_small by lia.
      rewrite (proj2 (Z.ltb_ge _ _)) by lia. lia.
    - rewrite Z.mod_small by lia. by rewrite (proj2 (Z.ltb_lt _ _)) by lia. }
  assert (E : syscall_dispatch (mkSyscallArgs 0 (as_u64 code) 0 0 0 0 0) k =
              Ret (0, set_current_process_id 0 (with_sched s1 k))).
  { unfold syscall_dispatch. cbn [syscall_number Z.eqb]. unfold do_exit. cbn [arg1]. rewrite Hcode.
    rewrite (proj2 (Z.ltb_ge code _)), (proj2 (Z.ltb_ge _ code)) by lia. cbn [orb].
    by rewrite Hid, E1. }
  exists (set_current_process_id 0 (with_sched s1 k)).
  destruct (wait4_reaps (set_current_process_id (p_parent_id p)
      (set_current_process_id 0 (with_sched s1 k))) (p_id p) (p_parent_id p) sp
      (set_exit_code code (set_state Zombie p)) l) as (k2 & E2 & F2 & M2); try done.
  exists k2. split_and!; [done|exact E2| |done].
  rewrite M2. unfold store32. simpl p_exit_code.
  pose proof (load_store_bytes (MEMORY k) sp (le_bytes 4 (as_u32 code))) as L.
  rewrite length_le_bytes in L. etransitivity; [apply f_equal, f_equal, L|].
  rewrite of_le_bytes by (apply Z.mod_pos_bound; lia).
  unfold as_i32, as_u32. rewrite Z.mod_mod by lia.
  unfold as_i32, as_u64 in Hcode. rewrite <- Znumtheory.Zmod_div_mod in Hcode; [done|lia|lia|by exists (2 ^ 32)].
Qed.

Lemma exit_then_wait4_witness :
  exists k1 k2, syscall_dispatch (mkSyscallArgs 0 (as_u64 (-3)) 0 0 0 0 0)
      (set_current_process_id 2 demo_kernel) = Ret (0, k1) /\
    syscall_dispatch (mkSyscallArgs 61 MINUS_ONE 0x500000 0 0 0 0) (set_current_process_id 1 k1) =
      Ret (2, k2) /\ as_i32 (of_le (load_bytes (MEMORY k2) 0x500000 4)) = -3.
Proof.
  destruct (exit_then_wait4 (set_current_process_id 2 demo_kernel)
    (demo_process 2 1 0x3000 0x7000 Ready) (-3) 0x500000) as (k1 & k2 & H1 & H2 & H3 & _);
    [exact demo_family_inv|reflexivity|discriminate|discriminate|simpl; lia|reflexivity|lia
    |unfold USER_START; lia|unfold USER_END; lia|reflexivity|].
  exists k1, k2. split; [exact H1|]. split; [exact H2|exact H3].
Defined.

(** Wait4 refuses to wait for a specific child whose PID is below 1000:
    it returns -1 and changes nothing, even when the child is a zombie.  The
    PIDs the kernel hands out count up from 1, so the first 999 processes can
    be waited for only as "any child" (src/src/syscall.rs, lines 324-328). *)
Theorem wait4_refuses_low_pids `{X86Addr} {Fut} (k : Kernel Fut) (a : SyscallArgs) :
  syscall_number a = 61 -> 0 <= arg1 a < 1000 ->
  syscall_dispatch a k = Ret (MINUS_ONE, k).
Proof.
  intros Hn Ha. unfold syscall_dispatch. rewrite Hn. cbn [Z.eqb]. unfold do_wait4.
  rewrite (proj2 (Z.eqb_neq (arg1 a) MINUS_ONE)) by (rewrite MINUS_ONE_eq; lia).
  by rewrite (proj2 (Z.ltb_lt (arg1 a) 1000)) by lia.
Qed.

(** The kernel where process 2 has exited with code 7; process 1 runs. *)
Definition demo_zombie_kernel : Kernel unit :=
  set_current_process_id 1 (with_sched (handle_process_exit 2 7 demo_family).2 demo_kernel).

Lemma wait4_refuses_low_pids_witness :
  find_zombie_children 1 (SCHEDULER demo_zombie_kernel) = [2] /\
  syscall_dispatch (mkSyscallArgs 61 2 0 0 0 0 0) demo_zombie_kernel =
    Ret (MINUS_ONE, demo_zombie_kernel).
Proof.
  split; [reflexivity|]. apply wait4_refuses_low_pids; [reflexivity|simpl; lia].
Defined.

(** A wait4 with no zombie child blocks the caller: it is marked waiting
    and moved to the back of the table, the next process becomes the current
    one and its page table is loaded.  The value returned, which the entry
    code puts into RAX of the caller that just blocked, is the saved context
    pointer of that next process, and the entry code does not switch to it
    (src/src/syscall.rs, lines 380-407). *)
Theorem wait4_blocks `{X86Addr} {Fut} (k : Kernel Fut) (p next : Process) (rest : list Process) :
  processes (SCHEDULER k) = p :: next :: rest -> p_id p = get_current_process_id k ->
  find_zombie_children (p_id p) (SCHEDULER k) = [] ->
  exists k', syscall_dispatch (mkSyscallArgs 61 MINUS_ONE 0 0 0 0 0) k =
      Ret (p_context_ptr next, k') /\
    processes (SCHEDULER k') =
      next :: rest ++ [set_state (Waiting (WaitReason_Child U64_MAX)) p] /\
    get_current_process_id k' = p_id next /\ CR3 (MACHINE k') = p_page_table_frame next /\
    MEMORY k' = MEMORY k.
Proof.
  intros Hps Hid Hz. unfold syscall_dispatch. cbn [syscall_number Z.eqb]. unfold do_wait4.
  cbn [arg1 arg2 arg3]. rewrite Z.eqb_refl. cbn [negb andb Z.eqb]. rewrite <- Hid, Hz.
  cbn [Z.eqb negb]. unfold wait4_block. rewrite Hps, Z.eqb_refl. cbn [negb app].
  eexists. split; [reflexivity|]. split_and!; done.
Qed.

Lemma wait4_blocks_witness :
  exists k', syscall_dispatch (mkSyscallArgs 61 MINUS_ONE 0 0 0 0 0)
      (with_sched demo_sched demo_kernel) = Ret (0x3000, k') /\ get_current_process_id k' = 2.
Proof.
  destruct (wait4_blocks (with_sched demo_sched demo_kernel)
    (demo_process 1 0 0x2000 0x6000 Ready) (demo_process 2 1 0x3000 0x7000 Ready) [])
    as (k' & H1 & _ & H2 & _); [reflexivity..|].
  exists k'. split; [exact H1|exact H2].
Defined.

(* ------------------------------------------------------------------ *)
(** ** Write *)

(** [sys_write] to descriptor 1 prints exactly the bytes of a valid user
    buffer and returns their number when they are UTF-8, and returns -1 and
    prints nothing otherwise; to the descriptors 0 and 2 it always fails. *)
Theorem write_spec `{X86Addr} {Fut} (k : Kernel Fut) (fd buf count : Z) :
  USER_START <= buf -> 0 <= count <= 4096 -> buf + count <= USER_END -> 0 <= fd ->
  let bytes := load_bytes (MEMORY k) buf (Z.to_nat count) in
  syscall_dispatch (mkSyscallArgs 1 fd buf count 0 0 0) k =
    if (fd =? 1) && utf8_valid bytes
    then Ret (count, with_console (CONSOLE k ++ bytes) k)
    else Ret (MINUS_ONE, k).
Proof.
  intros H1 H2 H3 Hfd bytes. unfold syscall_dispatch. cbn [syscall_number Z.eqb].
  unfold do_write. cbn [arg1 arg2 arg3].
  rewrite (proj2 (Z.ltb_ge 4096 count)), validate_intro by lia. cbn [is_ok negb].
  destruct (Z.ltb_spec 2 fd); [by rewrite (proj2 (Z.eqb_neq fd 1)) by lia|].
  destruct (Z.eqb_spec fd 1); [|done]. unfold slice_from_raw_parts. unfold USER_START in H1.
  rewrite (proj2 (Z.eqb_neq buf 0)), bind_ret by lia. fold bytes. cbn [andb].
  destruct (utf8_valid bytes); [|done]. unfold ret_u64. by rewrite as_i64_u64 by (unfold is_u64; lia).
Qed.

Lemma write_spec_witness :
  exists k', syscall_dispatch (mkSyscallArgs 1 1 0x500000 2 0 0 0)
      (with_memory (store_bytes zero_mem 0x500000 [72; 105]) demo_kernel) = Ret (2, k') /\
    CONSOLE k' = [72; 105].
Proof.
  pose proof (write_spec (with_memory (store_bytes zero_mem 0x500000 [72; 105]) demo_kernel)
    1 0x500000 2) as H.
  eexists. split; [rewrite H; [reflexivity|unfold USER_START, USER_END; lia..]|].
  vm_compute. reflexivity.
Defined.
