(* ===== verification/Reach.v ===== *)
(** * Reach: the states the kernel can reach after boot

    One step is anything the kernel does to its statics once [init_tasks] has
    run: a system call with any number and arguments, a switch or a tick of the
    timer interrupt (these are all the places where [SCHEDULER],
    [CHANNEL_REGISTRY] and [HANDLE_REGISTRY] are locked for writing), a call of
    one of their methods that has no caller yet, or code writing memory.  The
    invariant of the kernel holds in every state reached. *)

From stdpp Require Import base sets numbers relations sorting list.
From S2P Require Import Prelude Errors Mem BTree X86 Process Scheduler SchedulerProps Timer.
From S2P Require Import Channels Handles Syscall SyscallProps Lifecycle.
Local Open Scope Z_scope.
Local Open Scope ruix_scope.

Section Steps.
Context `{X86Addr} {Fut : Type}.
Implicit Types (k : Kernel Fut) (t : timer_state).

Inductive kernel_step : Kernel Fut * timer_state -> Kernel Fut * timer_state -> Prop :=
| ks_syscall a v k k' t :
    args_u64 a -> syscall_dispatch a k = Ret (v, k') -> kernel_step (k, t) (k', t)
| ks_switch cur ports ptr s mc k t :
    handle_switch cur (SCHEDULER k) (MACHINE k) = Ret (ports, (ptr, s, mc)) ->
    kernel_step (k, t) (with_machine mc (with_sched s k), t)
| ks_timer y k t :
    timer_step (t, SCHEDULER k) y -> kernel_step (k, t) (with_sched y.2 k, y.1)
| ks_async task k t : kernel_step (k, t) (with_sched (add_async_task task (SCHEDULER k)) k, t)
| ks_exit pid code k t : kernel_step (k, t) (with_sched (handle_process_exit pid code (SCHEDULER k)).2 k, t)
| ks_reap parent child k t :
    kernel_step (k, t) (with_sched (reap_zombie_child parent child (SCHEDULER k)).2 k, t)
| ks_cleanup pid k t :
    kernel_step (k, t) (with_sched (cleanup_terminated_process pid (SCHEDULER k)).2 k, t)
| ks_cleanup_all r s k t :
    cleanup_all_zombies (SCHEDULER k) = Ret (r, s) -> kernel_step (k, t) (with_sched s k, t)
| ks_cleanup_channels pid k t :
    kernel_step (k, t)
      (with_channels (ChannelRegistry_cleanup_process_channels pid (CHANNEL_REGISTRY k)) k, t)
| ks_cleanup_handles pid h k t :
    HandleRegistry_cleanup_process_handles pid (HANDLE_STATE k) = Some h ->
    kernel_step (k, t) (with_handles h k, t)
| ks_revoke id r h k t :
    sys_revoke_memory_handle (get_current_process_id k) id (HANDLE_STATE k) = Ret (r, h) ->
    kernel_step (k, t) (with_handles h k, t)
| ks_memory m k t : kernel_step (k, t) (with_memory m k, t).
End Steps.

(* ------------------------------------------------------------------ *)
(** ** The counter of handle identifiers *)

Section Counter.
Context `{X86AddrLaws} {Fut : Type}.
Implicit Types (k : Kernel Fut).

(** The arms that do not work on handles leave them alone. *)
Lemma syscall_keeps_handles a k v k' :
  syscall_dispatch a k = Ret (v, k') -> ~ (5 <= syscall_number a <= 7) ->
  HANDLE_STATE k' = HANDLE_STATE k.
Proof.
  intros E Hn. unfold syscall_dispatch in E.
  repeat match type of E with (if ?b then _ else _) = _ => destruct b eqn:? end; bool_to_prop; try lia;
    unfold do_getpid, do_fork, do_wait4, wait4_block, do_sched_yield, do_exit, do_write, do_create_channel,
      do_send_message, do_receive_message in E; cbv zeta in E;
    repeat first [progress simplify_eq|progress inv_ret|case_match]; done.
Qed.

(** What the handle calls do to the counter. *)
Lemma handle_ops_next pid id target start sz ri m s r s' :
  1 <= NEXT_HANDLE_ID s ->
  NEXT_HANDLE_ID (sys_create_memory_handle pid start sz ri m s).2 <= NEXT_HANDLE_ID s + 1 /\
  (sys_revoke_memory_handle pid id s = Ret (r, s') \/ sys_transfer_memory pid id target s = Ret (r, s') ->
   NEXT_HANDLE_ID s' = NEXT_HANDLE_ID s).
Proof.
  intros Hx. split.
  - unfold sys_create_memory_handle, HandleRegistry_create_handle, HandleRegistry_allocate_handle_id.
    destruct (negb _); simpl; [lia|]. apply Z.mod_le; lia.
  - intros [E|E]; unfold sys_revoke_memory_handle, sys_transfer_memory in E;
      by repeat first [progress simplify_eq|progress inv_ret|case_match].
Qed.

Lemma receive_handle_next pid id s r s' :
  sys_receive_memory_handle pid id s = Ret (r, s') -> NEXT_HANDLE_ID s' = NEXT_HANDLE_ID s.
Proof.
  intros E. unfold sys_receive_memory_handle in E.
  by repeat first [progress simplify_eq|progress inv_ret|case_match].
Qed.

Lemma syscall_next_handle a k v k' :
  kernel_inv k -> syscall_dispatch a k = Ret (v, k') ->
  NEXT_HANDLE_ID (HANDLE_STATE k') <= NEXT_HANDLE_ID (HANDLE_STATE k) + 1.
Proof.
  intros Hk E. destruct (decide (5 <= syscall_number a <= 7)) as [Hn|Hn].
  2: { rewrite (syscall_keeps_handles a k v k' E Hn). lia. }
  pose proof (proj1 (hi_next _ (ki_handles _ Hk))) as Hx.
  assert (Hd : do_create_memory_handle a k = Ret (v, k') \/ do_transfer_memory a k = Ret (v, k') \/
               do_receive_memory_handle a k = Ret (v, k')).
  { unfold syscall_dispatch in E.
    repeat match type of E with (if ?b then _ else _) = _ => destruct b eqn:?; bool_to_prop; [auto; lia|] end. lia. }
  clear E. destruct Hd as [E|[E|E]].
  - unfold do_create_memory_handle in E. inv_ret.
    destruct (parse_rights _) as [ri|]; [|simplify_eq; lia].
    destruct (parse_mode _) as [m|]; [|simplify_eq; lia]. destruct (negb _); [simplify_eq; lia|].
    destruct (handle_ops_next (get_current_process_id k) 0 0 x (arg2 a) ri m (HANDLE_STATE k)
      (Ok tt) (HANDLE_STATE k) Hx) as [Hc _].
    destruct (sys_create_memory_handle _ _ _ _ _ _) as [[|] h]; simplify_eq; done.
  - unfold do_transfer_memory in E. destruct (_ =? 0); [simplify_eq; lia|].
    destruct (_ || _); [simplify_eq; lia|]. inv_ret. destruct x as [r h].
    assert (Hh : NEXT_HANDLE_ID h = NEXT_HANDLE_ID (HANDLE_STATE k)).
    { eapply (handle_ops_next _ _ _ 0 0 AccessRights_None TransferMode_Shared); eauto. }
    destruct r; simplify_eq; simpl; lia.
  - unfold do_receive_memory_handle in E. destruct (_ =? 0); [simplify_eq; lia|]. inv_ret.
    destruct x as [r h].
    match goal with E : sys_receive_memory_handle _ _ _ = _ |- _ => apply receive_handle_next in E end.
    destruct r; inv_ret; simplify_eq; simpl; lia.
Qed.
End Counter.

(* ------------------------------------------------------------------ *)
(** ** One step, and any number of steps from boot *)

Section Reachable.
Context `{X86AddrLaws} {Fut : Type}.
Implicit Types (k : Kernel Fut) (t : timer_state) (x y : Kernel Fut * timer_state).

Lemma timer_step_sched {D} (u w : timer_state * Scheduler Fut) :
  timer_step u w -> sched_inv_on D u.2 -> sched_inv_on D w.2.
Proof. destruct 1; simpl; try done. apply timer_tick_inv. Qed.

Lemma switch_inv {D} cur (s s' : Scheduler Fut) mc mc' ports ptr :
  handle_switch cur s mc = Ret (ports, (ptr, s', mc')) -> sched_inv_on D s -> sched_inv_on D s'.
Proof.
  intros E Hi. unfold handle_switch in E. inv_ret. simplify_eq.
  pose proof (schedule_inv cur s mc Hi) as Hs. destruct (schedule cur s mc) as [[p s1] m1]. by simplify_eq.
Qed.

Lemma cleanup_handles_kernel pid h k :
  kernel_inv k -> HandleRegistry_cleanup_process_handles pid (HANDLE_STATE k) = Some h ->
  kernel_inv (with_handles h k) /\ NEXT_HANDLE_ID h = NEXT_HANDLE_ID (HANDLE_STATE k).
Proof.
  intros Hk E. pose proof (hs_cleanup pid _ _ E) as Hs.
  apply handle_step_change in Hs; [|apply (hi_next _ (ki_handles _ Hk))].
  rewrite cleanup_handles_eq in E. simplify_eq. split; [|done].
  eapply with_handles_inv; [done|exact Hs|]. simpl. apply Forall_forall. intros y [Hy _]%elem_of_filterb.
  pose proof (ki_ranges _ Hk) as HR. rewrite Forall_forall in HR. auto.
Qed.

Lemma revoke_kernel id r h k :
  kernel_inv k -> sys_revoke_memory_handle (get_current_process_id k) id (HANDLE_STATE k) = Ret (r, h) ->
  kernel_inv (with_handles h k) /\ NEXT_HANDLE_ID h = NEXT_HANDLE_ID (HANDLE_STATE k).
Proof.
  intros Hk E. pose proof (proj1 (hi_next _ (ki_handles _ Hk))) as Hx.
  pose proof (handle_step_change _ _ _ Hx (hs_revoke _ _ _ _ _ E)) as Hs.
  split; [|by eapply (handle_ops_next _ _ 0 0 0 AccessRights_None TransferMode_Shared); eauto].
  eapply with_handles_inv; [done|exact Hs|]. pose proof (ki_ranges _ Hk) as HR.
  unfold sys_revoke_memory_handle in E.
  destruct (HandleRegistry_get_handle id _) as [g|] eqn:Hg; [|by simplify_eq].
  destruct (Z.eqb_spec (owner_pid g) (get_current_process_id k)) as [Ho|]; simpl in E; [|by simplify_eq].
  destruct (revoke_evolves _ g Ho) as [R1 R2].
  destruct (is_mapped g); [destruct (PageRange_page_count _)|]; inv_ret; simplify_eq;
    by eapply put_ranges.
Qed.

Lemma kernel_step_inv x y :
  kernel_step x y -> kernel_inv x.1 -> NEXT_HANDLE_ID (HANDLE_STATE x.1) < U64_MAX ->
  kernel_inv y.1 /\ NEXT_HANDLE_ID (HANDLE_STATE y.1) <= NEXT_HANDLE_ID (HANDLE_STATE x.1) + 1.
Proof.
  destruct 1 as [a v k k' t Ha E|cur ports ptr s mc k t E|y k t E|task k t|pid code k t|parent child k t
    |pid k t|r s k t E|pid k t|pid h k t E|id r h k t E|m k t]; simpl; intros Hk Hn;
    try (pose proof (ki_sched _ Hk) as Hi; split; [|simpl; lia]).
  - split; [by eapply syscall_keeps_inv|by eapply syscall_next_handle].
  - apply with_machine_inv, with_sched_inv; [done|]. by eapply switch_inv.
  - apply with_sched_inv; [done|]. exact (timer_step_sched _ _ E Hi).
  - apply with_sched_inv; [done|]. by apply add_async_task_inv.
  - apply with_sched_inv; [done|]. by apply handle_process_exit_inv.
  - apply with_sched_inv; [done|]. by apply reap_zombie_child_inv.
  - apply with_sched_inv; [done|]. by apply cleanup_terminated_process_inv.
  - apply with_sched_inv; [done|]. by eapply cleanup_all_zombies_inv.
  - apply with_channels_inv; [done|].
    eapply (chan_exec_inv 0 (OpCleanup pid)); [apply Hk|reflexivity].
  - destruct (cleanup_handles_kernel pid h k Hk E) as [H1 ->]. split; [done|lia].
  - destruct (revoke_kernel id r h k Hk E) as [H1 ->]. split; [done|lia].
  - by apply with_memory_inv.
Qed.

Lemma kernel_steps_inv n x y :
  nsteps kernel_step n x y -> kernel_inv x.1 ->
  NEXT_HANDLE_ID (HANDLE_STATE x.1) + Z.of_nat n <= U64_MAX -> kernel_inv y.1.
Proof.
  induction 1 as [|n x y z Hs _ IH]; intros Hk Hn; [done|].
  destruct (kernel_step_inv x y Hs Hk) as [Hk' Hn']; [lia|]. apply IH; [done|lia].
Qed.

(** The kernel as [init_tasks] leaves it, with the statics of the IPC as they
    are initialised. *)
Lemma booted_inv {F} `{FrameAllocator F} st1 st2 mapper (fa fa' : F) m m' k :
  init_tasks st1 st2 mapper fa m counters_init SCHEDULER_init = Ret (SCHEDULER k, fa', m', COUNTERS k) ->
  CHANNEL_REGISTRY k = ChannelRegistry_new -> HANDLE_STATE k = handle_state_init -> kernel_inv k.
Proof.
  intros E Hc Hh. pose proof (init_tasks_sched_inv _ _ _ _ _ _ _ _ _ _ E) as Hi.
  apply init_tasks_result in E as (Hn & _). change (NEXT_PID counters_init) with 1 in Hn.
  constructor; rewrite ?Hc, ?Hh; [|lia|apply registry_inv_new|apply handle_inv_init|apply Forall_nil_2].
  by eapply sched_inv_weaken; [|exact Hi].
Qed.
End Reachable.

(** C8: the kernel invariant holds in every state reachable from boot, where
    the processes 1 and 2 exist and the counter of PIDs stands at 1, through
    any sequence of fewer than 2^64 - 1 steps: system calls of any number and
    arguments (the first forks collide with the boot processes), context
    switches, timer ticks with their kills, exits, reaping and sweeps, clean-up
    and revocation of the IPC objects, writes to memory.  So PIDs are unique,
    at most the front process is running, every control block is well formed
    and has an entry in the process tree, tree and orphan list agree with the
    parent links of every process whose PID fork has not handed out, and the
    two IPC registries are well formed. *)
Theorem kernel_reachable_inv `{X86AddrLaws} {Fut F} `{FrameAllocator F} (st1 st2 : Z)
    (mapper : OffsetPageTable) (fa fa' : F) (m m' : mem) (k0 k : Kernel Fut) (t0 t : timer_state) (n : nat) :
  init_tasks st1 st2 mapper fa m counters_init SCHEDULER_init = Ret (SCHEDULER k0, fa', m', COUNTERS k0) ->
  CHANNEL_REGISTRY k0 = ChannelRegistry_new -> HANDLE_STATE k0 = handle_state_init ->
  nsteps kernel_step n (k0, t0) (k, t) -> Z.of_nat n < U64_MAX -> kernel_inv k.
Proof.
  intros E Hc Hh Hs Hn. apply (kernel_steps_inv n (k0, t0) (k, t)); [done|by eapply booted_inv|].
  simpl. rewrite Hh. simpl. lia.
Qed.

(** The table and the counters of [demo_boot]. *)
Definition demo_booted : Scheduler unit :=
  add_process (mkProcess 2 135008 24576 Ready 0 [] 0 DEFAULT_PRIORITY ResourceLimits_default
                 ProcessStats_default 2 2 2)
    (add_process (mkProcess 1 69472 20480 Ready 0 [] 0 DEFAULT_PRIORITY ResourceLimits_default
                    ProcessStats_default 1 1 1) SCHEDULER_init).
Definition demo_boot_counters : counters :=
  {| NEXT_PID := 1; NEXT_PGID := 1; NEXT_SID := 1; TIMESTAMP_COUNTER := 2 |}.
Definition demo_boot_kernel (m : mem) : Kernel unit :=
  mkKernel demo_booted demo_boot_counters (mkMachine (mkCpuData 0 0 1 0) 0) ChannelRegistry_new
    handle_state_init m [].

Lemma demo_boot_result : exists fa m, demo_boot = Ret (demo_booted, fa, m, demo_boot_counters).
Proof. do 2 eexists. reflexivity. Qed.

(** After boot process 1 is dispatched, forks (and is given its own PID), and a
    timer tick passes. *)
Lemma kernel_reachable_inv_witness :
  exists m k, nsteps kernel_step 3 (demo_boot_kernel m, timer_state_init) k /\
    bt_get 1 (process_tree (SCHEDULER k.1)) = Some 1 /\ kernel_inv k.1.
Proof.
  destruct demo_boot_result as (fa & m & E). exists m.
  assert (Hk : exists k, nsteps kernel_step 3 (demo_boot_kernel m, timer_state_init) k /\
    bt_get 1 (process_tree (SCHEDULER k.1)) = Some 1).
  { eexists. split.
    - eapply nsteps_l; [eapply (ks_switch 0x9000); reflexivity|].
      eapply nsteps_l; [eapply (ks_syscall (mkSyscallArgs 57 0 0 0 0 0 0));
        [unfold args_u64, is_u64; simpl; lia|reflexivity]|].
      eapply nsteps_l; [eapply ks_timer, ts_tick|]. apply nsteps_O.
    - reflexivity. }
  destruct Hk as ([k t] & Hk & Ht). exists (k, t). split; [exact Hk|]. split; [exact Ht|].
  eapply (kernel_reachable_inv (H1 := frame_pool) 0x10000 0x20000
    {| phys_offset := 0x100000000; level_4_table := 0x100001000 |}
    [0x5000; 0x6000; 0x7000; 0x8000] fa zero_mem m (demo_boot_kernel m) k timer_state_init t 3).
  - exact E.
  - reflexivity.
  - reflexivity.
  - exact Hk.
  - reflexivity.
Defined.
