(* ===== verification/Allocator.v ===== *)
(** * Allocator: the kernel heap (src/src/allocator/fixed_size_block.rs)

    The global allocator keeps one free list per block size.  A free list is
    threaded through the free blocks themselves: the list head is a pointer
    (0 for [None]) and each free block holds the pointer to the next one in its
    first eight bytes.  Blocks come from the fallback allocator
    [linked_list_allocator::Heap], a third-party crate: it is the class
    [FallbackHeap], with its documented contract in [FallbackLaws]. *)

From stdpp Require Import base sets numbers relations sorting list.
From S2P Require Import Prelude Mem.
Local Open Scope Z_scope.
Local Open Scope ruix_scope.

(** [core::alloc::Layout] *)
Record Layout : Type := mkLayout {
  l_size : Z;
  l_align : Z
}.

#[export] Instance Layout_eq_dec : EqDecision Layout.
Proof. solve_decision. Defined.

(** The bytes of an allocation. *)
Definition in_block (b : Z * Layout) (a : Z) : Prop := b.1 <= a < b.1 + l_size b.2.
Definition disjoint_blocks (b1 b2 : Z * Layout) : Prop :=
  b1.1 + l_size b1.2 <= b2.1 \/ b2.1 + l_size b2.2 <= b1.1.

Class FallbackHeap (H : Type) := {
  (** [Heap::allocate_first_fit] and [Heap::deallocate]; both keep their
      bookkeeping in the free memory of the heap. *)
  allocate_first_fit : Layout -> H -> mem -> option Z * H * mem;
  deallocate : Z -> Layout -> H -> mem -> H * mem;
  (** The allocations that have not been deallocated. *)
  allocations : H -> list (Z * Layout);
  (** The state [init] makes for a heap area. *)
  heap_init : Z -> Z -> H;
  heap_empty : H
}.

(** The allocations are pairwise disjoint. *)
Fixpoint separate (l : list (Z * Layout)) : Prop :=
  match l with
  | [] => True
  | b :: l' => Forall (disjoint_blocks b) l' /\ separate l'
  end.

(** The memories agree on every byte of the allocations. *)
Definition same_on (l : list (Z * Layout)) (m m' : mem) : Prop :=
  forall b a, b ∈ l -> in_block b a -> m' a = m a.

Class FallbackLaws (H : Type) `{FallbackHeap H} : Prop := {
  first_fit_some ly h m p h' m' :
    0 < l_size ly -> allocate_first_fit ly h m = (Some p, h', m') ->
    p <> 0 /\ p mod l_align ly = 0 /\ is_u64 p /\ allocations h' = (p, ly) :: allocations h /\
    Forall (disjoint_blocks (p, ly)) (allocations h) /\ same_on (allocations h) m m';
  first_fit_none ly h m h' m' :
    allocate_first_fit ly h m = (None, h', m') ->
    allocations h' = allocations h /\ same_on (allocations h) m m';
  deallocate_law p ly h m h' m' l1 l2 :
    allocations h = l1 ++ (p, ly) :: l2 -> deallocate p ly h m = (h', m') ->
    allocations h' ≡ₚ l1 ++ l2 /\ same_on (l1 ++ l2) m m';
  heap_empty_law : allocations heap_empty = [];
  heap_init_law start sz : allocations (heap_init start sz) = []
}.

Definition BLOCK_SIZES : list Z := [8; 16; 32; 64; 128; 256; 512; 1024; 2048].

Definition SIZEOF_ListNode : Z := 8.
Definition ALIGNOF_ListNode : Z := 8.

Definition list_index (ly : Layout) : option nat :=
  let required_block_size := Z.max (l_size ly) (l_align ly) in
  position (fun s => required_block_size <=? s) BLOCK_SIZES.

Section Fixed.
Context {H : Type} `{FallbackHeap H}.

Record FixedSizeBlockAllocator : Type := mkFSB {
  list_heads : list Z;
  fallback_allocator : H
}.

Definition FixedSizeBlockAllocator_new : FixedSizeBlockAllocator :=
  mkFSB (replicate (length BLOCK_SIZES) 0) heap_empty.

Definition FixedSizeBlockAllocator_init (start sz : Z) (a : FixedSizeBlockAllocator)
    : FixedSizeBlockAllocator :=
  mkFSB (list_heads a) (heap_init start sz).

(** Null is 0. *)
Definition fallback_alloc (ly : Layout) (a : FixedSizeBlockAllocator) (m : mem)
    : Z * FixedSizeBlockAllocator * mem :=
  let '(r, h, m) := allocate_first_fit ly (fallback_allocator a) m in
  (match r with Some p => p | None => 0 end, mkFSB (list_heads a) h, m).

Definition fsb_alloc (ly : Layout) (a : FixedSizeBlockAllocator) (m : mem)
    : outcome (Z * FixedSizeBlockAllocator * mem) :=
  match list_index ly with
  | Some index =>
      match list_heads a !! index with
      | None => Panic
      | Some node =>
          if negb (node =? 0) then
            let next := load64 m node in
            let m := store64 m node 0 in
            Ret (node, mkFSB (<[index := next]> (list_heads a)) (fallback_allocator a), m)
          else
            match BLOCK_SIZES !! index with
            | None => Panic
            | Some block_size => Ret (fallback_alloc (mkLayout block_size block_size) a m)
            end
      end
  | None => Ret (fallback_alloc ly a m)
  end.

Definition fsb_dealloc (ptr : Z) (ly : Layout) (a : FixedSizeBlockAllocator) (m : mem)
    : outcome (FixedSizeBlockAllocator * mem) :=
  match list_index ly with
  | Some index =>
      match list_heads a !! index, BLOCK_SIZES !! index with
      | Some head, Some block_size =>
          if (SIZEOF_ListNode <=? block_size) && (ALIGNOF_ListNode <=? block_size) then
            let m := store64 m ptr head in
            Ret (mkFSB (<[index := ptr]> (list_heads a)) (fallback_allocator a), m)
          else Panic
      | _, _ => Panic
      end
  | None =>
      if ptr =? 0 then Panic
      else
        let '(h, m) := deallocate ptr ly (fallback_allocator a) m in
        Ret (mkFSB (list_heads a) h, m)
  end.
End Fixed.
Arguments FixedSizeBlockAllocator H : clear implicits.

(* ------------------------------------------------------------------ *)
(** ** Blocks and free lists *)

Lemma disjoint_blocks_sym b1 b2 : disjoint_blocks b1 b2 -> disjoint_blocks b2 b1.
Proof. unfold disjoint_blocks. lia. Qed.

#[export] Instance separate_proper : Proper ((≡ₚ) ==> iff) separate.
Proof.
  assert (G : forall l1 l2, l1 ≡ₚ l2 -> separate l1 -> separate l2).
  { induction 1 as [|b l1 l2 Hp IH|b1 b2 l|l1 l2 l3 _ IH1 _ IH2]; simpl; auto.
    - intros [H1 H2]. split; [by rewrite <- Hp|auto].
    - rewrite !Forall_cons. intros ((H1 & H2) & H3 & H4). split_and!; try done; by apply disjoint_blocks_sym. }
  intros l1 l2 Hp. split; apply G; [done|by symmetry].
Qed.

Lemma same_on_perm l l' m m' : l ≡ₚ l' -> same_on l m m' -> same_on l' m m'.
Proof. intros Hp Hs b a Hb. apply Hs. by rewrite Hp. Qed.

Lemma same_on_incl l l' m m' : (forall b, b ∈ l' -> b ∈ l) -> same_on l m m' -> same_on l' m m'.
Proof. intros Hi Hs b a Hb. apply Hs. auto. Qed.

(** The layout of the block that serves a request. *)
Definition block_layout (i : nat) : Layout := mkLayout (BLOCK_SIZES !!! i) (BLOCK_SIZES !!! i).
Definition block_of (ly : Layout) : Layout :=
  match list_index ly with Some i => block_layout i | None => ly end.

(** What [GlobalAlloc] requires of a layout. *)
Definition layout_ok (ly : Layout) : Prop :=
  0 < l_size ly /\ exists k, 0 <= k /\ l_align ly = 2 ^ k.

Lemma BLOCK_SIZES_pow i s : BLOCK_SIZES !! i = Some s -> s = 2 ^ (Z.of_nat i + 3) /\ 8 <= s.
Proof. do 9 (destruct i as [|i]; [by intros [= <-]|]). done. Qed.

Lemma list_index_spec ly i :
  list_index ly = Some i ->
  exists s, BLOCK_SIZES !! i = Some s /\ block_layout i = mkLayout s s /\ (i < 9)%nat /\
    l_size ly <= s /\ l_align ly <= s.
Proof.
  unfold list_index. intros Hp. apply position_lookup in Hp as (s & Hf & Hl & _).
  apply find_elem in Hf as [_ Hs]. apply Z.leb_le in Hs. exists s. split_and!; try lia; [done| |].
  - unfold block_layout. by rewrite (list_lookup_total_correct _ _ _ Hl).
  - by apply lookup_lt_Some in Hl.
Qed.

(** The block is large enough and its alignment implies the one asked for. *)
Lemma block_of_fits ly p :
  layout_ok ly -> l_size ly <= l_size (block_of ly) /\ 0 < l_size (block_of ly) /\
    (p mod l_align (block_of ly) = 0 -> p mod l_align ly = 0).
Proof.
  intros (Hs & k & Hk & Ha). unfold block_of. destruct (list_index ly) as [i|] eqn:E; [|lia].
  apply list_index_spec in E as (s & Hi & -> & _ & H1 & H2). simpl.
  apply BLOCK_SIZES_pow in Hi as [Hi ?]. split_and!; [lia..|]. intros Hp.
  rewrite Ha in H2 |- *. rewrite Hi in *. assert (Hle : k <= Z.of_nat i + 3).
  { apply (Z.pow_le_mono_r_iff 2); lia. }
  replace (2 ^ (Z.of_nat i + 3)) with (2 ^ k * 2 ^ (Z.of_nat i + 3 - k)) in Hp
    by (rewrite <- Z.pow_add_r by lia; f_equal; lia).
  apply Z.mod_divide in Hp; [|apply Z.neq_mul_0; split; apply Z.pow_nonzero; lia].
  apply Z.mod_divide; [apply Z.pow_nonzero; lia|]. destruct Hp as [q ->].
  exists (q * 2 ^ (Z.of_nat i + 3 - k)). lia.
Qed.

(** The free list that starts at [head], threaded through memory. *)
Fixpoint chain (m : mem) (head : Z) (l : list Z) : Prop :=
  match l with
  | [] => head = 0
  | p :: l' => head = p /\ p <> 0 /\ chain m (load64 m p) l'
  end.

Lemma chain_frame m m' head l :
  (forall p a, p ∈ l -> p <= a < p + 8 -> m' a = m a) -> chain m head l -> chain m' head l.
Proof.
  revert head. induction l as [|p l IH]; intros head Hs; simpl; [done|].
  intros (-> & Hp & Hc). split_and!; [done..|].
  assert (E : load64 m' p = load64 m p).
  { unfold load64. f_equal. apply load_bytes_ext. intros a Ha. apply (Hs p); [set_solver|lia]. }
  rewrite E. apply IH; [|done]. intros q a Hq. apply Hs. set_solver.
Qed.

(** The blocks of the free lists, from the list of size class [i] on. *)
Fixpoint free_blocks (i : nat) (F : list (list Z)) : list (Z * Layout) :=
  match F with
  | [] => []
  | l :: F' => ((fun p => (p, block_layout i)) <$> l) ++ free_blocks (S i) F'
  end.

Lemma free_blocks_insert i0 F i l l' :
  F !! i = Some l ->
  ((fun p => (p, block_layout (i0 + i))) <$> l') ++ free_blocks i0 F ≡ₚ
  ((fun p => (p, block_layout (i0 + i))) <$> l) ++ free_blocks i0 (<[i := l']> F).
Proof.
  revert i0 i. induction F as [|l0 F IH]; intros i0 i Hi; [done|].
  destruct i as [|i]; simpl in *.
  - simplify_eq. rewrite Nat.add_0_r. solve_Permutation.
  - specialize (IH (S i0) i Hi). replace (i0 + S i)%nat with (S i0 + i)%nat by lia.
    rewrite Permutation_app_swap_app, IH. apply Permutation_app_swap_app.
Qed.

Lemma elem_of_free_blocks i0 F b :
  b ∈ free_blocks i0 F <-> exists i l, F !! i = Some l /\ b.1 ∈ l /\ b.2 = block_layout (i0 + i).
Proof.
  revert i0. induction F as [|l0 F IH]; intros i0; simpl.
  - split; [by intros ?%not_elem_of_nil|by intros (i & l & ? & _)].
  - rewrite elem_of_app, IH, list_elem_of_fmap. split.
    + intros [(p & -> & Hp)|(i & l & Hi & Hb & E)].
      * exists O, l0. by rewrite Nat.add_0_r.
      * exists (S i), l. replace (i0 + S i)%nat with (S i0 + i)%nat by lia. done.
    + intros ([|i] & l & Hi & Hb & E).
      * left. simpl in Hi. simplify_eq. exists b.1. rewrite Nat.add_0_r in E.
        destruct b; simpl in *; subst. done.
      * right. exists i, l. replace (i0 + S i)%nat with (S i0 + i)%nat in E by lia. done.
Qed.

(* ------------------------------------------------------------------ *)
(** ** The heap invariant

    [F] are the free lists as lists of addresses, [L] the allocations the
    clients hold, with the layouts they asked for. *)

Section HeapInv.
Context {H : Type} {fh : FallbackHeap H} {fl : FallbackLaws H}.
Implicit Types (a : FixedSizeBlockAllocator H) (m : mem).

Definition client_blocks (L : list (Z * Layout)) : list (Z * Layout) :=
  (fun b => (b.1, block_of b.2)) <$> L.

(** A block as the fallback allocator gave it. *)
Definition block_ok (b : Z * Layout) : Prop := b.1 <> 0 /\ is_u64 b.1 /\ b.1 mod l_align b.2 = 0.

Record heap_rep a m (F : list (list Z)) (L : list (Z * Layout)) : Prop := {
  hr_heads : length (list_heads a) = 9%nat;
  hr_lists : length F = 9%nat;
  hr_chain i head l : list_heads a !! i = Some head -> F !! i = Some l -> chain m head l;
  hr_blocks : allocations (fallback_allocator a) ≡ₚ free_blocks 0 F ++ client_blocks L;
  hr_separate : separate (free_blocks 0 F ++ client_blocks L);
  hr_ok : Forall block_ok (free_blocks 0 F ++ client_blocks L);
  hr_layouts : Forall (fun b => layout_ok b.2) L
}.

Lemma heap_rep_new m :
  heap_rep (FixedSizeBlockAllocator_new (H := H)) m (replicate 9 []) [].
Proof.
  split; simpl; try done.
  - intros i head l H1 H2. change ([[]; []; []; []; []; []; []; []; []])
      with (replicate 9 (@nil Z)) in H2. change ([0; 0; 0; 0; 0; 0; 0; 0; 0]) with (replicate 9 0) in H1.
    apply lookup_replicate in H1 as [-> _]. apply lookup_replicate in H2 as [-> _]. done.
  - by rewrite heap_empty_law.
Qed.

Lemma heap_rep_init a m F L start sz :
  heap_rep a m F L -> F = replicate 9 [] -> L = [] ->
  heap_rep (FixedSizeBlockAllocator_init start sz a) m F L.
Proof.
  intros [H1 H2 H3 H4 H5 H6 H7] -> ->. split; try done. simpl. by rewrite heap_init_law.
Qed.

(** A free block is a block of the fallback allocator of at least 8 bytes. *)
Lemma free_block_size F i l p :
  length F = 9%nat -> F !! i = Some l -> p ∈ l ->
  (p, block_layout i) ∈ free_blocks 0 F /\ 8 <= l_size (block_layout i).
Proof.
  intros HF Hi Hp. split.
  - apply elem_of_free_blocks. by exists i, l.
  - apply lookup_lt_Some in Hi. rewrite HF in Hi.
    destruct (lookup_lt_is_Some_2 BLOCK_SIZES i) as [s Hs]; [done|].
    unfold block_layout. simpl. rewrite (list_lookup_total_correct _ _ _ Hs).
    apply BLOCK_SIZES_pow in Hs. lia.
Qed.

(** The chains survive a change of memory outside the free blocks. *)
Lemma chains_frame a m m' F L :
  heap_rep a m F L -> same_on (free_blocks 0 F) m m' ->
  forall i head l, list_heads a !! i = Some head -> F !! i = Some l -> chain m' head l.
Proof.
  intros Hr Hs i head l Hh Hl. eapply chain_frame; [|by eapply hr_chain].
  intros p x Hp Hx. destruct (free_block_size F i l p (hr_lists _ _ _ _ Hr) Hl Hp) as [Hb H8].
  apply (Hs _ _ Hb). unfold in_block. simpl in *. lia.
Qed.

(** Writing into one block leaves the others alone. *)
Lemma store_same_on p ly v bs m :
  Forall (disjoint_blocks (p, ly)) bs -> 8 <= l_size ly -> same_on bs m (store64 m p v).
Proof.
  intros HF H8 b x Hb Hx. rewrite Forall_forall in HF. specialize (HF b Hb).
  unfold disjoint_blocks, in_block in *. simpl in *.
  apply store_bytes_out. rewrite length_le_bytes. lia.
Qed.

Lemma client_block_elem L b : b ∈ L -> (b.1, block_of b.2) ∈ client_blocks L.
Proof. intros Hb. apply list_elem_of_fmap. by exists b. Qed.

(** What the clients see of a memory that agrees on their blocks. *)
Lemma client_same_on L m m' :
  Forall (fun b => layout_ok b.2) L -> same_on (client_blocks L) m m' -> same_on L m m'.
Proof.
  intros HL Hs b x Hb Hx. apply (Hs _ _ (client_block_elem L b Hb)).
  rewrite Forall_forall in HL. destruct (block_of_fits b.2 0 (HL b Hb)) as (Hfit & _).
  unfold in_block in *. simpl. lia.
Qed.

(** A block disjoint from the blocks of the clients, cut to the request. *)
Lemma client_disjoint p ly L :
  layout_ok ly -> Forall (fun b => layout_ok b.2) L ->
  Forall (disjoint_blocks (p, block_of ly)) (client_blocks L) ->
  Forall (disjoint_blocks (p, ly)) L.
Proof.
  intros Hly HL HD. rewrite Forall_forall in HL, HD |- *. intros b Hb.
  specialize (HD _ (client_block_elem L b Hb)).
  destruct (block_of_fits b.2 0 (HL b Hb)) as (H1 & _), (block_of_fits ly 0 Hly) as (H2 & _).
  unfold disjoint_blocks in *. simpl in *. lia.
Qed.

(** The outcome of an allocation: null and nothing changed for the clients,
    or a block that is new to them. *)
Definition alloc_post m L (ly : Layout) (p : Z) (a' : FixedSizeBlockAllocator H) m' : Prop :=
  same_on L m m' /\
  ((p = 0 /\ exists F', heap_rep a' m' F' L) \/
   (p <> 0 /\ p mod l_align ly = 0 /\ Forall (disjoint_blocks (p, ly)) L /\
    exists F', heap_rep a' m' F' ((p, ly) :: L))).

Lemma fallback_alloc_rep a m F L ly p a' m' :
  heap_rep a m F L -> layout_ok ly -> fallback_alloc (block_of ly) a m = (p, a', m') ->
  alloc_post m L ly p a' m'.
Proof.
  intros Hr Hly E. pose proof Hr as [H1 H2 H3 H4 H5 H6 H7]. unfold fallback_alloc in E.
  destruct (block_of_fits ly 0 Hly) as (_ & Hpos & _).
  destruct (allocate_first_fit _ _ _) as [[[q|] h] m1] eqn:Ef; simplify_eq.
  - apply first_fit_some in Ef as (Hq & Hal & Hu & Ea & Hd & Hs); [|done].
    rewrite H4 in Hd. apply (same_on_perm _ _ _ _ H4) in Hs.
    split; [apply client_same_on; [done|]; eapply same_on_incl; [|exact Hs]; set_solver|].
    right. apply Forall_app in Hd as [Hd1 Hd2]. split_and!; [done| | |].
    + by apply (block_of_fits ly p Hly).
    + by apply client_disjoint.
    + exists F. split; try done; simpl.
      * intros i head l Hh Hl. eapply chains_frame; [exact Hr| |done..].
        eapply same_on_incl; [|exact Hs]. set_solver.
      * rewrite Ea, H4. apply Permutation_middle.
      * rewrite <- Permutation_middle. split; [by apply Forall_app|done].
      * rewrite <- Permutation_middle. constructor; done.
      * by constructor.
  - apply first_fit_none in Ef as (Ea & Hs). apply (same_on_perm _ _ _ _ H4) in Hs.
    split; [apply client_same_on; [done|]; eapply same_on_incl; [|exact Hs]; set_solver|].
    left. split; [done|]. exists F. split; try done; simpl; [|by rewrite Ea].
    intros i head l Hh Hl. eapply chains_frame; [exact Hr| |done..].
    eapply same_on_incl; [|exact Hs]. set_solver.
Qed.

(** Popping the free list of size class [i]. *)
Lemma pop_rep a m F L ly i node l :
  heap_rep a m F L -> layout_ok ly -> list_index ly = Some i ->
  list_heads a !! i = Some node -> F !! i = Some (node :: l) ->
  alloc_post m L ly node
    (mkFSB (<[i := load64 m node]> (list_heads a)) (fallback_allocator a)) (store64 m node 0).
Proof.
  intros Hr Hly Hi Hh Hl. pose proof Hr as [H1 H2 H3 H4 H5 H6 H7].
  pose proof (H3 _ _ _ Hh Hl) as Hc. simpl in Hc. destruct Hc as (_ & Hn & Hc).
  destruct (free_block_size F i _ node H2 Hl) as [_ H8]; [set_solver|].
  assert (Hb : block_of ly = block_layout i) by (unfold block_of; by rewrite Hi).
  pose proof (free_blocks_insert 0 F i (node :: l) l Hl) as Hp. simpl in Hp. csimpl in Hp.
  rewrite Permutation_middle in Hp. apply Permutation_app_inv_l in Hp.
  set (F' := <[i := l]> F) in *. rewrite Hp in H4, H5, H6. simpl in H5.
  destruct H5 as [Hd Hsep]. pose proof Hd as Hd'. apply Forall_app in Hd' as [Hd1 Hd2].
  pose proof (store_same_on node (block_layout i) 0 _ m Hd H8) as Hs.
  apply Forall_cons in H6 as [[_ [Hu Hal]] H6].
  split; [apply client_same_on; [done|]; eapply same_on_incl; [|exact Hs]; set_solver|].
  right. rewrite <- Hb in *. split_and!; [done| | |].
  - by apply (block_of_fits ly node Hly).
  - by apply client_disjoint.
  - exists F'. split; simpl; try done.
    + by rewrite length_insert.
    + unfold F'. by rewrite length_insert.
    + intros j head lj Hhj Hlj.
      assert (Hcj : chain m head lj).
      { destruct (decide (i = j)) as [->|Hne].
        - unfold F' in Hlj. rewrite list_lookup_insert_eq in Hlj by (by eapply lookup_lt_Some).
          rewrite list_lookup_insert_eq in Hhj by (by eapply lookup_lt_Some). by simplify_eq.
        - unfold F' in Hlj. rewrite list_lookup_insert_ne in Hlj by done.
          rewrite list_lookup_insert_ne in Hhj by done. by eapply H3. }
      eapply chain_frame; [|exact Hcj]. intros q x Hq Hx.
      assert (HF' : length F' = 9%nat) by (unfold F'; by rewrite length_insert).
      destruct (free_block_size F' j lj q HF' Hlj Hq) as [Hbq Hq8].
      apply (Hs (q, block_layout j)); [set_solver|]. unfold in_block. simpl in *. lia.
    + rewrite H4. apply Permutation_middle.
    + rewrite <- Permutation_middle. by split.
    + rewrite <- Permutation_middle. by constructor.
    + by constructor.
Qed.

Lemma fsb_alloc_spec a m F L ly :
  heap_rep a m F L -> layout_ok ly ->
  exists p a' m', fsb_alloc ly a m = Ret (p, a', m') /\ alloc_post m L ly p a' m'.
Proof.
  intros Hr Hly. unfold fsb_alloc. pose proof (fallback_alloc_rep a m F L ly) as Hf.
  unfold block_of in Hf. destruct (list_index ly) as [i|] eqn:Hi.
  2: { destruct (fallback_alloc ly a m) as [[p a'] m'] eqn:E. eauto 10. }
  destruct (list_index_spec ly i Hi) as (s & Hs & Hbl & H9 & _).
  destruct (lookup_lt_is_Some_2 (list_heads a) i) as [node Hh]; [rewrite (hr_heads _ _ _ _ Hr); lia|].
  destruct (lookup_lt_is_Some_2 F i) as [l Hl]; [rewrite (hr_lists _ _ _ _ Hr); lia|].
  rewrite Hh, Hs. pose proof (hr_chain _ _ _ _ Hr _ _ _ Hh Hl) as Hc.
  destruct (Z.eqb_spec node 0) as [E0|E0]; cbn [negb].
  - rewrite Hbl in Hf. destruct (fallback_alloc _ a m) as [[p a'] m'] eqn:E. eauto 10.
  - destruct l as [|p l]; simpl in Hc; [done|]. destruct Hc as (-> & _ & _).
    eexists _, _, _. split; [reflexivity|]. by eapply pop_rep.
Qed.

Lemma head_u64 a m F L i head l :
  heap_rep a m F L -> list_heads a !! i = Some head -> F !! i = Some l -> is_u64 head.
Proof.
  intros [_ _ H3 _ _ H6 _] Hh Hl. pose proof (H3 _ _ _ Hh Hl) as Hc.
  destruct l as [|q l]; simpl in Hc; [subst head; unfold is_u64; lia|].
  destruct Hc as (-> & _). assert (Hq : (q, block_layout i) ∈ free_blocks 0 F).
  { apply elem_of_free_blocks. exists i, (q :: l). set_solver. }
  apply Forall_app in H6 as [H6 _]. rewrite Forall_forall in H6.
  by destruct (H6 _ Hq) as (_ & ? & _).
Qed.

(** Pushing a block back on the free list of its size class. *)
Lemma push_rep a m F L p ly i head l :
  heap_rep a m F ((p, ly) :: L) -> list_index ly = Some i ->
  list_heads a !! i = Some head -> F !! i = Some l ->
  same_on L m (store64 m p head) /\
  heap_rep (mkFSB (<[i := p]> (list_heads a)) (fallback_allocator a)) (store64 m p head)
    (<[i := p :: l]> F) L.
Proof.
  intros Hr Hi Hh Hl. pose proof Hr as [H1 H2 H3 H4 H5 H6 H7].
  assert (Hb : block_of ly = block_layout i) by (unfold block_of; by rewrite Hi).
  assert (H8 : 8 <= l_size (block_layout i)).
  { destruct (list_index_spec ly i Hi) as (s & Hs & -> & _).
    apply BLOCK_SIZES_pow in Hs. simpl. lia. }
  apply Forall_cons in H7 as [Hly H7]. simpl in H4, H5, H6. rewrite Hb in *.
  rewrite <- Permutation_middle in H4, H5, H6. destruct H5 as [Hd Hsep].
  pose proof (Forall_cons_1 _ _ _ H6) as [[Hp0 [Hpu _]] _]. simpl in Hp0, Hpu.
  pose proof (store_same_on p (block_layout i) head _ m Hd H8) as Hs.
  pose proof (free_blocks_insert 0 F i l (p :: l) Hl) as Hperm. simpl in Hperm. csimpl in Hperm.
  rewrite Permutation_middle in Hperm. apply Permutation_app_inv_l in Hperm.
  set (F' := <[i := p :: l]> F) in *.
  assert (HP : free_blocks 0 F' ++ client_blocks L ≡ₚ
               (p, block_layout i) :: free_blocks 0 F ++ client_blocks L)
    by (by rewrite <- Hperm).
  split; [apply client_same_on; [done|]; eapply same_on_incl; [|exact Hs]; set_solver|].
  assert (Hold : forall j hd lj, list_heads a !! j = Some hd -> F !! j = Some lj ->
    chain (store64 m p head) hd lj).
  { intros j hd lj A1 A2. eapply chains_frame; [exact Hr| |exact A1|exact A2].
    eapply same_on_incl; [|exact Hs]. set_solver. }
  split; simpl; try done.
  - by rewrite length_insert.
  - unfold F'. by rewrite length_insert.
  - intros j hd lj Hhj Hlj. unfold F' in Hlj. destruct (decide (i = j)) as [->|Hne].
    + rewrite list_lookup_insert_eq in Hlj by (by eapply lookup_lt_Some).
      rewrite list_lookup_insert_eq in Hhj by (by eapply lookup_lt_Some). simplify_eq. simpl.
      split_and!; [done..|]. rewrite load64_store64; [by eapply Hold|].
      by eapply head_u64.
    + rewrite list_lookup_insert_ne in Hlj by done.
      rewrite list_lookup_insert_ne in Hhj by done. by eapply Hold.
  - by rewrite H4, HP.
  - rewrite HP. by split.
  - by rewrite HP.
Qed.

Lemma client_blocks_perm L L' : L ≡ₚ L' -> client_blocks L ≡ₚ client_blocks L'.
Proof. intros Hp. unfold client_blocks. by rewrite Hp. Qed.

Lemma heap_rep_perm a m F L L' : L ≡ₚ L' -> heap_rep a m F L -> heap_rep a m F L'.
Proof.
  intros Hp [H1 H2 H3 H4 H5 H6 H7]. pose proof (client_blocks_perm _ _ Hp) as Hc.
  split; try done; [by rewrite H4, Hc|by rewrite <- Hc|by rewrite <- Hc|by rewrite <- Hp].
Qed.

Lemma fsb_dealloc_spec a m F L p ly :
  heap_rep a m F ((p, ly) :: L) ->
  exists a' m' F', fsb_dealloc p ly a m = Ret (a', m') /\ same_on L m m' /\ heap_rep a' m' F' L.
Proof.
  intros Hr. unfold fsb_dealloc. pose proof Hr as [H1 H2 H3 H4 H5 H6 H7].
  destruct (list_index ly) as [i|] eqn:Hi.
  - destruct (list_index_spec ly i Hi) as (s & Hs & Hbl & H9 & _).
    destruct (lookup_lt_is_Some_2 (list_heads a) i) as [head Hh]; [lia|].
    destruct (lookup_lt_is_Some_2 F i) as [l Hl]; [lia|].
    rewrite Hh, Hs. destruct (BLOCK_SIZES_pow _ _ Hs) as [_ H8].
    unfold SIZEOF_ListNode, ALIGNOF_ListNode. rewrite (proj2 (Z.leb_le 8 s)) by lia. cbn [andb].
    destruct (push_rep a m F L p ly i head l Hr Hi Hh Hl) as [G1 G2]. eauto 10.
  - assert (Hb : block_of ly = ly) by (unfold block_of; by rewrite Hi). simpl in H4, H5, H6.
    rewrite Hb in *. rewrite <- Permutation_middle in H4, H5, H6. destruct H5 as [_ Hsep].
    apply Forall_cons in H6 as [[Hp0 _] H6]. apply Forall_cons in H7 as [_ H7].
    rewrite (proj2 (Z.eqb_neq p 0)) by done.
    assert (Hin : (p, ly) ∈ allocations (fallback_allocator a)) by (rewrite H4; set_solver).
    apply list_elem_of_split in Hin as (l1 & l2 & E).
    destruct (deallocate p ly _ m) as [h m'] eqn:Ed.
    apply (deallocate_law _ _ _ _ _ _ l1 l2 E) in Ed as [Ea Hs].
    assert (HP : l1 ++ l2 ≡ₚ free_blocks 0 F ++ client_blocks L).
    { rewrite E in H4. rewrite <- Permutation_middle in H4. by apply Permutation_cons_inv in H4. }
    apply (same_on_perm _ _ _ _ HP) in Hs.
    eexists _, _, F. split; [reflexivity|].
    split; [apply client_same_on; [done|]; eapply same_on_incl; [|exact Hs]; set_solver|].
    split; simpl; try done; [|by rewrite Ea].
    intros j hd lj A1 A2. eapply chains_frame; [exact Hr| |exact A1|exact A2].
    eapply same_on_incl; [|exact Hs]. set_solver.
Qed.
End HeapInv.

(* ------------------------------------------------------------------ *)
(** ** Histories of heap operations *)

Section HeapSteps.
Context {H : Type} {fh : FallbackHeap H} {fl : FallbackLaws H}.

(** A client allocates, frees an allocation it holds, or writes inside its
    own allocations. *)
Inductive heap_step : FixedSizeBlockAllocator H * mem * list (Z * Layout) ->
                      FixedSizeBlockAllocator H * mem * list (Z * Layout) -> Prop :=
| hs_alloc ly a m L p a' m' :
    layout_ok ly -> fsb_alloc ly a m = Ret (p, a', m') ->
    heap_step (a, m, L) (a', m', if p =? 0 then L else (p, ly) :: L)
| hs_dealloc p ly a m L L' a' m' :
    L ≡ₚ (p, ly) :: L' -> fsb_dealloc p ly a m = Ret (a', m') ->
    heap_step (a, m, L) (a', m', L')
| hs_write a m L m' :
    (forall x, (forall b, b ∈ L -> ~ in_block b x) -> m' x = m x) ->
    heap_step (a, m, L) (a, m', L).

Definition heap_good (st : FixedSizeBlockAllocator H * mem * list (Z * Layout)) : Prop :=
  exists F, heap_rep st.1.1 st.1.2 F st.2.

(** Clients write only into their own blocks, never into free ones. *)
Lemma client_write_rep (a : FixedSizeBlockAllocator H) m F L m' :
  heap_rep a m F L ->
  (forall x, (forall b, b ∈ L -> ~ in_block b x) -> m' x = m x) -> heap_rep a m' F L.
Proof.
  intros Hr Hw. pose proof Hr as [H1 H2 H3 H4 H5 H6 H7]. split; try done.
  eapply chains_frame; [exact Hr|]. intros b x Hb Hx. apply Hw. intros c Hc Hcx.
  assert (HD : disjoint_blocks b (c.1, block_of c.2)).
  { clear -H5 Hb Hc. apply client_block_elem in Hc.
    induction (free_blocks 0 F) as [|y l IH]; [by apply not_elem_of_nil in Hb|].
    simpl in H5. destruct H5 as [HF Hs]. apply elem_of_cons in Hb as [->|Hb]; [|by apply IH].
    rewrite Forall_forall in HF. apply HF, elem_of_app. by right. }
  rewrite Forall_forall in H7. destruct (block_of_fits c.2 0 (H7 c Hc)) as (Hfit & _).
  unfold disjoint_blocks, in_block in *. simpl in *. lia.
Qed.

Lemma heap_step_good st st' : heap_step st st' -> heap_good st -> heap_good st'.
Proof.
  destruct 1 as [ly a m L p a' m' Hly E|p ly a m L L' a' m' HL E|a m L m' Hw]; intros [F Hr]; simpl in *.
  - destruct (fsb_alloc_spec a m F L ly Hr Hly) as (q & a2 & m2 & E2 & _ & HP).
    rewrite E in E2. simplify_eq.
    destruct HP as [[-> [F' HF']]|(Hq & _ & _ & F' & HF')]; exists F'; simpl; [done|].
    by rewrite (proj2 (Z.eqb_neq _ _) Hq).
  - apply (heap_rep_perm _ _ _ _ _ HL) in Hr.
    destruct (fsb_dealloc_spec a m F L' p ly Hr) as (a2 & m2 & F' & E2 & _ & HF').
    rewrite E in E2. simplify_eq. by exists F'.
  - exists F. by eapply client_write_rep.
Qed.

Lemma heap_steps_good st st' : rtc heap_step st st' -> heap_good st -> heap_good st'.
Proof. induction 1 as [|x y z Hs _ IH]; [done|]. intros Hg. by eapply IH, heap_step_good. Qed.

Lemma heap_reach_good start sz m st :
  rtc heap_step (FixedSizeBlockAllocator_init start sz FixedSizeBlockAllocator_new, m, []) st ->
  heap_good st.
Proof.
  intros Hr.
  assert (Hg : heap_good (FixedSizeBlockAllocator_init start sz
                            (FixedSizeBlockAllocator_new (H := H)), m, [])).
  { exists (replicate 9 []). apply heap_rep_init; try done. apply heap_rep_new. }
  by eapply heap_steps_good.
Qed.
End HeapSteps.

(** A fallback heap that hands out ever higher addresses and never reuses
    memory, used to evaluate the model. *)
Record BumpHeap : Type := mkBump { bump_next : Z; bump_end : Z; bump_live : list (Z * Layout) }.

Definition align_up (a n : Z) : Z := a + (- a) mod n.

#[export] Instance bump_heap : FallbackHeap BumpHeap := {|
  allocate_first_fit ly h m :=
    if l_align ly <=? 0 then (None, h, m)
    else
      let p := align_up (Z.max 8 (bump_next h)) (l_align ly) in
      if (p + l_size ly <=? bump_end h) && (bump_end h <? 2 ^ 64) &&
         forallb (fun b => b.1 + l_size b.2 <=? p) (bump_live h) then
        (Some p, mkBump (p + l_size ly) (bump_end h) ((p, ly) :: bump_live h), m)
      else (None, h, m);
  deallocate p ly h m :=
    (mkBump (bump_next h) (bump_end h)
       (remove_first (fun b => bool_decide (b = (p, ly))) (bump_live h)), m);
  allocations := bump_live;
  heap_init start sz := mkBump start (start + sz) [];
  heap_empty := mkBump 0 0 []
|}.

Lemma remove_first_perm {A} `{EqDecision A} (x : A) l1 l2 :
  remove_first (fun b => bool_decide (b = x)) (l1 ++ x :: l2) ≡ₚ l1 ++ l2.
Proof.
  induction l1 as [|y l1 IH]; simpl; [by rewrite bool_decide_true|].
  case_bool_decide as E; [subst; by rewrite Permutation_middle|by rewrite IH].
Qed.

#[export] Instance bump_heap_laws : FallbackLaws BumpHeap.
Proof.
  split; simpl; try done.
  - intros ly h m p h' m' Hs. destruct (Z.leb_spec (l_align ly) 0); [done|].
    set (q := align_up _ _). destruct (_ && _) eqn:E; [|done]. intros [= <- <- <-].
    assert (Hq : 8 <= q).
    { unfold q, align_up. pose proof (Z.mod_pos_bound (- Z.max 8 (bump_next h)) (l_align ly)). lia. }
    apply andb_true_iff in E as [E E3]. apply andb_true_iff in E as [E1 E2].
    apply Z.leb_le in E1. apply Z.ltb_lt in E2. split_and!; try done; try lia.
    + unfold q, align_up. rewrite Zplus_mod_idemp_r, Z.add_opp_diag_r. by apply Z.mod_0_l; lia.
    + unfold is_u64. lia.
    + apply Forall_forall. intros b Hb. rewrite forallb_forall in E3.
      specialize (E3 b). rewrite <- list_elem_of_In in E3. specialize (E3 Hb).
      apply Z.leb_le in E3. unfold disjoint_blocks. simpl. lia.
  - intros ly h m h' m'. destruct (_ <=? 0); [by intros [= <- <-]|].
    destruct (_ && _); [done|]. by intros [= <- <-].
  - intros p ly h m h' m' l1 l2 E [= <- <-]. simpl. rewrite E. split; [|done].
    apply remove_first_perm.
Qed.

(** C6: the kernel heap never hands out memory twice.  After any history of
    allocations, frees of held allocations and writes of the clients into
    their own memory, an allocation that is not null is aligned as asked,
    overlaps no allocation still held, and changes no byte of them; the free
    lists threaded through freed memory stay intact. *)
Theorem heap_alloc_safe {H : Type} {fh : FallbackHeap H} {fl : FallbackLaws H}
    (start sz : Z) (m0 m : mem) (a : FixedSizeBlockAllocator H) (L : list (Z * Layout))
    (ly : Layout) :
  rtc heap_step (FixedSizeBlockAllocator_init start sz FixedSizeBlockAllocator_new, m0, [])
    (a, m, L) -> layout_ok ly ->
  exists p a' m', fsb_alloc ly a m = Ret (p, a', m') /\ same_on L m m' /\
    (p <> 0 -> p mod l_align ly = 0 /\ Forall (disjoint_blocks (p, ly)) L /\
               heap_good (a', m', (p, ly) :: L)) /\
    (p = 0 -> heap_good (a', m', L)).
Proof.
  intros Hr Hly. apply heap_reach_good in Hr as [F Hr]. simpl in Hr.
  destruct (fsb_alloc_spec a m F L ly Hr Hly) as (p & a' & m' & E & Hs & HP).
  exists p, a', m'. split_and!; try done.
  - intros Hp. destruct HP as [[? _]|(_ & H1 & H2 & F' & HF')]; [done|]. split_and!; try done.
    by exists F'.
  - intros ->. destruct HP as [[_ [F' HF']]|(? & _)]; [by exists F'|done].
Qed.

Definition demo_heap : FixedSizeBlockAllocator BumpHeap :=
  FixedSizeBlockAllocator_init 0x1000 0x1000 FixedSizeBlockAllocator_new.

Lemma heap_alloc_safe_witness :
  exists p a' m', fsb_alloc (mkLayout 24 8)
      (mkFSB (replicate 9 0) (mkBump 0x1020 0x2000 [(0x1000, mkLayout 32 32)])) zero_mem =
      Ret (p, a', m') /\ p <> 0 /\ Forall (disjoint_blocks (p, mkLayout 24 8)) [(0x1000, mkLayout 32 8)].
Proof.
  destruct (heap_alloc_safe 0x1000 0x1000 zero_mem zero_mem
    (mkFSB (replicate 9 0) (mkBump 0x1020 0x2000 [(0x1000, mkLayout 32 32)]))
    [(0x1000, mkLayout 32 8)] (mkLayout 24 8)) as (p & a' & m' & E & _ & H1 & _).
  - eapply rtc_l; [|apply rtc_refl].
    eapply (hs_alloc (mkLayout 32 8) demo_heap zero_mem [] 0x1000).
    + split; simpl; [lia|]. exists 3. split; [lia|reflexivity].
    + reflexivity.
  - split; simpl; [lia|]. exists 3. split; [lia|reflexivity].
  - exists p, a', m'. split; [exact E|].
    assert (Hp : p <> 0).
    { intros ->. vm_compute in E. discriminate. }
    split; [exact Hp|]. apply H1. exact Hp.
Defined.

(** C34: freeing works as the inverse of allocating: a held allocation is given
    back without touching the other allocations, and a later request of the
    same size class gets exactly that block, from the top of the free list. *)
Theorem heap_dealloc_realloc {H : Type} {fh : FallbackHeap H} {fl : FallbackLaws H}
    (a : FixedSizeBlockAllocator H) (m : mem) (L L' : list (Z * Layout)) (p : Z) (ly ly' : Layout) :
  heap_good (a, m, L) -> L ≡ₚ (p, ly) :: L' -> is_Some (list_index ly) ->
  list_index ly' = list_index ly ->
  exists a1 m1 a2 m2, fsb_dealloc p ly a m = Ret (a1, m1) /\ same_on L' m m1 /\
    heap_good (a1, m1, L') /\ fsb_alloc ly' a1 m1 = Ret (p, a2, m2) /\
    list_heads a2 = list_heads a.
Proof.
  intros [F Hr] HL [i Hi] Hi'. simpl in Hr. apply (heap_rep_perm _ _ _ _ _ HL) in Hr.
  destruct (fsb_dealloc_spec a m F L' p ly Hr) as (a1 & m1 & F' & E & Hs & Hr1).
  exists a1, m1. unfold fsb_dealloc in E. rewrite Hi in E.
  destruct (list_heads a !! i) as [head|] eqn:Hh; [|done].
  destruct (BLOCK_SIZES !! i) as [s|] eqn:Hbs; [|done]. destruct (_ && _); [|done]. simplify_eq.
  assert (Hp : p <> 0).
  { pose proof (hr_ok _ _ _ _ Hr) as H6. simpl in H6. rewrite <- Permutation_middle in H6.
    by apply Forall_cons in H6 as [[? _] _]. }
  assert (Hlt : (i < length (list_heads a))%nat) by by eapply lookup_lt_Some.
  assert (Hhead : is_u64 head).
  { destruct (lookup_lt_is_Some_2 F i) as [l Hl].
    - rewrite (hr_lists _ _ _ _ Hr), <- (hr_heads _ _ _ _ Hr). done.
    - exact (head_u64 _ _ _ _ _ _ _ Hr Hh Hl). }
  eexists _, _. split_and!; [|done|by exists F'| |].
  - unfold fsb_dealloc. rewrite Hi, Hh, Hbs. apply BLOCK_SIZES_pow in Hbs as [_ H8].
    unfold SIZEOF_ListNode, ALIGNOF_ListNode. by rewrite (proj2 (Z.leb_le 8 s)) by lia.
  - unfold fsb_alloc. rewrite Hi', Hi. simpl. rewrite list_lookup_insert_eq by done.
    rewrite (proj2 (Z.eqb_neq p 0)) by done. reflexivity.
  - simpl. rewrite list_insert_insert_eq. rewrite load64_store64 by done. by apply list_insert_id.
Qed.

Lemma heap_dealloc_realloc_witness :
  exists a1 m1 a2 m2, fsb_dealloc 0x1000 (mkLayout 32 8)
      (mkFSB (replicate 9 0) (mkBump 0x1020 0x2000 [(0x1000, mkLayout 32 32)])) zero_mem =
      Ret (a1, m1) /\ fsb_alloc (mkLayout 20 4) a1 m1 = Ret (0x1000, a2, m2).
Proof.
  destruct (heap_dealloc_realloc
    (mkFSB (replicate 9 0) (mkBump 0x1020 0x2000 [(0x1000, mkLayout 32 32)])) zero_mem
    [(0x1000, mkLayout 32 8)] [] 0x1000 (mkLayout 32 8) (mkLayout 20 4))
    as (a1 & m1 & a2 & m2 & H1 & _ & _ & H2 & _).
  - apply (heap_reach_good 0x1000 0x1000 zero_mem). eapply rtc_l; [|apply rtc_refl].
    eapply (hs_alloc (mkLayout 32 8) demo_heap zero_mem [] 0x1000).
    + split; simpl; [lia|]. exists 3. split; [lia|reflexivity].
    + reflexivity.
  - reflexivity.
  - exists 2%nat. reflexivity.
  - reflexivity.
  - exists a1, m1, a2, m2. split; [exact H1|exact H2].
Defined.
