(* ===== verification/Memory.v ===== *)
(** * Memory: boot-time frames and page tables (src/src/memory.rs)

    [BootInfoFrameAllocator] hands out the usable frames of the bootloader's
    memory map in order.  [translate_addr] walks the four levels of page
    tables; [map_user_page] maps a page through the mapper of the [x86_64]
    crate and then sets the user bit in the three parent entries.  The tables
    live in memory, at the offset where physical memory is mapped.  The value
    of [Cr3::read()] is an argument. *)

From stdpp Require Import base sets numbers list.
From S2P Require Import Prelude Mem X86.
Local Open Scope Z_scope.
Local Open Scope ruix_scope.

(* ------------------------------------------------------------------ *)
(** ** The boot frame allocator *)

(** A region of the bootloader's memory map.  The region types are those of
    the [bootloader] crate; the kernel only compares them with [Usable]. *)
Record BootRegion (RT : Type) : Type := mkBootRegion {
  range_start : Z;
  range_end : Z;
  region_type : RT
}.
Arguments mkBootRegion {RT}.
Arguments range_start {RT}.
Arguments range_end {RT}.
Arguments region_type {RT}.

Record BootInfoFrameAllocator (RT : Type) : Type := mkBootInfoFrameAllocator {
  memory_map : list (BootRegion RT);
  next : Z
}.
Arguments mkBootInfoFrameAllocator {RT}.
Arguments memory_map {RT}.
Arguments next {RT}.

(** [(a..b).step_by(4096)] *)
Definition step_by_4096 (a b : Z) : list Z :=
  (fun i => a + 4096 * Z.of_nat i) <$> seq 0 (Z.to_nat ((b - a + 4095) / 4096)).

Section BootFrames.
Context `{X86Addr} {RT : Type} `{EqDecision RT} (Usable : RT).

(** [BootInfoFrameAllocator::init] *)
Definition BootInfoFrameAllocator_init (mm : list (BootRegion RT)) : BootInfoFrameAllocator RT :=
  mkBootInfoFrameAllocator mm 0.

(** The addresses [usable_frames] turns into frames. *)
Definition usable_addresses (fa : BootInfoFrameAllocator RT) : list Z :=
  flat_map (fun r => step_by_4096 (range_start r) (range_end r))
    (List.filter (fun r => bool_decide (region_type r = Usable)) (memory_map fa)).

(** [self.usable_frames().nth(n)]: the iterator is lazy, so the frames up to
    the one asked for are built, and only those. *)
Fixpoint usable_frames_nth (addrs : list Z) (n : nat) : outcome (option Z) :=
  match addrs with
  | [] => Ret None
  | a :: addrs =>
      let! p := PhysAddr_new a in
      match n with
      | O => Ret (Some (frame_containing p))
      | S n => usable_frames_nth addrs n
      end
  end.

(** [allocate_frame] *)
Definition BootInfo_allocate_frame (fa : BootInfoFrameAllocator RT)
    : outcome (option Z * BootInfoFrameAllocator RT) :=
  let! frame := usable_frames_nth (usable_addresses fa) (Z.to_nat (next fa)) in
  let! n := add_u64 (next fa) 1 in
  Ret (frame, mkBootInfoFrameAllocator (memory_map fa) n).

#[export] Instance BootInfo_FrameAllocator : FrameAllocator (BootInfoFrameAllocator RT) :=
  BootInfo_allocate_frame.
End BootFrames.

(** [EmptyFrameAllocator] *)
Definition Empty_allocate_frame : FrameAllocator unit := fun u => Ret (None, u).

(* ------------------------------------------------------------------ *)
(** ** Page tables *)

Section PageTables.
Context `{X86Addr, X86Flags, X86Paging}.

(** [active_level_4_table] *)
Definition active_level_4_table (cr3 physical_memory_offset : Z) : outcome Z :=
  let! virt := VirtAddr_add physical_memory_offset cr3 in
  let! _ := deref 4096 virt in
  Ret virt.

(** [memory::init] *)
Definition memory_init (cr3 physical_memory_offset : Z) : outcome OffsetPageTable :=
  let! level_4_table := active_level_4_table cr3 physical_memory_offset in
  Ret {| phys_offset := physical_memory_offset; level_4_table := level_4_table |}.

(** The loop of [translate_addr_inner] *)
Fixpoint translate_walk (physical_memory_offset : Z) (m : mem) (frame : Z)
    (table_indexes : list Z) : outcome (option Z) :=
  match table_indexes with
  | [] => Ret (Some frame)
  | index :: rest =>
      let! virt := VirtAddr_add physical_memory_offset frame in
      let! _ := deref 4096 virt in
      match entry_frame (load64 m (virt + 8 * index)) with
      | Ok frame => translate_walk physical_memory_offset m frame rest
      | Err FrameNotPresent => Ret None
      | Err HugeFrame => Panic
      end
  end.

(** [translate_addr] and [translate_addr_inner]; the sum of a physical address
    and an offset panics beyond 52 bits, as [PhysAddr::new] does. *)
Definition translate_addr (cr3 : Z) (m : mem) (addr physical_memory_offset : Z)
    : outcome (option Z) :=
  let! r := translate_walk physical_memory_offset m cr3
              [p4_index addr; p3_index addr; p2_index addr; p1_index addr] in
  match r with
  | None => Ret None
  | Some frame =>
      let! a := add_u64 frame (page_offset addr) in
      let! p := PhysAddr_new a in
      Ret (Some p)
  end.

(** The loop of [set_user_bit_for_parents] *)
Fixpoint set_user_bits (phys_offset : Z) (m : mem) (table : Z) (indexes : list Z)
    : outcome mem :=
  match indexes with
  | [] => Ret m
  | index :: rest =>
      let entry := load64 m (table + 8 * index) in
      let entry := entry_set_flags entry (Z.lor (entry_flags entry) FLAG_USER_ACCESSIBLE) in
      let m := store64 m (table + 8 * index) entry in
      match entry_frame entry with
      | Err _ => Panic
      | Ok frame =>
          let! next_table_virt := VirtAddr_add phys_offset frame in
          let! _ := deref 4096 next_table_virt in
          set_user_bits phys_offset m next_table_virt rest
      end
  end.

(** [set_user_bit_for_parents] *)
Definition set_user_bit_for_parents (addr : Z) (mapper : OffsetPageTable) (m : mem)
    : outcome mem :=
  set_user_bits (phys_offset mapper) m (level_4_table mapper)
    [p4_index addr; p3_index addr; p2_index addr].

Definition USER_FLAGS : Z := Z.lor (Z.lor FLAG_PRESENT FLAG_WRITABLE) FLAG_USER_ACCESSIBLE.

(** [map_user_page]; an error of the mapper panics ([expect]). *)
Definition map_user_page {F} `{Mapper F} (page frame : Z) (mapper : OffsetPageTable)
    (m : mem) (fa : F) : outcome (mem * F) :=
  let! r := map_to page frame USER_FLAGS mapper m fa in
  match r with
  | (Err _, _, _) => Panic
  | (Ok _, m, fa) =>
      let! m := set_user_bit_for_parents page mapper m in
      Ret (m, fa)
  end.

(** [create_example_mapping] *)
Definition create_example_mapping {F} `{Mapper F} (page : Z) (mapper : OffsetPageTable)
    (m : mem) (fa : F) : outcome (mem * F) :=
  let! addr := PhysAddr_new 0xb8000 in
  let frame := frame_containing addr in
  let! r := map_to page frame (Z.lor FLAG_PRESENT FLAG_WRITABLE) mapper m fa in
  match r with
  | (Err _, _, _) => Panic
  | (Ok _, m, fa) => Ret (m, fa)
  end.
End PageTables.

(* ------------------------------------------------------------------ *)
(** ** What the boot allocator hands out *)

(** A memory map as the bootloader builds it: frame-aligned regions of
    physical memory that do not overlap. *)
Definition region_ok {RT} (r : BootRegion RT) : Prop :=
  0 <= range_start r <= range_end r /\ range_end r <= 2 ^ 52 /\
  range_start r mod 4096 = 0 /\ range_end r mod 4096 = 0.

Definition regions_disjoint {RT} (r1 r2 : BootRegion RT) : Prop :=
  range_end r1 <= range_start r2 \/ range_end r2 <= range_start r1.

Record memory_map_ok {RT} (mm : list (BootRegion RT)) : Prop := {
  mm_regions : Forall region_ok mm;
  mm_disjoint : ForallOrdPairs regions_disjoint mm
}.

(** [n] successive calls of [allocate_frame] and their results. *)
Fixpoint allocate_frames {F} `{FrameAllocator F} (n : nat) (fa : F)
    : outcome (list (option Z) * F) :=
  match n with
  | O => Ret ([], fa)
  | S n =>
      let! r := allocate_frame fa in
      let '(f, fa) := r in
      let! r := allocate_frames n fa in
      let '(fs, fa) := r in
      Ret (f :: fs, fa)
  end.

Lemma elem_of_step_by a b x :
  a mod 4096 = 0 -> b mod 4096 = 0 ->
  x ∈ step_by_4096 a b <-> a <= x < b /\ x mod 4096 = 0.
Proof.
  intros Ha Hb. unfold step_by_4096. rewrite list_elem_of_fmap. setoid_rewrite elem_of_seq. split.
  - intros (i & -> & Hi).
    assert (Z.of_nat i < (b - a + 4095) / 4096) by lia.
    split; [|Z.div_mod_to_equations; lia]. Z.div_mod_to_equations; lia.
  - intros [Hx Hm]. exists (Z.to_nat ((x - a) / 4096)).
    split; [Z.div_mod_to_equations; lia|]. split; [lia|]. simpl.
    rewrite Nat2Z.inj_lt, !Z2Nat.id; Z.div_mod_to_equations; lia.
Qed.

Lemma NoDup_step_by a b : NoDup (step_by_4096 a b).
Proof. apply NoDup_fmap_2; [intros i j; lia|apply NoDup_seq]. Qed.

Section BootFrameFacts.
Context `{X86AddrLaws} {RT : Type} `{EqDecision RT} (Usable : RT).
Implicit Types (mm : list (BootRegion RT)).

Lemma elem_of_usable mm x :
  Forall region_ok mm ->
  x ∈ usable_addresses Usable (BootInfoFrameAllocator_init mm) <->
  x mod 4096 = 0 /\ exists r, r ∈ mm /\ region_type r = Usable /\ range_start r <= x < range_end r.
Proof.
  intros Hr. rewrite Forall_forall in Hr.
  unfold usable_addresses. rewrite list_elem_of_In, in_flat_map. setoid_rewrite <- list_elem_of_In.
  split.
  - intros (r & [Hin Ht]%elem_of_filterb & Hx). apply bool_decide_eq_true in Ht.
    destruct (Hr r Hin) as (_ & _ & H1 & H2). apply elem_of_step_by in Hx as [? ?]; [|done..].
    split; [done|]. by exists r.
  - intros (Hm & r & Hin & Ht & Hx). exists r. split.
    + apply elem_of_filterb. split; [done|]. by apply bool_decide_eq_true.
    + destruct (Hr r Hin) as (_ & _ & H1 & H2). by apply elem_of_step_by.
Qed.

Lemma NoDup_usable mm : memory_map_ok mm ->
  NoDup (usable_addresses Usable (BootInfoFrameAllocator_init mm)).
Proof.
  intros [Hr Hd]. unfold usable_addresses. simpl.
  induction Hd as [|r mm Hrd _ IH]; simpl; [constructor|].
  inversion Hr as [|? ? Hr1 Hr2]; subst. destruct (bool_decide _); [|by apply IH]. simpl.
  apply NoDup_app. split_and!; [apply NoDup_step_by| |by apply IH].
  intros x Hx1 Hx2. destruct Hr1 as (_ & _ & M1 & M2).
  apply elem_of_step_by in Hx1 as [Hx1 _]; [|done..].
  apply (elem_of_usable mm) in Hx2 as (_ & r' & Hin & _ & Hx2); [|done].
  rewrite List.Forall_forall in Hrd. apply list_elem_of_In in Hin. destruct (Hrd r' Hin); lia.
Qed.

Lemma usable_nth addrs n :
  Forall (fun a => 0 <= a < 2 ^ 52 /\ a mod 4096 = 0) addrs ->
  usable_frames_nth addrs n = Ret (addrs !! n).
Proof.
  intros Ha. revert n. induction Ha as [|a addrs [H1 H2] _ IH]; intros n; [done|].
  simpl. rewrite PhysAddr_new_ok, bind_ret by done. destruct n as [|n]; [|apply IH].
  rewrite frame_containing_eq, H2, Z.sub_0_r by lia. done.
Qed.

Lemma boot_allocate_frame mm k :
  Forall region_ok mm -> Z.of_nat k + 1 < 2 ^ 64 ->
  BootInfo_allocate_frame Usable (mkBootInfoFrameAllocator mm (Z.of_nat k))
  = Ret (usable_addresses Usable (BootInfoFrameAllocator_init mm) !! k,
         mkBootInfoFrameAllocator mm (Z.of_nat (S k))).
Proof.
  intros Hr Hk. unfold BootInfo_allocate_frame. cbn [next memory_map].
  rewrite usable_nth, bind_ret, add_u64_ret, bind_ret, Nat2Z.id by
    (try (apply Forall_forall; intros a Ha; apply (elem_of_usable mm) in Ha as (? & r & Hin & _ & ?);
      [rewrite Forall_forall in Hr; destruct (Hr r Hin) as (? & ? & _); split; [lia|done]|done]); lia).
  do 3 f_equal. lia.
Qed.

Lemma boot_allocate_frames mm n k :
  Forall region_ok mm -> Z.of_nat (k + n) < 2 ^ 64 ->
  allocate_frames (H := BootInfo_FrameAllocator Usable) n (mkBootInfoFrameAllocator mm (Z.of_nat k))
  = Ret ((fun i => usable_addresses Usable (BootInfoFrameAllocator_init mm) !! i) <$> seq k n,
         mkBootInfoFrameAllocator mm (Z.of_nat (k + n))).
Proof.
  intros Hr. revert k. induction n as [|n IH]; intros k Hk.
  - simpl. by rewrite Nat.add_0_r.
  - cbn [allocate_frames]. unfold allocate_frame, BootInfo_FrameAllocator.
    rewrite boot_allocate_frame, bind_ret by (done || lia). cbv beta iota.
    rewrite IH, bind_ret by lia. simpl. do 3 f_equal. lia.
Qed.
End BootFrameFacts.

(* ------------------------------------------------------------------ *)
(** ** Walks and the user bit *)

Section PageTableFacts.
Context `{X86AddrLaws} `{X86FlagsLaws} `{!X86Paging} `{!X86PagingLaws}.
Implicit Types (m : mem).

(** An entry that differs from another at most by the user bit. *)
Definition user_upgrade (e e' : Z) : Prop :=
  entry_addr e' = entry_addr e /\
  (entry_flags e' = entry_flags e \/
   entry_flags e' = Z.lor (entry_flags e) FLAG_USER_ACCESSIBLE).

(** Every word of memory that can be a page-table entry is upgraded. *)
Definition tables_upgraded m m' : Prop :=
  forall a, a mod 8 = 0 -> user_upgrade (load64 m a) (load64 m' a).

Definition user_entry m (a : Z) : Prop :=
  has_flag FLAG_USER_ACCESSIBLE (entry_flags (load64 m a)) = true.

Lemma has_flag_testbit k f : 0 <= k -> has_flag (2 ^ k) f = Z.testbit f k.
Proof.
  intros Hk. unfold has_flag. destruct (Z.testbit f k) eqn:E.
  - apply Z.eqb_eq, Z.bits_inj'. intros n Hn. rewrite Z.land_spec, Z.pow2_bits_eqb by lia.
    destruct (Z.eqb_spec k n) as [->|]; [by rewrite E|apply andb_false_r].
  - apply Z.eqb_neq. intros Heq. assert (Z.testbit (Z.land f (2 ^ k)) k = true) as HH.
    { rewrite Heq, Z.pow2_bits_eqb, Z.eqb_refl by lia. done. }
    rewrite Z.land_spec, E in HH. done.
Qed.

Lemma has_flag_lor_user k f :
  0 <= k -> has_flag (2 ^ k) (Z.lor f FLAG_USER_ACCESSIBLE) = has_flag (2 ^ k) f || (k =? 2).
Proof.
  intros Hk. rewrite FLAG_USER_ACCESSIBLE_bit, !has_flag_testbit, Z.lor_spec, Z.pow2_bits_eqb by lia.
  by rewrite Z.eqb_sym.
Qed.

Lemma user_lor_user f :
  has_flag FLAG_USER_ACCESSIBLE (Z.lor f FLAG_USER_ACCESSIBLE) = true.
Proof.
  apply Z.eqb_eq, Z.bits_inj'. intros n _. rewrite Z.land_spec, Z.lor_spec.
  by destruct (Z.testbit f n), (Z.testbit FLAG_USER_ACCESSIBLE n).
Qed.

#[export] Instance user_upgrade_preorder : PreOrder user_upgrade.
Proof.
  split; [split; auto|]. intros e1 e2 e3 [A1 F1] [A2 F2]. split; [congruence|].
  destruct F1 as [F1|F1], F2 as [F2|F2]; rewrite F2, F1; auto.
  right. by rewrite <- Z.lor_assoc, Z.lor_diag.
Qed.

#[export] Instance tables_upgraded_preorder : PreOrder tables_upgraded.
Proof.
  split; [intros m a _; reflexivity|].
  intros m1 m2 m3 U1 U2 a Ha. etransitivity; [by apply U1|by apply U2].
Qed.

Lemma upgrade_frame e e' : user_upgrade e e' -> entry_frame e' = entry_frame e.
Proof.
  intros [HA HF]. rewrite !entry_frame_eq, HA, FLAG_PRESENT_bit, FLAG_HUGE_PAGE_bit.
  destruct HF as [->| ->]; [done|]. rewrite !has_flag_lor_user by lia.
  by rewrite !orb_false_r.
Qed.

Lemma upgrade_user m m' a : tables_upgraded m m' -> a mod 8 = 0 -> user_entry m a -> user_entry m' a.
Proof.
  intros Hu Ha He. destruct (Hu a Ha) as [_ HF]. unfold user_entry in *.
  destruct HF as [-> | ->]; [done|]. apply user_lor_user.
Qed.

(** One iteration: the entry at [a] gets the user bit. *)
Definition add_user_bit m (a : Z) : mem :=
  let entry := load64 m a in
  store64 m a (entry_set_flags entry (Z.lor (entry_flags entry) FLAG_USER_ACCESSIBLE)).

Lemma add_user_bit_spec m a :
  bytes_ok m -> a mod 8 = 0 ->
  bytes_ok (add_user_bit m a) /\ tables_upgraded m (add_user_bit m a) /\
  user_entry (add_user_bit m a) a /\
  (forall x, ~ (a <= x < a + 8) -> add_user_bit m a x = m x).
Proof.
  intros Hm Ha. pose proof (load64_u64 m a Hm) as Hu.
  assert (Hl : load64 (add_user_bit m a) a = entry_set_flags (load64 m a)
            (Z.lor (entry_flags (load64 m a)) FLAG_USER_ACCESSIBLE)).
  { apply load64_store64. by apply entry_set_flags_u64. }
  split_and!.
  - by apply bytes_ok_store64.
  - intros b Hb. destruct (decide (b = a)) as [->|Hne].
    + rewrite Hl. split; [by apply entry_set_flags_addr|]. right. by apply entry_set_flags_flags.
    + unfold add_user_bit. rewrite load64_store64_ne; [reflexivity|]. Z.div_mod_to_equations; lia.
  - unfold user_entry. rewrite Hl, entry_set_flags_flags by done.
    apply user_lor_user.
  - intros x Hx. apply store_bytes_out. rewrite length_le_bytes. lia.
Qed.

(** The entries a walk from [table] visits, and the table it ends in;
    undefined where a parent entry has no table. *)
Fixpoint table_path (off : Z) m (table : Z) (indexes : list Z) : option (list Z * Z) :=
  match indexes with
  | [] => Some ([], table)
  | index :: rest =>
      match entry_frame (load64 m (table + 8 * index)) with
      | Err _ => None
      | Ok frame =>
          match (let! v := VirtAddr_add off frame in let! _ := deref 4096 v in Ret v) with
          | Panic => None
          | Ret v =>
              match table_path off m v rest with
              | None => None
              | Some (p, t) => Some (table + 8 * index :: p, t)
              end
          end
      end
  end.

Lemma table_path_upgraded off m m' table indexes :
  tables_upgraded m m' -> table mod 4096 = 0 ->
  table_path off m' table indexes = table_path off m table indexes.
Proof.
  intros Hu. revert table. induction indexes as [|i r IH]; intros table Ht; [done|]. simpl.
  rewrite (upgrade_frame (load64 m (table + 8 * i)) (load64 m' (table + 8 * i)))
    by (apply Hu; Z.div_mod_to_equations; lia).
  destruct (entry_frame _) as [f|]; [|done]. destruct (VirtAddr_add off f) as [v|]; [|done].
  simpl. destruct (deref 4096 v) eqn:E; [|done]. apply deref_inv in E as [_ E]. simpl.
  by rewrite IH.
Qed.

Lemma table_path_aligned off m table indexes p t :
  table mod 4096 = 0 -> table_path off m table indexes = Some (p, t) -> t mod 4096 = 0.
Proof.
  revert table p. induction indexes as [|i r IH]; intros table p Ht Hp; simpl in Hp; [by simplify_eq|].
  destruct (entry_frame _) as [f|]; [|done]. destruct (VirtAddr_add off f) as [v|]; [|done].
  simpl in Hp. destruct (deref 4096 v) eqn:E; [|done]. apply deref_inv in E as [_ E]. simpl in Hp.
  destruct (table_path off m v r) as [[p' t']|] eqn:Er; [|done]. simplify_eq. by apply (IH v p').
Qed.

Lemma translate_walk_upgraded off m m' frame indexes :
  tables_upgraded m m' ->
  translate_walk off m' frame indexes = translate_walk off m frame indexes.
Proof.
  intros Hu. revert frame. induction indexes as [|i r IH]; intros frame; [done|]. simpl.
  destruct (VirtAddr_add off frame) as [v|]; [|done]. simpl.
  destruct (deref 4096 v) eqn:E; [|done]. apply deref_inv in E as [_ E]. simpl.
  rewrite (upgrade_frame (load64 m (v + 8 * i)) (load64 m' (v + 8 * i)))
    by (apply Hu; Z.div_mod_to_equations; lia).
  destruct (entry_frame _) as [f|[]]; [apply IH|done..].
Qed.

Lemma set_user_bits_spec off indexes m table p t :
  bytes_ok m -> table mod 4096 = 0 -> table_path off m table indexes = Some (p, t) ->
  exists m', set_user_bits off m table indexes = Ret m' /\ bytes_ok m' /\
    tables_upgraded m m' /\ Forall (user_entry m') p /\
    (forall x, (forall a, a ∈ p -> ~ (a <= x < a + 8)) -> m' x = m x).
Proof.
  revert m table p t. induction indexes as [|i r IH]; intros m table p t Hm Ht Hp; simpl in *.
  { simplify_eq. exists m. split_and!; try done. }
  set (a := table + 8 * i) in *.
  destruct (add_user_bit_spec m a Hm) as (B1 & B2 & B3 & B4); [unfold a; Z.div_mod_to_equations; lia|].
  assert (Hf : entry_frame (entry_set_flags (load64 m a)
            (Z.lor (entry_flags (load64 m a)) FLAG_USER_ACCESSIBLE)) = entry_frame (load64 m a)).
  { apply upgrade_frame. pose proof (load64_u64 m a Hm).
    split; [by apply entry_set_flags_addr|]. right. by apply entry_set_flags_flags. }
  rewrite Hf. destruct (entry_frame (load64 m a)) as [f|]; [|done].
  destruct (VirtAddr_add off f) as [v|]; [|done]. simpl in *.
  destruct (deref 4096 v) eqn:Hd; [|done]. simpl in *. apply deref_inv in Hd as [_ Hd].
  destruct (table_path off m v r) as [[p' t']|] eqn:Hr; [|done]. simplify_eq.
  rewrite <- (table_path_upgraded _ m (add_user_bit m a)) in Hr by done.
  destruct (IH _ _ _ _ B1 Hd Hr) as (m' & E & C1 & C2 & C3 & C4).
  exists m'. split_and!; try done.
  - by transitivity (add_user_bit m a).
  - constructor; [|done]. apply (upgrade_user (add_user_bit m a)); [done| |done].
    unfold a. Z.div_mod_to_equations; lia.
  - intros x Hx. rewrite C4 by (intros b Hb; apply Hx; set_solver).
    apply B4, Hx. set_solver.
Qed.

Lemma set_user_bits_path off indexes m table m' :
  bytes_ok m -> table mod 4096 = 0 -> set_user_bits off m table indexes = Ret m' ->
  is_Some (table_path off m table indexes).
Proof.
  revert m table. induction indexes as [|i r IH]; intros m table Hm Ht E; simpl in *; [by eexists|].
  set (a := table + 8 * i) in *.
  destruct (add_user_bit_spec m a Hm) as (B1 & B2 & _ & _); [unfold a; Z.div_mod_to_equations; lia|].
  rewrite (upgrade_frame (load64 m a)) in E.
  2:{ pose proof (load64_u64 m a Hm). split; [by apply entry_set_flags_addr|].
      right. by apply entry_set_flags_flags. }
  destruct (entry_frame (load64 m a)) as [f|]; [|done].
  destruct (VirtAddr_add off f) as [v|]; [|done]. simpl in *.
  destruct (deref 4096 v) eqn:Hd; [|done]. simpl in *. apply deref_inv in Hd as [_ Hd].
  apply IH in E as [[p t] E]; [|done..]. rewrite (table_path_upgraded _ m) in E by done.
  rewrite E. by eexists.
Qed.
End PageTableFacts.

(* ------------------------------------------------------------------ *)
(** ** The mapper *)

Section MapperLaws.
Context `{X86Addr, X86Flags, X86Paging}.

(** The walk of [a] through its three parents to the leaf entry. *)
Definition leaf_path (mp : OffsetPageTable) (m : mem) (a : Z) : option (list Z * Z) :=
  match table_path (phys_offset mp) m (level_4_table mp) [p4_index a; p3_index a; p2_index a] with
  | None => None
  | Some (p, t) => Some (p, t + 8 * p1_index a)
  end.

Definition HEAP_FLAGS : Z := Z.lor FLAG_PRESENT FLAG_WRITABLE.

(** What [map_to] documents: on success the walk of the page ends in an entry
    that holds the frame with the flags asked for, the page was not mapped
    before, mappings that existed are kept, and frames for new tables are
    taken from the frame allocator. *)
Class MapperLaws (F : Type) `{FrameAllocator F, Mapper F} : Prop := {
  map_to_ok page frame flags mp m (fa fa' : F) m' :
    bytes_ok m -> level_4_table mp mod 4096 = 0 ->
    0 <= frame < 2 ^ 52 -> frame mod 4096 = 0 -> flags = USER_FLAGS \/ flags = HEAP_FLAGS ->
    map_to page frame flags mp m fa = Ret (Ok tt, m', fa') ->
    bytes_ok m' /\
    exists p leaf, leaf_path mp m' page = Some (p, leaf) /\
      entry_addr (load64 m' leaf) = frame /\ entry_flags (load64 m' leaf) = flags;
  map_to_keeps page frame flags mp m (fa fa' : F) m' a p leaf f :
    bytes_ok m -> level_4_table mp mod 4096 = 0 ->
    0 <= frame < 2 ^ 52 -> frame mod 4096 = 0 -> flags = USER_FLAGS \/ flags = HEAP_FLAGS ->
    map_to page frame flags mp m fa = Ret (Ok tt, m', fa') ->
    leaf_path mp m a = Some (p, leaf) -> entry_frame (load64 m leaf) = Ok f ->
    leaf_path mp m' a = Some (p, leaf) /\ entry_frame (load64 m' leaf) = Ok f;
  map_to_allocates page frame flags mp m (fa fa' : F) r m' :
    map_to page frame flags mp m fa = Ret (r, m', fa') ->
    exists n fs, allocate_frames n fa = Ret (fs, fa')
}.
End MapperLaws.

(** A mapper that fills a free leaf entry under tables that exist already,
    used to evaluate the model. *)
Definition leaf_mapper {F} : Mapper F := fun page frame flags mp m fa =>
  match leaf_path mp m page with
  | None => Ret (Err FrameAllocationFailed, m, fa)
  | Some (_, leaf) =>
      match entry_frame (load64 m leaf) with
      | Err FrameNotPresent => Ret (Ok tt, store64 m leaf (Z.lor frame flags), fa)
      | Err HugeFrame => Ret (Err ParentEntryHugePage, m, fa)
      | Ok f => Ret (Err (PageAlreadyMapped f), m, fa)
      end
  end.

Section LeafMapper.

(** Filling an entry that is not present leaves every walk that succeeded
    unchanged: none of them read it. *)
Lemma table_path_fill off m s v table indexes p t :
  entry_frame (load64 m s) = Err FrameNotPresent -> s mod 8 = 0 -> table mod 4096 = 0 ->
  table_path off m table indexes = Some (p, t) ->
  table_path off (store64 m s v) table indexes = Some (p, t).
Proof.
  intros Hs Hm. revert table p t. induction indexes as [|i r IH]; intros table p t Ht Hp.
  { cbn [table_path] in *. by simplify_eq. }
  cbn [table_path] in *. destruct (decide (table + 8 * i = s)) as [Es|Hne].
  { rewrite Es, Hs in Hp. done. }
  rewrite load64_store64_ne by (Z.div_mod_to_equations; lia).
  destruct (entry_frame (load64 m (table + 8 * i))) as [f|]; [|done].
  destruct (VirtAddr_add off f) as [w|]; [|done]. rewrite bind_ret in *.
  destruct (deref 4096 w) eqn:E; [|done]. rewrite bind_ret in *.
  apply deref_inv in E as [_ E].
  destruct (table_path off m w r) as [[p' t']|] eqn:Hr; [|done]. simplify_eq.
  by rewrite (IH _ _ _ E Hr).
Qed.

Lemma lor_entry frame flags :
  0 <= frame < 2 ^ 52 -> frame mod 4096 = 0 -> flags = USER_FLAGS \/ flags = HEAP_FLAGS ->
  is_u64 (Z.lor frame flags) /\ entry_addr (Z.lor frame flags) = frame /\
  entry_flags (Z.lor frame flags) = flags.
Proof.
  intros Hf Ha Hfl.
  assert (Hand : Z.land frame ADDR_MASK = frame).
  { apply Z.bits_inj'. intros n Hn. rewrite Z.land_spec.
    replace ADDR_MASK with (Z.shiftl (Z.ones 40) 12) by reflexivity.
    rewrite Z.shiftl_spec by lia. destruct (Z.lt_ge_cases n 12) as [H12|H12].
    - rewrite (Z.testbit_neg_r (Z.ones 40)), andb_false_r by lia.
      rewrite <- (Z.mod_pow2_bits_low frame 12 n) by lia. change (2 ^ 12) with 4096. rewrite Ha.
      by rewrite Z.bits_0.
    - rewrite Z.testbit_ones by lia. destruct (Z.lt_ge_cases n 52).
      + by rewrite (proj2 (Z.leb_le _ _)), (proj2 (Z.ltb_lt _ _)), andb_true_r by lia.
      + rewrite <- (Z.mod_small frame (2 ^ 52)), Z.mod_pow2_bits_high by lia. done. }
  assert (Hlo : Z.land frame FLAG_MASK = 0).
  { rewrite <- Hand, <- Z.land_assoc. change (Z.land ADDR_MASK FLAG_MASK) with 0. apply Z.land_0_r. }
  assert (Hs : Z.lor frame flags = frame + flags).
  { rewrite Z.add_nocarry_lxor, Z.lxor_lor; [done| |].
    all: rewrite <- Hand, <- Z.land_assoc; destruct Hfl as [-> | ->];
      [change (Z.land ADDR_MASK USER_FLAGS) with 0|change (Z.land ADDR_MASK HEAP_FLAGS) with 0];
      apply Z.land_0_r. }
  split_and!.
  - rewrite Hs. unfold is_u64. destruct Hfl as [-> | ->]; [change USER_FLAGS with 7|change HEAP_FLAGS with 3]; lia.
  - cbn [entry_addr x86_paging_doc]. rewrite Z.land_lor_distr_l, Hand.
    destruct Hfl as [-> | ->]; apply Z.lor_0_r.
  - cbn [entry_flags x86_paging_doc]. rewrite Z.land_lor_distr_l, Hlo.
    by destruct Hfl as [-> | ->].
Qed.
End LeafMapper.

#[export] Instance leaf_mapper_laws {F} `{FrameAllocator F} : MapperLaws F (H3 := leaf_mapper).
Proof.
  split.
  - intros page frame flags mp m fa fa' m' Hm Hl Hf Ha Hfl E.
    unfold map_to, leaf_mapper, leaf_path in *.
    destruct (table_path _ m _ _) as [[p t]|] eqn:Hp; [|by simplify_eq].
    destruct (entry_frame _) as [|[]] eqn:He; simplify_eq.
    pose proof (table_path_aligned _ _ _ _ _ _ Hl Hp) as Ht.
    assert (Hs : (t + 8 * p1_index page) mod 8 = 0) by (Z.div_mod_to_equations; lia).
    destruct (lor_entry frame flags) as (L1 & L2 & L3); [done..|].
    split; [by apply bytes_ok_store64|]. exists p, (t + 8 * p1_index page).
    rewrite (table_path_fill _ m _ _ _ _ p t) by done. rewrite load64_store64 by done. done.
  - intros page frame flags mp m fa fa' m' a p leaf f Hm Hl Hf Ha Hfl E Hleaf Hent.
    unfold map_to, leaf_mapper, leaf_path in *.
    destruct (table_path _ m _ [p4_index page; _; _]) as [[p1 t1]|] eqn:Hp; [|by simplify_eq].
    destruct (entry_frame (load64 m (t1 + _))) as [|[]] eqn:He; simplify_eq.
    destruct (table_path _ m _ [p4_index a; _; _]) as [[p2 t2]|] eqn:Hp2; [|by simplify_eq].
    simplify_eq.
    pose proof (table_path_aligned _ _ _ _ _ _ Hl Hp) as Ht1.
    pose proof (table_path_aligned _ _ _ _ _ _ Hl Hp2) as Ht2.
    rewrite (table_path_fill _ m _ _ _ _ p t2) by (done || (Z.div_mod_to_equations; lia)).
    split; [done|]. rewrite load64_store64_ne; [done|].
    assert (t2 + 8 * p1_index a <> t1 + 8 * p1_index page) as Hne by congruence.
    revert Hne. change ((page / 2 ^ 12) mod 512) with (p1_index page).
    generalize (p1_index a) (p1_index page). intros i j Hne. Z.div_mod_to_equations; lia.
  - intros page frame flags mp m fa fa' r m' E. exists O, []. unfold map_to, leaf_mapper in E.
    simpl. repeat case_match; by simplify_eq.
Qed.

(* ------------------------------------------------------------------ *)
(** ** Translation after mapping *)

Section Translation.
Context `{X86AddrLaws} `{X86FlagsLaws} `{!X86Paging} `{!X86PagingLaws}.
Implicit Types (m : mem).

Lemma translate_walk_path off m indexes i frame table p t :
  VirtAddr_add off frame = Ret table -> deref 4096 table = Ret tt ->
  table_path off m table indexes = Some (p, t) ->
  translate_walk off m frame (indexes ++ [i]) =
  match entry_frame (load64 m (t + 8 * i)) with
  | Ok f => Ret (Some f)
  | Err FrameNotPresent => Ret None
  | Err HugeFrame => Panic
  end.
Proof.
  revert frame table p. induction indexes as [|j r IH]; intros frame table p Hv Hd Hp;
    cbn [table_path app translate_walk] in *; rewrite Hv, bind_ret, Hd, bind_ret; [by simplify_eq|].
  destruct (entry_frame (load64 m (table + 8 * j))) as [f|]; [|done].
  destruct (VirtAddr_add off f) as [v|] eqn:Ev; [|done]. rewrite bind_ret in Hp.
  destruct (deref 4096 v) as [[]|] eqn:Ed; [|done]. rewrite bind_ret in Hp.
  destruct (table_path off m v r) as [[p' t']|] eqn:Er; [|done]. simplify_eq.
  by apply (IH f v p').
Qed.

(** A leaf entry gives the translation of every address of its page. *)
Lemma translate_leaf cr3 off mp m page p leaf frame k :
  memory_init cr3 off = Ret mp -> 0 <= page -> page mod 4096 = 0 ->
  0 <= frame < 2 ^ 52 -> frame mod 4096 = 0 -> 0 <= k < 4096 ->
  leaf_path mp m page = Some (p, leaf) -> entry_frame (load64 m leaf) = Ok frame ->
  translate_addr cr3 m (page + k) off = Ret (Some (frame + k)).
Proof.
  intros Hi Hp Hpm Hf Hfm Hk Hl He. unfold memory_init, active_level_4_table in Hi. inv_ret.
  match goal with E : deref _ ?x = Ret ?u |- _ => destruct u; rename x into table; rename E into Hd end.
  unfold leaf_path in Hl. cbn [phys_offset level_4_table] in Hl. unfold translate_addr.
  rewrite p4_index_eq, p3_index_eq, p2_index_eq, p1_index_eq, page_offset_eq in * by lia.
  replace ((page + k) / 2 ^ 39) with (page / 2 ^ 39) by (Z.div_mod_to_equations; lia).
  replace ((page + k) / 2 ^ 30) with (page / 2 ^ 30) by (Z.div_mod_to_equations; lia).
  replace ((page + k) / 2 ^ 21) with (page / 2 ^ 21) by (Z.div_mod_to_equations; lia).
  replace ((page + k) / 2 ^ 12) with (page / 2 ^ 12) by (Z.div_mod_to_equations; lia).
  replace ((page + k) mod 4096) with k by (Z.div_mod_to_equations; lia).
  destruct (table_path _ m _ _) as [[p' t]|] eqn:Ht; [|done]. simplify_eq.
  match goal with Hv : VirtAddr_add _ _ = Ret _ |- _ =>
    pose proof (translate_walk_path _ _ _ ((page / 2 ^ 12) mod 512) _ _ _ _ Hv Hd Ht) as Hw end.
  cbn [app] in Hw. rewrite Hw, He, bind_ret. cbv beta iota.
  rewrite add_u64_ret, bind_ret, PhysAddr_new_ok, bind_ret by (Z.div_mod_to_equations; lia). done.
Qed.

Lemma memory_init_aligned cr3 off mp :
  memory_init cr3 off = Ret mp -> level_4_table mp mod 4096 = 0.
Proof.
  unfold memory_init, active_level_4_table. intros Hi. inv_ret. simplify_eq/=.
  match goal with E : deref _ _ = Ret _ |- _ => by apply deref_inv in E as [_ E] end.
Qed.

Lemma leaf_path_upgraded mp m m' a :
  tables_upgraded m m' -> level_4_table mp mod 4096 = 0 -> leaf_path mp m' a = leaf_path mp m a.
Proof. intros Hu Hl. unfold leaf_path. by rewrite (table_path_upgraded _ m m'). Qed.

Lemma leaf_aligned mp m a p leaf :
  level_4_table mp mod 4096 = 0 -> leaf_path mp m a = Some (p, leaf) -> leaf mod 8 = 0.
Proof.
  intros Hl Hp. unfold leaf_path in Hp.
  destruct (table_path _ m _ _) as [[p' t]|] eqn:Ht; [|done]. simplify_eq.
  apply table_path_aligned in Ht; [|done]. Z.div_mod_to_equations; lia.
Qed.
End Translation.

(* ------------------------------------------------------------------ *)
(** ** Properties *)

(** The boot allocator hands out every usable frame once.  On a memory map
    of disjoint frame-aligned regions, [n] calls return the first [n] elements
    of a fixed list without repetitions, and [None] after its end; the list
    holds exactly the page-aligned addresses of the usable regions. *)
Theorem boot_frames_spec `{X86AddrLaws} {RT} `{EqDecision RT} (Usable : RT)
    (mm : list (BootRegion RT)) (n : nat) :
  memory_map_ok mm -> Z.of_nat n < 2 ^ 64 ->
  let all := usable_addresses Usable (BootInfoFrameAllocator_init mm) in
  allocate_frames (H := BootInfo_FrameAllocator Usable) n (BootInfoFrameAllocator_init mm)
  = Ret ((fun i => all !! i) <$> seq 0 n, mkBootInfoFrameAllocator mm (Z.of_nat n)) /\
  NoDup all /\
  (forall x, x ∈ all <-> x mod 4096 = 0 /\
     exists r, r ∈ mm /\ region_type r = Usable /\ range_start r <= x < range_end r).
Proof.
  intros Hm Hn. cbv zeta. split_and!.
  - apply (boot_allocate_frames Usable mm n 0); [apply Hm|lia].
  - by apply NoDup_usable.
  - intros x. apply elem_of_usable, Hm.
Qed.

Definition demo_map : list (BootRegion bool) :=
  [mkBootRegion 0 0x1000 false; mkBootRegion 0x1000 0x4000 true; mkBootRegion 0x4000 0x5000 false;
   mkBootRegion 0x10000 0x12000 true].

Lemma demo_map_ok : memory_map_ok demo_map.
Proof.
  split; repeat constructor; unfold regions_disjoint; cbn; try lia.
Qed.

Lemma boot_frames_spec_witness :
  allocate_frames (H := BootInfo_FrameAllocator true) 6 (BootInfoFrameAllocator_init demo_map)
  = Ret ([Some 0x1000; Some 0x2000; Some 0x3000; Some 0x10000; Some 0x11000; None],
         mkBootInfoFrameAllocator demo_map 6).
Proof.
  destruct (boot_frames_spec true demo_map 6 demo_map_ok) as (E & _ & _); [lia|].
  etransitivity; [exact E|]. vm_compute. reflexivity.
Defined.

(** Two boot allocators over one memory map hand out the same frames.
    However many frames the first has given away, a second one starts over
    with the frame the first one gave away first: the frames of the kernel
    heap are handed out again by the allocator made for the memory manager
    (src/src/main.rs, line 74). *)
Theorem second_boot_allocator_repeats `{X86AddrLaws} {RT} `{EqDecision RT} (Usable : RT)
    (mm : list (BootRegion RT)) (n : nat) (fs : list (option Z)) (fa : BootInfoFrameAllocator RT) :
  memory_map_ok mm -> Z.of_nat n < 2 ^ 64 -> (0 < n)%nat ->
  allocate_frames (H := BootInfo_FrameAllocator Usable) n (BootInfoFrameAllocator_init mm)
  = Ret (fs, fa) ->
  exists f fa2, fs !! O = Some f /\
    BootInfo_allocate_frame Usable (BootInfoFrameAllocator_init mm) = Ret (f, fa2).
Proof.
  intros [Hr _] Hn H0n Hf. unfold BootInfoFrameAllocator_init in *.
  rewrite (boot_allocate_frames Usable mm n 0) in Hf by (done || lia). simplify_eq.
  exists (usable_addresses Usable (BootInfoFrameAllocator_init mm) !! O). eexists. split.
  - rewrite list_lookup_fmap, lookup_seq_lt by lia. done.
  - by rewrite (boot_allocate_frame Usable mm 0) by (done || lia).
Qed.

Lemma second_boot_allocator_repeats_witness :
  exists f fa2, [Some 0x1000; Some 0x2000] !! O = Some f /\
    BootInfo_allocate_frame true (BootInfoFrameAllocator_init demo_map) = Ret (f, fa2).
Proof.
  apply (second_boot_allocator_repeats true demo_map 2 _ (mkBootInfoFrameAllocator demo_map 2)
    demo_map_ok); [lia|lia|reflexivity].
Defined.

(** C40: setting the user bit on the parents of a page changes no translation.
    [set_user_bit_for_parents] returns exactly when the three parent entries
    lead to tables; then every address translates as before, under any root,
    the three entries on the way to the page carry the user bit, and no byte
    outside them changed. *)
Theorem set_user_bit_spec `{X86AddrLaws} `{X86FlagsLaws} `{!X86Paging} `{!X86PagingLaws}
    (addr : Z) (mp : OffsetPageTable) (m : mem) :
  bytes_ok m -> level_4_table mp mod 4096 = 0 ->
  (set_user_bit_for_parents addr mp m = Panic <-> leaf_path mp m addr = None) /\
  (forall m' p leaf, set_user_bit_for_parents addr mp m = Ret m' ->
     leaf_path mp m addr = Some (p, leaf) ->
     (forall cr3 a off, translate_addr cr3 m' a off = translate_addr cr3 m a off) /\
     leaf_path mp m' addr = Some (p, leaf) /\ Forall (user_entry m') p /\
     (forall x, (forall a, a ∈ p -> ~ (a <= x < a + 8)) -> m' x = m x)).
Proof.
  intros Hm Hl. unfold set_user_bit_for_parents. split.
  - unfold leaf_path. destruct (table_path _ _ _ _) as [[p t]|] eqn:Hp.
    + apply set_user_bits_spec in Hp as (m' & E & _); [|done..]. rewrite E. done.
    + split; [done|]. intros _. destruct (set_user_bits _ _ _ _) as [m'|] eqn:E; [|done].
      apply set_user_bits_path in E as [? E]; [congruence|done..].
  - intros m' p leaf E Hp. pose proof Hp as Hp'. unfold leaf_path in Hp'.
    destruct (table_path _ m _ _) as [[p' t]|] eqn:Ht; [|done]. simplify_eq.
    destruct (set_user_bits_spec _ _ _ _ _ _ Hm Hl Ht) as (m2 & E2 & _ & Hu & Hp2 & Hx).
    assert (m2 = m') as -> by congruence. split_and!; try done.
    + intros cr3 a off. unfold translate_addr. by rewrite (translate_walk_upgraded off m m').
    + by rewrite (leaf_path_upgraded mp m).
Qed.

Definition demo_off : Z := 0x18000000000.
Definition demo_opt : OffsetPageTable :=
  {| phys_offset := demo_off; level_4_table := demo_off + 0x1000 |}.
(** Tables at 0x1000, 0x2000, 0x3000 and 0x4000 that lead to the page
    0x400000, whose own entry is still free. *)
Definition demo_tables : mem :=
  store64 (store64 (store64 zero_mem (demo_off + 0x1000) 0x2003) (demo_off + 0x2000) 0x3003)
    (demo_off + 0x3010) 0x4003.

Lemma demo_tables_ok : bytes_ok demo_tables.
Proof. by do 3 apply bytes_ok_store64; apply bytes_ok_zero. Qed.

Lemma demo_leaf : leaf_path demo_opt demo_tables 0x400000
  = Some ([demo_off + 0x1000; demo_off + 0x2000; demo_off + 0x3010], demo_off + 0x4000).
Proof. vm_compute. reflexivity. Qed.

Lemma set_user_bit_spec_witness :
  exists m', set_user_bit_for_parents 0x400000 demo_opt demo_tables = Ret m' /\
    Forall (user_entry m') [demo_off + 0x1000; demo_off + 0x2000; demo_off + 0x3010].
Proof.
  destruct (set_user_bit_spec 0x400000 demo_opt demo_tables demo_tables_ok) as [Hn Hs]; [reflexivity|].
  pose proof demo_leaf as Hp. destruct (set_user_bit_for_parents 0x400000 demo_opt demo_tables) as [m'|] eqn:E.
  - exists m'. split; [reflexivity|]. by eapply Hs.
  - rewrite (proj1 Hn eq_refl) in Hp. discriminate Hp.
Defined.

(** The facts about one user page. *)
Lemma map_user_page_facts `{X86AddrLaws} `{X86FlagsLaws} `{!X86Paging} `{!X86PagingLaws} {F}
    {FA : FrameAllocator F} {MP : Mapper F} {ML : MapperLaws F}
    (cr3 off page frame : Z) (mp : OffsetPageTable) (m m1 : mem) (fa fa' : F) :
  memory_init cr3 off = Ret mp -> bytes_ok m ->
  0 <= page -> page mod 4096 = 0 -> 0 <= frame < 2 ^ 52 -> frame mod 4096 = 0 ->
  map_to page frame USER_FLAGS mp m fa = Ret (Ok tt, m1, fa') ->
  exists m' p leaf, map_user_page page frame mp m fa = Ret (m', fa') /\
    (forall k, 0 <= k < 4096 -> translate_addr cr3 m' (page + k) off = Ret (Some (frame + k))) /\
    bytes_ok m' /\ entry_frame (load64 m' leaf) = Ok frame /\
    leaf_path mp m' page = Some (p, leaf) /\ Forall (user_entry m') (p ++ [leaf]) /\
    (forall a q l f, leaf_path mp m a = Some (q, l) -> entry_frame (load64 m l) = Ok f ->
       leaf_path mp m' a = Some (q, l) /\ entry_frame (load64 m' l) = Ok f).
Proof.
  intros Hi Hm Hp Hpm Hf Hfm Hmap. pose proof (memory_init_aligned _ _ _ Hi) as Hl.
  destruct (map_to_ok page frame USER_FLAGS mp m fa fa' m1) as (Hm1 & p & leaf & L1 & L2 & L3); try done.
  { by left. }
  pose proof L1 as Ht. unfold leaf_path in Ht.
  destruct (table_path _ m1 _ _) as [[p' t]|] eqn:Et; [|done]. injection Ht as -> <-.
  destruct (set_user_bits_spec _ _ _ _ _ _ Hm1 Hl Et) as (m' & E & Hm' & Hu & Hup & _).
  pose proof (leaf_aligned _ _ _ _ _ Hl L1) as Ha.
  assert (He : entry_frame (load64 m1 (t + 8 * p1_index page)) = Ok frame).
  { rewrite entry_frame_eq, L2, L3. unfold USER_FLAGS.
    rewrite FLAG_PRESENT_bit, FLAG_WRITABLE_bit, FLAG_USER_ACCESSIBLE_bit, FLAG_HUGE_PAGE_bit. done. }
  assert (He' : entry_frame (load64 m' (t + 8 * p1_index page)) = Ok frame).
  { by rewrite (upgrade_frame (load64 m1 (t + 8 * p1_index page))) by by apply Hu. }
  exists m', p, (t + 8 * p1_index page). split_and!; [| |done|done|..].
  - unfold map_user_page, set_user_bit_for_parents. by rewrite Hmap, bind_ret, E.
  - intros k Hk. eapply (translate_leaf cr3 off mp m' page); try done.
    by rewrite (leaf_path_upgraded mp m1).
  - by rewrite (leaf_path_upgraded mp m1).
  - apply Forall_app. split; [done|]. constructor; [|done]. apply (upgrade_user m1); [done..|].
    unfold user_entry. rewrite L3. apply user_lor_user.
  - intros a q l f Hq Hql.
    destruct (map_to_keeps page frame USER_FLAGS mp m fa fa' m1 a q l f) as [K1 K2]; try done.
    { by left. }
    rewrite (leaf_path_upgraded mp m1), (upgrade_frame (load64 m1 l)); [done| |done..].
    apply Hu. by apply (leaf_aligned mp m1 a q).
Qed.

(** C12: [map_user_page] gives user mode a working page.  When the mapper maps
    the page, [map_user_page] returns, every address of the page translates to
    the same offset in the frame, the four entries on the way carry the user
    bit, and every page mapped before still translates as it did. *)
Theorem map_user_page_spec `{X86AddrLaws} `{X86FlagsLaws} `{!X86Paging} `{!X86PagingLaws} {F}
    {FA : FrameAllocator F} {MP : Mapper F} {ML : MapperLaws F}
    (cr3 off page frame : Z) (mp : OffsetPageTable) (m m1 : mem) (fa fa' : F) :
  memory_init cr3 off = Ret mp -> bytes_ok m ->
  0 <= page -> page mod 4096 = 0 -> 0 <= frame < 2 ^ 52 -> frame mod 4096 = 0 ->
  map_to page frame USER_FLAGS mp m fa = Ret (Ok tt, m1, fa') ->
  exists m' p leaf, map_user_page page frame mp m fa = Ret (m', fa') /\
    (forall k, 0 <= k < 4096 -> translate_addr cr3 m' (page + k) off = Ret (Some (frame + k))) /\
    leaf_path mp m' page = Some (p, leaf) /\ Forall (user_entry m') (p ++ [leaf]) /\
    (forall a q l f, leaf_path mp m a = Some (q, l) -> entry_frame (load64 m l) = Ok f ->
       leaf_path mp m' a = Some (q, l) /\ entry_frame (load64 m' l) = Ok f).
Proof.
  intros Hi Hm Hp Hpm Hf Hfm Hmap.
  destruct (map_user_page_facts cr3 off page frame mp m m1 fa fa' Hi Hm Hp Hpm Hf Hfm Hmap)
    as (m' & p & leaf & E & Ht & _ & _ & Hl & Hu & Hk).
  by exists m', p, leaf.
Qed.

Lemma map_user_page_spec_witness :
  exists m', map_user_page (H2 := leaf_mapper) 0x400000 0x7000 demo_opt demo_tables tt = Ret (m', tt) /\
    translate_addr 0x1000 m' 0x400123 demo_off = Ret (Some 0x7123).
Proof.
  destruct (map_user_page_spec (F := unit) (FA := Empty_allocate_frame) (MP := leaf_mapper)
    0x1000 demo_off 0x400000 0x7000 demo_opt demo_tables (store64 demo_tables (demo_off + 0x4000) 0x7007) tt tt) as (m' & p & leaf & E & T & _).
  - reflexivity.
  - apply demo_tables_ok.
  - lia.
  - reflexivity.
  - lia.
  - reflexivity.
  - unfold map_to, leaf_mapper. rewrite demo_leaf. reflexivity.
  - exists m'. split; [exact E|]. apply (T 0x123). lia.
Defined.
