(* ===== verification/HeapInit.v ===== *)
(** * HeapInit: mapping the kernel heap at boot (src/src/allocator.rs)

    [init_heap] allocates a frame for every page of the heap area, maps it
    through the mapper of the [x86_64] crate and hands the area to the
    allocator of Allocator.v.  The theorem composes the boot frame allocator
    and the page tables of Memory.v with it. *)

From stdpp Require Import base sets numbers list.
From S2P Require Import Prelude Mem X86 Allocator Memory.
Local Open Scope Z_scope.
Local Open Scope ruix_scope.

Definition HEAP_START : Z := 0x444444440000.
Definition HEAP_SIZE : Z := 100 * 1024.

Section HeapInit.
Context `{X86Addr, X86Flags, X86Page} {F : Type} `{FrameAllocator F, Mapper F}.

(** The loop of [init_heap] *)
Fixpoint map_heap_pages (pages : list Z) (mapper : OffsetPageTable) (m : mem) (fa : F)
    : outcome (result MapToError unit * mem * F) :=
  match pages with
  | [] => Ret (Ok tt, m, fa)
  | page :: pages =>
      let! a := allocate_frame fa in
      match a with
      | (None, fa) => Ret (Err FrameAllocationFailed, m, fa)
      | (Some frame, fa) =>
          let! r := map_to page frame HEAP_FLAGS mapper m fa in
          match r with
          | (Err e, m, fa) => Ret (Err e, m, fa)
          | (Ok _, m, fa) => map_heap_pages pages mapper m fa
          end
      end
  end.

(** [init_heap]; [ALLOCATOR] is the global allocator. *)
Definition init_heap {H} `{FallbackHeap H} (mapper : OffsetPageTable) (m : mem) (fa : F)
    (ALLOCATOR : FixedSizeBlockAllocator H)
    : outcome (result MapToError unit * mem * F * FixedSizeBlockAllocator H) :=
  let! start_addr := VirtAddr_new HEAP_START in
  let! past_end := VirtAddr_add start_addr HEAP_SIZE in
  let! end_addr := VirtAddr_sub past_end 1 in
  let start_page := page_containing start_addr in
  let end_page := page_containing end_addr in
  let! r := map_heap_pages (page_range_inclusive start_page end_page) mapper m fa in
  match r with
  | (Err e, m, fa) => Ret (Err e, m, fa, ALLOCATOR)
  | (Ok _, m, fa) =>
      Ret (Ok tt, m, fa, FixedSizeBlockAllocator_init HEAP_START HEAP_SIZE ALLOCATOR)
  end.
End HeapInit.

(* ------------------------------------------------------------------ *)
(** ** The pages of the heap *)

(** The page at [page] is mapped to [frame]. *)
Definition backed `{X86Addr, X86Paging} (mp : OffsetPageTable) (m : mem) (page frame : Z) : Prop :=
  exists p leaf, leaf_path mp m page = Some (p, leaf) /\ entry_frame (load64 m leaf) = Ok frame.

Definition heap_pages : list Z := (fun i => HEAP_START + 4096 * Z.of_nat i) <$> seq 0 25.

Section HeapFacts.
Context `{X86AddrLaws} {RT : Type} `{EqDecision RT} (Usable : RT).
Context `{X86FlagsLaws} `{!X86Paging} `{!X86PagingLaws} `{!X86Page} `{!X86PageLaws}.

#[local] Instance boot_FA : FrameAllocator (BootInfoFrameAllocator RT) :=
  BootInfo_FrameAllocator Usable.
Context {MP : Mapper (BootInfoFrameAllocator RT)} {ML : MapperLaws (BootInfoFrameAllocator RT)}.

Variable mm : list (BootRegion RT).
Hypothesis Hmm : memory_map_ok mm.

Local Notation all := (usable_addresses Usable (BootInfoFrameAllocator_init mm)).
Local Notation alloc k := (mkBootInfoFrameAllocator mm (Z.of_nat k)).

Lemma boot_alloc_inv k f fa' :
  allocate_frame (alloc k) = Ret (f, fa') -> f = all !! k /\ fa' = alloc (S k).
Proof.
  intros E. destruct (Z.lt_ge_cases (Z.of_nat k + 1) (2 ^ 64)) as [Hk|Hk].
  - unfold allocate_frame, boot_FA, BootInfo_FrameAllocator in E.
    rewrite boot_allocate_frame in E by (apply Hmm || done). by simplify_eq.
  - exfalso. unfold allocate_frame, boot_FA, BootInfo_FrameAllocator, BootInfo_allocate_frame in E.
    inv_ret. cbn [next] in *. lia.
Qed.

Lemma boot_allocs_inv n k fs fa' :
  allocate_frames n (alloc k) = Ret (fs, fa') -> fa' = alloc (k + n).
Proof.
  revert k fs. induction n as [|n IH]; intros k fs E; cbn [allocate_frames] in E.
  { simplify_eq. by rewrite Nat.add_0_r. }
  inv_ret. destruct x as [f fa1]. inv_ret. destruct x as [fs1 fa2]. simplify_eq.
  match goal with E : allocate_frame _ = _ |- _ => apply boot_alloc_inv in E as [_ ->] end.
  match goal with E : allocate_frames _ _ = _ |- _ => apply IH in E as -> end.
  f_equal. lia.
Qed.

Lemma usable_frame_range f : f ∈ all -> 0 <= f < 2 ^ 52 /\ f mod 4096 = 0.
Proof.
  destruct Hmm as [Hr _]. intros (Hm & r & Hin & _ & Hx)%elem_of_usable; [|done].
  rewrite Forall_forall in Hr. destruct (Hr r Hin) as (? & ? & _). lia.
Qed.

Lemma map_heap_pages_spec mp pages m k m' fa' :
  bytes_ok m -> level_4_table mp mod 4096 = 0 ->
  map_heap_pages pages mp m (alloc k) = Ret (Ok tt, m', fa') ->
  bytes_ok m' /\ (forall a f, backed mp m a f -> backed mp m' a f) /\
  exists frames k', Forall2 (backed mp m') pages frames /\ fa' = alloc k' /\ (k <= k')%nat /\
    sublist frames (take (k' - k) (drop k all)).
Proof.
  intros Hm Hl. revert m k Hm. induction pages as [|page pages IH]; intros m k Hm E;
    cbn [map_heap_pages] in E.
  { simplify_eq. split_and!; [done..|]. exists [], k. split_and!; [constructor|done..|apply sublist_nil_l]. }
  inv_ret. destruct x as [[f|] fa1]; [|done]. inv_ret. destruct x as [[[[]|e] m1] fa2]; [|done].
  match goal with E : allocate_frame _ = _ |- _ => apply boot_alloc_inv in E as [Hf ->] end.
  match goal with E : map_to _ _ _ _ _ _ = _ |- _ => rename E into Hmap end.
  destruct (map_to_allocates _ _ _ _ _ _ _ _ _ Hmap) as (n & fs & Hn).
  apply boot_allocs_inv in Hn as ->.
  assert (Hin : f ∈ all) by (symmetry in Hf; by apply list_elem_of_lookup_2 in Hf).
  destruct (usable_frame_range f Hin) as [Hf1 Hf2].
  destruct (map_to_ok _ _ _ _ _ _ _ _ Hm Hl Hf1 Hf2 (or_intror eq_refl) Hmap)
    as (Hm1 & p & leaf & L1 & L2 & L3).
  destruct (IH m1 _ Hm1 E) as (Hm' & Hkeep & frames & k' & HF & Hfa & Hk & Hs).
  split_and!; [done| |].
  - intros a g (q & l & Hq & Hg). apply Hkeep. exists q, l.
    by apply (map_to_keeps _ _ _ _ _ _ _ _ _ _ _ _ Hm Hl Hf1 Hf2 (or_intror eq_refl) Hmap).
  - exists (f :: frames), k'. split_and!; [|done|lia|].
    + constructor; [|done]. apply Hkeep. exists p, leaf. split; [done|].
      rewrite entry_frame_eq, L2, L3. unfold HEAP_FLAGS.
      rewrite FLAG_PRESENT_bit, FLAG_WRITABLE_bit, FLAG_HUGE_PAGE_bit. done.
    + symmetry in Hf. rewrite (drop_S _ f) by done.
      replace (k' - k)%nat with (S (n + (k' - (S k + n))))%nat by lia. cbn [take]. apply sublist_skip.
      etransitivity; [exact Hs|]. rewrite <- drop_drop, take_drop_commute. apply sublist_drop.
Qed.

Lemma heap_page_range :
  page_range_inclusive (page_containing HEAP_START) (page_containing (HEAP_START + HEAP_SIZE - 1))
  = heap_pages.
Proof.
  unfold HEAP_START, HEAP_SIZE. rewrite !page_containing_eq by lia.
  rewrite page_range_inclusive_eq by (reflexivity || (vm_compute; intuition discriminate)). done.
Qed.

(** The pages of the heap, with the frames [init_heap] took from the frame
    allocator. *)
Lemma init_heap_frames {HT} `{FallbackHeap HT} mp m m' k fa' (A A' : FixedSizeBlockAllocator HT) :
  level_4_table mp mod 4096 = 0 -> bytes_ok m ->
  init_heap mp m (alloc k) A = Ret (Ok tt, m', fa', A') ->
  A' = FixedSizeBlockAllocator_init HEAP_START HEAP_SIZE A /\ bytes_ok m' /\
  (forall a f, backed mp m a f -> backed mp m' a f) /\
  exists frames k', Forall2 (backed mp m') heap_pages frames /\ fa' = alloc k' /\ (k <= k')%nat /\
    sublist frames (take (k' - k) (drop k all)).
Proof.
  intros Hl Hm E. unfold init_heap in E.
  rewrite VirtAddr_new_low, bind_ret, VirtAddr_add_low, bind_ret, VirtAddr_sub_low, bind_ret in E
    by (unfold HEAP_START, HEAP_SIZE, LOW_HALF; lia).
  cbv zeta in E. rewrite heap_page_range in E. inv_ret. destruct x as [[[[]|e] m1] fa1]; [|done].
  simplify_eq.
  match goal with E : map_heap_pages _ _ _ _ = _ |- _ =>
    apply map_heap_pages_spec in E as (Hm' & Hkeep & Hex); [|done..] end.
  by split_and!.
Qed.

(** C13: the kernel heap is backed by memory of its own.  When [init_heap]
    succeeds on the boot frame allocator, the 25 pages of the heap area are
    mapped to pairwise distinct frames of the usable regions, every address of
    the area translates into its page's frame, pages mapped before keep their
    mapping, and the allocator owns the area. *)
Theorem init_heap_maps {HT} `{FallbackHeap HT} (cr3 off : Z) (mp : OffsetPageTable)
    (m m' : mem) (k : nat) (fa' : BootInfoFrameAllocator RT) (A A' : FixedSizeBlockAllocator HT) :
  memory_init cr3 off = Ret mp -> bytes_ok m ->
  init_heap mp m (alloc k) A = Ret (Ok tt, m', fa', A') ->
  A' = FixedSizeBlockAllocator_init HEAP_START HEAP_SIZE A /\
  (forall a f, backed mp m a f -> backed mp m' a f) /\
  exists frames, length frames = 25%nat /\ NoDup frames /\ (forall f, f ∈ frames -> f ∈ drop k all) /\
    forall i f j, frames !! i = Some f -> 0 <= j < 4096 ->
      translate_addr cr3 m' (HEAP_START + 4096 * Z.of_nat i + j) off = Ret (Some (f + j)).
Proof.
  intros Hi Hm E. pose proof (memory_init_aligned _ _ _ Hi) as Hl.
  destruct (init_heap_frames mp m m' k fa' A A' Hl Hm E)
    as (HA & Hm' & Hkeep & frames & k' & HF & _ & _ & Hs').
  assert (Hs : sublist frames (drop k all)) by (etransitivity; [exact Hs'|apply sublist_take]).
  pose proof (Forall2_length _ _ _ HF) as Hlen.
  split_and!; [done..|]. exists frames. split_and!.
  - by rewrite <- Hlen.
  - eapply sublist_NoDup; [|exact Hs]. eapply sublist_NoDup; [|apply sublist_drop].
    by apply NoDup_usable.
  - intros f Hf. by eapply elem_of_sublist.
  - intros i f j Hf Hj.
    destruct (Forall2_lookup_r _ _ _ _ _ HF Hf) as (page & Hp & q & leaf & Hq & He).
    apply list_lookup_fmap_Some in Hp as (n & -> & [-> Hi25]%lookup_seq).
    assert (Hin : f ∈ all).
    { eapply elem_of_sublist; [|apply (sublist_drop _ k)]. eapply elem_of_sublist; [|exact Hs].
      by eapply list_elem_of_lookup_2. }
    destruct (usable_frame_range f Hin) as [Hf1 Hf2]. simpl in *.
    eapply translate_leaf; try done; [unfold HEAP_START; lia|].
    unfold HEAP_START. Z.div_mod_to_equations; lia.
Qed.
End HeapFacts.

(** Tables that lead to the heap area, whose 25 entries are free, and a memory
    map with one usable region. *)
Definition demo_heap_tables : mem :=
  store64 (store64 (store64 zero_mem (demo_off + 0x1000 + 8 * 136) 0x2003)
    (demo_off + 0x2000 + 8 * 273) 0x3003) (demo_off + 0x3000 + 8 * 34) 0x4003.
Definition demo_heap_map : list (BootRegion bool) := [mkBootRegion 0x100000 0x200000 true].

Lemma demo_heap_tables_ok : bytes_ok demo_heap_tables.
Proof. by do 3 apply bytes_ok_store64; apply bytes_ok_zero. Qed.

Lemma demo_heap_map_ok : memory_map_ok demo_heap_map.
Proof. split; repeat constructor; cbn; lia. Qed.

Definition demo_init_heap :=
  init_heap (H2 := BootInfo_FrameAllocator true) (H3 := leaf_mapper) demo_opt demo_heap_tables
    (mkBootInfoFrameAllocator demo_heap_map (Z.of_nat 0))
    (FixedSizeBlockAllocator_new (H := BumpHeap)).

Lemma init_heap_maps_witness :
  exists m' fa' A' (frames : list Z), demo_init_heap = Ret (Ok tt, m', fa', A') /\
    length frames = 25%nat /\ NoDup frames.
Proof.
  assert (Hok : (match demo_init_heap with Ret (Ok _, _, _, _) => true | _ => false end) = true)
    by (vm_compute; reflexivity).
  destruct demo_init_heap as [[[[[[]|e] m'] fa'] A']|] eqn:E; try discriminate Hok.
  destruct (init_heap_maps true (MP := leaf_mapper) demo_heap_map demo_heap_map_ok 0x1000 demo_off
    demo_opt demo_heap_tables m' 0 fa' (FixedSizeBlockAllocator_new (H := BumpHeap)) A')
    as (_ & _ & frames & H1 & H2 & _).
  - reflexivity.
  - apply demo_heap_tables_ok.
  - exact E.
  - exists m', fa', A', frames. repeat split; assumption.
Defined.
