(* ===== verification/Console.v ===== *)
(** * Console: the text screen and the serial copy (src/src/vga_buffer.rs)

    The writer keeps the screen as 25 rows of 80 characters and always writes
    in the last row; a new line scrolls by copying the rows one by one.  The
    reference is a terminal with unlimited scroll-back: its last 25 rows are
    what the screen shows.  [_print] sends the same text to the serial port
    through a buffer of 1024 bytes (src/src/serial.rs).  Formatting is done by
    [core::fmt]: the argument of [_print] is the list of strings it passes to
    [write_str]. *)

From stdpp Require Import base numbers list.
From S2P Require Import Prelude.
Local Open Scope Z_scope.
Local Open Scope ruix_scope.

Inductive Color : Type :=
| Black | Blue | Green | Cyan | Red | Magenta | Brown | LightGray
| DarkGray | LightBlue | LightGreen | LightCyan | LightRed | LightMagenta | Yellow | White.

(** [color as u8] *)
Definition Color_u8 (c : Color) : Z :=
  match c with
  | Black => 0 | Blue => 1 | Green => 2 | Cyan => 3
  | Red => 4 | Magenta => 5 | Brown => 6 | LightGray => 7
  | DarkGray => 8 | LightBlue => 9 | LightGreen => 10 | LightCyan => 11
  | LightRed => 12 | LightMagenta => 13 | Yellow => 14 | White => 15
  end.

(** [ColorCode::new]; shifting a [u8] drops the bits that leave it. *)
Definition ColorCode_new (foreground background : Color) : Z :=
  Z.lor (as_u8 (Z.shiftl (Color_u8 background) 4)) (Color_u8 foreground).

Record ScreenChar : Type := mkScreenChar {
  ascii_character : Z;
  color_code_of : Z
}.

Definition BUFFER_HEIGHT : nat := 25.
Definition BUFFER_WIDTH : nat := 80.

(** [Buffer]: the rows of the screen.  Indexing panics out of range. *)
Notation Buffer := (list (list ScreenChar)).

Definition Buffer_read (row col : nat) (b : Buffer) : outcome ScreenChar :=
  match b !! row with
  | None => Panic
  | Some r => match r !! col with None => Panic | Some c => Ret c end
  end.

Definition Buffer_write (row col : nat) (c : ScreenChar) (b : Buffer) : outcome Buffer :=
  match b !! row with
  | None => Panic
  | Some r => match r !! col with None => Panic | Some _ => Ret (<[row := <[col := c]> r]> b) end
  end.

Record Writer : Type := mkWriter {
  column_position : nat;
  w_color_code : Z;
  w_buffer : Buffer
}.

(** [Writer::clear_row] *)
Definition Writer_clear_row (row : nat) (w : Writer) : outcome Writer :=
  let blank := mkScreenChar 0x20 (w_color_code w) in
  let! b := for_each (seq 0 BUFFER_WIDTH) (fun col b => Buffer_write row col blank b) (w_buffer w) in
  Ret (mkWriter (column_position w) (w_color_code w) b).

(** [Writer::new_line] *)
Definition Writer_new_line (w : Writer) : outcome Writer :=
  let! b :=
    for_each (seq 1 (BUFFER_HEIGHT - 1)) (fun row b =>
      for_each (seq 0 BUFFER_WIDTH) (fun col b =>
        let! character := Buffer_read row col b in
        Buffer_write (row - 1) col character b) b) (w_buffer w) in
  let! w := Writer_clear_row (BUFFER_HEIGHT - 1)
              (mkWriter (column_position w) (w_color_code w) b) in
  Ret (mkWriter 0 (w_color_code w) (w_buffer w)).

(** [Writer::write_byte] *)
Definition Writer_write_byte (byte : Z) (w : Writer) : outcome Writer :=
  if byte =? 0x0A then Writer_new_line w
  else
    let! w := if (BUFFER_WIDTH <=? column_position w)%nat then Writer_new_line w else Ret w in
    let row := (BUFFER_HEIGHT - 1)%nat in
    let col := column_position w in
    let! b := Buffer_write row col (mkScreenChar byte (w_color_code w)) (w_buffer w) in
    Ret (mkWriter (col + 1) (w_color_code w) b).

(** The byte [write_string] writes for a byte of the string: characters that
    cannot be printed are shown as a block. *)
Definition printable (byte : Z) : Z :=
  if ((0x20 <=? byte) && (byte <=? 0x7e)) || (byte =? 0x0A) then byte else 0xfe.

(** [Writer::write_string] *)
Fixpoint Writer_write_string (s : list Z) (w : Writer) : outcome Writer :=
  match s with
  | [] => Ret w
  | byte :: s =>
      let! w := Writer_write_byte (printable byte) w in
      Writer_write_string s w
  end.

(** The state of [WRITER] over the contents [b] of the screen. *)
Definition WRITER_init (b : Buffer) : Writer := mkWriter 0 (ColorCode_new Yellow Black) b.

(** [BufferWriter]: the buffer and the position. *)
Record BufferWriter : Type := mkBufferWriter {
  bw_buffer : list Z;
  bw_pos : nat
}.

(** [BufferWriter::new] on [[0u8; 1024]] *)
Definition BufferWriter_new (buffer : list Z) : BufferWriter := mkBufferWriter buffer 0.

(** [write_str] of [BufferWriter]: [get_mut(pos..end)] is [None] when the
    range is reversed or runs past the end. *)
Definition BufferWriter_write_str (s : list Z) (w : BufferWriter) : BufferWriter :=
  let e := Nat.min (bw_pos w + length s) (length (bw_buffer w)) in
  if (bw_pos w <=? e)%nat && (e <=? length (bw_buffer w))%nat then
    mkBufferWriter
      (take (bw_pos w) (bw_buffer w) ++ take (e - bw_pos w) s ++ drop e (bw_buffer w)) e
  else w.

(** ["Invalid UTF-8"] *)
Definition INVALID_UTF8 : list Z :=
  [0x49; 0x6e; 0x76; 0x61; 0x6c; 0x69; 0x64; 0x20; 0x55; 0x54; 0x46; 0x2d; 0x38].

(** [vga_buffer::_print]: the text goes to the screen, and to the serial port
    by [serial::write_str]; [serial] is what the port has sent. *)
Definition vga_print (args : list (list Z)) (w : Writer) (serial : list Z)
    : outcome (Writer * list Z) :=
  let! w := foldl (fun o s => mbind (Writer_write_string s) o) (Ret w) args in
  let bw := foldl (fun bw s => BufferWriter_write_str s bw) (BufferWriter_new (replicate 1024 0)) args in
  let text := take (bw_pos bw) (bw_buffer bw) in
  let text := if utf8_valid text then text else INVALID_UTF8 in
  Ret (w, serial ++ text).

(* ------------------------------------------------------------------ *)
(** ** The loops of the writer *)

(** 25 rows of 80 characters *)
Record shaped (b : Buffer) : Prop := {
  sh_height : length b = BUFFER_HEIGHT;
  sh_width : Forall (fun r => length r = BUFFER_WIDTH) b
}.

Lemma Buffer_write_ret row col c b r :
  b !! row = Some r -> (col < length r)%nat ->
  Buffer_write row col c b = Ret (<[row := <[col := c]> r]> b).
Proof.
  intros Hr Hc. unfold Buffer_write. rewrite Hr.
  by destruct (lookup_lt_is_Some_2 r col Hc) as [x ->].
Qed.

Lemma take_insert_snoc {A} n (l l' : list A) x :
  l' !! n = Some x -> (n < length l)%nat ->
  <[n := x]> (take n l' ++ drop n l) = take (S n) l' ++ drop (S n) l.
Proof.
  intros Hx Hn. pose proof (lookup_lt_Some _ _ _ Hx).
  destruct (lookup_lt_is_Some_2 l n Hn) as [y Hy].
  rewrite (drop_S l y n), (take_S_r l' n x) by done.
  replace n with (length (take n l') + 0)%nat at 1 by (rewrite length_take; lia).
  rewrite insert_app_r. simpl. by rewrite <- (assoc_L (++)).
Qed.

Lemma clear_loop row blank n b r :
  b !! row = Some r -> (n <= length r)%nat ->
  for_each (seq 0 n) (fun col b => Buffer_write row col blank b) b
  = Ret (<[row := replicate n blank ++ drop n r]> b).
Proof.
  intros Hr. induction n as [|n IH]; intros Hn.
  - symmetry. f_equal. by apply list_insert_id.
  - rewrite for_each_snoc, IH, bind_ret, Nat.add_0_l by lia.
    rewrite (Buffer_write_ret _ _ _ _ (replicate n blank ++ drop n r)).
    + rewrite list_insert_insert_eq. do 2 f_equal.
      destruct (lookup_lt_is_Some_2 r n) as [y Hy]; [lia|]. rewrite (drop_S r y n) by done.
      replace n with (length (replicate n blank) + 0)%nat at 1 by (rewrite length_replicate; lia).
      rewrite insert_app_r. simpl. rewrite cons_middle, (assoc_L (++)), <- replicate_cons_app. done.
    + apply list_lookup_insert_eq. by apply lookup_lt_Some in Hr.
    + rewrite length_app, length_replicate, length_drop. lia.
Qed.

Lemma copy_row_loop row n b rs rd :
  b !! S row = Some rs -> b !! row = Some rd -> length rs = length rd -> (n <= length rs)%nat ->
  for_each (seq 0 n) (fun col b =>
    let! character := Buffer_read (S row) col b in
    Buffer_write (S row - 1) col character b) b
  = Ret (<[row := take n rs ++ drop n rd]> b).
Proof.
  intros Hs Hd Hl. induction n as [|n IH]; intros Hn.
  - symmetry. f_equal. by apply list_insert_id.
  - rewrite for_each_snoc, IH, bind_ret by lia. cbv beta.
    destruct (lookup_lt_is_Some_2 rs n) as [x Hx]; [lia|].
    unfold Buffer_read. rewrite list_lookup_insert_ne, Hs by lia. simpl.
    rewrite Hx, bind_ret, Nat.sub_0_r.
    rewrite (Buffer_write_ret _ _ _ _ (take n rs ++ drop n rd)).
    + rewrite list_insert_insert_eq, take_insert_snoc by (done || lia). done.
    + apply list_lookup_insert_eq. by apply lookup_lt_Some in Hd.
    + rewrite length_app, length_take, length_drop. lia.
Qed.

Lemma shaped_row b i : shaped b -> (i < BUFFER_HEIGHT)%nat ->
  exists r, b !! i = Some r /\ length r = BUFFER_WIDTH.
Proof.
  intros [Hh Hw] Hi. destruct (lookup_lt_is_Some_2 b i) as [r Hr]; [lia|].
  exists r. split; [done|]. by eapply Forall_lookup_1 in Hw.
Qed.

Lemma shaped_tail b : shaped b -> length (tail b) = 24%nat.
Proof. intros [Hh _]. destruct b; [done|]. unfold BUFFER_HEIGHT in Hh. simpl in *. lia. Qed.

Lemma scroll_loop b n :
  shaped b -> (n < BUFFER_HEIGHT)%nat ->
  for_each (seq 1 n) (fun row b =>
    for_each (seq 0 BUFFER_WIDTH) (fun col b =>
      let! character := Buffer_read row col b in
      Buffer_write (row - 1) col character b) b) b
  = Ret (take n (tail b) ++ drop n b).
Proof.
  intros Hb. induction n as [|n IH]; intros Hn; [done|].
  rewrite for_each_snoc, IH, bind_ret by lia. cbv beta. change (1 + n)%nat with (S n).
  destruct (shaped_row b n Hb) as (rd & Hd & Ld); [lia|].
  destruct (shaped_row b (S n) Hb) as (rs & Hs & Ls); [lia|].
  pose proof (shaped_tail b Hb) as Lt.
  assert (Hts : tail b !! n = Some rs) by (by rewrite lookup_tail).
  assert (Lk : length (take n (tail b)) = n) by (rewrite length_take; unfold BUFFER_HEIGHT in *; lia).
  rewrite (copy_row_loop _ _ _ rs rd).
  - rewrite <- Ls at 1. rewrite firstn_all, <- Ld, drop_all, app_nil_r.
    rewrite take_insert_snoc by (done || (destruct Hb as [-> _]; lia)). done.
  - rewrite lookup_app_r, Lk, lookup_drop by lia. by replace (n + (S n - n))%nat with (S n) by lia.
  - rewrite lookup_app_r, Lk, lookup_drop by lia. by replace (n + (n - n))%nat with n by lia.
  - congruence.
  - lia.
Qed.

Definition blank_row (color : Z) : list ScreenChar :=
  replicate BUFFER_WIDTH (mkScreenChar 0x20 color).

(** Scrolling drops the first row and adds a blank one. *)
Lemma new_line_spec w :
  shaped (w_buffer w) ->
  Writer_new_line w
  = Ret (mkWriter 0 (w_color_code w) (tail (w_buffer w) ++ [blank_row (w_color_code w)])).
Proof.
  intros Hb. unfold Writer_new_line. rewrite scroll_loop, bind_ret by (done || (unfold BUFFER_HEIGHT; lia)).
  unfold Writer_clear_row. cbn [w_buffer column_position w_color_code].
  destruct (shaped_row _ 24 Hb) as (r & Hr & Lr); [unfold BUFFER_HEIGHT; lia|].
  set (b := w_buffer w) in *.
  pose proof (shaped_tail b Hb) as Lt.
  assert (Ed : drop 24 b = [r]).
  { rewrite (drop_S b r 24) by done. rewrite drop_ge; [done|]. destruct Hb as [-> _]. done. }
  change (BUFFER_HEIGHT - 1)%nat with 24%nat. rewrite (take_ge (tail b)), Ed by lia.
  rewrite (clear_loop _ _ _ _ r), bind_ret.
  - cbn [w_color_code w_buffer]. rewrite bind_ret. cbn [w_color_code w_buffer].
    rewrite <- Lr at 1 2. rewrite drop_all, app_nil_r, Lr.
    replace 24%nat with (length (tail b) + 0)%nat by lia. rewrite insert_app_r. done.
  - rewrite lookup_app_r, Lt by lia. done.
  - lia.
Qed.

(* ------------------------------------------------------------------ *)
(** ** The reference terminal *)

(** A terminal with unlimited scroll-back: the rows that are complete, the
    characters of the current row, and what the rest of that row shows. *)
Record Terminal : Type := mkTerminal {
  t_history : list (list ScreenChar);
  t_current : list ScreenChar;
  t_base : list ScreenChar
}.

Definition t_row (t : Terminal) : list ScreenChar :=
  t_current t ++ drop (length (t_current t)) (t_base t).

Definition t_newline (color : Z) (t : Terminal) : Terminal :=
  mkTerminal (t_history t ++ [t_row t]) [] (blank_row color).

(** A row is wrapped when a character follows its 80th. *)
Definition t_put (color byte : Z) (t : Terminal) : Terminal :=
  if byte =? 0x0A then t_newline color t
  else
    let t := if (length (t_current t) =? 80)%nat then t_newline color t else t in
    mkTerminal (t_history t) (t_current t ++ [mkScreenChar byte color]) (t_base t).

Definition t_write (color : Z) (s : list Z) (t : Terminal) : Terminal :=
  foldl (fun t b => t_put color (printable b) t) t s.

(** The last [n] elements of a list. *)
Definition last_n {A} (n : nat) (l : list A) : list A := drop (length l - n) l.

(** What the terminal shows on 25 rows. *)
Definition t_screen (t : Terminal) : Buffer := last_n 25 (t_history t ++ [t_row t]).

(** The terminal that stands for a screen nobody has written to. *)
Definition terminal_of (b : Buffer) : Terminal :=
  mkTerminal (take 24 b) [] (default [] (b !! 24%nat)).

Record console_rep (w : Writer) (t : Terminal) : Prop := {
  cr_history : (24 <= length (t_history t))%nat;
  cr_rows : Forall (fun r => length r = BUFFER_WIDTH) (t_history t);
  cr_current : (length (t_current t) <= 80)%nat;
  cr_base : length (t_base t) = BUFFER_WIDTH;
  cr_column : column_position w = length (t_current t);
  cr_screen : w_buffer w = t_screen t
}.

Lemma length_last_n {A} n (l : list A) : (n <= length l)%nat -> length (last_n n l) = n.
Proof. intros Hn. unfold last_n. rewrite length_drop. lia. Qed.

Lemma last_n_snoc {A} n (l : list A) x :
  (S n <= length l)%nat -> last_n (S n) (l ++ [x]) = tail (last_n (S n) l) ++ [x].
Proof.
  intros Hn. unfold last_n. rewrite length_app. simpl.
  rewrite drop_app_le by lia. f_equal.
  replace (length l + 1 - S n)%nat with (S (length l - S n)) by lia.
  destruct (drop (length l - S n) l) as [|y r] eqn:E.
  { apply (f_equal length) in E. rewrite length_drop in E. simpl in E. lia. }
  simpl. replace (S (length l - S n)) with ((length l - S n) + 1)%nat by lia.
  by rewrite <- drop_drop, E.
Qed.

Lemma t_row_width w t : console_rep w t -> length (t_row t) = 80%nat.
Proof.
  intros [_ _ H1 H2 _ _]. unfold t_row. rewrite length_app, length_drop, H2.
  unfold BUFFER_WIDTH. lia.
Qed.

Lemma rep_shaped w t : console_rep w t -> shaped (w_buffer w).
Proof.
  intros Hr. pose proof (t_row_width w t Hr) as Hw. destruct Hr as [H1 H2 _ _ _ ->].
  unfold t_screen. split.
  - apply length_last_n. rewrite length_app. unfold BUFFER_HEIGHT. simpl. lia.
  - apply Forall_drop, Forall_app. split; [done|]. by constructor.
Qed.

Lemma new_line_rep w t :
  console_rep w t ->
  exists w', Writer_new_line w = Ret w' /\ w_color_code w' = w_color_code w /\
    console_rep w' (t_newline (w_color_code w) t).
Proof.
  intros Hr. rewrite new_line_spec by by eapply rep_shaped. eexists. split; [reflexivity|].
  split; [done|]. pose proof (t_row_width w t Hr) as Hw. destruct Hr as [H1 H2 H3 H4 H5 H6].
  split; cbn [t_history t_current t_base t_newline column_position w_buffer]; try done.
  - rewrite length_app. simpl. lia.
  - apply Forall_app. split; [done|]. by constructor.
  - simpl. lia.
  - rewrite H6. unfold t_screen. symmetry. etransitivity; [apply last_n_snoc|done].
    cbn [t_newline t_history]. rewrite length_app. simpl. lia.
Qed.

Lemma put_row_rep w t c :
  console_rep w t -> (length (t_current t) < 80)%nat ->
  exists b, Buffer_write 24 (column_position w) c (w_buffer w) = Ret b /\
    console_rep (mkWriter (column_position w + 1) (w_color_code w) b)
      (mkTerminal (t_history t) (t_current t ++ [c]) (t_base t)).
Proof.
  intros Hr Hc. pose proof (t_row_width w t Hr) as Hw. destruct Hr as [H1 H2 H3 H4 H5 H6].
  assert (Es : t_screen t = last_n 24 (t_history t) ++ [t_row t]).
  { unfold t_screen, last_n. rewrite length_app. simpl. rewrite drop_app_le by lia. do 2 f_equal. lia. }
  assert (L24 : length (last_n 24 (t_history t)) = 24%nat) by (by apply length_last_n).
  rewrite (Buffer_write_ret _ _ _ _ (t_row t)).
  2:{ rewrite H6, Es, lookup_app_r, L24 by lia. done. }
  2:{ rewrite H5, Hw. done. }
  eexists. split; [reflexivity|].
  split; cbn [t_history t_current t_base column_position w_buffer]; try done.
  - rewrite length_app. simpl. lia.
  - rewrite length_app, H5. done.
  - rewrite H6, H5, Es. replace 24%nat with (length (last_n 24 (t_history t)) + 0)%nat at 1 by lia.
    rewrite insert_app_r. unfold t_screen, last_n at 2. rewrite length_app. simpl.
    rewrite drop_app_le by lia.
    replace (length (t_history t) + 1 - 25)%nat with (length (t_history t) - 24)%nat by lia.
    do 2 f_equal. unfold t_row. cbn [t_current t_base].
    replace (length (t_current t)) with (length (t_current t) + 0)%nat at 1 by lia.
    rewrite insert_app_r. destruct (lookup_lt_is_Some_2 (t_base t) (length (t_current t))) as [y Hy].
    { rewrite H4. done. }
    rewrite (drop_S _ y) by done. simpl. rewrite length_app, Nat.add_1_r. simpl.
    by rewrite <- (assoc_L (++)).
Qed.

Lemma write_byte_rep w t byte :
  console_rep w t ->
  exists w', Writer_write_byte byte w = Ret w' /\ w_color_code w' = w_color_code w /\
    console_rep w' (t_put (w_color_code w) byte t).
Proof.
  intros Hr. unfold Writer_write_byte, t_put. destruct (byte =? 10); [by apply new_line_rep|].
  change (BUFFER_HEIGHT - 1)%nat with 24%nat. rewrite (cr_column w t Hr).
  pose proof (cr_current w t Hr) as Hc.
  destruct (Nat.leb_spec BUFFER_WIDTH (length (t_current t))) as [Hl|Hl]; unfold BUFFER_WIDTH in Hl.
  - rewrite (proj2 (Nat.eqb_eq _ 80)) by lia.
    destruct (new_line_rep w t Hr) as (w1 & -> & Ec & H1). rewrite bind_ret. cbv zeta.
    destruct (put_row_rep w1 _ (mkScreenChar byte (w_color_code w1)) H1) as (b & -> & Hb); [simpl; lia|].
    rewrite bind_ret. eexists. split; [reflexivity|]. rewrite <- Ec at 2. split; [done|].
    rewrite Ec in *. done.
  - rewrite (proj2 (Nat.eqb_neq _ 80)) by lia. rewrite bind_ret. cbv zeta.
    destruct (put_row_rep w t (mkScreenChar byte (w_color_code w)) Hr) as (b & -> & Hb); [lia|].
    rewrite bind_ret. eexists. split; [reflexivity|]. done.
Qed.

Lemma write_string_rep s w t :
  console_rep w t ->
  exists w', Writer_write_string s w = Ret w' /\ w_color_code w' = w_color_code w /\
    console_rep w' (t_write (w_color_code w) s t).
Proof.
  revert w t. induction s as [|b s IH]; intros w t Hr; simpl; [eauto|].
  destruct (write_byte_rep w t (printable b) Hr) as (w1 & -> & Ec & H1). rewrite bind_ret.
  destruct (IH w1 _ H1) as (w2 & -> & Ec2 & H2). exists w2. rewrite Ec in *. split_and!; congruence || done.
Qed.

Lemma terminal_of_rep b : shaped b -> console_rep (WRITER_init b) (terminal_of b).
Proof.
  intros Hb. destruct (shaped_row b 24 Hb) as (r & Hr & Lr); [unfold BUFFER_HEIGHT; lia|].
  assert (Eb : b = take 24 b ++ [r]).
  { rewrite <- (take_drop 24 b) at 1. f_equal. rewrite (drop_S b r 24) by done.
    rewrite drop_ge; [done|]. destruct Hb as [-> _]. done. }
  assert (L24 : length (take 24 b) = 24%nat) by (rewrite length_take; destruct Hb as [-> _]; done).
  unfold terminal_of. rewrite Hr. split; cbn [t_history t_current t_base]; try done; try lia.
  - by apply Forall_take, Hb.
  - simpl. lia.
  - unfold t_screen, last_n, t_row. cbn [t_history t_current t_base default length app].
    rewrite drop_0, length_app, L24. simpl. by rewrite <- Eb.
Qed.

(* ------------------------------------------------------------------ *)
(** ** The serial copy *)

Lemma buffer_write_str_spec s text w :
  (length (bw_buffer w) = 1024)%nat -> bw_pos w = length (take 1024 text) ->
  take (bw_pos w) (bw_buffer w) = take 1024 text ->
  let w' := BufferWriter_write_str s w in
  length (bw_buffer w') = 1024%nat /\ bw_pos w' = length (take 1024 (text ++ s)) /\
  take (bw_pos w') (bw_buffer w') = take 1024 (text ++ s).
Proof.
  intros Hl Hp Ht. unfold BufferWriter_write_str. cbv zeta. rewrite Hl.
  rewrite length_take in Hp.
  rewrite (proj2 (Nat.leb_le _ _)), (proj2 (Nat.leb_le (Nat.min _ _) _)) by lia. simpl.
  set (e := Nat.min (bw_pos w + length s) 1024).
  assert (Hlen : length (take (bw_pos w) (bw_buffer w) ++ take (e - bw_pos w) s) = e).
  { rewrite length_app, !length_take, Hl. unfold e. lia. }
  split_and!.
  - rewrite (assoc_L (++)), length_app, Hlen, length_drop, Hl. unfold e. lia.
  - rewrite length_take, length_app. unfold e. lia.
  - rewrite (assoc_L (++)), take_app_length' by done. rewrite Ht, take_app. f_equal.
    destruct (Nat.le_gt_cases 1024 (length text)).
    + replace (1024 - length text)%nat with O by lia. rewrite take_0.
      replace (e - bw_pos w)%nat with O by (unfold e; lia). done.
    + destruct (Nat.le_gt_cases (length s) (1024 - length text)).
      * rewrite !take_ge by (unfold e; lia). done.
      * f_equal. unfold e. lia.
Qed.

Lemma buffer_pieces args : forall text w,
  (length (bw_buffer w) = 1024)%nat -> bw_pos w = length (take 1024 text) ->
  take (bw_pos w) (bw_buffer w) = take 1024 text ->
  let w' := foldl (fun bw s => BufferWriter_write_str s bw) w args in
  take (bw_pos w') (bw_buffer w') = take 1024 (text ++ concat args).
Proof.
  induction args as [|s args IH]; intros text w H1 H2 H3; simpl.
  { by rewrite app_nil_r. }
  destruct (buffer_write_str_spec s text w H1 H2 H3) as (K1 & K2 & K3).
  rewrite (IH (text ++ s) _ K1 K2 K3). by rewrite (assoc_L (++)).
Qed.

Lemma screen_pieces args : forall w t,
  console_rep w t ->
  exists w', foldl (fun o s => mbind (Writer_write_string s) o) (Ret w) args = Ret w' /\
    w_color_code w' = w_color_code w /\ console_rep w' (t_write (w_color_code w) (concat args) t).
Proof.
  induction args as [|s args IH]; intros w t Hr; simpl; [eauto|].
  destruct (write_string_rep s w t Hr) as (w1 & E & Ec & H1). rewrite E.
  destruct (IH w1 _ H1) as (w2 & E2 & Ec2 & H2). exists w2. rewrite Ec in *.
  split_and!; [done|congruence|]. unfold t_write in *. by rewrite foldl_app.
Qed.

(* ------------------------------------------------------------------ *)
(** ** Properties *)

(** What the serial port gets for a text. *)
Definition serial_text (text : list Z) : list Z :=
  if utf8_valid (take 1024 text) then take 1024 text else INVALID_UTF8.

(** The writer and the port after a sequence of calls of [_print]. *)
Definition vga_prints (prints : list (list (list Z))) (w : Writer) : outcome (Writer * list Z) :=
  foldl (fun o args => let! r := o in vga_print args r.1 r.2) (Ret (w, [])) prints.

Lemma vga_print_spec args w t serial :
  console_rep w t ->
  exists w', vga_print args w serial = Ret (w', serial ++ serial_text (concat args)) /\
    w_color_code w' = w_color_code w /\ console_rep w' (t_write (w_color_code w) (concat args) t).
Proof.
  intros Hr. destruct (screen_pieces args w t Hr) as (w' & E & Ec & Hr').
  exists w'. unfold vga_print. rewrite E, bind_ret. split; [|done].
  rewrite (buffer_pieces args [] (BufferWriter_new (replicate 1024 0))) by done. done.
Qed.

(** C15: the console shows the end of everything printed.  From any contents of
    the screen, any sequence of prints succeeds; afterwards the screen shows
    the last 25 rows of a terminal with unlimited scroll-back that printed all
    the text, wrapped at 80 columns, with unprintable bytes as blocks, and the
    serial port has sent, for each print, its first 1024 bytes. *)
Theorem console_shows_terminal (b : Buffer) (prints : list (list (list Z))) :
  shaped b ->
  exists w, vga_prints prints (WRITER_init b)
    = Ret (w, concat ((fun args => serial_text (concat args)) <$> prints)) /\
    w_buffer w = t_screen (t_write (ColorCode_new Yellow Black) (concat (concat prints)) (terminal_of b)).
Proof.
  intros Hb.
  assert (exists w, vga_prints prints (WRITER_init b)
      = Ret (w, concat ((fun args => serial_text (concat args)) <$> prints)) /\
      w_color_code w = ColorCode_new Yellow Black /\
      console_rep w (t_write (ColorCode_new Yellow Black) (concat (concat prints)) (terminal_of b)))
    as (w & E & _ & Hr); [|exists w; by destruct Hr].
  induction prints as [|args prints IH] using rev_ind.
  - exists (WRITER_init b). split_and!; [done..|]. by apply terminal_of_rep.
  - destruct IH as (w & E & Ec & Hr).
    destruct (vga_print_spec args w _ (concat ((fun args => serial_text (concat args)) <$> prints)) Hr)
      as (w' & E' & Ec' & Hr').
    exists w'. unfold vga_prints in *. rewrite foldl_app, E. cbn [foldl].
    rewrite bind_ret. cbn [fst snd]. rewrite E'. split_and!.
    + rewrite fmap_app, concat_app. cbn. by rewrite app_nil_r.
    + congruence.
    + rewrite Ec in Hr'. rewrite !concat_app. cbn. rewrite app_nil_r. unfold t_write in *.
      by rewrite foldl_app.
Qed.

(** A blank screen. *)
Definition demo_screen : Buffer := replicate 25 (blank_row 0x0e).

Lemma demo_screen_shaped : shaped demo_screen.
Proof. split; [done|]. by apply Forall_replicate. Qed.

Lemma console_shows_terminal_witness :
  exists w, vga_prints [[[0x48; 0x69]; [0x0A]]; [[0xE3]]] (WRITER_init demo_screen)
    = Ret (w, [0x48; 0x69; 0x0A] ++ INVALID_UTF8) /\
    (take 3 <$> last_n 2 (w_buffer w)) =
    [[mkScreenChar 0x48 14; mkScreenChar 0x69 14; mkScreenChar 0x20 14];
     [mkScreenChar 0xfe 14; mkScreenChar 0x20 14; mkScreenChar 0x20 14]].
Proof.
  destruct (console_shows_terminal demo_screen [[[0x48; 0x69]; [0x0A]]; [[0xE3]]] demo_screen_shaped)
    as (w & E & Hw).
  exists w. split; [exact E|]. rewrite Hw. vm_compute. reflexivity.
Defined.

(** A text of plain ASCII reaches the serial port up to its 1024th byte. *)
Lemma serial_ascii text : Forall (fun b => 0 <= b < 0x80) text -> serial_text text = take 1024 text.
Proof. intros Ha. unfold serial_text. by rewrite utf8_ascii by by apply Forall_take. Qed.

(** A character of more than one byte across the 1024th byte makes the whole
    text disappear from the serial port, although the text is valid UTF-8. *)
Example serial_split_character :
  let text := replicate 1023 0x41 ++ [0xE2; 0x96; 0xA0] in
  utf8_valid text = true /\ serial_text text = INVALID_UTF8.
Proof. vm_compute. done. Qed.
