(* ===== verification/Interrupts.v ===== *)
(** * Interrupts: the timer and int 0x80 handlers (src/src/interrupts.rs)

    The two naked handlers are translated instruction by instruction.  The
    CPU pushes SS, RSP, RFLAGS, CS and RIP on the kernel stack, the handler
    pushes the fifteen general registers, calls into Rust and pops registers
    from the stack it switches to; [iretq] pops the frame.  [stack] is the
    stack the CPU switches to: the privilege stack of the TSS when user code
    is interrupted.  What [increment_tick] leaves in RAX is up to the compiler
    (RAX is caller-saved and the function returns nothing): it is the argument
    [tick_rax]. *)

From stdpp Require Import base sets numbers list.
From S2P Require Import Prelude Mem X86 Scheduler SchedulerProps Timer Syscall Process.
Local Open Scope Z_scope.
Local Open Scope ruix_scope.

Definition PIC_1_OFFSET : Z := 32.
Definition PIC_2_OFFSET : Z := PIC_1_OFFSET + 8.

Inductive InterruptIndex : Type := Timer | Keyboard.

(** [InterruptIndex::as_u8] and [as_usize] *)
Definition InterruptIndex_as_u8 (i : InterruptIndex) : Z :=
  match i with Timer => PIC_1_OFFSET | Keyboard => PIC_1_OFFSET + 1 end.

(* ------------------------------------------------------------------ *)
(** ** The stack *)

Definition push_list (vs : list Z) (x : Z * mem) : Z * mem :=
  foldl (fun x v => push v x.1 x.2) x vs.

(** The frame the CPU pushes, in the order it is pushed. *)
Definition interrupt_frame (c : ProcessContext) : list Z := [ss c; rsp c; rflags c; cs c; rip c].

(** [push rax] .. [push r15] *)
Definition general_registers (c : ProcessContext) : list Z :=
  [rax c; rcx c; rdx c; rsi c; rdi c; r8 c; r9 c; r10 c; r11 c; rbx c; rbp c; r12 c; r13 c;
   r14 c; r15 c].

(** [pop r15] .. [pop rax], then [iretq] *)
Definition pop_context (sp : Z) (m : mem) : ProcessContext :=
  let pop i := load64 m (sp + 8 * i) in {|
  r15 := pop 0; r14 := pop 1; r13 := pop 2; r12 := pop 3; rbp := pop 4; rbx := pop 5;
  r11 := pop 6; r10 := pop 7; r9 := pop 8; r8 := pop 9; rdi := pop 10; rsi := pop 11;
  rdx := pop 12; rcx := pop 13; rax := pop 14;
  rip := pop 15; cs := pop 16; rflags := pop 17; rsp := pop 18; ss := pop 19 |}.

(** [pop r15] .. [pop rcx] with RAX kept, then [iretq] *)
Definition pop_context_keep_rax (ret sp : Z) (m : mem) : ProcessContext :=
  let pop i := load64 m (sp + 8 * i) in {|
  r15 := pop 0; r14 := pop 1; r13 := pop 2; r12 := pop 3; rbp := pop 4; rbx := pop 5;
  r11 := pop 6; r10 := pop 7; r9 := pop 8; r8 := pop 9; rdi := pop 10; rsi := pop 11;
  rdx := pop 12; rcx := pop 13; rax := ret;
  rip := pop 14; cs := pop 15; rflags := pop 16; rsp := pop 17; ss := pop 18 |}.

Section Handlers.
Context `{X86Addr} {Fut : Type}.

(** [timer_interrupt_handler], entered with the registers [c]: the registers
    it resumes, the port writes, and the kernel state.  [ra1] and [ra2] are
    the return addresses of its two calls. *)
Definition timer_interrupt_handler (tick_rax : Z -> Z) (stack ra1 ra2 : Z) (c : ProcessContext)
    (s : Scheduler Fut) (mc : Machine) (t : timer_state) (m : mem)
    : outcome (ProcessContext * list (Z * Z) * (Scheduler Fut * Machine * timer_state * mem)) :=
  let '(sp, m) := push_list (interrupt_frame c) (stack, m) in
  let '(sp, m) := push_list (general_registers c) (sp, m) in
  let sp := wrapping_sub_u64 sp 8 in
  let rdi := wrapping_add_u64 sp 8 in
  let m := (push ra1 sp m).2 in
  let! r := handle_switch rdi s mc in
  let '(ports, (rax, s, mc)) := r in
  let sp := wrapping_add_u64 sp 8 in
  let m := (push ra2 sp m).2 in
  let '(t, s) := timer_increment_tick t s in
  let rsp := tick_rax rax in
  Ret (pop_context rsp m, ports, (s, mc, t, m)).

(** [syscall_interrupt_handler]: the handler of [int 0x80] *)
Definition syscall_interrupt_handler (stack ra : Z) (c : ProcessContext) (k : Kernel Fut)
    : outcome (ProcessContext * Kernel Fut) :=
  let '(sp, m) := push_list (interrupt_frame c) (stack, MEMORY k) in
  let '(sp, m) := push_list (general_registers c) (sp, m) in
  let sp := wrapping_sub_u64 sp 8 in
  let rdi := wrapping_add_u64 sp 8 in
  let m := (push ra sp m).2 in
  let! r := rust_syscall_handler rdi (with_memory m k) in
  let '(rax, k) := r in
  let sp := wrapping_add_u64 sp 8 in
  Ret (pop_context_keep_rax rax sp (MEMORY k), k).
End Handlers.

(* ------------------------------------------------------------------ *)
(** ** What the pushes leave on the stack *)

Lemma load_words_snoc m a n :
  load_words m a (S n) = load_words m a n ++ [load64 m (a + 8 * Z.of_nat n)].
Proof.
  revert a. induction n as [|n IH]; intros a.
  - simpl. by rewrite Z.add_0_r.
  - change (load_words m a (S (S n))) with (load64 m a :: load_words m (a + 8) (S n)).
    rewrite IH. simpl. do 4 f_equal. lia.
Qed.

Lemma push_eq v sp m : 8 <= sp < 2 ^ 64 -> push v sp m = (sp - 8, store64 m (sp - 8) v).
Proof. intros Hs. unfold push, wrapping_sub_u64. by rewrite Z.mod_small by lia. Qed.

Lemma push_list_spec vs sp m :
  Forall is_u64 vs -> 8 * Z.of_nat (length vs) <= sp < 2 ^ 64 ->
  exists m', push_list vs (sp, m) = (sp - 8 * Z.of_nat (length vs), m') /\
    load_words m' (sp - 8 * Z.of_nat (length vs)) (length vs) = rev vs /\
    (forall x, ~ (sp - 8 * Z.of_nat (length vs) <= x < sp) -> m' x = m x).
Proof.
  revert sp m. induction vs as [|v vs IH]; intros sp m Hv Hs.
  - exists m. simpl. split_and!; [|done..]. f_equal. lia.
  - inversion Hv as [|? ? Hv1 Hv2]; subst. cbn [length] in *. cbn [push_list foldl fst snd].
    rewrite push_eq by lia.
    destruct (IH (sp - 8) (store64 m (sp - 8) v) Hv2) as (m' & E & L & O); [lia|].
    exists m'. unfold push_list in E. rewrite E.
    replace (sp - 8 - 8 * Z.of_nat (length vs)) with (sp - 8 * Z.of_nat (S (length vs))) in * by lia.
    split_and!; [done| |].
    + rewrite load_words_snoc, L. cbn [rev]. do 2 f_equal.
      replace (sp - 8 * Z.of_nat (S (length vs)) + 8 * Z.of_nat (length vs)) with (sp - 8) by lia.
      rewrite <- (load64_store64 m (sp - 8) v) by done. unfold load64. f_equal.
      apply load_bytes_ext. intros x Hx. apply O. lia.
    + intros x Hx. rewrite O by lia. unfold store64. apply store_bytes_out.
      rewrite length_le_bytes. lia.
Qed.

Lemma pop_context_eq sp m : pop_context sp m = read_context m sp.
Proof.
  unfold pop_context, read_context, context_of_words. cbn [load_words]. cbv zeta.
  cbn [lookup list_lookup default from_option id]. f_equal; f_equal; lia.
Qed.

(** The registers as a context below [stack]. *)
Lemma save_context_spec stack c m :
  context_ok c -> 160 <= stack < 2 ^ 64 ->
  exists m', push_list (general_registers c) (push_list (interrupt_frame c) (stack, m))
      = (stack - 160, m') /\
    read_context m' (stack - 160) = c /\
    (forall x, ~ (stack - 160 <= x < stack) -> m' x = m x).
Proof.
  intros Hc Hs.
  destruct (push_list_spec (interrupt_frame c ++ general_registers c) stack m) as (m' & E & L & O).
  - unfold context_ok, context_words in Hc. rewrite !Forall_cons in Hc.
    unfold interrupt_frame, general_registers. cbn [app]. rewrite !Forall_cons. tauto.
  - simpl. lia.
  - exists m'. unfold push_list in *. rewrite foldl_app in E. split_and!; [exact E| |exact O].
    cbn [length app interrupt_frame general_registers] in L. unfold read_context.
    change (8 * Z.of_nat 20) with 160 in L. rewrite L. by destruct c.
Qed.

(** A word pushed below the context does not touch it. *)
Lemma push_below sp v m c :
  8 <= sp < 2 ^ 64 -> read_context m sp = c -> read_context (push v sp m).2 sp = c.
Proof.
  intros Hs <-. rewrite push_eq by done. apply read_context_ext. intros x Hx.
  unfold store64. apply store_bytes_out. rewrite length_le_bytes. lia.
Qed.

Lemma wrapping_sub_eq a b : 0 <= b <= a -> a < 2 ^ 64 -> wrapping_sub_u64 a b = a - b.
Proof. intros H1 H2. unfold wrapping_sub_u64. by rewrite Z.mod_small by lia. Qed.

Lemma wrapping_add_eq a b : 0 <= a -> 0 <= b -> a + b < 2 ^ 64 -> wrapping_add_u64 a b = a + b.
Proof. intros H1 H2 H3. unfold wrapping_add_u64. by rewrite Z.mod_small by lia. Qed.

Section HandlerFacts.
Context `{X86Addr} {Fut : Type}.
Implicit Types (s : Scheduler Fut) (k : Kernel Fut).

(** A stack the CPU can use: aligned and not at the bottom of memory. *)
Definition interrupt_stack (stack : Z) : Prop := 176 <= stack < 2 ^ 64 /\ stack mod 16 = 0.

Lemma timer_handler_run tick_rax stack ra1 ra2 c s mc t m :
  context_ok c -> interrupt_stack stack ->
  exists m', timer_interrupt_handler tick_rax stack ra1 ra2 c s mc t m
    = (let '(ptr, s1, mc1) := schedule (stack - 160) s mc in
       let '(t2, s2) := timer_increment_tick t s1 in
       Ret (read_context m' (tick_rax ptr), [(0x20, 0x20)], (s2, mc1, t2, m'))) /\
    read_context m' (stack - 160) = c /\
    (forall x, ~ (stack - 176 <= x < stack) -> m' x = m x).
Proof.
  intros Hc [Hs Ha]. destruct (save_context_spec stack c m Hc) as (m1 & E & L & O); [lia|].
  exists (push ra2 (stack - 160) (push ra1 (stack - 168) m1).2).2. split_and!.
  - unfold timer_interrupt_handler.
    destruct (push_list (interrupt_frame c) (stack, m)) as [sp0 m0]. rewrite E.
    rewrite wrapping_sub_eq, wrapping_add_eq by lia.
    replace (stack - 160 - 8) with (stack - 168) by lia.
    replace (stack - 168 + 8) with (stack - 160) by lia.
    unfold handle_switch. rewrite deref_ret, !bind_ret by (Z.div_mod_to_equations; lia).
    destruct (schedule (stack - 160) s mc) as [[ptr s1] mc1].
    destruct (timer_increment_tick t s1) as [t2 s2]. by rewrite pop_context_eq.
  - apply push_below; [lia|]. etransitivity; [|exact L]. rewrite push_eq by lia.
    apply read_context_ext. unfold SIZEOF_CONTEXT. intros x Hx.
    unfold store64. apply store_bytes_out. rewrite length_le_bytes. lia.
  - intros x Hx. rewrite !push_eq by lia. cbn [snd]. unfold store64.
    rewrite !store_bytes_out by (rewrite length_le_bytes; lia). apply O. lia.
Qed.

Lemma rust_handler_fails sp k : is_u64 sp -> rust_syscall_handler sp k = Ret (MINUS_ONE, k).
Proof.
  intros Hs. unfold rust_syscall_handler.
  by destruct (safe_parse_fails (MEMORY k) sp Hs) as [e ->].
Qed.
End HandlerFacts.

(* ------------------------------------------------------------------ *)
(** ** Properties *)

(** C25: what a timer interrupt does.  The interrupted registers are saved as
    a process context right below the kernel stack, and that context is what
    the scheduler is given; nothing outside the 176 bytes below the stack
    changes; the end of interrupt is sent; and the registers resumed are those
    saved at the address that [increment_tick] happens to leave in RAX, which
    is the scheduler's choice only if that function preserves RAX
    (src/src/interrupts.rs, lines 99-106). *)
Theorem timer_interrupt_switch `{X86Addr} {Fut} (tick_rax : Z -> Z) (stack ra1 ra2 : Z)
    (c : ProcessContext) (s : Scheduler Fut) (mc : Machine) (t : timer_state) (m : mem) :
  context_ok c -> interrupt_stack stack ->
  let '(ptr, s1, mc1) := schedule (stack - 160) s mc in
  exists m' t2 s2, timer_increment_tick t s1 = (t2, s2) /\
    timer_interrupt_handler tick_rax stack ra1 ra2 c s mc t m
    = Ret (read_context m' (tick_rax ptr), [(0x20, 0x20)], (s2, mc1, t2, m')) /\
    read_context m' (stack - 160) = c /\
    (forall x, ~ (stack - 176 <= x < stack) -> m' x = m x).
Proof.
  intros Hc Hs. destruct (timer_handler_run tick_rax stack ra1 ra2 c s mc t m Hc Hs) as (m' & E & L & O).
  destruct (schedule (stack - 160) s mc) as [[ptr s1] mc1].
  destruct (timer_increment_tick t s1) as [t2 s2]. exists m', t2, s2. done.
Qed.

Definition demo_regs : ProcessContext := set_rax 42 (initial_context 0x400000 0x601000).

Lemma demo_regs_ok : context_ok demo_regs.
Proof. unfold context_ok. repeat constructor; vm_compute; congruence. Qed.

Lemma timer_interrupt_switch_witness :
  exists m' s2 mc1 t2,
    timer_interrupt_handler (fun ptr => ptr) 0x20000 0 0 demo_regs (@SCHEDULER_init unit) (mkMachine CPU_DATA_init 0)
      timer_state_init zero_mem
    = Ret (read_context m' (0x20000 - 160), [(0x20, 0x20)], (s2, mc1, t2, m')) /\
    read_context m' (0x20000 - 160) = demo_regs.
Proof.
  pose proof (timer_interrupt_switch (fun ptr => ptr) 0x20000 0 0 demo_regs (@SCHEDULER_init unit)
    (mkMachine CPU_DATA_init 0) timer_state_init zero_mem demo_regs_ok) as Hw.
  destruct Hw as (m' & t2 & s2 & E1 & E & L & _); [split; [lia|reflexivity]|].
  do 4 eexists. split; [exact E|exact L].
Defined.

(** All processes interrupted in user mode share one saved context.  The
    CPU always starts at the top of the same privilege stack, so a second
    timer interrupt saves its registers over those of the first: a process
    whose control block points to the first context is resumed with the
    registers of whatever was interrupted last (src/src/gdt.rs, line 14). *)
Theorem interrupts_share_context `{X86Addr} {Fut} (tick_rax : Z -> Z) (stack ra1 ra2 : Z)
    (c1 c2 r1 r2 : ProcessContext) (ports1 ports2 : list (Z * Z))
    (s s1 s2 : Scheduler Fut) (mc mc1 mc2 : Machine) (t t1 t2 : timer_state) (m m1 m2 : mem) :
  context_ok c1 -> context_ok c2 -> interrupt_stack stack ->
  timer_interrupt_handler tick_rax stack ra1 ra2 c1 s mc t m = Ret (r1, ports1, (s1, mc1, t1, m1)) ->
  timer_interrupt_handler tick_rax stack ra1 ra2 c2 s1 mc1 t1 m1 = Ret (r2, ports2, (s2, mc2, t2, m2)) ->
  read_context m1 (stack - 160) = c1 /\ read_context m2 (stack - 160) = c2 /\
  (forall p, p_context_ptr p = stack - 160 -> read_context m2 (p_context_ptr p) = c2).
Proof.
  intros H1 H2 Hs E1 E2.
  destruct (timer_handler_run tick_rax stack ra1 ra2 c1 s mc t m H1 Hs) as (n1 & F1 & L1 & _).
  destruct (timer_handler_run tick_rax stack ra1 ra2 c2 s1 mc1 t1 m1 H2 Hs) as (n2 & F2 & L2 & _).
  rewrite E1 in F1. rewrite E2 in F2.
  destruct (schedule _ s _) as [[? ?] ?], (schedule _ s1 _) as [[? ?] ?].
  destruct (timer_increment_tick t _), (timer_increment_tick t1 _). simplify_eq.
  split_and!; [done..|]. intros p ->. done.
Qed.

Lemma interrupts_share_context_witness :
  exists r1 p1 s1 mc1 t1 m1 r2 p2 s2 mc2 t2 m2,
    timer_interrupt_handler (fun ptr => ptr) 0x20000 0 0 demo_regs (@SCHEDULER_init unit)
      (mkMachine CPU_DATA_init 0) timer_state_init zero_mem = Ret (r1, p1, (s1, mc1, t1, m1)) /\
    timer_interrupt_handler (fun ptr => ptr) 0x20000 0 0 (set_rax 7 demo_regs) s1 mc1 t1 m1
      = Ret (r2, p2, (s2, mc2, t2, m2)) /\
    read_context m2 (0x20000 - 160) = set_rax 7 demo_regs.
Proof.
  assert (Hs : interrupt_stack 0x20000) by (split; [lia|reflexivity]).
  assert (H7 : context_ok (set_rax 7 demo_regs)) by
    (unfold context_ok; repeat constructor; vm_compute; congruence).
  destruct (timer_handler_run (fun ptr => ptr) 0x20000 0 0 demo_regs (@SCHEDULER_init unit)
    (mkMachine CPU_DATA_init 0) timer_state_init zero_mem demo_regs_ok Hs) as (m1 & E1 & _).
  destruct (schedule _ _ _) as [[ptr1 s1] mc1]. destruct (timer_increment_tick _ s1) as [t1 s1'].
  destruct (timer_handler_run (fun ptr => ptr) 0x20000 0 0 (set_rax 7 demo_regs) s1' mc1 t1 m1 H7 Hs)
    as (m2 & E2 & _).
  destruct (schedule _ s1' _) as [[ptr2 s2] mc2]. destruct (timer_increment_tick _ s2) as [t2 s2'].
  do 12 eexists. split; [exact E1|]. split; [exact E2|].
  exact (proj1 (proj2 (interrupts_share_context _ _ _ _ _ _ _ _ _ _ _ _ _ _ _ _ _ _ _ _ _ _
    demo_regs_ok H7 Hs E1 E2))).
Defined.

(** [int 0x80] does not return to its caller.  The handler pushes fifteen
    registers and pops fourteen, so [iretq] takes its frame one word too low:
    execution continues at the address in the caller's RAX, with the caller's
    RIP as code segment, its CS as flags, its flags as stack pointer and its
    stack pointer as stack segment (src/src/interrupts.rs, line 171). *)
Theorem int80_returns_to_rax `{X86Addr} {Fut} (stack ra : Z) (c : ProcessContext) (k : Kernel Fut) :
  context_ok c -> interrupt_stack stack ->
  exists c' k', syscall_interrupt_handler stack ra c k = Ret (c', k') /\
    rax c' = MINUS_ONE /\ rip c' = rax c /\ cs c' = rip c /\ rflags c' = cs c /\
    rsp c' = rflags c /\ ss c' = rsp c /\ rcx c' = rcx c /\ r15 c' = r15 c.
Proof.
  intros Hc [Hs Ha]. destruct (save_context_spec stack c (MEMORY k) Hc) as (m1 & E & L & _); [lia|].
  unfold syscall_interrupt_handler.
  destruct (push_list (interrupt_frame c) (stack, MEMORY k)) as [sp0 m0]. rewrite E.
  rewrite wrapping_sub_eq, wrapping_add_eq by lia.
  rewrite rust_handler_fails, bind_ret by (unfold is_u64; lia). cbv beta iota.
  do 2 eexists. split; [reflexivity|].
  replace (stack - 160 - 8 + 8) with (stack - 160) by lia.
  assert (Lp : pop_context (stack - 160) (push ra (stack - 160 - 8) m1).2 = c).
  { rewrite pop_context_eq. etransitivity; [|exact L]. rewrite push_eq by lia.
    apply read_context_ext. unfold SIZEOF_CONTEXT. intros x Hx.
    unfold store64. apply store_bytes_out. rewrite length_le_bytes. lia. }
  unfold pop_context in Lp. rewrite <- Lp. by split_and!.
Qed.

Lemma int80_returns_to_rax_witness :
  exists c' k', syscall_interrupt_handler 0x20000 0 demo_regs demo_kernel = Ret (c', k') /\ rip c' = 42.
Proof.
  destruct (int80_returns_to_rax 0x20000 0 demo_regs demo_kernel demo_regs_ok) as (c' & k' & E & _ & Hr & _).
  - split; [lia|reflexivity].
  - exists c', k'. split; [exact E|exact Hr].
Defined.
