(* ===== verification/Keyboard.v ===== *)
(** * Keyboard: the scancode queue (src/src/process/mod.rs)

    The keyboard interrupt pushes scancodes into a bounded queue and wakes the
    task that reads it; the task polls [KeyboardScancodeStream].  The queue,
    the waker cell and the once-cell come from the crates [crossbeam-queue],
    [futures-util] and [conquer-once]: they are classes with their documented
    behaviour.  An interrupt can arrive between any two accesses of
    [poll_next], so the poll is also given as a step relation in which
    interrupts interleave. *)

From stdpp Require Import base numbers relations list.
From S2P Require Import Prelude.
Local Open Scope Z_scope.
Local Open Scope ruix_scope.

(** [ArrayQueue<u8>]: [push] answers whether the element was accepted. *)
Class ArrayQueue (Q : Type) := {
  queue_new : nat -> Q;
  queue_push : Z -> Q -> bool * Q;
  queue_pop : Q -> option Z * Q;
  queue_is_empty : Q -> bool;
  queue_capacity : Q -> nat;
  queue_elements : Q -> list Z
}.

Class ArrayQueueLaws (Q : Type) `{ArrayQueue Q} : Prop := {
  queue_new_law n : queue_capacity (queue_new n) = n /\ queue_elements (queue_new n) = [];
  queue_push_law x q :
    let '(ok, q') := queue_push x q in
    queue_capacity q' = queue_capacity q /\
    if (length (queue_elements q) <? queue_capacity q)%nat
    then ok = true /\ queue_elements q' = queue_elements q ++ [x]
    else ok = false /\ queue_elements q' = queue_elements q;
  queue_pop_law q :
    let '(r, q') := queue_pop q in
    queue_capacity q' = queue_capacity q /\
    match queue_elements q with
    | [] => r = None /\ queue_elements q' = []
    | x :: l => r = Some x /\ queue_elements q' = l
    end;
  queue_is_empty_law q : queue_is_empty q = true <-> queue_elements q = []
}.

(** [AtomicWaker]: [wake] takes the registered waker, if any, and wakes its
    task; a waker is identified by the task it wakes. *)
Class AtomicWaker (W : Type) := {
  waker_new : W;
  waker_register : nat -> W -> W;
  waker_wake : W -> option nat * W;
  waker_take : W -> option nat * W;
  waker_registered : W -> option nat
}.

Class AtomicWakerLaws (W : Type) `{AtomicWaker W} : Prop := {
  waker_new_law : waker_registered waker_new = None;
  waker_register_law t w : waker_registered (waker_register t w) = Some t;
  waker_wake_law w : let '(r, w') := waker_wake w in
    r = waker_registered w /\ waker_registered w' = None;
  waker_take_law w : let '(r, w') := waker_take w in
    r = waker_registered w /\ waker_registered w' = None
}.

(** [Poll<Option<u8>>] as [poll_next] returns it. *)
Inductive PollScancode : Type := Poll_Ready (scancode : Z) | Poll_Pending.

(** [SCANCODE_QUEUE] ([None] before [try_init_once]) and [KEYBOARD_WAKER]. *)
Record keyboard_state (Q W : Type) : Type := mkKeyboard {
  SCANCODE_QUEUE : option Q;
  KEYBOARD_WAKER : W
}.
Arguments mkKeyboard {Q W}.
Arguments SCANCODE_QUEUE {Q W}.
Arguments KEYBOARD_WAKER {Q W}.

Section Keyboard.
Context {Q W : Type} `{ArrayQueue Q, AtomicWaker W}.
Implicit Types (k : keyboard_state Q W).

Definition keyboard_init : keyboard_state Q W := mkKeyboard None waker_new.

(** [add_keyboard_scancode]: whether the scancode was accepted, and the task
    woken. *)
Definition add_keyboard_scancode (scancode : Z) k : bool * option nat * keyboard_state Q W :=
  match SCANCODE_QUEUE k with
  | None => (false, None, k)
  | Some queue =>
      let '(ok, queue) := queue_push scancode queue in
      if negb ok then (false, None, mkKeyboard (Some queue) (KEYBOARD_WAKER k))
      else
        let '(woken, waker) := waker_wake (KEYBOARD_WAKER k) in
        (true, woken, mkKeyboard (Some queue) waker)
  end.

(** [KeyboardScancodeStream::new] *)
Definition KeyboardScancodeStream_new k : outcome (keyboard_state Q W) :=
  match SCANCODE_QUEUE k with
  | Some _ => Panic
  | None => Ret (mkKeyboard (Some (queue_new 100)) (KEYBOARD_WAKER k))
  end.

(** [queue.pop()] on the shared queue; [expect] panics before initialisation. *)
Definition pop_scancode k : outcome (option Z * keyboard_state Q W) :=
  match SCANCODE_QUEUE k with
  | None => Panic
  | Some queue =>
      let '(r, queue) := queue_pop queue in
      Ret (r, mkKeyboard (Some queue) (KEYBOARD_WAKER k))
  end.

Definition register_waker (task : nat) k : keyboard_state Q W :=
  mkKeyboard (SCANCODE_QUEUE k) (waker_register task (KEYBOARD_WAKER k)).
Definition take_waker k : keyboard_state Q W :=
  mkKeyboard (SCANCODE_QUEUE k) (waker_take (KEYBOARD_WAKER k)).2.

(** [poll_next] without interrupts *)
Definition poll_next (task : nat) k : outcome (PollScancode * keyboard_state Q W) :=
  let! r := pop_scancode k in
  match r with
  | (Some scancode, k) => Ret (Poll_Ready scancode, k)
  | (None, k) =>
      let k := register_waker task k in
      let! r := pop_scancode k in
      match r with
      | (Some scancode, k) => Ret (Poll_Ready scancode, take_waker k)
      | (None, k) => Ret (Poll_Pending, k)
      end
  end.

(* ------------------------------------------------------------------ *)
(** ** Polling with interrupts *)

(** Where the task is: running between polls, at one of the accesses of
    [poll_next], or asleep after [Poll::Pending] until it is woken. *)
Inductive task_point : Type :=
| Running_task
| Before_register
| Before_second_pop
| Before_take (scancode : Z)
| Asleep.

(** The ghost fields record the scancodes the queue accepted and the ones
    [poll_next] returned, in order. *)
Record world : Type := mkWorld {
  kb : keyboard_state Q W;
  point : task_point;
  accepted : list Z;
  returned : list Z
}.

Definition TASK : nat := 0.

Inductive kb_step : world -> world -> Prop :=
| step_interrupt x ok woken k' v :
    add_keyboard_scancode x (kb v) = (ok, woken, k') ->
    kb_step v (mkWorld k'
      (match woken, point v with Some _, Asleep => Running_task | _, p => p end)
      (if ok then accepted v ++ [x] else accepted v) (returned v))
| step_poll_ready x k' v :
    point v = Running_task -> pop_scancode (kb v) = Ret (Some x, k') ->
    kb_step v (mkWorld k' Running_task (accepted v) (returned v ++ [x]))
| step_poll_empty k' v :
    point v = Running_task -> pop_scancode (kb v) = Ret (None, k') ->
    kb_step v (mkWorld k' Before_register (accepted v) (returned v))
| step_register v :
    point v = Before_register ->
    kb_step v (mkWorld (register_waker TASK (kb v)) Before_second_pop (accepted v) (returned v))
| step_pop_again x k' v :
    point v = Before_second_pop -> pop_scancode (kb v) = Ret (Some x, k') ->
    kb_step v (mkWorld k' (Before_take x) (accepted v) (returned v))
| step_take x v :
    point v = Before_take x ->
    kb_step v (mkWorld (take_waker (kb v)) Running_task (accepted v) (returned v ++ [x]))
| step_pending k' v :
    point v = Before_second_pop -> pop_scancode (kb v) = Ret (None, k') ->
    kb_step v (mkWorld k' Asleep (accepted v) (returned v)).

(** The scancode a poll holds but has not returned yet. *)
Definition in_hand (p : task_point) : list Z :=
  match p with Before_take x => [x] | _ => [] end.

Record kb_inv (v : world) : Prop := {
  ki_queue : exists q, SCANCODE_QUEUE (kb v) = Some q /\ queue_capacity q = 100%nat /\
    (length (queue_elements q) <= 100)%nat /\
    accepted v = returned v ++ in_hand (point v) ++ queue_elements q;
  ki_asleep : point v = Asleep ->
    waker_registered (KEYBOARD_WAKER (kb v)) = Some TASK /\ accepted v = returned v;
  ki_second : point v = Before_second_pop ->
    waker_registered (KEYBOARD_WAKER (kb v)) = Some TASK \/ accepted v <> returned v
}.
End Keyboard.
Arguments world Q W : clear implicits.
Arguments keyboard_init {Q W _}.

(* ------------------------------------------------------------------ *)
(** ** Facts *)

Section KeyboardFacts.
Context {Q W : Type} `{ArrayQueueLaws Q} `{AtomicWakerLaws W}.
Implicit Types (v : world Q W) (k : keyboard_state Q W).

Lemma add_scancode_spec x k q :
  SCANCODE_QUEUE k = Some q -> queue_capacity q = 100%nat ->
  exists ok woken k' q', add_keyboard_scancode x k = (ok, woken, k') /\
    SCANCODE_QUEUE k' = Some q' /\ queue_capacity q' = 100%nat /\
    ok = (length (queue_elements q) <? 100)%nat /\
    queue_elements q' = (if ok then queue_elements q ++ [x] else queue_elements q) /\
    (if ok then woken = waker_registered (KEYBOARD_WAKER k)
     else woken = None /\ KEYBOARD_WAKER k' = KEYBOARD_WAKER k).
Proof.
  intros Hq Hc. unfold add_keyboard_scancode. rewrite Hq. pose proof (queue_push_law x q) as Hp.
  destruct (queue_push x q) as [ok q']. destruct Hp as [Hc' Hp]. rewrite Hc in Hp, Hc'.
  destruct (Nat.ltb_spec (length (queue_elements q)) 100); destruct Hp as [-> He]; simpl.
  - pose proof (waker_wake_law (KEYBOARD_WAKER k)) as Hw.
    destruct (waker_wake (KEYBOARD_WAKER k)) as [r w']. destruct Hw as [-> _].
    by exists true, (waker_registered (KEYBOARD_WAKER k)), (mkKeyboard (Some q') w'), q'.
  - by exists false, None, (mkKeyboard (Some q') (KEYBOARD_WAKER k)), q'.
Qed.

Lemma pop_scancode_spec k q :
  SCANCODE_QUEUE k = Some q ->
  exists r q', pop_scancode k = Ret (r, mkKeyboard (Some q') (KEYBOARD_WAKER k)) /\
    queue_capacity q' = queue_capacity q /\
    match queue_elements q with
    | [] => r = None /\ queue_elements q' = []
    | x :: l => r = Some x /\ queue_elements q' = l
    end.
Proof.
  intros Hq. unfold pop_scancode. rewrite Hq. pose proof (queue_pop_law q) as Hp.
  destruct (queue_pop q) as [r q']. destruct Hp as [Hc Hp]. by exists r, q'.
Qed.

Lemma app_neq_self {A} (l r : list A) : r <> [] -> l ++ r <> l.
Proof. intros Hr E. apply Hr. apply (f_equal length) in E. rewrite length_app in E. destruct r; simpl in *; [done|lia]. Qed.

Lemma interrupt_inv v x ok woken k' :
  kb_inv v -> add_keyboard_scancode x (kb v) = (ok, woken, k') ->
  kb_inv (mkWorld k' (match woken, point v with Some _, Asleep => Running_task | _, p => p end)
            (if ok then accepted v ++ [x] else accepted v) (returned v)).
Proof.
  intros [(q & Hq & Hc & Hl & Ha) Hs Hsec] E.
  destruct (add_scancode_spec x (kb v) q Hq Hc) as (ok2 & w2 & k2 & q' & E2 & Hq' & Hc' & Hok & He & Hw).
  rewrite E in E2. injection E2 as <- <- <-. subst ok. set (b := (length (queue_elements q) <? 100)%nat) in *.
  assert (Hp : in_hand (match woken, point v with Some _, Asleep => Running_task | _, p => p end)
               = in_hand (point v)) by (by destruct woken, (point v)).
  split; cbn [kb point accepted returned].
  - exists q'. rewrite Hp. split_and!; [done..| |].
    + rewrite He. destruct b eqn:Eb; [|done]. apply Nat.ltb_lt in Eb. rewrite length_app. simpl. lia.
    + rewrite He, Ha. destruct b; [|done]. by rewrite <- !(assoc_L (++)).
  - intros Hpt. destruct (point v) eqn:Ep; destruct woken as [u|]; try done.
    destruct (Hs eq_refl) as [Hr _]. destruct b; [congruence|]. destruct Hw as [_ ->]. auto.
  - intros Hpt. assert (Ep : point v = Before_second_pop) by (destruct woken, (point v); done).
    rewrite Ep in Ha. destruct b.
    + right. rewrite Ha. cbn. rewrite <- (assoc_L (++)). apply app_neq_self. by destruct (queue_elements q).
    + destruct Hw as [_ ->]. auto.
Qed.

Lemma kb_step_inv v v' : kb_inv v -> kb_step v v' -> kb_inv v'.
Proof.
  intros Hi Hstep. destruct Hstep as [x ok woken k' v E|x k' v Hp E|k' v Hp E|v Hp|x k' v Hp E|x v Hp|k' v Hp E];
    [by eapply interrupt_inv|..]; destruct Hi as [(q & Hq & Hc & Hl & Ha) Hs Hsec]; rewrite Hp in Ha.
  all: try (destruct (pop_scancode_spec (kb v) q Hq) as (r & q' & E' & Hc' & He);
    rewrite E in E'; destruct (queue_elements q) as [|y l] eqn:El; destruct He as [-> He];
    first [discriminate E'|injection E' as -> ->|injection E' as ->]).
  all: split; cbn [kb point accepted returned SCANCODE_QUEUE KEYBOARD_WAKER register_waker take_waker];
    try discriminate.
  - exists q'. rewrite He, Ha, Hc'. simpl in *. split_and!; [done..|lia|]. by rewrite <- (assoc_L (++)).
  - exists q'. rewrite He, Ha, Hc'. done.
  - exists q. rewrite Ha. done.
  - left. apply waker_register_law.
  - exists q'. rewrite He, Ha, Hc'. simpl in *. split_and!; [done..|lia|done].
  - exists q. rewrite Ha. split_and!; try done. by rewrite <- (assoc_L (++)).
  - exists q'. rewrite He, Ha, Hc'. done.
  - intros _. simpl in Ha. rewrite !app_nil_r in Ha. destruct (Hsec Hp) as [?|N]; [done|]. done.
Qed.

(** A poll that no interrupt disturbs is a run of the step relation. *)
Lemma poll_next_steps v r k' :
  point v = Running_task -> poll_next TASK (kb v) = Ret (r, k') ->
  rtc kb_step v
    (match r with
     | Poll_Ready x => mkWorld k' Running_task (accepted v) (returned v ++ [x])
     | Poll_Pending => mkWorld k' Asleep (accepted v) (returned v)
     end).
Proof.
  intros Hp E. unfold poll_next in E. inv_ret. destruct x as [[x|] k1].
  { simplify_eq. apply rtc_once. by apply step_poll_ready. }
  inv_ret. destruct x as [[x|] k2]; simplify_eq.
  - eapply rtc_l; [by apply step_poll_empty|]. eapply rtc_l; [by apply step_register|].
    eapply rtc_l; [by apply (step_pop_again x k2)|]. eapply rtc_l; [by apply (step_take x)|].
    apply rtc_refl.
  - eapply rtc_l; [by apply step_poll_empty|]. eapply rtc_l; [by apply step_register|].
    eapply rtc_l; [by apply (step_pending k')|]. apply rtc_refl.
Qed.
End KeyboardFacts.

Lemma kb_reach_inv {Q W} `{ArrayQueueLaws Q} `{AtomicWakerLaws W} (k : keyboard_state Q W) v :
  KeyboardScancodeStream_new keyboard_init = Ret k ->
  rtc kb_step (mkWorld k Running_task [] []) v -> kb_inv v.
Proof.
  intros Hk Hr. unfold KeyboardScancodeStream_new in Hk. simpl in Hk. simplify_eq.
  assert (Hi : kb_inv (Q := Q) (W := W)
    (mkWorld (mkKeyboard (Some (queue_new 100)) waker_new) Running_task [] [])).
  { split; try done. destruct (queue_new_law (Q := Q) 100) as [Hc He].
    exists (queue_new 100). rewrite He, Hc. split_and!; try done. simpl. lia. }
  clear -Hi Hr H0 H2. induction Hr as [|v1 v2 v3 Hs _ IH]; [done|].
  apply IH. by apply (kb_step_inv v1).
Qed.

(** A queue as a list with its capacity and a waker cell as an option. *)
#[export] Instance list_queue : ArrayQueue (nat * list Z) := {|
  queue_new n := (n, []);
  queue_push x q := if (length q.2 <? q.1)%nat then (true, (q.1, q.2 ++ [x])) else (false, q);
  queue_pop q := match q.2 with [] => (None, q) | x :: l => (Some x, (q.1, l)) end;
  queue_is_empty q := match q.2 with [] => true | _ => false end;
  queue_capacity := fst;
  queue_elements := snd
|}.
#[export] Instance list_queue_laws : ArrayQueueLaws (nat * list Z).
Proof.
  split; [done|..]; simpl.
  - intros x [n l]. simpl. by destruct (length l <? n)%nat.
  - intros [n [|x l]]; done.
  - intros [n [|x l]]; done.
Qed.
#[export] Instance option_waker : AtomicWaker (option nat) := {|
  waker_new := None;
  waker_register t _ := Some t;
  waker_wake w := (w, None);
  waker_take w := (w, None);
  waker_registered w := w
|}.
#[export] Instance option_waker_laws : AtomicWakerLaws (option nat).
Proof. by split. Qed.

(* ------------------------------------------------------------------ *)
(** ** Properties *)

(** C14: no key is lost and no wake-up is missed, wherever interrupts strike.
    From the creation of the stream, in every state that interrupts and polls
    can reach in any interleaving: the scancodes accepted are the ones returned,
    then the one a poll holds, then those in the queue, in order; the queue
    never holds more than 100, and an interrupt is refused only when it does;
    and if the task sleeps then every accepted scancode has been returned and
    the next accepted one wakes it. *)
Theorem keyboard_stream_correct {Q W} `{ArrayQueueLaws Q} `{AtomicWakerLaws W}
    (k : keyboard_state Q W) (v : world Q W) :
  KeyboardScancodeStream_new keyboard_init = Ret k ->
  rtc kb_step (mkWorld k Running_task [] []) v ->
  exists q, SCANCODE_QUEUE (kb v) = Some q /\ (length (queue_elements q) <= 100)%nat /\
    accepted v = returned v ++ in_hand (point v) ++ queue_elements q /\
    (forall x ok woken k', add_keyboard_scancode x (kb v) = (ok, woken, k') ->
       (ok = false <-> length (queue_elements q) = 100%nat) /\
       (point v = Asleep -> accepted v = returned v /\ ok = true /\ woken = Some TASK)).
Proof.
  intros Hk Hr. destruct (kb_reach_inv k v Hk Hr) as [(q & Hq & Hc & Hl & Ha) Hs _].
  exists q. split_and!; try done. intros x ok woken k' E.
  destruct (add_scancode_spec x (kb v) q Hq Hc) as (ok2 & w2 & k2 & q' & E2 & _ & _ & Hok & _ & Hw).
  rewrite E in E2. injection E2 as <- <- <-. rewrite Hok in *. split.
  - rewrite Nat.ltb_ge. lia.
  - intros Hp. destruct (Hs Hp) as [Hwk Hall]. split; [done|].
    rewrite Hp, Hall in Ha. symmetry in Ha.
    assert (He : queue_elements q = []).
    { destruct (queue_elements q) as [|y l] eqn:El; [done|]. exfalso. revert Ha. by apply app_neq_self. }
    rewrite He in *. simpl in *. split; [done|]. congruence.
Qed.

Lemma keyboard_stream_correct_witness :
  exists v : world (nat * list Z) (option nat),
    point v = Asleep /\ accepted v = [30] /\ returned v = [30] /\
    (forall q, SCANCODE_QUEUE (kb v) = Some q -> (length (queue_elements q) <= 100)%nat).
Proof.
  destruct (keyboard_stream_correct (Q := nat * list Z) (W := option nat)
    (mkKeyboard (Some (100%nat, [])) None)
    (mkWorld (mkKeyboard (Some (100%nat, [])) (Some 0%nat)) Asleep [30] [30]))
    as (q & E1 & E2 & _).
  - reflexivity.
  - eapply rtc_l; [eapply (step_interrupt 30); reflexivity|].
    eapply rtc_l; [eapply (step_poll_ready 30); reflexivity|].
    eapply rtc_l; [eapply step_poll_empty; reflexivity|].
    eapply rtc_l; [eapply step_register; reflexivity|].
    eapply rtc_l; [eapply step_pending; reflexivity|].
    apply rtc_refl.
  - exists (mkWorld (mkKeyboard (Some (100%nat, [])) (Some 0%nat)) Asleep [30] [30]).
    split; [reflexivity|]. split; [reflexivity|]. split; [reflexivity|].
    intros q' E. rewrite E1 in E. injection E as <-. exact E2.
Defined.
