(* ===== verification/Executor.v ===== *)
(** * Executor: cooperative tasks (src/src/task/mod.rs, task/executor.rs)

    Tasks are futures with an id; the executor keeps them in a map, with a
    shared queue of the ids to poll and a cache of wakers.  A waker pushes the
    id of its task into the queue.  The futures are a parameter: a poll reads
    and changes the future and some shared state, and may wake any tasks.  The
    ready loop runs on fuel, and the theorems say how much is enough.  The
    idle loop is also given as a step relation in which interrupts wake tasks
    whenever the interrupt flag allows it. *)

From stdpp Require Import base numbers relations list gmap.
From S2P Require Import Prelude Keyboard.
Local Open Scope Z_scope.
Local Open Scope ruix_scope.

(** [Poll<()>] *)
Inductive TaskPoll : Type := Task_Ready | Task_Pending.
#[export] Instance TaskPoll_eq_dec : EqDecision TaskPoll.
Proof. solve_decision. Defined.

(** [TaskId::new]: [fetch_add] on the static counter, which wraps around. *)
Definition task_TaskId_new (NEXT_ID : Z) : Z * Z := (NEXT_ID, wrapping_add_u64 NEXT_ID 1).

(** [TaskWaker]; the [Arc] of the queue is the executor's own queue. *)
Record TaskWaker : Type := mkTaskWaker { tw_task_id : Z }.

(** What one turn of the ready loop did, kept as a trace: the id popped, and
    the answer of the poll with the ids it woke, unless the task was gone. *)
Record turn : Type := mkTurn {
  turn_id : Z;
  turn_answer : option TaskPoll;
  turn_wakes : list Z
}.

Section Executor.
Context {Q F S : Type} `{ArrayQueue Q}.

Record Task : Type := mkTask { task_id : Z; task_future : F }.

Definition Task_new (future : F) (NEXT_ID : Z) : Task * Z :=
  let '(id, NEXT_ID) := task_TaskId_new NEXT_ID in (mkTask id future, NEXT_ID).

Record Executor : Type := mkExecutor {
  tasks : gmap Z Task;
  task_queue : Q;
  waker_cache : gmap Z TaskWaker
}.
Implicit Types (e : Executor) (s : S).

Definition Executor_new : Executor := mkExecutor ∅ (queue_new 100) ∅.

(** [push(id).expect(..)], in [spawn] and in [wake_task] *)
Definition push_expect (id : Z) (q : Q) : outcome Q :=
  let '(ok, q) := queue_push id q in if ok then Ret q else Panic.

Definition Executor_spawn (task : Task) e : outcome Executor :=
  match tasks e !! task_id task with
  | Some _ => Panic
  | None =>
      let! q := push_expect (task_id task) (task_queue e) in
      Ret (mkExecutor (<[task_id task := task]> (tasks e)) q (waker_cache e))
  end.

Definition TaskWaker_new (task_id : Z) : TaskWaker := mkTaskWaker task_id.
Definition TaskWaker_wake_task (w : TaskWaker) (q : Q) : outcome Q :=
  push_expect (tw_task_id w) q.

(** The waker [process/mod.rs] defines only warns when the queue is full. *)
Definition process_TaskWaker_wake_task (w : TaskWaker) (q : Q) : Q :=
  (queue_push (tw_task_id w) q).2.

(** The wake-ups a poll performs, in order, each through a task's waker. *)
Fixpoint wake_all (ids : list Z) (q : Q) : outcome Q :=
  match ids with
  | [] => Ret q
  | id :: ids => let! q := TaskWaker_wake_task (TaskWaker_new id) q in wake_all ids q
  end.

(** [Future::poll] with the waker of a context: the answer, the ids of the
    tasks woken, the future and the shared state afterwards. *)
Variable future_poll : TaskWaker -> F -> S -> outcome (TaskPoll * list Z * F * S).

Definition Task_poll (w : TaskWaker) (t : Task) s : outcome (TaskPoll * list Z * Task * S) :=
  let! r := future_poll w (task_future t) s in
  let '(answer, wakes, f, s) := r in
  Ret (answer, wakes, mkTask (task_id t) f, s).

(** The body of the loop for one popped id. *)
Definition run_task (id : Z) e s : outcome (turn * Executor * S) :=
  match tasks e !! id with
  | None => Ret (mkTurn id None [], e, s)
  | Some task =>
      let waker := default (TaskWaker_new id) (waker_cache e !! id) in
      let cache := <[id := waker]> (waker_cache e) in
      let! r := Task_poll waker task s in
      let '(answer, wakes, task, s) := r in
      let! q := wake_all wakes (task_queue e) in
      Ret (mkTurn id (Some answer) wakes,
           match answer with
           | Task_Ready => mkExecutor (delete id (tasks e)) q (delete id cache)
           | Task_Pending => mkExecutor (<[id := task]> (tasks e)) q cache
           end, s)
  end.

(** [run_ready_tasks]; [None] when the fuel runs out. *)
Fixpoint run_ready_tasks (fuel : nat) e s : option (outcome (list turn * Executor * S)) :=
  match fuel with
  | O => None
  | Datatypes.S fuel =>
      match queue_pop (task_queue e) with
      | (None, q) => Some (Ret ([], mkExecutor (tasks e) q (waker_cache e), s))
      | (Some id, q) =>
          match run_task id (mkExecutor (tasks e) q (waker_cache e)) s with
          | Panic => Some Panic
          | Ret (t, e, s) =>
              match run_ready_tasks fuel e s with
              | Some (Ret (tr, e, s)) => Some (Ret (t :: tr, e, s))
              | r => r
              end
          end
      end
  end.

(** [sleep_if_idle], without interrupts: whether it halts. *)
Definition sleep_if_idle e : bool := queue_is_empty (task_queue e).

(* ------------------------------------------------------------------ *)
(** ** The executor under interrupts *)

(** The points of [run] between which an interrupt can strike. *)
Inductive run_point : Type :=
| At_ready_loop      (** at the [pop] of the ready loop *)
| At_disable         (** the loop has ended, before [interrupts::disable] *)
| At_check           (** interrupts are off, before [is_empty] *)
| At_halt            (** the queue was empty, before [enable_and_hlt] *)
| At_enable          (** it was not, before [interrupts::enable] *)
| Halted.            (** in [hlt], interrupts on *)

Record run_world : Type := mkRun {
  rw_exec : Executor;
  rw_shared : S;
  rw_point : run_point;
  rw_trace : list turn;
  rw_pushed : list Z
}.

(** Interrupts are off from [disable] to [enable] or to [enable_and_hlt],
    whose [sti] takes effect only after [hlt] has begun. *)
Definition interrupts_on (p : run_point) : bool :=
  match p with At_check | At_halt | At_enable => false | _ => true end.

Definition set_queue (q : Q) e : Executor := mkExecutor (tasks e) q (waker_cache e).

Inductive run_step : run_world -> run_world -> Prop :=
| run_interrupt id q v :
    interrupts_on (rw_point v) = true ->
    TaskWaker_wake_task (TaskWaker_new id) (task_queue (rw_exec v)) = Ret q ->
    run_step v (mkRun (set_queue q (rw_exec v)) (rw_shared v)
      (match rw_point v with Halted => At_ready_loop | p => p end)
      (rw_trace v) (rw_pushed v ++ [id]))
| run_other_interrupt v :
    rw_point v = Halted ->
    run_step v (mkRun (rw_exec v) (rw_shared v) At_ready_loop (rw_trace v) (rw_pushed v))
| run_pop id q t e s v :
    rw_point v = At_ready_loop -> queue_pop (task_queue (rw_exec v)) = (Some id, q) ->
    run_task id (set_queue q (rw_exec v)) (rw_shared v) = Ret (t, e, s) ->
    run_step v (mkRun e s At_ready_loop (rw_trace v ++ [t]) (rw_pushed v ++ turn_wakes t))
| run_empty q v :
    rw_point v = At_ready_loop -> queue_pop (task_queue (rw_exec v)) = (None, q) ->
    run_step v (mkRun (set_queue q (rw_exec v)) (rw_shared v) At_disable (rw_trace v) (rw_pushed v))
| run_disable v :
    rw_point v = At_disable ->
    run_step v (mkRun (rw_exec v) (rw_shared v) At_check (rw_trace v) (rw_pushed v))
| run_check v :
    rw_point v = At_check ->
    run_step v (mkRun (rw_exec v) (rw_shared v)
      (if sleep_if_idle (rw_exec v) then At_halt else At_enable) (rw_trace v) (rw_pushed v))
| run_halt v :
    rw_point v = At_halt ->
    run_step v (mkRun (rw_exec v) (rw_shared v) Halted (rw_trace v) (rw_pushed v))
| run_enable v :
    rw_point v = At_enable ->
    run_step v (mkRun (rw_exec v) (rw_shared v) At_ready_loop (rw_trace v) (rw_pushed v)).
End Executor.
Arguments Task F : clear implicits.
Arguments Executor Q F : clear implicits.
Arguments run_world Q F S : clear implicits.
Arguments Executor_new {Q F _}.

(* ------------------------------------------------------------------ *)
(** ** Facts *)

Section ExecutorFacts.
Context {Q F S : Type} `{ArrayQueueLaws Q}.
Context (future_poll : TaskWaker -> F -> S -> outcome (TaskPoll * list Z * F * S)).
Implicit Types (e : Executor Q F) (s : S).

Notation elems e := (queue_elements (task_queue e)).

Lemma push_expect_spec id (q : Q) :
  match push_expect id q with
  | Ret q' => queue_elements q' = queue_elements q ++ [id] /\ queue_capacity q' = queue_capacity q /\
      (length (queue_elements q) < queue_capacity q)%nat
  | Panic => (queue_capacity q <= length (queue_elements q))%nat
  end.
Proof.
  unfold push_expect. pose proof (queue_push_law id q) as Hp.
  destruct (queue_push id q) as [ok q']. destruct Hp as [Hc Hp].
  destruct (Nat.ltb_spec (length (queue_elements q)) (queue_capacity q)); destruct Hp as [-> He]; auto.
Qed.

Lemma wake_all_spec ids : forall q : Q,
  match wake_all ids q with
  | Ret q' => queue_elements q' = queue_elements q ++ ids /\ queue_capacity q' = queue_capacity q
  | Panic => (queue_capacity q < length (queue_elements q) + length ids)%nat
  end.
Proof.
  induction ids as [|id ids IH]; intros q; simpl; [by rewrite app_nil_r|].
  unfold TaskWaker_wake_task, TaskWaker_new. cbn [tw_task_id]. pose proof (push_expect_spec id q) as Hp.
  destruct (push_expect id q) as [q1|]; simpl; [|lia].
  destruct Hp as (He & Hc & _). specialize (IH q1).
  destruct (wake_all ids q1) as [q2|]; rewrite He, Hc in IH.
  - by rewrite <- (assoc_L (++)) in IH.
  - rewrite length_app in IH. simpl in IH. lia.
Qed.

Lemma queue_pop_cases (q : Q) :
  (exists q', queue_pop q = (None, q') /\ queue_elements q = [] /\ queue_elements q' = [] /\
     queue_capacity q' = queue_capacity q) \/
  (exists id l q', queue_pop q = (Some id, q') /\ queue_elements q = id :: l /\ queue_elements q' = l /\
     queue_capacity q' = queue_capacity q).
Proof.
  pose proof (queue_pop_law q) as Hp. destruct (queue_pop q) as [r q']. destruct Hp as [Hc Hp].
  destruct (queue_elements q) as [|id l]; destruct Hp as [-> He]; [left|right]; eauto 10.
Qed.

(** The executor's tables: a task is kept under its own id, a cached waker
    wakes the task it is cached for, and only existing tasks have one. *)
Record exec_inv e : Prop := {
  ei_ids : forall id t, tasks e !! id = Some t -> task_id t = id;
  ei_wakers : forall id w, waker_cache e !! id = Some w -> tw_task_id w = id /\ is_Some (tasks e !! id)
}.

(** One turn: the task popped is polled with its own waker; a finished task
    and its waker are removed, the others stay; the woken ids are appended. *)
Lemma run_task_spec id e s t e' s' :
  exec_inv e -> run_task future_poll id e s = Ret (t, e', s') ->
  exec_inv e' /\ turn_id t = id /\ elems e' = elems e ++ turn_wakes t /\
  queue_capacity (task_queue e') = queue_capacity (task_queue e) /\
  (turn_answer t = None <-> tasks e !! id = None) /\
  (forall j, tasks e' !! j = None <-> tasks e !! j = None \/ (j = id /\ turn_answer t = Some Task_Ready)).
Proof.
  intros [Hids Hw] E. unfold run_task in E. destruct (tasks e !! id) as [task|] eqn:Et.
  2:{ simplify_eq/=. rewrite app_nil_r. split_and!; try done. intros j. naive_solver. }
  unfold Task_poll in E. inv_ret. destruct x as [[[answer wakes] task'] s2].
  destruct x0 as [[[a2 w2] f2] s3]. simplify_eq. inv_ret. simplify_eq/=.
  match goal with E : wake_all _ _ = Ret _ |- _ =>
    pose proof (wake_all_spec wakes (task_queue e)) as Hq; rewrite E in Hq; destruct Hq as [Hq Hc]
  end.
  set (w := default (TaskWaker_new id) (waker_cache e !! id)) in *.
  assert (Hwid : tw_task_id w = id).
  { subst w. destruct (waker_cache e !! id) as [w|] eqn:Ew; [by apply (Hw id w Ew)|done]. }
  destruct answer; simpl; split_and!; try done.
  - split; simpl.
    + intros j t [_ Hj]%lookup_delete_Some. auto.
    + intros j v [Hne Hj]%lookup_delete_Some. rewrite lookup_insert_ne in Hj by done.
      rewrite lookup_delete_ne by done. auto.
  - intros j. destruct (decide (j = id)) as [->|Hne].
    + rewrite lookup_delete_eq. naive_solver.
    + rewrite lookup_delete_ne by done. naive_solver.
  - split; simpl.
    + intros j t. destruct (decide (j = id)) as [->|Hne].
      * rewrite lookup_insert_eq. intros [= <-]. simpl. auto.
      * rewrite lookup_insert_ne by done. auto.
    + intros j v. destruct (decide (j = id)) as [->|Hne].
      * rewrite !lookup_insert_eq. intros [= <-]. eauto.
      * rewrite !lookup_insert_ne by done. auto.
  - intros j. destruct (decide (j = id)) as [->|Hne].
    + rewrite lookup_insert_eq. naive_solver.
    + rewrite lookup_insert_ne by done. naive_solver.
Qed.

Lemma run_ready_spec fuel : forall e s tr e' s',
  exec_inv e -> run_ready_tasks future_poll fuel e s = Some (Ret (tr, e', s')) ->
  exec_inv e' /\ elems e' = [] /\
  (turn_id <$> tr) = elems e ++ (tr ≫= turn_wakes) /\
  queue_capacity (task_queue e') = queue_capacity (task_queue e) /\
  (forall id, tasks e' !! id = None <->
     tasks e !! id = None \/ exists t, t ∈ tr /\ turn_id t = id /\ turn_answer t = Some Task_Ready).
Proof.
  induction fuel as [|fuel IH]; intros e s tr e' s' Hi E; simpl in E; [done|].
  destruct (queue_pop_cases (task_queue e)) as [(q & Ep & He & He' & Hc)|(id & l & q & Ep & He & He' & Hc)];
    rewrite Ep in E.
  { simplify_eq/=. rewrite He. split_and!; try done; [by destruct Hi|].
    intros j. split; [by left|]. intros [?|(t & Ht & _)]; [done|]. by apply not_elem_of_nil in Ht. }
  destruct (run_task _ _ _ _) as [[[t e1] s1]|] eqn:Et; [|done].
  assert (Hi0 : exec_inv (mkExecutor (tasks e) q (waker_cache e))) by (by destruct Hi).
  destruct (run_task_spec _ _ _ _ _ _ Hi0 Et) as (Hi1 & Hid & Hq1 & Hc1 & _ & Hg1). simpl in *.
  destruct (run_ready_tasks _ fuel e1 s1) as [[[[tr' e2] s2]|]|] eqn:Er; simplify_eq.
  destruct (IH e1 s1 _ _ _ Hi1 Er) as (Hi2 & Hemp & Htr & Hc2 & Hg2). split_and!; try done.
  - rewrite fmap_cons, Htr, Hq1, He. csimpl. by rewrite (assoc_L (++)).
  - congruence.
  - intros j. rewrite Hg2, Hg1. setoid_rewrite elem_of_cons. naive_solver.
Qed.

(** *** Termination *)

Variable rank : F -> nat.

Definition total_rank (m : gmap Z (Task F)) : nat :=
  map_fold (fun _ t n => rank (task_future t) + n)%nat O m.
Definition budget e : nat := (length (elems e) + total_rank (tasks e))%nat.

Lemma total_rank_delete m id t :
  m !! id = Some t -> total_rank m = (rank (task_future t) + total_rank (delete id m))%nat.
Proof.
  intros Hm. unfold total_rank. apply (map_fold_delete_L (fun _ t n => rank (task_future t) + n)%nat); [|done].
  intros. lia.
Qed.

Lemma total_rank_insert m id t : total_rank (<[id := t]> m) = (rank (task_future t) + total_rank (delete id m))%nat.
Proof. rewrite (total_rank_delete _ id t) by apply lookup_insert_eq. by rewrite delete_insert_eq. Qed.

(** [rank] bounds the wake-ups a future has left: every poll pays for its own. *)
Hypothesis rank_pays : forall w f s answer wakes f' s',
  future_poll w f s = Ret (answer, wakes, f', s') -> (length wakes + rank f' <= rank f)%nat.

Lemma run_task_budget id e s t e' s' :
  run_task future_poll id e s = Ret (t, e', s') -> (budget e' <= budget e)%nat.
Proof.
  intros E. unfold run_task in E. destruct (tasks e !! id) as [task|] eqn:Et; [|by simplify_eq].
  unfold Task_poll in E. inv_ret. destruct x as [[[answer wakes] task'] s2].
  destruct x0 as [[[a2 w2] f2] s3]. simplify_eq. inv_ret.
  match goal with E : future_poll _ _ _ = _ |- _ => apply rank_pays in E end.
  match goal with E : wake_all _ _ = Ret _ |- _ =>
    pose proof (wake_all_spec wakes (task_queue e)) as Hq; rewrite E in Hq; destruct Hq as [Hq Hc]
  end.
  simplify_eq. unfold budget. rewrite (total_rank_delete _ _ _ Et).
  destruct answer; cbn [tasks task_queue]; rewrite Hq, length_app; [lia|].
  rewrite total_rank_insert. cbn [task_future]. lia.
Qed.

Lemma run_ready_terminates fuel : forall e s,
  (budget e < fuel)%nat -> exists r, run_ready_tasks future_poll fuel e s = Some r.
Proof.
  induction fuel as [|fuel IH]; intros e s Hf; [lia|]. simpl.
  destruct (queue_pop_cases (task_queue e)) as [(q & -> & _)|(id & l & q & -> & He & He' & Hc)]; [eauto|].
  destruct (run_task _ _ _ _) as [[[t e1] s1]|] eqn:Et; [|eauto].
  pose proof (run_task_budget _ _ _ _ _ _ Et) as Hb.
  destruct (IH e1 s1) as [r Hr].
  { unfold budget in Hf, Hb |- *. cbn [tasks task_queue] in Hb. rewrite He in Hf. rewrite He' in Hb. simpl in Hf. lia. }
  rewrite Hr. destruct r as [[[? ?] ?]|]; eauto.
Qed.

Hypothesis polls_return : forall w f s, future_poll w f s <> Panic.

Lemma run_task_returns id e s :
  (budget e <= queue_capacity (task_queue e))%nat -> run_task future_poll id e s <> Panic.
Proof.
  intros Hb. unfold run_task. destruct (tasks e !! id) as [task|] eqn:Et; [|done].
  unfold Task_poll. destruct (future_poll _ _ _) as [[[[answer wakes] f'] s']|] eqn:Ep; simpl;
    [|by apply polls_return in Ep].
  apply rank_pays in Ep. pose proof (wake_all_spec wakes (task_queue e)) as Hq.
  destruct (wake_all wakes (task_queue e)) as [q|]; [done|].
  unfold budget in Hb. rewrite (total_rank_delete _ _ _ Et) in Hb. lia.
Qed.

Lemma run_ready_returns fuel : forall e s,
  exec_inv e -> (budget e <= queue_capacity (task_queue e))%nat ->
  run_ready_tasks future_poll fuel e s <> Some Panic.
Proof.
  induction fuel as [|fuel IH]; intros e s Hi Hb; [done|]. simpl.
  destruct (queue_pop_cases (task_queue e)) as [(q & -> & _)|(id & l & q & -> & He & He' & Hc)]; [done|].
  set (e0 := mkExecutor (tasks e) q (waker_cache e)).
  assert (Hb0 : (budget e0 <= queue_capacity (task_queue e0))%nat).
  { unfold budget, e0 in *. cbn [tasks task_queue]. rewrite He in Hb. rewrite He', Hc. simpl in Hb. lia. }
  destruct (run_task _ id e0 s) as [[[t e1] s1]|] eqn:Et; [|by apply run_task_returns in Et].
  assert (Hi0 : exec_inv e0) by (by destruct Hi).
  destruct (run_task_spec _ _ _ _ _ _ Hi0 Et) as (Hi1 & _ & _ & Hc1 & _).
  pose proof (run_task_budget _ _ _ _ _ _ Et) as Hb1.
  rewrite <- Hc1 in Hb0. specialize (IH e1 s1 Hi1 ltac:(lia)).
  by destruct (run_ready_tasks _ fuel e1 s1) as [[[[? ?] ?]|]|].
Qed.
End ExecutorFacts.

Section RunFacts.
Context {Q F S : Type} `{ArrayQueueLaws Q}.
Context (future_poll : TaskWaker -> F -> S -> outcome (TaskPoll * list Z * F * S)).
Implicit Types (v : run_world Q F S).

(** The ids pushed so far are those that had a turn followed by the queue;
    from the emptiness check to the halt the queue is empty. *)
Record run_inv v : Prop := {
  ri_exec : exec_inv (rw_exec v);
  ri_fifo : rw_pushed v = (turn_id <$> rw_trace v) ++ queue_elements (task_queue (rw_exec v));
  ri_halt : rw_point v = At_halt \/ rw_point v = Halted -> queue_elements (task_queue (rw_exec v)) = []
}.

Lemma run_step_inv v v' : run_inv v -> run_step future_poll v v' -> run_inv v'.
Proof.
  intros [Hi Hf Hh] Hs. destruct Hs as [id q v Hon E|v Hp|id q t e s v Hp E Er|q v Hp E|v Hp|v Hp|v Hp|v Hp].
  1:{ unfold TaskWaker_wake_task, TaskWaker_new in E. cbn [tw_task_id] in E.
      pose proof (push_expect_spec id (task_queue (rw_exec v))) as Hq. rewrite E in Hq. destruct Hq as (Hq & _).
      split; cbn [rw_exec rw_pushed rw_trace rw_point set_queue task_queue].
      - by destruct Hi.
      - by rewrite Hf, Hq, (assoc_L (++)).
      - intros Hp. destruct (rw_point v); naive_solver. }
  2:{ destruct (queue_pop_cases (task_queue (rw_exec v))) as [(? & Ep & _)|(id' & l & q' & Ep & He & He' & _)];
        rewrite E in Ep; simplify_eq.
      assert (Hi0 : exec_inv (set_queue q' (rw_exec v))) by (by destruct Hi).
      destruct (run_task_spec _ _ _ _ _ _ _ Hi0 Er) as (Hi1 & Hid & Hq1 & _).
      split; cbn [rw_exec rw_pushed rw_trace rw_point]; [done| |by intros [|]].
      rewrite Hf, He, Hq1, fmap_app, <- Hid. cbn [set_queue task_queue]. rewrite <- !(assoc_L (++)). done. }
  2:{ destruct (queue_pop_cases (task_queue (rw_exec v))) as [(? & Ep & He & He' & _)|(? & ? & ? & Ep & _)];
        rewrite E in Ep; simplify_eq.
      split; cbn [rw_exec rw_pushed rw_trace rw_point set_queue task_queue]; [by destruct Hi| |by intros [|]].
      by rewrite Hf, He, He'. }
  all: split; cbn [rw_exec rw_pushed rw_trace rw_point]; try done; try by intros [|].
  - unfold sleep_if_idle. destruct (queue_is_empty _) eqn:Ee; [|by intros [|]].
    intros _. by apply queue_is_empty_law.
  - intros _. apply Hh. by left.
Qed.

Lemma run_reach_inv v v' : run_inv v -> rtc (run_step future_poll) v v' -> run_inv v'.
Proof. intros Hi Hr. induction Hr as [|v1 v2 v3 Hs _ IH]; [done|]. apply IH. by apply (run_step_inv v1). Qed.
End RunFacts.

(* ------------------------------------------------------------------ *)
(** ** Properties *)

Section Spawn.
Context {Q F : Type} `{ArrayQueueLaws Q}.
Implicit Types (e : Executor Q F).

Fixpoint spawn_all (ts : list (Task F)) e : outcome (Executor Q F) :=
  match ts with
  | [] => Ret e
  | t :: ts => let! e := Executor_spawn t e in spawn_all ts e
  end.

Lemma Executor_new_inv : exec_inv (Executor_new (Q := Q) (F := F)).
Proof. by split. Qed.

Lemma Executor_spawn_spec t e :
  exec_inv e ->
  match Executor_spawn t e with
  | Ret e' => exec_inv e' /\ tasks e !! task_id t = None /\ tasks e' = <[task_id t := t]> (tasks e) /\
      queue_elements (task_queue e') = queue_elements (task_queue e) ++ [task_id t] /\
      queue_capacity (task_queue e') = queue_capacity (task_queue e)
  | Panic => is_Some (tasks e !! task_id t) \/
      (queue_capacity (task_queue e) <= length (queue_elements (task_queue e)))%nat
  end.
Proof.
  intros [Hids Hw]. unfold Executor_spawn. destruct (tasks e !! task_id t) eqn:Et; [eauto|].
  pose proof (push_expect_spec (task_id t) (task_queue e)) as Hp.
  destruct (push_expect _ _) as [q|]; simpl; [|by right]. destruct Hp as (Hq & Hc & _).
  split_and!; try done. split; simpl.
  - intros id u [[<- <-]|[_ Hu]]%lookup_insert_Some; auto.
  - intros id w Hid. destruct (Hw id w Hid) as [? Hs]. split; [done|].
    apply lookup_insert_is_Some'. by right.
Qed.

Lemma spawn_all_spec ts : forall e e',
  exec_inv e -> spawn_all ts e = Ret e' ->
  exec_inv e' /\ queue_elements (task_queue e') = queue_elements (task_queue e) ++ (task_id <$> ts).
Proof.
  induction ts as [|t ts IH]; intros e e' Hi E; simpl in E; [simplify_eq; by rewrite app_nil_r|].
  inv_ret. pose proof (Executor_spawn_spec t e Hi) as Hs.
  match goal with Es : Executor_spawn _ _ = Ret _ |- _ => rewrite Es in Hs end.
  destruct Hs as (Hi1 & _ & _ & Hq & _). destruct (IH _ _ Hi1 E) as [Hi2 Hq2].
  split; [done|]. by rewrite Hq2, Hq, <- (assoc_L (++)).
Qed.
End Spawn.

(** C10: the ready loop ends.  When a rank bounds the wake-ups each future has
    left (every poll pays for the wake-ups it performs), a run with fuel above
    the length of the queue plus the ranks of the tasks returns; and when that
    sum fits the queue and no poll panics, it returns without a panic. *)
Theorem run_ready_tasks_terminates {Q F S} `{ArrayQueueLaws Q}
    (future_poll : TaskWaker -> F -> S -> outcome (TaskPoll * list Z * F * S)) (rank : F -> nat)
    (e : Executor Q F) (s : S) (fuel : nat) :
  (forall w f s answer wakes f' s',
     future_poll w f s = Ret (answer, wakes, f', s') -> (length wakes + rank f' <= rank f)%nat) ->
  exec_inv e -> (budget rank e < fuel)%nat ->
  (exists r, run_ready_tasks future_poll fuel e s = Some r) /\
  ((forall w f s, future_poll w f s <> Panic) ->
   (budget rank e <= queue_capacity (task_queue e))%nat ->
   exists tr e' s', run_ready_tasks future_poll fuel e s = Some (Ret (tr, e', s'))).
Proof.
  intros Hr Hi Hf. pose proof (run_ready_terminates future_poll rank Hr fuel e s Hf) as [r Er].
  split; [eauto|]. intros Hp Hb.
  pose proof (run_ready_returns future_poll rank Hr Hp fuel e s Hi Hb) as Hn.
  destruct r as [[[tr e'] s']|]; [eauto 10|congruence].
Qed.

(** A countdown: it wakes itself until it reaches zero. *)
Definition countdown_poll (w : TaskWaker) (n : nat) (s : list Z) : outcome (TaskPoll * list Z * nat * list Z) :=
  match n with
  | O => Ret (Task_Ready, [], O, s ++ [tw_task_id w])
  | Datatypes.S n => Ret (Task_Pending, [tw_task_id w], n, s ++ [tw_task_id w])
  end.

Definition countdown_executor : Executor (nat * list Z) nat :=
  mkExecutor {[ 1 := mkTask 1 2%nat; 2 := mkTask 2 1%nat ]} (100%nat, [1; 2]) ∅.

Lemma countdown_inv : exec_inv countdown_executor.
Proof.
  split; cbn [waker_cache tasks countdown_executor]; [|by intros id w Hw%lookup_empty_Some].
  intros id t [[<- <-]|[_ [<- <-]%lookup_singleton_Some]]%lookup_insert_Some; done.
Qed.

Lemma run_ready_tasks_terminates_witness :
  exists r, run_ready_tasks countdown_poll 10 countdown_executor [] = Some r.
Proof.
  refine (proj1 (run_ready_tasks_terminates countdown_poll (fun n => n) countdown_executor [] 10 _ _ _)).
  - intros w [|n] s answer wakes f' s' E; simpl in E; simplify_eq; simpl; lia.
  - exact countdown_inv.
  - vm_compute. lia.
Defined.

(** C17: the ready loop is fair and complete.  When it returns, the queue is
    empty; the turns taken are, in order, the ids that were queued followed by
    the ids woken during the run, so that every wake-up is followed by a turn
    of its task; a task is gone afterwards exactly when it was not there before
    or one of its polls answered [Ready]; and tasks and cached wakers still
    carry their own ids. *)
Theorem run_ready_tasks_spec {Q F S} `{ArrayQueueLaws Q}
    (future_poll : TaskWaker -> F -> S -> outcome (TaskPoll * list Z * F * S))
    (e e' : Executor Q F) (s s' : S) (fuel : nat) (tr : list turn) :
  exec_inv e -> run_ready_tasks future_poll fuel e s = Some (Ret (tr, e', s')) ->
  queue_elements (task_queue e') = [] /\
  (turn_id <$> tr) = queue_elements (task_queue e) ++ (tr ≫= turn_wakes) /\
  (forall id, tasks e' !! id = None <->
     tasks e !! id = None \/ exists t, t ∈ tr /\ turn_id t = id /\ turn_answer t = Some Task_Ready) /\
  exec_inv e'.
Proof. intros Hi E. by destruct (run_ready_spec future_poll fuel e s tr e' s' Hi E) as (? & ? & ? & _ & ?). Qed.

Lemma run_ready_tasks_spec_witness :
  exists tr e' s', run_ready_tasks countdown_poll 10 countdown_executor [] = Some (Ret (tr, e', s')) /\
    (turn_id <$> tr) = [1; 2; 1; 2; 1] /\ s' = [1; 2; 1; 2; 1] /\ tasks e' !! 1 = None.
Proof.
  destruct (run_ready_tasks countdown_poll 10 countdown_executor []) as [[[[tr e'] s']|]|] eqn:E.
  - destruct (run_ready_tasks_spec countdown_poll countdown_executor e' [] s' 10 tr countdown_inv E)
      as (_ & _ & Hg & _).
    exists tr, e', s'. vm_compute in E. injection E as <- <- <-. split; [reflexivity|].
    split; [reflexivity|]. split; [reflexivity|]. apply Hg. right.
    exists (mkTurn 1 (Some Task_Ready) []). split; [|done]. vm_compute. do 4 right. left.
  - vm_compute in E. discriminate E.
  - vm_compute in E. discriminate E.
Defined.

(** C11: no wake-up is lost.  After spawning tasks in a new executor, in every
    state that its loop and interrupts can reach in any interleaving, the ids
    pushed by spawning, by polls and by interrupts are exactly, in order, the
    ones that had a turn followed by those in the queue; so the processor is
    halted, or about to halt with interrupts off, only when every wake-up has
    been served. *)
Theorem executor_no_lost_wakeups {Q F S} `{ArrayQueueLaws Q}
    (future_poll : TaskWaker -> F -> S -> outcome (TaskPoll * list Z * F * S))
    (ts : list (Task F)) (e : Executor Q F) (s : S) (v : run_world Q F S) :
  spawn_all ts Executor_new = Ret e ->
  rtc (run_step future_poll) (mkRun e s At_ready_loop [] (task_id <$> ts)) v ->
  rw_pushed v = (turn_id <$> rw_trace v) ++ queue_elements (task_queue (rw_exec v)) /\
  (rw_point v = At_halt \/ rw_point v = Halted -> (turn_id <$> rw_trace v) = rw_pushed v) /\
  exec_inv (rw_exec v).
Proof.
  intros Hs Hr. destruct (spawn_all_spec _ _ _ Executor_new_inv Hs) as [Hi Hq].
  assert (Hn : queue_elements (task_queue (Executor_new (Q := Q) (F := F))) = []) by apply queue_new_law.
  assert (Hi0 : run_inv (mkRun e s At_ready_loop [] (task_id <$> ts))).
  { split; cbn; [done| |by intros [|]]. by rewrite Hq, Hn. }
  destruct (run_reach_inv future_poll _ v Hi0 Hr) as [He Hf Hh].
  split_and!; [done| |done]. intros Hp. rewrite Hf, (Hh Hp). by rewrite app_nil_r.
Qed.

(** A task that finishes at once, and an interrupt that wakes it again: the
    stale id gets a turn that finds no task. *)
Lemma executor_no_lost_wakeups_witness :
  exists v : run_world (nat * list Z) nat (list Z),
    rw_point v = Halted /\ rw_pushed v = [7; 7] /\ (turn_id <$> rw_trace v) = [7; 7].
Proof.
  set (q0 := (100%nat, @nil Z)). set (q7 := (100%nat, [7])).
  set (e0 := mkExecutor {[7 := mkTask 7 0%nat]} q7 ∅ : Executor (nat * list Z) nat).
  set (e1 := mkExecutor ∅ q0 ∅ : Executor (nat * list Z) nat).
  set (e7 := mkExecutor ∅ q7 ∅ : Executor (nat * list Z) nat).
  set (t1 := mkTurn 7 (Some Task_Ready) []). set (t2 := mkTurn 7 None []).
  set (v := mkRun e1 [7] Halted [t1; t2] [7; 7]). exists v.
  split; [reflexivity|]. split; [reflexivity|].
  refine (proj1 (proj2 (executor_no_lost_wakeups countdown_poll [mkTask 7 0%nat] e0 [] v _ _)) _).
  - vm_compute. reflexivity.
  - apply (rtc_l _ _ (mkRun e1 [7] At_ready_loop [t1] [7])); [apply (run_pop _ 7 q0 t1 e1 [7]); vm_compute; reflexivity|].
    apply (rtc_l _ _ (mkRun e1 [7] At_disable [t1] [7])); [apply (run_empty _ q0); vm_compute; reflexivity|].
    apply (rtc_l _ _ (mkRun e7 [7] At_disable [t1] [7; 7])); [apply (run_interrupt _ 7 q7); vm_compute; reflexivity|].
    apply (rtc_l _ _ (mkRun e7 [7] At_check [t1] [7; 7])); [apply run_disable; vm_compute; reflexivity|].
    apply (rtc_l _ _ (mkRun e7 [7] At_enable [t1] [7; 7])); [exact (run_check countdown_poll (mkRun e7 [7] At_check [t1] [7; 7]) eq_refl)|].
    apply (rtc_l _ _ (mkRun e7 [7] At_ready_loop [t1] [7; 7])); [apply run_enable; vm_compute; reflexivity|].
    apply (rtc_l _ _ (mkRun e1 [7] At_ready_loop [t1; t2] [7; 7])); [apply (run_pop _ 7 q0 t2 e1 [7]); vm_compute; reflexivity|].
    apply (rtc_l _ _ (mkRun e1 [7] At_disable [t1; t2] [7; 7])); [apply (run_empty _ q0); vm_compute; reflexivity|].
    apply (rtc_l _ _ (mkRun e1 [7] At_check [t1; t2] [7; 7])); [apply run_disable; vm_compute; reflexivity|].
    apply (rtc_l _ _ (mkRun e1 [7] At_halt [t1; t2] [7; 7]));
      [exact (run_check countdown_poll (mkRun e1 [7] At_check [t1; t2] [7; 7]) eq_refl)|].
    apply (rtc_l _ _ (v)); [apply run_halt; vm_compute; reflexivity|].
    apply rtc_refl.
  - right. reflexivity.
Defined.
