(* ===== verification/KeyTask.v ===== *)
(** * KeyTask: the keyboard task (process/mod.rs, task/keyboard.rs)

    [process_keyboard_input] and [print_keypresses] are the same asynchronous
    loop over the scancode stream: decode each scancode and print the key.
    The decoder comes from the crate [pc_keyboard] and is a parameter.  An
    [async fn] is a state machine: it starts the stream at its first poll and
    is suspended whenever [poll_next] answers [Pending].  The last part puts
    the task under the executor: keys typed while it sleeps are printed. *)

From stdpp Require Import base numbers list gmap.
From S2P Require Import Prelude Keyboard Executor.
Local Open Scope Z_scope.
Local Open Scope ruix_scope.

(** [DecodedKey]: a character, or a key that has none (its code). *)
Inductive DecodedKey : Type := Unicode (c : Z) | RawKey (code : Z).

(** [Keyboard] of [pc_keyboard]: [add_byte] and [process_keyevent]. *)
Class PcKeyboard (D E : Type) := {
  pc_keyboard_new : D;
  pc_add_byte : Z -> D -> result unit (option E) * D;
  pc_process_keyevent : E -> D -> option DecodedKey * D
}.

(** What is printed: a character, the name of a key, the end of a line. *)
Inductive printed : Type := Out_char (c : Z) | Out_key (code : Z) | Out_newline.

(** The state of the [async fn]: not polled yet, or waiting in
    [scancodes.next().await] with its decoder. *)
Inductive key_future (D : Type) : Type := Unresumed | Suspended (keyboard : D).
Arguments Unresumed {D}.
Arguments Suspended {D} keyboard.

(** The keyboard module of task/ has the same queue, stream and waker, with
    its own statics. *)
Definition add_scancode {Q W} `{ArrayQueue Q, AtomicWaker W} (scancode : Z) (k : keyboard_state Q W)
    : bool * option nat * keyboard_state Q W :=
  match SCANCODE_QUEUE k with
  | None => (false, None, k)
  | Some queue =>
      let '(ok, queue) := queue_push scancode queue in
      if negb ok then (false, None, mkKeyboard (Some queue) (KEYBOARD_WAKER k))
      else
        let '(woken, waker) := waker_wake (KEYBOARD_WAKER k) in
        (true, woken, mkKeyboard (Some queue) waker)
  end.

Definition ScancodeStream_new {Q W} `{ArrayQueue Q} (k : keyboard_state Q W)
    : outcome (keyboard_state Q W) :=
  match SCANCODE_QUEUE k with
  | Some _ => Panic
  | None => Ret (mkKeyboard (Some (queue_new 100)) (KEYBOARD_WAKER k))
  end.

Definition ScancodeStream_poll_next {Q W} `{ArrayQueue Q, AtomicWaker W}
    (task : nat) (k : keyboard_state Q W) : outcome (PollScancode * keyboard_state Q W) :=
  let! r := pop_scancode k in
  match r with
  | (Some scancode, k) => Ret (Poll_Ready scancode, k)
  | (None, k) =>
      let k := register_waker task k in
      let! r := pop_scancode k in
      match r with
      | (Some scancode, k) => Ret (Poll_Ready scancode, take_waker k)
      | (None, k) => Ret (Poll_Pending, k)
      end
  end.

Section KeyTask.
Context {Q W D E : Type} `{ArrayQueue Q, AtomicWaker W, PcKeyboard D E}.
Implicit Types (k : keyboard_state Q W) (out : list printed) (d : D).

(** The body of the loop for one scancode; [show] is its [match key]. *)
Definition handle_scancode (show : DecodedKey -> list printed) (scancode : Z) d out : D * list printed :=
  match pc_add_byte scancode d with
  | (Ok (Some key_event), d) =>
      match pc_process_keyevent key_event d with
      | (Some key, d) => (d, out ++ show key)
      | (None, d) => (d, out)
      end
  | (_, d) => (d, out)
  end.

(** [while let Some(scancode) = scancodes.next().await { .. }]: one poll runs
    the loop until the stream is pending; [None] when the fuel runs out. *)
Fixpoint key_loop (show : DecodedKey -> list printed) (fuel : nat) (task : nat) d k out
    : option (outcome (D * keyboard_state Q W * list printed)) :=
  match fuel with
  | O => None
  | S fuel =>
      match poll_next task k with
      | Panic => Some Panic
      | Ret (Poll_Pending, k) => Some (Ret (d, k, out))
      | Ret (Poll_Ready scancode, k) =>
          let '(d, out) := handle_scancode show scancode d out in
          key_loop show fuel task d k out
      end
  end.

(** [match key] of [process_keyboard_input] and of [print_keypresses] *)
Definition process_show (key : DecodedKey) : list printed :=
  match key with Unicode c => [Out_char c] | RawKey code => [Out_key code; Out_newline] end.
Definition print_show (key : DecodedKey) : list printed :=
  match key with Unicode c => [Out_char c] | RawKey code => [Out_key code] end.

Definition key_task_poll (show : DecodedKey -> list printed) (fuel : nat) (task : nat)
    (f : key_future D) k out : option (outcome (key_future D * keyboard_state Q W * list printed)) :=
  match (match f with
         | Unresumed => let! k := KeyboardScancodeStream_new k in Ret (pc_keyboard_new, k)
         | Suspended d => Ret (d, k)
         end) with
  | Panic => Some Panic
  | Ret (d, k) =>
      match key_loop show fuel task d k out with
      | Some (Ret (d, k, out)) => Some (Ret (Suspended d, k, out))
      | Some Panic => Some Panic
      | None => None
      end
  end.

Definition process_keyboard_input := key_task_poll process_show.
Definition print_keypresses := key_task_poll print_show.

(** The reference: the decoder fed with a sequence of scancodes. *)
Fixpoint decode_all (show : DecodedKey -> list printed) (l : list Z) d : D * list printed :=
  match l with
  | [] => (d, [])
  | x :: l =>
      let '(d, out) := handle_scancode show x d [] in
      let '(d, rest) := decode_all show l d in (d, out ++ rest)
  end.

(** The task as a future of the executor: it never wakes anyone itself. *)
Definition key_future_poll (show : DecodedKey -> list printed) (fuel : nat) (w : TaskWaker)
    (f : key_future D) (s : keyboard_state Q W * list printed)
    : outcome (TaskPoll * list Z * key_future D * (keyboard_state Q W * list printed)) :=
  match key_task_poll show fuel (Z.to_nat (tw_task_id w)) f s.1 s.2 with
  | Some (Ret (f, k, out)) => Ret (Task_Pending, [], f, (k, out))
  | _ => Panic
  end.
End KeyTask.

(** A keyboard interrupt while the executor runs: the scancode is queued, and
    the task it wakes is pushed into the ready queue. *)
Definition key_interrupt {Q W QE F} `{ArrayQueue Q, AtomicWaker W, ArrayQueue QE} (x : Z)
    (k : keyboard_state Q W) (e : Executor QE F) : outcome (keyboard_state Q W * Executor QE F) :=
  let '(_, woken, k) := add_keyboard_scancode x k in
  match woken with
  | None => Ret (k, e)
  | Some t =>
      let! q := TaskWaker_wake_task (TaskWaker_new (Z.of_nat t)) (task_queue e) in
      Ret (k, set_queue q e)
  end.

Fixpoint key_interrupts {Q W QE F} `{ArrayQueue Q, AtomicWaker W, ArrayQueue QE} (l : list Z)
    (k : keyboard_state Q W) (e : Executor QE F) : outcome (keyboard_state Q W * Executor QE F) :=
  match l with
  | [] => Ret (k, e)
  | x :: l => let! r := key_interrupt x k e in key_interrupts l r.1 r.2
  end.

(* ------------------------------------------------------------------ *)
(** ** Facts *)

Section KeyTaskFacts.
Context {Q W D E : Type} `{QL : ArrayQueueLaws Q} `{WL : AtomicWakerLaws W} `{PK : PcKeyboard D E}.
Implicit Types (k : keyboard_state Q W) (out : list printed) (d : D) (show : DecodedKey -> list printed).

Lemma handle_scancode_out show x d out :
  handle_scancode show x d out = let '(d', o) := handle_scancode show x d [] in (d', out ++ o).
Proof.
  unfold handle_scancode. destruct (pc_add_byte x d) as [[[ev|]|[]] d1]; try by rewrite app_nil_r.
  destruct (pc_process_keyevent ev d1) as [[key|] d2]; [done|by rewrite app_nil_r].
Qed.

Lemma decode_all_app show l1 l2 : forall d,
  decode_all show (l1 ++ l2) d =
    let '(d1, o1) := decode_all show l1 d in
    let '(d2, o2) := decode_all show l2 d1 in (d2, o1 ++ o2).
Proof.
  induction l1 as [|x l1 IH]; intros d; simpl; [by destruct (decode_all show l2 d)|].
  destruct (handle_scancode show x d []) as [d1 o1]. rewrite IH.
  destruct (decode_all show l1 d1) as [d2 o2]. destruct (decode_all show l2 d2) as [d3 o3].
  by rewrite (assoc_L (++)).
Qed.

(** A poll of the stream takes the first scancode, or registers the task. *)
Lemma poll_next_cases task k q :
  SCANCODE_QUEUE k = Some q ->
  match queue_elements q with
  | x :: l => exists q', poll_next task k = Ret (Poll_Ready x, mkKeyboard (Some q') (KEYBOARD_WAKER k)) /\
      queue_elements q' = l /\ queue_capacity q' = queue_capacity q
  | [] => exists k' q', poll_next task k = Ret (Poll_Pending, k') /\ SCANCODE_QUEUE k' = Some q' /\
      queue_elements q' = [] /\ queue_capacity q' = queue_capacity q /\
      waker_registered (KEYBOARD_WAKER k') = Some task
  end.
Proof.
  intros Hq. unfold poll_next. destruct (pop_scancode_spec k q Hq) as (r & q' & -> & Hc & He).
  destruct (queue_elements q) as [|x l]; destruct He as [-> He]; simpl; [|by exists q'].
  destruct (pop_scancode_spec (register_waker task (mkKeyboard (Some q') (KEYBOARD_WAKER k))) q' eq_refl)
    as (r & q2 & -> & Hc2 & He2). rewrite He in He2. destruct He2 as [-> He2]. simpl.
  eexists _, q2. split; [done|]. split_and!; try done; [congruence|]. apply waker_register_law.
Qed.

Lemma key_loop_drains show task l : forall fuel d k q out,
  SCANCODE_QUEUE k = Some q -> queue_elements q = l -> (length l < fuel)%nat ->
  exists k' q', key_loop show fuel task d k out =
      Some (Ret ((decode_all show l d).1, k', out ++ (decode_all show l d).2)) /\
    SCANCODE_QUEUE k' = Some q' /\ queue_elements q' = [] /\ queue_capacity q' = queue_capacity q /\
    waker_registered (KEYBOARD_WAKER k') = Some task.
Proof.
  induction l as [|x l IH]; intros [|fuel] d k q out Hq He Hf; simpl in *; try lia;
    pose proof (poll_next_cases task k q Hq) as Hp; rewrite He in Hp.
  - destruct Hp as (k' & q' & -> & Hq' & He' & Hc & Hw). exists k', q'. by rewrite app_nil_r.
  - destruct Hp as (q' & -> & He' & Hc). rewrite (handle_scancode_out show x d out).
    destruct (handle_scancode show x d []) as [d1 o1].
    destruct (IH fuel d1 (mkKeyboard (Some q') (KEYBOARD_WAKER k)) q' (out ++ o1) eq_refl He' ltac:(lia)) as (k2 & q2 & -> & Hq2 & He2 & Hc2 & Hw2).
    exists k2, q2. destruct (decode_all show l d1) as [d2 o2]. simpl.
    rewrite <- (assoc_L (++)). split_and!; try done. congruence.
Qed.

Lemma add_scancode_accepted x k q :
  SCANCODE_QUEUE k = Some q -> (length (queue_elements q) < queue_capacity q)%nat ->
  exists q' w', add_keyboard_scancode x k =
      (true, waker_registered (KEYBOARD_WAKER k), mkKeyboard (Some q') w') /\
    queue_elements q' = queue_elements q ++ [x] /\ queue_capacity q' = queue_capacity q /\
    waker_registered w' = None.
Proof.
  intros Hq Hl. unfold add_keyboard_scancode. rewrite Hq. pose proof (queue_push_law x q) as Hp.
  destruct (queue_push x q) as [ok q']. rewrite (proj2 (Nat.ltb_lt _ _) Hl) in Hp.
  destruct Hp as (Hc & -> & He). simpl. pose proof (waker_wake_law (KEYBOARD_WAKER k)) as Hw.
  destruct (waker_wake (KEYBOARD_WAKER k)) as [r w']. destruct Hw as [-> Hw]. by exists q', w'.
Qed.

Context {QE F : Type} `{QEL : ArrayQueueLaws QE}.

(** With no waker registered, scancodes only fill the queue. *)
Lemma key_interrupts_quiet l : forall k q (e : Executor QE F),
  SCANCODE_QUEUE k = Some q -> waker_registered (KEYBOARD_WAKER k) = None ->
  (length (queue_elements q) + length l <= queue_capacity q)%nat ->
  exists k' q', key_interrupts l k e = Ret (k', e) /\ SCANCODE_QUEUE k' = Some q' /\
    queue_elements q' = queue_elements q ++ l.
Proof.
  induction l as [|x l IH]; intros k q e Hq Hw Hl; simpl in *; [exists k, q; by rewrite app_nil_r|].
  destruct (add_scancode_accepted x k q Hq ltac:(lia)) as (q1 & w1 & Ea & He1 & Hc1 & Hw1).
  unfold key_interrupt. rewrite Ea, Hw. simpl.
  destruct (IH (mkKeyboard (Some q1) w1) q1 e eq_refl Hw1) as (k' & q' & -> & Hq' & He').
  { rewrite He1, Hc1, length_app. simpl. lia. }
  exists k', q'. split_and!; try done. by rewrite He', He1, <- (assoc_L (++)).
Qed.

(** The first scancode wakes the registered task, once. *)
Lemma key_interrupts_wake l k q id (e : Executor QE F) :
  SCANCODE_QUEUE k = Some q -> queue_elements q = [] -> waker_registered (KEYBOARD_WAKER k) = Some id ->
  l <> [] -> (length l <= queue_capacity q)%nat ->
  queue_elements (task_queue e) = [] -> (0 < queue_capacity (task_queue e))%nat ->
  exists k' q' qe, key_interrupts l k e = Ret (k', set_queue qe e) /\ SCANCODE_QUEUE k' = Some q' /\
    queue_elements q' = l /\ queue_elements qe = [Z.of_nat id].
Proof.
  intros Hq He Hw Hne Hl Hqe Hcap. destruct l as [|x l]; [done|]. simpl in Hl.
  destruct (add_scancode_accepted x k q Hq) as (q1 & w1 & Ea & He1 & Hc1 & Hw1); [rewrite He; simpl; lia|].
  simpl. unfold key_interrupt. rewrite Ea, Hw. unfold TaskWaker_wake_task. cbn [tw_task_id TaskWaker_new].
  pose proof (push_expect_spec (Z.of_nat id) (task_queue e)) as Hp.
  destruct (push_expect _ _) as [qe|]; [|rewrite Hqe in Hp; simpl in Hp; lia]. destruct Hp as (Hp & _).
  rewrite !bind_ret. cbn [fst snd].
  destruct (key_interrupts_quiet l (mkKeyboard (Some q1) w1) q1 (set_queue qe e) eq_refl Hw1)
    as (k' & q' & -> & Hq' & He'); [rewrite He1, Hc1, He; simpl; lia|].
  exists k', q', qe. split_and!; try done; [by rewrite He', He1, He|by rewrite Hp, Hqe].
Qed.
End KeyTaskFacts.

(* ------------------------------------------------------------------ *)
(** ** Properties *)

(** A poll of the keyboard task is the decoder run over the queue.  Polled
    with fuel above the length of the queue, both [process_keyboard_input] and
    [print_keypresses] (the two [show]s) print exactly what the reference
    [decode_all] gives for the queued scancodes in order, keep its decoder
    state, empty the queue and leave their waker registered. *)
Theorem keyboard_task_decodes {Q W D E} `{ArrayQueueLaws Q} `{AtomicWakerLaws W} `{PcKeyboard D E}
    (show : DecodedKey -> list printed) (fuel task : nat) (d d' : D) (k : keyboard_state Q W) (q : Q)
    (out o : list printed) :
  SCANCODE_QUEUE k = Some q -> (length (queue_elements q) < fuel)%nat ->
  decode_all show (queue_elements q) d = (d', o) ->
  exists k' q', key_task_poll show fuel task (Suspended d) k out = Some (Ret (Suspended d', k', out ++ o)) /\
    SCANCODE_QUEUE k' = Some q' /\ queue_elements q' = [] /\
    waker_registered (KEYBOARD_WAKER k') = Some task.
Proof.
  intros Hq Hf Hd. unfold key_task_poll.
  destruct (key_loop_drains show task _ fuel d k q out Hq eq_refl Hf) as (k' & q' & -> & Hq' & He' & _ & Hw').
  rewrite Hd. by exists k', q'.
Qed.

(** A decoder that maps every scancode to a character, for the examples. *)
#[export] Instance plain_keyboard : PcKeyboard nat Z := {|
  pc_keyboard_new := O;
  pc_add_byte x d := if x <? 128 then (Ok (Some x), S d) else (Ok None, d);
  pc_process_keyevent x d := (Some (if x <? 64 then Unicode (x + 1) else RawKey x), d)
|}.

Lemma keyboard_task_decodes_witness :
  exists k' : keyboard_state (nat * list Z) (option nat),
    key_task_poll process_show 4 3 (Suspended O) (mkKeyboard (Some (100%nat, [30; 200; 70])) None) [] =
      Some (Ret (Suspended 2%nat, k', [Out_char 31; Out_key 70; Out_newline])).
Proof.
  destruct (keyboard_task_decodes process_show 4 3 O 2%nat
    (mkKeyboard (Some (100%nat, [30; 200; 70])) (None : option nat)) (100%nat, [30; 200; 70])
    [] [Out_char 31; Out_key 70; Out_newline]) as (k' & q' & E & _).
  - reflexivity.
  - simpl. lia.
  - reflexivity.
  - exists k'. exact E.
Defined.

(** C16: keys typed while the executor sleeps are printed.  When the ready queue
    is empty and the keyboard task waits with its waker registered, up to 100
    scancodes arriving by interrupt wake it exactly once; the next ready loop
    returns, has printed what the decoder makes of the scancodes in order, and
    leaves both queues empty and the task waiting again, registered. *)
Theorem typed_keys_are_printed {Q W D E QE} `{ArrayQueueLaws Q} `{AtomicWakerLaws W} `{PcKeyboard D E}
    `{ArrayQueueLaws QE} (show : DecodedKey -> list printed) (id : nat) (d d' : D)
    (k : keyboard_state Q W) (q : Q) (e : Executor QE (key_future D)) (out o : list printed) (l : list Z)
    (fuel : nat) :
  exec_inv e -> tasks e !! Z.of_nat id = Some (mkTask (Z.of_nat id) (Suspended d)) ->
  queue_elements (task_queue e) = [] -> queue_capacity (task_queue e) = 100%nat ->
  SCANCODE_QUEUE k = Some q -> queue_elements q = [] -> queue_capacity q = 100%nat ->
  waker_registered (KEYBOARD_WAKER k) = Some id ->
  l <> [] -> (length l <= 100)%nat -> decode_all show l d = (d', o) -> (2 <= fuel)%nat ->
  exists k1 e1 tr e2 k2 q2,
    key_interrupts l k e = Ret (k1, e1) /\
    run_ready_tasks (key_future_poll show 101) fuel e1 (k1, out) = Some (Ret (tr, e2, (k2, out ++ o))) /\
    (turn_id <$> tr) = [Z.of_nat id] /\ queue_elements (task_queue e2) = [] /\
    tasks e2 !! Z.of_nat id = Some (mkTask (Z.of_nat id) (Suspended d')) /\
    SCANCODE_QUEUE k2 = Some q2 /\ queue_elements q2 = [] /\ waker_registered (KEYBOARD_WAKER k2) = Some id.
Proof.
  intros Hi Ht He Hc Hq Hqe Hqc Hw Hne Hl Hd Hf.
  destruct (key_interrupts_wake l k q id e) as (k1 & q1 & qe & Ek & Hq1 & Hq1e & Hqe1); try done; [lia..|].
  destruct (key_loop_drains show id l 101 d k1 q1 out Hq1 Hq1e ltac:(lia)) as (k2 & q2 & El & Hq2 & Hq2e & _ & Hw2).
  rewrite Hd in El. destruct fuel as [|[|fuel]]; [lia..|].
  destruct (queue_pop_cases qe) as [(? & _ & Hx & _)|(i & r & qe' & Epop & Hx & Her & _)]; [congruence|].
  rewrite Hqe1 in Hx. injection Hx as <- <-.
  assert (Hwid : tw_task_id (default (TaskWaker_new (Z.of_nat id)) (waker_cache e !! Z.of_nat id)) = Z.of_nat id).
  { destruct (waker_cache e !! Z.of_nat id) as [w|] eqn:Ew; [|done]. by apply (ei_wakers e Hi _ _ Ew). }
  destruct (queue_pop_cases qe') as [(qe2 & Epop2 & _ & Hqe2 & _)|(? & ? & ? & _ & Hx & _)]; [|congruence].
  exists k1, (set_queue qe e).
  eexists [mkTurn (Z.of_nat id) (Some Task_Pending) []],
    (mkExecutor (<[Z.of_nat id := mkTask (Z.of_nat id) (Suspended d')]> (tasks e)) qe2 _), k2, q2.
  split; [done|]. split.
  - cbn [run_ready_tasks set_queue task_queue tasks waker_cache]. rewrite Epop. unfold run_task.
    cbn [tasks task_queue waker_cache]. rewrite Ht. unfold Task_poll, key_future_poll, key_task_poll.
    cbn [task_future task_id fst snd]. rewrite Hwid, Nat2Z.id, El. cbn. rewrite Epop2. reflexivity.
  - split_and!; try done. apply lookup_insert_eq.
Qed.

Definition waiting_executor : Executor (nat * list Z) (key_future nat) :=
  mkExecutor {[ 3 := mkTask 3 (Suspended O) ]} (100%nat, []) ∅.

Lemma waiting_inv : exec_inv waiting_executor.
Proof.
  split; cbn [waker_cache tasks waiting_executor]; [|by intros id w Hw%lookup_empty_Some].
  by intros id t [<- <-]%lookup_singleton_Some.
Qed.

Lemma typed_keys_are_printed_witness :
  exists k1 e1 tr e2 k2,
    key_interrupts [30; 31] (mkKeyboard (Some (100%nat, [])) (Some 3%nat)) waiting_executor = Ret (k1, e1) /\
    run_ready_tasks (key_future_poll print_show 101) 2 e1 (k1, []) =
      Some (Ret (tr, e2, (k2, [Out_char 31; Out_char 32]))) /\
    (turn_id <$> tr) = [3].
Proof.
  destruct (typed_keys_are_printed print_show 3 O 2%nat (mkKeyboard (Some (100%nat, [])) (Some 3%nat))
    (100%nat, []) waiting_executor [] [Out_char 31; Out_char 32] [30; 31] 2)
    as (k1 & e1 & tr & e2 & k2 & q2 & E1 & E2 & E3 & _); try reflexivity; try (simpl; lia).
  - exact waiting_inv.
  - discriminate.
  - exists k1, e1, tr, e2, k2. split; [exact E1|]. split; [exact E2|exact E3].
Defined.
