(* ===== verification/UserMode.v ===== *)
(** * UserMode: entering user mode (src/src/gdt.rs)

    [jump_to_user_mode] validates its addresses, tells the timer that user
    code starts, and builds the frame [iretq] pops.  The selectors come from
    the descriptor table built by the [x86_64] crate and are an argument. *)

From stdpp Require Import base numbers list.
From S2P Require Import Prelude Mem Scheduler Timer Syscall Process Interrupts.
Local Open Scope Z_scope.
Local Open Scope ruix_scope.

Record Selectors : Type := mkSelectors {
  code_selector : Z;
  data_selector : Z;
  user_code_selector : Z;
  user_data_selector : Z;
  tss_selector : Z
}.

(** [validate_user_mode_transition] *)
Definition validate_user_mode_transition (code_addr stack_addr : Z) : outcome bool :=
  if (code_addr <? 0x400000) || (0x7FFFFFFF <? code_addr) then Ret false
  else if (stack_addr <? 0x600000) || (0x7FFFFFFF <? stack_addr) then Ret false
  else if negb (code_addr mod 16 =? 0) || negb (stack_addr mod 16 =? 0) then Ret false
  else
    let! stack_bottom := sub_u64 stack_addr 4096 in
    if (stack_bottom <=? code_addr) && (code_addr <=? stack_addr) then Ret false
    else Ret true.

(** [setup_stack_protection] only prints; its subtraction can overflow. *)
Definition setup_stack_protection (stack_addr : Z) : outcome unit :=
  let! stack_bottom := sub_u64 stack_addr 4096 in
  Ret tt.

(** [rflags &= !mask] on [u64] *)
Definition clear_bits (mask rflags : Z) : Z := Z.land rflags (U64_MAX - mask).

(** [setup_secure_rflags] *)
Definition setup_secure_rflags : Z :=
  let rflags := 0x202 in
  let rflags := Z.lor rflags 0x1 in
  let rflags := clear_bits 0x4 rflags in
  let rflags := clear_bits 0x8 rflags in
  let rflags := clear_bits 0x10 rflags in
  let rflags := clear_bits 0x20 rflags in
  clear_bits 0x3000 rflags.

(** What [iretq] loads from the stack. *)
Record IretFrame : Type := mkIretFrame {
  f_rip : Z; f_cs : Z; f_rflags : Z; f_rsp : Z; f_ss : Z
}.
Definition iretq (sp : Z) (m : mem) : IretFrame :=
  let pop i := load64 m (sp + 8 * i) in
  mkIretFrame (pop 0) (pop 1) (pop 2) (pop 3) (pop 4).

(** [jump_to_user_mode], called with the stack pointer [ksp]: the state user
    code starts in, the timer and the memory. *)
Definition jump_to_user_mode (sel : Selectors) (ksp code_addr stack_addr : Z) (mc : Machine)
    (t : timer_state) (m : mem) : outcome (IretFrame * timer_state * mem) :=
  let! valid := validate_user_mode_transition code_addr stack_addr in
  if negb valid then Panic
  else
    let data_selector := Z.lor (user_data_selector sel) 3 in
    let code_selector := Z.lor (user_code_selector sel) 3 in
    let! _ := setup_stack_protection stack_addr in
    let current_pid := current_process_id (CPU_DATA mc) in
    let t := timer_start_user_mode current_pid t in
    let secure_rflags := setup_secure_rflags in
    let '(sp, m) :=
      push_list [data_selector; stack_addr; secure_rflags; code_selector; code_addr] (ksp, m) in
    Ret (iretq sp m, t, m).

(* ------------------------------------------------------------------ *)
(** ** Properties *)

(** The addresses user mode may be entered with. *)
Record user_entry_ok (code_addr stack_addr : Z) : Prop := {
  ue_code : 0x400000 <= code_addr <= 0x7FFFFFFF;
  ue_stack : 0x600000 <= stack_addr <= 0x7FFFFFFF;
  ue_code_align : code_addr mod 16 = 0;
  ue_stack_align : stack_addr mod 16 = 0;
  ue_apart : code_addr < stack_addr - 4096 \/ stack_addr < code_addr
}.

Lemma validate_transition_spec code stack :
  is_u64 code -> is_u64 stack ->
  exists b, validate_user_mode_transition code stack = Ret b /\ (b = true <-> user_entry_ok code stack).
Proof.
  intros Hc Hs. unfold validate_user_mode_transition.
  match goal with |- context [if ?g then _ else _] => destruct g eqn:E1 end.
  { exists false. split; [done|]. split; [done|]. intros []. bool_to_prop.
    destruct E1; bool_to_prop; lia. }
  match goal with |- context [if ?g then _ else _] => destruct g eqn:E2 end.
  { exists false. split; [done|]. split; [done|]. intros []. bool_to_prop.
    destruct E2; bool_to_prop; lia. }
  match goal with |- context [if ?g then _ else _] => destruct g eqn:E3 end.
  { exists false. split; [done|]. split; [done|]. intros []. bool_to_prop.
    destruct E3; bool_to_prop; lia. }
  bool_to_prop. rewrite sub_u64_ret, bind_ret by lia. destruct (_ && _) eqn:E4.
  { exists false. split; [done|]. split; [done|]. intros []. bool_to_prop. lia. }
  exists true. split; [done|]. split; [|done]. intros _. bool_to_prop.
  split; lia.
Qed.

Lemma selector_rpl3 x : 0 <= x < 2 ^ 16 -> Z.lor x 3 mod 4 = 3 /\ is_u64 (Z.lor x 3).
Proof.
  intros Hx. split.
  - rewrite <- (Z.land_ones _ 2), Z.land_lor_distr_l by lia. change (Z.land 3 (Z.ones 2)) with 3.
    rewrite Z.land_ones by lia. pose proof (Z.mod_pos_bound x (2 ^ 2) ltac:(lia)).
    assert (x mod 2 ^ 2 = 0 \/ x mod 2 ^ 2 = 1 \/ x mod 2 ^ 2 = 2 \/ x mod 2 ^ 2 = 3)
      as [->|[->|[->| ->]]] by lia; done.
  - assert (0 <= Z.lor x 3) by (apply Z.lor_nonneg; lia). unfold is_u64. split; [done|].
    destruct (Z.eq_dec (Z.lor x 3) 0) as [E|E]; [lia|].
    apply Z.log2_lt_pow2; [lia|]. rewrite Z.log2_lor by lia.
    destruct (Z.eq_dec x 0) as [->|]; [done|].
    apply Z.max_lub_lt; [|done]. apply Z.log2_lt_pow2; lia.
Qed.

(** The facts about one entry. *)
Lemma user_mode_entry_facts (sel : Selectors) (ksp code stack : Z) (mc : Machine) (t : timer_state)
    (m : mem) :
  is_u64 code -> is_u64 stack -> 40 <= ksp < 2 ^ 64 ->
  0 <= user_code_selector sel < 2 ^ 16 -> 0 <= user_data_selector sel < 2 ^ 16 ->
  (~ user_entry_ok code stack -> jump_to_user_mode sel ksp code stack mc t m = Panic) /\
  (user_entry_ok code stack ->
   exists f m', jump_to_user_mode sel ksp code stack mc t m
     = Ret (f, timer_start_user_mode (current_process_id (CPU_DATA mc)) t, m') /\
     f_rip f = code /\ f_rsp f = stack /\ f_cs f mod 4 = 3 /\ f_ss f mod 4 = 3 /\
     Z.testbit (f_rflags f) 9 = true /\ Z.shiftr (Z.land (f_rflags f) 0x3000) 12 = 0 /\
     (forall x, ~ (ksp - 40 <= x < ksp) -> m' x = m x)).
Proof.
  intros Hc Hs Hk Hsc Hsd. unfold jump_to_user_mode.
  destruct (validate_transition_spec code stack Hc Hs) as (b & -> & Hb). rewrite bind_ret. split.
  { intros Hn. destruct b; [|done]. by destruct Hn; apply Hb. }
  intros Ho. rewrite (proj2 Hb Ho). cbn [negb].
  unfold setup_stack_protection. destruct Ho as [O1 O2 _ _ _].
  rewrite sub_u64_ret, !bind_ret by lia.
  destruct (selector_rpl3 _ Hsc) as [R1 U1]. destruct (selector_rpl3 _ Hsd) as [R2 U2].
  destruct (push_list_spec [Z.lor (user_data_selector sel) 3; stack; setup_secure_rflags;
    Z.lor (user_code_selector sel) 3; code] ksp m) as (m' & E & L & O).
  { repeat constructor; try done; unfold is_u64 in *; try lia. }
  { simpl. lia. }
  cbn [length] in *. change (8 * Z.of_nat 5) with 40 in *. rewrite E.
  eexists _, m'. split; [reflexivity|]. cbn [load_words rev app] in L.
  injection L as L1 L2 L3 L4 L5. unfold iretq. cbn [f_rip f_cs f_rflags f_rsp f_ss].
  replace (ksp - 40 + 8 * 0) with (ksp - 40) by lia.
  replace (ksp - 40 + 8 * 1) with (ksp - 40 + 8) by lia.
  replace (ksp - 40 + 8 * 2) with (ksp - 40 + 8 + 8) by lia.
  replace (ksp - 40 + 8 * 3) with (ksp - 40 + 8 + 8 + 8) by lia.
  replace (ksp - 40 + 8 * 4) with (ksp - 40 + 8 + 8 + 8 + 8) by lia.
  rewrite L1, L2, L3, L4, L5. split_and!; done.
Qed.

(** C26: user mode is entered exactly with addresses that are allowed.  On any
    other pair of addresses [jump_to_user_mode] panics before anything is
    touched; on an allowed pair user code starts at the code address with the
    stack given, at privilege level 3 (both selectors), with interrupts on and
    I/O privilege level 0, and the timer counts against the current process. *)
Theorem user_mode_entry (sel : Selectors) (ksp code stack : Z) (mc : Machine) (t : timer_state)
    (m : mem) :
  is_u64 code -> is_u64 stack -> 40 <= ksp < 2 ^ 64 ->
  0 <= user_code_selector sel < 2 ^ 16 -> 0 <= user_data_selector sel < 2 ^ 16 ->
  (~ user_entry_ok code stack -> jump_to_user_mode sel ksp code stack mc t m = Panic) /\
  (user_entry_ok code stack ->
   exists f m', jump_to_user_mode sel ksp code stack mc t m
     = Ret (f, timer_start_user_mode (current_process_id (CPU_DATA mc)) t, m') /\
     f_rip f = code /\ f_rsp f = stack /\ f_cs f mod 4 = 3 /\ f_ss f mod 4 = 3 /\
     Z.testbit (f_rflags f) 9 = true /\ Z.shiftr (Z.land (f_rflags f) 0x3000) 12 = 0 /\
     (forall x, ~ (ksp - 40 <= x < ksp) -> m' x = m x)).
Proof. apply user_mode_entry_facts. Qed.

Lemma user_mode_entry_witness :
  exists f m', jump_to_user_mode (mkSelectors 8 16 32 24 40) 0x20000 0x400000 0x601000
    (mkMachine CPU_DATA_init 0) timer_state_init zero_mem
    = Ret (f, timer_start_user_mode 0 timer_state_init, m') /\ f_rip f = 0x400000.
Proof.
  destruct (user_mode_entry (mkSelectors 8 16 32 24 40) 0x20000 0x400000 0x601000
    (mkMachine CPU_DATA_init 0) timer_state_init zero_mem) as [_ H].
  1-5: unfold is_u64; simpl; lia.
  destruct H as (f & m' & E & Hr & _); [split; (lia || reflexivity)|].
  exists f, m'. split; [exact E|exact Hr].
Defined.

(** The comment on [rflags |= 0x1] says the carry flag is cleared: it is set. *)
Example secure_rflags_value : setup_secure_rflags = 0x203.
Proof. reflexivity. Qed.
