(* ===== verification/Cpu.v ===== *)
(** * Cpu: per-CPU data (src/src/cpu.rs)

    The manager keeps a table of 64 slots, one per CPU.  Atomics are plain
    fields: every access goes through the global lock or is a single atomic
    operation; [fetch_add] and [fetch_sub] wrap around.  The floating-point
    load average is set to zero and never used, and is left out. *)

From stdpp Require Import base numbers relations list strings.
From S2P Require Import Prelude Errors.
Local Open Scope Z_scope.
Local Open Scope ruix_scope.

Definition MAX_CPUS : nat := 64.

(** [CpuLocalStorage] *)
Record CpuLocalStorage : Type := mkCpuLocalStorage {
  current_task : option Z;
  ls_flags : Z;
  perf_counters : list Z;
  last_error : option KernelError
}.

(** [CpuSchedulerState] *)
Record CpuSchedulerState : Type := mkCpuSchedulerState {
  is_scheduling : bool;
  next_task : option Z;
  quantum_remaining : Z
}.

(** [CpuData] of the module [cpu] *)
Record PerCpuData : Type := mkPerCpuData {
  cpu_id : Z;
  cpu_current_process_id : Z;
  cpu_user_rsp : Z;
  cpu_kernel_stack_top : Z;
  cpu_tss_ptr : Z;
  local_storage : CpuLocalStorage;
  interrupt_depth : Z;
  scheduler_state : CpuSchedulerState
}.

Definition CPU_FLAG_PENDING_WORK : Z := 0x1.
Definition CPU_FLAG_IN_SYSCALL : Z := 0x2.
Definition CPU_FLAG_SCHEDULE_PENDING : Z := 0x4.

(** [CpuData::new] *)
Definition PerCpuData_new (id kernel_stack_top : Z) : PerCpuData :=
  mkPerCpuData id 0 0 kernel_stack_top 0 (mkCpuLocalStorage None 0 [0; 0; 0; 0] None) 0
    (mkCpuSchedulerState false None 0).

(** [get_current_process_id] and [get_user_rsp] of the CPU data *)
Definition cpu_get_current_process_id (c : PerCpuData) : Z := cpu_current_process_id c.
Definition cpu_get_user_rsp (c : PerCpuData) : Z := cpu_user_rsp c.

Definition cpu_set_current_process_id (pid : Z) (c : PerCpuData) : PerCpuData :=
  mkPerCpuData (cpu_id c) pid (cpu_user_rsp c) (cpu_kernel_stack_top c) (cpu_tss_ptr c)
    (local_storage c) (interrupt_depth c) (scheduler_state c).
Definition cpu_set_user_rsp (rsp : Z) (c : PerCpuData) : PerCpuData :=
  mkPerCpuData (cpu_id c) (cpu_current_process_id c) rsp (cpu_kernel_stack_top c) (cpu_tss_ptr c)
    (local_storage c) (interrupt_depth c) (scheduler_state c).
Definition cpu_set_depth (d : Z) (c : PerCpuData) : PerCpuData :=
  mkPerCpuData (cpu_id c) (cpu_current_process_id c) (cpu_user_rsp c) (cpu_kernel_stack_top c)
    (cpu_tss_ptr c) (local_storage c) d (scheduler_state c).
Definition cpu_set_local (l : CpuLocalStorage) (c : PerCpuData) : PerCpuData :=
  mkPerCpuData (cpu_id c) (cpu_current_process_id c) (cpu_user_rsp c) (cpu_kernel_stack_top c)
    (cpu_tss_ptr c) l (interrupt_depth c) (scheduler_state c).

Definition enter_interrupt (c : PerCpuData) : PerCpuData :=
  cpu_set_depth (wrapping_add_u64 (interrupt_depth c) 1) c.
Definition exit_interrupt (c : PerCpuData) : PerCpuData :=
  cpu_set_depth (wrapping_sub_u64 (interrupt_depth c) 1) c.
Definition in_interrupt (c : PerCpuData) : bool := 0 <? interrupt_depth c.

(** [process_pending_work]: clears the flag *)
Definition process_pending_work (c : PerCpuData) : PerCpuData :=
  let l := local_storage c in
  cpu_set_local (mkCpuLocalStorage (current_task l)
    (Z.land (ls_flags l) (U64_MAX - CPU_FLAG_PENDING_WORK)) (perf_counters l) (last_error l)) c.

(** [handle_interrupt_exit] *)
Definition handle_interrupt_exit (c : PerCpuData) : PerCpuData :=
  if negb (Z.land (ls_flags (local_storage c)) CPU_FLAG_PENDING_WORK =? 0)
  then process_pending_work c else c.

Definition set_last_error (e : KernelError) (c : PerCpuData) : PerCpuData :=
  let l := local_storage c in
  cpu_set_local (mkCpuLocalStorage (current_task l) (ls_flags l) (perf_counters l) (Some e)) c.
Definition take_last_error (c : PerCpuData) : option KernelError * PerCpuData :=
  let l := local_storage c in
  (last_error l,
   cpu_set_local (mkCpuLocalStorage (current_task l) (ls_flags l) (perf_counters l) None) c).

Record CpuManager : Type := mkCpuManager {
  cpus : list (option PerCpuData);
  cpu_count : Z;
  current_cpu : Z
}.

(** [CpuManager::new], the initial value of [CPU_MANAGER] *)
Definition CpuManager_new : CpuManager := mkCpuManager (replicate MAX_CPUS None) 0 0.

(** [CpuManager::init_cpu] *)
Definition CpuManager_init_cpu (id kernel_stack_top : Z) (mg : CpuManager)
    : KernelResult unit * CpuManager :=
  if Z.of_nat MAX_CPUS <=? id then (Err (KernelError_General GeneralError_InvalidOperation), mg)
  else
    match cpus mg !! Z.to_nat id with
    | Some (Some _) => (Err (KernelError_General GeneralError_InvalidState), mg)
    | _ =>
        (Ok tt, mkCpuManager (<[Z.to_nat id := Some (PerCpuData_new id kernel_stack_top)]> (cpus mg))
                  (wrapping_add_u64 (cpu_count mg) 1) (current_cpu mg))
    end.

(** [CpuManager::get_cpu] *)
Definition CpuManager_get_cpu (id : Z) (mg : CpuManager) : KernelResult PerCpuData :=
  if Z.of_nat MAX_CPUS <=? id then Err (KernelError_General GeneralError_InvalidOperation)
  else
    match cpus mg !! Z.to_nat id with
    | Some (Some c) => Ok c
    | _ => Err (KernelError_General GeneralError_InvalidState)
    end.

(** [CpuManager::get_cpu_mut] followed by a mutation of the CPU data *)
Definition CpuManager_update_cpu (id : Z) (f : PerCpuData -> PerCpuData) (mg : CpuManager)
    : KernelResult unit * CpuManager :=
  match CpuManager_get_cpu id mg with
  | Err e => (Err e, mg)
  | Ok c => (Ok tt, mkCpuManager (<[Z.to_nat id := Some (f c)]> (cpus mg)) (cpu_count mg) (current_cpu mg))
  end.

Definition CpuManager_get_current_cpu (mg : CpuManager) : KernelResult PerCpuData :=
  CpuManager_get_cpu (current_cpu mg) mg.
Definition CpuManager_set_current_cpu (id : Z) (mg : CpuManager) : CpuManager :=
  mkCpuManager (cpus mg) (cpu_count mg) id.

(** [iter_cpus] *)
Definition CpuManager_iter_cpus (mg : CpuManager) : list PerCpuData := omap id (cpus mg).

(** [get_current_cpu_mut] followed by a mutation of the CPU data *)
Definition CpuManager_update_current_cpu (f : PerCpuData -> PerCpuData) (mg : CpuManager)
    : KernelResult unit * CpuManager := CpuManager_update_cpu (current_cpu mg) f mg.

(** [iter_cpus_mut] with a mutation of each CPU's data *)
Definition CpuManager_update_cpus (f : PerCpuData -> PerCpuData) (mg : CpuManager) : CpuManager :=
  mkCpuManager (map (option_map f) (cpus mg)) (cpu_count mg) (current_cpu mg).

Definition CpuManager_cpu_count (mg : CpuManager) : Z := cpu_count mg.

(** The functions of the module on [CPU_MANAGER]: they lock it, and hand out
    the data of a CPU beyond the life of the lock. *)
Definition cpu_current_cpu (CPU_MANAGER : CpuManager) : KernelResult PerCpuData :=
  CpuManager_get_current_cpu CPU_MANAGER.
Definition cpu_current_cpu_mut (f : PerCpuData -> PerCpuData) (CPU_MANAGER : CpuManager)
    : KernelResult unit * CpuManager := CpuManager_update_current_cpu f CPU_MANAGER.
Definition cpu_get_cpu (id : Z) (CPU_MANAGER : CpuManager) : KernelResult PerCpuData :=
  CpuManager_get_cpu id CPU_MANAGER.
Definition cpu_get_cpu_mut (id : Z) (f : PerCpuData -> PerCpuData) (CPU_MANAGER : CpuManager)
    : KernelResult unit * CpuManager := CpuManager_update_cpu id f CPU_MANAGER.
Definition cpu_cpu_count (CPU_MANAGER : CpuManager) : Z := CpuManager_cpu_count CPU_MANAGER.

(** [with_current_cpu!]: the body on the current CPU, or the error, logged and
    returned. *)
Definition with_current_cpu {T} (body : PerCpuData -> KernelResult T) (CPU_MANAGER : CpuManager)
    : KernelResult T * list string :=
  match cpu_current_cpu CPU_MANAGER with
  | Ok c => (body c, [])
  | Err e => (Err e, log_error e)
  end.

Definition KERNEL_STACK_BASE : Z := 0xFFFF800000000000.
Definition KERNEL_STACK_SIZE : Z := 16 * 1024.

(** [get_kernel_stack_for_cpu] *)
Definition get_kernel_stack_for_cpu (id : Z) : outcome (KernelResult Z) :=
  let! off := mul_u64 id KERNEL_STACK_SIZE in
  let! stack_base := add_u64 KERNEL_STACK_BASE off in
  if negb (stack_base mod 16 =? 0) then Ret (Err (KernelError_Memory AllocError_BadAlignment))
  else
    let! top := add_u64 stack_base KERNEL_STACK_SIZE in
    Ret (Ok top).

(** [cpu::init] *)
Definition cpu_init (mg : CpuManager) : outcome (KernelResult unit * CpuManager) :=
  let! r := get_kernel_stack_for_cpu 0 in
  match r with
  | Err e => Ret (Err e, mg)
  | Ok kernel_stack_top =>
      match CpuManager_init_cpu 0 kernel_stack_top mg with
      | (Err e, mg) => Ret (Err e, mg)
      | (Ok _, mg) => Ret (Ok tt, CpuManager_set_current_cpu 0 mg)
      end
  end.

(** [PerfMonitor] *)
Record PerfMonitor : Type := mkPerfMonitor {
  context_switches : Z;
  interrupts_handled : Z;
  syscalls_handled : Z
}.
Definition PerfMonitor_new : PerfMonitor := mkPerfMonitor 0 0 0.
Definition increment_context_switches (p : PerfMonitor) : PerfMonitor :=
  mkPerfMonitor (wrapping_add_u64 (context_switches p) 1) (interrupts_handled p) (syscalls_handled p).
Definition increment_interrupts (p : PerfMonitor) : PerfMonitor :=
  mkPerfMonitor (context_switches p) (wrapping_add_u64 (interrupts_handled p) 1) (syscalls_handled p).
Definition increment_syscalls (p : PerfMonitor) : PerfMonitor :=
  mkPerfMonitor (context_switches p) (interrupts_handled p) (wrapping_add_u64 (syscalls_handled p) 1).
Definition PerfMonitor_get_stats (p : PerfMonitor) : Z * Z * Z :=
  (context_switches p, interrupts_handled p, syscalls_handled p).

(* ------------------------------------------------------------------ *)
(** ** The table of CPUs *)

Inductive cpu_step : CpuManager -> CpuManager -> Prop :=
| cs_init id top r mg mg' : 0 <= id -> CpuManager_init_cpu id top mg = (r, mg') -> cpu_step mg mg'
| cs_update id f r mg mg' : 0 <= id -> (forall c, cpu_id (f c) = cpu_id c) ->
    CpuManager_update_cpu id f mg = (r, mg') -> cpu_step mg mg'
| cs_update_all f mg : (forall c, cpu_id (f c) = cpu_id c) -> cpu_step mg (CpuManager_update_cpus f mg)
| cs_current id mg : cpu_step mg (CpuManager_set_current_cpu id mg)
| cs_boot r mg mg' : cpu_init mg = Ret (r, mg') -> cpu_step mg mg'.

Record cpu_inv (mg : CpuManager) : Prop := {
  cp_length : length (cpus mg) = MAX_CPUS;
  cp_count : cpu_count mg = Z.of_nat (length (CpuManager_iter_cpus mg));
  cp_ids i c : cpus mg !! i = Some (Some c) -> cpu_id c = Z.of_nat i
}.

Lemma length_omap_insert {A} (l : list (option A)) i o c :
  l !! i = Some o ->
  length (omap id (<[i := Some c]> l))
  = (length (omap id l) + match o with None => 1 | Some _ => 0 end)%nat.
Proof.
  revert i. induction l as [|x l IH]; intros [|i] Hi; [done..| |].
  - simpl in Hi. simplify_eq. destruct o; cbn; lia.
  - specialize (IH i Hi). change (<[S i := Some c]> (x :: l)) with (x :: <[i := Some c]> l).
    destruct x; cbn; fold (omap (M := list) (A := option A) id) in *; lia.
Qed.

Lemma length_omap_le {A} (l : list (option A)) : (length (omap id l) <= length l)%nat.
Proof.
  induction l as [|[x|] l IH]; cbn; fold (omap (M := list) (A := option A) id) in *; lia.
Qed.

Lemma init_cpu_inv id top mg :
  0 <= id -> cpu_inv mg -> cpu_inv (CpuManager_init_cpu id top mg).2.
Proof.
  intros Hid [Hl Hc Hi]. unfold CpuManager_init_cpu.
  destruct (Z.leb_spec (Z.of_nat MAX_CPUS) id); [done|].
  destruct (lookup_lt_is_Some_2 (cpus mg) (Z.to_nat id)) as [o Ho]; [rewrite Hl; lia|]. rewrite Ho.
  destruct o as [c|]; [done|]. split; cbn [cpus cpu_count snd].
  - by rewrite length_insert.
  - unfold CpuManager_iter_cpus in *. cbn [cpus]. rewrite (length_omap_insert _ _ _ _ Ho).
    unfold wrapping_add_u64. pose proof (length_omap_le (cpus mg)). unfold MAX_CPUS in *.
    rewrite Z.mod_small; lia.
  - intros i c [(<- & E & _)|[_ E]]%list_lookup_insert_Some; [|by apply Hi].
    simplify_eq. simpl. lia.
Qed.

Lemma update_cpu_inv id f mg :
  0 <= id -> (forall c, cpu_id (f c) = cpu_id c) -> cpu_inv mg ->
  cpu_inv (CpuManager_update_cpu id f mg).2.
Proof.
  intros Hid Hf [Hl Hc Hi]. unfold CpuManager_update_cpu, CpuManager_get_cpu.
  destruct (Z.leb_spec (Z.of_nat MAX_CPUS) id); [done|].
  destruct (cpus mg !! Z.to_nat id) as [[c|]|] eqn:Ho; [|done..].
  split; cbn [cpus cpu_count snd].
  - by rewrite length_insert.
  - unfold CpuManager_iter_cpus in *. cbn [cpus]. rewrite (length_omap_insert _ _ _ _ Ho). lia.
  - intros i c' [(<- & E & _)|[_ E]]%list_lookup_insert_Some; [|by apply Hi].
    simplify_eq. rewrite Hf. by apply Hi.
Qed.

Lemma iter_update_cpus f mg :
  CpuManager_iter_cpus (CpuManager_update_cpus f mg) = f <$> CpuManager_iter_cpus mg.
Proof.
  unfold CpuManager_iter_cpus, CpuManager_update_cpus. cbn [cpus].
  induction (cpus mg) as [|[c|] l IH]; cbn; [done|f_equal|]; done.
Qed.

Lemma update_cpus_inv f mg :
  (forall c, cpu_id (f c) = cpu_id c) -> cpu_inv mg -> cpu_inv (CpuManager_update_cpus f mg).
Proof.
  intros Hf [Hl Hc Hi]. split.
  - cbn [CpuManager_update_cpus cpus]. by rewrite length_map.
  - rewrite iter_update_cpus, length_fmap. done.
  - intros i c. cbn [CpuManager_update_cpus cpus]. rewrite list_lookup_fmap.
    intros ([c'|] & E & Ei)%fmap_Some; simplify_eq/=. rewrite Hf. by apply Hi.
Qed.

Lemma cpu_step_inv mg mg' : cpu_inv mg -> cpu_step mg mg' -> cpu_inv mg'.
Proof.
  intros Hi Hs. destruct Hs as [id top r mg mg' Hid E|id f r mg mg' Hid Hf E|f mg Hf|id mg|r mg mg' E].
  - pose proof (init_cpu_inv id top mg Hid Hi) as H. by rewrite E in H.
  - pose proof (update_cpu_inv id f mg Hid Hf Hi) as H. by rewrite E in H.
  - by apply update_cpus_inv.
  - by destruct Hi.
  - unfold cpu_init in E. change (get_kernel_stack_for_cpu 0) with
      (Ret (Ok (E := KernelError) (KERNEL_STACK_BASE + KERNEL_STACK_SIZE))) in E. rewrite bind_ret in E.
    pose proof (init_cpu_inv 0 (KERNEL_STACK_BASE + KERNEL_STACK_SIZE) mg ltac:(lia) Hi) as H.
    destruct (CpuManager_init_cpu 0 _ mg) as [[u|e] mg1]; simplify_eq; [by destruct H|done].
Qed.

Lemma cpu_inv_new : cpu_inv CpuManager_new.
Proof.
  split; [done..|]. intros i c E. apply lookup_replicate in E as [? _]. done.
Qed.

(** C37: the table of CPUs is consistent after any history of operations.  The
    counter is the number of CPUs initialised, each CPU sits in the slot of
    its identifier, and initialising succeeds exactly for an identifier below
    64 that is still free: then that CPU is found with its stack and no other
    changes; otherwise the table is unchanged. *)
Theorem cpu_table_correct (mg : CpuManager) (id top : Z) :
  rtc cpu_step CpuManager_new mg -> 0 <= id ->
  cpu_count mg = Z.of_nat (length (CpuManager_iter_cpus mg)) /\
  (forall i c, CpuManager_get_cpu i mg = Ok c -> 0 <= i -> cpu_id c = i) /\
  let '(r, mg') := CpuManager_init_cpu id top mg in
  (r = Ok tt <-> id < 64 /\ ~ exists c, CpuManager_get_cpu id mg = Ok c) /\
  (r = Ok tt -> CpuManager_get_cpu id mg' = Ok (PerCpuData_new id top)) /\
  (forall j, 0 <= j -> j <> id -> CpuManager_get_cpu j mg' = CpuManager_get_cpu j mg) /\
  (r <> Ok tt -> mg' = mg).
Proof.
  intros Hr Hid.
  assert (Hi : cpu_inv mg).
  { clear -Hr. pose proof cpu_inv_new as H. induction Hr as [|x y z Hs _ IH]; [done|].
    apply IH. by apply (cpu_step_inv x). }
  destruct Hi as [Hl Hc Hi]. split; [done|]. split.
  { intros i c E H0. unfold CpuManager_get_cpu in E. destruct (_ <=? i); [done|].
    destruct (cpus mg !! Z.to_nat i) as [[c'|]|] eqn:Ho; simplify_eq. rewrite (Hi _ _ Ho). lia. }
  unfold CpuManager_init_cpu, CpuManager_get_cpu. change (Z.of_nat MAX_CPUS) with 64.
  destruct (Z.leb_spec 64 id).
  { split_and!; [|done..]. split; [done|]. intros [? _]. lia. }
  destruct (lookup_lt_is_Some_2 (cpus mg) (Z.to_nat id)) as [o Ho]; [rewrite Hl; unfold MAX_CPUS; lia|].
  rewrite Ho. destruct o as [c|].
  { split_and!; [|done..]. split; [done|]. intros [_ N]. destruct N. by exists c. }
  cbn [cpus]. split_and!; [| | |done].
  - split; [|done]. intros _. split; [done|]. by intros [c E].
  - intros _. by rewrite list_lookup_insert_eq by (rewrite Hl; unfold MAX_CPUS; lia).
  - intros j Hj Hne. by rewrite list_lookup_insert_ne by lia.
Qed.

Lemma cpu_table_correct_witness :
  exists mg, cpu_init CpuManager_new = Ret (Ok tt, mg) /\ cpu_count mg = 1 /\
    (forall c, CpuManager_get_cpu 0 mg = Ok c -> cpu_id c = 0).
Proof.
  exists (mkCpuManager (Some (PerCpuData_new 0 0xFFFF800000004000) :: replicate 63 None) 1 0).
  split; [reflexivity|].
  destruct (cpu_table_correct
    (mkCpuManager (Some (PerCpuData_new 0 0xFFFF800000004000) :: replicate 63 None) 1 0) 0 0)
    as (Hc & Hg & _).
  - eapply rtc_once, (cs_boot (Ok tt)). reflexivity.
  - lia.
  - split; [exact Hc|]. intros c E. apply (Hg 0 c E). lia.
Defined.

(** The kernel stacks of two CPUs do not overlap. *)
Lemma kernel_stacks_disjoint i j a b :
  0 <= i < 64 -> 0 <= j < 64 -> i <> j ->
  get_kernel_stack_for_cpu i = Ret (Ok a) -> get_kernel_stack_for_cpu j = Ret (Ok b) ->
  a <= b - KERNEL_STACK_SIZE \/ b <= a - KERNEL_STACK_SIZE.
Proof.
  unfold get_kernel_stack_for_cpu, mul_u64, KERNEL_STACK_SIZE. intros Hi Hj Hne Ea Eb.
  rewrite (proj2 (Z.ltb_lt _ _)), bind_ret in Ea by lia.
  rewrite (proj2 (Z.ltb_lt _ _)), bind_ret in Eb by lia. inv_ret.
  destruct (negb _) in Ea; [done|]. destruct (negb _) in Eb; [done|]. inv_ret. simplify_eq. lia.
Qed.

(** Leaving an interrupt that was never entered wraps the nesting level: the
    CPU then counts as inside an interrupt. *)
Lemma exit_interrupt_underflow c :
  interrupt_depth c = 0 -> in_interrupt (exit_interrupt c) = true.
Proof. intros E. unfold in_interrupt, exit_interrupt. cbn [interrupt_depth cpu_set_depth]. by rewrite E. Qed.
