(* ===== verification/Scalable.v ===== *)
(** * Scalable: the memory manager (src/src/memory/scalable.rs)

    A global manager serves allocations from the kernel heap of Allocator.v;
    per-CPU allocators keep free lists of small regions in front of it and
    count what they do.  The manager also implements the page-table operations
    of the IPC layer.  Atomics wrap around; [compare_exchange_weak] may fail
    spuriously, which is the argument [cas_ok].  The lists of the manager that
    no operation uses ([global_free_list], [regions_by_type] and
    [large_allocations]) are left out. *)

From stdpp Require Import base sets numbers list.
From S2P Require Import Prelude Errors Mem X86 Process Scheduler Allocator Memory Cpu.
Local Open Scope Z_scope.
Local Open Scope ruix_scope.

Inductive MemoryType : Type := MemoryType_Kernel | MemoryType_User | MemoryType_Device | MemoryType_Dma.

Record AllocFlags : Type := mkAllocFlags {
  zero : bool;
  contiguous : bool;
  align : option Z;
  flags_mem_type : MemoryType
}.
Definition AllocFlags_default : AllocFlags := mkAllocFlags false false None MemoryType_Kernel.

Record MemoryRegion : Type := mkMemoryRegion {
  virt_start : Z;
  phys_start : option Z;
  mr_size : Z;
  mr_mem_type : MemoryType;
  mr_allocated : bool;
  mr_ref_count : Z
}.

Definition MemoryRegion_new (virt_start size : Z) (t : MemoryType) : MemoryRegion :=
  mkMemoryRegion virt_start None size t false 0.
Definition set_allocated (b : bool) (r : MemoryRegion) : MemoryRegion :=
  mkMemoryRegion (virt_start r) (phys_start r) (mr_size r) (mr_mem_type r) b (mr_ref_count r).
Definition set_ref_count (n : Z) (r : MemoryRegion) : MemoryRegion :=
  mkMemoryRegion (virt_start r) (phys_start r) (mr_size r) (mr_mem_type r) (mr_allocated r) n.

(** [MemoryRegion::allocate]: the answer and the region *)
Definition MemoryRegion_allocate (cas_ok : bool) (r : MemoryRegion) : bool * MemoryRegion :=
  if negb (mr_allocated r) && cas_ok then (true, set_allocated true r) else (false, r).
Definition MemoryRegion_is_allocated (r : MemoryRegion) : bool := mr_allocated r.
Definition MemoryRegion_ref_count (r : MemoryRegion) : Z := mr_ref_count r.
Definition MemoryRegion_deallocate (r : MemoryRegion) : MemoryRegion := set_allocated false r.
(** [inc_ref] and [dec_ref]: the atomic wraps, the result is checked. *)
Definition MemoryRegion_inc_ref (r : MemoryRegion) : outcome (Z * MemoryRegion) :=
  let r' := set_ref_count (wrapping_add_u64 (mr_ref_count r) 1) r in
  let! n := add_u64 (mr_ref_count r) 1 in Ret (n, r').
Definition MemoryRegion_dec_ref (r : MemoryRegion) : outcome (Z * MemoryRegion) :=
  let r' := set_ref_count (wrapping_sub_u64 (mr_ref_count r) 1) r in
  let! n := sub_u64 (mr_ref_count r) 1 in Ret (n, r').
Definition MemoryRegion_overlaps `{X86Addr} (r o : MemoryRegion) : outcome bool :=
  let! self_end := VirtAddr_add (virt_start r) (mr_size r) in
  let! other_end := VirtAddr_add (virt_start o) (mr_size o) in
  Ret ((virt_start r <? other_end) && (virt_start o <? self_end)).

Record AllocatorStats : Type := mkAllocatorStats {
  total_allocated : Z;
  total_freed : Z;
  current_usage : Z;
  peak_usage : Z;
  allocation_count : Z;
  free_count : Z
}.
Definition AllocatorStats_default : AllocatorStats := mkAllocatorStats 0 0 0 0 0 0.

Record PerCpuAllocator : Type := mkPerCpuAllocator {
  pc_cpu_id : Z;
  small_free_list : list MemoryRegion;
  pc_stats : AllocatorStats
}.
Definition PerCpuAllocator_new (id : Z) : PerCpuAllocator :=
  mkPerCpuAllocator id [] AllocatorStats_default.

Definition SMALL_ALLOC_THRESHOLD : Z := 4096.

(** [Vec::swap_remove] *)
Definition swap_remove {A} (i : nat) (l : list A) : option (A * list A) :=
  match l !! i, last l with
  | Some x, Some y => Some (x, <[i := y]> (take (length l - 1) l))
  | _, _ => None
  end.

(** [Layout::from_size_align] *)
Definition is_power_of_two (a : Z) : bool := (0 <? a) && (Z.land a (a - 1) =? 0).
Definition Layout_from_size_align (size al : Z) : option Layout :=
  if is_power_of_two al && (size <=? 2 ^ 63 - 1 - (al - 1)) then Some (mkLayout size al) else None.

(** The global memory manager. *)
Record GlobalMemoryManager (F : Type) : Type := mkManager {
  per_cpu_allocators : list (option PerCpuAllocator);
  frame_allocator : F
}.
Arguments mkManager {F}.
Arguments per_cpu_allocators {F}.
Arguments frame_allocator {F}.

(** The statics of the module, with the heap and memory they use. *)
Record scalable_state (F H : Type) : Type := mkScalable {
  MEMORY_MANAGER_INIT : bool;
  GLOBAL_MEMORY_MANAGER : option (GlobalMemoryManager F);
  ALLOCATOR : FixedSizeBlockAllocator H;
  HEAP_MEM : mem
}.
Arguments mkScalable {F H}.
Arguments MEMORY_MANAGER_INIT {F H}.
Arguments GLOBAL_MEMORY_MANAGER {F H}.
Arguments ALLOCATOR {F H}.
Arguments HEAP_MEM {F H}.

Section Scalable.
Context {XA : X86Addr} {F HT : Type} {FH : FallbackHeap HT}.
Implicit Types (st : scalable_state F HT).

Definition with_heap (A : FixedSizeBlockAllocator HT) (m : mem) st : scalable_state F HT :=
  mkScalable (MEMORY_MANAGER_INIT st) (GLOBAL_MEMORY_MANAGER st) A m.

Definition OutOfMemory {T} : KernelResult T := Err (KernelError_Memory AllocError_OutOfMemory).

(** [GlobalMemoryManager::new] and [init]; [empty] is [EmptyFrameAllocator]. *)
Definition GlobalMemoryManager_new (empty : F) : GlobalMemoryManager F :=
  mkManager (replicate MAX_CPUS None) empty.
Definition GlobalMemoryManager_init (fa : F) (g : GlobalMemoryManager F) : GlobalMemoryManager F :=
  mkManager ((fun i => Some (PerCpuAllocator_new (Z.of_nat i))) <$> seq 0 MAX_CPUS) fa.

(** [global_memory_manager] *)
Definition global_memory_manager st : KernelResult (GlobalMemoryManager F) :=
  if negb (MEMORY_MANAGER_INIT st) then OutOfMemory
  else match GLOBAL_MEMORY_MANAGER st with Some g => Ok g | None => OutOfMemory end.

(** [scalable::init] *)
Definition scalable_init (empty fa : F) st : KernelResult unit * scalable_state F HT :=
  if MEMORY_MANAGER_INIT st then (Ok tt, st)
  else
    let manager := GlobalMemoryManager_init fa (GlobalMemoryManager_new empty) in
    (Ok tt, mkScalable true (Some manager) (ALLOCATOR st) (HEAP_MEM st)).

(** [GlobalMemoryManager::allocate] and [free]; they use only the heap. *)
Definition manager_allocate (size : Z) (flags : AllocFlags) st
    : outcome (KernelResult Z * scalable_state F HT) :=
  match Layout_from_size_align size (default 8 (align flags)) with
  | None => Ret (OutOfMemory, st)
  | Some layout =>
      let! r := fsb_alloc layout (ALLOCATOR st) (HEAP_MEM st) in
      let '(ptr, A, m) := r in
      let st := with_heap A m st in
      if ptr =? 0 then Ret (OutOfMemory, st)
      else let! a := VirtAddr_new ptr in Ret (Ok a, st)
  end.

Definition manager_free (addr size : Z) st : outcome (KernelResult unit * scalable_state F HT) :=
  match Layout_from_size_align size 8 with
  | None => Ret (OutOfMemory, st)
  | Some layout =>
      let! r := fsb_dealloc addr layout (ALLOCATOR st) (HEAP_MEM st) in
      let '(A, m) := r in
      Ret (Ok tt, with_heap A m st)
  end.

(** [scalable::allocate], [allocate_simple] and [free]: the fallback used
    before initialisation does the same as the manager. *)
Definition scalable_allocate (size : Z) (flags : AllocFlags) st
    : outcome (KernelResult Z * scalable_state F HT) :=
  match global_memory_manager st with
  | Ok _ => manager_allocate size flags st
  | Err _ => manager_allocate size flags st
  end.
Definition allocate_simple (size : Z) st : outcome (KernelResult Z * scalable_state F HT) :=
  scalable_allocate size AllocFlags_default st.
Definition scalable_free (addr size : Z) st : outcome (KernelResult unit * scalable_state F HT) :=
  match global_memory_manager st with
  | Ok _ => manager_free addr size st
  | Err _ => manager_free addr size st
  end.

(** [map_page], [unmap_page] and their wrappers are not implemented in the
    code: they answer with an error. *)
Definition manager_map_page (page frame flags : Z) : KernelResult unit :=
  Err (KernelError_Memory AllocError_InvalidAddress).
Definition manager_unmap_page (page : Z) : KernelResult unit :=
  Err (KernelError_Memory AllocError_InvalidAddress).
Definition scalable_map_user_page `{X86Flags} (page frame : Z) st : KernelResult unit :=
  match global_memory_manager st with
  | Ok _ => manager_map_page page frame USER_FLAGS
  | Err _ => OutOfMemory
  end.
Definition scalable_unmap_page (page : Z) st : KernelResult unit :=
  match global_memory_manager st with
  | Ok _ => manager_unmap_page page
  | Err _ => OutOfMemory
  end.

(** [try_local_allocate] on the free list *)
Definition try_local_allocate (cas_ok : bool) (size : Z) (flags : AllocFlags)
    (free_list : list MemoryRegion) (m : mem) : option MemoryRegion * list MemoryRegion * mem :=
  match position (fun r => negb (mr_allocated r) && (size <=? mr_size r)) free_list with
  | None => (None, free_list, m)
  | Some pos =>
      match swap_remove pos free_list with
      | None => (None, free_list, m)
      | Some (region, free_list) =>
          let '(ok, region) := MemoryRegion_allocate cas_ok region in
          if ok then
            let m := if zero flags then store_bytes m (virt_start region) (replicate (Z.to_nat size) 0)
                     else m in
            (Some region, free_list, m)
          else (None, free_list, m)
      end
  end.

Definition add_allocation (s : AllocatorStats) : AllocatorStats :=
  mkAllocatorStats (total_allocated s) (total_freed s) (current_usage s) (peak_usage s)
    (wrapping_add_u64 (allocation_count s) 1) (free_count s).
Definition add_usage (size : Z) (s : AllocatorStats) : AllocatorStats :=
  let current := wrapping_add_u64 (current_usage s) size in
  mkAllocatorStats (wrapping_add_u64 (total_allocated s) size) (total_freed s) current
    (if peak_usage s <? current then current else peak_usage s)
    (allocation_count s) (free_count s).
Definition add_free (size : Z) (s : AllocatorStats) : AllocatorStats :=
  mkAllocatorStats (total_allocated s) (wrapping_add_u64 (total_freed s) size)
    (wrapping_sub_u64 (current_usage s) size) (peak_usage s) (allocation_count s)
    (wrapping_add_u64 (free_count s) 1).

(** [PerCpuAllocator::global_allocate] *)
Definition global_allocate (size : Z) (flags : AllocFlags) st
    : outcome (KernelResult Z * scalable_state F HT) :=
  match global_memory_manager st with
  | Ok _ => manager_allocate size flags st
  | Err _ => Ret (OutOfMemory, st)
  end.

(** [PerCpuAllocator::allocate] *)
Definition PerCpuAllocator_allocate (cas_ok : bool) (size : Z) (flags : AllocFlags)
    (self : PerCpuAllocator) st : outcome (KernelResult Z * PerCpuAllocator * scalable_state F HT) :=
  let stats := add_allocation (pc_stats self) in
  let '(local, free_list, m) :=
    if size <=? SMALL_ALLOC_THRESHOLD
    then try_local_allocate cas_ok size flags (small_free_list self) (HEAP_MEM st)
    else (None, small_free_list self, HEAP_MEM st) in
  let st := with_heap (ALLOCATOR st) m st in
  match local with
  | Some region =>
      Ret (Ok (virt_start region), mkPerCpuAllocator (pc_cpu_id self) free_list (add_usage size stats), st)
  | None =>
      let! r := global_allocate size flags st in
      let '(res, st) := r in
      Ret (res, mkPerCpuAllocator (pc_cpu_id self) free_list stats, st)
  end.

(** [GlobalMemoryStats] *)
Record GlobalMemoryStats : Type := mkGlobalMemoryStats {
  g_stats : AllocatorStats;
  g_cpu_count : Z
}.

(** [GlobalMemoryManager::get_global_stats]: the sums are checked *)
Definition add_stats (g s : AllocatorStats) : outcome AllocatorStats :=
  let! ta := add_u64 (total_allocated g) (total_allocated s) in
  let! tf := add_u64 (total_freed g) (total_freed s) in
  let! cu := add_u64 (current_usage g) (current_usage s) in
  let! pu := add_u64 (peak_usage g) (peak_usage s) in
  let! ac := add_u64 (allocation_count g) (allocation_count s) in
  let! fc := add_u64 (free_count g) (free_count s) in
  Ret (mkAllocatorStats ta tf cu pu ac fc).
Definition get_global_stats (mg : CpuManager) (g : GlobalMemoryManager F) : outcome GlobalMemoryStats :=
  let! total := foldl (fun o pc => let! t := o in add_stats t (pc_stats pc))
                  (Ret AllocatorStats_default) (omap id (per_cpu_allocators g)) in
  Ret (mkGlobalMemoryStats total (cpu_count mg)).

Definition PerCpuAllocator_get_stats (self : PerCpuAllocator) : AllocatorStats := pc_stats self.

(** [get_memory_stats], and [validate_memory] which checks nothing *)
Definition scalable_get_memory_stats (mg : CpuManager) st : outcome GlobalMemoryStats :=
  match global_memory_manager st with
  | Ok g => get_global_stats mg g
  | Err _ => Ret (mkGlobalMemoryStats AllocatorStats_default 0)
  end.
Definition validate_memory : KernelResult unit := Ok tt.

(** [PerCpuAllocator::free] *)
Definition PerCpuAllocator_free (addr size : Z) (self : PerCpuAllocator) st
    : outcome (KernelResult unit * PerCpuAllocator * scalable_state F HT) :=
  let stats := add_free size (pc_stats self) in
  if size <=? SMALL_ALLOC_THRESHOLD then
    Ret (Ok tt,
         mkPerCpuAllocator (pc_cpu_id self)
           (small_free_list self ++ [MemoryRegion_new addr size MemoryType_Kernel]) stats, st)
  else
    let self := mkPerCpuAllocator (pc_cpu_id self) (small_free_list self) stats in
    match global_memory_manager st with
    | Ok _ =>
        let! r := manager_free addr size st in
        let '(res, st) := r in Ret (res, self, st)
    | Err _ => Ret (OutOfMemory, self, st)
    end.
End Scalable.

(* ------------------------------------------------------------------ *)
(** ** [IpcPageTableOps] *)

(** [Mapper::translate_page] of the [x86_64] crate *)
Class TranslatePage := translate_page : Z -> OffsetPageTable -> mem -> option Z.

Section IpcOps.
Context {XA : X86Addr} {XP : X86Page} {F Fut : Type} {MP : Mapper F} {TP : TranslatePage}.
Implicit Types (s : Scheduler Fut) (m : mem).

(** [get_physical_offset] *)
Definition get_physical_offset : outcome Z := VirtAddr_new 0xffff800000000000.

(** [get_process_page_table] *)
Definition get_process_page_table (cr3 : Z) s (pid : Z) : outcome (KernelResult OffsetPageTable) :=
  match find_process pid s with
  | None => Ret (Err (KernelError_Process ProcessError_NotFound))
  | Some _ =>
      let! off := get_physical_offset in
      let! page_table := active_level_4_table cr3 off in
      Ret (Ok {| phys_offset := off; level_4_table := page_table |})
  end.

(** The loop of [map_memory]; [i] counts the frames mapped. *)
Fixpoint map_frames (virt_addr flags : Z) (i : nat) (phys_frames : list Z) (mp : OffsetPageTable)
    m (fa : F) : outcome (KernelResult unit * mem * F) :=
  match phys_frames with
  | [] => Ret (Ok tt, m, fa)
  | frame :: rest =>
      let! a := VirtAddr_add virt_addr (Z.of_nat i * 4096) in
      let! r := map_to (page_containing a) frame flags mp m fa in
      match r with
      | (Err _, m, fa) => Ret (Err (KernelError_Memory AllocError_InvalidAddress), m, fa)
      | (Ok _, m, fa) => map_frames virt_addr flags (S i) rest mp m fa
      end
  end.

(** [map_memory] *)
Definition ipc_map_memory (cr3 : Z) s (target_pid virt_addr : Z) (phys_frames : list Z) (flags : Z)
    m (fa : F) : outcome (KernelResult unit * mem * F) :=
  let! r := get_process_page_table cr3 s target_pid in
  match r with
  | Err e => Ret (Err e, m, fa)
  | Ok mp => map_frames virt_addr flags 0 phys_frames mp m fa
  end.

(** [unmap_memory]: the pages whose TLB entries are flushed, and the memory *)
Definition ipc_unmap_memory (cr3 : Z) s (target_pid virt_addr : Z) (page_count : nat) m
    : outcome (KernelResult (list Z) * mem) :=
  let! r := get_process_page_table cr3 s target_pid in
  match r with
  | Err e => Ret (Err e, m)
  | Ok _ =>
      let! pages := for_each (seq 0 page_count) (fun i flushed =>
        let! a := VirtAddr_add virt_addr (Z.of_nat i * 4096) in
        Ret (flushed ++ [page_containing a])) [] in
      Ret (Ok pages, m)
  end.

(** [verify_ownership] *)
Definition ipc_verify_ownership (cr3 : Z) s (pid virt_addr : Z) m : outcome (KernelResult Z) :=
  let! r := get_process_page_table cr3 s pid in
  match r with
  | Err e => Ret (Err e)
  | Ok mp =>
      match translate_page (page_containing virt_addr) mp m with
      | Some frame => Ret (Ok frame)
      | None => Ret (Err (KernelError_Memory AllocError_InvalidAddress))
      end
  end.
End IpcOps.

(* ------------------------------------------------------------------ *)
(** ** Facts *)

Lemma is_power_of_two_8 : is_power_of_two 8 = true.
Proof. reflexivity. Qed.

Lemma from_size_align_8 size ly :
  Layout_from_size_align size 8 = Some ly -> ly = mkLayout size 8.
Proof. unfold Layout_from_size_align. destruct (_ && _); [|done]. by intros [= <-]. Qed.

Lemma swap_remove_perm {A} i (l l' : list A) x :
  swap_remove i l = Some (x, l') -> l ≡ₚ x :: l'.
Proof.
  unfold swap_remove. destruct (l !! i) as [y|] eqn:Hi; [|done].
  destruct (last l) as [z|] eqn:Hz; [|done]. intros [= <- <-].
  apply last_Some in Hz as [k ->]. rewrite length_app, Nat.add_sub, take_app_length.
  apply lookup_app_Some in Hi as [Hi|[Hl Hi]].
  - apply list_elem_of_split_length in Hi as (k1 & k2 & -> & ->).
    rewrite insert_app_r_alt, Nat.sub_diag by lia. simpl. solve_Permutation.
  - rewrite list_insert_ge by done. apply list_lookup_singleton_Some in Hi as [_ ->].
    solve_Permutation.
Qed.

Section ScalableFacts.
Context {XA : X86Addr} {XL : X86AddrLaws} {F HT : Type} {FH : FallbackHeap HT} {FL : FallbackLaws HT}.
Implicit Types (st : scalable_state F HT).

Lemma scalable_allocate_eq size flags st : scalable_allocate size flags st = manager_allocate size flags st.
Proof. unfold scalable_allocate. by destruct (global_memory_manager st). Qed.

Lemma scalable_free_eq addr size st : scalable_free addr size st = manager_free addr size st.
Proof. unfold scalable_free. by destruct (global_memory_manager st). Qed.

Lemma manager_allocate_good size addr st st1 L :
  0 < size -> heap_good (ALLOCATOR st, HEAP_MEM st, L) ->
  manager_allocate size AllocFlags_default st = Ret (Ok addr, st1) -> addr < LOW_HALF ->
  addr <> 0 /\ addr mod 8 = 0 /\ Forall (disjoint_blocks (addr, mkLayout size 8)) L /\
  same_on L (HEAP_MEM st) (HEAP_MEM st1) /\
  heap_good (ALLOCATOR st1, HEAP_MEM st1, (addr, mkLayout size 8) :: L) /\
  Layout_from_size_align size 8 = Some (mkLayout size 8).
Proof.
  intros Hsz [Fr Hr] E Hlow. simpl in Hr. unfold manager_allocate in E. simpl in E.
  destruct (Layout_from_size_align size 8) as [ly|] eqn:Hly; [|done].
  apply from_size_align_8 in Hly as ->.
  destruct (fsb_alloc_spec _ _ Fr L (mkLayout size 8) Hr) as (p & A' & m' & E' & Hs & HP).
  { split; [done|]. by exists 3. }
  rewrite E', bind_ret in E. destruct (Z.eqb_spec p 0) as [->|Hp]; [done|].
  destruct (VirtAddr_new p) as [x|] eqn:Ev; [|done]. rewrite bind_ret in E. simplify_eq/=.
  destruct HP as [[? _]|(_ & Ha & Hd & F' & HF')]; [done|].
  assert (addr = p) as ->.
  { apply VirtAddr_new_inv in Ev as [?|[? ?]]; [done|unfold LOW_HALF in *; lia|].
    pose proof (hr_ok _ _ _ _ HF') as Hok. apply Forall_app in Hok as [_ Hok].
    by inversion Hok as [|? ? (_ & Hu & _) _]; subst. }
  split_and!; try done. by exists F'.
Qed.
End ScalableFacts.

(* ------------------------------------------------------------------ *)
(** ** Properties *)

(** Allocating and freeing through the memory manager is a round trip on
    the kernel heap.  Before and after initialisation alike, an allocation of
    default alignment that succeeds is a block of its own, disjoint from every
    block held, the contents of those blocks are kept, and freeing it with its
    size succeeds and gives back a heap that holds exactly the other blocks. *)
Theorem scalable_roundtrip {XA : X86Addr} {XL : X86AddrLaws} {F HT} {FH : FallbackHeap HT}
    {FL : FallbackLaws HT} (st st1 : scalable_state F HT) (L : list (Z * Layout)) (size addr : Z) :
  0 < size -> heap_good (ALLOCATOR st, HEAP_MEM st, L) ->
  allocate_simple size st = Ret (Ok addr, st1) -> addr < LOW_HALF ->
  addr <> 0 /\ addr mod 8 = 0 /\ Forall (disjoint_blocks (addr, mkLayout size 8)) L /\
  heap_good (ALLOCATOR st1, HEAP_MEM st1, (addr, mkLayout size 8) :: L) /\
  exists st2, scalable_free addr size st1 = Ret (Ok tt, st2) /\
    heap_good (ALLOCATOR st2, HEAP_MEM st2, L) /\ same_on L (HEAP_MEM st) (HEAP_MEM st2).
Proof.
  intros Hs Hg E Hl. unfold allocate_simple in E. rewrite scalable_allocate_eq in E.
  destruct (manager_allocate_good size addr st st1 L Hs Hg E Hl) as (H1 & H2 & H3 & H4 & [F1 HF] & H6).
  split_and!; try done; [by exists F1|]. simpl in HF.
  destruct (fsb_dealloc_spec _ _ F1 L addr (mkLayout size 8) HF) as (A' & m' & F' & Ed & Hs' & Hr').
  exists (with_heap A' m' st1). rewrite scalable_free_eq. unfold manager_free. rewrite H6, Ed.
  split; [done|]. split; [by exists F'|]. intros b a Hb Ha. simpl. rewrite (Hs' b a Hb Ha). by apply (H4 b).
Qed.

Definition demo_heap_state : scalable_state unit BumpHeap :=
  mkScalable false None (FixedSizeBlockAllocator_init 0x10000 0x10000 FixedSizeBlockAllocator_new) zero_mem.

Lemma demo_heap_good : heap_good (ALLOCATOR demo_heap_state, HEAP_MEM demo_heap_state, []).
Proof. exists (replicate 9 []). by apply heap_rep_init; [apply heap_rep_new|..]. Qed.

Lemma scalable_roundtrip_witness :
  exists addr st1 st2, allocate_simple 24 demo_heap_state = Ret (Ok addr, st1) /\
    scalable_free addr 24 st1 = Ret (Ok tt, st2).
Proof.
  assert (Hok : (match allocate_simple 24 demo_heap_state with
                 | Ret (Ok a, _) => a <? LOW_HALF | _ => false end) = true) by (vm_compute; reflexivity).
  destruct (allocate_simple 24 demo_heap_state) as [[[addr|e] st1]|] eqn:E; try discriminate Hok.
  destruct (scalable_roundtrip demo_heap_state st1 [] 24 addr) as (_ & _ & _ & _ & st2 & Ef & _).
  - lia.
  - apply demo_heap_good.
  - exact E.
  - apply Z.ltb_lt, Hok.
  - exists addr, st1, st2. split; [reflexivity|exact Ef].
Defined.

(** The per-CPU usage counter underflows.  A small allocation served by the
    heap is not counted, but freeing it is: after one allocation and one free
    on a new per-CPU allocator the current usage is 2^64 minus the size
    (src/src/memory/scalable.rs, lines 163-242). *)
Theorem per_cpu_usage_underflow {XA : X86Addr} {F HT} {FH : FallbackHeap HT}
    (id size addr : Z) (cas_ok : bool) (flags : AllocFlags) (pc1 : PerCpuAllocator)
    (st st1 : scalable_state F HT) :
  0 < size <= SMALL_ALLOC_THRESHOLD ->
  PerCpuAllocator_allocate cas_ok size flags (PerCpuAllocator_new id) st = Ret (Ok addr, pc1, st1) ->
  total_allocated (pc_stats pc1) = 0 /\
  exists pc2 st2, PerCpuAllocator_free addr size pc1 st1 = Ret (Ok tt, pc2, st2) /\
    total_freed (pc_stats pc2) = size /\ current_usage (pc_stats pc2) = 2 ^ 64 - size /\
    small_free_list pc2 = [MemoryRegion_new addr size MemoryType_Kernel].
Proof.
  unfold SMALL_ALLOC_THRESHOLD. intros Hs E. unfold PerCpuAllocator_allocate in E.
  rewrite (proj2 (Z.leb_le size SMALL_ALLOC_THRESHOLD)) in E by (unfold SMALL_ALLOC_THRESHOLD; lia).
  cbn [try_local_allocate small_free_list PerCpuAllocator_new position] in E.
  inv_ret. destruct x as [res st']. simplify_eq. split; [done|].
  unfold PerCpuAllocator_free.
  rewrite (proj2 (Z.leb_le size SMALL_ALLOC_THRESHOLD)) by (unfold SMALL_ALLOC_THRESHOLD; lia).
  do 2 eexists. split; [reflexivity|]. cbn. unfold wrapping_add_u64, wrapping_sub_u64.
  split_and!; [|  |done].
  - rewrite Z.mod_small; lia.
  - rewrite <- (Z.mod_add _ 1), Z.mod_small; lia.
Qed.

Definition demo_manager_state : scalable_state unit BumpHeap := (scalable_init tt tt demo_heap_state).2.

Lemma per_cpu_usage_underflow_witness :
  exists addr pc1 st1 pc2 st2,
    PerCpuAllocator_allocate true 64 AllocFlags_default (PerCpuAllocator_new 0) demo_manager_state
    = Ret (Ok addr, pc1, st1) /\
    PerCpuAllocator_free addr 64 pc1 st1 = Ret (Ok tt, pc2, st2) /\
    current_usage (pc_stats pc2) = 2 ^ 64 - 64.
Proof.
  assert (Hok : (match PerCpuAllocator_allocate true 64 AllocFlags_default (PerCpuAllocator_new 0)
                   demo_manager_state with Ret (Ok a, _, _) => true | _ => false end) = true)
    by (vm_compute; reflexivity).
  destruct (PerCpuAllocator_allocate true 64 AllocFlags_default (PerCpuAllocator_new 0)
    demo_manager_state) as [[[[addr|e] pc1] st1]|] eqn:E; try discriminate Hok.
  destruct (per_cpu_usage_underflow 0 64 addr true AllocFlags_default pc1 demo_manager_state st1)
    as (_ & pc2 & st2 & Ef & _ & Hu & _).
  - unfold SMALL_ALLOC_THRESHOLD. lia.
  - exact E.
  - exists addr, pc1, st1, pc2, st2. split; [reflexivity|]. split; [exact Ef|exact Hu].
Defined.

(** The IPC page-table operations do not look at the target process.  For
    any two processes in the table they do the same: mapping goes into the
    address space that is active, ownership of an address is that of the
    active address space, and unmapping changes no page table at all
    (src/src/memory/scalable.rs, lines 274-289 and 580-596). *)
Theorem ipc_ops_ignore_target {XA : X86Addr} {XP : X86Page} {F Fut} {MP : Mapper F} {TP : TranslatePage}
    (cr3 : Z) (s : Scheduler Fut) (p q : Z) (fp fq : Process) :
  find_process p s = Some fp -> find_process q s = Some fq ->
  (forall va frames flags m (fa : F),
     ipc_map_memory cr3 s p va frames flags m fa = ipc_map_memory cr3 s q va frames flags m fa) /\
  (forall va m, ipc_verify_ownership cr3 s p va m = ipc_verify_ownership cr3 s q va m) /\
  (forall va n m r m', ipc_unmap_memory cr3 s p va n m = Ret (r, m') -> m' = m).
Proof.
  intros Hp Hq.
  assert (E : get_process_page_table cr3 s p = get_process_page_table cr3 s q)
    by (unfold get_process_page_table; by rewrite Hp, Hq).
  split_and!.
  - intros. unfold ipc_map_memory. by rewrite E.
  - intros. unfold ipc_verify_ownership. by rewrite E.
  - intros va n m r m' Eu. unfold ipc_unmap_memory in Eu. inv_ret. destruct x; inv_ret; by simplify_eq.
Qed.

(** Memory whose level-4 table maps nothing. *)
Definition demo_translate : TranslatePage := fun page mp m =>
  match leaf_path mp m page with
  | Some (_, leaf) => match entry_frame (load64 m leaf) with Ok f => Some f | Err _ => None end
  | None => None
  end.

Lemma ipc_ops_ignore_target_witness :
  ipc_verify_ownership (TP := demo_translate) 0x1000
    (set_processes [demo_parent; set_parent_id 7 (mkProcess 8 0x700000 0x9000 Ready 7 [] 0 4
       ResourceLimits_default ProcessStats_default 3 2 9)] (@SCHEDULER_init unit)) 7 0x400000 zero_mem
  = ipc_verify_ownership (TP := demo_translate) 0x1000
    (set_processes [demo_parent; set_parent_id 7 (mkProcess 8 0x700000 0x9000 Ready 7 [] 0 4
       ResourceLimits_default ProcessStats_default 3 2 9)] (@SCHEDULER_init unit)) 8 0x400000 zero_mem.
Proof.
  eapply (ipc_ops_ignore_target (F := unit) (MP := leaf_mapper) (TP := demo_translate) 0x1000
    (set_processes [demo_parent; set_parent_id 7 (mkProcess 8 0x700000 0x9000 Ready 7 [] 0 4
       ResourceLimits_default ProcessStats_default 3 2 9)] (@SCHEDULER_init unit)) 7 8); reflexivity.
Defined.

(** Initialising twice keeps the first manager. *)
Lemma scalable_init_once {F HT} {FH : FallbackHeap HT} (e1 e2 f1 f2 : F) (st : scalable_state F HT) :
  let st1 := (scalable_init e1 f1 st).2 in
  scalable_init e2 f2 st1 = (Ok tt, st1).
Proof. unfold scalable_init. by destruct (MEMORY_MANAGER_INIT st) eqn:E; simpl; rewrite ?E. Qed.

(** A region freed to the local list is handed out again, and leaves the list. *)
Lemma local_reuse size flags cas_ok fl m r fl' m' :
  try_local_allocate cas_ok size flags fl m = (Some r, fl', m') ->
  cas_ok = true /\ exists r0, fl ≡ₚ r0 :: fl' /\ r = set_allocated true r0 /\ size <= mr_size r0 /\
    mr_allocated r0 = false.
Proof.
  unfold try_local_allocate. destruct (position _ fl) as [pos|] eqn:Hp; [|done].
  destruct (swap_remove pos fl) as [[r0 fl0]|] eqn:Hsw; [|done]. unfold MemoryRegion_allocate.
  apply position_lookup in Hp as (r1 & Hf & Hl & _). apply find_elem in Hf as [_ Hf].
  assert (r1 = r0) as ->.
  { unfold swap_remove in Hsw. rewrite Hl in Hsw. destruct (last fl); by simplify_eq. }
  apply andb_true_iff in Hf as [Hf1 Hf2]. rewrite Hf1. destruct cas_ok; [|done]. simpl.
  intros E. simplify_eq. split; [done|]. exists r0.
  split_and!; [by eapply swap_remove_perm|done|by apply Z.leb_le|by apply negb_true_iff].
Qed.
