(* ===== verification/Testing.v ===== *)
(** * Testing: the test framework (src/src/testing.rs)

    Test cases with setup and teardown, suites, the registry and the runs over
    them.  A test function is a parameter: it may change any kernel state, may
    read the clock and may panic, which halts the machine.  The clock is the
    counter that [get_current_time] increments at every call.  Printing is
    left out; the texts of the errors are kept, since results carry them. *)

From stdpp Require Import base numbers list strings.
From S2P Require Import Prelude Errors.
Local Open Scope string_scope.
Local Open Scope Z_scope.
Local Open Scope ruix_scope.

(* ------------------------------------------------------------------ *)
(** ** Errors *)

Inductive TestError : Type :=
| TestError_AssertionFailed (msg : string)
| TestError_ExpectedPanic
| TestError_UnexpectedPanic (msg : string)
| TestError_Timeout
| TestError_SetupFailed (msg : string)
| TestError_TeardownFailed (msg : string)
| TestError_ResourceUnavailable (msg : string).
#[export] Instance TestError_eq_dec : EqDecision TestError.
Proof. solve_decision. Defined.

(** [TestResult] *)
Notation TestResult := (result TestError unit).

Definition display_TestError (e : TestError) : string :=
  match e with
  | TestError_AssertionFailed msg => "Assertion failed: " +:+ msg
  | TestError_ExpectedPanic => "Expected panic but didn't panic"
  | TestError_UnexpectedPanic msg => "Unexpected panic: " +:+ msg
  | TestError_Timeout => "Test timed out"
  | TestError_SetupFailed msg => "Setup failed: " +:+ msg
  | TestError_TeardownFailed msg => "Teardown failed: " +:+ msg
  | TestError_ResourceUnavailable msg => "Resource unavailable: " +:+ msg
  end.

(** The derived [Debug] of the kernel's errors. *)
Definition debug_AllocError (e : AllocError) : string :=
  match e with
  | AllocError_OutOfMemory => "OutOfMemory"
  | AllocError_BadAlignment => "BadAlignment"
  | AllocError_AlreadyInUse => "AlreadyInUse"
  | AllocError_InvalidAddress => "InvalidAddress"
  | AllocError_PermissionDenied => "PermissionDenied"
  end.

Definition debug_ProcessError (e : ProcessError) : string :=
  match e with
  | ProcessError_InvalidPid => "InvalidPid"
  | ProcessError_NotFound => "NotFound"
  | ProcessError_AlreadyExists => "AlreadyExists"
  | ProcessError_InvalidState => "InvalidState"
  | ProcessError_StackAllocationFailed => "StackAllocationFailed"
  | ProcessError_ContextSwitchFailed => "ContextSwitchFailed"
  end.

Definition debug_SysError (e : SysError) : string :=
  match e with
  | SysError_InvalidNumber => "InvalidNumber"
  | SysError_InvalidArgs => "InvalidArgs"
  | SysError_PermissionDenied => "PermissionDenied"
  | SysError_ResourceUnavailable => "ResourceUnavailable"
  | SysError_NotSupported => "NotSupported"
  | SysError_BufferTooSmall => "BufferTooSmall"
  end.

Definition debug_IpcError (e : IpcError) : string :=
  match e with
  | IpcError_ChannelNotFound => "ChannelNotFound"
  | IpcError_ChannelExists => "ChannelExists"
  | IpcError_MessageTooLarge => "MessageTooLarge"
  | IpcError_NoMessage => "NoMessage"
  | IpcError_InvalidChannelId => "InvalidChannelId"
  | IpcError_ConnectionRefused => "ConnectionRefused"
  | IpcError_InvalidSender => "InvalidSender"
  | IpcError_ChannelFull => "ChannelFull"
  | IpcError_HandleNotFound => "HandleNotFound"
  | IpcError_InvalidRange => "InvalidRange"
  | IpcError_AccessDenied => "AccessDenied"
  | IpcError_TransferFailed => "TransferFailed"
  | IpcError_MappingFailed => "MappingFailed"
  | IpcError_UnmappingFailed => "UnmappingFailed"
  | IpcError_InvalidAddress => "InvalidAddress"
  | IpcError_InvalidProcess => "InvalidProcess"
  | IpcError_CircularTransfer => "CircularTransfer"
  end.

Definition debug_HardwareError (e : HardwareError) : string :=
  match e with
  | HardwareError_DeviceNotFound => "DeviceNotFound"
  | HardwareError_DeviceBusy => "DeviceBusy"
  | HardwareError_IoFailed => "IoFailed"
  | HardwareError_InvalidPort => "InvalidPort"
  | HardwareError_Timeout => "Timeout"
  end.

Definition debug_GeneralError (e : GeneralError) : string :=
  match e with
  | GeneralError_InvalidOperation => "InvalidOperation"
  | GeneralError_NotImplemented => "NotImplemented"
  | GeneralError_Internal => "Internal"
  | GeneralError_InvalidState => "InvalidState"
  end.

Definition debug_KernelError (e : KernelError) : string :=
  match e with
  | KernelError_Memory e => "Memory(" +:+ debug_AllocError e +:+ ")"
  | KernelError_Process e => "Process(" +:+ debug_ProcessError e +:+ ")"
  | KernelError_Syscall e => "Syscall(" +:+ debug_SysError e +:+ ")"
  | KernelError_Ipc e => "Ipc(" +:+ debug_IpcError e +:+ ")"
  | KernelError_Hardware e => "Hardware(" +:+ debug_HardwareError e +:+ ")"
  | KernelError_General e => "General(" +:+ debug_GeneralError e +:+ ")"
  end.

(** [From<KernelError> for TestError] *)
Definition TestError_from (error : KernelError) : TestError :=
  TestError_AssertionFailed ("Kernel error: " +:+ debug_KernelError error).

(* ------------------------------------------------------------------ *)
(** ** Assertions

    Each macro returns from the test on failure; the arguments of the form
    [.._text] are what [stringify!] and [{:?}] give. *)

Definition assert_eq {T} `{EqDecision T} (left_text right_text : string) (l r : T) : TestResult :=
  if decide (l = r) then Ok tt
  else Err (TestError_AssertionFailed ("assertion failed: " +:+ left_text +:+ " != " +:+ right_text)).
Definition assert_eq_msg {T} `{EqDecision T} (left_text right_text msg : string) (l r : T) : TestResult :=
  if decide (l = r) then Ok tt
  else Err (TestError_AssertionFailed (msg +:+ ": " +:+ left_text +:+ " != " +:+ right_text)).
Definition assert_ne {T} `{EqDecision T} (left_text right_text : string) (l r : T) : TestResult :=
  if decide (l = r)
  then Err (TestError_AssertionFailed ("assertion failed: " +:+ left_text +:+ " == " +:+ right_text))
  else Ok tt.
Definition assert_true (text : string) (b : bool) : TestResult :=
  if negb b then Err (TestError_AssertionFailed ("assertion failed: " +:+ text +:+ " is not true")) else Ok tt.
Definition assert_false (text : string) (b : bool) : TestResult :=
  if b then Err (TestError_AssertionFailed ("assertion failed: " +:+ text +:+ " is not false")) else Ok tt.
Definition assert_ok {E T} (error_text : E -> string) (r : result E T) : TestResult :=
  match r with
  | Ok _ => Ok tt
  | Err e => Err (TestError_AssertionFailed ("expected Ok, got Err: " +:+ error_text e))
  end.
Definition assert_err {E T} (value_text : T -> string) (r : result E T) : TestResult :=
  match r with
  | Ok v => Err (TestError_AssertionFailed ("expected Err, got Ok: " +:+ value_text v))
  | Err _ => Ok tt
  end.

(* ------------------------------------------------------------------ *)
(** ** Test cases *)

Inductive TestCategory : Type :=
| Category_Unit | Category_Integration | Category_System | Category_Performance | Category_Stress
| Category_Memory | Category_Process | Category_Ipc | Category_Hardware.
#[export] Instance TestCategory_eq_dec : EqDecision TestCategory.
Proof. solve_decision. Defined.

Record TestMetadata : Type := mkTestMetadata {
  tm_name : string;
  tm_description : string;
  tm_category : TestCategory;
  tm_expected_time_ms : Z;
  tm_requires_setup : bool;
  tm_might_panic : bool
}.

Record TestExecutionResult : Type := mkExecutionResult {
  er_test_name : string;
  er_success : bool;
  er_duration_ms : Z;
  er_error : option TestError;
  er_output : list string
}.

Record SuiteMetadata : Type := mkSuiteMetadata {
  sm_description : string;
  sm_category : TestCategory;
  sm_expected_time_ms : Z
}.

Record SuiteResult : Type := mkSuiteResult {
  sr_suite_name : string;
  sr_total_tests : Z;
  sr_passed : Z;
  sr_failed : Z;
  sr_total_time_ms : Z;
  sr_results : list TestExecutionResult
}.

Definition SuiteResult_all_passed (r : SuiteResult) : bool := sr_failed r =? 0.

Section Testing.
(** The kernel state the tests act on. *)
Context {W : Type}.

(** The state of a test run: the clock of [get_current_time] and the kernel. *)
Record tstate : Type := mkTState { TIME_COUNTER : Z; kernel : W }.
Implicit Types (s : tstate).

(** [TIME_COUNTER += 1] is checked in the dev profile. *)
Definition get_current_time s : outcome (Z * tstate) :=
  let! t := add_u64 (TIME_COUNTER s) 1 in Ret (t, mkTState t (kernel s)).

Definition TestFunction : Type := tstate -> outcome (TestResult * tstate).

Record TestCase : Type := mkTestCase {
  tc_metadata : TestMetadata;
  tc_test_fn : TestFunction;
  tc_setup_fn : option TestFunction;
  tc_teardown_fn : option TestFunction
}.

Definition TestCase_new (name description : string) (category : TestCategory) (test_fn : TestFunction) : TestCase :=
  mkTestCase (mkTestMetadata name description category 1000 false false) test_fn None None.

Definition with_expected_time (time_ms : Z) (t : TestCase) : TestCase :=
  let m := tc_metadata t in
  mkTestCase (mkTestMetadata (tm_name m) (tm_description m) (tm_category m) time_ms
                (tm_requires_setup m) (tm_might_panic m))
    (tc_test_fn t) (tc_setup_fn t) (tc_teardown_fn t).
Definition with_setup (setup_fn : TestFunction) (t : TestCase) : TestCase :=
  let m := tc_metadata t in
  mkTestCase (mkTestMetadata (tm_name m) (tm_description m) (tm_category m) (tm_expected_time_ms m)
                true (tm_might_panic m))
    (tc_test_fn t) (Some setup_fn) (tc_teardown_fn t).
Definition with_teardown (teardown_fn : TestFunction) (t : TestCase) : TestCase :=
  mkTestCase (tc_metadata t) (tc_test_fn t) (tc_setup_fn t) (Some teardown_fn).
Definition might_panic (t : TestCase) : TestCase :=
  let m := tc_metadata t in
  mkTestCase (mkTestMetadata (tm_name m) (tm_description m) (tm_category m) (tm_expected_time_ms m)
                (tm_requires_setup m) true)
    (tc_test_fn t) (tc_setup_fn t) (tc_teardown_fn t).

Definition run_normal_test (t : TestCase) : TestFunction := tc_test_fn t.
Definition run_panic_test (t : TestCase) : TestFunction := tc_test_fn t.

(** An optional setup or teardown function. *)
Definition run_optional (f : option TestFunction) : TestFunction := fun s =>
  match f with Some f => f s | None => Ret (Ok tt, s) end.

(** [get_current_time() - start_time] and the result built from it. *)
Definition finish (t : TestCase) (start_time : Z) (success : bool) (error : option TestError) s
    : outcome (TestExecutionResult * tstate) :=
  let! r := get_current_time s in
  let '(now, s) := r in
  let! duration := sub_u64 now start_time in
  Ret (mkExecutionResult (tm_name (tc_metadata t)) success duration error [], s).

Definition TestCase_run (t : TestCase) s : outcome (TestExecutionResult * tstate) :=
  let! r := get_current_time s in
  let '(start_time, s) := r in
  let! r := run_optional (tc_setup_fn t) s in
  match r with
  | (Err e, s) => finish t start_time false (Some (TestError_SetupFailed (display_TestError e))) s
  | (Ok _, s) =>
      let! r := (if tm_might_panic (tc_metadata t) then run_panic_test t else run_normal_test t) s in
      let '(result, s) := r in
      let! r := run_optional (tc_teardown_fn t) s in
      match r with
      | (Err e, s) => finish t start_time false (Some (TestError_TeardownFailed (display_TestError e))) s
      | (Ok _, s) =>
          finish t start_time (is_ok result) (match result with Ok _ => None | Err e => Some e end) s
      end
  end.

(* ------------------------------------------------------------------ *)
(** ** Suites and the registry *)

Record TestSuite : Type := mkTestSuite {
  ts_name : string;
  ts_tests : list TestCase;
  ts_metadata : SuiteMetadata
}.

Definition TestSuite_new (name description : string) (category : TestCategory) : TestSuite :=
  mkTestSuite name [] (mkSuiteMetadata description category 0).

Definition add_test (test : TestCase) (su : TestSuite) : outcome TestSuite :=
  let m := ts_metadata su in
  let! time := add_u64 (sm_expected_time_ms m) (tm_expected_time_ms (tc_metadata test)) in
  Ret (mkTestSuite (ts_name su) (ts_tests su ++ [test])
         (mkSuiteMetadata (sm_description m) (sm_category m) time)).

(** The loop of [TestSuite::run] with its two counters. *)
Fixpoint suite_loop (tests : list TestCase) (passed failed : Z) (results : list TestExecutionResult) s
    : outcome (Z * Z * list TestExecutionResult * tstate) :=
  match tests with
  | [] => Ret (passed, failed, results, s)
  | test :: tests =>
      let! r := TestCase_run test s in
      let '(result, s) := r in
      if er_success result
      then let! passed := add_u64 passed 1 in suite_loop tests passed failed (results ++ [result]) s
      else let! failed := add_u64 failed 1 in suite_loop tests passed failed (results ++ [result]) s
  end.

Definition TestSuite_run (su : TestSuite) s : outcome (SuiteResult * tstate) :=
  let! r := get_current_time s in
  let '(start_time, s) := r in
  let! r := suite_loop (ts_tests su) 0 0 [] s in
  let '(passed, failed, results, s) := r in
  let! r := get_current_time s in
  let '(now, s) := r in
  let! total_time := sub_u64 now start_time in
  Ret (mkSuiteResult (ts_name su) (Z.of_nat (length (ts_tests su))) passed failed total_time results, s).

Record TestRegistry : Type := mkRegistry { suites : list TestSuite }.

Definition TestRegistry_new : TestRegistry := mkRegistry [].
Definition add_suite (su : TestSuite) (r : TestRegistry) : TestRegistry := mkRegistry (suites r ++ [su]).

Fixpoint suites_loop (l : list TestSuite) (all_results : list SuiteResult) s
    : outcome (list SuiteResult * tstate) :=
  match l with
  | [] => Ret (all_results, s)
  | su :: l =>
      let! r := TestSuite_run su s in
      let '(result, s) := r in suites_loop l (all_results ++ [result]) s
  end.
Definition run_all (r : TestRegistry) s : outcome (list SuiteResult * tstate) := suites_loop (suites r) [] s.

Fixpoint category_loop (category : TestCategory) (l : list TestSuite) (results : list SuiteResult) s
    : outcome (list SuiteResult * tstate) :=
  match l with
  | [] => Ret (results, s)
  | su :: l =>
      if decide (sm_category (ts_metadata su) = category) then
        let! r := TestSuite_run su s in
        let '(result, s) := r in category_loop category l (results ++ [result]) s
      else category_loop category l results s
  end.
Definition run_category (r : TestRegistry) (category : TestCategory) s : outcome (list SuiteResult * tstate) :=
  category_loop category (suites r) [] s.

(** [test_registry]: the registry in [TEST_REGISTRY], created at first use. *)
Definition test_registry (TEST_REGISTRY : option TestRegistry) : TestRegistry :=
  match TEST_REGISTRY with None => TestRegistry_new | Some r => r end.

Definition run_all_tests (TEST_REGISTRY : option TestRegistry) s : outcome (KernelResult unit * tstate) :=
  let! r := run_all (test_registry TEST_REGISTRY) s in
  let '(results, s) := r in
  let total_suites := Z.of_nat (length results) in
  let total_passed := Z.of_nat (length (List.filter SuiteResult_all_passed results)) in
  let! total_failed := sub_u64 total_suites total_passed in
  Ret (if total_failed =? 0 then Ok tt else Err (KernelError_General GeneralError_Internal), s).
End Testing.
Arguments tstate W : clear implicits.
Arguments TestFunction W : clear implicits.
Arguments TestCase W : clear implicits.
Arguments TestSuite W : clear implicits.
Arguments TestRegistry W : clear implicits.

(* ------------------------------------------------------------------ *)
(** ** Reference definitions and facts *)

Local Open Scope list_scope.
Local Open Scope Z_scope.
Local Open Scope ruix_scope.

Section TestingFacts.
Context {W : Type}.
Implicit Types (s : tstate W) (t : TestCase W) (su : TestSuite W).

(** What a test reports, from the answers of setup, test and teardown. *)
Definition verdict (setup test teardown : TestResult) : option TestError :=
  match setup, teardown, test with
  | Err e, _, _ => Some (TestError_SetupFailed (display_TestError e))
  | Ok _, Err e, _ => Some (TestError_TeardownFailed (display_TestError e))
  | Ok _, Ok _, Err e => Some e
  | Ok _, Ok _, Ok _ => None
  end.

(** Run the tests one after the other. *)
Fixpoint run_seq (tests : list (TestCase W)) s : outcome (list TestExecutionResult * tstate W) :=
  match tests with
  | [] => Ret ([], s)
  | t :: tests =>
      let! r := TestCase_run t s in
      let! rest := run_seq tests r.2 in Ret (r.1 :: rest.1, rest.2)
  end.

Definition count (p : TestExecutionResult -> bool) (l : list TestExecutionResult) : Z :=
  Z.of_nat (length (List.filter p l)).
Definition failure (r : TestExecutionResult) : bool := negb (er_success r).

Definition suite_reference su s : outcome (SuiteResult * tstate W) :=
  let! r0 := get_current_time s in
  let! r := run_seq (ts_tests su) r0.2 in
  let! r1 := get_current_time r.2 in
  let! total := sub_u64 r1.1 r0.1 in
  Ret (mkSuiteResult (ts_name su) (Z.of_nat (length r.1)) (count er_success r.1) (count failure r.1) total r.1, r1.2).

(** Run the suites one after the other. *)
Fixpoint suites_reference (l : list (TestSuite W)) s : outcome (list SuiteResult * tstate W) :=
  match l with
  | [] => Ret ([], s)
  | su :: l =>
      let! r := suite_reference su s in
      let! rest := suites_reference l r.2 in Ret (r.1 :: rest.1, rest.2)
  end.

(** What a suite is made of and what its result reports: the name of the suite
    and the names of the tests in order. *)
Definition suite_names su : string * list string :=
  (ts_name su, (fun t => tm_name (tc_metadata t)) <$> ts_tests su).
Definition result_names (r : SuiteResult) : string * list string :=
  (sr_suite_name r, er_test_name <$> sr_results r).

Lemma count_split l : count er_success l + count failure l = Z.of_nat (length l).
Proof.
  unfold count, failure. induction l as [|r l IH]; [done|]. simpl.
  destruct (er_success r); simpl; lia.
Qed.

Lemma count_failure_zero l : count failure l = 0 <-> Forall (fun r => er_success r = true) l.
Proof.
  unfold count, failure. induction l as [|r l IH]; simpl; [done|].
  rewrite Forall_cons, <- IH. destruct (er_success r); simpl; split; naive_solver lia.
Qed.

Lemma run_seq_length tests : forall s l s', run_seq tests s = Ret (l, s') -> length l = length tests.
Proof.
  induction tests as [|t tests IH]; intros s l s' E; simpl in E; inv_ret; simplify_eq/=; [done|].
  destruct x0 as [l' s'']. f_equal. by eapply IH.
Qed.

Lemma suite_loop_reference tests : forall passed failed results s,
  0 <= passed -> 0 <= failed -> passed + failed + Z.of_nat (length tests) < 2 ^ 64 ->
  suite_loop tests passed failed results s =
    let! r := run_seq tests s in
    Ret (passed + count er_success r.1, failed + count failure r.1, results ++ r.1, r.2).
Proof.
  induction tests as [|t tests IH]; intros passed failed results s Hp Hf Hl; simpl suite_loop; simpl run_seq.
  { rewrite bind_ret. unfold count. simpl. by rewrite !Z.add_0_r, app_nil_r. }
  destruct (TestCase_run t s) as [[r s1]|]; [|done]. rewrite !bind_ret. cbn [fst snd].
  cbn [length] in Hl.
  destruct (er_success r) eqn:Er; rewrite add_u64_ret, bind_ret, IH by lia;
    destruct (run_seq tests s1) as [[l s2]|]; try done; simpl; unfold count, failure; simpl; rewrite Er; simpl;
    rewrite <- (assoc_L (++)); simpl; apply f_equal; repeat apply (f_equal2 pair); try done; lia.
Qed.

Lemma TestSuite_run_reference su s :
  Z.of_nat (length (ts_tests su)) < 2 ^ 64 -> TestSuite_run su s = suite_reference su s.
Proof.
  intros Hl. unfold TestSuite_run, suite_reference. destruct (get_current_time s) as [[t0 s0]|]; [|done].
  rewrite !bind_ret, suite_loop_reference by lia. cbn [fst snd].
  destruct (run_seq (ts_tests su) s0) as [[l s1]|] eqn:El; [|done]. rewrite !bind_ret. cbn [fst snd].
  destruct (get_current_time s1) as [[t1 s2]|]; [|done]. rewrite !bind_ret. cbn [fst snd].
  destruct (sub_u64 t1 t0); [|done]. rewrite !bind_ret. by rewrite (run_seq_length _ _ _ _ El).
Qed.

Lemma suite_all_passed su s r s' :
  Z.of_nat (length (ts_tests su)) < 2 ^ 64 -> TestSuite_run su s = Ret (r, s') ->
  SuiteResult_all_passed r = true <-> Forall (fun x => er_success x = true) (sr_results r).
Proof.
  intros Hl E. rewrite TestSuite_run_reference in E by done. unfold suite_reference in E. inv_ret. simplify_eq.
  unfold SuiteResult_all_passed. cbn [sr_failed sr_results]. rewrite Z.eqb_eq. apply count_failure_zero.
Qed.

Lemma suites_loop_acc l : forall acc s,
  suites_loop l acc s = let! r := suites_loop l [] s in Ret (acc ++ r.1, r.2).
Proof.
  induction l as [|su l IH]; intros acc s; simpl; [by rewrite app_nil_r|].
  destruct (TestSuite_run su s) as [[r s1]|]; [|done]. rewrite !bind_ret.
  rewrite (IH (acc ++ [r])), (IH [r]). destruct (suites_loop l [] s1) as [[rs s2]|]; [|done].
  simpl. by rewrite <- (assoc_L (++)).
Qed.

Lemma suites_loop_reference l : forall s,
  Forall (fun su => Z.of_nat (length (ts_tests su)) < 2 ^ 64) l ->
  suites_loop l [] s = suites_reference l s.
Proof.
  induction l as [|su l IH]; intros s Hl; simpl; [done|]. apply Forall_cons in Hl as [Hsu Hl].
  rewrite TestSuite_run_reference by done. destruct (suite_reference su s) as [[r s1]|]; [|done].
  rewrite !bind_ret, suites_loop_acc, IH by done. done.
Qed.

Lemma TestCase_run_name t s r s' : TestCase_run t s = Ret (r, s') -> er_test_name r = tm_name (tc_metadata t).
Proof.
  assert (Hfin : forall st b e s0, finish t st b e s0 = Ret (r, s') -> er_test_name r = tm_name (tc_metadata t)).
  { intros st b e s0 E. unfold finish in E. inv_ret. destruct x as [now s1]. inv_ret. by simplify_eq. }
  intros E. unfold TestCase_run in E. inv_ret. destruct x as [start s1]. inv_ret.
  destruct x as [[u|e] s2]; [|by eapply Hfin]. inv_ret. destruct x as [res s3]. inv_ret.
  destruct x as [[v|e] s4]; by eapply Hfin.
Qed.

Lemma run_seq_names tests : forall s l s',
  run_seq tests s = Ret (l, s') -> er_test_name <$> l = (fun t => tm_name (tc_metadata t)) <$> tests.
Proof.
  induction tests as [|t tests IH]; intros s l s' E; simpl in E; inv_ret; simplify_eq/=; [done|].
  destruct x as [r s1], x0 as [l' s2]. simplify_eq/=. f_equal; [by eapply TestCase_run_name|by eapply IH].
Qed.

Lemma suites_reference_names l : forall s rs s',
  suites_reference l s = Ret (rs, s') ->
  result_names <$> rs = suite_names <$> l /\
  Forall (fun r => SuiteResult_all_passed r = true <->
                   Forall (fun x => er_success x = true) (sr_results r)) rs.
Proof.
  induction l as [|su l IH]; intros s rs s' E; simpl in E; [by simplify_eq|]. inv_ret.
  destruct x as [r s1], x0 as [rs' s2]. simplify_eq/=.
  match goal with E : suites_reference _ _ = _ |- _ => apply IH in E as [Hn Hall] end.
  match goal with E : suite_reference _ _ = _ |- _ => unfold suite_reference in E end. inv_ret. simplify_eq.
  match goal with E : run_seq _ _ = Ret ?x |- _ =>
    destruct x as [res s3]; pose proof (run_seq_names _ _ _ _ E) as Hnames end.
  split.
  - csimpl. rewrite Hn. unfold result_names, suite_names. simpl. by rewrite Hnames.
  - constructor; [|done]. unfold SuiteResult_all_passed. cbn [sr_failed sr_results]. rewrite Z.eqb_eq.
    apply count_failure_zero.
Qed.

Lemma filter_all_passed (l : list SuiteResult) :
  Z.of_nat (length l) - Z.of_nat (length (List.filter SuiteResult_all_passed l)) = 0 <->
  Forall (fun r => SuiteResult_all_passed r = true) l.
Proof.
  induction l as [|r l IH]; simpl; [done|].
  pose proof (List.filter_length_le SuiteResult_all_passed l). rewrite Forall_cons, <- IH.
  destruct (SuiteResult_all_passed r); simpl; split; naive_solver lia.
Qed.

(** Kernel errors stay distinguishable as test errors. *)
Lemma TestError_from_inj e1 e2 : TestError_from e1 = TestError_from e2 -> e1 = e2.
Proof.
  intros [= E]. apply (NoDup_fmap_inj debug_KernelError all_kernel_errors);
    [|apply all_kernel_errors_complete..|done].
  apply (bool_decide_unpack _). vm_compute. done.
Qed.
End TestingFacts.

(* ------------------------------------------------------------------ *)
(** ** Properties *)

(** A test case on every branch.  With the answers of setup, test and
    teardown given, and none of them reading the clock, the test succeeds
    exactly when all three do; otherwise it reports the setup's failure, else
    the teardown's (which hides the failure of the test), else the test's own.
    After a failed setup neither the test nor the teardown has touched the
    kernel.  The duration is always 1, the number of clock reads. *)
Theorem test_case_run_spec {W} (t : TestCase W) (s s1 s2 s3 : tstate W) (rs rt rd : TestResult) :
  0 <= TIME_COUNTER s -> TIME_COUNTER s + 2 < 2 ^ 64 ->
  run_optional (tc_setup_fn t) (mkTState (TIME_COUNTER s + 1) (kernel s)) = Ret (rs, s1) ->
  tc_test_fn t s1 = Ret (rt, s2) -> run_optional (tc_teardown_fn t) s2 = Ret (rd, s3) ->
  TIME_COUNTER s1 = TIME_COUNTER s + 1 -> TIME_COUNTER s3 = TIME_COUNTER s + 1 ->
  TestCase_run t s =
    Ret (mkExecutionResult (tm_name (tc_metadata t)) (is_ok rs && is_ok rt && is_ok rd) 1 (verdict rs rt rd) [],
         mkTState (TIME_COUNTER s + 2) (kernel (if is_ok rs then s3 else s1))).
Proof.
  intros H0 Ht Hs1 Hs2 Hs3 Hc1 Hc3.
  assert (Hfin : forall b e s', TIME_COUNTER s' = TIME_COUNTER s + 1 ->
    finish t (TIME_COUNTER s + 1) b e s' =
    Ret (mkExecutionResult (tm_name (tc_metadata t)) b 1 e [], mkTState (TIME_COUNTER s + 2) (kernel s'))).
  { intros b e s' Hc. unfold finish, get_current_time. rewrite Hc, add_u64_ret by lia.
    rewrite !bind_ret, sub_u64_ret, bind_ret by lia.
    replace (TIME_COUNTER s + 1 + 1) with (TIME_COUNTER s + 2) by lia.
    by replace (TIME_COUNTER s + 2 - (TIME_COUNTER s + 1)) with 1 by lia. }
  unfold TestCase_run, get_current_time. rewrite add_u64_ret, !bind_ret, Hs1, bind_ret by lia.
  destruct rs as [[]|e]; [|by rewrite Hfin].
  assert (Hrun : (if tm_might_panic (tc_metadata t) then run_panic_test t else run_normal_test t) s1 = Ret (rt, s2)).
  { by destruct (tm_might_panic _). }
  rewrite Hrun, !bind_ret, Hs3, bind_ret. by destruct rt as [[]|], rd as [[]|]; rewrite Hfin.
Qed.

(** A test that fails, with a teardown that fails as well. *)
Definition failing_case : TestCase (list string) :=
  with_teardown (fun s => Ret (Err TestError_Timeout, s))
    (TestCase_new "case" "both fail" Category_Unit
       (fun s => Ret (Err TestError_ExpectedPanic, mkTState (TIME_COUNTER s) ("ran" :: kernel s)))).

Lemma test_case_run_spec_witness :
  TestCase_run failing_case (mkTState 7 []) =
    Ret (mkExecutionResult "case" false 1 (Some (TestError_TeardownFailed "Test timed out")) [],
         mkTState 9 ["ran"]).
Proof.
  refine (test_case_run_spec failing_case (mkTState 7 []) (mkTState 8 []) (mkTState 8 ["ran"]) (mkTState 8 ["ran"])
    (Ok tt) (Err TestError_ExpectedPanic) (Err TestError_Timeout) _ _ _ _ _ _ _); first [reflexivity|simpl; lia].
Defined.

(** C18: running a suite is running its tests in order.  [TestSuite::run] with
    its counters equals the reference that runs the tests one after the other
    and counts afterwards: one result per test, in order, with as many passed
    and failed as results say; the two counts add up to the total, and
    [all_passed] holds exactly when every result is a success. *)
Theorem suite_run_equivalence {W} (su : TestSuite W) (s : tstate W) :
  Z.of_nat (length (ts_tests su)) < 2 ^ 64 ->
  TestSuite_run su s = suite_reference su s /\
  (forall r s', TestSuite_run su s = Ret (r, s') ->
     sr_passed r + sr_failed r = sr_total_tests r /\
     sr_total_tests r = Z.of_nat (length (ts_tests su)) /\
     (SuiteResult_all_passed r = true <-> Forall (fun x => er_success x = true) (sr_results r))).
Proof.
  intros Hl. split; [by apply TestSuite_run_reference|]. intros r s' E.
  pose proof (suite_all_passed su s r s' Hl E) as Hp. rewrite TestSuite_run_reference in E by done.
  unfold suite_reference in E. inv_ret. destruct x0 as [l s1]. simplify_eq/=.
  split; [apply count_split|]. split; [|done]. f_equal. by eapply run_seq_length.
Qed.

Definition small_suite : TestSuite (list string) :=
  mkTestSuite "suite" [TestCase_new "ok" "" Category_Unit (fun s => Ret (Ok tt, s)); failing_case]
    (mkSuiteMetadata "" Category_Unit 2000).

Lemma suite_run_equivalence_witness :
  exists r s', TestSuite_run small_suite (mkTState 0 []) = Ret (r, s') /\
    sr_passed r + sr_failed r = 2 /\ sr_failed r = 1.
Proof.
  destruct (suite_run_equivalence small_suite (mkTState 0 [])) as [E H]; [reflexivity|].
  destruct (TestSuite_run small_suite (mkTState 0 [])) as [[r s']|] eqn:Er.
  - destruct (H r s' eq_refl) as (H1 & H2 & _). exists r, s'. split; [reflexivity|].
    split; [rewrite H1; exact H2|]. vm_compute in Er. injection Er as <- _. reflexivity.
  - vm_compute in Er. discriminate Er.
Defined.

(** C38: the verdict over all suites.  [run_all] is running every test of every
    registered suite in order.  When [run_all_tests] returns, there is one
    result per registered suite with one result per test of it, in order and
    under their names, and the answer is [Ok] exactly when every one of these
    tests succeeded, else the internal error; with the registry as it is
    created, which holds no suite, the answer is [Ok] at once. *)
Theorem run_all_tests_verdict {W} (reg : option (TestRegistry W)) (s s' : tstate W) (r : KernelResult unit) :
  Forall (fun su => Z.of_nat (length (ts_tests su)) < 2 ^ 64) (suites (test_registry reg)) ->
  run_all_tests reg s = Ret (r, s') ->
  (exists results,
     run_all (test_registry reg) s = Ret (results, s') /\
     suites_reference (suites (test_registry reg)) s = Ret (results, s') /\
     result_names <$> results = suite_names <$> suites (test_registry reg) /\
     (r = Ok tt <-> Forall (fun sr => Forall (fun x => er_success x = true) (sr_results sr)) results)) /\
  (r = Ok tt \/ r = Err (KernelError_General GeneralError_Internal)) /\
  (reg = None -> r = Ok tt /\ s' = s).
Proof.
  intros Hl E. unfold run_all_tests, run_all in *. inv_ret. destruct x as [results s1]. inv_ret. simplify_eq.
  pose proof H as H'. rewrite suites_loop_reference in H' by done.
  destruct (suites_reference_names _ _ _ _ H') as [Hnames Hall].
  match goal with E : sub_u64 _ _ = Ret ?z |- _ => unfold sub_u64 in E; case_match; simplify_eq end.
  split; [|split].
  - exists results. split_and!; [done..|].
    transitivity (Forall (fun sr => SuiteResult_all_passed sr = true) results).
    + rewrite <- filter_all_passed. case_match; bool_to_prop; split; naive_solver.
    + clear -Hall. induction Hall as [|sr l Hsr _ IH]; [done|].
      rewrite !Forall_cons. naive_solver.
  - case_match; auto.
  - intros ->. simpl in H. by simplify_eq/=.
Qed.

Lemma run_all_tests_verdict_witness :
  exists r s', run_all_tests (Some (add_suite small_suite TestRegistry_new)) (mkTState 0 []) = Ret (r, s') /\
    r <> Ok tt.
Proof.
  destruct (run_all_tests (Some (add_suite small_suite TestRegistry_new)) (mkTState 0 [])) as [[r s']|] eqn:E.
  - exists r, s'. split; [reflexivity|].
    destruct (run_all_tests_verdict (Some (add_suite small_suite TestRegistry_new)) (mkTState 0 []) s' r)
      as [(results & Hr & _ & _ & Hv) _].
    + repeat constructor.
    + exact E.
    + intros Hok. apply Hv in Hok. vm_compute in Hr. injection Hr as <- _.
      inversion_clear Hok as [|? ? H1 _]. inversion_clear H1 as [|? ? _ H2]. inversion_clear H2 as [|? ? H3 _].
      discriminate H3.
  - vm_compute in E. discriminate E.
Defined.
