(* ===== verification/BootCheck.v ===== *)
(** * BootCheck: the checks run at boot (src/src/testing/boot_check.rs)

    The checker with its phases, the nine fixed checks, the run of the test
    suites and [run_boot_checks].  The suites of src/src/tests are a parameter
    (a list of [TestSuite]), and so is the place of [CPU_DATA] in the kernel
    state.  Allocating in the small checks is [Vec] and [String] on the heap,
    whose exhaustion is a panic elsewhere and not modelled here. *)

From stdpp Require Import base numbers list strings pretty.
From S2P Require Import Prelude Errors Testing.
Local Open Scope string_scope.
Local Open Scope list_scope.
Local Open Scope Z_scope.
Local Open Scope ruix_scope.

Inductive TestPhase : Type :=
| Phase_BasicSystem | Phase_MemoryAllocation | Phase_ProcessCreation | Phase_Syscalls | Phase_IpcSystem.
#[export] Instance TestPhase_eq_dec : EqDecision TestPhase.
Proof. solve_decision. Defined.

Record BootTestResult : Type := mkBootTestResult {
  bt_phase : TestPhase;
  bt_test_name : string;
  bt_passed : bool;
  bt_details : string
}.

Record BootChecker : Type := mkBootChecker {
  test_results : list BootTestResult;
  current_phase : TestPhase
}.
Implicit Types (c : BootChecker).

Definition BootChecker_new : BootChecker := mkBootChecker [] Phase_BasicSystem.

Definition set_phase (p : TestPhase) c : BootChecker := mkBootChecker (test_results c) p.
Definition add_result (test_name : string) (passed : bool) (details : string) c : BootChecker :=
  mkBootChecker (test_results c ++ [mkBootTestResult (current_phase c) test_name passed details]) (current_phase c).

Definition BootChecker_all_passed c : bool := forallb bt_passed (test_results c).
Definition get_failed_tests c : list BootTestResult := List.filter (fun r => negb (bt_passed r)) (test_results c).

(** The small checks; a [Vec] is a list and [vec[i]] a checked index. *)
Definition test_small_allocation : bool := (length (@nil Z) =? 0)%nat.
Definition test_vector_allocation : bool :=
  let vec := ([] ++ [1]) ++ [2] ++ [3] in
  (length vec =? 3)%nat && bool_decide (vec !! 0%nat = Some 1) && bool_decide (vec !! 2%nat = Some 3).
Definition test_string_allocation : bool :=
  let s := "" +:+ "test" in (String.length s =? 4)%nat && String.eqb s "test".
Definition test_scheduler_access : bool := true.
Definition test_pid_system (current_process_id : Z) : bool := 0 <=? current_process_id.
Definition test_syscall_init : bool := true.
Definition test_current_pid (current_process_id : Z) : bool := 0 <=? current_process_id.

Definition test_basic_system c : KernelResult unit * BootChecker :=
  let c := set_phase Phase_BasicSystem c in
  let c := add_result "Basic printing" true "Serial output functional" c in
  let test_val := 42 + 58 in
  let arithmetic_ok := test_val =? 100 in
  let c := add_result "Basic arithmetic" arithmetic_ok ("42 + 58 = " +:+ pretty test_val) c in
  let allocation_ok := test_small_allocation in
  let c := add_result "Small allocation" allocation_ok "Can allocate small structures" c in
  if negb arithmetic_ok || negb allocation_ok then (Err (KernelError_General GeneralError_Internal), c)
  else (Ok tt, c).

Definition test_memory_allocation c : KernelResult unit * BootChecker :=
  let c := set_phase Phase_MemoryAllocation c in
  let vector_ok := test_vector_allocation in
  let c := add_result "Vector allocation" vector_ok "Can allocate and grow vectors" c in
  let string_ok := test_string_allocation in
  let c := add_result "String allocation" string_ok "Can allocate and manipulate strings" c in
  if negb vector_ok || negb string_ok then (Err (KernelError_Memory AllocError_OutOfMemory), c)
  else (Ok tt, c).

Definition test_process_creation (pid : Z) c : KernelResult unit * BootChecker :=
  let c := set_phase Phase_ProcessCreation c in
  let scheduler_ok := test_scheduler_access in
  let c := add_result "Scheduler access" scheduler_ok "Can access process scheduler" c in
  let pid_ok := test_pid_system pid in
  let c := add_result "PID system" pid_ok "Process ID system functional" c in
  if negb scheduler_ok || negb pid_ok then (Err (KernelError_Process ProcessError_NotFound), c)
  else (Ok tt, c).

Definition test_syscalls (pid : Z) c : KernelResult unit * BootChecker :=
  let c := set_phase Phase_Syscalls c in
  let syscall_ok := test_syscall_init in
  let c := add_result "Syscall init" syscall_ok "System call system initialized" c in
  let pid_ok := test_current_pid pid in
  let c := add_result "Current PID" pid_ok "Can get current process ID" c in
  if negb syscall_ok || negb pid_ok then (Err (KernelError_Syscall SysError_InvalidArgs), c)
  else (Ok tt, c).

(** The details recorded for a test of a suite. *)
Definition details_of (r : TestExecutionResult) : string :=
  if er_success r then "Test passed"
  else match er_error r with Some e => display_TestError e | None => "Test failed" end.

Section BootCheck.
Context {W : Type} (current_process_id : W -> Z) (create_all_test_suites : list (TestSuite W)).
Implicit Types (s : tstate W).

Fixpoint boot_tests (tests : list (TestCase W)) c s : outcome (BootChecker * tstate W) :=
  match tests with
  | [] => Ret (c, s)
  | test :: tests =>
      let! r := TestCase_run test s in
      let '(result, s) := r in
      boot_tests tests (add_result (tm_name (tc_metadata test)) (er_success result) (details_of result) c) s
  end.

Fixpoint boot_suites (suites : list (TestSuite W)) c s : outcome (BootChecker * tstate W) :=
  match suites with
  | [] => Ret (c, s)
  | suite :: suites => let! r := boot_tests (ts_tests suite) c s in boot_suites suites r.1 r.2
  end.

Definition run_comprehensive_tests c s : outcome (KernelResult unit * BootChecker * tstate W) :=
  let! r := boot_suites create_all_test_suites (set_phase Phase_IpcSystem c) s in
  Ret (Ok tt, r.1, r.2).

(** [run_all_checks], with the early returns of [?] *)
Definition run_all_checks c s : outcome (KernelResult unit * BootChecker * tstate W) :=
  let pid := current_process_id (kernel s) in
  match test_basic_system c with
  | (Err e, c) => Ret (Err e, c, s)
  | (Ok _, c) =>
  match test_memory_allocation c with
  | (Err e, c) => Ret (Err e, c, s)
  | (Ok _, c) =>
  match test_process_creation pid c with
  | (Err e, c) => Ret (Err e, c, s)
  | (Ok _, c) =>
  match test_syscalls pid c with
  | (Err e, c) => Ret (Err e, c, s)
  | (Ok _, c) =>
      let! r := run_comprehensive_tests c s in
      match r with
      | (Err e, c, s) => Ret (Err e, c, s)
      | (Ok _, c, s) => Ret (Ok tt, c, s)
      end
  end end end end.

Definition run_boot_checks s : outcome (KernelResult BootChecker * tstate W) :=
  let! r := run_all_checks BootChecker_new s in
  match r with
  | (Err e, _, s) => Ret (Err e, s)
  | (Ok _, c, s) => Ret (Ok c, s)
  end.

(** [quick_boot_check] allocates and answers [Ok]. *)
Definition quick_boot_check : KernelResult unit := Ok tt.

(* ------------------------------------------------------------------ *)
(** ** Facts *)

(** The nine results recorded before the suites. *)
Definition fixed_results : list BootTestResult :=
  [mkBootTestResult Phase_BasicSystem "Basic printing" true "Serial output functional";
   mkBootTestResult Phase_BasicSystem "Basic arithmetic" true "42 + 58 = 100";
   mkBootTestResult Phase_BasicSystem "Small allocation" true "Can allocate small structures";
   mkBootTestResult Phase_MemoryAllocation "Vector allocation" true "Can allocate and grow vectors";
   mkBootTestResult Phase_MemoryAllocation "String allocation" true "Can allocate and manipulate strings";
   mkBootTestResult Phase_ProcessCreation "Scheduler access" true "Can access process scheduler";
   mkBootTestResult Phase_ProcessCreation "PID system" true "Process ID system functional";
   mkBootTestResult Phase_Syscalls "Syscall init" true "System call system initialized";
   mkBootTestResult Phase_Syscalls "Current PID" true "Can get current process ID"].

Definition boot_result (r : TestExecutionResult) : BootTestResult :=
  mkBootTestResult Phase_IpcSystem (er_test_name r) (er_success r) (details_of r).

Definition all_tests : list (TestCase W) := create_all_test_suites ≫= ts_tests.

Lemma boot_tests_reference tests : forall l s,
  boot_tests tests (mkBootChecker l Phase_IpcSystem) s =
    let! r := run_seq tests s in Ret (mkBootChecker (l ++ (boot_result <$> r.1)) Phase_IpcSystem, r.2).
Proof.
  induction tests as [|t tests IH]; intros l s; simpl; [by rewrite app_nil_r|].
  destruct (TestCase_run t s) as [[r s1]|] eqn:Er; [|done]. rewrite !bind_ret. cbn [fst snd].
  unfold add_result. cbn [test_results current_phase]. rewrite IH.
  destruct (run_seq tests s1) as [[rs s2]|]; [|done]. simpl. unfold boot_result.
  rewrite (TestCase_run_name _ _ _ _ Er). by rewrite <- (assoc_L (++)).
Qed.

Lemma run_seq_app (l1 l2 : list (TestCase W)) : forall s,
  run_seq (l1 ++ l2) s =
    let! r1 := run_seq l1 s in let! r2 := run_seq l2 r1.2 in Ret (r1.1 ++ r2.1, r2.2).
Proof.
  induction l1 as [|t l1 IH]; intros s; simpl; [by destruct (run_seq l2 s) as [[]|]|].
  destruct (TestCase_run t s) as [[r s1]|]; [|done]. rewrite !bind_ret, IH. simpl.
  destruct (run_seq l1 s1) as [[rs s2]|]; [|done]. rewrite !bind_ret. cbn [fst snd].
  by destruct (run_seq l2 s2) as [[]|].
Qed.

Lemma boot_suites_reference suites : forall l s,
  boot_suites suites (mkBootChecker l Phase_IpcSystem) s =
    let! r := run_seq (suites ≫= ts_tests) s in
    Ret (mkBootChecker (l ++ (boot_result <$> r.1)) Phase_IpcSystem, r.2).
Proof.
  induction suites as [|su suites IH]; intros l s; csimpl; [by rewrite app_nil_r|].
  rewrite boot_tests_reference, run_seq_app.
  destruct (run_seq (ts_tests su) s) as [[rs s1]|]; [|done]. rewrite !bind_ret. cbn [fst snd]. rewrite IH.
  destruct (run_seq (suites ≫= ts_tests) s1) as [[rs2 s2]|]; [|done]. simpl.
  by rewrite fmap_app, <- (assoc_L (++)).
Qed.

(** The fixed checks pass; a process id is unsigned. *)
Lemma basic_system_ok :
  test_basic_system BootChecker_new = (Ok tt, mkBootChecker (take 3 fixed_results) Phase_BasicSystem).
Proof. by vm_compute. Qed.
Lemma memory_allocation_ok :
  test_memory_allocation (mkBootChecker (take 3 fixed_results) Phase_BasicSystem) =
    (Ok tt, mkBootChecker (take 5 fixed_results) Phase_MemoryAllocation).
Proof. by vm_compute. Qed.
Lemma process_creation_ok pid :
  0 <= pid -> test_process_creation pid (mkBootChecker (take 5 fixed_results) Phase_MemoryAllocation) =
    (Ok tt, mkBootChecker (take 7 fixed_results) Phase_ProcessCreation).
Proof. intros Hp%Z.leb_le. unfold test_process_creation, test_pid_system. by rewrite Hp. Qed.
Lemma syscalls_ok pid :
  0 <= pid -> test_syscalls pid (mkBootChecker (take 7 fixed_results) Phase_ProcessCreation) =
    (Ok tt, mkBootChecker fixed_results Phase_Syscalls).
Proof. intros Hp%Z.leb_le. unfold test_syscalls, test_current_pid. by rewrite Hp. Qed.

Lemma run_boot_checks_reference s :
  0 <= current_process_id (kernel s) ->
  run_boot_checks s =
    let! r := run_seq all_tests s in
    Ret (Ok (mkBootChecker (fixed_results ++ (boot_result <$> r.1)) Phase_IpcSystem), r.2).
Proof.
  intros Hp. unfold run_boot_checks, run_all_checks.
  rewrite basic_system_ok, memory_allocation_ok, process_creation_ok, syscalls_ok by done.
  unfold run_comprehensive_tests, set_phase. cbn [test_results]. rewrite boot_suites_reference.
  by destruct (run_seq _ s) as [[rs s1]|].
Qed.

Lemma boot_all_passed rs p :
  BootChecker_all_passed (mkBootChecker (fixed_results ++ (boot_result <$> rs)) p) = true <->
  Forall (fun r => er_success r = true) rs.
Proof.
  unfold BootChecker_all_passed. cbn [test_results]. rewrite forallb_app. simpl.
  induction rs as [|r rs IH]; csimpl; [done|]. rewrite Forall_cons, <- IH. unfold boot_result. simpl.
  by rewrite andb_true_iff.
Qed.

Lemma failed_nil_iff c : get_failed_tests c = [] <-> BootChecker_all_passed c = true.
Proof.
  unfold get_failed_tests, BootChecker_all_passed. induction (test_results c) as [|r l IH]; simpl; [done|].
  destruct (bt_passed r); simpl; [done|]. by split.
Qed.
End BootCheck.

(* ------------------------------------------------------------------ *)
(** ** Properties *)

(** C28: what the boot checks record.  [run_boot_checks] is the run of all tests
    of all suites in order: unless a test panics it answers [Ok] with nine
    passed results for the fixed checks followed by one result per test, in
    order and in the last phase.  It never answers an error, not even when
    tests fail; but [all_passed] of the checker, which the boot sequence tests,
    holds exactly when every test succeeded, that is when no test is listed by
    [get_failed_tests]. *)
Theorem boot_checks_record_all {W} (current_process_id : W -> Z) (test_suites : list (TestSuite W))
    (s : tstate W) :
  0 <= current_process_id (kernel s) ->
  run_boot_checks current_process_id test_suites s =
    (let! r := run_seq (all_tests test_suites) s in
     Ret (Ok (mkBootChecker (fixed_results ++ (boot_result <$> r.1)) Phase_IpcSystem), r.2)) /\
  (forall c s', run_boot_checks current_process_id test_suites s = Ret (Ok c, s') ->
     exists rs, run_seq (all_tests test_suites) s = Ret (rs, s') /\
       (BootChecker_all_passed c = true <-> Forall (fun r => er_success r = true) rs) /\
       (BootChecker_all_passed c = true <-> get_failed_tests c = [])).
Proof.
  intros Hp. pose proof (run_boot_checks_reference current_process_id test_suites s Hp) as Hr.
  split; [done|]. intros c s' E. rewrite Hr in E. inv_ret. destruct x as [rs s1]. simplify_eq.
  exists rs. split; [done|]. split; [apply boot_all_passed|]. symmetry. apply failed_nil_iff.
Qed.

Lemma boot_checks_record_all_witness :
  exists c s', run_boot_checks (fun _ => 0) [small_suite] (mkTState 0 []) = Ret (Ok c, s') /\
    BootChecker_all_passed c = false /\
    (exists rs, run_seq (ts_tests small_suite) (mkTState 0 []) = Ret (rs, s') /\ length rs = 2%nat).
Proof.
  destruct (boot_checks_record_all (fun _ => 0) [small_suite] (mkTState 0 [])) as [E H]; [simpl; lia|].
  destruct (run_boot_checks (fun _ => 0) [small_suite] (mkTState 0 [])) as [[[c|e] s']|] eqn:Er.
  - destruct (H c s' eq_refl) as (rs & Hrs & _). exists c, s'. split; [reflexivity|].
    vm_compute in Er. injection Er as <- <-. split; [reflexivity|].
    exists rs. split; [exact Hrs|]. vm_compute in Hrs. injection Hrs as <-. reflexivity.
  - vm_compute in Er. discriminate Er.
  - vm_compute in Er. discriminate Er.
Defined.
