(* ===== verification/Tables.v ===== *)
(** * Tables: descriptor tables and system-call registers

    The task state segment and the global descriptor table of src/src/gdt.rs,
    the interrupt table and the short handlers of src/src/interrupts.rs, and
    [syscall::init] of src/src/syscall.rs.  How a selector is formed and which
    selectors the STAR register accepts is the [x86_64] crate's and is stated
    as laws; what the processor does with the registers is the definitions
    [syscall_segments], [sysret_segments] and [deliver]. *)

From stdpp Require Import base numbers list.
From S2P Require Import Prelude Mem X86 Scheduler Interrupts UserMode Keyboard.
Local Open Scope Z_scope.
Local Open Scope ruix_scope.

(* ------------------------------------------------------------------ *)
(** ** What the crate provides *)

(** [Descriptor]: the five segments the kernel asks for. *)
Inductive Descriptor : Type :=
| kernel_code_segment | kernel_data_segment | user_data_segment | user_code_segment | tss_segment.

(** Privilege level and number of table entries of a descriptor. *)
Definition descriptor_dpl (d : Descriptor) : Z :=
  match d with user_data_segment | user_code_segment => 3 | _ => 0 end.
Definition descriptor_slots (d : Descriptor) : Z := match d with tss_segment => 2 | _ => 1 end.

(** [GlobalDescriptorTable]: eight entries, the first one null. *)
Class GdtTable (G : Type) := {
  gdt_new : G;
  gdt_add_entry : Descriptor -> G -> outcome (Z * G);
  gdt_len : G -> Z
}.
Class GdtTableLaws (G : Type) `{GdtTable G} : Prop := {
  gdt_new_len : gdt_len gdt_new = 1;
  gdt_add_entry_law d g :
    match gdt_add_entry d g with
    | Ret (sel, g') => gdt_len g + descriptor_slots d <= 8 /\
        sel = 8 * gdt_len g + descriptor_dpl d /\ gdt_len g' = gdt_len g + descriptor_slots d
    | Panic => 8 < gdt_len g + descriptor_slots d
    end
}.

(** [Star::write]: checks the selectors, then writes the register. *)
Class StarRegister := star_write : Z -> Z -> Z -> Z -> result unit Z.
Class StarLaws `{StarRegister} : Prop := star_write_law cs_sysret ss_sysret cs_syscall ss_syscall :
  star_write cs_sysret ss_sysret cs_syscall ss_syscall =
    if (cs_sysret - 16 =? ss_sysret - 8) && (cs_syscall =? ss_syscall - 8) &&
       (ss_sysret mod 4 =? 3) && (ss_syscall mod 4 =? 0)
    then Ok ((ss_sysret - 8) * 2 ^ 48 + cs_syscall * 2 ^ 32) else Err tt.

(* ------------------------------------------------------------------ *)
(** ** gdt.rs *)

Definition DOUBLE_FAULT_IST_INDEX : Z := 0.
Definition STACK_SIZE : Z := 4096 * 5.

Record TaskStateSegment : Type := mkTSS {
  privilege_stack_0 : Z;
  interrupt_stack_0 : Z
}.

Section Gdt.
Context `{X86Addr} {G : Type} `{GdtTable G}.

(** The static [TSS]; the arguments are the addresses of its two stacks. *)
Definition TSS_static (stack0 stack1 : Z) : outcome TaskStateSegment :=
  let! top0 := VirtAddr_add stack0 STACK_SIZE in
  let! top1 := VirtAddr_add stack1 STACK_SIZE in
  Ret (mkTSS top0 top1).

(** [kernel_stack_top] *)
Definition gdt_kernel_stack_top (tss : TaskStateSegment) : Z := privilege_stack_0 tss.

(** The static [GDT] *)
Definition GDT_static : outcome (G * Selectors) :=
  let gdt := gdt_new in
  let! r := gdt_add_entry kernel_code_segment gdt in
  let '(code, gdt) := r in
  let! r := gdt_add_entry kernel_data_segment gdt in
  let '(data, gdt) := r in
  let! r := gdt_add_entry user_data_segment gdt in
  let '(user_data, gdt) := r in
  let! r := gdt_add_entry user_code_segment gdt in
  let '(user_code, gdt) := r in
  let! r := gdt_add_entry tss_segment gdt in
  let '(tss, gdt) := r in
  Ret (gdt, mkSelectors code data user_code user_data tss).

(** The segment registers [gdt::init] loads. *)
Record SegmentRegisters : Type := mkSegments { CS_reg : Z; SS_reg : Z; TR_reg : Z }.
Definition gdt_init (sel : Selectors) : SegmentRegisters :=
  mkSegments (code_selector sel) (data_selector sel) (tss_selector sel).
End Gdt.

(* ------------------------------------------------------------------ *)
(** ** [syscall::init] *)

Definition INTERRUPT_FLAG : Z := 0x200.
Definition DIRECTION_FLAG : Z := 0x400.

Record Msrs : Type := mkMsrs {
  EFER_SCE : bool;
  SFMASK : Z;
  GS_BASE : Z;
  KERNEL_GS_BASE : Z;
  STAR : Z;
  LSTAR : Z
}.

Definition set_kernel_stack_top (top : Z) (mc : Machine) : Machine :=
  mkMachine (mkCpuData (user_rsp (CPU_DATA mc)) top (current_process_id (CPU_DATA mc)) (tss_ptr (CPU_DATA mc)))
    (CR3 mc).

(** [cpu_data] and [handler] are the addresses of [CPU_DATA] and of
    [asm_syscall_handler]. *)
Definition syscall_init `{X86Addr, StarRegister} (tss : TaskStateSegment) (selectors : Selectors)
    (cpu_data handler : Z) (mc : Machine) (r : Msrs) : outcome (Machine * Msrs) :=
  let r := mkMsrs true INTERRUPT_FLAG (GS_BASE r) (KERNEL_GS_BASE r) (STAR r) (LSTAR r) in
  let mc := set_kernel_stack_top (gdt_kernel_stack_top tss) mc in
  let! gs := VirtAddr_new cpu_data in
  let r := mkMsrs (EFER_SCE r) (SFMASK r) gs gs (STAR r) (LSTAR r) in
  match star_write (Z.lor (user_code_selector selectors) 3) (Z.lor (user_data_selector selectors) 3)
          (code_selector selectors) (data_selector selectors) with
  | Err _ => Panic
  | Ok star =>
      let! entry := VirtAddr_new handler in
      Ret (mc, mkMsrs (EFER_SCE r) (Z.lor INTERRUPT_FLAG DIRECTION_FLAG) (GS_BASE r) (KERNEL_GS_BASE r) star entry)
  end.

(** The code and stack segments the processor takes from STAR. *)
Definition syscall_segments (star : Z) : Z * Z :=
  let base := Z.shiftr star 32 mod 2 ^ 16 in (base, base + 8).
Definition sysret_segments (star : Z) : Z * Z :=
  let base := Z.shiftr star 48 mod 2 ^ 16 in (Z.lor (base + 16) 3, Z.lor (base + 8) 3).

(* ------------------------------------------------------------------ *)
(** ** interrupts.rs *)

Inductive handler : Type :=
| breakpoint_handler | page_fault_handler | double_fault_handler
| timer_handler | keyboard_handler | syscall_handler_80.

(** An entry of the interrupt table; [set_handler_fn] and [set_handler_addr]
    leave its privilege level at 0. *)
Record gate : Type := mkGate { g_handler : handler; g_ist : option Z; g_dpl : Z }.

Definition InterruptDescriptorTable : Type := Z -> option gate.
Definition idt_new : InterruptDescriptorTable := fun _ => None.
Definition set_handler (vector : Z) (h : handler) (idt : InterruptDescriptorTable) : InterruptDescriptorTable :=
  fun v => if v =? vector then Some (mkGate h None 0) else idt v.
Definition set_stack_index (vector index : Z) (idt : InterruptDescriptorTable) : InterruptDescriptorTable :=
  fun v => if v =? vector then (fun g => mkGate (g_handler g) (Some index) (g_dpl g)) <$> idt v else idt v.

(** The static [IDT]; breakpoint, double fault and page fault are the vectors
    3, 8 and 14. *)
Definition IDT_static : InterruptDescriptorTable :=
  let idt := idt_new in
  let idt := set_handler 3 breakpoint_handler idt in
  let idt := set_handler 14 page_fault_handler idt in
  let idt := set_stack_index 8 DOUBLE_FAULT_IST_INDEX (set_handler 8 double_fault_handler idt) in
  let idt := set_handler (InterruptIndex_as_u8 Timer) timer_handler idt in
  let idt := set_handler (InterruptIndex_as_u8 Interrupts.Keyboard) keyboard_handler idt in
  set_handler 0x80 syscall_handler_80 idt.

(** The end of an exception handler: [hlt_loop], or a panic. *)
Inductive handler_end : Type := Ends_in_hlt_loop | Ends_in_panic.
Definition exception_end (h : handler) : option handler_end :=
  match h with
  | breakpoint_handler | page_fault_handler => Some Ends_in_hlt_loop
  | double_fault_handler => Some Ends_in_panic
  | _ => None
  end.

(** Which handler the processor runs: for [int n] the gate's level must allow
    the caller's; a fault without a usable gate becomes a double fault. *)
Definition deliver (idt : InterruptDescriptorTable) (software : bool) (cpl vector : Z) : option handler :=
  match idt vector with
  | Some g => if software && (g_dpl g <? cpl) then
                match idt 13 with Some gp => Some (g_handler gp) | None => g_handler <$> idt 8 end
              else Some (g_handler g)
  | None => g_handler <$> idt 8
  end.

(** [send_timer_eoi]: the vector acknowledged. *)
Definition send_timer_eoi : Z := InterruptIndex_as_u8 Timer.

(** [keyboard_interrupt_handler] with the byte read from port 0x60: the
    scancode queue of Keyboard.v, the task woken, the vector acknowledged. *)
Definition keyboard_interrupt_handler {Q W} `{ArrayQueue Q, AtomicWaker W} (port_0x60 : Z)
    (k : keyboard_state Q W) : option nat * keyboard_state Q W * Z :=
  let '(_, woken, k) := add_keyboard_scancode port_0x60 k in
  (woken, k, InterruptIndex_as_u8 Interrupts.Keyboard).

(* ------------------------------------------------------------------ *)
(** ** Instances of the crate's classes *)

#[export] Instance vector_gdt : GdtTable Z := {|
  gdt_new := 1;
  gdt_add_entry d n :=
    if n + descriptor_slots d <=? 8 then Ret (8 * n + descriptor_dpl d, n + descriptor_slots d) else Panic;
  gdt_len n := n
|}.
#[export] Instance vector_gdt_laws : GdtTableLaws Z.
Proof. split; [done|]. intros d n. simpl. destruct (Z.leb_spec (n + descriptor_slots d) 8); done. Qed.

#[export] Instance checked_star : StarRegister := fun cs_sysret ss_sysret cs_syscall ss_syscall =>
  if (cs_sysret - 16 =? ss_sysret - 8) && (cs_syscall =? ss_syscall - 8) &&
     (ss_sysret mod 4 =? 3) && (ss_syscall mod 4 =? 0)
  then Ok ((ss_sysret - 8) * 2 ^ 48 + cs_syscall * 2 ^ 32) else Err tt.
#[export] Instance checked_star_laws : StarLaws.
Proof. by intros ????. Qed.

(* ------------------------------------------------------------------ *)
(** ** Facts *)

Section TablesFacts.
Context {G : Type} `{GdtTableLaws G}.

Lemma gdt_add_ret d (g : G) :
  gdt_len g + descriptor_slots d <= 8 ->
  exists g', gdt_add_entry d g = Ret (8 * gdt_len g + descriptor_dpl d, g') /\
    gdt_len g' = gdt_len g + descriptor_slots d.
Proof.
  intros Hl. pose proof (gdt_add_entry_law d g) as Hd. destruct (gdt_add_entry d g) as [[sel g']|]; [|lia].
  destruct Hd as (_ & -> & Hg). by exists g'.
Qed.

(** The selectors the kernel runs with. *)
Definition kernel_selectors : Selectors := mkSelectors 0x08 0x10 0x23 0x1B 0x28.

Lemma GDT_static_selectors : exists g : G, GDT_static = Ret (g, kernel_selectors).
Proof.
  unfold GDT_static. pose proof gdt_new_len as H1.
  destruct (gdt_add_ret kernel_code_segment gdt_new) as (g1 & -> & L1); [simpl; lia|]. rewrite bind_ret.
  destruct (gdt_add_ret kernel_data_segment g1) as (g2 & -> & L2); [simpl in *; lia|]. rewrite bind_ret.
  destruct (gdt_add_ret user_data_segment g2) as (g3 & -> & L3); [simpl in *; lia|]. rewrite bind_ret.
  destruct (gdt_add_ret user_code_segment g3) as (g4 & -> & L4); [simpl in *; lia|]. rewrite bind_ret.
  destruct (gdt_add_ret tss_segment g4) as (g5 & -> & L5); [simpl in *; lia|]. rewrite bind_ret.
  exists g5. rewrite L4, L3, L2, L1, H1. reflexivity.
Qed.
End TablesFacts.

Lemma syscall_init_ret `{X86AddrLaws} `{StarRegister, !StarLaws} tss cpu_data entry mc r :
  0 <= cpu_data < LOW_HALF -> 0 <= entry < LOW_HALF ->
  syscall_init tss kernel_selectors cpu_data entry mc r =
    Ret (set_kernel_stack_top (privilege_stack_0 tss) mc,
         mkMsrs true 0x600 cpu_data cpu_data (0x13 * 2 ^ 48 + 0x08 * 2 ^ 32) entry).
Proof.
  intros Hc He. unfold syscall_init. rewrite (VirtAddr_new_low cpu_data), bind_ret by done.
  rewrite star_write_law. change (Z.lor (user_code_selector kernel_selectors) 3) with 0x23.
  change (Z.lor (user_data_selector kernel_selectors) 3) with 0x1B.
  change (code_selector kernel_selectors) with 0x08. change (data_selector kernel_selectors) with 0x10.
  match goal with |- context [if ?b then Ok _ else Err _] => change b with true end. cbv iota.
  rewrite (VirtAddr_new_low entry) by done. reflexivity.
Qed.

(* ------------------------------------------------------------------ *)
(** ** Properties *)

(** C27: system calls are set up consistently.  The descriptor table is built
    without overflow with the selectors 8, 16, 0x23, 0x1B and 0x28, in an order
    the STAR register accepts, so [syscall::init] does not panic; afterwards
    [syscall] enters the kernel's segments at the assembly entry with interrupts
    masked, [sysret] returns to exactly the user segments of the table, both GS
    bases point to [CPU_DATA], and its stack is the privilege stack of the TSS. *)
Theorem syscall_init_consistent `{X86AddrLaws} {G} `{GdtTableLaws G} `{StarRegister, !StarLaws}
    (stack0 stack1 cpu_data entry : Z) (mc : Machine) (r : Msrs) :
  0 <= stack0 -> stack0 + STACK_SIZE < LOW_HALF -> 0 <= stack1 -> stack1 + STACK_SIZE < LOW_HALF ->
  0 <= cpu_data < LOW_HALF -> 0 <= entry < LOW_HALF ->
  exists (g : G) tss sel mc' r',
    TSS_static stack0 stack1 = Ret tss /\ GDT_static = Ret (g, sel) /\
    syscall_init tss sel cpu_data entry mc r = Ret (mc', r') /\
    syscall_segments (STAR r') = (code_selector sel, data_selector sel) /\
    sysret_segments (STAR r') = (user_code_selector sel, user_data_selector sel) /\
    user_code_selector sel mod 4 = 3 /\ code_selector sel mod 4 = 0 /\
    EFER_SCE r' = true /\ LSTAR r' = entry /\ Z.testbit (SFMASK r') 9 = true /\
    GS_BASE r' = cpu_data /\ KERNEL_GS_BASE r' = cpu_data /\
    kernel_stack_top (CPU_DATA mc') = stack0 + STACK_SIZE /\
    current_process_id (CPU_DATA mc') = current_process_id (CPU_DATA mc).
Proof.
  intros Hs0 Ht0 Hs1 Ht1 Hc He. destruct (GDT_static_selectors (G := G)) as [g Hg].
  assert (Htss : TSS_static stack0 stack1 = Ret (mkTSS (stack0 + STACK_SIZE) (stack1 + STACK_SIZE))).
  { unfold TSS_static. assert (0 <= STACK_SIZE) by done.
    by rewrite (VirtAddr_add_low stack0), bind_ret, (VirtAddr_add_low stack1), bind_ret by done. }
  exists g. eexists _, _, _, _. split; [exact Htss|]. split; [exact Hg|].
  split; [by apply syscall_init_ret|]. by split_and!.
Qed.

Lemma syscall_init_consistent_witness :
  exists (g : Z) tss sel mc' r',
    TSS_static 0x200000 0x210000 = Ret tss /\ GDT_static = Ret (g, sel) /\
    syscall_init tss sel 0x300000 0x201000 (mkMachine CPU_DATA_init 0) (mkMsrs false 0 0 0 0 0) = Ret (mc', r') /\
    sysret_segments (STAR r') = (0x23, 0x1B) /\ kernel_stack_top (CPU_DATA mc') = 0x205000.
Proof.
  destruct (syscall_init_consistent (G := Z) 0x200000 0x210000 0x300000 0x201000
    (mkMachine CPU_DATA_init 0) (mkMsrs false 0 0 0 0 0))
    as (g & tss & sel & mc' & r' & E1 & E2 & E3 & _ & E4 & _ & _ & _ & _ & _ & _ & _ & E5 & _);
    try (unfold STACK_SIZE, LOW_HALF; lia).
  exists g, tss, sel, mc', r'. split; [exact E1|]. split; [exact E2|]. split; [exact E3|].
  vm_compute in E2. injection E2 as <- <-. split; [exact E4|exact E5].
Defined.

(** C39: user code cannot call the kernel through [int].  The interrupt table has
    a handler for exactly the vectors 3, 8, 14, 32, 33 and 0x80, all at level 0;
    so a software interrupt of user code on any vector, 0x80 included, ends in
    the double-fault handler, on its own stack, which panics, and so does every
    processor exception other than breakpoint, page fault and double fault. *)
Theorem user_interrupts_double_fault (vector : Z) :
  (is_Some (IDT_static vector) <-> vector ∈ [3; 8; 14; 32; 33; 0x80]) /\
  deliver IDT_static true 3 vector = Some double_fault_handler /\
  (forall g, IDT_static vector = Some g -> g_dpl g = 0 /\ (g_ist g = Some 0 <-> vector = 8)) /\
  (0 <= vector < 32 -> vector ∉ [3; 8; 14] -> forall cpl,
     deliver IDT_static false cpl vector = Some double_fault_handler) /\
  exception_end double_fault_handler = Some Ends_in_panic.
Proof.
  assert (Hcases : vector ∈ [3; 8; 14; 32; 33; 0x80] \/ IDT_static vector = None).
  { unfold IDT_static, set_stack_index, set_handler, idt_new, InterruptIndex_as_u8, PIC_1_OFFSET.
    rewrite !elem_of_cons. repeat (case_match; bool_to_prop; simplify_eq/=; [auto 10|]). by right. }
  unfold deliver. rewrite !elem_of_cons in *. setoid_rewrite elem_of_nil in Hcases. setoid_rewrite elem_of_nil.
  destruct Hcases as [Hv|Hv].
  - destruct_or! Hv; subst; split_and!; try done; try (intros; simplify_eq; naive_solver lia);
      split; intros; try (by eexists); try naive_solver lia; auto 10.
    all: match goal with E : IDT_static _ = Some _ |- _ => vm_compute in E; injection E as <- end.
    all: first [done | split; [done || discriminate|done || lia]].
  - rewrite Hv. split_and!; try done. split; [by intros [? ?]|]. intros Hw. destruct_or! Hw; subst; done.
Qed.
