(* ===== verification/Serial.v ===== *)
(** * Serial: the serial port (src/src/serial.rs)

    The port belongs to the [uart_16550] crate; the model keeps the bytes
    handed to its [write_str], in order, as Console.v does.  [serial::init]
    prints one line through the console, which copies it to the port, and one
    on the port alone. *)

From stdpp Require Import base numbers list strings.
From S2P Require Import Prelude Console.
Local Open Scope Z_scope.
Local Open Scope ruix_scope.

(** The bytes of a literal. *)
Definition str (s : string) : list Z := (fun c => Z.of_N (Ascii.N_of_ascii c)) <$> String.list_ascii_of_string s.

(** [serial::_print]: [write_fmt] hands the pieces over one by one. *)
Definition serial_print (args : list (list Z)) (SERIAL1 : list Z) : list Z :=
  foldl (fun sent piece => sent ++ piece) SERIAL1 args.

(** [serial_println!]: the format string with a newline appended to it. *)
Definition serial_println (args : list (list Z)) (SERIAL1 : list Z) : list Z :=
  serial_print (args ++ [[0x0A]]) SERIAL1.

Definition serial_write_str (s : list Z) (SERIAL1 : list Z) : list Z := serial_print [s] SERIAL1.

(** [write_byte]: a byte that is no character by itself is sent as ["?"]. *)
Definition serial_write_byte (byte : Z) (SERIAL1 : list Z) : list Z :=
  SERIAL1 ++ (if utf8_valid [byte] then [byte] else str "?").

Definition INITIALIZING : list Z := str "Serial port initializing..." ++ [0x0A].
Definition INITIALIZED : list Z := str "Serial port initialized" ++ [0x0A].

(** [serial::init] *)
Definition serial_init (w : Writer) (SERIAL1 : list Z) : outcome (Writer * list Z) :=
  let! r := vga_print [INITIALIZING] w SERIAL1 in
  Ret (r.1, serial_print [INITIALIZED] r.2).

Lemma serial_print_concat args sent : serial_print args sent = sent ++ concat args.
Proof.
  unfold serial_print. revert sent. induction args as [|p args IH]; intros sent; simpl; [by rewrite app_nil_r|].
  by rewrite IH, <- (assoc_L (++)).
Qed.

Lemma serial_write_byte_spec byte sent :
  is_u8 byte -> serial_write_byte byte sent = sent ++ [if byte <? 0x80 then byte else 0x3F].
Proof.
  intros Hb. unfold serial_write_byte. f_equal. unfold is_u8 in Hb.
  destruct (Z.ltb_spec byte 0x80) as [Hl|Hl].
  - rewrite utf8_ascii; [done|]. repeat constructor; lia.
  - replace (utf8_valid [byte]) with false; [done|]. symmetry. unfold utf8_valid. simpl.
    repeat (case_match; bool_to_prop; try done; try lia).
Qed.

(** The first line reaches screen and port, the second one the port only. *)
Lemma serial_init_spec w t sent :
  console_rep w t ->
  exists w', serial_init w sent = Ret (w', sent ++ INITIALIZING ++ INITIALIZED) /\
    console_rep w' (t_write (w_color_code w) INITIALIZING t).
Proof.
  intros Hr. destruct (vga_print_spec [INITIALIZING] w t sent Hr) as (w' & E & _ & Hr').
  exists w'. unfold serial_init. rewrite E, bind_ret. cbn [fst snd]. rewrite serial_print_concat.
  split; [|by rewrite concat_cons, app_nil_r in Hr']. by rewrite <- (assoc_L (++)).
Qed.
