(* ===== verification/Boot.v ===== *)
(** * Boot: the boot sequence (src/src/main.rs)

    [kernel_main] over the other components: descriptor tables and registers,
    CPU table, page tables and heap, memory manager, boot checks, the two user
    programs, the first processes and the timer.  The frame allocator and the
    mapper are local variables of [kernel_main]; everything the boot tests can
    reach is the record [statics].  The sequence ends in [hlt_loop] or in the
    call of the first program in kernel mode, after which the code that enters
    user mode stands.  Addresses of statics and functions are arguments. *)

From stdpp Require Import base sets numbers list strings.
From S2P Require Import Prelude Errors Mem X86 Process Scheduler SchedulerProps Timer Syscall Lifecycle.
From S2P Require Import Allocator Memory HeapInit Interrupts UserMode Cpu Scalable Testing BootCheck Tables.
From S2P Require Import Console Serial.
Local Open Scope Z_scope.
Local Open Scope ruix_scope.

(** [jmp $] *)
Definition PROGRAM_1 : list Z := [0xEB; 0xFE].
(** The bytes written for the system-call test. *)
Definition PROGRAM_2 : list Z :=
  [0x48; 0xC7; 0x27; 0x00; 0x00; 0x00; 0x00; 0x00; 0x0F; 0x05;
   0x48; 0xC7; 0x27; 0x00; 0x00; 0x00; 0x00; 0x00; 0x00; 0x00; 0xEB; 0xFE].

(** [write_volatile(dest.add(i), b)] for each byte in order *)
Fixpoint write_volatile_all (dest : Z) (bs : list Z) (m : mem) : outcome mem :=
  match bs with
  | [] => Ret m
  | b :: bs =>
      let! _ := deref 1 dest in
      write_volatile_all (dest + 1) bs (store_bytes m dest [b])
  end.

Inductive halt_reason : Type :=
| Cpu_init_failed (e : KernelError)
| Boot_check_error (e : KernelError)
| Boot_check_failed.

(** The addresses of statics and functions. *)
Record layout : Type := mkLayout {
  l_tss_stack0 : Z;
  l_tss_stack1 : Z;
  l_cpu_data : Z;
  l_syscall_entry : Z;
  l_STACK1 : Z;
  l_STACK2 : Z
}.

Section Boot.
Context `{X86Addr, X86Flags, X86Paging, X86Page, StarRegister} {RT : Type} `{EqDecision RT} (Usable : RT).
Context {Fut HT G : Type} `{FallbackHeap HT, GdtTable G}.

#[local] Instance boot_frames : FrameAllocator (BootInfoFrameAllocator RT) := BootInfo_FrameAllocator Usable.
Context {MP : Mapper (BootInfoFrameAllocator RT)}.

(** The kernel's statics; [scalable_state] holds the memory, the heap and the
    memory manager, whose boxed frame allocator is the empty or a boot one; [st_ports]
    are the bytes written to I/O ports. *)
Record statics : Type := mkStatics {
  st_machine : Machine;
  st_msrs : Msrs;
  st_cpus : CpuManager;
  st_memory : scalable_state (unit + BootInfoFrameAllocator RT) HT;
  st_sched : Scheduler Fut;
  st_counters : counters;
  st_timer : timer_state;
  st_ports : list (Z * Z)
}.
Implicit Types (st : statics).

Definition st_mem st : mem := HEAP_MEM (st_memory st).
Definition with_machine (mc : Machine) (r : Msrs) st : statics :=
  mkStatics mc r (st_cpus st) (st_memory st) (st_sched st) (st_counters st) (st_timer st) (st_ports st).
Definition with_cpus (c : CpuManager) st : statics :=
  mkStatics (st_machine st) (st_msrs st) c (st_memory st) (st_sched st) (st_counters st) (st_timer st) (st_ports st).
Definition with_memory (x : scalable_state (unit + BootInfoFrameAllocator RT) HT) st : statics :=
  mkStatics (st_machine st) (st_msrs st) (st_cpus st) x (st_sched st) (st_counters st) (st_timer st) (st_ports st).
Definition with_mem (m : mem) st : statics := with_memory (with_heap (ALLOCATOR (st_memory st)) m (st_memory st)) st.
Definition with_tasks (s : Scheduler Fut) (c : counters) st : statics :=
  mkStatics (st_machine st) (st_msrs st) (st_cpus st) (st_memory st) s c (st_timer st) (st_ports st).
Definition with_timer (t : timer_state) st : statics :=
  mkStatics (st_machine st) (st_msrs st) (st_cpus st) (st_memory st) (st_sched st) (st_counters st) t (st_ports st).
Definition with_ports (l : list (Z * Z)) st : statics :=
  mkStatics (st_machine st) (st_msrs st) (st_cpus st) (st_memory st) (st_sched st) (st_counters st) (st_timer st)
    (st_ports st ++ l).

(** [init_idt], [gdt::init] and [syscall::init] *)
Definition boot_registers (l : layout) st : outcome statics :=
  let! tss := TSS_static (l_tss_stack0 l) (l_tss_stack1 l) in
  let! g := GDT_static (G := G) in
  let! r := syscall_init tss g.2 (l_cpu_data l) (l_syscall_entry l) (st_machine st) (st_msrs st) in
  Ret (with_machine r.1 r.2 st).

(** [ruix::init] of src/src/lib.rs, which [kernel_main] does not call: the
    console and the port, the statics, the vector offsets of the interrupt
    controllers and the interrupt flag. *)
Definition lib_init (l : layout) (w : Writer) (SERIAL1 : list Z) st
    : outcome (Writer * list Z * statics * (Z * Z) * bool) :=
  let! r := serial_init w SERIAL1 in
  let! st := boot_registers l st in
  Ret (r.1, r.2, with_ports timer_init_writes st, (PIC_1_OFFSET, PIC_2_OFFSET), true).

(** [memory::init], the frame allocator, [init_heap] and [scalable::init]
    with the second frame allocator *)
Definition boot_memory (phys_mem_offset : Z) (mm : list (BootRegion RT)) st
    : outcome (OffsetPageTable * BootInfoFrameAllocator RT * statics) :=
  let! mapper := memory_init (CR3 (st_machine st)) phys_mem_offset in
  let frame_allocator := BootInfoFrameAllocator_init mm in
  let! r := init_heap mapper (st_mem st) frame_allocator (ALLOCATOR (st_memory st)) in
  match r with
  | (Err _, _, _, _) => Panic
  | (Ok _, m, frame_allocator, A) =>
      let frame_allocator2 := BootInfoFrameAllocator_init mm in
      match scalable_init (inl tt) (inr frame_allocator2) (with_heap A m (st_memory st)) with
      | (Err _, _) => Panic
      | (Ok _, x) => Ret (mapper, frame_allocator, with_memory x st)
      end
  end.

(** [frame_allocator.allocate_frame().expect(..)] *)
Definition expect_frame (fa : BootInfoFrameAllocator RT) : outcome (Z * BootInfoFrameAllocator RT) :=
  let! r := allocate_frame fa in
  match r with (Some f, fa) => Ret (f, fa) | (None, _) => Panic end.

(** A frame for the page at [addr], mapped for user mode. *)
Definition map_user_area (addr : Z) (mapper : OffsetPageTable) (m : mem) (fa : BootInfoFrameAllocator RT)
    : outcome (Z * mem * BootInfoFrameAllocator RT) :=
  let! virt := VirtAddr_new addr in
  let page := page_containing virt in
  let! r := expect_frame fa in
  let '(frame, fa) := r in
  let! r := map_user_page page frame mapper m fa in
  Ret (frame, r.1, r.2).

(** The code page and the stack page of the first program. *)
Definition map_first_program (mapper : OffsetPageTable) (m : mem) (fa : BootInfoFrameAllocator RT)
    : outcome (Z * Z * mem * BootInfoFrameAllocator RT) :=
  let! r := map_user_area 0x400000 mapper m fa in
  let '(code_frame, m, fa) := r in
  let! r := map_user_area 0x600000 mapper m fa in
  let '(stack_frame, m, fa) := r in
  Ret (code_frame, stack_frame, m, fa).

(** A program copied to its frame through the physical-memory window. *)
Definition write_program (phys_mem_offset frame : Z) (bs : list Z) (m : mem) : outcome (Z * mem) :=
  let! virt := VirtAddr_add phys_mem_offset frame in
  let! m := write_volatile_all virt bs m in
  Ret (virt, m).

(** What the boot sequence ends in: [hlt_loop], or the call of the first
    program at [virt], with the frames of the user pages. *)
Inductive boot_end : Type :=
| Boot_halts (why : halt_reason) (st : statics)
| Boot_calls (virt code_frame stack_frame code_frame2 : Z) (fa : BootInfoFrameAllocator RT) (st : statics).

(** The programs, the processes and the timer. *)
Definition boot_user (l : layout) (phys_mem_offset : Z) (mapper : OffsetPageTable)
    (fa : BootInfoFrameAllocator RT) st : outcome boot_end :=
  let! r := map_first_program mapper (st_mem st) fa in
  let '(code_frame, stack_frame, m, fa) := r in
  let! r := write_program phys_mem_offset code_frame PROGRAM_1 m in
  let '(virt, m) := r in
  let! r := map_user_area 0x500000 mapper m fa in
  let '(code_frame2, m, fa) := r in
  let! r := write_program phys_mem_offset code_frame2 PROGRAM_2 m in
  let '(_, m) := r in
  let! r := init_tasks (l_STACK1 l) (l_STACK2 l) mapper fa m (st_counters st) (st_sched st) in
  let '(sched, fa, m, c) := r in
  let st := with_tasks sched c (with_mem m st) in
  let st := with_ports timer_init_writes st in
  let test_pid := 1 in
  let t := timer_register_process test_pid (Some 30) (st_timer st) in
  let t := timer_start_user_mode test_pid t in
  Ret (Boot_calls virt code_frame stack_frame code_frame2 fa (with_timer t st)).

(** [kernel_main] up to the call; [physical_memory_offset] and [mm] are of the
    boot information, [test_suites] what [create_all_test_suites] returns. *)
Definition kernel_main (l : layout) (physical_memory_offset : Z) (mm : list (BootRegion RT))
    (test_suites : list (TestSuite statics)) (s : tstate statics) : outcome boot_end :=
  let! st := boot_registers l (kernel s) in
  let! r := cpu_init (st_cpus st) in
  match r with
  | (Err e, c) => Ret (Boot_halts (Cpu_init_failed e) (with_cpus c st))
  | (Ok _, c) =>
      let st := with_cpus c st in
      let! phys_mem_offset := VirtAddr_new physical_memory_offset in
      let! r := boot_memory phys_mem_offset mm st in
      let '(mapper, fa, st) := r in
      let! r := run_boot_checks (fun st => current_process_id (CPU_DATA (st_machine st))) test_suites
                  (mkTState (TIME_COUNTER s) st) in
      match r with
      | (Err e, s) => Ret (Boot_halts (Boot_check_error e) (kernel s))
      | (Ok boot_checker, s) =>
          if negb (BootChecker_all_passed boot_checker) then Ret (Boot_halts Boot_check_failed (kernel s))
          else boot_user l phys_mem_offset mapper fa (kernel s)
      end
  end.

(** The end of [kernel_main], should the call of the first program return. *)
Definition kernel_main_after_call (sel : Selectors) (ksp : Z) st
    : outcome (IretFrame * timer_state * mem) :=
  let! user_code_addr := VirtAddr_new 0x400000 in
  let! user_stack_base := VirtAddr_new 0x600000 in
  let! user_stack_top := VirtAddr_add user_stack_base 4096 in
  jump_to_user_mode sel ksp user_code_addr user_stack_top (st_machine st) (st_timer st) (st_mem st).
End Boot.
Arguments statics RT Fut HT : clear implicits.
Arguments boot_end RT Fut HT : clear implicits.

(* ------------------------------------------------------------------ *)
(** ** Facts *)

Lemma sublist_from_drop {A} (l r : list A) k k' x :
  l !! k = Some x -> (S k <= k')%nat -> sublist r (drop k' l) -> sublist (x :: r) (drop k l).
Proof.
  intros Hx Hk Hr. rewrite (drop_S _ x) by done. apply sublist_skip. etransitivity; [exact Hr|].
  replace k' with (S k + (k' - S k))%nat by lia. rewrite <- drop_drop. apply sublist_drop.
Qed.

Lemma write_volatile_all_spec bs : forall dest m m',
  write_volatile_all dest bs m = Ret m' ->
  (forall i b, bs !! i = Some b -> m' (dest + Z.of_nat i) = b) /\
  (forall x, ~ (dest <= x < dest + Z.of_nat (length bs)) -> m' x = m x).
Proof.
  induction bs as [|b bs IH]; intros dest m m' E; simpl in E; [by simplify_eq|]. inv_ret.
  apply IH in E as [Hin Hout]. split.
  - intros [|i] c Hi; simpl in Hi; simplify_eq.
    + rewrite Z.add_0_r, Hout by lia. replace dest with (dest + Z.of_nat 0) at 2 by lia.
      by apply store_bytes_in.
    + replace (dest + Z.of_nat (S i)) with (dest + 1 + Z.of_nat i) by lia. by apply Hin.
  - intros y Hy. cbn [length] in Hy. rewrite Hout by lia. apply store_bytes_out. simpl. lia.
Qed.

Section BootFacts.
Context `{X86AddrLaws} {RT : Type} `{EqDecision RT} (Usable : RT).
Context `{X86FlagsLaws} `{!X86Paging} `{!X86PagingLaws} `{!X86Page} `{!X86PageLaws}.
Context {Fut HT G : Type} `{FallbackHeap HT} `{GdtTableLaws G} `{StarRegister}.

#[local] Instance boot_fa : FrameAllocator (BootInfoFrameAllocator RT) := BootInfo_FrameAllocator Usable.
Context {MP : Mapper (BootInfoFrameAllocator RT)} {ML : MapperLaws (BootInfoFrameAllocator RT)}.

Variable mm : list (BootRegion RT).
Hypothesis Hmm : memory_map_ok mm.

Local Notation all := (usable_addresses Usable (BootInfoFrameAllocator_init mm)).
Local Notation alloc k := (mkBootInfoFrameAllocator mm (Z.of_nat k)).

Lemma expect_frame_inv k f fa' :
  expect_frame Usable (alloc k) = Ret (f, fa') -> all !! k = Some f /\ fa' = alloc (S k).
Proof.
  intros E. unfold expect_frame in E. inv_ret. destruct x as [[g|] fa1]; simplify_eq.
  match goal with E : allocate_frame _ = _ |- _ => apply (boot_alloc_inv Usable mm Hmm) in E as [? ->] end.
  done.
Qed.

Lemma map_user_page_inv page frame mp m fa m' (fa' : BootInfoFrameAllocator RT) :
  map_user_page page frame mp m fa = Ret (m', fa') ->
  exists m1, map_to page frame USER_FLAGS mp m fa = Ret (Ok tt, m1, fa').
Proof.
  intros E. unfold map_user_page in E. inv_ret. destruct x as [[[[]|e] m1] fa1]; [|done]. inv_ret. simplify_eq.
  eauto.
Qed.

Lemma map_user_area_inv addr mp m k f m' fa' :
  map_user_area Usable addr mp m (alloc k) = Ret (f, m', fa') ->
  all !! k = Some f /\ exists k', fa' = alloc k' /\ (S k <= k')%nat.
Proof.
  intros E. unfold map_user_area in E. inv_ret. destruct x0 as [frame fa1]. inv_ret. destruct x0 as [m1 fa2].
  simplify_eq/=.
  match goal with E : expect_frame _ _ = _ |- _ => apply expect_frame_inv in E as [Hf ->] end.
  match goal with E : map_user_page _ _ _ _ _ = _ |- _ => apply map_user_page_inv in E as [m2 Hmap] end.
  destruct (map_to_allocates _ _ _ _ _ _ _ _ _ Hmap) as (n & fs & Hn).
  apply (boot_allocs_inv Usable mm Hmm) in Hn as ->. split; [done|]. eexists. split; [done|]. lia.
Qed.

Lemma init_tasks_frames st1 st2 mp k m c (s : Scheduler Fut) s' fa' m' c' :
  init_tasks st1 st2 mp (alloc k) m c s = Ret (s', fa', m', c') ->
  exists p1 p2, s' = add_process p2 (add_process p1 s) /\
    p_id p1 = 1 /\ p_id p2 = 2 /\ p_state p1 = Ready /\ p_state p2 = Ready /\
    all !! k = Some (p_page_table_frame p1) /\ all !! S k = Some (p_page_table_frame p2).
Proof.
  intros E. unfold init_tasks in E. inv_ret. destruct x0 as [[[p1 fa1] m1] c1]. inv_ret.
  destruct x0 as [[[p2 fa2] m2] c2]. simplify_eq.
  repeat match goal with E : Process_new _ _ _ _ _ _ _ = _ |- _ =>
    apply Process_new_inv in E as (? & _ & _ & ? & _ & _ & ? & _) end.
  match goal with E : allocate_frame (alloc k) = _ |- _ => apply (boot_alloc_inv Usable mm Hmm) in E as [? ->] end.
  match goal with E : allocate_frame (alloc (S k)) = _ |- _ => apply (boot_alloc_inv Usable mm Hmm) in E as [? ->] end.
  exists p1, p2. repeat match goal with E : ?p = mkProcess _ _ _ _ _ _ _ _ _ _ _ _ _ |- _ =>
    assert (p_id p = 1 /\ p_state p = Ready \/ p_id p = 2 /\ p_state p = Ready) by (rewrite E; auto);
    apply (f_equal p_id) in E end.
  naive_solver.
Qed.

(** A mapped user area, and what was mapped before. *)
Lemma map_user_area_maps cr3 off addr mp m k f m' fa' :
  memory_init cr3 off = Ret mp -> bytes_ok m -> 0 <= addr < LOW_HALF -> addr mod 4096 = 0 ->
  map_user_area Usable addr mp m (alloc k) = Ret (f, m', fa') ->
  bytes_ok m' /\ backed mp m' addr f /\ 0 <= f < 2 ^ 52 /\ f mod 4096 = 0 /\
  (forall a g, backed mp m a g -> backed mp m' a g).
Proof.
  intros Hi Hm Ha Hal E. destruct (map_user_area_inv _ _ _ _ _ _ _ E) as [Hf _].
  destruct (usable_frame_range Usable mm Hmm f) as [Hf1 Hf2]; [by eapply list_elem_of_lookup_2|].
  unfold map_user_area in E. rewrite VirtAddr_new_low, bind_ret in E by done.
  cbv zeta in E. rewrite page_containing_eq, Hal, Z.sub_0_r in E by lia. inv_ret. destruct x as [frame fa1].
  inv_ret. destruct x as [m1 fa2]. simplify_eq/=.
  match goal with E : map_user_page _ _ _ _ _ = _ |- _ => rename E into Hu end.
  destruct (map_user_page_inv _ _ _ _ _ _ _ Hu) as [m2 Hmap].
  destruct (map_user_page_facts cr3 off addr f mp m m2 fa1 _ Hi Hm ltac:(lia) Hal Hf1 Hf2 Hmap)
    as (m3 & p & leaf & E3 & _ & Hm3 & He & Hl & _ & Hkeep).
  rewrite E3 in Hu. simplify_eq. split_and!; [done|by exists p, leaf|lia|lia|done|].
  intros a g (q & l & Hq & Hg). exists q, l. by apply Hkeep.
Qed.

Lemma boot_user_inv l off mp k st e :
  boot_user (Fut := Fut) (HT := HT) Usable l off mp (alloc k) st = Ret e ->
  exists virt code stack code2 fa st' p1 p2, e = Boot_calls virt code stack code2 fa st' /\
    sublist [code; stack; code2; p_page_table_frame p1; p_page_table_frame p2] (drop k all) /\
    st_sched st' = add_process p2 (add_process p1 (st_sched st)) /\
    p_id p1 = 1 /\ p_id p2 = 2 /\ p_state p1 = Ready /\ p_state p2 = Ready /\
    st_timer st' = timer_start_user_mode 1 (timer_register_process 1 (Some 30) (st_timer st)).
Proof.
  intros E. unfold boot_user, map_first_program in E.
  repeat first [progress inv_ret | progress simplify_eq | match goal with x : prod _ _ |- _ => destruct x end].
  match goal with E : map_user_area _ 0x400000 _ _ _ = _ |- _ =>
    apply map_user_area_inv in E as (Hf1 & k1 & -> & Hk1) end.
  match goal with E : map_user_area _ 0x600000 _ _ _ = _ |- _ =>
    apply map_user_area_inv in E as (Hf2 & k2 & -> & Hk2) end.
  match goal with E : map_user_area _ 0x500000 _ _ _ = _ |- _ =>
    apply map_user_area_inv in E as (Hf3 & k3 & -> & Hk3) end.
  match goal with E : init_tasks _ _ _ _ _ _ _ = _ |- _ =>
    apply init_tasks_frames in E as (p1 & p2 & -> & I1 & I2 & S1 & S2 & Hf4 & Hf5) end.
  eexists _, _, _, _, _, _, p1, p2. split; [reflexivity|]. split; [|done].
  repeat (eapply sublist_from_drop; [eassumption|eassumption || apply le_n|]). apply sublist_nil_l.
Qed.

Lemma boot_memory_inv off st mp fa st' :
  bytes_ok (st_mem st) -> boot_memory (Fut := Fut) (HT := HT) Usable off mm st = Ret (mp, fa, st') ->
  exists heap k, fa = alloc k /\ Forall2 (backed mp (st_mem st')) heap_pages heap /\
    sublist heap (take k all) /\ st_cpus st' = st_cpus st /\ st_machine st' = st_machine st /\
    (MEMORY_MANAGER_INIT (st_memory st) = false ->
     GLOBAL_MEMORY_MANAGER (st_memory st') =
       Some (GlobalMemoryManager_init (inr (alloc O)) (GlobalMemoryManager_new (inl tt))) /\
     ALLOCATOR (st_memory st') = FixedSizeBlockAllocator_init HEAP_START HEAP_SIZE (ALLOCATOR (st_memory st))).
Proof.
  intros Hm E. unfold boot_memory in E. inv_ret. rename x into mapper.
  match goal with E : memory_init _ _ = _ |- _ => apply memory_init_aligned in E as Hl end.
  destruct x0 as [[[[[]|e] m1] fa1] A1]; [|done].
  match goal with E : init_heap _ _ _ _ = _ |- _ =>
    apply (init_heap_frames Usable mm Hmm _ _ _ O) in E as (-> & Hm1 & _ & heap & k & HF & -> & _ & Hs); [|done..] end.
  rewrite Nat.sub_0_r, drop_0 in Hs. unfold scalable_init in E. cbn [MEMORY_MANAGER_INIT with_heap] in E.
  destruct (MEMORY_MANAGER_INIT (st_memory st)); simplify_eq; exists heap, k; by split_and!.
Qed.
End BootFacts.

Lemma syscall_init_keeps `{X86Addr, StarRegister} tss sel cd h mc r mc' r' :
  syscall_init tss sel cd h mc r = Ret (mc', r') ->
  current_process_id (CPU_DATA mc') = current_process_id (CPU_DATA mc) /\ CR3 mc' = CR3 mc.
Proof. intros E. unfold syscall_init in E. inv_ret. destruct (star_write _ _ _ _); inv_ret; by simplify_eq. Qed.

Lemma boot_registers_inv `{X86Addr, StarRegister} {RT Fut HT G} `{GdtTable G} l (st st' : statics RT Fut HT) :
  boot_registers (G := G) l st = Ret st' ->
  st_cpus st' = st_cpus st /\ st_memory st' = st_memory st /\
  current_process_id (CPU_DATA (st_machine st')) = current_process_id (CPU_DATA (st_machine st)).
Proof.
  intros E. unfold boot_registers in E. inv_ret. destruct x1 as [mc r].
  match goal with E : syscall_init _ _ _ _ _ _ = _ |- _ => by apply syscall_init_keeps in E as [? _] end.
Qed.

Lemma boot_memory_machine `{X86Addr, X86Flags, X86Page} {RT} `{EqDecision RT} (Usable : RT) {Fut HT}
    `{FallbackHeap HT} {MP : Mapper (BootInfoFrameAllocator RT)} off mm (st : statics RT Fut HT) mp fa st' :
  boot_memory Usable off mm st = Ret (mp, fa, st') -> st_machine st' = st_machine st.
Proof.
  intros E. unfold boot_memory in E. inv_ret. destruct x0 as [[[[u|e] m1] fa1] A1]; [|done].
  by destruct (scalable_init _ _ _) as [[v|e] y]; simplify_eq.
Qed.

Lemma cpu_init_new :
  exists c, cpu_init CpuManager_new = Ret (Ok tt, c) /\
    CpuManager_get_current_cpu c = Ok (PerCpuData_new 0 (KERNEL_STACK_BASE + KERNEL_STACK_SIZE)).
Proof. eexists. split; [vm_compute; reflexivity|]. by vm_compute. Qed.

(** The timer the boot sequence leaves: the first entry of process 1 counts. *)
Lemma boot_timer_armed (t : timer_state) :
  let m := TIMEOUT_MANAGER t in
  armed 1 (current_tick m) (match tm_find 1 m with Some x => pt_limit x | None => 30 end) 0
    (TIMEOUT_MANAGER (timer_start_user_mode 1 (timer_register_process 1 (Some 30) t))).
Proof.
  intros m. pose proof (start_armed 1 (TimeoutManager_register_process 1 (Some 30) m)) as Ha.
  unfold limit_of in Ha. replace (match tm_find 1 m with Some x => pt_limit x | None => 30 end) with
    (match tm_find 1 (TimeoutManager_register_process 1 (Some 30) m) with
     | Some e => pt_limit e | None => DEFAULT_TIMEOUT_LIMIT end); [exact Ha|].
  unfold tm_find, TimeoutManager_register_process. cbn [set_tm_processes tm_processes].
  destruct (tbl_get pt_pid 1 (tm_processes m)) as [x|] eqn:Et.
  - by rewrite tbl_get_app_l, Et by by rewrite Et.
  - apply tbl_get_none in Et. by rewrite (tbl_get_app_new pt_pid _ (ProcessTimeout_new 1 30)).
Qed.

Lemma kernel_main_inv `{X86AddrLaws} {RT} `{EqDecision RT} (Usable : RT) `{X86FlagsLaws} `{!X86Paging}
    `{!X86PagingLaws} `{!X86Page} `{!X86PageLaws} {Fut HT G} `{FallbackHeap HT} `{GdtTableLaws G} `{StarRegister}
    {MP : Mapper (BootInfoFrameAllocator RT)} l off mm suites (s : tstate (statics RT Fut HT)) e :
  st_cpus (kernel s) = CpuManager_new -> 0 <= current_process_id (CPU_DATA (st_machine (kernel s))) ->
  kernel_main (G := G) Usable l off mm suites s = Ret e ->
  exists st0 off' mp fa st1 rs s2,
    st_mem st0 = st_mem (kernel s) /\ st_memory st0 = st_memory (kernel s) /\
    CpuManager_get_current_cpu (st_cpus st0) = Ok (PerCpuData_new 0 (KERNEL_STACK_BASE + KERNEL_STACK_SIZE)) /\
    boot_memory Usable off' mm st0 = Ret (mp, fa, st1) /\
    run_seq (all_tests suites) (mkTState (TIME_COUNTER s) st1) = Ret (rs, s2) /\
    ((~ Forall (fun r => er_success r = true) rs /\ e = Boot_halts Boot_check_failed (kernel s2)) \/
     (Forall (fun r => er_success r = true) rs /\ boot_user Usable l off' mp fa (kernel s2) = Ret e)).
Proof.
  intros Hc Hp E. unfold kernel_main in E. inv_ret. rename x into st.
  match goal with E : boot_registers _ _ = _ |- _ => apply boot_registers_inv in E as (Hc1 & Hm1 & Hp1) end.
  rewrite Hc1, Hc in *.
  destruct cpu_init_new as (c & Hcpu & Hcur).
  match goal with E : cpu_init _ = Ret _ |- _ => rewrite Hcpu in E; injection E as <- end.
  inv_ret. destruct x0 as [[mp fa] st1]. inv_ret.
  match goal with E : boot_memory _ _ _ _ = _ |- _ =>
    pose proof (boot_memory_machine _ _ _ _ _ _ _ E) as Hmc end.
  match goal with E : run_boot_checks _ _ _ = _ |- _ =>
    rewrite run_boot_checks_reference in E by (cbn [kernel]; rewrite Hmc; cbn [with_cpus st_machine]; lia) end.
  inv_ret. match goal with r : prod (list _) _ |- _ => destruct r as [rs s2] end. simplify_eq.
  exists (with_cpus c st), x, mp, fa, st1, rs, s2. unfold st_mem. cbn [with_cpus st_memory st_cpus].
  rewrite Hm1. split_and!; try done.
  destruct (BootChecker_all_passed _) eqn:Hall; simpl in E; [right|left].
  - split; [|done]. by apply boot_all_passed in Hall.
  - split; [|by simplify_eq]. intros Hf%(boot_all_passed _ Phase_IpcSystem).
    assert (true = false); [|done]. rewrite <- Hf. exact Hall.
Qed.

(* ------------------------------------------------------------------ *)
(** ** Properties *)

(** C9: what the boot leads to.  Whenever [kernel_main] gets to its end without
    a panic, CPU 0 is registered, the boot tests have run on the kernel with
    its heap, and: if a test failed the kernel halts, otherwise it calls the
    first program, with processes 1 and 2 ready behind whatever the tests left
    in the table, the timer armed for process 1 (with its limit of 30 ticks
    unless the tests registered another one), and the 25 frames of the heap,
    the frames of the three user pages and of the two page tables pairwise
    distinct frames of the usable memory. *)
Theorem boot_sequence `{X86AddrLaws} {RT} `{EqDecision RT} (Usable : RT) `{X86FlagsLaws} `{!X86Paging}
    `{!X86PagingLaws} `{!X86Page} `{!X86PageLaws} {Fut HT G} `{FallbackHeap HT} `{GdtTableLaws G} `{StarRegister}
    {MP : Mapper (BootInfoFrameAllocator RT)} {ML : MapperLaws (BootInfoFrameAllocator RT) (H2 := BootInfo_FrameAllocator Usable)}
    (l : layout) (off : Z) (mm : list (BootRegion RT)) (suites : list (TestSuite (statics RT Fut HT)))
    (s : tstate (statics RT Fut HT)) (e : boot_end RT Fut HT) :
  memory_map_ok mm -> bytes_ok (st_mem (kernel s)) -> st_cpus (kernel s) = CpuManager_new ->
  0 <= current_process_id (CPU_DATA (st_machine (kernel s))) ->
  kernel_main (G := G) Usable l off mm suites s = Ret e ->
  exists mp st1 rs s2,
    CpuManager_get_current_cpu (st_cpus st1) = Ok (PerCpuData_new 0 (KERNEL_STACK_BASE + KERNEL_STACK_SIZE)) /\
    run_seq (all_tests suites) (mkTState (TIME_COUNTER s) st1) = Ret (rs, s2) /\
    match e with
    | Boot_halts why st =>
        why = Boot_check_failed /\ st = kernel s2 /\ ~ Forall (fun r => er_success r = true) rs
    | Boot_calls _ code stack code2 _ st =>
        Forall (fun r => er_success r = true) rs /\
        exists heap p1 p2,
          Forall2 (backed mp (st_mem st1)) heap_pages heap /\
          let frames := heap ++ [code; stack; code2; p_page_table_frame p1; p_page_table_frame p2] in
          NoDup frames /\
          (forall f, f ∈ frames -> f ∈ usable_addresses Usable (BootInfoFrameAllocator_init mm)) /\
          st_sched st = add_process p2 (add_process p1 (st_sched (kernel s2))) /\
          p_id p1 = 1 /\ p_id p2 = 2 /\ p_state p1 = Ready /\ p_state p2 = Ready /\
          let t2 := TIMEOUT_MANAGER (st_timer (kernel s2)) in
          armed 1 (current_tick t2) (match tm_find 1 t2 with Some x => pt_limit x | None => 30 end) 0
            (TIMEOUT_MANAGER (st_timer st))
    end.
Proof.
  intros Hmm Hb Hc Hp E.
  destruct (kernel_main_inv Usable l off mm suites s e Hc Hp E)
    as (st0 & off' & mp & fa & st1 & rs & s2 & Hm0 & _ & Hcpu & Eb & Hrs & Hend).
  rewrite <- Hm0 in Hb. destruct (boot_memory_inv Usable mm Hmm off' st0 mp fa st1 Hb Eb)
    as (heap & k & -> & HF & Hs & Hcs & _).
  exists mp, st1, rs, s2. rewrite Hcs. split; [done|]. split; [done|].
  destruct Hend as [[Hf ->]|[Hall Eu]]; [done|].
  apply (boot_user_inv Usable mm Hmm) in Eu
    as (virt & code & stack & code2 & fa' & st' & p1 & p2 & -> & Hsub & Hsch & I1 & I2 & S1 & S2 & Ht).
  split; [done|]. exists heap, p1, p2. split; [done|]. cbv zeta.
  pose proof (sublist_app _ _ _ _ Hs Hsub) as Hsl. rewrite take_drop in Hsl.
  split; [apply (sublist_NoDup _ _ (NoDup_usable Usable mm Hmm) Hsl)|].
  split; [intros f Hf; by eapply elem_of_sublist|]. split_and!; try done.
  rewrite Ht. apply boot_timer_armed.
Qed.

(** Page tables that lead to the heap area and to the user pages, one usable
    region, one suite with one test. *)
Definition demo_boot_tables : mem :=
  store64 (store64 (store64 (store64 demo_heap_tables (demo_off + 0x1000) 0x5003)
    (demo_off + 0x5000) 0x6003) (demo_off + 0x6000 + 8 * 2) 0x7003) (demo_off + 0x6000 + 8 * 3) 0x8003.

Lemma demo_boot_tables_ok : bytes_ok demo_boot_tables.
Proof. by do 4 apply bytes_ok_store64; apply demo_heap_tables_ok. Qed.

Definition demo_statics : statics bool unit BumpHeap :=
  mkStatics (mkMachine CPU_DATA_init 0x1000) (mkMsrs false 0 0 0 0 0) CpuManager_new
    (mkScalable false None FixedSizeBlockAllocator_new demo_boot_tables) SCHEDULER_init counters_init
    timer_state_init [].
Definition demo_layout : layout := mkLayout 0x210000 0x220000 0x230000 0x201000 0x240000 0x250000.
Definition demo_suites (ok : bool) : list (TestSuite (statics bool unit BumpHeap)) :=
  [mkTestSuite "suite"%string [TestCase_new "test"%string ""%string Category_Unit
     (fun s => Ret (if ok then Ok tt else Err TestError_Timeout, s))] (mkSuiteMetadata ""%string Category_Unit 1000)].
Definition demo_kernel_main (ok : bool) : outcome (boot_end bool unit BumpHeap) :=
  kernel_main (G := Z) (MP := leaf_mapper) true demo_layout demo_off demo_heap_map (demo_suites ok)
    (mkTState 0 demo_statics).

Lemma boot_sequence_witness :
  exists virt code stack code2 fa st p1 p2 s0,
    demo_kernel_main true = Ret (Boot_calls virt code stack code2 fa st) /\
    NoDup [code; stack; code2] /\ p_id p1 = 1 /\ p_id p2 = 2 /\
    st_sched st = add_process p2 (add_process p1 s0).
Proof.
  assert (Hok : (match demo_kernel_main true with Ret (Boot_calls _ _ _ _ _ _) => true | _ => false end) = true)
    by (lazy; reflexivity).
  destruct (demo_kernel_main true) as [[why st|virt code stack code2 fa st]|] eqn:E; try discriminate Hok.
  destruct (boot_sequence (G := Z) true (MP := leaf_mapper) demo_layout demo_off demo_heap_map (demo_suites true)
    (mkTState 0 demo_statics) (Boot_calls virt code stack code2 fa st))
    as (mp & st1 & rs & s2 & _ & Hrs & _ & heap & p1 & p2 & _ & Hnd & _ & Hs & I1 & I2 & _).
  - exact demo_heap_map_ok.
  - exact demo_boot_tables_ok.
  - reflexivity.
  - simpl. lia.
  - exact E.
  - exists virt, code, stack, code2, fa, st, p1, p2, (st_sched (kernel s2)). split; [reflexivity|].
    split; [|split; [exact I1|split; [exact I2|exact Hs]]].
    apply NoDup_app in Hnd as (_ & _ & Hnd). exact (sublist_NoDup [code; stack; code2] _ Hnd (sublist_inserts_r _ _ _ (reflexivity _))).
Defined.

(** The first program gets its code and its stack.  When both pages have
    been mapped, every address of the page at 4 MiB translates to the code
    frame and every address of the page at 6 MiB to the stack frame, the two
    frames differ, and pages mapped before are still mapped to their frames. *)
Theorem first_program_mapped `{X86AddrLaws} {RT} `{EqDecision RT} (Usable : RT) `{X86FlagsLaws} `{!X86Paging}
    `{!X86PagingLaws} `{!X86Page} `{!X86PageLaws} {MP : Mapper (BootInfoFrameAllocator RT)}
    {ML : MapperLaws (BootInfoFrameAllocator RT) (H2 := BootInfo_FrameAllocator Usable)}
    (mm : list (BootRegion RT)) (k : nat) (cr3 off : Z) (mp : OffsetPageTable) (m m' : mem)
    (fa' : BootInfoFrameAllocator RT) (code stack : Z) :
  memory_map_ok mm -> memory_init cr3 off = Ret mp -> bytes_ok m ->
  map_first_program Usable mp m (mkBootInfoFrameAllocator mm (Z.of_nat k)) = Ret (code, stack, m', fa') ->
  (forall j, 0 <= j < 4096 -> translate_addr cr3 m' (0x400000 + j) off = Ret (Some (code + j)) /\
                              translate_addr cr3 m' (0x600000 + j) off = Ret (Some (stack + j))) /\
  code <> stack /\ (forall a f, backed mp m a f -> backed mp m' a f).
Proof.
  intros Hmm Hi Hm E. unfold map_first_program in E. inv_ret. destruct x as [[c1 m1] fa1]. inv_ret.
  destruct x as [[s1 m2] fa2]. simplify_eq.
  match goal with E : map_user_area _ 0x400000 _ _ _ = _ |- _ => rename E into E1 end.
  match goal with E : map_user_area _ 0x600000 _ _ _ = _ |- _ => rename E into E2 end.
  destruct (map_user_area_inv Usable mm Hmm _ _ _ _ _ _ _ E1) as (F1 & k1 & -> & Hk).
  destruct (map_user_area_inv Usable mm Hmm _ _ _ _ _ _ _ E2) as (F2 & _).
  destruct (map_user_area_maps Usable mm Hmm cr3 off 0x400000 _ _ _ _ _ _ Hi Hm ltac:(unfold LOW_HALF; lia) eq_refl E1)
    as (Hm1 & B1 & R1 & A1 & K1).
  destruct (map_user_area_maps Usable mm Hmm cr3 off 0x600000 _ _ _ _ _ _ Hi Hm1 ltac:(unfold LOW_HALF; lia) eq_refl E2)
    as (Hm2 & B2 & R2 & A2 & K2).
  apply K2 in B1. destruct B1 as (p1 & l1 & Hp1 & Hl1). destruct B2 as (p2 & l2 & Hp2 & Hl2).
  split; [|split; [|by auto]].
  - intros j Hj. split; eapply translate_leaf; try done; lia.
  - intros ->. pose proof (NoDup_usable Usable mm Hmm) as Hn.
    pose proof (proj1 (NoDup_alt _) Hn _ _ _ F1 F2). lia.
Qed.

Lemma first_program_mapped_witness :
  exists code stack m' fa',
    map_first_program true (MP := leaf_mapper) demo_opt demo_boot_tables
      (mkBootInfoFrameAllocator demo_heap_map (Z.of_nat 0)) = Ret (code, stack, m', fa') /\
    translate_addr 0x1000 m' 0x400123 demo_off = Ret (Some (code + 0x123)).
Proof.
  destruct (map_first_program true (MP := leaf_mapper) demo_opt demo_boot_tables
      (mkBootInfoFrameAllocator demo_heap_map (Z.of_nat 0))) as [[[[code stack] m'] fa']|] eqn:E.
  - destruct (first_program_mapped true (MP := leaf_mapper) demo_heap_map 0 0x1000 demo_off demo_opt
      demo_boot_tables m' fa' code stack) as [Ht _].
    + exact demo_heap_map_ok.
    + reflexivity.
    + exact demo_boot_tables_ok.
    + exact E.
    + exists code, stack, m', fa'. split; [reflexivity|]. apply (Ht 0x123). lia.
  - exfalso. assert (Hp : (match map_first_program true (MP := leaf_mapper) demo_opt demo_boot_tables
      (mkBootInfoFrameAllocator demo_heap_map (Z.of_nat 0)) with Ret _ => true | Panic => false end) = true)
      by (lazy; reflexivity).
    rewrite E in Hp. discriminate Hp.
Defined.

(** Should the call of the first program return, [kernel_main] enters user mode
    at 4 MiB with the stack at the end of the page at 6 MiB. *)
Theorem kernel_main_after_call_enters `{X86AddrLaws} {RT Fut HT : Type} (ksp : Z) (st : statics RT Fut HT) :
  40 <= ksp < 2 ^ 64 ->
  exists f t m', kernel_main_after_call kernel_selectors ksp st = Ret (f, t, m') /\
    f_rip f = 0x400000 /\ f_rsp f = 0x601000 /\ f_cs f mod 4 = 3.
Proof.
  intros Hk. unfold kernel_main_after_call.
  rewrite !VirtAddr_new_low, !bind_ret, VirtAddr_add_low, bind_ret by (unfold LOW_HALF; lia).
  destruct (user_mode_entry_facts kernel_selectors ksp 0x400000 (0x600000 + 4096) (st_machine st) (st_timer st)
    (st_mem st)) as [_ Hu]; [unfold is_u64; cbn; lia..|].
  destruct Hu as (f & m' & Ej & R1 & R2 & R3 & _); [split; (lia || reflexivity)|].
  eexists f, _, m'. split; [exact Ej|]. done.
Qed.

(** The bytes of a program are where it was written, and nothing else is
    changed. *)
Theorem write_program_spec `{X86Addr} (off frame virt : Z) (bs : list Z) (m m1 : mem) :
  write_program off frame bs m = Ret (virt, m1) ->
  VirtAddr_add off frame = Ret virt /\
  (forall i b, bs !! i = Some b -> m1 (virt + Z.of_nat i) = b) /\
  (forall x, ~ (virt <= x < virt + Z.of_nat (length bs)) -> m1 x = m x).
Proof.
  intros E. unfold write_program in E. inv_ret. simplify_eq.
  match goal with E : write_volatile_all _ _ _ = _ |- _ => apply write_volatile_all_spec in E as [Hin Hout] end.
  done.
Qed.
